(* ===== verification/_CoqProject ===== *)
-Q . S2P
Prelude.v
CInt.v
XdmaRegs.v
Kernel.v
Resources.v
XdmaBars.v
XdmaEngines.v
XdmaProbe.v
XdmaChar.v
XdmaTheorems.v
XdmaCharTheorems.v
Allocator.v
MemoryManager.v
FpgaController.v
Fpga.v
BenchControl.v
HbmTest.v
TestProgram.v
CpuBench.v
CpuThreads.v
GpuThroughput.v
GpuLatency.v
Clock.v
ClockDomains.v
AxiLite.v
SampleBuffer.v
EngineParams.v
RdEngine.v
WrEngine.v
Channel.v
Crossing.v
System.v
SystemTheorems.v
SamplePath.v
PowerUp.v
HostSystem.v
Bridge.v
Drivers.v
Answers.v
Machine.v
Printed.v
