(* ===== verification/Prelude.v ===== *)
(** * Shuhai: the XDMA driver, the host software and the benchmark hardware

    Shuhai measures the memories of an FPGA card.  A kernel driver brings the
    card up and gives two device nodes to user space; a host library opens
    them, allocates huge pages and writes the registers of the benchmark; two
    test programs, one for the HBM and one for the DDR of the card, configure
    and start it, wait for its end and print what it measured; small CPU and GPU
    programs measure other memories for comparison.  This library models the
    driver, the host software, the hardware of both designs between the bus and
    the memories, and the CPU and GPU programs.

    ** Parts and files

    - [Prelude]: programs with a store that return or stop ([prog], [wp],
      [for_loop]), invariants of the store ([keeps]), arrays of C.  [CInt]: the
      integer types at their widths.
    - The driver, [sw/driver/xdma_driver.c]: [XdmaRegs] (register blocks, bit
      functions), [Kernel] ([struct dev_inst] as the record [dev_inst], the
      kernel store [kstate], the calls [kcall], the kernel's answers
      [KernelEnv]), [Resources] (what a sequence of calls holds, [ledger], and
      which addresses are mapped, [mmio]), [XdmaBars] ([map_bars] and the
      functions it calls), [XdmaEngines] ([probe_engines]), [XdmaProbe]
      ([probe], [remove], MSI, regions, interrupts, init and exit), [XdmaChar]
      (mmap, open, release and the ioctls; numbers from [xdma_ioctl.h]).
      [XdmaTheorems] and [XdmaCharTheorems] hold the properties.
    - The host library, [sw/src/fpga]: [Allocator] (the contract of the memory
      manager, as a class), [MemoryManager] ([MemoryManager.cpp], its
      instance), [FpgaController] ([FpgaController.cpp]: register access,
      [configHBM], [runHBMtest], [readHBMData] and the DDR copies), [Fpga]
      ([Fpga.cpp] and [Configuration.h]).
    - The test programs: [HbmTest] (settings, options and file of
      [hbm_test.cpp] and [ddr_test.cpp], and the calls of the controller) and
      [TestProgram] ([main], with the handle around it, and what program and
      driver make of each other's ioctl arguments).
    - The hardware, [hw/rtl/u280_hbm] and [hw/rtl/u280_ddr], which [design]
      tells apart: [BenchControl] ([xdma_control.sv] as the host sees it, one
      register write at a time, and the parameter registers of
      [hbm_benchmark.sv]); [Clock] (bit vectors, runs of a clocked circuit, what
      eventually happens); [ClockDomains] (circuits with several clocks);
      [AxiLite] ([xdma_control.sv] cycle by cycle) and [SampleBuffer] (what the
      host reads of the latency samples); [EngineParams] (the parameter vector);
      [RdEngine] ([rd_engine.sv]), [WrEngine] ([wr_engine.sv]); [Channel] (the
      registers of [hbm_benchmark.sv] per channel, and [lt_engine.sv] with its
      two engines); [Crossing] (what a channel sees of the bank at the edges of
      its clock); [System] (the top level, [hbm_benchmark.sv]: bank, channels,
      status and sample registers, each on its clock), [SystemTheorems],
      [SamplePath] (from the engine to the queue of the samples), [PowerUp].
    - Host and hardware together: [HostSystem] (the register writes of the test
      programs on the bus of the top level), [Bridge] (the accesses of a processor
      one after the other on the bus, and models of memories), [Answers] (where
      the values that a program reads come from), [Machine] (the environment
      [FpgaEnv] of the test programs, answered by the top level), [Printed] (what
      the programs print then).  [Drivers] has the host and the memories of the
      examples.
    - [CpuBench]: [cpu_benchmark/latency_huge_table.cpp] and the loops of
      [throughput.cpp]; [CpuThreads]: its [main] and its threads.
    - [GpuThroughput], [GpuLatency]: [gpu_benchmark/global_TH.cu] and
      [global_latency.cu], kernels and host functions.

    ** How the code is translated

    A function of the code is a [prog] over the store of its part: it returns
    ([Done]) or stops with a reason ([Halt]): [BUG_ON], a null, dangling or
    unmapped pointer, an index outside an array, other undefined behaviour (of
    signed overflow, for instance), an exception, [exit].  What follows the end of
    a function that lacks its return statement is a parameter ([falls_off], in
    [CpuBench] and [CpuThreads]).  So a theorem with [wp] says that the code returns, and
    what it leaves.  [goto] ladders are functions that call the next label;
    loops are [for_loop], with their own bound, so they need no fuel.  Three
    loops have fuel: the wait for the hardware in [readHBMData]; the loop of a
    GPU thread, which needs one unit more than [N / (16 * stride)], 2049 for the
    sizes of the program; and the loop over numbers of threads in [ReportRow],
    two units, as it has one round.  The theorems on the wait say that every
    amount of fuel from some [n] on (and at least one unit) is enough.  With an
    arbitrary device this needs that the device shows the expected status from
    round [n] of the waiting on ([finishes]); [Machine.machine_finishes] proves
    it for the hardware of this library.

    Hardware is a function from the inputs and the registers of a cycle to the
    registers of the next ([rd_step], [wr_step], [ch_step], [ctl_step]), with one
    definition per branch of a state machine; [sys_step] is one instant of the
    top level, in which the parts take a step whose clock has an edge.  Inputs
    and clocks are arbitrary; a theorem names what it needs of them: [one_run]
    (one start pulse, parameters that stay), [memory] (addresses are accepted
    and answered eventually, in any number of cycles), [ch_run], [master] (a
    master of the bus takes its responses), [keeps_up] (the clock of the memory
    is not the slower one), [similar_memories] (three periods of the clock of one
    DDR memory span two edges of the other's; otherwise a channel may clear the end
    flag of another), [operating] (power-up is over, see [PowerUp]).  So
    the liveness theorems hold for every speed of the memory and of the host,
    and no number of cycles is chosen.

    The threads of [throughput.cpp] interleave access by access ([step], a
    relation); its theorems hold for every schedule.  The threads of a GPU launch
    run one after the other in an order that is an argument: they share only
    what they overwrite at their end.

    What is not in the repository answers through a class of functions of the
    history: [KernelEnv] for the kernel and the card, [FpgaEnv] for the
    operating system and the mapped registers.  Most theorems hold for every
    answer; where one is assumed it is named: [WorkingOs], [finishes],
    [buffer_answers] (at least one page is pinned), [runnable].  Every call and register access is logged in
    order, so the theorems can say what was released, and where a register
    write went.  The kernel's and the user's memory are separate; concurrent
    calls of the driver are not modelled, as the driver itself has no lock for
    them; in the host library the lock of the controller is in the log.

    ** What the theorems show

    - Bring-up and tear-down ([probe_success], [probe_failure],
      [probe_remove_balanced], [probe_register_accesses],
      [map_bars_maps_or_undoes], [identify_bars_layout],
      [probe_engines_lowest]): [probe] returns on every path; on success the
      instance has the properties of [probed]; on failure exactly [leak]
      remains; register accesses stay in live mappings; [remove] gives back what
      [probe] took.
    - Device nodes ([buffer_roundtrip], [buffer_set_functional],
      [mapping_get_functional], [mmap_within_bar]): the ioctls pin, report and
      release the buffer, on an instance that is allocated (that of [xdma_open] is
      not), and what BUFFER_SET does with an error of the kernel; mmap stays in its
      BAR.
    - Memory manager ([manager_refines_allocator], [allocate_first_fit]): every
      run refines the abstract allocator; first fit, also when the weak
      compare-and-exchange fails by chance; fragmentation.
    - Host programs ([main_complete], [initialize_ready],
      [test_starts_engines], [configure_typed]): the whole program returns and
      gives everything back; the register writes start the right engines with
      the right parameters; settings keep their types.
    - Engines and channels ([rd_run_completes], [wr_run_completes],
      [wr_beats_exact], [rd_throughput_addresses], [rd_full_speed_addresses],
      [rd_addresses_in_group], [started_engines_finish]): started engines perform their operations and
      report, with the addresses and beats they should, or nearly.
    - The top level ([axil_writes_refine], [system_starts_engines],
      [resets_lead_to_operation]): the registers on their bus and the channels on
      their clocks implement the register bank that the host programs are proved
      against; the resets lead there from any content of the registers, whether a
      memory is locked before or after the register bank has its defaults (in the
      first case the bank holds the zeros that the FPGA is configured with).
    - The latency samples ([host_latency_samples], [latency_samples_buffered],
      [latency_samples_read_back]): from the engine of the selected channel to the
      queue, from there to the buffer, and from the buffer to register 16.
    - Everything together ([host_program_finishes], [printed_cycles_measured]):
      the writes of a test program lead to the status that it waits for; [main]
      on the modelled hardware returns and prints the cycles that the engines
      counted.
    - CPU benchmarks ([throughput_main_overflows], [threads_read_alone],
      [measured_together], [latency_chain]): threads measure together and compute
      what they compute alone, but the sums of the program overflow, in its first
      session when its array was zero; the pointer chase and all that is written.
    - GPU benchmarks ([launch_reads_each_once], [bandwidth_counts_reads],
      [gpu_main_runs], [gpu_latency_chain]): each launch reads its share of the
      array once, which is what the bandwidth is computed from; the program returns.
    - Theorems without a number give the exact behaviour where the code does not
      do what it means to: which input it takes and what happens.

    ** Not modelled

    Of the hardware: the cores of the vendor and the wires between them alone
    ([xdma_app.v], most of [hbm_benchmark.sv]): the controllers of the memories,
    the DMA core with the bus, the clock managers, the queue and the memory of
    the latency samples.  What they show is an input, and what is needed of it is
    a named hypothesis: [memory], [master], [ram_reads] for the memory of the
    samples, and, for a whole program, the bridge of [Bridge], which makes one
    access after the other.  The outputs with a constant value are left out.  The
    source has no synchroniser between its clocks; a register takes one of the
    two values of a changing signal, and that it may be neither for a while is
    not modelled.  [start_r] of the HBM is written by every channel with the same
    value and is kept per channel.  Of the programs: option parsing (its result
    is an argument), printing other than the measured values, the words of the
    array of [throughput.cpp] that it does not write and how it finds the
    processors (both are parameters), the frequency that [latency_huge_table.cpp] measures and
    prints, floating point (a bandwidth is kept as the numbers it is computed
    from); prototypes, includes and the macros of [repeat.h], which nothing uses;
    build files and scripts. *)

From stdpp Require Import base gmap list numbers.
Open Scope Z_scope.

(** ** Imperative programs *)

(** Why an execution stops without returning. *)
Inductive stop : Type :=
  | BugOn                (* BUG_ON(...) fired *)
  | NullDeref            (* access through a NULL pointer *)
  | WildAccess           (* access to memory that is not (or no longer) allocated *)
  | OutOfBounds          (* array access outside the array *)
  | Undefined            (* other undefined behaviour of the C language *)
  | Thrown               (* an exception leaves the function *)
  | Exited (code : Z)    (* exit(code) *)
  | OutOfFuel.           (* the model's loop bound was reached *)

Inductive outcome (A : Type) : Type :=
  | Done (a : A)
  | Halt (r : stop).
Arguments Done {A} a.
Arguments Halt {A} r.

#[export] Instance stop_eq_dec : EqDecision stop.
Proof. solve_decision. Defined.
#[export] Instance outcome_eq_dec `{EqDecision A} : EqDecision (outcome A).
Proof. solve_decision. Defined.

(** A program over a store [S]: it returns or halts, and leaves a store. *)
Definition prog (S A : Type) : Type := S -> outcome A * S.

Section Prog.
Context {S : Type}.

Definition pret {A} (a : A) : prog S A := fun s => (Done a, s).
Definition pbind {A B} (m : prog S A) (k : A -> prog S B) : prog S B :=
  fun s => match m s with
           | (Done a, s1) => k a s1
           | (Halt r, s1) => (Halt r, s1)
           end.
Definition halt {A} (r : stop) : prog S A := fun s => (Halt r, s).
Definition get_state : prog S S := fun s => (Done s, s).
Definition modify_state (f : S -> S) : prog S unit := fun s => (Done tt, f s).
Definition require (b : bool) (r : stop) : prog S unit :=
  if b then pret tt else halt r.

(** [a[idx]] and [a[idx] = v] for an array in C. *)
Definition nth_get {A} (l : list A) (idx : Z) : prog S A :=
  if idx <? 0 then halt OutOfBounds
  else match l !! Z.to_nat idx with
       | Some v => pret v
       | None => halt OutOfBounds
       end.
Definition nth_set {A} (l : list A) (idx : Z) (v : A) : prog S (list A) :=
  if (0 <=? idx) && (idx <? Z.of_nat (length l))
  then pret (<[Z.to_nat idx := v]> l) else halt OutOfBounds.
(** Reading a variable that may not have been initialised. *)
Definition init_get {A} (v : option A) : prog S A :=
  match v with Some a => pret a | None => halt Undefined end.

(** [for (i = i0; i < i0 + n; i++) body] with local variables [l]: the body
    goes on with [inl l'] or leaves the function early with [inr result]
    ([return], [goto]). *)
Fixpoint for_loop {L R} (n : nat) (i : Z) (l : L)
    (body : Z -> L -> prog S (L + R)) : prog S (L + R) :=
  match n with
  | O => pret (inl l)
  | Datatypes.S n' =>
      pbind (body i l) (fun o => match o with
                                 | inl l1 => for_loop n' (i + 1) l1 body
                                 | inr r => pret (inr r)
                                 end)
  end.

(** Total correctness: the program returns, and its result satisfies [Q]. *)
Definition wp {A} (m : prog S A) (Q : A -> S -> Prop) (s : S) : Prop :=
  match m s with
  | (Done a, s1) => Q a s1
  | (Halt _, _) => False
  end.
End Prog.

Declare Scope c_scope.
Delimit Scope c_scope with C.
Notation "'let*' x ':=' m 'in' k" := (pbind m (fun x => k))
  (at level 100, x pattern, m at level 99, k at level 200, right associativity) : c_scope.
Notation "m ;; k" := (pbind m (fun _ => k))
  (at level 100, k at level 200, right associativity) : c_scope.
Open Scope c_scope.

Lemma flat_map_ext_in {A B} (f g : A -> list B) l :
  (forall x, x ∈ l -> f x = g x) -> flat_map f l = flat_map g l.
Proof.
  induction l as [|x l IH]; intros Hfg; [done|]. cbn.
  rewrite Hfg by (by left). f_equal. apply IH. intros y Hy. apply Hfg. by right.
Qed.

Lemma nth_get_ok {S A} (l : list A) idx v :
  0 <= idx -> l !! Z.to_nat idx = Some v -> nth_get (S := S) l idx = pret v.
Proof. intros ? E. unfold nth_get. rewrite E. by destruct (Z.ltb_spec idx 0); [lia|]. Qed.

Lemma nth_set_ok {S A} (l : list A) idx v :
  0 <= idx < Z.of_nat (length l) ->
  nth_set (S := S) l idx v = pret (<[Z.to_nat idx := v]> l).
Proof.
  intros ?. unfold nth_set.
  by rewrite (proj2 (Z.leb_le _ _)), (proj2 (Z.ltb_lt _ _)) by lia.
Qed.

Lemma pbind_ret {S A B} (a : A) (k : A -> prog S B) : pbind (pret a) k = k a.
Proof. done. Qed.

Lemma pbind_halt {S A B} (m : prog S A) (k : A -> prog S B) s r :
  fst (m s) = Halt r -> fst (pbind m k s) = Halt r.
Proof. unfold pbind. destruct (m s) as [[a|r1] s1]; cbn; by intros [= ->]. Qed.

(** What a program does first returns, and then it stops. *)
Lemma stops_bind {S A B} (m : prog S A) (k : A -> prog S B) a s s1 r :
  wp m (fun v t => v = a /\ t = s1) s -> fst (k a s1) = Halt r -> fst (pbind m k s) = Halt r.
Proof. unfold wp, pbind. destruct (m s) as [[v|] t]; [|done]. by intros [-> ->]. Qed.

Section WpRules.
Context {S : Type}.
Implicit Type s : S.

Lemma wp_ret {A} (a : A) (Q : A -> S -> Prop) s : Q a s -> wp (pret a) Q s.
Proof. done. Qed.

Lemma wp_bind {A B} (m : prog S A) (k : A -> prog S B) Q s :
  wp m (fun a => wp (k a) Q) s -> wp (pbind m k) Q s.
Proof. unfold wp, pbind. by destruct (m s) as [[a|r] s1]. Qed.

Lemma wp_ret_r (m : prog S unit) (Q : unit -> S -> Prop) s :
  wp (pbind m (fun _ => pret tt)) Q s -> wp m Q s.
Proof. unfold wp, pbind, pret. by destruct (m s) as [[[]|r] s1]. Qed.

(** A rule for a program in front of another one serves for its last call. *)
Lemma wp_bind_ret {A} (m : prog S A) (Q : A -> S -> Prop) s :
  wp (pbind m pret) Q s = wp m Q s.
Proof. unfold wp, pbind, pret. by destruct (m s) as [[a|r] s1]. Qed.

Lemma wp_mono {A} (m : prog S A) (P Q : A -> S -> Prop) s :
  wp m P s -> (forall a s1, P a s1 -> Q a s1) -> wp m Q s.
Proof. unfold wp. destruct (m s) as [[a|r] s1]; eauto. Qed.

Lemma wp_run {A} (m : prog S A) (Q : A -> S -> Prop) s :
  wp m Q s <-> exists a s1, m s = (Done a, s1) /\ Q a s1.
Proof.
  unfold wp. destruct (m s) as [[a|r] s1]; split.
  - eauto.
  - by intros (? & ? & [= <- <-] & ?).
  - done.
  - by intros (? & ? & ? & ?).
Qed.

Lemma wp_modify (f : S -> S) (Q : unit -> S -> Prop) s :
  Q tt (f s) -> wp (modify_state f) Q s.
Proof. done. Qed.

Lemma wp_get (Q : S -> S -> Prop) s : Q s s -> wp get_state Q s.
Proof. done. Qed.

Lemma wp_require b r (Q : unit -> S -> Prop) s :
  b = true -> Q tt s -> wp (require b r) Q s.
Proof. by intros ->. Qed.

(** Loop rule: [I i l s] holds before iteration [i]. *)
Lemma wp_for_loop {L R} (I : Z -> L -> S -> Prop) (Q : L + R -> S -> Prop)
    (body : Z -> L -> prog S (L + R)) n i l s :
  I i l s ->
  (forall j m t, i <= j < i + Z.of_nat n -> I j m t ->
     wp (body j m) (fun o t1 => match o with
                                | inl m1 => I (j + 1) m1 t1
                                | inr r => Q (inr r) t1
                                end) t) ->
  (forall m t, I (i + Z.of_nat n) m t -> Q (inl m) t) ->
  wp (for_loop n i l body) Q s.
Proof.
  revert i l s. induction n as [|n IH]; intros i l s HI Hbody Hend; cbn [for_loop].
  - apply wp_ret, Hend. by replace (i + Z.of_nat 0) with i by lia.
  - apply wp_bind. eapply wp_mono; [apply Hbody; [lia|done]|].
    intros [m|r] t Ht; [|by apply wp_ret].
    apply IH; [done| |].
    + intros j m1 t1 Hj. apply Hbody. lia.
    + intros m1 t1.
      replace (i + 1 + Z.of_nat n) with (i + Z.of_nat (Datatypes.S n)) by lia.
      apply Hend.
Qed.

(** A loop whose body stops at iteration [i + k] stops. *)
Lemma for_loop_halts {L R} (I : Z -> L -> S -> Prop) (body : Z -> L -> prog S (L + R))
    n k i l s r :
  (k < n)%nat -> I i l s ->
  (forall j m t, i <= j < i + Z.of_nat k -> I j m t ->
     wp (body j m) (fun o t1 => exists m1, o = inl m1 /\ I (j + 1) m1 t1) t) ->
  (forall m t, I (i + Z.of_nat k) m t -> fst (body (i + Z.of_nat k) m t) = Halt r) ->
  fst (for_loop n i l body s) = Halt r.
Proof.
  revert n i l s. induction k as [|k IH]; intros [|n] i l s Hk HI Hbody Hend; try lia;
    cbn [for_loop].
  - apply pbind_halt. specialize (Hend l s). rewrite Z.add_0_r in Hend. auto.
  - specialize (Hbody i l s) as Hb. unfold wp in Hb. unfold pbind.
    destruct (body i l s) as [[o|] t1]; [|destruct Hb; [lia|done]].
    destruct Hb as (m1 & -> & Hm1); [lia|done|].
    apply (IH n (i + 1)); [lia|done| |].
    + intros j m t Hj. apply Hbody. lia.
    + intros m t. replace (i + 1 + Z.of_nat k) with (i + Z.of_nat (Datatypes.S k)) by lia.
      apply Hend.
Qed.
End WpRules.

(** ** Invariants of the store *)

(** [m] keeps [P], whether it returns or stops. *)
Definition keeps {S A} (P : S -> Prop) (m : prog S A) : Prop := forall s, P s -> P (snd (m s)).

Create HintDb keeps.

Section Keeps.
Context {S : Type} (P : S -> Prop).

Lemma keeps_pure {A} (m : prog S A) : (forall s, snd (m s) = s) -> keeps P m.
Proof. intros E s. by rewrite E. Qed.

Lemma keeps_ret {A} (a : A) : keeps P (pret a).
Proof. by apply keeps_pure. Qed.

Lemma keeps_halt {A} r : keeps P (halt (A := A) r).
Proof. by apply keeps_pure. Qed.

Lemma keeps_get : keeps P get_state.
Proof. by apply keeps_pure. Qed.

Lemma keeps_require b r : keeps P (require b r).
Proof. by destruct b; apply keeps_pure. Qed.

Lemma keeps_nth_get {A} (l : list A) i : keeps P (nth_get l i).
Proof. apply keeps_pure. intros s. unfold nth_get. destruct (_ <? _); [done|]. by destruct (_ !! _). Qed.

Lemma keeps_nth_set {A} (l : list A) i v : keeps P (nth_set l i v).
Proof. apply keeps_pure. intros s. unfold nth_set. by destruct (_ && _). Qed.

Lemma keeps_init_get {A} (v : option A) : keeps P (init_get v).
Proof. by destruct v; apply keeps_pure. Qed.

Lemma keeps_modify f : (forall s, P s -> P (f s)) -> keeps P (modify_state f).
Proof. done. Qed.

Lemma keeps_bind {A B} (m : prog S A) (k : A -> prog S B) :
  keeps P m -> (forall a, keeps P (k a)) -> keeps P (pbind m k).
Proof.
  intros Hm Hk s Hs. specialize (Hm s Hs). unfold pbind.
  destruct (m s) as [[a|r] s1]; [by apply Hk|done].
Qed.

Lemma keeps_for {L R} n i (l : L) (body : Z -> L -> prog S (L + R)) :
  (forall j l1, keeps P (body j l1)) -> keeps P (for_loop n i l body).
Proof.
  intros Hb. revert i l. induction n as [|n IH]; intros i l; cbn [for_loop]; [apply keeps_ret|].
  apply keeps_bind; [done|]. intros [l1|r]; [apply IH|apply keeps_ret].
Qed.

(** The invariant holds in the end too. *)
Lemma wp_keeps {A} (m : prog S A) (Q : A -> S -> Prop) s :
  keeps P m -> P s -> wp m Q s -> wp m (fun a s1 => Q a s1 /\ P s1) s.
Proof. intros Hm Hs. specialize (Hm s Hs). unfold wp. destruct (m s) as [[a|r] s1]; [by split|done]. Qed.
End Keeps.

#[export] Hint Resolve keeps_ret keeps_halt keeps_get keeps_require keeps_nth_get keeps_nth_set
  keeps_init_get keeps_bind keeps_for : keeps.
