(* ===== verification/CInt.v ===== *)
(** * C integers at their width

    Unsigned types wrap modulo [2^w]; conversions to a signed type take the
    two's complement value (gcc).  Masks and shifts are the [Z] bit
    operations; the lemmas below turn them into arithmetic that [lia] solves. *)

From stdpp Require Import base numbers.
From S2P Require Import Prelude.
Open Scope Z_scope.

Definition u8 (x : Z) : Z := x mod 2 ^ 8.
Definition u16 (x : Z) : Z := x mod 2 ^ 16.
Definition u32 (x : Z) : Z := x mod 2 ^ 32.
Definition u64 (x : Z) : Z := x mod 2 ^ 64.
Definition s32 (x : Z) : Z := (x + 2 ^ 31) mod 2 ^ 32 - 2 ^ 31.

Definition INT_MAX : Z := 2 ^ 31 - 1.

(** [BIT(n)] of <linux/bits.h>. *)
Definition BIT (n : Z) : Z := Z.shiftl 1 n.

(** An [int] result; overflow is undefined. *)
Definition int_result {S} (x : Z) : prog S Z :=
  if (- 2 ^ 31 <=? x) && (x <=? INT_MAX) then pret x else halt Undefined.

Create HintDb cint.
Create Rewrite HintDb cint.

Lemma u32_small x : 0 <= x < 2 ^ 32 -> u32 x = x.
Proof. apply Z.mod_small. Qed.
Lemma u32_range x : 0 <= u32 x < 2 ^ 32.
Proof. by apply Z.mod_pos_bound. Qed.
Lemma u32_u32 x : u32 (u32 x) = u32 x.
Proof. apply u32_small, u32_range. Qed.
Lemma u64_small x : 0 <= x < 2 ^ 64 -> u64 x = x.
Proof. apply Z.mod_small. Qed.
Lemma u64_range x : 0 <= u64 x < 2 ^ 64.
Proof. by apply Z.mod_pos_bound. Qed.
Lemma u64_u64 x : u64 (u64 x) = u64 x.
Proof. apply u64_small, u64_range. Qed.
Lemma s32_small x : - 2 ^ 31 <= x < 2 ^ 31 -> s32 x = x.
Proof. intros. unfold s32. rewrite Z.mod_small; lia. Qed.
Lemma s32_range x : - 2 ^ 31 <= s32 x < 2 ^ 31.
Proof. unfold s32. pose proof (Z.mod_pos_bound (x + 2 ^ 31) (2 ^ 32)). lia. Qed.
#[export] Hint Rewrite u32_u32 u64_u64 : cint.
#[export] Hint Rewrite u32_small u64_small s32_small using lia : cint.
#[export] Hint Resolve u32_range u64_range s32_range : cint.

(** A mask of [k] low bits is a remainder. *)
Lemma land_mask x m k : 0 <= k -> m = Z.ones k -> Z.land x m = x mod 2 ^ k.
Proof. intros ? ->. by apply Z.land_ones. Qed.

(** Two disjoint fields put together with [|] are a sum. *)
Lemma lor_fields hi lo k :
  0 <= k -> 0 <= lo < 2 ^ k -> Z.lor (Z.shiftl hi k) lo = hi * 2 ^ k + lo.
Proof.
  intros Hk Hlo. rewrite <- (Z.shiftl_mul_pow2 hi k Hk).
  rewrite <- Z.lxor_lor; [rewrite <- Z.add_nocarry_lxor; [done|]|];
    (apply Z.bits_inj'; intros n Hn; rewrite Z.land_spec, Z.bits_0, Z.shiftl_spec by done;
     destruct (Z.ltb_spec n k);
     [rewrite (Z.testbit_neg_r hi) by lia; done|
      rewrite <- (Z.mod_small lo (2 ^ k)) by done;
      rewrite Z.mod_pow2_bits_high by lia; apply andb_false_r]).
Qed.

(** A field of [k] bits at position [n] of [x], after masking and shifting. *)
Lemma mask_shiftr x m n k :
  0 <= n -> 0 <= k -> m = Z.shiftl (Z.ones k) n ->
  Z.shiftr (Z.land x m) n = (x / 2 ^ n) mod 2 ^ k.
Proof.
  intros Hn Hk ->.
  rewrite Z.shiftr_land, Z.shiftr_shiftl_l, Z.sub_diag, Z.shiftl_0_r by lia.
  by rewrite Z.land_ones, Z.shiftr_div_pow2.
Qed.

(** Evaluate the powers of two that are constants, for [lia]. *)
Ltac pow2_consts :=
  repeat match goal with
         | |- context [2 ^ ?k] => let v := eval vm_compute in (2 ^ k) in change (2 ^ k) with v
         | H : context [2 ^ ?k] |- _ =>
             let v := eval vm_compute in (2 ^ k) in change (2 ^ k) with v in H
         end.

(** Division and remainder by constants, by [lia]. *)
Ltac zdivmod := pow2_consts; Z.to_euclidean_division_equations; lia.

(** Index of a page, of a word: rounding up to a multiple. *)
Lemma round_up_spec x m :
  0 < m -> x <= (x + (m - 1)) / m * m < x + m /\ ((x + (m - 1)) / m * m) mod m = 0.
Proof.
  intros Hm. split; [|by rewrite Z.mod_mul by lia].
  pose proof (Z.div_mod (x + (m - 1)) m ltac:(lia)).
  pose proof (Z.mod_pos_bound (x + (m - 1)) m Hm). lia.
Qed.

Lemma int_result_ok {S} x : - 2 ^ 31 <= x <= INT_MAX -> int_result (S := S) x = pret x.
Proof.
  intros Hx. unfold int_result. by rewrite (proj2 (Z.leb_le _ _)), (proj2 (Z.leb_le x _)) by lia.
Qed.
