(* ===== verification/XdmaRegs.v ===== *)
(** * Registers of the XDMA core and the driver's bit utilities

    The constants, the packed register blocks and the pure helpers of
    [sw/driver/xdma_driver.c].  A register block is the list of its fields
    with the number of 32-bit words of each, in the order of the C struct;
    [offsetof] and [sizeof] are computed from it. *)

From stdpp Require Import base strings list numbers.
From S2P Require Import Prelude CInt.
Open Scope Z_scope.

(** ** Constants *)

Definition XDMA_CHANNEL_NUM_MAX : Z := 4.
Definition MAX_NUM_ENGINES : Z := XDMA_CHANNEL_NUM_MAX * 2.
Definition C2H_CHANNEL_OFFSET : Z := 0x0000.
Definition H2C_CHANNEL_OFFSET : Z := 0x1000.
Definition CHANNEL_SPACING : Z := 0x100.
Definition MAX_USER_IRQ : Z := 16.
Definition XDMA_BAR_NUM : Z := 6.
Definition XDMA_BAR_SIZE : Z := 0x8000.
Definition IRQ_BLOCK_ID : Z := 0x1fc20000.
Definition CONFIG_BLOCK_ID : Z := 0x1fc30000.
Definition XDMA_ID_H2C : Z := 0x1fc0.
Definition XDMA_ID_C2H : Z := 0x1fc1.
Definition XDMA_OFS_INT_CTRL : Z := 0x2000.
Definition XDMA_OFS_CONFIG : Z := 0x3000.

(** x86-64 page size, and the Linux error numbers the driver returns. *)
Definition PAGE_SHIFT : Z := 12.
Definition PAGE_SIZE : Z := 2 ^ PAGE_SHIFT.
Definition EAGAIN : Z := 11.
Definition EACCES : Z := 13.
Definition EFAULT : Z := 14.
Definition ENODEV : Z := 19.
Definition EINVAL : Z := 22.

Definition PCI_DMA_H (addr : Z) : Z := Z.shiftr (Z.shiftr addr 16) 16.
Definition PCI_DMA_L (addr : Z) : Z := Z.land addr 0xffffffff.

(** ** Packed blocks of 32-bit words *)

Definition layout : Type := list (string * Z).

Fixpoint words (l : layout) : Z :=
  match l with
  | [] => 0
  | (_, n) :: l' => n + words l'
  end.

Definition sizeof (l : layout) : Z := 4 * words l.

Fixpoint offsetof (l : layout) (f : string) : option Z :=
  match l with
  | [] => None
  | (g, n) :: l' => if String.eqb f g then Some 0
                    else (fun o => 4 * n + o) <$> offsetof l' f
  end.

(** Address of field [f] of the block of layout [l] at [base]. *)
Definition reg (l : layout) (base : Z) (f : string) : Z :=
  base + default 0 (offsetof l f).
Arguments offsetof l f%_string.
Arguments reg l base f%_string.

Definition xdma_desc : layout :=
  [("control", 1); ("bytes", 1);
   ("src_addr_lo", 1); ("src_addr_hi", 1);
   ("dst_addr_lo", 1); ("dst_addr_hi", 1);
   ("next_lo", 1); ("next_hi", 1)]%string.

Definition DESC_PER_PAGE : Z := PAGE_SIZE / sizeof xdma_desc.

Definition xdma_result : layout :=
  [("status", 1); ("length", 1); ("reserved_1", 6)]%string.

Definition RESULTS_PER_PAGE : Z := PAGE_SIZE / sizeof xdma_result.

Definition engine_regs : layout :=
  [("identifier", 1); ("control", 1); ("control_w1s", 1); ("control_w1c", 1);
   ("reserved_1", 12);
   ("status", 1); ("status_rc", 1); ("completed_desc_count", 1); ("alignments", 1);
   ("reserved_2", 14);
   ("poll_mode_wb_lo", 1); ("poll_mode_wb_hi", 1);
   ("interrupt_enable_mask", 1); ("interrupt_enable_mask_w1s", 1);
   ("interrupt_enable_mask_w1c", 1);
   ("reserved_3", 9);
   ("perf_ctrl", 1); ("perf_cyc_lo", 1); ("perf_cyc_hi", 1);
   ("perf_dat_lo", 1); ("perf_dat_hi", 1); ("perf_pnd_lo", 1); ("perf_pnd_hi", 1)]%string.

Definition engine_sgdma_regs : layout :=
  [("identifier", 1); ("reserved_1", 31);
   ("first_desc_lo", 1); ("first_desc_hi", 1);
   ("first_desc_adjacent", 1); ("credits", 1)]%string.

Definition interrupt_regs : layout :=
  [("identifier", 1); ("user_int_enable", 1); ("user_int_enable_w1s", 1);
   ("user_int_enable_w1c", 1); ("channel_int_enable", 1);
   ("channel_int_enable_w1s", 1); ("channel_int_enable_w1c", 1);
   ("reserved_1", 9);
   ("user_int_request", 1); ("channel_int_request", 1);
   ("user_int_pending", 1); ("channel_int_pending", 1);
   ("reserved_2", 12);
   ("user_msi_vector", 8); ("channel_msi_vector", 8)]%string.

Definition config_regs : layout :=
  [("identifier", 1); ("reserved_1", 4); ("msi_enable", 1)]%string.

(** ** Bit utilities *)

Definition build_u32 (hi lo : Z) : Z :=
  u32 (Z.lor (Z.shiftl (Z.land hi 0xFFFF) 16) (Z.land lo 0xFFFF)).

Definition build_u64 (hi lo : Z) : Z :=
  u64 (Z.lor (Z.shiftl (Z.land hi 0xFFFFFFF) 32) (Z.land lo 0xFFFFFFFF)).

Definition build_vector_reg (a b c d : Z) : Z :=
  let reg_val := 0 in
  let reg_val := Z.lor reg_val (Z.shiftl (Z.land a 0x1f) 0) in
  let reg_val := Z.lor reg_val (Z.shiftl (Z.land b 0x1f) 8) in
  let reg_val := Z.lor reg_val (Z.shiftl (Z.land c 0x1f) 16) in
  let reg_val := Z.lor reg_val (Z.shiftl (Z.land d 0x1f) 24) in
  u32 reg_val.

(** ** Their arithmetic meaning *)

Lemma build_u32_arith hi lo :
  build_u32 hi lo = (hi mod 2 ^ 16) * 2 ^ 16 + lo mod 2 ^ 16.
Proof.
  unfold build_u32. rewrite !(land_mask _ 0xFFFF 16) by done.
  rewrite lor_fields by (try lia; by apply Z.mod_pos_bound).
  apply u32_small. zdivmod.
Qed.

Lemma build_u64_arith hi lo :
  build_u64 hi lo = (hi mod 2 ^ 28) * 2 ^ 32 + lo mod 2 ^ 32.
Proof.
  unfold build_u64.
  rewrite (land_mask _ 0xFFFFFFF 28), (land_mask _ 0xFFFFFFFF 32) by done.
  rewrite lor_fields by (try lia; by apply Z.mod_pos_bound).
  apply u64_small. zdivmod.
Qed.

Lemma build_vector_reg_arith a b c d :
  build_vector_reg a b c d =
    a mod 32 + (b mod 32) * 2 ^ 8 + (c mod 32) * 2 ^ 16 + (d mod 32) * 2 ^ 24.
Proof.
  unfold build_vector_reg. cbv zeta.
  rewrite !(land_mask _ 0x1f 5) by done.
  change (2 ^ 5) with 32. rewrite Z.lor_0_l, Z.shiftl_0_r.
  rewrite (Z.lor_comm (a mod 32)), lor_fields by zdivmod.
  rewrite (Z.lor_comm _ (Z.shiftl (c mod 32) 16)), lor_fields by zdivmod.
  rewrite (Z.lor_comm _ (Z.shiftl (d mod 32) 24)), lor_fields by zdivmod.
  rewrite u32_small by zdivmod. lia.
Qed.

Lemma PCI_DMA_H_arith addr : PCI_DMA_H addr = addr / 2 ^ 32.
Proof. unfold PCI_DMA_H. by rewrite Z.shiftr_shiftr, Z.shiftr_div_pow2. Qed.

Lemma PCI_DMA_L_arith addr : PCI_DMA_L addr = addr mod 2 ^ 32.
Proof. unfold PCI_DMA_L. by rewrite (land_mask _ _ 32). Qed.
