(* ===== verification/Kernel.v ===== *)
(** * The driver's instance record and the kernel it runs on

    [dev_inst] is the driver-private record; instances live in the kernel
    heap [k_heap] at the address [kzalloc] returned, so a use after [kfree]
    is visible.  Every call of a kernel service appends a [kcall] to the
    trace.  What the service answers is not part of the driver: it is the
    class [KernelEnv], each answer a function of the trace so far. *)

From stdpp Require Import base gmap list strings numbers.
From S2P Require Import Prelude CInt XdmaRegs.
Open Scope Z_scope.

(** ** Data *)

(** struct dev_inst.  Pointers are addresses, NULL is 0.  [cdev] and
    [cdevno_base] are never initialised and have no field here. *)
Record dev_inst : Type := DevInst {
  magic : Z;
  pci_dev : Z;
  instance : Z;
  bar : list Z;
  user_bar_idx : Z;
  config_bar_idx : Z;
  bypass_bar_idx : Z;
  regions_in_use : Z;
  got_regions : Z;
  irq_count : Z;
  irq_line : Z;
  msi_enabled : Z;
  msix_enabled : Z;
  entry : list Z;
  h2c_count : Z;
  c2h_count : Z;
  h2c_engine : Z;
  c2h_engine : Z;
  h2c_regs : Z;
  c2h_regs : Z;
  huge_user_addr : Z;
  huge_size : Z;
  huge_npages : Z;
  huge_hnpages : Z;
  huge_pages : Z;
  desc_bypass_enabled : bool;
  open_count : Z;
}.

(** kzalloc'ed: all fields 0. *)
Definition zeroed_dev_inst : dev_inst :=
  {| magic := 0; pci_dev := 0; instance := 0;
     bar := replicate (Z.to_nat XDMA_BAR_NUM) 0;
     user_bar_idx := 0; config_bar_idx := 0; bypass_bar_idx := 0;
     regions_in_use := 0; got_regions := 0;
     irq_count := 0; irq_line := 0; msi_enabled := 0; msix_enabled := 0;
     entry := replicate 32 0;
     h2c_count := 0; c2h_count := 0; h2c_engine := 0; c2h_engine := 0;
     h2c_regs := 0; c2h_regs := 0;
     huge_user_addr := 0; huge_size := 0; huge_npages := 0; huge_hnpages := 0;
     huge_pages := 0; desc_bypass_enabled := false; open_count := 0 |}.

(** Field update: [record_set r f v] rebuilds [r] with [v] for field [f]. *)
Definition eta_dev_inst (r : dev_inst) : dev_inst :=
  DevInst (magic r) (pci_dev r) (instance r) (bar r) (user_bar_idx r)
    (config_bar_idx r) (bypass_bar_idx r) (regions_in_use r) (got_regions r)
    (irq_count r) (irq_line r) (msi_enabled r) (msix_enabled r) (entry r)
    (h2c_count r) (c2h_count r) (h2c_engine r) (c2h_engine r) (h2c_regs r)
    (c2h_regs r) (huge_user_addr r) (huge_size r) (huge_npages r)
    (huge_hnpages r) (huge_pages r) (desc_bypass_enabled r) (open_count r).

Class FieldSet {R T : Type} (proj : R -> T) := set_field : T -> R -> R.

Ltac field_set proj :=
  let v := fresh "v" in let r := fresh "r" in
  intros v r;
  let e := eval cbv delta [eta_dev_inst] beta in (eta_dev_inst r) in
  let p := eval pattern (proj r) in e in
  match p with ?F _ => let t := eval cbv beta in (F v) in exact t end.

#[warnings="-postfix-notation-not-level-1"]
Notation "r <| f := v |>" := (set_field (proj := f) v r)
  (at level 12, left associativity, f at level 9, v at level 99) : c_scope.

#[export] Instance set_pci_dev : FieldSet pci_dev. Proof. field_set pci_dev. Defined.
#[export] Instance set_bar : FieldSet bar. Proof. field_set bar. Defined.
#[export] Instance set_user_bar_idx : FieldSet user_bar_idx.
Proof. field_set user_bar_idx. Defined.
#[export] Instance set_config_bar_idx : FieldSet config_bar_idx.
Proof. field_set config_bar_idx. Defined.
#[export] Instance set_bypass_bar_idx : FieldSet bypass_bar_idx.
Proof. field_set bypass_bar_idx. Defined.
#[export] Instance set_regions_in_use : FieldSet regions_in_use.
Proof. field_set regions_in_use. Defined.
#[export] Instance set_got_regions : FieldSet got_regions.
Proof. field_set got_regions. Defined.
#[export] Instance set_irq_line : FieldSet irq_line. Proof. field_set irq_line. Defined.
#[export] Instance set_msi_enabled : FieldSet msi_enabled.
Proof. field_set msi_enabled. Defined.
#[export] Instance set_msix_enabled : FieldSet msix_enabled.
Proof. field_set msix_enabled. Defined.
#[export] Instance set_entry : FieldSet entry. Proof. field_set entry. Defined.
#[export] Instance set_h2c_count : FieldSet h2c_count. Proof. field_set h2c_count. Defined.
#[export] Instance set_c2h_count : FieldSet c2h_count. Proof. field_set c2h_count. Defined.
#[export] Instance set_h2c_engine : FieldSet h2c_engine.
Proof. field_set h2c_engine. Defined.
#[export] Instance set_c2h_engine : FieldSet c2h_engine.
Proof. field_set c2h_engine. Defined.
#[export] Instance set_h2c_regs : FieldSet h2c_regs. Proof. field_set h2c_regs. Defined.
#[export] Instance set_c2h_regs : FieldSet c2h_regs. Proof. field_set c2h_regs. Defined.
#[export] Instance set_huge_user_addr : FieldSet huge_user_addr.
Proof. field_set huge_user_addr. Defined.
#[export] Instance set_huge_size : FieldSet huge_size. Proof. field_set huge_size. Defined.
#[export] Instance set_huge_npages : FieldSet huge_npages.
Proof. field_set huge_npages. Defined.
#[export] Instance set_huge_hnpages : FieldSet huge_hnpages.
Proof. field_set huge_hnpages. Defined.
#[export] Instance set_huge_pages : FieldSet huge_pages.
Proof. field_set huge_pages. Defined.
#[export] Instance set_desc_bypass_enabled : FieldSet desc_bypass_enabled.
Proof. field_set desc_bypass_enabled. Defined.
#[export] Instance set_open_count : FieldSet open_count.
Proof. field_set open_count. Defined.

(** What the driver reads of a [struct pci_dev]: its address, [no_msi], the
    bus flags along [bus->parent], and the start and length of its BARs. *)
Record pci_device : Type := PciDevice {
  pdev : Z;
  no_msi : bool;
  bus_flags : list Z;
  resource_start : Z -> Z;
  resource_len : Z -> Z;
}.

(** The two misc devices are the driver's globals. *)
Inductive misc_id : Type := misc_dev_node | bypass_node.
Inductive fops_id : Type := xdma_fops | xdma_bypass_fops.

Record miscdevice : Type := MiscDevice {
  md_minor : Z;
  md_name : string;
  md_fops : option fops_id;
  md_parent : Z;
}.

#[export] Instance misc_id_eq_dec : EqDecision misc_id.
Proof. solve_decision. Defined.

(** ** Calls of kernel services *)

Inductive kcall : Type :=
  | KZalloc (p : Z)
  | KFree (p : Z)
  | KSetDrvdata (d p : Z)
  | KEnableDevice (d rc : Z)
  | KDisableDevice (d : Z)
  | KSetMaster (d : Z)
  | KFindCapability (d ty pos : Z)
  | KEnableMsix (d nvec rc : Z)
  | KDisableMsix (d : Z)
  | KEnableMsi (d rc : Z)
  | KDisableMsi (d : Z)
  | KRequestRegions (d rc : Z)
  | KReleaseRegions (d : Z)
  | KIomap (d idx len p : Z)
  | KIounmap (d p : Z)
  | KRead32 (a v : Z)
  | KWrite32 (a v : Z)
  | KMmiowb
  | KSetDmaMask (d rc : Z)
  | KFreeIrq (line : Z)
  | KRegisterDriver (rc : Z)
  | KUnregisterDriver
  | KMiscRegister (m : misc_id) (rc : Z)
  | KMiscDeregister (m : misc_id)
  | KRemapPfn (vm_start pfn size rc : Z)
  | KCopyFromUser (arg left : Z)
  | KCopyToUser (dst : Z) (data : list Z) (left : Z)
  | KAllocArray (p n : Z)
  | KFreeArray (p : Z)
  | KDownReadMmapSem
  | KUpReadMmapSem
  | KGetUserPages (start npages rc : Z) (pages : list Z)
  | KSetPageReserved (pg : Z)
  | KSetPageDirty (pg : Z)
  | KPutPage (pg : Z).

Definition hist : Type := list kcall.

(** Answers of the kernel and of the device, given what happened so far. *)
Class KernelEnv : Type := {
  env_kzalloc : hist -> Z;
  env_pci_enable_device : hist -> Z -> Z;
  env_pci_find_capability : hist -> Z -> Z -> Z;
  env_pci_enable_msix_exact : hist -> Z -> Z -> Z;
  env_pci_enable_msi : hist -> Z -> Z;
  env_pci_request_regions : hist -> Z -> Z;
  env_pci_iomap : hist -> Z -> Z -> Z -> Z;
  env_ioread32 : hist -> Z -> Z;
  env_dma_set_mask : hist -> Z -> Z;
  env_misc_register : hist -> misc_id -> Z;
  env_pci_register_driver : hist -> Z;
  env_io_remap_pfn_range : hist -> Z -> Z -> Z -> Z;
  (* the two words of the user structure, and the bytes not copied *)
  env_copy_from_user : hist -> Z -> Z * Z * Z;
  env_copy_to_user : hist -> Z -> list Z -> Z;
  env_alloc_array : hist -> Z -> Z;
  env_get_user_pages : hist -> Z -> Z -> Z;
  env_user_page : hist -> Z -> Z -> Z;
  env_page_to_phys : Z -> Z;
  env_page_reserved : hist -> Z -> bool;
}.

(** The kernel state the driver can change. *)
Record kstate : Type := KState {
  k_trace : hist;
  k_heap : gmap Z dev_inst;
  k_drvdata : gmap Z Z;
  k_control : miscdevice;
  k_bypass : miscdevice;
  k_arrays : gmap Z (list (option Z));
}.

Definition kprog (A : Type) : Type := prog kstate A.

(** ** Primitive operations *)

Definition set_trace (t : hist) (s : kstate) : kstate :=
  KState t (k_heap s) (k_drvdata s) (k_control s) (k_bypass s) (k_arrays s).
Definition set_heap (h : gmap Z dev_inst) (s : kstate) : kstate :=
  KState (k_trace s) h (k_drvdata s) (k_control s) (k_bypass s) (k_arrays s).
Definition set_drvdata (d : gmap Z Z) (s : kstate) : kstate :=
  KState (k_trace s) (k_heap s) d (k_control s) (k_bypass s) (k_arrays s).
Definition set_misc (m : misc_id) (v : miscdevice) (s : kstate) : kstate :=
  match m with
  | misc_dev_node => KState (k_trace s) (k_heap s) (k_drvdata s) v (k_bypass s) (k_arrays s)
  | bypass_node => KState (k_trace s) (k_heap s) (k_drvdata s) (k_control s) v (k_arrays s)
  end.
Definition set_arrays (a : gmap Z (list (option Z))) (s : kstate) : kstate :=
  KState (k_trace s) (k_heap s) (k_drvdata s) (k_control s) (k_bypass s) a.
Definition the_misc (m : misc_id) (s : kstate) : miscdevice :=
  match m with misc_dev_node => k_control s | bypass_node => k_bypass s end.

Definition log (e : kcall) (s : kstate) : kstate := set_trace (k_trace s ++ [e]) s.

(** A service without an answer. *)
Definition kdo (e : kcall) : kprog unit := modify_state (log e).

(** A service that answers [ans] of the trace so far. *)
Definition kask {A} (ans : hist -> A) (e : A -> kcall) : kprog A :=
  fun s => let a := ans (k_trace s) in (Done a, log (e a) s).

(** [p->field] for an instance pointer [p]. *)
Definition inst_get (p : Z) : kprog dev_inst :=
  fun s => match k_heap s !! p with
           | Some i => (Done i, s)
           | None => (Halt (if p =? 0 then NullDeref else WildAccess), s)
           end.

Definition inst_upd (p : Z) (f : dev_inst -> dev_inst) : kprog unit :=
  let* i := inst_get p in
  modify_state (fun s => set_heap (<[p := f i]> (k_heap s)) s).

Definition BUG_ON (b : bool) : kprog unit := require (negb b) BugOn.

(** [arr[idx]] for a pointer to one of the driver's arrays of words. *)
Definition array_at (p : Z) : kprog (list (option Z)) :=
  fun s => match k_arrays s !! p with
           | Some l => (Done l, s)
           | None => (Halt (if p =? 0 then NullDeref else WildAccess), s)
           end.

Definition array_get (p idx : Z) : kprog Z :=
  let* l := array_at p in
  let* o := nth_get l idx in
  init_get o.

Definition array_set (p idx v : Z) : kprog unit :=
  let* l := array_at p in
  let* l := nth_set l idx (Some v) in
  modify_state (fun s => set_arrays (<[p := l]> (k_arrays s)) s).

(** ** Reasoning about code that works on one instance

    [upd p i evs s]: the state after the calls [evs], with instance [i] at [p].
    [ispec p m h i R]: from trace [h] and instance [i], [m] returns some [a],
    having made the calls [evs] and left instance [i'], with [R a i' evs];
    nothing else of the state changes. *)

Definition upd (p : Z) (i : dev_inst) (evs : list kcall) (s : kstate) : kstate :=
  set_heap (<[p := i]> (k_heap s)) (set_trace (k_trace s ++ evs) s).

Definition ispec {A} (p : Z) (m : kprog A) (h : hist) (i : dev_inst)
    (R : A -> dev_inst -> list kcall -> Prop) : Prop :=
  forall s, k_trace s = h -> k_heap s !! p = Some i ->
    wp m (fun a s1 => exists i1 evs, s1 = upd p i1 evs s /\ R a i1 evs) s.

Lemma upd_upd p i1 e1 i2 e2 s : upd p i2 e2 (upd p i1 e1 s) = upd p i2 (e1 ++ e2) s.
Proof. unfold upd, set_heap, set_trace; cbn. by rewrite insert_insert_eq, app_assoc. Qed.

Lemma upd_nil p i s : k_heap s !! p = Some i -> upd p i [] s = s.
Proof.
  intros H. unfold upd, set_heap, set_trace; cbn.
  rewrite insert_id by done. rewrite app_nil_r. by destruct s.
Qed.

Lemma upd_heap p i evs s : k_heap (upd p i evs s) !! p = Some i.
Proof. apply lookup_insert_eq. Qed.

Lemma upd_trace p i evs s : k_trace (upd p i evs s) = k_trace s ++ evs.
Proof. done. Qed.

Lemma log_upd p i e s : k_heap s !! p = Some i -> log e s = upd p i [e] s.
Proof.
  intros H. unfold log, upd, set_heap, set_trace; cbn. by rewrite insert_id.
Qed.

Section Ispec.
Context (p : Z).
Implicit Types (h : hist) (i : dev_inst).

Lemma ispec_ret {A} (a : A) h i (R : A -> dev_inst -> list kcall -> Prop) :
  R a i [] -> ispec p (pret a) h i R.
Proof. intros HR s _ Hs. apply wp_ret. exists i, []. by rewrite upd_nil. Qed.

Lemma ispec_bind {A B} (m : kprog A) (k : A -> kprog B) h i R1 R :
  ispec p m h i R1 ->
  (forall a i1 e1, R1 a i1 e1 ->
     ispec p (k a) (h ++ e1) i1 (fun b i2 e2 => R b i2 (e1 ++ e2))) ->
  ispec p (pbind m k) h i R.
Proof.
  intros Hm Hk s Ht Hs. apply wp_bind. eapply wp_mono; [by apply Hm|].
  intros a s1 (i1 & e1 & -> & HR1). cbn.
  eapply wp_mono; [eapply Hk; [done|by rewrite upd_trace, Ht|apply upd_heap]|].
  intros b s2 (i2 & e2 & -> & HR). exists i2, (e1 ++ e2). by rewrite upd_upd.
Qed.

Lemma ispec_conseq {A} (m : kprog A) h i (R1 R : A -> dev_inst -> list kcall -> Prop) :
  ispec p m h i R1 -> (forall a i1 e1, R1 a i1 e1 -> R a i1 e1) -> ispec p m h i R.
Proof. intros Hm HR s Ht Hs. eapply wp_mono; [by apply Hm|].
  intros a s1 (i1 & e1 & -> & ?). eauto. Qed.

Lemma ispec_get {B} (k : dev_inst -> kprog B) h i R :
  ispec p (k i) h i R -> ispec p (pbind (inst_get p) k) h i R.
Proof.
  intros Hk s Ht Hs. apply wp_bind. unfold wp at 1, inst_get. rewrite Hs. by apply Hk.
Qed.

Lemma ispec_upd {B} f (k : unit -> kprog B) h i R :
  ispec p (k tt) h (f i) R -> ispec p (pbind (inst_upd p f) k) h i R.
Proof.
  intros Hk s Ht Hs. apply wp_bind.
  unfold wp at 1, inst_upd, pbind, inst_get, modify_state. rewrite Hs.
  eapply wp_mono; [apply Hk; [done|apply lookup_insert_eq]|].
  intros b s1 (i1 & e1 & -> & HR). exists i1, e1. split; [|done].
  unfold upd, set_heap, set_trace; cbn. by rewrite insert_insert_eq.
Qed.

Lemma ispec_do {B} e (k : unit -> kprog B) h i R :
  ispec p (k tt) (h ++ [e]) i (fun b i2 e2 => R b i2 (e :: e2)) ->
  ispec p (pbind (kdo e) k) h i R.
Proof.
  intros Hk. apply (ispec_bind _ _ _ _ (fun _ i1 e1 => i1 = i /\ e1 = [e])).
  - intros s _ Hs. apply wp_modify. exists i, [e]. by erewrite log_upd.
  - by intros [] ? ? [-> ->].
Qed.

Lemma ispec_ask {A B} (ans : hist -> A) e (k : A -> kprog B) h i R :
  ispec p (k (ans h)) (h ++ [e (ans h)]) i (fun b i2 e2 => R b i2 (e (ans h) :: e2)) ->
  ispec p (pbind (kask ans e) k) h i R.
Proof.
  intros Hk. apply (ispec_bind _ _ _ _
    (fun a i1 e1 => a = ans h /\ i1 = i /\ e1 = [e (ans h)])).
  - intros s Ht Hs. unfold wp, kask. rewrite Ht. exists i, [e (ans h)].
    by erewrite log_upd.
  - by intros ? ? ? (-> & -> & ->).
Qed.

Lemma ispec_bug b {B} (k : unit -> kprog B) h i R :
  b = false -> ispec p (k tt) h i R -> ispec p (pbind (BUG_ON b) k) h i R.
Proof. by intros ->. Qed.

Lemma ispec_assoc {A B C} (m : kprog A) (f : A -> kprog B) (k : B -> kprog C) h i R :
  ispec p (pbind m (fun a => pbind (f a) k)) h i R -> ispec p (pbind (pbind m f) k) h i R.
Proof.
  intros Hm s Ht Hs. specialize (Hm s Ht Hs). unfold wp, pbind in *.
  by destruct (m s) as [[a|] s1].
Qed.

Lemma ispec_pure {A B} (a : A) (k : A -> kprog B) h i R :
  ispec p (k a) h i R -> ispec p (pbind (pret a) k) h i R.
Proof. done. Qed.

(** The effect of a program is unique. *)
Lemma ispec_and {A} (m : kprog A) h i (R1 R2 : A -> dev_inst -> list kcall -> Prop) :
  ispec p m h i R1 -> ispec p m h i R2 ->
  ispec p m h i (fun a i1 e1 => R1 a i1 e1 /\ R2 a i1 e1).
Proof.
  intros H1 H2 s Ht Hs. specialize (H1 s Ht Hs). specialize (H2 s Ht Hs).
  unfold wp in *. destruct (m s) as [[a|] s1]; [|done].
  destruct H1 as (i1 & e1 & -> & HR1), H2 as (i2 & e2 & Heq & HR2).
  exists i1, e1. split; [done|]. split; [done|].
  pose proof (f_equal (fun t => k_heap t !! p) Heq) as Hi.
  pose proof (f_equal k_trace Heq) as He.
  cbn beta in Hi. rewrite !upd_heap in Hi. rewrite !upd_trace in He.
  apply app_inv_head in He. by simplify_eq.
Qed.

(** Loop rule: [I j l i' evs] holds before iteration [j]. *)
Lemma ispec_loop {L X} (I : Z -> L -> dev_inst -> list kcall -> Prop)
    (body : Z -> L -> kprog (L + X)) n j l h i R :
  I j l i [] ->
  (forall j1 l1 i1 e1, j <= j1 < j + Z.of_nat n -> I j1 l1 i1 e1 ->
     ispec p (body j1 l1) (h ++ e1) i1
       (fun o i2 e2 => match o with
                       | inl l2 => I (j1 + 1) l2 i2 (e1 ++ e2)
                       | inr x => R (inr x) i2 (e1 ++ e2)
                       end)) ->
  (forall l1 i1 e1, I (j + Z.of_nat n) l1 i1 e1 -> R (inl l1) i1 e1) ->
  ispec p (for_loop n j l body) h i R.
Proof.
  intros HI Hbody Hend s Ht Hs.
  apply (wp_for_loop (fun j1 l1 t => exists i1 e1, t = upd p i1 e1 s /\ I j1 l1 i1 e1)).
  - exists i, []. by rewrite upd_nil.
  - intros j1 l1 t Hj (i1 & e1 & -> & HI1).
    eapply wp_mono; [by eapply Hbody; [..|by rewrite upd_trace, Ht|apply upd_heap]|].
    intros [l2|x] t2 (i2 & e2 & -> & HR); exists i2, (e1 ++ e2); by rewrite upd_upd.
  - intros l1 t (i1 & e1 & -> & HI1). eauto.
Qed.
End Ispec.

(** The same rules for code that also changes the rest of the state. *)
Section WpUpd.
Implicit Types (i : dev_inst) (s : kstate).

(** Instance-local code inside a larger program. *)
Lemma wp_ispec {A B} p (m : kprog A) (k : A -> kprog B) i R Q s evs :
  ispec p m (k_trace s ++ evs) i R ->
  (forall a i1 e1, R a i1 e1 -> wp (k a) Q (upd p i1 (evs ++ e1) s)) ->
  wp (pbind m k) Q (upd p i evs s).
Proof.
  intros Hm Hk. apply wp_bind.
  eapply wp_mono; [apply Hm; [apply upd_trace|apply upd_heap]|].
  intros a s1 (i1 & e1 & -> & HR). rewrite upd_upd. by apply Hk.
Qed.

Lemma wp_inst_get {B} p i evs s (k : dev_inst -> kprog B) Q :
  wp (k i) Q (upd p i evs s) -> wp (pbind (inst_get p) k) Q (upd p i evs s).
Proof.
  intros Hk. apply wp_bind. unfold wp at 1, inst_get. by rewrite upd_heap.
Qed.

Lemma wp_inst_upd {B} p f i evs s (k : unit -> kprog B) Q :
  wp (k tt) Q (upd p (f i) evs s) -> wp (pbind (inst_upd p f) k) Q (upd p i evs s).
Proof.
  intros Hk. apply wp_bind. unfold wp at 1, inst_upd, pbind, inst_get, modify_state.
  rewrite upd_heap. replace (set_heap _ _) with (upd p (f i) evs s); [done|].
  unfold upd, set_heap, set_trace; cbn. by rewrite insert_insert_eq.
Qed.

Lemma log_upd_snoc p i evs e s : log e (upd p i evs s) = upd p i (evs ++ [e]) s.
Proof. unfold log, upd, set_heap, set_trace; cbn. by rewrite app_assoc. Qed.

Lemma wp_kdo {B} p e i evs s (k : unit -> kprog B) Q :
  wp (k tt) Q (upd p i (evs ++ [e]) s) -> wp (pbind (kdo e) k) Q (upd p i evs s).
Proof. intros Hk. apply wp_bind, wp_modify. by rewrite log_upd_snoc. Qed.

Lemma wp_kask {A B} p (ans : hist -> A) e i evs s (k : A -> kprog B) Q :
  (forall a, a = ans (k_trace s ++ evs) -> wp (k a) Q (upd p i (evs ++ [e a]) s)) ->
  wp (pbind (kask ans e) k) Q (upd p i evs s).
Proof.
  intros Hk. apply wp_bind. unfold wp at 1, kask. rewrite log_upd_snoc. by apply Hk.
Qed.

Lemma upd_set_drvdata p i evs d s :
  set_drvdata d (upd p i evs s) = upd p i evs (set_drvdata d s).
Proof. done. Qed.

Lemma upd_set_misc p i evs m v s :
  set_misc m v (upd p i evs s) = upd p i evs (set_misc m v s).
Proof. by destruct m. Qed.
End WpUpd.

(** One step of symbolic execution, then as many as possible. *)
Ltac ispec_step :=
  first [apply ispec_get | apply ispec_upd | apply ispec_do | apply ispec_ask
        | apply ispec_bug; [done|] | apply ispec_pure | apply ispec_assoc | apply ispec_ret].
Ltac ispec_steps := repeat (ispec_step; cbv beta).
