(* ===== verification/Resources.v ===== *)
(** * What the driver may do with kernel resources

    The abstract contract of the kernel services, as two monitors that run
    over the calls a function made: [ledger] counts what is held and refuses
    the release of what is not; [mmio] refuses a register access outside the
    live BAR mappings.  Both refuse with [None]. *)

From stdpp Require Import base gmap gmultiset list numbers option.
From S2P Require Import Prelude CInt Kernel.
Open Scope Z_scope.

Inductive resource : Type :=
  | RInst (p : Z)          (* a kzalloc'ed instance *)
  | REnabled (d : Z)       (* pci_enable_device *)
  | RMsi (d : Z)
  | RMsix (d : Z)
  | RRegions (d : Z)       (* pci_request_regions *)
  | RMap (p : Z)           (* an iomapped BAR *)
  | RMisc (m : misc_id)    (* a registered misc device *)
  | RArray (p : Z)         (* vmalloc / kmalloc *)
  | RPage (pg : Z)         (* a reference to a user page *)
  | RMmapSem.              (* the mmap semaphore of the process, for reading *)

#[export] Instance resource_eq_dec : EqDecision resource.
Proof. solve_decision. Defined.

Definition resource_code (r : resource) : nat * Z :=
  match r with
  | RInst p => (0%nat, p)
  | REnabled d => (1%nat, d)
  | RMsi d => (2%nat, d)
  | RMsix d => (3%nat, d)
  | RRegions d => (4%nat, d)
  | RMap p => (5%nat, p)
  | RMisc misc_dev_node => (6%nat, 0)
  | RMisc bypass_node => (6%nat, 1)
  | RArray p => (7%nat, p)
  | RPage pg => (8%nat, pg)
  | RMmapSem => (9%nat, 0)
  end.

Definition resource_decode (c : nat * Z) : option resource :=
  match c with
  | (0%nat, p) => Some (RInst p)
  | (1%nat, d) => Some (REnabled d)
  | (2%nat, d) => Some (RMsi d)
  | (3%nat, d) => Some (RMsix d)
  | (4%nat, d) => Some (RRegions d)
  | (5%nat, p) => Some (RMap p)
  | (6%nat, m) => Some (RMisc (if m =? 0 then misc_dev_node else bypass_node))
  | (7%nat, p) => Some (RArray p)
  | (8%nat, pg) => Some (RPage pg)
  | (9%nat, _) => Some RMmapSem
  | _ => None
  end.

#[export] Instance resource_countable : Countable resource.
Proof.
  apply (inj_countable resource_code resource_decode). by intros [| | | | | |[]| | |].
Defined.

(** ** The ledger *)

Definition acquire (b : bool) (r : resource) (L : gmultiset resource) :
    option (gmultiset resource) :=
  Some (if b then {[+ r +]} ⊎ L else L).

Definition release (r : resource) (L : gmultiset resource) :
    option (gmultiset resource) :=
  if decide (r ∈ L) then Some (L ∖ {[+ r +]}) else None.

Definition ledger_step (L : gmultiset resource) (e : kcall) : option (gmultiset resource) :=
  match e with
  | KZalloc p => acquire (negb (p =? 0)) (RInst p) L
  | KFree p => release (RInst p) L
  | KEnableDevice d rc => acquire (rc =? 0) (REnabled d) L
  | KDisableDevice d => release (REnabled d) L
  | KEnableMsix d _ rc => acquire (0 <=? rc) (RMsix d) L
  | KDisableMsix d => release (RMsix d) L
  | KEnableMsi d rc => acquire (0 <=? rc) (RMsi d) L
  | KDisableMsi d => release (RMsi d) L
  | KRequestRegions d rc => acquire (rc =? 0) (RRegions d) L
  | KReleaseRegions d => release (RRegions d) L
  | KIomap _ _ _ p => acquire (negb (p =? 0)) (RMap p) L
  | KIounmap _ p => release (RMap p) L
  | KMiscRegister m rc => acquire (0 <=? rc) (RMisc m) L
  | KMiscDeregister m => release (RMisc m) L
  | KAllocArray p _ => acquire (negb (p =? 0)) (RArray p) L
  | KFreeArray p => if p =? 0 then Some L else release (RArray p) L
  | KDownReadMmapSem => acquire true RMmapSem L
  | KUpReadMmapSem => release RMmapSem L
  | KGetUserPages _ _ _ pages => Some (list_to_set_disj (RPage <$> pages) ⊎ L)
  | KPutPage pg => release (RPage pg) L
  | _ => Some L
  end.

Fixpoint ledger (L : gmultiset resource) (evs : list kcall) : option (gmultiset resource) :=
  match evs with
  | [] => Some L
  | e :: evs' => ledger_step L e ≫= fun L' => ledger L' evs'
  end.

(** ** Register accesses *)

Definition in_map (a : Z) (m : Z * Z) : bool :=
  (m.1 <=? a) && (a + 4 <=? m.1 + m.2).

Definition mmio_step (M : list (Z * Z)) (e : kcall) : option (list (Z * Z)) :=
  match e with
  | KIomap _ _ len p => Some (if p =? 0 then M else (p, len) :: M)
  | KIounmap _ p => Some (filter (fun m => m.1 <> p) M)
  | KRead32 a _ | KWrite32 a _ => if existsb (in_map a) M then Some M else None
  | _ => Some M
  end.

Fixpoint mmio (M : list (Z * Z)) (evs : list kcall) : option (list (Z * Z)) :=
  match evs with
  | [] => Some M
  | e :: evs' => mmio_step M e ≫= fun M' => mmio M' evs'
  end.

(** ** Composition *)

Lemma ledger_app L e1 e2 : ledger L (e1 ++ e2) = ledger L e1 ≫= fun L' => ledger L' e2.
Proof.
  revert L. induction e1 as [|e e1 IH]; intros L; [done|]. cbn.
  destruct (ledger_step L e); [apply IH|done].
Qed.

Lemma mmio_app M e1 e2 : mmio M (e1 ++ e2) = mmio M e1 ≫= fun M' => mmio M' e2.
Proof.
  revert M. induction e1 as [|e e1 IH]; intros M; [done|]. cbn.
  destruct (mmio_step M e); [apply IH|done].
Qed.

Lemma release_held r L : release r ({[+ r +]} ⊎ L) = Some L.
Proof.
  unfold release. rewrite decide_True by multiset_solver. apply f_equal. multiset_solver.
Qed.

(** A sequence of calls that acquires [R] (releases [R], holds on to what it
    has), whatever else is held. *)
Definition acquires (R : gmultiset resource) (evs : list kcall) : Prop :=
  forall L, ledger L evs = Some (R ⊎ L).
Definition releases (R : gmultiset resource) (evs : list kcall) : Prop :=
  forall L, ledger (R ⊎ L) evs = Some L.

Lemma acquires_nil : acquires ∅ [].
Proof. intros L. cbn [ledger]. apply f_equal. multiset_solver. Qed.

Lemma acquires_app R1 R2 e1 e2 :
  acquires R1 e1 -> acquires R2 e2 -> acquires (R2 ⊎ R1) (e1 ++ e2).
Proof. intros H1 H2 L. rewrite ledger_app, H1. cbn [mbind option_bind]. rewrite H2. apply f_equal. multiset_solver. Qed.

Lemma acquires_releases R evs1 evs2 :
  acquires R evs1 -> releases R evs2 -> acquires ∅ (evs1 ++ evs2).
Proof. intros H1 H2 L. rewrite ledger_app, H1. cbn [mbind option_bind]. rewrite H2. apply f_equal. multiset_solver. Qed.

Lemma releases_app R1 R2 e1 e2 :
  releases R1 e1 -> releases R2 e2 -> releases (R1 ⊎ R2) (e1 ++ e2).
Proof.
  intros H1 H2 L. rewrite ledger_app.
  replace (R1 ⊎ R2 ⊎ L) with (R1 ⊎ (R2 ⊎ L)) by multiset_solver.
  rewrite H1. apply H2.
Qed.

Lemma releases_nil : releases ∅ [].
Proof. intros L. cbn [ledger]. apply f_equal. multiset_solver. Qed.

Lemma releases_cons r R e evs :
  (forall L, ledger_step L e = release r L) -> releases R evs ->
  releases ({[+ r +]} ⊎ R) (e :: evs).
Proof.
  intros He HR L. cbn [ledger]. rewrite He, <- gmultiset_disj_union_assoc.
  rewrite release_held. apply HR.
Qed.

Lemma releases_one r e : (forall L, ledger_step L e = release r L) -> releases {[+ r +]} [e].
Proof. intros He L. cbn [ledger]. by rewrite He, release_held. Qed.

Lemma acquires_one r e :
  (forall L, ledger_step L e = acquire true r L) -> acquires {[+ r +]} [e].
Proof. intros He L. cbn [ledger]. by rewrite He. Qed.

(** Calls the ledger does not look at. *)
Lemma acquires_skip e : (forall L, ledger_step L e = Some L) -> acquires ∅ [e].
Proof.
  intros He L. cbn [ledger]. rewrite He. cbn [mbind option_bind].
  apply f_equal. multiset_solver.
Qed.

Lemma acquires_releases_rest A X e1 e2 :
  acquires (A ⊎ X) e1 -> releases A e2 -> acquires X (e1 ++ e2).
Proof.
  intros H1 H2 L. rewrite ledger_app, H1. cbn [mbind option_bind].
  rewrite <- gmultiset_disj_union_assoc. apply H2.
Qed.

(** [mmio_grows M evs]: the accesses of [evs] are inside mappings that are in
    [M] or made by [evs], and no mapping of [M] is removed. *)
Definition mmio_grows (M N : list (Z * Z)) (evs : list kcall) : Prop :=
  forall K, mmio (M ++ K) evs = Some (N ++ K).

Lemma mmio_grows_nil M : mmio_grows M M [].
Proof. done. Qed.

Lemma mmio_grows_app M N O e1 e2 :
  mmio_grows M N e1 -> mmio_grows N O e2 -> mmio_grows M O (e1 ++ e2).
Proof. intros H1 H2 K. rewrite mmio_app, H1. apply H2. Qed.

Lemma in_map_app a M K : existsb (in_map a) M = true -> existsb (in_map a) (M ++ K) = true.
Proof. intros H. by rewrite existsb_app, H. Qed.

Lemma mmio_grows_access M a e :
  (exists v, e = KRead32 a v \/ e = KWrite32 a v) ->
  existsb (in_map a) M = true -> mmio_grows M M [e].
Proof.
  intros (v & [-> | ->]) H K; cbn; by rewrite in_map_app.
Qed.

(** Calls that are no concern of either monitor. *)
Definition quiet (e : kcall) : Prop :=
  (forall L, ledger_step L e = Some L) /\ (forall M, mmio_step M e = Some M).

Lemma acquires_quiet evs : Forall quiet evs -> acquires ∅ evs.
Proof.
  induction 1 as [|e evs [He _] _ IH]; [apply acquires_nil|].
  rewrite <- (gmultiset_disj_union_left_id ∅).
  apply (acquires_app ∅ ∅ [e] evs); [by apply acquires_skip|done].
Qed.

Lemma mmio_quiet M evs : Forall quiet evs -> mmio M evs = Some M.
Proof. induction 1 as [|e evs [_ He] _ IH]; [done|]. cbn. by rewrite He. Qed.

Lemma mmio_grows_quiet M evs : Forall quiet evs -> mmio_grows M M evs.
Proof. intros Hq K. by apply mmio_quiet. Qed.

(** Calls that touch no register. *)
Definition no_access (e : kcall) : Prop := forall M, is_Some (mmio_step M e).

Lemma mmio_no_access M evs : Forall no_access evs -> is_Some (mmio M evs).
Proof.
  intros He. revert M. induction He as [|e evs He _ IH]; intros M; cbn; [by eauto|].
  destruct (He M) as [M1 ->]. apply IH.
Qed.

Lemma mmio_is_Some_app M N e1 e2 :
  mmio M e1 = Some N -> is_Some (mmio N e2) -> is_Some (mmio M (e1 ++ e2)).
Proof. intros H1 H2. by rewrite mmio_app, H1. Qed.
