(* ===== verification/XdmaBars.v ===== *)
(** * Mapping and identifying the PCIe BARs

    [map_single_bar], [identify_bars], [unmap_bars], [is_config_bar] and
    [map_bars] of [sw/driver/xdma_driver.c]. *)

From stdpp Require Import base gmap gmultiset list strings numbers option.
From S2P Require Import Prelude CInt XdmaRegs Kernel Resources.
Open Scope Z_scope.

Section Bars.
Context `{KernelEnv}.

Definition ioread32 (a : Z) : kprog Z :=
  kask (fun h => u32 (env_ioread32 h a)) (KRead32 a).
Definition iowrite32 (v a : Z) : kprog unit := kdo (KWrite32 a (u32 v)).

(** [readl] of a register, one bit of it. *)
Definition read_bit (base r bit : Z) : kprog bool :=
  let* v := ioread32 (base + r) in
  pret (negb (Z.land v (BIT bit) =? 0)).

Definition bar_get (p idx : Z) : kprog Z :=
  let* inst := inst_get p in nth_get (bar inst) idx.
Definition bar_set (p idx v : Z) : kprog unit :=
  let* inst := inst_get p in
  let* l := nth_set (bar inst) idx v in
  inst_upd p (fun inst => inst <| bar := l |>);; pret tt.

Definition map_single_bar (inst : Z) (dev : pci_device) (idx : Z) : kprog Z :=
  let bar_len := u64 (resource_len dev idx) in
  let map_len := bar_len in
  bar_set inst idx 0;;
  if bar_len =? 0 then pret 0
  else
    let map_len := if INT_MAX <? bar_len then INT_MAX else map_len in
    let* a := kask (fun h => u64 (env_pci_iomap h (pdev dev) idx map_len))
                   (KIomap (pdev dev) idx map_len) in
    bar_set inst idx a;;
    let* b := bar_get inst idx in
    if b =? 0 then pret (-1) else pret (s32 map_len).

Definition identify_bars (inst : Z) (bar_id_list : list (option Z))
    (num_bars config_bar_pos : Z) : kprog unit :=
  let get k := let* o := nth_get bar_id_list k in init_get o in
  BUG_ON (inst =? 0);;
  if num_bars =? 1 then pret tt
  else if num_bars =? 2 then
    if config_bar_pos =? 0 then
      let* b := get 1 in
      inst_upd inst (fun i => i <| bypass_bar_idx := b |>);; pret tt
    else if config_bar_pos =? 1 then
      let* b := get 0 in
      inst_upd inst (fun i => i <| user_bar_idx := b |>);; pret tt
    else pret tt
  else if num_bars =? 3 then
    if config_bar_pos =? 1 then
      let* b := get 0 in
      inst_upd inst (fun i => i <| user_bar_idx := b |>);;
      let* b := get 2 in
      inst_upd inst (fun i => i <| bypass_bar_idx := b |>);; pret tt
    else pret tt
  else pret tt.

Definition unmap_bars (inst : Z) (dev : pci_device) : kprog unit :=
  for_loop (R := Empty_set) (Z.to_nat XDMA_BAR_NUM) 0 tt (fun i _ =>
    let* b := bar_get inst i in
    if b =? 0 then pret (inl tt)
    else kdo (KIounmap (pdev dev) b);;
         bar_set inst i 0;;
         pret (inl tt));;
  pret tt.

(** The test on the two identification registers. *)
Definition is_xdma_config (irq_id cfg_id : Z) : bool :=
  let mask := 0xffff0000 in
  (Z.land irq_id mask =? IRQ_BLOCK_ID) && (Z.land cfg_id mask =? CONFIG_BLOCK_ID).

Definition is_config_bar (inst idx : Z) : kprog Z :=
  let* b := bar_get inst idx in
  let* irq_id := ioread32 (reg interrupt_regs (b + XDMA_OFS_INT_CTRL) "identifier") in
  let* cfg_id := ioread32 (reg config_regs (b + XDMA_OFS_CONFIG) "identifier") in
  pret (if is_xdma_config irq_id cfg_id then 1 else 0).

(** One iteration of the loop of [map_bars] over the BARs; the locals are
    [bar_id_list], [bar_id_idx] and [config_bar_pos]. *)
Definition map_bars_body (inst : Z) (dev : pci_device) (i : Z)
    (locals : list (option Z) * Z * Z) : kprog (list (option Z) * Z * Z + Z) :=
  let '(bar_id_list, bar_id_idx, config_bar_pos) := locals in
  let* bar_len := map_single_bar inst dev i in
  if bar_len =? 0 then pret (inl locals)
  else if bar_len <? 0 then pret (inr (-1))
  else
    let* st := inst_get inst in
    let* config_bar_pos :=
      if (XDMA_BAR_SIZE <=? u64 bar_len) && (config_bar_idx st <? 0) then
        let* flag := is_config_bar inst i in
        if flag =? 0 then pret config_bar_pos
        else inst_upd inst (fun st => st <| config_bar_idx := i |>);;
             pret bar_id_idx
      else pret config_bar_pos in
    let* bar_id_list := nth_set bar_id_list bar_id_idx (Some i) in
    pret (inl (bar_id_list, bar_id_idx + 1, config_bar_pos)).

Definition map_bars (inst : Z) (dev : pci_device) : kprog Z :=
  let fail rc := unmap_bars inst dev;; pret rc in
  let* r := for_loop (Z.to_nat XDMA_BAR_NUM) 0
              (replicate (Z.to_nat XDMA_BAR_NUM) None, 0, 0)
              (map_bars_body inst dev) in
  match r with
  | inr rc => fail rc
  | inl (bar_id_list, bar_id_idx, config_bar_pos) =>
      let* st := inst_get inst in
      if config_bar_idx st <? 0 then fail (-1)
      else identify_bars inst bar_id_list bar_id_idx config_bar_pos;;
           pret 0
  end.
End Bars.

(** ** Specifications *)

(** The mapped length of BAR [k]. *)
Definition map_len (dev : pci_device) (k : Z) : Z :=
  Z.min (u64 (resource_len dev k)) INT_MAX.

(** The mappings an instance holds. *)
Definition maps_of (l : list Z) : gmultiset resource :=
  list_to_set_disj (RMap <$> filter (fun b => b <> 0) l).

(** The calls that undo them, in BAR order. *)
Definition unmap_calls (dev : pci_device) (l : list Z) : list kcall :=
  KIounmap (pdev dev) <$> filter (fun b => b <> 0) l.

Lemma map_len_range dev k : 0 <= map_len dev k <= INT_MAX.
Proof. unfold map_len. pose proof (u64_range (resource_len dev k)). unfold INT_MAX; lia. Qed.

Lemma unmap_calls_releases dev l : releases (maps_of l) (unmap_calls dev l).
Proof.
  unfold maps_of, unmap_calls. induction (filter _ l) as [|b bs IH].
  - apply releases_nil.
  - by apply (releases_cons (RMap b)).
Qed.

Lemma unmap_calls_snoc dev l b :
  unmap_calls dev (l ++ [b]) =
  unmap_calls dev l ++ (if b =? 0 then [] else [KIounmap (pdev dev) b]).
Proof.
  unfold unmap_calls. rewrite list.filter_app, fmap_app. f_equal.
  destruct (Z.eqb_spec b 0).
  - by rewrite filter_cons_False by (intros ?; done).
  - by rewrite filter_cons_True.
Qed.

Section BarSpecs.
Context `{KernelEnv}.
Implicit Types (h : hist) (i : dev_inst) (dev : pci_device).

Lemma bar_get_spec p idx b h i {B} (k : Z -> kprog B) R :
  0 <= idx -> bar i !! Z.to_nat idx = Some b ->
  ispec p (k b) h i R -> ispec p (pbind (bar_get p idx) k) h i R.
Proof.
  intros ? Hb Hk. eapply (ispec_bind p _ _ _ _ (fun a i1 e1 => a = b /\ i1 = i /\ e1 = [])).
  - unfold bar_get. apply ispec_get. rewrite (nth_get_ok _ _ b) by done. by apply ispec_ret.
  - intros ? ? ? (-> & -> & ->). by rewrite app_nil_r.
Qed.

Lemma bar_set_spec p idx v h i {B} (k : unit -> kprog B) R :
  0 <= idx < Z.of_nat (length (bar i)) ->
  ispec p (k tt) h (i <| bar := <[Z.to_nat idx := v]> (bar i) |>) R ->
  ispec p (pbind (bar_set p idx v) k) h i R.
Proof.
  intros ? Hk. eapply (ispec_bind p _ _ _ _
    (fun _ i1 e1 => i1 = i <| bar := <[Z.to_nat idx := v]> (bar i) |> /\ e1 = [])).
  - unfold bar_set. apply ispec_get. rewrite nth_set_ok, pbind_ret by done.
    apply ispec_upd. by apply ispec_ret.
  - intros [] ? ? (-> & ->). by rewrite app_nil_r.
Qed.

(** [map_single_bar]: an absent BAR is left NULL; a present one is mapped up
    to INT_MAX bytes, or the call fails and the slot is NULL. *)
Lemma map_single_bar_spec p dev idx h i :
  0 <= idx < Z.of_nat (length (bar i)) ->
  ispec p (map_single_bar p dev idx) h i (fun r i1 evs =>
    (u64 (resource_len dev idx) = 0 /\ r = 0 /\ evs = [] /\
       i1 = i <| bar := <[Z.to_nat idx := 0]> (bar i) |>) \/
    (u64 (resource_len dev idx) <> 0 /\ exists a, 0 <= a /\
       evs = [KIomap (pdev dev) idx (map_len dev idx) a] /\
       i1 = i <| bar := <[Z.to_nat idx := a]> (bar i) |> /\
       r = (if a =? 0 then -1 else map_len dev idx))).
Proof.
  intros Hidx. unfold map_single_bar. cbv zeta.
  apply bar_set_spec; [done|].
  destruct (Z.eqb_spec (u64 (resource_len dev idx)) 0) as [E|E].
  { apply ispec_ret. by left. }
  replace (if INT_MAX <? u64 (resource_len dev idx) then INT_MAX
           else u64 (resource_len dev idx)) with (map_len dev idx)
    by (unfold map_len; destruct (Z.ltb_spec INT_MAX (u64 (resource_len dev idx))); lia).
  apply ispec_ask. set (a := u64 (env_pci_iomap _ _ _ _)).
  apply bar_set_spec; [cbn; by rewrite length_insert|]. cbn [bar set_field set_bar].
  rewrite list_insert_insert_eq.
  eapply bar_get_spec; [lia| |].
  { cbn. apply list_lookup_insert_eq. lia. }
  pose proof (map_len_range dev idx).
  rewrite s32_small by (unfold INT_MAX in *; lia).
  destruct (Z.eqb_spec a 0); apply ispec_ret; right; (split; [done|]); exists a;
    (split; [apply u64_range|]); (split; [done|]); (split; [done|]); by destruct (Z.eqb_spec a 0).
Qed.

Definition no_bars : list Z := replicate (Z.to_nat XDMA_BAR_NUM) 0.

(** [unmap_bars] unmaps exactly the mapped BARs, in order, and clears the table. *)
Lemma unmap_bars_spec p dev h i :
  length (bar i) = Z.to_nat XDMA_BAR_NUM ->
  ispec p (unmap_bars p dev) h i (fun _ i1 evs =>
    i1 = i <| bar := no_bars |> /\ evs = unmap_calls dev (bar i)).
Proof.
  intros Hlen. unfold unmap_bars. eapply ispec_bind.
  - apply (ispec_loop p (fun j _ i1 e1 => 0 <= j /\ exists n, j = Z.of_nat n /\
      i1 = i <| bar := replicate n 0 ++ drop n (bar i) |> /\
      e1 = unmap_calls dev (take n (bar i)))
      _ _ _ _ _ _ (fun _ i1 e1 =>
        i1 = i <| bar := no_bars |> /\ e1 = unmap_calls dev (bar i))).
    + split; [lia|]. exists 0%nat. split; [done|]. split; [by destruct i|done].
    + intros j [] i1 e1 Hj (_ & n & -> & -> & ->).
      destruct (lookup_lt_is_Some_2 (bar i) n) as [b Hb]; [lia|].
      assert (Hd : drop n (bar i) = b :: drop (S n) (bar i)) by by apply drop_S.
      assert (Ht : take (S n) (bar i) = take n (bar i) ++ [b]) by by apply take_S_r.
      rewrite Hd. eapply bar_get_spec; [lia| |].
      { cbn. rewrite lookup_app_r by (rewrite length_replicate; lia).
        by rewrite length_replicate, Nat2Z.id, Nat.sub_diag. }
      assert (Hgoal : forall X, X = replicate n 0 ++ 0 :: drop (S n) (bar i) ->
                X = replicate (S n) 0 ++ drop (S n) (bar i)).
      { intros X ->. by rewrite replicate_S_end, <- app_assoc. }
      destruct (Z.eqb_spec b 0) as [->|Hb0].
      * apply ispec_ret. split; [lia|]. exists (S n). split; [lia|].
        split; [refine (f_equal (fun X => i <| bar := X |>) _); by apply Hgoal|].
        by rewrite Ht, unmap_calls_snoc.
      * apply ispec_do. apply bar_set_spec.
        { cbn. rewrite length_app, length_replicate. cbn. lia. }
        apply ispec_ret. split; [lia|]. exists (S n). split; [lia|]. split.
        -- refine (f_equal (fun X => i <| bar := X |>) _). apply Hgoal.
           cbn [bar set_field set_bar].
           rewrite Nat2Z.id, insert_app_r_alt by (by rewrite length_replicate).
           by rewrite length_replicate, Nat.sub_diag.
        -- rewrite Ht, unmap_calls_snoc. by rewrite (proj2 (Z.eqb_neq b 0) Hb0).
    + intros [] i1 e1 (_ & n & Hn & -> & ->).
      assert (n = Z.to_nat XDMA_BAR_NUM) as -> by lia.
      rewrite <- Hlen at 2 3. rewrite drop_all, firstn_all, app_nil_r. done.
  - intros ? i1 e1 [-> ->]. apply ispec_ret. by rewrite app_nil_r.
Qed.

(** *** [identify_bars] *)

Definition opt_list (o : option Z) : list Z := match o with Some x => [x] | None => [] end.

(** The array [bar_id_list] after the BARs [l] were recorded. *)
Definition id_array (l : list Z) : list (option Z) :=
  (Some <$> l) ++ replicate (Z.to_nat XDMA_BAR_NUM - length l) None.

(** What the roles are when the BARs found are [u? config b?]. *)
Definition set_roles (u b : option Z) (i : dev_inst) : dev_inst :=
  let i := match u with Some x => i <| user_bar_idx := x |> | None => i end in
  match b with Some x => i <| bypass_bar_idx := x |> | None => i end.

Lemma identify_bars_spec p u c b h i :
  p <> 0 ->
  let l := opt_list u ++ c :: opt_list b in
  ispec p (identify_bars p (id_array l) (Z.of_nat (length l)) (Z.of_nat (length (opt_list u))))
    h i (fun _ i1 evs => i1 = set_roles u b i /\ evs = []).
Proof.
  intros Hp l. unfold identify_bars. cbv zeta.
  apply ispec_bug; [by apply Z.eqb_neq|].
  subst l. destruct u as [x|], b as [y|]; cbn;
    repeat first [apply ispec_upd | by apply ispec_ret].
Qed.

(** Any other arrangement leaves the roles as they were. *)
Lemma identify_bars_other p l n pos h i :
  p <> 0 -> ~ (n = 2 /\ (pos = 0 \/ pos = 1)) -> ~ (n = 3 /\ pos = 1) ->
  ispec p (identify_bars p l n pos) h i (fun _ i1 evs => i1 = i /\ evs = []).
Proof.
  intros Hp H2 H3. unfold identify_bars. cbv zeta.
  apply ispec_bug; [by apply Z.eqb_neq|].
  destruct (Z.eqb_spec n 1); [by apply ispec_ret|].
  destruct (Z.eqb_spec n 2).
  { destruct (Z.eqb_spec pos 0); [lia|]. destruct (Z.eqb_spec pos 1); [lia|].
    by apply ispec_ret. }
  destruct (Z.eqb_spec n 3); [|by apply ispec_ret].
  destruct (Z.eqb_spec pos 1); [lia|]. by apply ispec_ret.
Qed.

(** *** One iteration of [map_bars] *)

(** The two identification reads of a BAR mapped at [a]. *)
Definition probe_reads (a irq cfg : Z) : list kcall :=
  [KRead32 (reg interrupt_regs (a + XDMA_OFS_INT_CTRL) "identifier") irq;
   KRead32 (reg config_regs (a + XDMA_OFS_CONFIG) "identifier") cfg].

Inductive body_result (dev : pci_device) (j : Z) (lst : list (option Z)) (n pos : Z)
    (i : dev_inst) :
    list (option Z) * Z * Z + Z -> dev_inst -> list kcall -> Prop :=
  | body_absent :
      u64 (resource_len dev j) = 0 ->
      body_result dev j lst n pos i (inl (lst, n, pos))
        (i <| bar := <[Z.to_nat j := 0]> (bar i) |>) []
  | body_failed :
      u64 (resource_len dev j) <> 0 ->
      body_result dev j lst n pos i (inr (-1))
        (i <| bar := <[Z.to_nat j := 0]> (bar i) |>)
        [KIomap (pdev dev) j (map_len dev j) 0]
  | body_mapped a :
      u64 (resource_len dev j) <> 0 -> 0 < a ->
      map_len dev j < XDMA_BAR_SIZE \/ 0 <= config_bar_idx i ->
      body_result dev j lst n pos i
        (inl (<[Z.to_nat n := Some j]> lst, n + 1, pos))
        (i <| bar := <[Z.to_nat j := a]> (bar i) |>)
        [KIomap (pdev dev) j (map_len dev j) a]
  | body_probed a irq cfg :
      u64 (resource_len dev j) <> 0 -> 0 < a ->
      XDMA_BAR_SIZE <= map_len dev j -> config_bar_idx i < 0 ->
      body_result dev j lst n pos i
        (inl (<[Z.to_nat n := Some j]> lst, n + 1,
              if is_xdma_config irq cfg then n else pos))
        (if is_xdma_config irq cfg
         then i <| bar := <[Z.to_nat j := a]> (bar i) |> <| config_bar_idx := j |>
         else i <| bar := <[Z.to_nat j := a]> (bar i) |>)
        (KIomap (pdev dev) j (map_len dev j) a :: probe_reads a irq cfg).

Lemma is_config_bar_spec p idx a h i {B} (k : Z -> kprog B) R :
  0 <= idx -> bar i !! Z.to_nat idx = Some a ->
  (forall irq cfg,
     ispec p (k (if is_xdma_config irq cfg then 1 else 0)) (h ++ probe_reads a irq cfg) i
       (fun b i1 e1 => R b i1 (probe_reads a irq cfg ++ e1))) ->
  ispec p (pbind (is_config_bar p idx) k) h i R.
Proof.
  intros ? Ha Hk. eapply (ispec_bind p _ _ _ _ (fun r i1 e1 => i1 = i /\ exists irq cfg,
    r = (if is_xdma_config irq cfg then 1 else 0) /\ e1 = probe_reads a irq cfg)).
  - unfold is_config_bar. eapply bar_get_spec; [done..|].
    apply ispec_ask, ispec_ask, ispec_ret. split; [done|]. by eexists _, _.
  - by intros r i1 e1 (-> & irq & cfg & -> & ->).
Qed.

Lemma map_bars_body_spec p dev j lst n pos h i :
  0 <= j < Z.of_nat (length (bar i)) -> 0 <= n < Z.of_nat (length lst) ->
  ispec p (map_bars_body p dev j (lst, n, pos)) h i (body_result dev j lst n pos i).
Proof.
  intros Hj Hn. unfold map_bars_body.
  eapply ispec_bind; [by apply map_single_bar_spec|]. cbn beta.
  intros r i1 e1 [(Hl & -> & -> & ->)|(Hl & a & Ha0 & -> & -> & ->)].
  { apply ispec_ret. by apply body_absent. }
  pose proof (map_len_range dev j).
  assert (0 < map_len dev j).
  { unfold map_len in *. pose proof (u64_range (resource_len dev j)).
    unfold INT_MAX. lia. }
  destruct (Z.eqb_spec a 0) as [->|Ha].
  { apply ispec_ret. by apply body_failed. }
  rewrite (proj2 (Z.eqb_neq _ _)), (proj2 (Z.ltb_ge _ _)) by lia.
  apply ispec_get. cbn [config_bar_idx set_field set_bar].
  rewrite u64_small by (unfold INT_MAX in *; lia).
  destruct (Z.leb_spec XDMA_BAR_SIZE (map_len dev j)) as [Hbig|Hbig];
    [destruct (Z.ltb_spec (config_bar_idx i) 0) as [Hc|Hc]|]; cbn [andb].
  - apply (ispec_bind p _ _ _ _ (fun q i2 e2 => exists irq cfg,
      q = (if is_xdma_config irq cfg then n else pos) /\
      i2 = (if is_xdma_config irq cfg
            then i <| bar := <[Z.to_nat j := a]> (bar i) |> <| config_bar_idx := j |>
            else i <| bar := <[Z.to_nat j := a]> (bar i) |>) /\
      e2 = probe_reads a irq cfg)).
    + eapply is_config_bar_spec; [lia|cbn; apply list_lookup_insert_eq; lia|].
      intros irq cfg. destruct (is_xdma_config irq cfg) eqn:E; cbn.
      * apply ispec_upd, ispec_ret. exists irq, cfg. by rewrite E.
      * apply ispec_ret. exists irq, cfg. by rewrite E.
    + intros q i2 e2 (irq & cfg & -> & -> & ->). rewrite nth_set_ok, pbind_ret by done.
      apply ispec_ret. rewrite app_nil_r. apply body_probed; (done || lia).
  - rewrite pbind_ret, nth_set_ok, pbind_ret by done. apply ispec_ret.
    apply body_mapped; auto with lia.
  - rewrite pbind_ret, nth_set_ok, pbind_ret by done. apply ispec_ret.
    apply body_mapped; auto with lia.
Qed.

(** *** The loop of [map_bars] *)

Lemma maps_of_app l1 l2 : maps_of (l1 ++ l2) = maps_of l1 ⊎ maps_of l2.
Proof.
  unfold maps_of. by rewrite list.filter_app, fmap_app, list_to_set_disj_app.
Qed.

Lemma maps_of_insert l n a :
  l !! n = Some 0 ->
  maps_of (<[n := a]> l) = (if a =? 0 then ∅ else {[+ RMap a +]}) ⊎ maps_of l.
Proof.
  intros Hn. assert (Hlt : (n < length l)%nat) by by eapply lookup_lt_Some.
  rewrite <- (take_drop_middle l n 0 Hn) at 2.
  rewrite insert_take_drop by done.
  rewrite !maps_of_app.
  change (a :: drop (S n) l) with ([a] ++ drop (S n) l).
  change (0 :: drop (S n) l) with ([0] ++ drop (S n) l). rewrite !maps_of_app.
  assert (H0 : maps_of [0] = ∅) by done. rewrite H0.
  assert (Ha : maps_of [a] = if a =? 0 then ∅ else {[+ RMap a +]}).
  { unfold maps_of. destruct (Z.eqb_spec a 0).
    - by rewrite filter_cons_False by (intros ?; done).
    - rewrite filter_cons_True by done. apply gmultiset_disj_union_right_id. }
  rewrite Ha. multiset_solver.
Qed.

(** The slots below [j] hold exactly the present BARs, the others are NULL. *)
Definition bars_below (dev : pci_device) (j : Z) (l : list Z) : Prop :=
  length l = Z.to_nat XDMA_BAR_NUM /\
  forall k, 0 <= k < XDMA_BAR_NUM -> exists b, l !! Z.to_nat k = Some b /\ 0 <= b /\
    (b = 0 <-> u64 (resource_len dev k) = 0 \/ j <= k).

(** What the calls hold, and which accesses they allow. *)
Definition bars_held (dev : pci_device) (l : list Z) (evs : list kcall) : Prop :=
  acquires (maps_of l) evs /\
  exists M, mmio_grows [] M evs /\
    forall k b, 0 <= k -> l !! Z.to_nat k = Some b -> b <> 0 -> (b, map_len dev k) ∈ M.

Lemma bars_below_insert dev j l a :
  bars_below dev j l -> 0 <= j < XDMA_BAR_NUM -> 0 <= a ->
  (a = 0 <-> u64 (resource_len dev j) = 0) ->
  bars_below dev (j + 1) (<[Z.to_nat j := a]> l).
Proof.
  intros [Hlen Hl] Hj Ha0 Ha. split; [by rewrite length_insert|].
  intros k Hk. destruct (decide (k = j)) as [->|Hne].
  - exists a. split; [apply list_lookup_insert_eq; lia|]. rewrite Ha. lia.
  - destruct (Hl k Hk) as (b & Hb & Hb0 & Hiff). exists b.
    rewrite list_lookup_insert_ne by lia. split; [done|]. rewrite Hiff. lia.
Qed.

Lemma bars_below_null dev j l :
  bars_below dev j l -> 0 <= j < XDMA_BAR_NUM -> l !! Z.to_nat j = Some 0.
Proof.
  intros [_ Hl] Hj. destruct (Hl j Hj) as (b & Hb & _ & Hiff).
  assert (b = 0) as -> by (apply Hiff; lia). done.
Qed.

(** An access to a 32-bit register of a mapping that reaches it. *)
Lemma access_in_map M a len off :
  (a, len) ∈ M -> 0 <= off -> off + 4 <= len -> existsb (in_map (a + off)) M = true.
Proof.
  intros Hin ? ?. apply existsb_exists. exists (a, len). split; [by apply list_elem_of_In|].
  unfold in_map. cbn. apply andb_true_intro. split; apply Z.leb_le; lia.
Qed.

Lemma bars_held_map dev j l a evs :
  bars_held dev l evs -> 0 <= j -> l !! Z.to_nat j = Some 0 -> a <> 0 ->
  bars_held dev (<[Z.to_nat j := a]> l) (evs ++ [KIomap (pdev dev) j (map_len dev j) a]).
Proof.
  intros (Hacq & M & Hm & HM) Hj0 Hj Ha.
  assert (HaB : (a =? 0) = false) by by apply Z.eqb_neq. split.
  - rewrite maps_of_insert by done. rewrite HaB.
    apply acquires_app; [done|]. apply acquires_one. intros L. cbn. by rewrite HaB.
  - exists ((a, map_len dev j) :: M). split.
    + eapply mmio_grows_app; [done|]. intros K. cbn. by rewrite HaB.
    + intros k b Hk Hb Hb0. destruct (decide (Z.to_nat k = Z.to_nat j)) as [E|Hne].
      * rewrite E, list_lookup_insert_eq in Hb by (by eapply lookup_lt_Some).
        injection Hb as <-. assert (k = j) as -> by lia. set_solver.
      * rewrite list_lookup_insert_ne in Hb by lia. set_solver.
Qed.

Lemma bars_held_skip dev l evs e :
  bars_held dev l evs -> (forall L, ledger_step L e = Some L) ->
  (forall M, mmio_grows [] M evs ->
     (forall k b, 0 <= k -> l !! Z.to_nat k = Some b -> b <> 0 -> (b, map_len dev k) ∈ M) ->
     mmio_grows M M [e]) ->
  bars_held dev l (evs ++ [e]).
Proof.
  intros (Hacq & M & Hm & HM) He Hme. split.
  - rewrite <- (gmultiset_disj_union_left_id (maps_of l)).
    apply acquires_app; [done|by apply acquires_skip].
  - exists M. split; [|done]. eapply mmio_grows_app; eauto.
Qed.

(** A register access inside BAR [k] keeps the invariant. *)
Lemma bars_held_access dev l evs k b off e :
  bars_held dev l evs -> 0 <= k -> l !! Z.to_nat k = Some b -> b <> 0 ->
  0 <= off -> off + 4 <= map_len dev k ->
  (exists v, e = KRead32 (b + off) v \/ e = KWrite32 (b + off) v) ->
  bars_held dev l (evs ++ [e]).
Proof.
  intros Hheld Hk Hb Hb0 Hoff Hlen He. apply bars_held_skip; [done| |].
  - by destruct He as (v & [-> | ->]).
  - intros M _ HM. eapply mmio_grows_access; [done|].
    eapply access_in_map; [by apply (HM k)|done..].
Qed.

(** A call that is an access of the mapping at [b], or no concern of the
    monitors. *)
Definition inside (b len : Z) (e : kcall) : Prop :=
  (exists off v, 0 <= off /\ off + 4 <= len /\
     (e = KRead32 (b + off) v \/ e = KWrite32 (b + off) v)) \/
  ((forall L, ledger_step L e = Some L) /\ (forall M, mmio_step M e = Some M)).

Lemma bars_held_inside dev l evs k b e2 :
  bars_held dev l evs -> 0 <= k -> l !! Z.to_nat k = Some b -> b <> 0 ->
  Forall (inside b (map_len dev k)) e2 -> bars_held dev l (evs ++ e2).
Proof.
  intros Hheld Hk Hb Hb0 He. revert evs Hheld.
  induction He as [|e e2 He _ IH]; intros evs Hheld; [by rewrite app_nil_r|].
  rewrite cons_middle, app_assoc. apply IH.
  destruct He as [(off & v & ? & ? & ?)|[HL HM]].
  - apply (bars_held_access _ _ _ k b off); eauto.
  - apply bars_held_skip; [done..|]. intros M _ _ K. cbn. by rewrite HM.
Qed.

Lemma bars_held_probe dev l evs k a irq cfg :
  bars_held dev l evs -> 0 <= k -> l !! Z.to_nat k = Some a -> a <> 0 ->
  XDMA_BAR_SIZE <= map_len dev k ->
  bars_held dev l (evs ++ probe_reads a irq cfg).
Proof.
  intros Hheld Hk Ha Ha0 Hlen. unfold XDMA_BAR_SIZE in Hlen.
  change (probe_reads a irq cfg) with
    ([KRead32 (reg interrupt_regs (a + XDMA_OFS_INT_CTRL) "identifier") irq] ++
     [KRead32 (reg config_regs (a + XDMA_OFS_CONFIG) "identifier") cfg]).
  rewrite app_assoc.
  eapply (bars_held_access _ _ _ k a XDMA_OFS_CONFIG); [|done..|unfold XDMA_OFS_CONFIG; lia| |].
  - eapply (bars_held_access _ _ _ k a XDMA_OFS_INT_CTRL);
      [done..|unfold XDMA_OFS_INT_CTRL; lia|].
    exists irq. left. unfold reg. cbn. by rewrite Z.add_0_r.
  - unfold XDMA_OFS_CONFIG; lia.
  - exists cfg. left. unfold reg. cbn. by rewrite Z.add_0_r.
Qed.

(** Only the BAR table and the config index differ from [i0]. *)
Definition only_bars (i0 i1 : dev_inst) : Prop :=
  i1 = i0 <| bar := bar i1 |> <| config_bar_idx := config_bar_idx i1 |>.

Lemma only_bars_bar i0 i1 l : only_bars i0 i1 -> only_bars i0 (i1 <| bar := l |>).
Proof. intros Ho. exact (f_equal (fun x => x <| bar := l |>) Ho). Qed.

Lemma only_bars_config i0 i1 c :
  only_bars i0 i1 -> only_bars i0 (i1 <| config_bar_idx := c |>).
Proof. intros Ho. exact (f_equal (fun x => x <| config_bar_idx := c |>) Ho). Qed.

Definition res_inv (dev : pci_device) (i0 : dev_inst) (j : Z)
    (_ : list (option Z) * Z * Z) (i1 : dev_inst) (evs : list kcall) : Prop :=
  bars_below dev j (bar i1) /\ bars_held dev (bar i1) evs /\ only_bars i0 i1.

Lemma res_inv_step dev i0 j lst n pos i1 e1 o i2 e2 :
  0 <= j < XDMA_BAR_NUM -> res_inv dev i0 j (lst, n, pos) i1 e1 ->
  body_result dev j lst n pos i1 o i2 e2 ->
  match o with
  | inl l => res_inv dev i0 (j + 1) l i2 (e1 ++ e2)
  | inr r => r = -1 /\ length (bar i2) = Z.to_nat XDMA_BAR_NUM /\
             bars_held dev (bar i2) (e1 ++ e2) /\ only_bars i0 i2
  end.
Proof.
  intros Hj (Hb & Hh & Ho) Hr. pose proof (bars_below_null _ _ _ Hb Hj) as H0.
  assert (Hid : <[Z.to_nat j := 0]> (bar i1) = bar i1) by by apply list_insert_id.
  assert (Hlt : (Z.to_nat j < length (bar i1))%nat) by by eapply lookup_lt_Some.
  destruct Hr as [Hl|Hl|a Hl Ha Hn|a irq cfg Hl Ha Hbig Hc].
  - rewrite Hid, app_nil_r. split; [|split; [done|]].
    + cbn. rewrite <- Hid. apply bars_below_insert; (lia || done || by split; intros; lia).
    + by apply only_bars_bar.
  - rewrite Hid. split; [done|]. split; [apply Hb|]. split.
    + apply bars_held_skip; [done|by intros|]. intros M _ _ K. done.
    + by apply only_bars_bar.
  - split; [|split].
    + apply bars_below_insert; (lia || done || by split; intros; lia).
    + apply bars_held_map; (done || lia).
    + by apply only_bars_bar.
  - assert (Hlk : <[Z.to_nat j := a]> (bar i1) !! Z.to_nat j = Some a)
      by by apply list_lookup_insert_eq.
    split; [|split].
    + destruct (is_xdma_config irq cfg); cbn; apply bars_below_insert; (lia || done || by split; intros; lia).
    + rewrite cons_middle, app_assoc.
      destruct (is_xdma_config irq cfg); cbn [bar set_field set_bar set_config_bar_idx];
        (apply (bars_held_probe _ _ _ j); [apply bars_held_map; (done || lia)|(done || lia)..]).
    + destruct (is_xdma_config irq cfg);
        [apply only_bars_config|]; by apply only_bars_bar.
Qed.

(** *** Which BAR is the XDMA config BAR *)

(** The present BARs below [j], in order. *)
Definition present (dev : pci_device) (j : Z) : list Z :=
  filter (fun k => u64 (resource_len dev k) <> 0) (seqZ 0 j).

(** BAR [k] was asked for its identification registers; they were those of
    the XDMA core or not ([sig]). *)
Definition identified (l : list Z) (evs : list kcall) (k : Z) (sig : bool) : Prop :=
  exists a irq cfg, l !! Z.to_nat k = Some a /\ probe_reads a irq cfg ⊆ evs /\
    is_xdma_config irq cfg = sig.

Definition big (dev : pci_device) (k : Z) : Prop := XDMA_BAR_SIZE <= map_len dev k.

(** The config BAR is the first one that is large enough and identifies
    itself; [pos] is its position among the present BARs. *)
Definition config_is (dev : pci_device) (j : Z) (c pos : Z) (l : list Z)
    (evs : list kcall) : Prop :=
  0 <= c < j /\ big dev c /\ identified l evs c true /\ 0 <= pos /\
  present dev j !! Z.to_nat pos = Some c /\
  forall k, 0 <= k < c -> big dev k -> identified l evs k false.

Definition no_config (dev : pci_device) (j : Z) (l : list Z) (evs : list kcall) : Prop :=
  forall k, 0 <= k < j -> big dev k -> identified l evs k false.

Definition id_inv (dev : pci_device) (j : Z) (locals : list (option Z) * Z * Z)
    (i1 : dev_inst) (evs : list kcall) : Prop :=
  let '(lst, n, pos) := locals in
  lst = id_array (present dev j) /\ n = Z.of_nat (length (present dev j)) /\
  ((config_bar_idx i1 = -1 /\ no_config dev j (bar i1) evs) \/
   config_is dev j (config_bar_idx i1) pos (bar i1) evs).

Lemma present_S dev j :
  0 <= j ->
  present dev (j + 1) =
    present dev j ++ (if u64 (resource_len dev j) =? 0 then [] else [j]).
Proof.
  intros Hj. unfold present.
  replace (j + 1) with (Z.of_nat (S (Z.to_nat j))) by lia.
  rewrite seqZ_S, list.filter_app. rewrite Z2Nat.id, Z.add_0_l by lia. f_equal.
  destruct (Z.eqb_spec (u64 (resource_len dev j)) 0).
  - by rewrite filter_cons_False by (intros ?; done).
  - by rewrite filter_cons_True.
Qed.

Lemma present_length dev j : 0 <= j -> (length (present dev j) <= Z.to_nat j)%nat.
Proof.
  intros Hj. unfold present. rewrite <- (length_seqZ 0 j).
  apply length_filter.
Qed.

Lemma id_array_snoc l j :
  (length l < Z.to_nat XDMA_BAR_NUM)%nat ->
  <[length l := Some j]> (id_array l) = id_array (l ++ [j]).
Proof.
  intros Hl. unfold id_array. rewrite insert_app_r_alt by (by rewrite length_fmap).
  rewrite length_fmap, Nat.sub_diag, fmap_app, length_app, <- app_assoc. f_equal.
  replace (Z.to_nat XDMA_BAR_NUM - length l)%nat
    with (S (Z.to_nat XDMA_BAR_NUM - (length l + 1))) by (cbn; lia).
  done.
Qed.

Lemma identified_mono l1 l2 e1 e2 k sig :
  identified l1 e1 k sig -> l2 !! Z.to_nat k = l1 !! Z.to_nat k -> e1 ⊆ e2 ->
  identified l2 e2 k sig.
Proof.
  intros (a & irq & cfg & Ha & Hsub & Hs) Hl He. exists a, irq, cfg.
  rewrite Hl. split; [done|]. split; [by etrans|done].
Qed.

Lemma config_is_mono dev j c pos l1 l2 e1 e2 a :
  config_is dev j c pos l1 e1 -> l2 = <[Z.to_nat j := a]> l1 -> e1 ⊆ e2 ->
  config_is dev (j + 1) c pos l2 e2.
Proof.
  intros (Hc & Hbig & Hid & Hpos & Hpr & Hk) -> He.
  split; [lia|]. split; [done|]. split; [|split; [done|split]].
  - eapply identified_mono; [done| |done]. apply list_lookup_insert_ne. lia.
  - rewrite present_S by lia. by apply lookup_app_l_Some.
  - intros k Hkc Hkb. eapply identified_mono; [by apply Hk| |done].
    apply list_lookup_insert_ne. lia.
Qed.

Lemma no_config_mono dev j l1 l2 e1 e2 a :
  no_config dev j l1 e1 -> l2 = <[Z.to_nat j := a]> l1 -> e1 ⊆ e2 ->
  (big dev j -> identified l2 e2 j false) -> no_config dev (j + 1) l2 e2.
Proof.
  intros Hn -> He Hj k Hk Hb. destruct (decide (k = j)) as [->|]; [by apply Hj|].
  eapply identified_mono; [apply Hn; [lia|done]| |done]. apply list_lookup_insert_ne. lia.
Qed.

Lemma big_present dev j : big dev j -> u64 (resource_len dev j) <> 0.
Proof. unfold big, map_len, XDMA_BAR_SIZE, INT_MAX. lia. Qed.

Lemma probe_identified l e1 e2 j a irq cfg :
  (Z.to_nat j < length l)%nat ->
  identified (<[Z.to_nat j := a]> l) (e1 ++ e2 :: probe_reads a irq cfg) j
    (is_xdma_config irq cfg).
Proof.
  intros Hj. exists a, irq, cfg. rewrite list_lookup_insert_eq by done.
  split; [done|]. split; [|done]. set_solver.
Qed.

Lemma id_inv_step dev j lst n pos i1 e1 l2 i2 e2 :
  0 <= j < XDMA_BAR_NUM -> length (bar i1) = Z.to_nat XDMA_BAR_NUM ->
  id_inv dev j (lst, n, pos) i1 e1 ->
  body_result dev j lst n pos i1 (inl l2) i2 e2 ->
  id_inv dev (j + 1) l2 i2 (e1 ++ e2).
Proof.
  intros Hj Hlen (-> & -> & Hcfg) Hr.
  assert (Hlt : (Z.to_nat j < length (bar i1))%nat) by lia.
  pose proof (present_length dev j ltac:(lia)) as Hpl.
  assert (Hsub : e1 ⊆ e1 ++ e2) by set_solver.
  inversion Hr as [Hl|Hl|a Hl Ha Hn|a irq cfg Hl Ha Hbig Hc]; subst;
    (split; [rewrite present_S by lia|split; [rewrite present_S by lia|]]).
  all: try (rewrite (proj2 (Z.eqb_eq _ _) Hl), app_nil_r; done).
  all: try (rewrite (proj2 (Z.eqb_neq _ _) Hl)).
  all: try (rewrite Nat2Z.id; apply id_array_snoc; lia).
  all: try (rewrite length_app; cbn; lia).
  - destruct Hcfg as [[Hc Hno]|Hc]; [left; split; [done|]|right].
    + eapply no_config_mono; [done..|]. intros Hb%big_present. done.
    + by eapply config_is_mono.
  - destruct Hcfg as [[Hc Hno]|Hc]; [left; split; [done|]|right].
    + eapply no_config_mono; [done..|]. unfold big. lia.
    + by eapply config_is_mono.
  - destruct Hcfg as [[Hc1 Hno]|Hc1]; [|destruct Hc1; lia].
    pose proof (probe_identified (bar i1) e1 (KIomap (pdev dev) j (map_len dev j) a)
                  j a irq cfg Hlt) as Hid.
    destruct (is_xdma_config irq cfg); cbn; [right|left; split; [done|]].
    + split; [lia|]. split; [done|]. split; [done|]. split; [lia|]. split.
      * rewrite present_S, (proj2 (Z.eqb_neq _ _) Hl), Nat2Z.id by lia.
        by apply list_lookup_middle.
      * intros k Hk Hb. eapply identified_mono; [by apply Hno| |done].
        apply list_lookup_insert_ne. lia.
    + by eapply no_config_mono.
Qed.

(** *** [map_bars] *)

Definition failed_map (dev : pci_device) (evs : list kcall) : Prop :=
  exists k, KIomap (pdev dev) k (map_len dev k) 0 ∈ evs.

Lemma map_bars_loop p dev h i :
  bar i = no_bars -> config_bar_idx i = -1 ->
  ispec p (for_loop (Z.to_nat XDMA_BAR_NUM) 0
             (replicate (Z.to_nat XDMA_BAR_NUM) None, 0, 0) (map_bars_body p dev)) h i
    (fun o i1 evs => match o with
       | inl l => res_inv dev i XDMA_BAR_NUM l i1 evs /\ id_inv dev XDMA_BAR_NUM l i1 evs
       | inr r => r = -1 /\ length (bar i1) = Z.to_nat XDMA_BAR_NUM /\
                  bars_held dev (bar i1) evs /\ only_bars i i1 /\ failed_map dev evs
       end).
Proof.
  intros Hbar Hcfg.
  apply (ispec_loop p (fun j l i1 e1 =>
    0 <= j /\ res_inv dev i j l i1 e1 /\ id_inv dev j l i1 e1)).
  - split; [done|]. split; [split; [|split]|].
    + rewrite Hbar. split; [done|]. intros k Hk. exists 0. split; [|by split; [|split; [right; lia|]]].
      apply lookup_replicate_2. lia.
    + rewrite Hbar. split; [apply acquires_nil|]. exists []. split; [done|].
      intros k b _ Hb%lookup_replicate_1. naive_solver.
    + by destruct i.
    + split; [done|]. split; [done|]. left. split; [done|]. intros k ?. lia.
  - intros j [[lst n] pos] i1 e1 Hj (_ & Hres & Hid).
    assert (Hid' := Hid). destruct Hid' as (-> & -> & _).
    pose proof (present_length dev j ltac:(lia)) as Hpl.
    pose proof (proj1 (proj1 Hres)) as Hlen.
    eapply ispec_conseq; [apply map_bars_body_spec|].
    + rewrite Hlen. lia.
    + unfold id_array. rewrite length_app, length_fmap, length_replicate. lia.
    + intros o i2 e2 Hr. pose proof (res_inv_step _ _ _ _ _ _ _ _ _ _ _ Hj Hres Hr) as Hs.
      destruct o as [l2|r].
      * split; [lia|]. split; [done|]. by eapply id_inv_step.
      * destruct Hs as (? & ? & ? & ?). do 4 (split; [done|]). exists j.
        inversion Hr. set_solver.
  - intros l i1 e1 (_ & ? & ?). done.
Qed.

(** The roles of the other BARs, as the comment of [identify_bars] gives
    them: user logic comes before the config BAR, bypass logic after it. *)
Definition layout_roles (l : list Z) (c : Z) : option Z * option Z :=
  match l with
  | [x; y] => if c =? x then (None, Some y) else (Some x, None)
  | [x; y; z] => if c =? y then (Some x, Some z) else (None, None)
  | _ => (None, None)
  end.

Definition mapped (dev : pci_device) (i i1 : dev_inst) (evs : list kcall) : Prop :=
  let c := config_bar_idx i1 in
  let roles := layout_roles (present dev XDMA_BAR_NUM) c in
  bars_below dev XDMA_BAR_NUM (bar i1) /\ bars_held dev (bar i1) evs /\
  (exists pos, config_is dev XDMA_BAR_NUM c pos (bar i1) evs) /\
  i1 = set_roles (roles.1) (roles.2) (i <| bar := bar i1 |> <| config_bar_idx := c |>).

Definition unmapped (dev : pci_device) (i i1 : dev_inst) (evs : list kcall) : Prop :=
  bar i1 = no_bars /\ only_bars i i1 /\ acquires ∅ evs /\ is_Some (mmio [] evs) /\
  (failed_map dev evs \/ exists l e1, e1 ⊆ evs /\ no_config dev XDMA_BAR_NUM l e1).

Lemma mmio_unmap_calls dev l M : is_Some (mmio M (unmap_calls dev l)).
Proof.
  unfold unmap_calls. revert M. induction (filter _ l) as [|b bs IH]; intros M; cbn; eauto.
Qed.

Lemma bars_held_unmap dev l evs :
  bars_held dev l evs ->
  acquires ∅ (evs ++ unmap_calls dev l) /\ is_Some (mmio [] (evs ++ unmap_calls dev l)).
Proof.
  intros (Hacq & M & Hm & _). split.
  - eapply acquires_releases; [done|apply unmap_calls_releases].
  - specialize (Hm []). rewrite app_nil_r in Hm.
    rewrite mmio_app. cbn [app] in Hm. rewrite Hm. apply mmio_unmap_calls.
Qed.

Lemma identify_bars_roles p l pos c h i :
  p <> 0 -> NoDup l -> 0 <= pos -> l !! Z.to_nat pos = Some c ->
  ispec p (identify_bars p (id_array l) (Z.of_nat (length l)) pos) h i (fun _ i1 evs =>
    i1 = set_roles (layout_roles l c).1 (layout_roles l c).2 i /\ evs = []).
Proof.
  intros Hp Hnd Hpos Hc. assert (Hlt := lookup_lt_Some _ _ _ Hc).
  assert (Hpos' : pos = Z.of_nat (Z.to_nat pos)) by lia. rewrite Hpos'.
  set (n := Z.to_nat pos) in *. clearbody n. clear pos Hpos Hpos'.
  destruct l as [|x [|y [|z [|w l]]]].
  - done.
  - destruct n as [|n]; [|done]. injection Hc as ->.
    by apply (identify_bars_spec p None c None).
  - destruct n as [|[|n]]; [| |done]; injection Hc as ->; cbn [layout_roles].
    + rewrite Z.eqb_refl. by apply (identify_bars_spec p None c (Some y)).
    + destruct (Z.eqb_spec c x) as [->|_];
        [by pose proof (NoDup_lookup _ 0 1 x Hnd eq_refl eq_refl)|].
      by apply (identify_bars_spec p (Some x) c None).
  - destruct (decide (n = 1%nat)) as [->|Hn].
    + injection Hc as ->. cbn [layout_roles]. rewrite Z.eqb_refl.
      by apply (identify_bars_spec p (Some x) c (Some z)).
    + assert (layout_roles [x; y; z] c = (None, None)) as ->.
      { cbn [layout_roles]. destruct (Z.eqb_spec c y) as [->|]; [|done].
        exfalso. apply Hn. by apply (NoDup_lookup _ _ _ _ Hnd Hc). }
      apply identify_bars_other; [done|cbn; lia|lia].
  - apply identify_bars_other; [done|cbn; lia..].
Qed.

Lemma present_NoDup dev j : NoDup (present dev j).
Proof. apply list.NoDup_filter, NoDup_seqZ. Qed.

Lemma map_bars_fail p dev h i i1 e1 (rc : Z) :
  length (bar i1) = Z.to_nat XDMA_BAR_NUM -> bars_held dev (bar i1) e1 -> only_bars i i1 ->
  failed_map dev e1 \/ (exists l e0, e0 ⊆ e1 /\ no_config dev XDMA_BAR_NUM l e0) ->
  ispec p (unmap_bars p dev;; pret rc) (h ++ e1) i1
    (fun r i2 e2 => r = rc /\ unmapped dev i i2 (e1 ++ e2)).
Proof.
  intros Hlen Hheld Ho Hwhy. eapply ispec_bind; [by apply unmap_bars_spec|].
  intros _ i2 e2 [-> ->]. apply ispec_ret. rewrite app_nil_r. split; [done|].
  destruct (bars_held_unmap _ _ _ Hheld) as [? ?].
  split; [done|]. split; [by apply only_bars_bar|]. split; [done|]. split; [done|].
  destruct Hwhy as [(k & ?)|(l & e0 & ? & ?)]; [left; exists k|right; exists l, e0];
    [|split; [|done]]; set_solver.
Qed.

Theorem map_bars_spec p dev h i :
  p <> 0 -> bar i = no_bars -> config_bar_idx i = -1 ->
  ispec p (map_bars p dev) h i (fun rc i1 evs =>
    (rc = 0 /\ mapped dev i i1 evs) \/ (rc = -1 /\ unmapped dev i i1 evs)).
Proof.
  intros Hp Hbar Hcfg. unfold map_bars. cbv zeta.
  eapply ispec_bind; [by apply map_bars_loop|]. cbn beta.
  intros [[[lst n] pos]|r] i1 e1.
  - intros ((Hb & Hheld & Ho) & (-> & -> & Hid)). apply ispec_get.
    destruct Hid as [[Hc Hno]|Hc].
    + rewrite Hc. cbn [Z.ltb Z.compare].
      eapply ispec_conseq; [eapply map_bars_fail; [apply Hb|done..|eauto]|]. auto.
    + rewrite (proj2 (Z.ltb_ge _ _)) by (destruct Hc; lia).
      eapply ispec_bind.
      { apply identify_bars_roles; [done|apply present_NoDup|apply Hc..]. }
      cbn beta. intros _ i2 e2 [-> ->]. apply ispec_ret. left. split; [done|].
      rewrite !app_nil_r. unfold mapped.
      assert (Hset : forall u b, bar (set_roles u b i1) = bar i1 /\
                config_bar_idx (set_roles u b i1) = config_bar_idx i1)
        by by intros [] [].
      destruct (Hset (layout_roles (present dev XDMA_BAR_NUM) (config_bar_idx i1)).1
                     (layout_roles (present dev XDMA_BAR_NUM) (config_bar_idx i1)).2)
        as [-> ->].
      split; [done|]. split; [done|]. split; [by exists pos|].
      exact (f_equal (set_roles _ _) Ho).
  - intros (-> & Hlen & Hheld & Ho & Hf).
    eapply ispec_conseq; [eapply map_bars_fail; eauto|]. auto.
Qed.
End BarSpecs.
