(* ===== verification/XdmaEngines.v ===== *)
(** * Probing the DMA engines

    [get_engine_channel_id], [get_engine_id], [probe_for_engine] and
    [probe_engines] of [sw/driver/xdma_driver.c]. *)

From stdpp Require Import base gmap gmultiset list strings numbers option.
From S2P Require Import Prelude CInt XdmaRegs Kernel Resources XdmaBars.
Open Scope Z_scope.

Section Engines.
Context `{KernelEnv}.

Definition get_engine_channel_id (regs : Z) : kprog Z :=
  BUG_ON (regs =? 0);;
  let* value := ioread32 (reg engine_regs regs "identifier") in
  pret (Z.shiftr (Z.land value 0x00000f00) 8).

Definition get_engine_id (regs : Z) : kprog Z :=
  BUG_ON (regs =? 0);;
  let* value := ioread32 (reg engine_regs regs "identifier") in
  pret (Z.shiftr (Z.land value 0xffff0000) 16).

Definition probe_for_engine (inst : Z) (dir_to_dev : bool) (channel : Z) : kprog Z :=
  let dir_from_dev := negb dir_to_dev in
  let offset := Z.b2z dir_from_dev * H2C_CHANNEL_OFFSET + channel * CHANNEL_SPACING in
  let* st := inst_get inst in
  let* b := bar_get inst (config_bar_idx st) in
  let regs := b + offset in
  let engine_id_expected := if dir_to_dev then XDMA_ID_H2C else XDMA_ID_C2H in
  let* engine_id := get_engine_id regs in
  let* channel_id := get_engine_channel_id regs in
  if negb (engine_id =? engine_id_expected) then pret 0
  else if negb (channel_id =? channel) then pret 0
  else
    (if dir_to_dev
     then inst_upd inst (fun st => st <| h2c_count := s32 (h2c_count st + 1) |>);; pret tt
     else inst_upd inst (fun st => st <| c2h_count := s32 (c2h_count st + 1) |>);; pret tt);;
    let* st := inst_get inst in
    if dir_from_dev then
      if c2h_engine st =? -1
      then inst_upd inst (fun st => st <| c2h_engine := channel |>);; pret 0
      else pret 0
    else
      if h2c_engine st =? -1
      then inst_upd inst (fun st => st <| h2c_engine := channel |>);; pret 0
      else pret 0.

(** One iteration of the loop of [probe_engines]. *)
Definition probe_engines_body (inst channel : Z) (_ : unit) : kprog (unit + Z) :=
  let* rc := probe_for_engine inst true channel in
  if negb (rc =? 0) then pret (inr rc)
  else
    let* rc := probe_for_engine inst false channel in
    if negb (rc =? 0) then pret (inr rc) else pret (inl tt).

Definition probe_engines (inst : Z) : kprog Z :=
  BUG_ON (inst =? 0);;
  inst_upd inst (fun st => st <| h2c_count := 0 |>);;
  inst_upd inst (fun st => st <| c2h_count := 0 |>);;
  inst_upd inst (fun st => st <| h2c_engine := -1 |>);;
  inst_upd inst (fun st => st <| c2h_engine := -1 |>);;
  let* r := for_loop (Z.to_nat XDMA_CHANNEL_NUM_MAX) 0 tt (probe_engines_body inst) in
  match r with
  | inr rc => pret rc
  | inl _ =>
      let* st := inst_get inst in
      if (h2c_engine st =? -1) || (c2h_engine st =? -1) then pret (- ENODEV)
      else
        let h2c_offset := H2C_CHANNEL_OFFSET + h2c_engine st * CHANNEL_SPACING in
        let c2h_offset := C2H_CHANNEL_OFFSET + c2h_engine st * CHANNEL_SPACING in
        let* b := bar_get inst (config_bar_idx st) in
        inst_upd inst (fun st => st <| h2c_regs := b + h2c_offset |>);;
        let* b := bar_get inst (config_bar_idx st) in
        inst_upd inst (fun st => st <| c2h_regs := b + c2h_offset |>);;
        let* st := inst_get inst in
        iowrite32 0x1 (reg engine_regs (h2c_regs st) "control");;
        iowrite32 0x1 (reg engine_regs (c2h_regs st) "control");;
        inst_upd inst (fun st => st <| desc_bypass_enabled := true |>);;
        kdo KMmiowb;;
        pret 0
  end.
End Engines.

(** ** Specification *)

(** Where [probe_for_engine] looks for the engine of a direction and channel. *)
Definition engine_addr (base : Z) (to_dev : bool) (c : Z) : Z :=
  base + (Z.b2z (negb to_dev) * H2C_CHANNEL_OFFSET + c * CHANNEL_SPACING).

(** The two reads of an engine's identifier, and whether they identify it. *)
Definition engine_reads (base : Z) (to_dev : bool) (c : Z) (v : Z * Z) : list kcall :=
  [KRead32 (reg engine_regs (engine_addr base to_dev c) "identifier") v.1;
   KRead32 (reg engine_regs (engine_addr base to_dev c) "identifier") v.2].

Definition engine_matches (to_dev : bool) (c : Z) (v : Z * Z) : bool :=
  (Z.shiftr (Z.land v.1 0xffff0000) 16 =? if to_dev then XDMA_ID_H2C else XDMA_ID_C2H) &&
  (Z.shiftr (Z.land v.2 0x00000f00) 8 =? c).

(** What a match records in the instance. *)
Definition note_engine (to_dev : bool) (c : Z) (m : bool) (i : dev_inst) : dev_inst :=
  if negb m then i
  else if to_dev then
    let i := i <| h2c_count := s32 (h2c_count i + 1) |> in
    if h2c_engine i =? -1 then i <| h2c_engine := c |> else i
  else
    let i := i <| c2h_count := s32 (c2h_count i + 1) |> in
    if c2h_engine i =? -1 then i <| c2h_engine := c |> else i.

(** The four reads per channel, H2C first, over all channels from [c] on; a
    list [rs] gives the values read for each channel. *)
Fixpoint channel_reads (base c : Z) (rs : list ((Z * Z) * (Z * Z))) : list kcall :=
  match rs with
  | [] => []
  | r :: rs' => engine_reads base true c r.1 ++ engine_reads base false c r.2 ++
                channel_reads base (c + 1) rs'
  end.

(** Which channels answered as engines of the direction. *)
Fixpoint matches (to_dev : bool) (c : Z) (rs : list ((Z * Z) * (Z * Z))) : list bool :=
  match rs with
  | [] => []
  | r :: rs' => engine_matches to_dev c (if to_dev then r.1 else r.2) ::
                matches to_dev (c + 1) rs'
  end.

(** The lowest channel that matches, or -1, and how many match. *)
Fixpoint first_true (c : Z) (l : list bool) : Z :=
  match l with
  | [] => -1
  | b :: l' => if b then c else first_true (c + 1) l'
  end.

Fixpoint num_true (l : list bool) : Z :=
  match l with
  | [] => 0
  | b :: l' => Z.b2z b + num_true l'
  end.

Definition set_engines (nh nc fh fc : Z) (i : dev_inst) : dev_inst :=
  i <| h2c_count := nh |> <| c2h_count := nc |> <| h2c_engine := fh |> <| c2h_engine := fc |>.

Lemma channel_reads_snoc base c rs r :
  channel_reads base c (rs ++ [r]) =
  channel_reads base c rs ++ engine_reads base true (c + Z.of_nat (length rs)) r.1 ++
  engine_reads base false (c + Z.of_nat (length rs)) r.2.
Proof.
  revert c. induction rs as [|r0 rs IH]; intros c; cbn [channel_reads app length].
  - by rewrite Z.add_0_r, app_nil_r.
  - rewrite IH, <- !app_assoc. do 3 f_equal;
      replace (c + 1 + Z.of_nat (length rs)) with (c + Z.of_nat (S (length rs))) by lia; done.
Qed.

Lemma matches_snoc d c rs r :
  matches d c (rs ++ [r]) =
  matches d c rs ++
    [engine_matches d (c + Z.of_nat (length rs)) (if d then r.1 else r.2)].
Proof.
  revert c. induction rs as [|r0 rs IH]; intros c; cbn [matches app length].
  - by rewrite Z.add_0_r.
  - rewrite IH. by replace (c + 1 + Z.of_nat (length rs))
      with (c + Z.of_nat (S (length rs))) by lia.
Qed.

Lemma length_matches d c rs : length (matches d c rs) = length rs.
Proof. revert c. induction rs; intros c; cbn; auto. Qed.

Lemma first_true_snoc c l b :
  0 <= c ->
  first_true c (l ++ [b]) =
    if first_true c l =? -1 then (if b then c + Z.of_nat (length l) else -1)
    else first_true c l.
Proof.
  revert c. induction l as [|a l IH]; intros c Hc; cbn [first_true app length].
  - by rewrite Z.add_0_r.
  - destruct a; [by rewrite (proj2 (Z.eqb_neq c (-1))) by lia|].
    rewrite IH by lia.
    by replace (c + 1 + Z.of_nat (length l)) with (c + Z.of_nat (S (length l))) by lia.
Qed.

Lemma num_true_snoc l b : num_true (l ++ [b]) = num_true l + Z.b2z b.
Proof. induction l as [|a l IH]; cbn [num_true app]; [|rewrite IH]; lia. Qed.

Lemma num_true_range l : 0 <= num_true l <= Z.of_nat (length l).
Proof. induction l as [|[] l IH]; cbn [num_true length Z.b2z]; lia. Qed.

Lemma first_true_range c l :
  first_true c l = -1 \/ c <= first_true c l < c + Z.of_nat (length l).
Proof.
  revert c. induction l as [|[] l IH]; intros c; cbn [first_true length]; [auto|lia|].
  specialize (IH (c + 1)). lia.
Qed.

(** It is the lowest one: it matches, and no lower one does. *)
Lemma first_true_spec l n :
  first_true 0 l = Z.of_nat n <->
  l !! n = Some true /\ forall m, (m < n)%nat -> l !! m = Some false.
Proof.
  assert (G : forall c, 0 <= c -> (first_true c l = c + Z.of_nat n <->
    l !! n = Some true /\ forall m, (m < n)%nat -> l !! m = Some false)); [|apply (G 0); lia].
  revert n. induction l as [|b l IH]; intros n c Hc; cbn [first_true].
  { split; [lia|by intros [? _]]. }
  destruct b.
  - split.
    + intros ?. assert (n = 0%nat) as -> by lia. split; [done|lia].
    + intros [_ Hm]. destruct n as [|n]; [lia|]. by specialize (Hm 0%nat ltac:(lia)).
  - destruct n as [|n].
    + split; [|by intros [? _]]. destruct (first_true_range (c + 1) l); lia.
    + specialize (IH n (c + 1) ltac:(lia)).
      replace (c + Z.of_nat (S n)) with (c + 1 + Z.of_nat n) by lia. rewrite IH. cbn.
      split; intros [Ht Hm]; (split; [done|]).
      * intros [|m] ?; [done|]. apply Hm. lia.
      * intros m ?. apply (Hm (S m)). lia.
Qed.

Lemma note_channel rs r i :
  (length rs < 4)%nat ->
  let ms d := matches d 0 rs in
  let ms' d := matches d 0 (rs ++ [r]) in
  let c := Z.of_nat (length rs) in
  note_engine false c (engine_matches false c r.2)
    (note_engine true c (engine_matches true c r.1)
      (set_engines (num_true (ms true)) (num_true (ms false))
         (first_true 0 (ms true)) (first_true 0 (ms false)) i)) =
  set_engines (num_true (ms' true)) (num_true (ms' false))
    (first_true 0 (ms' true)) (first_true 0 (ms' false)) i.
Proof.
  intros Hlt. cbv beta zeta. rewrite !matches_snoc, !num_true_snoc, !first_true_snoc by lia.
  rewrite !length_matches, !Z.add_0_l.
  pose proof (num_true_range (matches true 0 rs)).
  pose proof (num_true_range (matches false 0 rs)). rewrite !length_matches in *.
  destruct (engine_matches true _ r.1), (engine_matches false _ r.2);
    unfold note_engine; cbn; rewrite ?s32_small by lia; rewrite ?Z.add_0_r;
    destruct (Z.eqb_spec (first_true 0 (matches true 0 rs)) (-1)) as [E1|];
    destruct (Z.eqb_spec (first_true 0 (matches false 0 rs)) (-1)) as [E2|];
    rewrite ?E1, ?E2; cbn; rewrite ?s32_small by lia; rewrite ?E1, ?E2;
    repeat (rewrite (proj2 (Z.eqb_neq _ (-1))) by done); done.
Qed.

Section EngineSpecs.
Context `{KernelEnv}.
Implicit Types (h : hist) (i : dev_inst).

Lemma probe_for_engine_spec p to_dev c base h i {B} (k : Z -> kprog B) R :
  0 <= config_bar_idx i -> bar i !! Z.to_nat (config_bar_idx i) = Some base ->
  engine_addr base to_dev c <> 0 ->
  (forall v, ispec p (k 0) (h ++ engine_reads base to_dev c v)
     (note_engine to_dev c (engine_matches to_dev c v) i)
     (fun b i1 e1 => R b i1 (engine_reads base to_dev c v ++ e1))) ->
  ispec p (pbind (probe_for_engine p to_dev c) k) h i R.
Proof.
  intros Hc Hb Hnz Hk. eapply (ispec_bind p _ _ _ _ (fun r i1 e1 => r = 0 /\ exists v,
    e1 = engine_reads base to_dev c v /\
    i1 = note_engine to_dev c (engine_matches to_dev c v) i)).
  2: by intros r i1 e1 (-> & v & -> & ->).
  unfold probe_for_engine. cbv zeta. apply ispec_get.
  eapply bar_get_spec; [done..|]. fold (engine_addr base to_dev c).
  assert (Hnz' : (engine_addr base to_dev c =? 0) = false) by by apply Z.eqb_neq.
  unfold get_engine_id, get_engine_channel_id, ioread32.
  do 2 (ispec_step; apply ispec_bug; [done|]; do 3 ispec_step).
  match goal with |- context [KRead32 _ ?x] => set (v1 := x) end.
  match goal with |- context [KRead32 _ v1 :: KRead32 _ ?x :: _] => set (v2 := x) end.
  assert (Hgoal : forall j (m : bool),
    engine_matches to_dev c (v1, v2) = m -> j = note_engine to_dev c m i ->
    ispec p (pret 0) ((h ++ [KRead32 (reg engine_regs (engine_addr base to_dev c)
      "identifier") v1]) ++ [KRead32 (reg engine_regs (engine_addr base to_dev c)
      "identifier") v2]) j (fun (b : Z) i2 e2 => b = 0 /\ exists v,
        KRead32 (reg engine_regs (engine_addr base to_dev c) "identifier") v1 ::
        KRead32 (reg engine_regs (engine_addr base to_dev c) "identifier") v2 :: e2
          = engine_reads base to_dev c v /\
        i2 = note_engine to_dev c (engine_matches to_dev c v) i)).
  { intros j m <- ->. apply ispec_ret. split; [done|]. by exists (v1, v2). }
  unfold engine_matches in Hgoal. cbn [fst snd] in Hgoal.
  destruct (_ =? (if to_dev then _ else _)); cbn [negb andb] in *; [|eapply Hgoal; reflexivity].
  destruct (_ =? c); cbn [negb andb] in *; [|eapply Hgoal; reflexivity].
  destruct to_dev; cbn [negb]; do 3 ispec_step;
    match goal with |- context [if ?b then _ else _] => destruct b eqn:E end;
    try apply ispec_upd; (eapply Hgoal; [reflexivity|]);
    unfold note_engine; cbn in *; by rewrite E.
Qed.

(** The final writes: the blocks taken for the H2C and the C2H engine. *)
Definition enable_calls (hregs cregs : Z) : list kcall :=
  [KWrite32 (reg engine_regs hregs "control") 1;
   KWrite32 (reg engine_regs cregs "control") 1; KMmiowb].

Definition set_regs (hregs cregs : Z) (i : dev_inst) : dev_inst :=
  i <| h2c_regs := hregs |> <| c2h_regs := cregs |> <| desc_bypass_enabled := true |>.

(** The instance after the loop over the channels. *)
Definition engines_noted (rs : list ((Z * Z) * (Z * Z))) (i : dev_inst) : dev_inst :=
  set_engines (num_true (matches true 0 rs)) (num_true (matches false 0 rs))
    (first_true 0 (matches true 0 rs)) (first_true 0 (matches false 0 rs)) i.

Lemma note_engine_frame d c m i :
  config_bar_idx (note_engine d c m i) = config_bar_idx i /\
  bar (note_engine d c m i) = bar i.
Proof.
  unfold note_engine. destruct m, d; cbn; try done;
    match goal with |- context [if ?b then _ else _] => destruct b end; done.
Qed.

Lemma probe_engines_body_spec p base c l h i :
  0 <= c -> 0 <= config_bar_idx i -> bar i !! Z.to_nat (config_bar_idx i) = Some base ->
  0 < base ->
  ispec p (probe_engines_body p c l) h i (fun o i1 e1 => o = inl tt /\ exists r,
    i1 = note_engine false c (engine_matches false c r.2)
           (note_engine true c (engine_matches true c r.1) i) /\
    e1 = engine_reads base true c r.1 ++ engine_reads base false c r.2).
Proof.
  intros Hc Hidx Hb Hbase. unfold probe_engines_body.
  assert (Hnz : forall d, engine_addr base d c <> 0).
  { intros []; unfold engine_addr, H2C_CHANNEL_OFFSET, CHANNEL_SPACING; cbn; lia. }
  eapply probe_for_engine_spec; [done..|]. intros v1. cbn [negb Z.eqb].
  destruct (note_engine_frame true c (engine_matches true c v1) i) as [E1 E2].
  eapply (probe_for_engine_spec _ _ _ base); [by rewrite E1|by rewrite E1, E2|done|].
  intros v2. apply ispec_ret. split; [done|]. exists (v1, v2). by rewrite app_nil_r.
Qed.

Lemma probe_engines_loop p base h i0 :
  0 <= config_bar_idx i0 -> bar i0 !! Z.to_nat (config_bar_idx i0) = Some base -> 0 < base ->
  ispec p (for_loop (Z.to_nat XDMA_CHANNEL_NUM_MAX) 0 tt (probe_engines_body p)) h
    (engines_noted [] i0)
    (fun o i1 e1 => o = inl tt /\ exists rs, length rs = Z.to_nat XDMA_CHANNEL_NUM_MAX /\
       i1 = engines_noted rs i0 /\ e1 = channel_reads base 0 rs).
Proof.
  intros Hc Hb Hbase.
  apply (ispec_loop p (fun j _ i1 e1 => exists rs, j = Z.of_nat (length rs) /\
    i1 = engines_noted rs i0 /\ e1 = channel_reads base 0 rs)).
  - by exists [].
  - intros j [] i1 e1 Hj (rs & -> & -> & ->).
    eapply ispec_conseq; [apply (probe_engines_body_spec _ base); (done || lia)|].
    intros o i1 e1 (-> & r & -> & ->). exists (rs ++ [r]).
    rewrite channel_reads_snoc, length_app, Z.add_0_l. cbn. split; [lia|].
    change (Z.of_nat (Z.to_nat XDMA_CHANNEL_NUM_MAX)) with 4 in Hj.
    split; [apply (note_channel rs r); lia|done].
  - intros [] i1 e1 (rs & Hrs & -> & ->). split; [done|]. exists rs. split; [lia|done].
Qed.

(** [probe_engines]: all channels are asked; it fails when a direction has no
    engine, and otherwise takes the lowest channel of each. *)
Lemma probe_engines_spec p base h i :
  p <> 0 -> 0 <= config_bar_idx i -> bar i !! Z.to_nat (config_bar_idx i) = Some base ->
  0 < base ->
  ispec p (probe_engines p) h i (fun rc i1 evs =>
    exists rs, length rs = Z.to_nat XDMA_CHANNEL_NUM_MAX /\
    let hs := matches true 0 rs in let cs := matches false 0 rs in
    if (first_true 0 hs =? -1) || (first_true 0 cs =? -1)
    then rc = - ENODEV /\ i1 = engines_noted rs i /\ evs = channel_reads base 0 rs
    else
      let hregs := base + (H2C_CHANNEL_OFFSET + first_true 0 hs * CHANNEL_SPACING) in
      let cregs := base + (C2H_CHANNEL_OFFSET + first_true 0 cs * CHANNEL_SPACING) in
      rc = 0 /\ i1 = set_regs hregs cregs (engines_noted rs i) /\
      evs = channel_reads base 0 rs ++ enable_calls hregs cregs).
Proof.
  intros Hp Hc Hb Hbase. unfold probe_engines. cbv zeta.
  apply ispec_bug; [by apply Z.eqb_neq|]. do 4 apply ispec_upd.
  eapply ispec_bind; [by apply (probe_engines_loop p base _ i)|].
  intros o i1 e1 (-> & rs & Hrs & -> & ->). apply ispec_get.
  cbn [h2c_engine c2h_engine engines_noted set_engines set_field set_h2c_engine
       set_c2h_engine set_h2c_count set_c2h_count].
  destruct (_ || _) eqn:E.
  - apply ispec_ret. exists rs. split; [done|]. rewrite E. by rewrite app_nil_r.
  - eapply bar_get_spec; [done..|]. apply ispec_upd.
    eapply bar_get_spec; [done..|]. apply ispec_upd, ispec_get.
    do 2 apply ispec_do. apply ispec_upd, ispec_do, ispec_ret.
    exists rs. split; [done|]. rewrite E. done.
Qed.
End EngineSpecs.
