(* ===== verification/XdmaProbe.v ===== *)
(** * Probe, remove, init and exit

    The PCI driver entry points of [sw/driver/xdma_driver.c] and what they
    call outside the BAR and engine files: instance allocation, MSI/MSI-X,
    PCI regions, interrupt registers. *)

From stdpp Require Import base gmap gmultiset list strings numbers option.
From S2P Require Import Prelude CInt XdmaRegs Kernel Resources XdmaBars XdmaEngines.
Open Scope Z_scope.

Definition PCI_BUS_FLAGS_NO_MSI : Z := 1.
Definition PCI_CAP_ID_MSI : Z := 0x05.
Definition PCI_CAP_ID_MSIX : Z := 0x11.
Definition MISC_DYNAMIC_MINOR : Z := 255.

(** The devices the driver is for: vendor and device numbers. *)
Definition pci_ids : list (Z * Z) :=
  [(0x10ee, 0x9011); (0x10ee, 0x9012); (0x10ee, 0x9014); (0x10ee, 0x9018); (0x10ee,
   0x901F); (0x10ee, 0x9021); (0x10ee, 0x9022); (0x10ee, 0x9024); (0x10ee, 0x9028);
   (0x10ee, 0x902F); (0x10ee, 0x9031); (0x10ee, 0x9032); (0x10ee, 0x9034); (0x10ee,
   0x9038); (0x10ee, 0x903F); (0x10ee, 0x8011); (0x10ee, 0x8012); (0x10ee, 0x8014);
   (0x10ee, 0x8018); (0x10ee, 0x8021); (0x10ee, 0x8022); (0x10ee, 0x8024); (0x10ee,
   0x8028); (0x10ee, 0x8031); (0x10ee, 0x8032); (0x10ee, 0x8034); (0x10ee, 0x8038);
   (0x10ee, 0x7011); (0x10ee, 0x7012); (0x10ee, 0x7014); (0x10ee, 0x7018); (0x10ee,
   0x7021); (0x10ee, 0x7022); (0x10ee, 0x7024); (0x10ee, 0x7028); (0x10ee, 0x7031);
   (0x10ee, 0x7032); (0x10ee, 0x7034); (0x10ee, 0x7038)].

Section Probe.
Context `{KernelEnv}.

(** ** Allocation *)

Definition kzalloc_dev_inst : kprog Z :=
  let* p := kask (fun h => u64 (env_kzalloc h)) KZalloc in
  (if p =? 0 then pret tt
   else modify_state (fun s => set_heap (<[p := zeroed_dev_inst]> (k_heap s)) s));;
  pret p.

Definition kfree (p : Z) : kprog unit :=
  kdo (KFree p);;
  modify_state (fun s => set_heap (delete p (k_heap s)) s).

Definition dev_set_drvdata (d p : Z) : kprog unit :=
  kdo (KSetDrvdata d p);;
  modify_state (fun s => set_drvdata (<[d := p]> (k_drvdata s)) s).

Definition dev_get_drvdata (d : Z) : kprog Z :=
  if d =? 0 then halt NullDeref
  else fun s => (Done (default 0 (k_drvdata s !! d)), s).

Definition alloc_dev_instance (dev : pci_device) : kprog Z :=
  BUG_ON (pdev dev =? 0);;
  let* inst := kzalloc_dev_inst in
  if inst =? 0 then pret 0
  else
    inst_upd inst (fun i => i <| config_bar_idx := -1 |>);;
    inst_upd inst (fun i => i <| user_bar_idx := -1 |>);;
    inst_upd inst (fun i => i <| bypass_bar_idx := -1 |>);;
    inst_upd inst (fun i => i <| irq_line := -1 |>);;
    inst_upd inst (fun i => i <| open_count := 0 |>);;
    inst_upd inst (fun i => i <| desc_bypass_enabled := false |>);;
    dev_set_drvdata (pdev dev) inst;;
    inst_upd inst (fun i => i <| pci_dev := pdev dev |>);;
    pret inst.

(** ** MSI and MSI-X *)

Definition arch_msi_check_device (dev : pci_device) (nvec type : Z) : kprog Z := pret 0.

Definition msi_msix_capable (dev : pci_device) (type : Z) : kprog Z :=
  if (pdev dev =? 0) || no_msi dev then pret 0
  else if existsb (fun flags => negb (Z.land flags PCI_BUS_FLAGS_NO_MSI =? 0))
                  (bus_flags dev) then pret 0
  else
    let* ret := arch_msi_check_device dev 1 type in
    if negb (ret =? 0) then pret 0
    else
      let* pos := kask (fun h => env_pci_find_capability h (pdev dev) type)
                       (KFindCapability (pdev dev) type) in
      if pos =? 0 then pret 0 else pret 1.

Definition probe_scan_for_msi (inst : Z) (dev : pci_device) : kprog Z :=
  let req_nvec := MAX_NUM_ENGINES + MAX_USER_IRQ in
  BUG_ON (inst =? 0);;
  BUG_ON (pdev dev =? 0);;
  let* msix := msi_msix_capable dev PCI_CAP_ID_MSIX in
  if negb (msix =? 0) then
    for_loop (R := Empty_set) (Z.to_nat req_nvec) 0 tt (fun i _ =>
      let* st := inst_get inst in
      let* l := nth_set (entry st) i i in
      inst_upd inst (fun st => st <| entry := l |>);;
      pret (inl tt));;
    let* rc := kask (fun h => s32 (env_pci_enable_msix_exact h (pdev dev) req_nvec))
                    (KEnableMsix (pdev dev) req_nvec) in
    inst_upd inst (fun st => st <| msix_enabled := 1 |>);;
    pret rc
  else
    let* msi := msi_msix_capable dev PCI_CAP_ID_MSI in
    if negb (msi =? 0) then
      let* rc := kask (fun h => s32 (env_pci_enable_msi h (pdev dev)))
                      (KEnableMsi (pdev dev)) in
      inst_upd inst (fun st => st <| msi_enabled := 1 |>);;
      pret rc
    else pret 0.

(** ** PCI regions and the DMA mask *)

Definition request_regions (inst : Z) (dev : pci_device) : kprog Z :=
  BUG_ON (inst =? 0);;
  BUG_ON (pdev dev =? 0);;
  let* rc := kask (fun h => s32 (env_pci_request_regions h (pdev dev)))
                  (KRequestRegions (pdev dev)) in
  (if negb (rc =? 0)
   then inst_upd inst (fun st => st <| regions_in_use := 1 |>);; pret tt
   else inst_upd inst (fun st => st <| got_regions := 1 |>);; pret tt);;
  pret rc.

Definition set_dma_mask (dev : pci_device) : kprog Z :=
  BUG_ON (pdev dev =? 0);;
  let* rc := kask (fun h => s32 (env_dma_set_mask h (pdev dev))) (KSetDmaMask (pdev dev)) in
  pret rc.

Definition irq_teardown (inst : Z) : kprog unit :=
  BUG_ON (inst =? 0);;
  let* st := inst_get inst in
  if negb (msix_enabled st =? 0) then pret tt
  else if negb (irq_line st =? -1) then kdo (KFreeIrq (irq_line st));; pret tt
  else pret tt.

(** ** The interrupt block *)

Definition int_block (inst : Z) : kprog Z :=
  let* st := inst_get inst in
  let* b := bar_get inst (config_bar_idx st) in
  pret (b + XDMA_OFS_INT_CTRL).

Definition channel_interrupts_enable (inst mask : Z) : kprog unit :=
  let* r := int_block inst in
  iowrite32 mask (reg interrupt_regs r "channel_int_enable_w1s");; pret tt.

Definition channel_interrupts_disable (inst mask : Z) : kprog unit :=
  let* r := int_block inst in
  iowrite32 mask (reg interrupt_regs r "channel_int_enable_w1c");; pret tt.

Definition read_interrupts (inst : Z) : kprog Z :=
  let* r := int_block inst in
  let* hi := ioread32 (reg interrupt_regs r "user_int_request") in
  let* lo := ioread32 (reg interrupt_regs r "channel_int_request") in
  pret (build_u32 hi lo).

(** [&regs->field[k]] *)
Definition reg_at (l : layout) (base : Z) (f : string) (k : Z) : Z :=
  reg l base f + 4 * k.

Definition write_msix_vectors (inst : Z) : kprog unit :=
  BUG_ON (inst =? 0);;
  let* r := int_block inst in
  iowrite32 (build_vector_reg 0 1 2 3) (reg_at interrupt_regs r "user_msi_vector" 0);;
  iowrite32 (build_vector_reg 4 5 6 7) (reg_at interrupt_regs r "user_msi_vector" 1);;
  iowrite32 (build_vector_reg 8 9 10 11) (reg_at interrupt_regs r "user_msi_vector" 2);;
  iowrite32 (build_vector_reg 12 13 14 15) (reg_at interrupt_regs r "user_msi_vector" 3);;
  iowrite32 (build_vector_reg 16 17 18 19) (reg_at interrupt_regs r "channel_msi_vector" 0);;
  iowrite32 (build_vector_reg 20 21 22 23) (reg_at interrupt_regs r "channel_msi_vector" 1);;
  pret tt.

Definition msix_irq_setup (inst : Z) : kprog Z :=
  BUG_ON (inst =? 0);;
  write_msix_vectors inst;;
  pret 0.

(** ** Probe: the unwinding labels, last one first *)

Definition err_enable (inst rc : Z) : kprog Z :=
  kfree inst;; pret rc.

Definition err_scan_msi (inst : Z) (dev : pci_device) (rc : Z) : kprog Z :=
  let* st := inst_get inst in
  (if regions_in_use st =? 0 then kdo (KDisableDevice (pdev dev));; pret tt else pret tt);;
  err_enable inst rc.

Definition err_regions (inst : Z) (dev : pci_device) (rc : Z) : kprog Z :=
  let* st := inst_get inst in
  (if negb (msi_enabled st =? 0) then kdo (KDisableMsi (pdev dev));; pret tt else pret tt);;
  err_scan_msi inst dev rc.

Definition err_map (inst : Z) (dev : pci_device) (rc : Z) : kprog Z :=
  let* st := inst_get inst in
  (if negb (got_regions st =? 0) then kdo (KReleaseRegions (pdev dev));; pret tt
   else pret tt);;
  err_regions inst dev rc.

Definition err_mask (inst : Z) (dev : pci_device) (rc : Z) : kprog Z :=
  unmap_bars inst dev;;
  err_map inst dev rc.

Definition err_engines (inst : Z) (dev : pci_device) (rc : Z) : kprog Z :=
  irq_teardown inst;;
  err_mask inst dev rc.

Definition misc_register (m : misc_id) (name : string) (fops : fops_id) (parent : Z)
    : kprog Z :=
  modify_state (set_misc m (MiscDevice MISC_DYNAMIC_MINOR name (Some fops) parent));;
  kask (fun h => s32 (env_misc_register h m)) (KMiscRegister m).

(** From the clearing of pending events to the two device nodes. *)
Definition probe_nodes (inst : Z) (dev : pci_device) : kprog Z :=
  let* st := inst_get inst in
  iowrite32 0xFFFFFFFF (reg engine_regs (h2c_regs st) "status");;
  iowrite32 0xFFFFFFFF (reg engine_regs (c2h_regs st) "status");;
  let* rc := misc_register misc_dev_node "xdma_control" xdma_fops (pdev dev) in
  if rc <? 0 then err_engines inst dev rc
  else
    let* rc := misc_register bypass_node "xdma_bypass" xdma_bypass_fops (pdev dev) in
    if rc <? 0 then err_engines inst dev rc
    else if rc =? 0 then pret rc
    else err_engines inst dev rc.

(** From [map_bars] on. *)
Definition probe_map (inst : Z) (dev : pci_device) : kprog Z :=
  let* rc := map_bars inst dev in
  if negb (rc =? 0) then err_map inst dev rc
  else
    let* rc := set_dma_mask dev in
    if negb (rc =? 0) then err_mask inst dev rc
    else
      let* rc := probe_engines inst in
      if negb (rc =? 0) then err_engines inst dev rc
      else probe_nodes inst dev.

Definition probe (dev : pci_device) : kprog Z :=
  let* inst := alloc_dev_instance dev in
  if inst =? 0 then pret 0
  else
    let* rc := kask (fun h => s32 (env_pci_enable_device h (pdev dev)))
                    (KEnableDevice (pdev dev)) in
    if negb (rc =? 0) then err_enable inst rc
    else
      kdo (KSetMaster (pdev dev));;
      let* rc := probe_scan_for_msi inst dev in
      if rc <? 0 then err_scan_msi inst dev rc
      else
        let* rc := request_regions inst dev in
        if negb (rc =? 0) then err_regions inst dev rc
        else probe_map inst dev.

(** ** Remove, module init and exit *)

Definition remove (dev : pci_device) : kprog unit :=
  let d := pdev dev in
  let* gone := (if d =? 0 then pret true
                else let* q := dev_get_drvdata d in pret (q =? 0)) in
  if gone : bool then
    let* _ := dev_get_drvdata d in pret tt
  else
    let* inst := dev_get_drvdata d in
    let* _ := inst_get inst in
    kdo (KMiscDeregister misc_dev_node);;
    kdo (KMiscDeregister bypass_node);;
    unmap_bars inst dev;;
    let* st := inst_get inst in
    (if negb (got_regions st =? 0) then kdo (KReleaseRegions d);; pret tt else pret tt);;
    let* st := inst_get inst in
    (if negb (msix_enabled st =? 0) then
       kdo (KDisableMsix d);;
       inst_upd inst (fun st => st <| msix_enabled := 0 |>);; pret tt
     else if negb (msi_enabled st =? 0) then
       kdo (KDisableMsi d);;
       inst_upd inst (fun st => st <| msi_enabled := 0 |>);; pret tt
     else pret tt);;
    let* st := inst_get inst in
    (if regions_in_use st =? 0 then kdo (KDisableDevice d);; pret tt else pret tt);;
    kfree inst.

Definition xdma_driver_init : kprog Z :=
  let* rc := kask (fun h => s32 (env_pci_register_driver h)) KRegisterDriver in
  pret rc.

Definition xdma_driver_exit : kprog unit := kdo KUnregisterDriver.
End Probe.

(** ** Specifications *)

(** The instance [alloc_dev_instance] hands out. *)
Definition fresh_inst (d : Z) : dev_inst :=
  zeroed_dev_inst <| config_bar_idx := -1 |> <| user_bar_idx := -1 |>
    <| bypass_bar_idx := -1 |> <| irq_line := -1 |> <| open_count := 0 |>
    <| desc_bypass_enabled := false |> <| pci_dev := d |>.

(** The state after [kfree] of an instance. *)
Definition freed (p : Z) (evs : list kcall) (s : kstate) : kstate :=
  set_heap (delete p (k_heap s)) (set_trace (k_trace s ++ evs) s).

(** The calls of the unwinding labels. *)
Definition ladder_scan (dev : pci_device) (p : Z) (i : dev_inst) : list kcall :=
  (if regions_in_use i =? 0 then [KDisableDevice (pdev dev)] else []) ++ [KFree p].
Definition ladder_regions (dev : pci_device) (p : Z) (i : dev_inst) : list kcall :=
  (if msi_enabled i =? 0 then [] else [KDisableMsi (pdev dev)]) ++ ladder_scan dev p i.
Definition ladder_map (dev : pci_device) (p : Z) (i : dev_inst) : list kcall :=
  (if got_regions i =? 0 then [] else [KReleaseRegions (pdev dev)]) ++ ladder_regions dev p i.
Definition ladder_mask (dev : pci_device) (p : Z) (i : dev_inst) : list kcall :=
  unmap_calls dev (bar i) ++ ladder_map dev p i.

Section ProbeSpecs.
Context `{KernelEnv}.
Implicit Types (h : hist) (i : dev_inst) (dev : pci_device).

Lemma wp_kfree {B} p i evs s (k : unit -> kprog B) Q :
  wp (k tt) Q (freed p (evs ++ [KFree p]) s) ->
  wp (pbind (kfree p) k) Q (upd p i evs s).
Proof.
  intros Hk. apply wp_bind. unfold wp at 1, kfree, kdo, pbind, modify_state.
  replace (set_heap _ _) with (freed p (evs ++ [KFree p]) s); [done|].
  unfold freed, log, upd, set_heap, set_trace; cbn. by rewrite delete_insert_eq, app_assoc.
Qed.

(** A conditional call. *)
Lemma wp_optional {B} p i evs s (b : bool) e (k : unit -> kprog B) Q :
  wp (k tt) Q (upd p i (evs ++ if b then [e] else []) s) ->
  wp (pbind (if b then kdo e;; pret tt else pret tt) k) Q (upd p i evs s).
Proof.
  intros Hk. eapply (wp_ispec p _ _ _ (fun _ i1 e1 => i1 = i /\ e1 = if b then [e] else [])).
  - destruct b; [apply ispec_do|]; by apply ispec_ret.
  - by intros [] ? ? [-> ->].
Qed.

Lemma err_scan_msi_spec p dev rc i evs s (Q : Z -> kstate -> Prop) :
  Q rc (freed p (evs ++ ladder_scan dev p i) s) ->
  wp (err_scan_msi p dev rc) Q (upd p i evs s).
Proof.
  intros HQ. unfold err_scan_msi. apply wp_inst_get, wp_optional, wp_kfree.
  apply wp_ret. by rewrite <- app_assoc.
Qed.

Lemma err_regions_spec p dev rc i evs s (Q : Z -> kstate -> Prop) :
  Q rc (freed p (evs ++ ladder_regions dev p i) s) ->
  wp (err_regions p dev rc) Q (upd p i evs s).
Proof.
  intros HQ. unfold err_regions. apply wp_inst_get, wp_optional, err_scan_msi_spec.
  rewrite <- app_assoc. unfold ladder_regions in HQ. by destruct (_ =? 0).
Qed.

Lemma err_map_spec p dev rc i evs s (Q : Z -> kstate -> Prop) :
  Q rc (freed p (evs ++ ladder_map dev p i) s) ->
  wp (err_map p dev rc) Q (upd p i evs s).
Proof.
  intros HQ. unfold err_map. apply wp_inst_get, wp_optional, err_regions_spec.
  rewrite <- app_assoc. unfold ladder_map in HQ. by destruct (got_regions i =? 0).
Qed.

Lemma err_mask_spec p dev rc i evs s (Q : Z -> kstate -> Prop) :
  length (bar i) = Z.to_nat XDMA_BAR_NUM ->
  Q rc (freed p (evs ++ ladder_mask dev p i) s) ->
  wp (err_mask p dev rc) Q (upd p i evs s).
Proof.
  intros Hlen HQ. unfold err_mask. eapply wp_ispec; [by apply unmap_bars_spec|].
  intros _ i1 e1 [-> ->]. apply err_map_spec. by rewrite <- app_assoc.
Qed.

(** No interrupt line is ever requested, so there is nothing to tear down. *)
Lemma irq_teardown_spec p h i :
  p <> 0 -> irq_line i = -1 ->
  ispec p (irq_teardown p) h i (fun _ i1 evs => i1 = i /\ evs = []).
Proof.
  intros Hp Hirq. unfold irq_teardown. apply ispec_bug; [by apply Z.eqb_neq|].
  apply ispec_get. rewrite Hirq. destruct (negb _); by apply ispec_ret.
Qed.

Lemma err_engines_spec p dev rc i evs s (Q : Z -> kstate -> Prop) :
  p <> 0 -> irq_line i = -1 -> length (bar i) = Z.to_nat XDMA_BAR_NUM ->
  Q rc (freed p (evs ++ ladder_mask dev p i) s) ->
  wp (err_engines p dev rc) Q (upd p i evs s).
Proof.
  intros Hp Hirq Hlen HQ. unfold err_engines. eapply wp_ispec; [by apply irq_teardown_spec|].
  intros _ i1 e1 [-> ->]. rewrite app_nil_r. by apply err_mask_spec.
Qed.

(** *** Stages before the BARs *)

Lemma alloc_dev_instance_spec dev s (Q : Z -> kstate -> Prop) :
  pdev dev <> 0 ->
  Q 0 (log (KZalloc 0) s) ->
  (forall p, 0 < p ->
     Q p (upd p (fresh_inst (pdev dev)) [KZalloc p; KSetDrvdata (pdev dev) p]
            (set_drvdata (<[pdev dev := p]> (k_drvdata s)) s))) ->
  wp (alloc_dev_instance dev) Q s.
Proof.
  intros Hd H0 Hp. unfold alloc_dev_instance, BUG_ON.
  rewrite (proj2 (Z.eqb_neq _ _) Hd). cbn [negb require]. apply wp_bind, wp_ret, wp_bind.
  unfold kzalloc_dev_inst. apply wp_bind. unfold wp at 1, kask.
  pose proof (u64_range (env_kzalloc (k_trace s))) as Hr.
  set (p := u64 _) in *.
  destruct (Z.eqb_spec p 0) as [->|Hp0]; [by repeat apply wp_bind|].
  apply wp_bind, wp_modify, wp_ret. rewrite (proj2 (Z.eqb_neq _ _) Hp0).
  change (set_heap _ _) with (upd p zeroed_dev_inst [KZalloc p] s).
  do 6 apply wp_inst_upd. unfold dev_set_drvdata.
  apply wp_bind, wp_bind, wp_modify, wp_modify.
  rewrite log_upd_snoc, upd_set_drvdata. apply wp_inst_upd, wp_ret, Hp. lia.
Qed.

(** How the device will interrupt. *)
Inductive msi_mode : Type := Legacy | Msi | Msix.

#[export] Instance msi_mode_eq_dec : EqDecision msi_mode.
Proof. solve_decision. Defined.

Definition set_mode (m : msi_mode) (i : dev_inst) : dev_inst :=
  match m with
  | Legacy => i
  | Msi => i <| msi_enabled := 1 |>
  | Msix => i <| entry := seqZ 0 (MAX_NUM_ENGINES + MAX_USER_IRQ) ++
                          drop (Z.to_nat (MAX_NUM_ENGINES + MAX_USER_IRQ)) (entry i) |>
              <| msix_enabled := 1 |>
  end.

Definition mode_calls (dev : pci_device) (m : msi_mode) (rc : Z) : list kcall :=
  match m with
  | Legacy => []
  | Msi => [KEnableMsi (pdev dev) rc]
  | Msix => [KEnableMsix (pdev dev) (MAX_NUM_ENGINES + MAX_USER_IRQ) rc]
  end.

Lemma msi_msix_capable_spec p dev ty h i :
  ispec p (msi_msix_capable dev ty) h i (fun _ i1 evs => i1 = i /\ Forall quiet evs).
Proof.
  unfold msi_msix_capable. destruct (_ || _); [by apply ispec_ret|].
  destruct (existsb _ _); [by apply ispec_ret|].
  unfold arch_msi_check_device. apply ispec_pure. cbn [negb Z.eqb]. apply ispec_ask.
  assert (Hq : forall v, Forall quiet [KFindCapability (pdev dev) ty v]) by by repeat constructor.
  destruct (_ =? 0); by apply ispec_ret.
Qed.

(** The entry table is numbered 0, 1, ...; no index is out of range. *)
Lemma entry_loop_spec p n h i :
  (n <= length (entry i))%nat ->
  ispec p (for_loop (R := Empty_set) n 0 tt (fun j _ =>
             let* st := inst_get p in
             let* l := nth_set (entry st) j j in
             inst_upd p (fun st => st <| entry := l |>);;
             pret (inl tt))) h i
    (fun _ i1 evs => evs = [] /\
       i1 = i <| entry := seqZ 0 (Z.of_nat n) ++ drop n (entry i) |>).
Proof.
  intros Hn.
  apply (ispec_loop p (fun j _ i1 e1 => exists m, j = Z.of_nat m /\ e1 = [] /\
    i1 = i <| entry := seqZ 0 j ++ drop m (entry i) |>)).
  - exists 0%nat. by destruct i.
  - intros j [] i1 e1 Hj (m & -> & -> & ->). apply ispec_get. cbn.
    destruct (lookup_lt_is_Some_2 (entry i) m) as [v Hv]; [lia|].
    assert (Hd : drop m (entry i) = v :: drop (S m) (entry i)) by by apply drop_S.
    rewrite nth_set_ok, pbind_ret
      by (rewrite Hd, length_app, length_seqZ; cbn; lia).
    apply ispec_upd, ispec_ret. exists (S m). split; [lia|]. split; [done|].
    refine (f_equal (fun X => i <| entry := X |>) _).
    rewrite Hd, Nat2Z.id, insert_app_r_alt by (rewrite length_seqZ; lia).
    replace (Z.of_nat m + 1) with (Z.of_nat (S m)) by lia.
    by rewrite length_seqZ, Nat2Z.id, Nat.sub_diag, seqZ_S, <- app_assoc.
  - intros l i1 e1 (m & Hm & -> & ->). split; [done|]. by assert (m = n) as -> by lia.
Qed.

Lemma probe_scan_for_msi_spec p dev h i :
  p <> 0 -> pdev dev <> 0 -> length (entry i) = 32%nat ->
  ispec p (probe_scan_for_msi p dev) h i (fun rc i1 evs => exists mode qs,
    Forall quiet qs /\ i1 = set_mode mode i /\ evs = qs ++ mode_calls dev mode rc /\
    (mode = Legacy -> rc = 0)).
Proof.
  intros Hp Hd Hent. unfold probe_scan_for_msi. cbv zeta.
  do 2 (apply ispec_bug; [by apply Z.eqb_neq|]).
  eapply ispec_bind; [apply msi_msix_capable_spec|]. intros r i1 q1 [-> Hq1].
  destruct (negb (r =? 0)).
  - eapply ispec_bind; [apply entry_loop_spec; rewrite Hent; by apply Nat.leb_le|].
    intros _ i2 e2 [-> ->]. apply ispec_ask, ispec_upd, ispec_ret. by exists Msix, q1.
  - eapply ispec_bind; [apply msi_msix_capable_spec|]. intros r2 i1 q2 [-> Hq2].
    destruct (negb (r2 =? 0)).
    + apply ispec_ask, ispec_upd, ispec_ret. exists Msi, (q1 ++ q2).
      split; [by apply Forall_app|]. split; [done|]. by rewrite (app_assoc q1).
    + apply ispec_ret. exists Legacy, (q1 ++ q2).
      split; [by apply Forall_app|]. by rewrite !app_nil_r.
Qed.

Lemma request_regions_spec p dev h i :
  p <> 0 -> pdev dev <> 0 ->
  ispec p (request_regions p dev) h i (fun rc i1 evs =>
    evs = [KRequestRegions (pdev dev) rc] /\
    i1 = if rc =? 0 then i <| got_regions := 1 |> else i <| regions_in_use := 1 |>).
Proof.
  intros Hp Hd. unfold request_regions.
  do 2 (apply ispec_bug; [by apply Z.eqb_neq|]). apply ispec_ask.
  destruct (s32 _ =? 0) eqn:E; cbn [negb]; apply ispec_assoc, ispec_upd, ispec_ret;
    by rewrite E.
Qed.

Lemma set_dma_mask_spec p dev h i :
  pdev dev <> 0 ->
  ispec p (set_dma_mask dev) h i (fun rc i1 evs =>
    i1 = i /\ evs = [KSetDmaMask (pdev dev) rc]).
Proof.
  intros Hd. unfold set_dma_mask. apply ispec_bug; [by apply Z.eqb_neq|].
  by apply ispec_ask, ispec_ret.
Qed.

(** *** What an instance holds, and what unwinding gives back *)

Definition reg_res (dev : pci_device) (i : dev_inst) : gmultiset resource :=
  if got_regions i =? 0 then ∅ else {[+ RRegions (pdev dev) +]}.
Definition msi_res (dev : pci_device) (i : dev_inst) : gmultiset resource :=
  if msi_enabled i =? 0 then ∅ else {[+ RMsi (pdev dev) +]}.
Definition msix_res (dev : pci_device) (m : msi_mode) : gmultiset resource :=
  match m with Msix => {[+ RMsix (pdev dev) +]} | _ => ∅ end.

(** All but the BAR mappings and MSI-X. *)
Definition base_res (dev : pci_device) (p : Z) (i : dev_inst) : gmultiset resource :=
  reg_res dev i ⊎ (msi_res dev i ⊎ ({[+ REnabled (pdev dev) +]} ⊎ {[+ RInst p +]})).

Lemma ladder_scan_releases dev p i :
  regions_in_use i = 0 ->
  releases ({[+ REnabled (pdev dev) +]} ⊎ {[+ RInst p +]}) (ladder_scan dev p i).
Proof.
  intros Hr. unfold ladder_scan. rewrite Hr.
  apply releases_app; by apply releases_one.
Qed.

Lemma ladder_map_releases dev p i :
  regions_in_use i = 0 -> releases (base_res dev p i) (ladder_map dev p i).
Proof.
  intros Hr. unfold base_res, ladder_map, ladder_regions, reg_res, msi_res.
  apply releases_app; [destruct (got_regions i =? 0)|apply releases_app;
    [destruct (msi_enabled i =? 0)|by apply ladder_scan_releases]];
    (apply releases_nil || by apply releases_one).
Qed.

Lemma ladder_no_access dev p i : Forall no_access (ladder_mask dev p i).
Proof.
  assert (Hn : forall e (b : bool), no_access e -> Forall no_access (if b then [] else [e])).
  { intros e [] He; repeat constructor; done. }
  unfold ladder_mask, ladder_map, ladder_regions, ladder_scan.
  repeat apply Forall_app_2.
  - unfold unmap_calls. apply Forall_fmap, Forall_true. by intros b M; eexists.
  - apply Hn. by intros M; eexists.
  - apply Hn. by intros M; eexists.
  - destruct (_ =? 0); repeat constructor. by intros M; eexists.
  - repeat constructor. by intros M; eexists.
Qed.

(** Unwinding from any point after the BARs were mapped gives back all but
    MSI-X and what the calls [em] acquired besides. *)
Lemma unwind_late dev p i m e0 eb em Y :
  regions_in_use i = 0 ->
  acquires (base_res dev p i ⊎ msix_res dev m) e0 -> mmio_grows [] [] e0 ->
  bars_held dev (bar i) eb -> acquires Y em -> Forall no_access em ->
  acquires (Y ⊎ msix_res dev m) (e0 ++ eb ++ em ++ ladder_mask dev p i) /\
  is_Some (mmio [] (e0 ++ eb ++ em ++ ladder_mask dev p i)).
Proof.
  intros Hr Ha0 Hm0 (Hab & M & Hmb & _) Ham Hem. split.
  - unfold ladder_mask. rewrite !app_assoc. rewrite <- (app_assoc (_ ++ em)).
    eapply (acquires_releases_rest (maps_of (bar i) ⊎ base_res dev p i)).
    + replace (maps_of (bar i) ⊎ base_res dev p i ⊎ (Y ⊎ msix_res dev m)) with
        (Y ⊎ (maps_of (bar i) ⊎ (base_res dev p i ⊎ msix_res dev m))) by multiset_solver.
      by repeat apply acquires_app.
    + apply releases_app; [apply unmap_calls_releases|by apply ladder_map_releases].
  - specialize (Hm0 []). specialize (Hmb []). cbn [app] in *. rewrite app_nil_r in Hmb.
    eapply mmio_is_Some_app; [done|]. eapply mmio_is_Some_app; [done|].
    apply mmio_no_access, Forall_app_2; [done|apply ladder_no_access].
Qed.

(** *** How probing ends *)

(** The call that made it fail. *)
Inductive stage : Type :=
  | AtEnable | AtMsi | AtRegions | AtBars | AtMask | AtEngines | AtControl | AtBypass.

Definition failed_call (dev : pci_device) (st : stage) (rc : Z) (evs : list kcall) : Prop :=
  let d := pdev dev in
  match st with
  | AtEnable => KEnableDevice d rc ∈ evs
  | AtMsi => exists m, m <> Legacy /\ mode_calls dev m rc ⊆ evs
  | AtRegions => KRequestRegions d rc ∈ evs
  | AtBars => rc = -1 /\
      (failed_map dev evs \/ exists l e1, e1 ⊆ evs /\ no_config dev XDMA_BAR_NUM l e1)
  | AtMask => KSetDmaMask d rc ∈ evs
  | AtEngines => rc = - ENODEV
  | AtControl => KMiscRegister misc_dev_node rc ∈ evs
  | AtBypass => KMiscRegister bypass_node rc ∈ evs
  end.

(** What is still held after the unwinding. *)
Definition leak (dev : pci_device) (st : stage) (m : msi_mode) (rc : Z)
    : gmultiset resource :=
  match st with
  | AtEnable | AtMsi => ∅
  | AtRegions => {[+ REnabled (pdev dev) +]} ⊎ msix_res dev m
  | AtBypass => ((if 0 <=? rc then {[+ RMisc bypass_node +]} else ∅) ⊎
                 {[+ RMisc misc_dev_node +]}) ⊎ msix_res dev m
  | _ => msix_res dev m
  end.

Definition fail_post (dev : pci_device) (p : Z) (s : kstate) (rc : Z) (s1 : kstate) : Prop :=
  rc <> 0 /\ exists st m evs,
    s1 = freed p evs s /\ failed_call dev st rc evs /\
    acquires (leak dev st m rc) evs /\ is_Some (mmio [] evs).

(** Up to the two device nodes. *)
Definition same_but_nodes (s s1 : kstate) : Prop :=
  k_trace s1 = k_trace s /\ k_heap s1 = k_heap s /\ k_drvdata s1 = k_drvdata s /\
  k_arrays s1 = k_arrays s.

(** The state from the mapped BARs on: [e0] the calls before [map_bars],
    [eb] those since. *)
Definition late (dev : pci_device) (p : Z) (m : msi_mode) (i : dev_inst)
    (e0 eb : list kcall) : Prop :=
  p <> 0 /\ irq_line i = -1 /\ regions_in_use i = 0 /\
  length (bar i) = Z.to_nat XDMA_BAR_NUM /\
  acquires (base_res dev p i ⊎ msix_res dev m) e0 /\ mmio_grows [] [] e0 /\
  bars_held dev (bar i) eb.

Lemma fail_late dev p m i e0 eb em Y st rc s :
  late dev p m i e0 eb -> acquires Y em -> Forall no_access em -> rc <> 0 ->
  leak dev st m rc = Y ⊎ msix_res dev m ->
  (forall e, failed_call dev st rc (e ++ em ++ ladder_mask dev p i)) ->
  fail_post dev p s rc (freed p ((e0 ++ eb ++ em) ++ ladder_mask dev p i) s).
Proof.
  intros (Hp & _ & Hr & _ & Ha & Hm & Hh) HY Hem Hrc Hleak Hcall.
  destruct (unwind_late dev p i m e0 eb em Y) as [Hacq Hmm]; [done..|].
  split; [done|]. exists st, m, (e0 ++ eb ++ em ++ ladder_mask dev p i).
  split; [by rewrite <- !app_assoc|]. rewrite Hleak.
  split; [|done]. rewrite (app_assoc e0). apply Hcall.
Qed.

Lemma err_engines_late dev p m i e0 eb em Y st rc s (Q : Z -> kstate -> Prop) :
  late dev p m i e0 eb -> acquires Y em -> Forall no_access em -> rc <> 0 ->
  leak dev st m rc = Y ⊎ msix_res dev m ->
  (forall e, failed_call dev st rc (e ++ em ++ ladder_mask dev p i)) ->
  (forall s1, fail_post dev p s rc s1 -> Q rc s1) ->
  wp (err_engines p dev rc) Q (upd p i (e0 ++ eb ++ em) s).
Proof.
  intros Hl ? ? ? ? ? HQ. assert (Hl' := Hl). destruct Hl' as (? & ? & ? & ? & _).
  apply err_engines_spec; [done..|]. by eapply HQ, fail_late.
Qed.

(** The registration of a device node, whatever the outcome. *)
Definition node (m : misc_id) (d : Z) : miscdevice :=
  match m with
  | misc_dev_node => MiscDevice MISC_DYNAMIC_MINOR "xdma_control" (Some xdma_fops) d
  | bypass_node => MiscDevice MISC_DYNAMIC_MINOR "xdma_bypass" (Some xdma_bypass_fops) d
  end.

Definition set_nodes (d : Z) (s : kstate) : kstate :=
  set_misc bypass_node (node bypass_node d) (set_misc misc_dev_node (node misc_dev_node d) s).

Lemma wp_misc_register {B} p m nm fo d i evs s (k : Z -> kprog B) Q :
  (forall rc, wp (k rc) Q (upd p i (evs ++ [KMiscRegister m rc])
     (set_misc m (MiscDevice MISC_DYNAMIC_MINOR nm (Some fo) d) s))) ->
  wp (pbind (misc_register m nm fo d) k) Q (upd p i evs s).
Proof.
  intros Hk. unfold misc_register. apply wp_bind, wp_bind, wp_modify.
  rewrite upd_set_misc. unfold wp at 1, kask. rewrite log_upd_snoc. apply Hk.
Qed.

Lemma same_but_set_misc m v s : same_but_nodes s (set_misc m v s).
Proof. by destruct m. Qed.

Lemma same_but_trans s1 s2 s3 :
  same_but_nodes s1 s2 -> same_but_nodes s2 s3 -> same_but_nodes s1 s3.
Proof. unfold same_but_nodes. intuition congruence. Qed.

(** The calls of a complete registration. *)
Definition node_calls (rc : Z) : list kcall :=
  [KMiscRegister misc_dev_node rc; KMiscRegister bypass_node 0].

Definition nodes_res : gmultiset resource :=
  {[+ RMisc bypass_node +]} ⊎ {[+ RMisc misc_dev_node +]}.

Lemma misc_acquires n rc :
  acquires (if 0 <=? rc then {[+ RMisc n +]} else ∅) [KMiscRegister n rc].
Proof.
  destruct (0 <=? rc) eqn:E; [apply acquires_one|apply acquires_skip];
    intros L; cbn; by rewrite E.
Qed.

Lemma misc_no_access n rc : no_access (KMiscRegister n rc).
Proof. intros M. by eexists. Qed.

(** The status registers of the two engine blocks are cleared. *)
Definition status_calls (i : dev_inst) : list kcall :=
  [KWrite32 (reg engine_regs (h2c_regs i) "status") 0xFFFFFFFF;
   KWrite32 (reg engine_regs (c2h_regs i) "status") 0xFFFFFFFF].

Lemma probe_nodes_spec p dev m i e0 eb s (Q : Z -> kstate -> Prop) :
  late dev p m i e0 (eb ++ status_calls i) ->
  (forall rc s1 s2, same_but_nodes s s1 -> fail_post dev p s1 rc s2 -> Q rc s2) ->
  (forall rc, 0 <= rc ->
     Q 0 (upd p i (e0 ++ (eb ++ status_calls i) ++ node_calls rc)
            (set_nodes (pdev dev) s))) ->
  wp (probe_nodes p dev) Q (upd p i (e0 ++ eb) s).
Proof.
  intros Hl Hfail Hok. unfold probe_nodes, iowrite32.
  apply wp_inst_get, wp_kdo, wp_kdo.
  replace (_ ++ [_]) with (e0 ++ eb ++ status_calls i) by by rewrite <- !app_assoc.
  apply wp_misc_register. intros rc1. rewrite <- app_assoc.
  pose proof (misc_acquires misc_dev_node rc1) as Ha1.
  destruct (Z.ltb_spec rc1 0) as [Hneg|Hpos].
  { rewrite (proj2 (Z.leb_gt 0 rc1)) in Ha1 by done.
    eapply (err_engines_late _ _ m _ _ _ _ _ AtControl); [done|exact Ha1|..].
    - repeat constructor. apply misc_no_access.
    - lia.
    - by rewrite gmultiset_disj_union_left_id.
    - intros e. cbn. set_solver.
    - intros s2 Hs2. eapply Hfail; [|exact Hs2]. apply same_but_set_misc. }
  rewrite (proj2 (Z.leb_le 0 rc1)) in Ha1 by done.
  apply wp_misc_register. intros rc2. rewrite <- !(app_assoc e0), <- (app_assoc (eb ++ _)).
  destruct (Z.eqb_spec rc2 0) as [->|Hnz].
  { cbn [Z.ltb Z.compare]. apply wp_ret, Hok. done. }
  assert (Hrest : forall s0, same_but_nodes s s0 ->
    wp (err_engines p dev rc2) Q (upd p i (e0 ++ (eb ++ status_calls i) ++
      [KMiscRegister misc_dev_node rc1] ++ [KMiscRegister bypass_node rc2]) s0)).
  { intros s0 Hs0. eapply (err_engines_late _ _ m _ _ _ _ _ AtBypass); [done| | |done| | |].
    - eapply acquires_app; [exact Ha1|apply misc_acquires].
    - repeat constructor; apply misc_no_access.
    - done.
    - intros e. cbn. set_solver.
    - intros s2. by apply Hfail. }
  destruct (rc2 <? 0); apply Hrest;
    (eapply same_but_trans; apply same_but_set_misc).
Qed.

(** *** The register accesses of the engine stage are inside the config BAR *)

Lemma inside_access b len off v e :
  0 <= off -> off + 4 <= len -> e = KRead32 (b + off) v \/ e = KWrite32 (b + off) v ->
  inside b len e.
Proof. intros ? ? He. left. by exists off, v. Qed.

Lemma inside_quiet b len e : quiet e -> inside b len e.
Proof. by right. Qed.

Lemma engine_reads_inside b len d c v :
  0 <= c < 4 -> XDMA_BAR_SIZE <= len -> Forall (inside b len) (engine_reads b d c v).
Proof.
  intros Hc Hlen. unfold XDMA_BAR_SIZE in Hlen.
  assert (Ha : engine_addr b d c =
    b + (Z.b2z (negb d) * H2C_CHANNEL_OFFSET + c * CHANNEL_SPACING)) by done.
  unfold H2C_CHANNEL_OFFSET, CHANNEL_SPACING in Ha.
  assert (Hin : forall x, inside b len (KRead32 (engine_addr b d c + 0) x)).
  { intros x. rewrite Ha. eapply inside_access;
      [| |left; f_equal; symmetry; apply Z.add_assoc]; destruct d; cbn; lia. }
  apply Forall_cons_2; [apply Hin|]. apply Forall_cons_2; [apply Hin|apply Forall_nil_2].
Qed.

Lemma channel_reads_inside b len c rs :
  0 <= c -> c + Z.of_nat (length rs) <= 4 -> XDMA_BAR_SIZE <= len ->
  Forall (inside b len) (channel_reads b c rs).
Proof.
  intros Hc Hn Hlen. revert c Hc Hn.
  induction rs as [|r rs IH]; intros c Hc Hn; cbn [channel_reads length] in *; [constructor|].
  apply Forall_app_2; [apply engine_reads_inside; (done || lia)|].
  apply Forall_app_2; [apply engine_reads_inside; (done || lia)|].
  apply IH; lia.
Qed.

(** The block of an engine: the registers up to 0x100 are in the mapping. *)
Lemma block_inside b len off f e :
  0 <= off <= 0x1300 -> XDMA_BAR_SIZE <= len -> f = "control"%string \/ f = "status"%string ->
  (exists v, e = KWrite32 (reg engine_regs (b + off) f) v) -> inside b len e.
Proof.
  intros Ho Hlen Hf [v ->]. unfold XDMA_BAR_SIZE in Hlen.
  assert (Hoff : exists o, offsetof engine_regs f = Some o /\ 0 <= o <= 0x40).
  { destruct Hf as [-> | ->]; [exists 4|exists 0x40]; by split. }
  destruct Hoff as (o & Ho1 & ?). unfold reg. rewrite Ho1. cbn [default].
  eapply (inside_access _ _ (off + o)); [..|right; by rewrite Z.add_assoc]; lia.
Qed.
(** *** From [map_bars] to the end *)

(** The part of the instance that says how to undo probing. *)
Definition flags (i : dev_inst) : Z * Z * Z * Z * Z * Z :=
  (pci_dev i, irq_line i, regions_in_use i, got_regions i, msi_enabled i, msix_enabled i).

Definition flags_of (dev : pci_device) (m : msi_mode) : Z * Z * Z * Z * Z * Z :=
  (pdev dev, -1, 0, 1, match m with Msi => 1 | _ => 0 end,
   match m with Msix => 1 | _ => 0 end).

Lemma flags_only_bars i0 i1 : only_bars i0 i1 -> flags i1 = flags i0.
Proof. unfold only_bars. intros ->. done. Qed.

Lemma flags_set_roles u b i : flags (set_roles u b i) = flags i.
Proof. by destruct u, b. Qed.

Lemma base_res_flags dev p i1 i2 :
  flags i1 = flags i2 -> base_res dev p i1 = base_res dev p i2.
Proof. unfold base_res, reg_res, msi_res. by intros [= _ _ _ -> -> _]. Qed.

(** The instance of a device that was probed, and the calls that led there. *)
Record probed (dev : pci_device) (p : Z) (m : msi_mode) (i : dev_inst) (evs : list kcall)
    : Prop := {
  probed_flags : flags i = flags_of dev m;
  probed_bars : bars_below dev XDMA_BAR_NUM (bar i);
  probed_config : exists pos e1, e1 ⊆ evs /\
    config_is dev XDMA_BAR_NUM (config_bar_idx i) pos (bar i) e1;
  probed_roles :
    let roles := layout_roles (present dev XDMA_BAR_NUM) (config_bar_idx i) in
    user_bar_idx i = default (-1) roles.1 /\ bypass_bar_idx i = default (-1) roles.2;
  probed_engines : exists base,
    bar i !! Z.to_nat (config_bar_idx i) = Some base /\
    0 <= h2c_engine i < XDMA_CHANNEL_NUM_MAX /\ 0 <= c2h_engine i < XDMA_CHANNEL_NUM_MAX /\
    h2c_regs i = base + (H2C_CHANNEL_OFFSET + h2c_engine i * CHANNEL_SPACING) /\
    c2h_regs i = base + (C2H_CHANNEL_OFFSET + c2h_engine i * CHANNEL_SPACING) /\
    desc_bypass_enabled i = true;
  probed_held :
    acquires (nodes_res ⊎ (maps_of (bar i) ⊎ (base_res dev p i ⊎ msix_res dev m))) evs;
  probed_mmio : is_Some (mmio [] evs);
}.

(** Before [map_bars]. *)
Definition early (dev : pci_device) (p : Z) (m : msi_mode) (i : dev_inst) (e0 : list kcall)
    : Prop :=
  p <> 0 /\ pdev dev <> 0 /\ flags i = flags_of dev m /\ bar i = no_bars /\
  config_bar_idx i = -1 /\ user_bar_idx i = -1 /\ bypass_bar_idx i = -1 /\
  acquires (base_res dev p i ⊎ msix_res dev m) e0 /\ mmio_grows [] [] e0.

Lemma early_late dev p m i i1 e0 eb :
  early dev p m i e0 -> flags i1 = flags i -> bars_below dev XDMA_BAR_NUM (bar i1) ->
  bars_held dev (bar i1) eb -> late dev p m i1 e0 eb.
Proof.
  intros (Hp & Hd & Hf & _ & _ & _ & _ & Ha & Hm) Hf1 [Hlen _] Hh.
  rewrite <- (base_res_flags dev p i1) in Ha by done.
  rewrite Hf in Hf1. unfold flags, flags_of in Hf1.
  injection Hf1 as _ Hirq Hr _ _ _. done.
Qed.

(** The engine stage keeps what is held: its accesses are inside the config BAR. *)
Lemma engines_held dev i c base eb rs tail :
  bars_held dev (bar i) eb -> 0 <= c -> bar i !! Z.to_nat c = Some base -> base <> 0 ->
  big dev c -> length rs = Z.to_nat XDMA_CHANNEL_NUM_MAX ->
  Forall (inside base (map_len dev c)) tail ->
  bars_held dev (bar i) (eb ++ channel_reads base 0 rs ++ tail).
Proof.
  intros Hh Hc Hb Hnz Hbig Hlen Htail. eapply bars_held_inside; [done..|].
  apply Forall_app_2; [|done]. apply channel_reads_inside; [done| |done].
  rewrite Hlen. by apply Z.leb_le.
Qed.

Lemma engine_tail_inside dev c base fh fc i :
  big dev c -> 0 <= fh < 4 -> 0 <= fc < 4 ->
  let hregs := base + (H2C_CHANNEL_OFFSET + fh * CHANNEL_SPACING) in
  let cregs := base + (C2H_CHANNEL_OFFSET + fc * CHANNEL_SPACING) in
  h2c_regs i = hregs -> c2h_regs i = cregs ->
  Forall (inside base (map_len dev c)) (enable_calls hregs cregs ++ status_calls i).
Proof.
  intros Hbig Hh Hc hregs cregs Eh Ec. unfold enable_calls, status_calls. rewrite Eh, Ec.
  subst hregs cregs. unfold H2C_CHANNEL_OFFSET, C2H_CHANNEL_OFFSET, CHANNEL_SPACING.
  cbn [app]. repeat (apply Forall_cons_2;
    [first [apply inside_quiet; by split
           |eapply block_inside; [..|eexists; reflexivity]; [lia|exact Hbig|auto]]|]).
  apply Forall_nil_2.
Qed.
Lemma fail_unmapped dev p m i i1 e0 eb s :
  early dev p m i e0 -> unmapped dev i i1 eb ->
  fail_post dev p s (-1) (freed p ((e0 ++ eb) ++ ladder_map dev p i1) s).
Proof.
  intros (Hp & Hd & Hf & _ & _ & _ & _ & Ha & Hm) (Hbar & Ho & Hacq & [N Hmm] & Hwhy).
  assert (Hf1 := flags_only_bars _ _ Ho). rewrite <- (base_res_flags dev p i1) in Ha by done.
  rewrite Hf in Hf1. unfold flags, flags_of in Hf1. injection Hf1 as _ _ Hr _ _ _.
  assert (Hlm : ladder_mask dev p i1 = ladder_map dev p i1)
    by (unfold ladder_mask; by rewrite Hbar).
  split; [done|]. exists AtBars, m, ((e0 ++ eb) ++ ladder_map dev p i1).
  split; [done|]. split; [|split].
  - split; [done|]. destruct Hwhy as [(k & ?)|(l & e1 & ? & ?)].
    + left. exists k. set_solver.
    + right. exists l, e1. split; [set_solver|done].
  - eapply (acquires_releases_rest (base_res dev p i1)); [|by apply ladder_map_releases].
    rewrite <- (gmultiset_disj_union_left_id (_ ⊎ _)). by apply acquires_app.
  - rewrite <- app_assoc. eapply mmio_is_Some_app; [exact (Hm [])|].
    eapply mmio_is_Some_app; [exact Hmm|]. rewrite <- Hlm.
    apply mmio_no_access, ladder_no_access.
Qed.

(** The config BAR of a mapped instance. *)
Lemma mapped_base dev i i1 evs :
  mapped dev i i1 evs -> exists base, 0 <= config_bar_idx i1 < XDMA_BAR_NUM /\
    big dev (config_bar_idx i1) /\
    bar i1 !! Z.to_nat (config_bar_idx i1) = Some base /\ 0 < base.
Proof.
  intros ((_ & Hb) & _ & (pos & Hc & Hbig & _) & _).
  destruct (Hb _ Hc) as (b & Hl & Hb0 & Hz). exists b.
  do 3 (split; [done|]). pose proof (big_present _ _ Hbig). lia.
Qed.

Lemma mapped_frame dev i i1 evs :
  mapped dev i i1 evs -> flags i1 = flags i /\
  let roles := layout_roles (present dev XDMA_BAR_NUM) (config_bar_idx i1) in
  user_bar_idx i1 = default (user_bar_idx i) roles.1 /\
  bypass_bar_idx i1 = default (bypass_bar_idx i) roles.2.
Proof.
  intros (_ & _ & _ & Hi). cbv zeta in *.
  set (r := layout_roles _ _) in *. clearbody r. rewrite Hi. by destruct r as [[] []].
Qed.

(** Success: everything that was set up, and where. *)
Lemma probed_intro dev p m i i1 e0 eb rs rc (c := config_bar_idx i1)
    (hs := matches true 0 rs) (cs := matches false 0 rs) i2 base dm :
  early dev p m i e0 -> mapped dev i i1 eb -> bar i1 !! Z.to_nat c = Some base ->
  length rs = Z.to_nat XDMA_CHANNEL_NUM_MAX -> first_true 0 hs <> -1 ->
  first_true 0 cs <> -1 -> 0 <= rc ->
  i2 = set_regs (base + (H2C_CHANNEL_OFFSET + first_true 0 hs * CHANNEL_SPACING))
         (base + (C2H_CHANNEL_OFFSET + first_true 0 cs * CHANNEL_SPACING))
         (engines_noted rs i1) ->
  bars_held dev (bar i2) dm -> eb ⊆ dm ->
  probed dev p m i2 (e0 ++ dm ++ node_calls rc).
Proof.
  intros He Hm Hbase Hlen Hh Hc Hrc -> Hheld Hsub.
  destruct (mapped_frame _ _ _ _ Hm) as [Hfl [Hu Hby]].
  assert (He' := He). destruct He' as (Hp & Hd & Hf & _ & _ & Hu0 & Hb0 & Ha & Hmm).
  assert (Hn := length_matches true 0 rs). assert (Hn' := length_matches false 0 rs).
  fold hs in Hn. fold cs in Hn'.
  destruct (first_true_range 0 hs) as [|Hhr]; [done|].
  destruct (first_true_range 0 cs) as [|Hcr]; [done|].
  rewrite Hn, Hlen in Hhr. rewrite Hn', Hlen in Hcr.
  destruct Hm as (Hbelow & _ & (pos & Hcfg) & _).
  destruct Hheld as (Hacq & M & HM & _).
  assert (Hnodes : acquires nodes_res (node_calls rc)).
  { apply (acquires_app _ _ [_] [_]); apply acquires_one; intros L; cbn;
      [by rewrite (proj2 (Z.leb_le 0 rc))|done]. }
  split.
  - change (flags i1 = flags_of dev m). by rewrite Hfl.
  - exact Hbelow.
  - exists pos, eb. split; [set_solver|exact Hcfg].
  - cbv zeta. rewrite Hu0 in Hu. rewrite Hb0 in Hby. by split.
  - exists base. do 5 (split; [done|]). done.
  - rewrite (base_res_flags dev p _ i) by exact Hfl.
    rewrite app_assoc. by repeat apply acquires_app.
  - eapply mmio_is_Some_app; [exact (Hmm [])|]. eapply mmio_is_Some_app; [exact (HM [])|].
    apply mmio_no_access. repeat (apply Forall_cons_2; [apply misc_no_access|]).
    apply Forall_nil_2.
Qed.
(** From the mask on, with the BARs mapped by the calls [eb]. *)
Lemma probe_engine_stage p dev m i i1 e0 eb mk base s (Q : Z -> kstate -> Prop) :
  early dev p m i e0 -> mapped dev i i1 eb -> 0 <= config_bar_idx i1 < XDMA_BAR_NUM ->
  big dev (config_bar_idx i1) -> bar i1 !! Z.to_nat (config_bar_idx i1) = Some base ->
  0 < base -> bars_held dev (bar i1) (eb ++ [mk]) ->
  (forall rc s1 s2, same_but_nodes s s1 -> fail_post dev p s1 rc s2 -> Q rc s2) ->
  (forall i2 evs, probed dev p m i2 (e0 ++ evs) ->
     Q 0 (upd p i2 (e0 ++ evs) (set_nodes (pdev dev) s))) ->
  wp (let* rc := probe_engines p in
      if negb (rc =? 0) then err_engines p dev rc else probe_nodes p dev) Q
     (upd p i1 (e0 ++ eb ++ [mk]) s).
Proof.
  intros He Hm Hc Hbig Hbase Hpos Hh Hfail Hok.
  destruct (mapped_frame _ _ _ _ Hm) as [Hfl _]. assert (Hbelow := proj1 Hm).
  eapply wp_ispec; [apply (probe_engines_spec p base); (done || apply He || lia)|].
  intros rc i2 e2 (rs & Hrs & Hcase). cbv zeta in Hcase.
  destruct (Z.eqb_spec (first_true 0 (matches true 0 rs)) (-1)) as [E1|E1];
    [|destruct (Z.eqb_spec (first_true 0 (matches false 0 rs)) (-1)) as [E2|E2]];
    cbn [orb] in Hcase.
  3: { destruct Hcase as (-> & Hi2 & ->). cbn [negb Z.eqb].
    destruct (first_true_range 0 (matches true 0 rs)) as [|Hr1]; [done|].
    destruct (first_true_range 0 (matches false 0 rs)) as [|Hr2]; [done|].
    rewrite length_matches, Hrs in Hr1, Hr2.
    change (0 + Z.of_nat (Z.to_nat XDMA_CHANNEL_NUM_MAX)) with 4 in Hr1, Hr2.
    match goal with |- context [channel_reads base 0 rs ++ enable_calls ?x ?y] =>
      assert (Hh2 : bars_held dev (bar i2) (((eb ++ [mk]) ++ channel_reads base 0 rs ++
        enable_calls x y) ++ status_calls i2)) end.
    { replace (bar i2) with (bar i1) by by rewrite Hi2.
      rewrite <- !(app_assoc (eb ++ [mk])), <- (app_assoc (channel_reads _ _ _)).
      eapply (engines_held dev i1); [done|apply Hc|done|lia|done|done|].
      apply (engine_tail_inside dev _ base); (done || by rewrite Hi2). }
    rewrite <- (app_assoc e0). eapply probe_nodes_spec; [|done|].
    - eapply early_late; [done| |by rewrite Hi2|done]. by rewrite Hi2.
    - intros rc Hrc. apply Hok. eapply probed_intro; (try eassumption). set_solver. }
  all: destruct Hcase as (-> & Hi2 & ->); cbn [negb Z.eqb ENODEV Z.opp].
  all: replace ((e0 ++ eb ++ [mk]) ++ channel_reads base 0 rs) with
      (e0 ++ ((eb ++ [mk]) ++ channel_reads base 0 rs) ++ [])
      by (rewrite app_nil_r; by rewrite <- !app_assoc).
  all: eapply (err_engines_late _ _ m _ _ _ _ ∅ AtEngines); [|apply acquires_nil|done|done| |done|].
  all: try (by rewrite gmultiset_disj_union_left_id).
  all: try (intros s1 Hs1; by eapply Hfail).
  all: (eapply early_late; [done|by rewrite Hi2|by rewrite Hi2|]).
  all: replace (bar i2) with (bar i1) by by rewrite Hi2.
  all: pose proof (engines_held dev i1 _ base _ rs [] Hh (proj1 Hc) Hbase
         ltac:(lia) Hbig Hrs (Forall_nil_2 _)) as Hh2; by rewrite app_nil_r in Hh2.
Qed.

Lemma probe_map_spec p dev m i e0 s (Q : Z -> kstate -> Prop) :
  early dev p m i e0 ->
  (forall rc s1 s2, same_but_nodes s s1 -> fail_post dev p s1 rc s2 -> Q rc s2) ->
  (forall i2 evs, probed dev p m i2 (e0 ++ evs) ->
     Q 0 (upd p i2 (e0 ++ evs) (set_nodes (pdev dev) s))) ->
  wp (probe_map p dev) Q (upd p i e0 s).
Proof.
  intros He Hfail Hok. assert (He' := He). destruct He' as (Hp & Hd & _ & Hbar & Hci & _).
  unfold probe_map. eapply wp_ispec; [by apply map_bars_spec|].
  intros rc i1 eb [[-> Hm]|[-> Hu]]; cbn [negb Z.eqb].
  2: { apply err_map_spec. eapply Hfail; [done|by eapply fail_unmapped]. }
  destruct (mapped_base _ _ _ _ Hm) as (base & Hc & Hbig & Hbase & Hpos).
  destruct (mapped_frame _ _ _ _ Hm) as [Hfl _]. assert (Hm' := Hm).
  destruct Hm' as (Hbelow & Hh & _).
  eapply wp_ispec; [by apply set_dma_mask_spec|]. intros rc i2 e2 [-> ->].
  rewrite <- app_assoc. destruct (Z.eqb_spec rc 0) as [->|Hrc]; cbn [negb].
  - eapply (probe_engine_stage _ _ m); try done.
    apply bars_held_skip; [done|done|by intros].
  - apply err_mask_spec; [apply Hbelow|]. eapply Hfail; [done|].
    eapply (fail_late _ _ m _ _ _ _ ∅ AtMask); [by eapply early_late| | |done| |].
    + by apply acquires_skip.
    + apply Forall_cons_2; [by eexists|apply Forall_nil_2].
    + by rewrite gmultiset_disj_union_left_id.
    + intros e. cbn. set_solver.
Qed.
(** *** The stages before the BARs *)

(** Calls that leave the mappings alone. *)
Definition still (e : kcall) : Prop := forall M, mmio_step M e = Some M.

Lemma mmio_still M evs : Forall still evs -> mmio M evs = Some M.
Proof. induction 1 as [|e evs He _ IH]; [done|]. cbn. by rewrite He. Qed.

Lemma quiet_still evs : Forall quiet evs -> Forall still evs.
Proof. apply Forall_impl. by intros e [_ He]. Qed.

Definition start_calls (dev : pci_device) (p : Z) : list kcall :=
  [KZalloc p; KSetDrvdata (pdev dev) p].

Lemma start_acquires dev p : p <> 0 -> acquires {[+ RInst p +]} (start_calls dev p).
Proof.
  intros Hp. rewrite <- (gmultiset_disj_union_left_id {[+ RInst p +]}).
  apply (acquires_app _ _ [_] [_]); [apply acquires_one|by apply acquires_skip].
  intros L. cbn. by rewrite (proj2 (Z.eqb_neq p 0)).
Qed.

Lemma mode_calls_still dev m rc : Forall still (mode_calls dev m rc).
Proof. destruct m; by repeat constructor. Qed.

Definition mode_res (dev : pci_device) (m : msi_mode) : gmultiset resource :=
  match m with
  | Legacy => ∅
  | Msi => {[+ RMsi (pdev dev) +]}
  | Msix => {[+ RMsix (pdev dev) +]}
  end.

Lemma mode_calls_acquires dev m rc :
  acquires (if 0 <=? rc then mode_res dev m else ∅) (mode_calls dev m rc).
Proof.
  destruct m; cbn [mode_res mode_calls].
  - destruct (_ <=? _); apply acquires_nil.
  - destruct (0 <=? rc) eqn:E; [apply acquires_one|apply acquires_skip];
      intros L; cbn; by rewrite E.
  - destruct (0 <=? rc) eqn:E; [apply acquires_one|apply acquires_skip];
      intros L; cbn; by rewrite E.
Qed.

(** The calls up to the interrupt mode. *)
Definition mode_trace (dev : pci_device) (p : Z) (qs : list kcall) (m : msi_mode) (rc : Z)
    : list kcall :=
  ((start_calls dev p ++ [KEnableDevice (pdev dev) 0]) ++ KSetMaster (pdev dev) :: qs) ++
  mode_calls dev m rc.

Lemma mode_trace_acquires dev p qs m rc :
  p <> 0 -> Forall quiet qs ->
  acquires ((if 0 <=? rc then mode_res dev m else ∅) ⊎
            ({[+ REnabled (pdev dev) +]} ⊎ {[+ RInst p +]})) (mode_trace dev p qs m rc).
Proof.
  intros Hp Hq. unfold mode_trace. apply acquires_app; [|apply mode_calls_acquires].
  rewrite <- (gmultiset_disj_union_left_id (_ ⊎ _)). apply acquires_app.
  - apply acquires_app; [by apply start_acquires|]. by apply acquires_one.
  - apply acquires_quiet, Forall_cons_2; [by split|done].
Qed.

Lemma mode_trace_still dev p qs m rc :
  Forall quiet qs -> Forall still (mode_trace dev p qs m rc).
Proof.
  intros Hq. unfold mode_trace, start_calls. cbn [app].
  do 4 (apply Forall_cons_2; [done|]).
  apply Forall_app_2; [by apply quiet_still|apply mode_calls_still].
Qed.

Lemma early_intro dev p m qs rc :
  p <> 0 -> pdev dev <> 0 -> Forall quiet qs -> 0 <= rc ->
  early dev p m (set_mode m (fresh_inst (pdev dev)) <| got_regions := 1 |>)
    (mode_trace dev p qs m rc ++ [KRequestRegions (pdev dev) 0]).
Proof.
  intros Hp Hd Hq Hrc. do 2 (split; [done|]). do 5 (split; [by destruct m|]). split.
  - replace (_ ⊎ msix_res dev m) with ({[+ RRegions (pdev dev) +]} ⊎
      (mode_res dev m ⊎ ({[+ REnabled (pdev dev) +]} ⊎ {[+ RInst p +]}))).
    + apply acquires_app; [|by apply acquires_one].
      pose proof (mode_trace_acquires dev p qs m rc Hp Hq) as Ha.
      by rewrite (proj2 (Z.leb_le 0 rc)) in Ha.
    + unfold base_res, reg_res, msi_res.
      destruct m; cbn [mode_res msix_res set_mode got_regions msi_enabled set_field
        set_got_regions set_msi_enabled set_msix_enabled set_entry fresh_inst Z.eqb];
        multiset_solver.
  - intros K. apply mmio_still, Forall_app_2; [by apply mode_trace_still|].
    by apply Forall_cons_2.
Qed.

(** Failure before the BARs. *)
Lemma fail_enable dev p rc s :
  p <> 0 -> rc <> 0 ->
  fail_post dev p s rc
    (freed p ((start_calls dev p ++ [KEnableDevice (pdev dev) rc]) ++ [KFree p]) s).
Proof.
  intros Hp Hrc. split; [done|]. eexists AtEnable, Legacy, _.
  split; [done|]. split; [cbn; set_solver|]. split; cbn [leak].
  - eapply acquires_releases; [|by apply (releases_one (RInst p))].
    rewrite <- (gmultiset_disj_union_left_id {[+ RInst p +]}).
    apply acquires_app; [by apply start_acquires|]. apply acquires_skip.
    intros L. cbn. by rewrite (proj2 (Z.eqb_neq rc 0)).
  - by eexists.
Qed.

Lemma fail_msi dev p qs m rc s :
  p <> 0 -> rc < 0 -> m <> Legacy -> Forall quiet qs ->
  fail_post dev p s rc (freed p (mode_trace dev p qs m rc ++
    ladder_scan dev p (set_mode m (fresh_inst (pdev dev)))) s).
Proof.
  intros Hp Hrc Hm Hq. split; [lia|]. eexists AtMsi, m, _. split; [done|]. split; [|split].
  - exists m. split; [done|]. unfold mode_trace. set_solver.
  - eapply acquires_releases; [|apply ladder_scan_releases; by destruct m].
    pose proof (mode_trace_acquires dev p qs m rc Hp Hq) as Ha.
    rewrite (proj2 (Z.leb_gt 0 rc)) in Ha by done.
    by rewrite gmultiset_disj_union_left_id in Ha.
  - eapply mmio_is_Some_app; [by apply mmio_still, mode_trace_still|].
    destruct m; by eexists.
Qed.

Lemma fail_regions dev p qs m rc0 rc s :
  p <> 0 -> 0 <= rc0 -> rc <> 0 -> Forall quiet qs ->
  fail_post dev p s rc (freed p ((mode_trace dev p qs m rc0 ++
    [KRequestRegions (pdev dev) rc]) ++ ladder_regions dev p
      (set_mode m (fresh_inst (pdev dev)) <| regions_in_use := 1 |>)) s).
Proof.
  intros Hp Hrc0 Hrc Hq. split; [done|]. eexists AtRegions, m, _. split; [done|].
  split; [cbn; set_solver|]. split.
  - eapply (acquires_releases_rest
      ((if decide (m = Msi) then {[+ RMsi (pdev dev) +]} else ∅) ⊎ {[+ RInst p +]})).
    + replace (_ ⊎ leak _ _ _ _) with (∅ ⊎
        (mode_res dev m ⊎ ({[+ REnabled (pdev dev) +]} ⊎ {[+ RInst p +]}))).
      * apply acquires_app.
        -- pose proof (mode_trace_acquires dev p qs m rc0 Hp Hq) as Ha.
           by rewrite (proj2 (Z.leb_le 0 rc0)) in Ha.
        -- apply acquires_skip. intros L. cbn. by rewrite (proj2 (Z.eqb_neq rc 0)).
      * destruct m; cbn [mode_res leak msix_res decide msi_mode_eq_dec]; multiset_solver.
    + unfold ladder_regions. apply releases_app.
      * destruct m; (apply releases_nil || by apply releases_one).
      * destruct m; by apply releases_one.
  - rewrite <- app_assoc. eapply mmio_is_Some_app; [by apply mmio_still, mode_trace_still|].
    destruct m; by eexists.
Qed.
(** *** [probe] *)

Definition bind_drvdata (dev : pci_device) (p : Z) (s : kstate) : kstate :=
  set_drvdata (<[pdev dev := p]> (k_drvdata s)) s.

(** How [probe] ends: without memory, unwound, or with a working device. *)
Inductive probe_post (dev : pci_device) (s : kstate) (rc : Z) (s1 : kstate) : Prop :=
  | probe_no_memory : rc = 0 -> s1 = log (KZalloc 0) s -> probe_post dev s rc s1
  | probe_unwound p s0 :
      0 < p -> same_but_nodes (bind_drvdata dev p s) s0 -> fail_post dev p s0 rc s1 ->
      probe_post dev s rc s1
  | probe_works p m i evs :
      rc = 0 -> 0 < p -> probed dev p m i evs ->
      s1 = upd p i evs (set_nodes (pdev dev) (bind_drvdata dev p s)) ->
      probe_post dev s rc s1.

Lemma same_but_refl s : same_but_nodes s s.
Proof. done. Qed.

(** From the interrupt mode on. *)
Lemma probe_regions_stage p dev m qs rc s (Q : Z -> kstate -> Prop) :
  p <> 0 -> pdev dev <> 0 -> Forall quiet qs -> 0 <= rc ->
  (forall rc s1 s2, same_but_nodes s s1 -> fail_post dev p s1 rc s2 -> Q rc s2) ->
  (forall i evs, probed dev p m i evs -> Q 0 (upd p i evs (set_nodes (pdev dev) s))) ->
  wp (let* rc := request_regions p dev in
      if negb (rc =? 0) then err_regions p dev rc else probe_map p dev) Q
     (upd p (set_mode m (fresh_inst (pdev dev))) (mode_trace dev p qs m rc) s).
Proof.
  intros Hp Hd Hq Hrc Hfail Hok.
  eapply wp_ispec; [by apply request_regions_spec|]. intros rc2 i1 e1 [-> ->].
  destruct (Z.eqb_spec rc2 0) as [->|Hne]; cbn [negb].
  - eapply probe_map_spec; [by apply early_intro|done|]. intros i2 evs. apply Hok.
  - apply err_regions_spec. eapply Hfail; [apply same_but_refl|]. by apply fail_regions.
Qed.

Lemma probe_spec dev s : pdev dev <> 0 -> wp (probe dev) (probe_post dev s) s.
Proof.
  intros Hd. unfold probe. apply wp_bind, alloc_dev_instance_spec; [done| |].
  { cbn [Z.eqb]. apply wp_ret. by apply probe_no_memory. }
  intros p Hp. rewrite (proj2 (Z.eqb_neq p 0)) by lia.
  fold (bind_drvdata dev p s). fold (start_calls dev p).
  assert (Hfail : forall rc s1 s2, same_but_nodes (bind_drvdata dev p s) s1 ->
    fail_post dev p s1 rc s2 -> probe_post dev s rc s2)
    by (intros; by eapply probe_unwound).
  apply wp_kask. intros rc _. destruct (Z.eqb_spec rc 0) as [->|Hrc]; cbn [negb].
  2: { unfold err_enable. apply wp_kfree, wp_ret. eapply Hfail; [apply same_but_refl|].
       apply fail_enable; [lia|done]. }
  apply wp_kdo.
  eapply wp_ispec; [by apply probe_scan_for_msi_spec; [lia|..]|].
  intros rc i1 e1 (m & qs & Hq & -> & -> & Hleg). 
  replace (_ ++ qs ++ _) with (mode_trace dev p qs m rc)
    by (unfold mode_trace; by rewrite <- !app_assoc).
  destruct (Z.ltb_spec rc 0).
  - apply err_scan_msi_spec. eapply Hfail; [apply same_but_refl|].
    apply fail_msi; [lia|done| |done]. intros ->. specialize (Hleg eq_refl). lia.
  - apply probe_regions_stage; try (done || lia). intros i evs Hpr.
    by eapply probe_works.
Qed.
(** *** [remove] *)

Definition remove_calls (dev : pci_device) (p : Z) (m : msi_mode) (i : dev_inst)
    : list kcall :=
  [KMiscDeregister misc_dev_node; KMiscDeregister bypass_node] ++
  unmap_calls dev (bar i) ++ [KReleaseRegions (pdev dev)] ++
  match m with
  | Legacy => []
  | Msi => [KDisableMsi (pdev dev)]
  | Msix => [KDisableMsix (pdev dev)]
  end ++ [KDisableDevice (pdev dev); KFree p].

Lemma remove_tail dev p i evs s (Q : unit -> kstate -> Prop) :
  regions_in_use i = 0 ->
  Q tt (freed p (evs ++ [KDisableDevice (pdev dev); KFree p]) s) ->
  wp (let* st := inst_get p in
      (if regions_in_use st =? 0 then kdo (KDisableDevice (pdev dev));; pret tt
       else pret tt);;
      kfree p) Q (upd p i evs s).
Proof.
  intros Hr HQ. apply wp_inst_get. rewrite Hr. apply (wp_optional _ _ _ _ true).
  apply wp_ret_r, wp_kfree, wp_ret. by rewrite <- app_assoc.
Qed.

Lemma remove_spec dev p m i evs s (Q : unit -> kstate -> Prop) :
  pdev dev <> 0 -> p <> 0 -> k_drvdata s !! pdev dev = Some p ->
  flags i = flags_of dev m -> length (bar i) = Z.to_nat XDMA_BAR_NUM ->
  Q tt (freed p (evs ++ remove_calls dev p m i) s) ->
  wp (remove dev) Q (upd p i evs s).
Proof.
  intros Hd Hp Hdrv Hf Hlen HQ. injection Hf as _ _ Hr Hg Hmsi Hmsix.
  unfold remove. cbv zeta. rewrite (proj2 (Z.eqb_neq _ _) Hd).
  assert (Hget : forall B (k : Z -> kprog B) R s0, k_drvdata s0 = k_drvdata s ->
    wp (k p) R s0 -> wp (pbind (dev_get_drvdata (pdev dev)) k) R s0).
  { intros B k R s0 Hs0 Hk. apply wp_bind. unfold wp at 1, dev_get_drvdata.
    rewrite (proj2 (Z.eqb_neq _ _) Hd), Hs0, Hdrv. exact Hk. }
  apply wp_bind, Hget; [done|]. apply wp_ret. rewrite (proj2 (Z.eqb_neq _ _) Hp).
  apply Hget; [done|]. apply wp_inst_get, wp_kdo, wp_kdo.
  eapply wp_ispec; [by apply unmap_bars_spec|]. intros _ i1 e1 [-> ->].
  apply wp_inst_get. cbn [got_regions set_field set_bar]. rewrite Hg. cbn [Z.eqb negb].
  apply (wp_optional _ _ _ _ true), wp_inst_get.
  cbn [msi_enabled msix_enabled set_field set_bar]. rewrite Hmsi, Hmsix.
  destruct m; cbn [Z.eqb negb]; apply wp_bind.
  1: apply wp_ret.
  2, 3: apply wp_kdo, wp_inst_upd, wp_ret.
  all: apply remove_tail; [done|]; by rewrite <- !app_assoc.
Qed.

(** [remove] gives back everything a probed device holds. *)
Lemma remove_releases dev p m i :
  flags i = flags_of dev m ->
  releases (nodes_res ⊎ (maps_of (bar i) ⊎ (base_res dev p i ⊎ msix_res dev m)))
    (remove_calls dev p m i).
Proof.
  intros Hf. injection Hf as _ _ _ Hg Hmsi _. unfold base_res, reg_res, msi_res.
  rewrite Hg, Hmsi. unfold remove_calls.
  replace (nodes_res ⊎ _) with
    (({[+ RMisc misc_dev_node +]} ⊎ {[+ RMisc bypass_node +]}) ⊎ (maps_of (bar i) ⊎
     ({[+ RRegions (pdev dev) +]} ⊎ (mode_res dev m ⊎
       ({[+ REnabled (pdev dev) +]} ⊎ {[+ RInst p +]}))))).
  - repeat apply releases_app.
    + by apply (releases_app _ _ [_] [_]); apply releases_one.
    + apply unmap_calls_releases.
    + by apply releases_one.
    + destruct m; (apply releases_nil || by apply releases_one).
    + by apply (releases_app _ _ [_] [_]); apply releases_one.
  - unfold nodes_res. destruct m; cbn [mode_res msix_res Z.eqb]; multiset_solver.
Qed.

Lemma remove_no_access dev p m i : Forall no_access (remove_calls dev p m i).
Proof.
  unfold remove_calls, unmap_calls. repeat apply Forall_app_2.
  - by repeat (apply Forall_cons_2; [by intros M; eexists|]).
  - apply Forall_fmap, Forall_true. by intros b M; eexists.
  - apply Forall_cons_2; [by intros M; eexists|done].
  - destruct m; [done|..]; (apply Forall_cons_2; [by intros M; eexists|done]).
  - by repeat (apply Forall_cons_2; [by intros M; eexists|]).
Qed.
End ProbeSpecs.
