(* ===== verification/XdmaChar.v ===== *)
(** * The device nodes: mmap, open and the ioctls

    [xdma_mmap], [xdma_bypass_mmap], [xdma_open], [xdma_release], the three
    ioctls and [char_xdma_ioctl] of [sw/driver/xdma_driver.c], and the command
    numbers of [sw/driver/xdma_ioctl.h]. *)

From stdpp Require Import base gmap gmultiset list strings numbers option.
From S2P Require Import Prelude CInt XdmaRegs Kernel Resources XdmaBars XdmaProbe.
Open Scope Z_scope.

(** ** Mapping a BAR into user space *)

(** The fields of [struct vm_area_struct] that the driver uses. *)
Record vm_area : Type := VmArea {
  vm_start : Z;
  vm_end : Z;
  vm_pgoff : Z;
  vm_flags : Z;
  vm_noncached : bool;
}.

Definition VM_IO : Z := 0x4000.
Definition VM_DONTEXPAND : Z := 0x40000.
Definition VM_DONTDUMP : Z := 0x4000000.

(** [vma->vm_page_prot = pgprot_noncached(...)], then the flags. *)
Definition vma_io (vma : vm_area) : vm_area :=
  VmArea (vm_start vma) (vm_end vma) (vm_pgoff vma)
    (Z.lor (vm_flags vma) (Z.lor VM_IO (Z.lor VM_DONTEXPAND VM_DONTDUMP))) true.

(** [pci_resource_start(d, idx)] and [pci_resource_len(d, idx)]: [dev] is the
    device behind the pointer; the index is not checked by the macros. *)
Definition pci_resource (field : pci_device -> Z -> Z) (dev : pci_device) (d idx : Z)
    : kprog Z :=
  if negb (d =? pdev dev) then halt WildAccess
  else if idx <? 0 then halt OutOfBounds
  else pret (u64 (field dev idx)).

Section Char.
Context `{KernelEnv}.

Definition node_parent (m : misc_id) : kprog Z :=
  let* s := get_state in pret (md_parent (the_misc m s)).

(** The two mmap handlers are one text, but for the node and the BAR index. *)
Definition node_mmap (m : misc_id) (bar_idx : dev_inst -> Z) (dev : pci_device)
    (vma : vm_area) : kprog (Z * vm_area) :=
  let* parent := node_parent m in
  let* inst := dev_get_drvdata parent in
  BUG_ON (inst =? 0);;
  let off := u64 (Z.shiftl (vm_pgoff vma) PAGE_SHIFT) in
  let vsize := u64 (vm_end vma - vm_start vma) in
  let* st := inst_get inst in
  let* phys := pci_resource resource_start dev (pci_dev st) (bar_idx st) in
  let* psize := pci_resource resource_len dev (pci_dev st) (bar_idx st) in
  if psize <? vsize then pret (- EINVAL, vma)
  else
    let vma := vma_io vma in
    let pfn := Z.shiftr phys PAGE_SHIFT in
    let* rc := kask (fun h => s32 (env_io_remap_pfn_range h (vm_start vma) pfn vsize))
                    (KRemapPfn (vm_start vma) pfn vsize) in
    if negb (rc =? 0) then pret (- EAGAIN, vma) else pret (0, vma).

Definition xdma_mmap : pci_device -> vm_area -> kprog (Z * vm_area) :=
  node_mmap misc_dev_node user_bar_idx.
Definition xdma_bypass_mmap : pci_device -> vm_area -> kprog (Z * vm_area) :=
  node_mmap bypass_node bypass_bar_idx.

(** ** The ioctls *)

(** [copy_from_user] of a structure of two words. *)
Definition copy_two_words (arg : Z) : kprog (Z * Z * Z) :=
  kask (fun h => let '(a, b, n) := env_copy_from_user h arg in (u64 a, u64 b, s32 n))
       (fun r => KCopyFromUser arg r.2).

Definition copy_to_user (dst : Z) (data : list Z) : kprog Z :=
  kask (fun h => u64 (env_copy_to_user h dst data)) (KCopyToUser dst data).

(** [vmalloc] or [kmalloc] of [n] words; the memory is not initialised. *)
Definition alloc_words (n : Z) : kprog Z :=
  let* p := kask (fun h => u64 (env_alloc_array h n)) (fun p => KAllocArray p n) in
  (if p =? 0 then pret tt
   else modify_state (fun s =>
          set_arrays (<[p := replicate (Z.to_nat n) None]> (k_arrays s)) s));;
  pret p.

Definition free_words (p : Z) : kprog unit :=
  kdo (KFreeArray p);;
  modify_state (fun s => set_arrays (delete p (k_arrays s)) s).

(** [get_user_pages]: the pages it pinned are stored from the start of the
    array, unless the array pointer is NULL. *)
Definition get_user_pages (start npages arr : Z) : kprog Z :=
  let* r := kask (fun h => let rc := env_get_user_pages h start npages in
                           (rc, (fun k => env_user_page h start k) <$> seqZ 0 rc))
                 (fun r => KGetUserPages start npages r.1 r.2) in
  (if arr =? 0 then pret tt
   else
     let* l := array_at arr in
     modify_state (fun s => set_arrays
       (<[arr := (Some <$> r.2) ++ drop (length r.2) l]> (k_arrays s)) s));;
  pret r.1.

Definition ioctl_do_buffer_set (inst arg : Z) : kprog Z :=
  let* (addr, size, rc) := copy_two_words arg in
  if negb (rc =? 0) then pret rc
  else
    let npages := u64 (1 + u64 (size - 1) / PAGE_SIZE) in
    let* pages := alloc_words (u64 (npages * 8) / 8) in
    inst_upd inst (fun i => i <| huge_pages := pages |>);;
    kdo KDownReadMmapSem;;
    let* st := inst_get inst in
    let* ret := get_user_pages addr npages (huge_pages st) in
    let rc := s32 ret in
    kdo KUpReadMmapSem;;
    if rc =? 0 then pret (-1)
    else
      let npages := u64 rc in
      let* r := for_loop (R := Empty_set) (Z.to_nat npages) 0 0 (fun i j =>
        let* st := inst_get inst in
        let* pg := array_get (huge_pages st) i in
        kdo (KSetPageReserved pg);;
        pret (inl (if i mod 512 =? 0 then j + 1 else j))) in
      let j := match r with inl j => j | inr e => match e with end end in
      inst_upd inst (fun i => i <| huge_user_addr := addr |>);;
      inst_upd inst (fun i => i <| huge_size := u64 (npages * 4096) |>);;
      inst_upd inst (fun i => i <| huge_npages := npages |>);;
      inst_upd inst (fun i => i <| huge_hnpages := j |>);;
      pret 0.

(** The words of a kernel array, for a copy to user space. *)
Definition words_of (p n : Z) : kprog (list Z) :=
  let* r := for_loop (R := Empty_set) (Z.to_nat n) 0 [] (fun k l =>
    let* v := array_get p k in pret (inl (l ++ [v]))) in
  match r with inl l => pret l | inr e => match e with end end.

Definition ioctl_do_mapping_get (inst arg : Z) : kprog Z :=
  let* (map_npages, map_dma_addr, rc) := copy_two_words arg in
  if negb (rc =? 0) then pret rc
  else
    let* st := inst_get inst in
    if map_npages <? huge_hnpages st then pret (- EFAULT)
    else
      let map_npages := huge_hnpages st in
      let npages := s32 (huge_npages st) in
      let* dma_addr := alloc_words (u64 (8 * map_npages) / 8) in
      for_loop (R := Empty_set) (Z.to_nat npages) 0 0 (fun i j =>
        if i mod 512 =? 0 then
          let* st := inst_get inst in
          let* pg := array_get (huge_pages st) i in
          array_set dma_addr j (u64 (env_page_to_phys pg));;
          pret (inl (j + 1))
        else pret (inl j));;
      let* n := copy_to_user arg [map_npages; map_dma_addr] in
      if negb (n =? 0) then free_words dma_addr;; pret (- EACCES)
      else
        let* data := words_of dma_addr map_npages in
        let* n := copy_to_user map_dma_addr data in
        if negb (n =? 0) then free_words dma_addr;; pret (- EACCES)
        else free_words dma_addr;; pret 0.

Definition page_reserved (pg : Z) : kprog bool :=
  fun s => (Done (env_page_reserved (k_trace s) pg), s).

Definition ioctl_release_mapping (inst : Z) : kprog Z :=
  let* st := inst_get inst in
  let npages := s32 (huge_npages st) in
  for_loop (R := Empty_set) (Z.to_nat npages) 0 tt (fun i _ =>
    let* st := inst_get inst in
    let* pg := array_get (huge_pages st) i in
    kdo KDownReadMmapSem;;
    let* reserved := page_reserved pg in
    (if negb reserved then kdo (KSetPageDirty pg) else pret tt);;
    kdo (KPutPage pg);;
    kdo KUpReadMmapSem;;
    pret (inl tt));;
  let* st := inst_get inst in
  free_words (huge_pages st);;
  pret 0.

(** ** Command numbers and dispatch *)

(** [_IOC(dir, type, nr, size)] of <linux/ioctl.h>. *)
Definition IOC (dir ty nr size : Z) : Z :=
  Z.lor (Z.shiftl dir 30) (Z.lor (Z.shiftl ty 8) (Z.lor nr (Z.shiftl size 16))).

Definition IOCTL_XDMA_BUFFER_SET : Z := IOC 1 0x71 1 8.
Definition IOCTL_XDMA_MAPPING_GET : Z := IOC 2 0x71 2 8.
Definition IOCTL_XDMA_RELEASE : Z := IOC 0 0x71 3 0.

(** [inst] is [file->private_data]. *)
Definition char_xdma_ioctl (inst cmd arg : Z) : kprog Z :=
  if cmd =? IOCTL_XDMA_BUFFER_SET then ioctl_do_buffer_set inst arg
  else if cmd =? IOCTL_XDMA_MAPPING_GET then ioctl_do_mapping_get inst arg
  else if cmd =? IOCTL_XDMA_RELEASE then ioctl_release_mapping inst
  else pret 0.

(** [offsetof(struct dev_inst, cdev)] on a 64-bit machine: [magic] and
    [pci_dev] take eight bytes each, [instance] four and four of padding. *)
Definition cdev_offset : Z := 24.

(** The result is [file->private_data], then the return value. *)
Definition xdma_open (i_cdev : Z) : Z * Z := (u64 (i_cdev - cdev_offset), 0).
Definition xdma_release : Z := 0.
End Char.

(** ** Specifications *)

(** The huge pages (512 small ones each) that [n] small pages touch. *)
Definition huge_count (n : Z) : Z := (n + 511) / 512.

Lemma huge_count_S k :
  0 <= k -> huge_count (k + 1) = if k mod 512 =? 0 then huge_count k + 1 else huge_count k.
Proof. intros Hk. unfold huge_count. destruct (Z.eqb_spec (k mod 512) 0); zdivmod. Qed.

Lemma huge_count_range n : 0 <= n -> 0 <= huge_count n <= n.
Proof. intros Hn. unfold huge_count. zdivmod. Qed.

(** [size] bytes need this many small pages. *)
Lemma npages_ceil size :
  0 < size <= 2 ^ 42 -> u64 (1 + u64 (size - 1) / PAGE_SIZE) = (size + 4095) / 4096.
Proof.
  intros Hs. rewrite (u64_small (size - 1)) by lia.
  rewrite u64_small; unfold PAGE_SIZE, PAGE_SHIFT; zdivmod.
Qed.

Section CharSpecs.
Context `{KernelEnv}.
Implicit Types (i : dev_inst) (s : kstate) (dev : pci_device).

(** *** Arrays *)

Lemma wp_array_get {B} a idx v l s (k : Z -> kprog B) Q :
  k_arrays s !! a = Some l -> 0 <= idx -> l !! Z.to_nat idx = Some (Some v) ->
  wp (k v) Q s -> wp (pbind (array_get a idx) k) Q s.
Proof.
  intros Ha Hi Hv Hk. apply wp_bind. unfold array_get. apply wp_bind.
  unfold wp at 1, array_at. rewrite Ha. rewrite (nth_get_ok _ _ (Some v)) by done. exact Hk.
Qed.

Lemma wp_array_set {B} a idx v l s (k : unit -> kprog B) Q :
  k_arrays s !! a = Some l -> 0 <= idx < Z.of_nat (length l) ->
  wp (k tt) Q (set_arrays (<[a := <[Z.to_nat idx := Some v]> l]> (k_arrays s)) s) ->
  wp (pbind (array_set a idx v) k) Q s.
Proof.
  intros Ha Hi Hk. apply wp_bind. unfold array_set. apply wp_bind.
  unfold wp at 1, array_at. rewrite Ha. rewrite nth_set_ok by done. exact Hk.
Qed.

Lemma wp_modify_bind {B} f s (k : unit -> kprog B) Q :
  wp (k tt) Q (f s) -> wp (pbind (modify_state f) k) Q s.
Proof. done. Qed.

(** *** mmap *)

(** The node leads to the instance of its device. *)
Definition node_of (m : misc_id) (dev : pci_device) (p : Z) (i : dev_inst) (s : kstate)
    : Prop :=
  pdev dev <> 0 /\ p <> 0 /\ md_parent (the_misc m s) = pdev dev /\
  k_drvdata s !! pdev dev = Some p /\ k_heap s !! p = Some i /\ pci_dev i = pdev dev.

Definition vm_size (vma : vm_area) : Z := u64 (vm_end vma - vm_start vma).

Lemma node_mmap_spec m idx dev vma p i s :
  node_of m dev p i s -> 0 <= idx i ->
  node_mmap m idx dev vma s =
    if u64 (resource_len dev (idx i)) <? vm_size vma then (Done (- EINVAL, vma), s)
    else
      let pfn := Z.shiftr (u64 (resource_start dev (idx i))) PAGE_SHIFT in
      let rc := s32 (env_io_remap_pfn_range (k_trace s) (vm_start vma) pfn (vm_size vma)) in
      (Done (if rc =? 0 then 0 else - EAGAIN, vma_io vma),
       log (KRemapPfn (vm_start vma) pfn (vm_size vma) rc) s).
Proof.
  intros (Hd & Hp & Hpar & Hdrv & Hi & Hpci) Hidx.
  unfold node_mmap, node_parent, dev_get_drvdata, pci_resource, BUG_ON, inst_get, pbind,
    get_state, pret.
  rewrite Hpar, (proj2 (Z.eqb_neq _ _) Hd), Hdrv. cbn [default from_option id].
  rewrite (proj2 (Z.eqb_neq _ _) Hp). cbn [negb require].
  unfold pret. rewrite Hi, Hpci, Z.eqb_refl, (proj2 (Z.ltb_ge _ _) Hidx). cbn [negb].
  unfold vm_size. destruct (_ <? _); [done|]. unfold kask. by destruct (_ =? 0).
Qed.

Lemma node_mmap_absent m idx dev vma p i s :
  node_of m dev p i s -> idx i < 0 -> node_mmap m idx dev vma s = (Halt OutOfBounds, s).
Proof.
  intros (Hd & Hp & Hpar & Hdrv & Hi & Hpci) Hidx.
  unfold node_mmap, node_parent, dev_get_drvdata, pci_resource, BUG_ON, inst_get, pbind,
    get_state, pret.
  rewrite Hpar, (proj2 (Z.eqb_neq _ _) Hd), Hdrv. cbn [default from_option id].
  rewrite (proj2 (Z.eqb_neq _ _) Hp). cbn [negb require].
  unfold pret. rewrite Hi, Hpci, Z.eqb_refl, (proj2 (Z.ltb_lt _ _) Hidx). done.
Qed.
(** *** The ioctls *)

(** The array at [a] starts with the pages [l]. *)
Definition pages_at (a : Z) (l : list Z) (s : kstate) : Prop :=
  exists rest, k_arrays s !! a = Some ((Some <$> l) ++ rest).

Lemma pages_at_get {B} p i evs a l k pg s (f : Z -> kprog B) Q :
  pages_at a l s -> l !! k = Some pg -> wp (f pg) Q (upd p i evs s) ->
  wp (pbind (array_get a (Z.of_nat k)) f) Q (upd p i evs s).
Proof.
  intros [rest Ha] Hk Hf. eapply wp_array_get; [exact Ha|lia| |exact Hf].
  rewrite Nat2Z.id. apply lookup_app_l_Some. by rewrite list_lookup_fmap, Hk.
Qed.

Lemma reserve_loop p i evs l s (Q : Z + Empty_set -> kstate -> Prop) :
  pages_at (huge_pages i) l s ->
  Q (inl (huge_count (Z.of_nat (length l)))) (upd p i (evs ++ (KSetPageReserved <$> l)) s) ->
  wp (for_loop (length l) 0 0 (fun k j =>
        let* st := inst_get p in
        let* pg := array_get (huge_pages st) k in
        kdo (KSetPageReserved pg);;
        pret (inl (if k mod 512 =? 0 then j + 1 else j)))) Q (upd p i evs s).
Proof.
  intros Hl HQ.
  apply (wp_for_loop (fun k j t => exists n, k = Z.of_nat n /\ j = huge_count k /\
    t = upd p i (evs ++ (KSetPageReserved <$> take n l)) s)).
  - exists 0%nat. by rewrite app_nil_r.
  - intros k j t Hk (n & -> & -> & ->).
    destruct (lookup_lt_is_Some_2 l n) as [pg Hpg]; [lia|].
    apply wp_inst_get. eapply pages_at_get; [done..|]. apply wp_kdo, wp_ret.
    exists (S n). split; [lia|]. rewrite huge_count_S by lia. split; [done|].
    by rewrite (take_S_r _ _ pg), fmap_app, <- app_assoc by done.
  - intros k t (n & Hn & -> & ->). assert (n = length l) as -> by lia.
    rewrite firstn_all. exact HQ.
Qed.

(** The instance after a buffer was set. *)
Definition with_buffer (a addr n : Z) (i : dev_inst) : dev_inst :=
  i <| huge_pages := a |> <| huge_user_addr := addr |> <| huge_size := n * 4096 |>
    <| huge_npages := n |> <| huge_hnpages := huge_count n |>.

(** The calls that set a buffer of [np] pages, of which [l] were pinned. *)
Definition pin_calls (arg a addr np : Z) (l : list Z) : list kcall :=
  [KCopyFromUser arg 0; KAllocArray a np; KDownReadMmapSem;
   KGetUserPages addr np (Z.of_nat (length l)) l; KUpReadMmapSem].

Definition set_calls (arg a addr np : Z) (l : list Z) : list kcall :=
  pin_calls arg a addr np l ++ (KSetPageReserved <$> l).

(** The kernel's answers to the ioctl: the user's words, the array, the pages. *)
Definition buffer_answers (h : hist) (arg addr size a : Z) (l : list Z) : Prop :=
  let np := (size + 4095) / 4096 in
  let h1 := h ++ [KCopyFromUser arg 0] in
  let h2 := h1 ++ [KAllocArray a np; KDownReadMmapSem] in
  env_copy_from_user h arg = (addr, size, 0) /\ 0 <= addr < 2 ^ 64 /\
  0 < size <= 2 ^ 42 /\ env_alloc_array h1 np = a /\ 0 < a < 2 ^ 64 /\
  env_get_user_pages h2 addr np = Z.of_nat (length l) /\ Z.of_nat (length l) <= np /\
  l = (fun k => env_user_page h2 addr k) <$> seqZ 0 (Z.of_nat (length l)).

Lemma wp_copy_two_words {B} p i evs arg w1 w2 n s (k : Z * Z * Z -> kprog B) Q :
  env_copy_from_user (k_trace s ++ evs) arg = (w1, w2, n) ->
  0 <= w1 < 2 ^ 64 -> 0 <= w2 < 2 ^ 64 ->
  wp (k (w1, w2, s32 n)) Q (upd p i (evs ++ [KCopyFromUser arg (s32 n)]) s) ->
  wp (pbind (copy_two_words arg) k) Q (upd p i evs s).
Proof.
  intros Hc H1 H2 Hk. unfold copy_two_words. apply wp_kask. rewrite Hc.
  intros r ->. rewrite !u64_small by done. exact Hk.
Qed.

Lemma wp_alloc_words {B} p i evs n a s (k : Z -> kprog B) Q :
  env_alloc_array (k_trace s ++ evs) n = a -> 0 < a < 2 ^ 64 ->
  wp (k a) Q (upd p i (evs ++ [KAllocArray a n])
    (set_arrays (<[a := replicate (Z.to_nat n) None]> (k_arrays s)) s)) ->
  wp (pbind (alloc_words n) k) Q (upd p i evs s).
Proof.
  intros Ha Hr Hk. apply wp_bind. unfold alloc_words. apply wp_kask. rewrite Ha.
  intros r ->. rewrite u64_small by lia. rewrite (proj2 (Z.eqb_neq a 0)) by lia. exact Hk.
Qed.

Lemma wp_get_user_pages {B} p i evs start np a l s (k : Z -> kprog B) Q :
  a <> 0 -> is_Some (k_arrays s !! a) ->
  env_get_user_pages (k_trace s ++ evs) start np = Z.of_nat (length l) ->
  l = (fun j => env_user_page (k_trace s ++ evs) start j) <$> seqZ 0 (Z.of_nat (length l)) ->
  (forall s1 , pages_at a l s1 -> k_trace s1 = k_trace s -> k_heap s1 = k_heap s ->
     k_drvdata s1 = k_drvdata s -> delete a (k_arrays s1) = delete a (k_arrays s) ->
     wp (k (Z.of_nat (length l))) Q
       (upd p i (evs ++ [KGetUserPages start np (Z.of_nat (length l)) l]) s1)) ->
  wp (pbind (get_user_pages start np a) k) Q (upd p i evs s).
Proof.
  intros Ha [old Hold] Hn Hl Hk. apply wp_bind. unfold get_user_pages.
  apply wp_kask. rewrite Hn, <- Hl. intros r ->. cbn [fst snd].
  rewrite (proj2 (Z.eqb_neq a 0)) by done.
  apply wp_bind, wp_bind. unfold wp at 1, array_at.
  change (k_arrays (upd p i _ s)) with (k_arrays s). rewrite Hold.
  apply wp_modify, wp_ret.
  change (set_arrays ?x (upd p i ?e s)) with (upd p i e (set_arrays x s)).
  apply Hk; try done.
  - eexists. cbn. apply lookup_insert_eq.
  - cbn. by rewrite delete_insert_eq.
Qed.
Lemma ceil_pages_bound size :
  0 < size <= 2 ^ 42 -> 0 < (size + 4095) / 4096 <= 2 ^ 30.
Proof. intros. zdivmod. Qed.

(** Nothing but the trace, the array [a] and the instance at [p] is new. *)
Definition same_but_array (a : Z) (s s1 : kstate) : Prop :=
  k_trace s1 = k_trace s /\ k_heap s1 = k_heap s /\ k_drvdata s1 = k_drvdata s /\
  delete a (k_arrays s1) = delete a (k_arrays s).

Lemma buffer_set_spec p i arg addr size a l s (Q : Z -> kstate -> Prop) :
  k_heap s !! p = Some i -> buffer_answers (k_trace s) arg addr size a l ->
  (forall s1, same_but_array a s s1 -> pages_at a l s1 ->
     if bool_decide (l = [])
     then Q (-1) (upd p (i <| huge_pages := a |>) (pin_calls arg a addr ((size + 4095) / 4096) l) s1)
     else Q 0 (upd p (with_buffer a addr (Z.of_nat (length l)) i)
                 (set_calls arg a addr ((size + 4095) / 4096) l) s1)) ->
  wp (ioctl_do_buffer_set p arg) Q s.
Proof.
  intros Hi (Hc & Haddr & Hsize & Ha & Har & Hn & Hle & Hl) HQ.
  set (np := (size + 4095) / 4096) in *.
  assert (Hnp : 0 < np <= 2 ^ 30) by by apply ceil_pages_bound.
  rewrite <- (upd_nil p i s Hi). unfold ioctl_do_buffer_set.
  eapply wp_copy_two_words; [rewrite app_nil_r; exact Hc|done|lia|].
  change (s32 0) with 0. cbn [negb Z.eqb app]. cbv zeta.
  rewrite npages_ceil by done. fold np.
  rewrite (u64_small (np * 8)), Z.div_mul by lia.
  eapply wp_alloc_words; [exact Ha|done|]. apply wp_inst_upd, wp_kdo, wp_inst_get.
  cbn [huge_pages set_field set_huge_pages app].
  eapply wp_get_user_pages.
  { lia. }
  { eexists. apply lookup_insert_eq. }
  { cbn [k_trace set_arrays]. rewrite <- Hn. by rewrite <- app_assoc. }
  { rewrite Hl at 1. cbn [k_trace set_arrays]. by rewrite <- app_assoc. }
  intros s1 Hl1 Ht Hh Hd Hdel. apply wp_kdo. cbn [app].
  rewrite s32_small by lia. cbn [k_trace k_heap k_drvdata k_arrays set_arrays] in *.
  assert (Hs1 : same_but_array a s s1).
  { split; [done|]. split; [done|]. split; [done|]. rewrite Hdel. apply delete_insert_eq. }
  specialize (HQ s1 Hs1 Hl1).
  destruct (Z.eqb_spec (Z.of_nat (length l)) 0) as [E|E].
  { assert (l = []) as -> by (destruct l; [done|cbn in E; lia]). by apply wp_ret. }
  rewrite bool_decide_false in HQ by (intros ->; by apply E).
  rewrite (u64_small (Z.of_nat _)), Nat2Z.id by lia.
  apply wp_bind, reserve_loop; [exact Hl1|].
  do 4 apply wp_inst_upd. apply wp_ret.
  rewrite (u64_small (_ * 4096)) by lia. exact HQ.
Qed.

(** *** BUFFER_SET when the kernel does not give what the driver expects *)

Lemma buffer_set_refused p arg addr size n s :
  env_copy_from_user (k_trace s) arg = (addr, size, n) -> 0 < n < 2 ^ 31 ->
  ioctl_do_buffer_set p arg s = (Done n, log (KCopyFromUser arg n) s).
Proof.
  intros Hc Hn. unfold ioctl_do_buffer_set, copy_two_words, kask, pbind at 1. rewrite Hc. cbn [snd].
  rewrite s32_small by lia. by rewrite (proj2 (Z.eqb_neq n 0)) by lia.
Qed.

(** The answers of the kernel, once the words of the user have come; [vmalloc] may
    give NULL, and [get_user_pages] the negative number of an error. *)
Section Unexpected.
Context (p arg addr size a rc : Z) (i : dev_inst) (s : kstate).
Abbreviation np := ((size + 4095) / 4096).
Abbreviation h1 := (k_trace s ++ [KCopyFromUser arg 0]).
Abbreviation pages := ((fun k => env_user_page (h1 ++ [KAllocArray a np; KDownReadMmapSem]) addr k) <$> seqZ 0 rc).
Context (Hi : k_heap s !! p = Some i) (Hc : env_copy_from_user (k_trace s) arg = (addr, size, 0)).
Context (Haddr : 0 <= addr < 2 ^ 64) (Hsize : 0 < size <= 2 ^ 42) (Har : 0 <= a < 2 ^ 64).
Context (Ha : env_alloc_array h1 np = a) (Hnull : k_arrays s !! 0 = None).
Context (Hrc : env_get_user_pages (h1 ++ [KAllocArray a np; KDownReadMmapSem]) addr np = rc).

(** [vmalloc], whatever it gives. *)
Lemma wp_alloc_any {B} i' evs (k : Z -> kprog B) Q :
  env_alloc_array (k_trace s ++ evs) np = a ->
  wp (k a) Q (upd p i' (evs ++ [KAllocArray a np])
    (if a =? 0 then s else set_arrays (<[a := replicate (Z.to_nat np) None]> (k_arrays s)) s)) ->
  wp (pbind (alloc_words np) k) Q (upd p i' evs s).
Proof.
  intros E Hk. apply wp_bind. unfold alloc_words. apply wp_kask. rewrite E.
  intros r ->. rewrite u64_small by lia. by destruct (a =? 0).
Qed.

(** [get_user_pages], when it has nothing to store or nowhere to. *)
Lemma wp_pins_none {B} i' evs s1 (k : Z -> kprog B) Q :
  rc <= 0 \/ a = 0 -> (a <> 0 -> is_Some (k_arrays s1 !! a)) ->
  env_get_user_pages (k_trace s1 ++ evs) addr np = rc ->
  wp (k rc) Q (upd p i' (evs ++ [KGetUserPages addr np rc
    ((fun j => env_user_page (k_trace s1 ++ evs) addr j) <$> seqZ 0 rc)]) s1) ->
  wp (pbind (get_user_pages addr np a) k) Q (upd p i' evs s1).
Proof.
  intros Hnone Hx E Hk. apply wp_bind. unfold get_user_pages. apply wp_kask. rewrite E.
  intros r ->. cbn [fst snd]. destruct (Z.eqb_spec a 0) as [|Hne]; [exact Hk|].
  destruct Hnone as [Hle|]; [|done]. rewrite seqZ_nil in Hk |- * by done. cbn [fmap list_fmap length drop app] in *.
  destruct (Hx Hne) as [old Hold].
  apply wp_bind, wp_bind. unfold wp at 1, array_at.
  change (k_arrays (upd p i' _ s1)) with (k_arrays s1). rewrite Hold. apply wp_modify, wp_ret.
  cbn [k_arrays upd set_heap set_trace]. rewrite insert_id by done.
  by replace (set_arrays (k_arrays s1) _) with (upd p i' (evs ++ [KGetUserPages addr np rc []]) s1) by by destruct s1.
Qed.

(** The state when [mmap_sem] is released again. *)
Definition unpinned : kstate :=
  upd p (i <| huge_pages := a |>)
    ([KCopyFromUser arg 0; KAllocArray a np; KDownReadMmapSem; KGetUserPages addr np rc pages; KUpReadMmapSem])
    (if a =? 0 then s else set_arrays (<[a := replicate (Z.to_nat np) None]> (k_arrays s)) s).

(** The rest of BUFFER_SET. *)
Lemma wp_unpinned (Q : Z -> kstate -> Prop) (k : Z -> Z -> kprog Z) :
  rc <= 0 \/ a = 0 -> wp (k addr rc) Q unpinned ->
  wp (let* (addr, size, n) := copy_two_words arg in
      if negb (n =? 0) then pret n
      else
        let npages := u64 (1 + u64 (size - 1) / PAGE_SIZE) in
        let* pages := alloc_words (u64 (npages * 8) / 8) in
        inst_upd p (fun i => i <| huge_pages := pages |>);;
        kdo KDownReadMmapSem;;
        let* st := inst_get p in
        let* ret := get_user_pages addr npages (huge_pages st) in
        kdo KUpReadMmapSem;; k addr ret) Q s.
Proof.
  intros Hnone Hk. pose proof (ceil_pages_bound size Hsize). rewrite <- (upd_nil p i s Hi).
  eapply wp_copy_two_words; [rewrite app_nil_r; exact Hc|done|lia|].
  change (s32 0) with 0. cbn [negb Z.eqb app]. cbv zeta.
  rewrite npages_ceil, (u64_small (np * 8)), Z.div_mul by (done || lia).
  apply wp_alloc_any; [exact Ha|]. apply wp_inst_upd, wp_kdo, wp_inst_get.
  cbn [huge_pages set_field set_huge_pages app].
  set (s1 := if a =? 0 then s else _). assert (Es : k_trace s1 = k_trace s) by (unfold s1; by destruct (a =? 0)).
  apply wp_pins_none; [exact Hnone| | |].
  - intros Hne. unfold s1. rewrite (proj2 (Z.eqb_neq a 0) Hne). eexists. apply lookup_insert_eq.
  - rewrite Es, <- Hrc. by rewrite <- app_assoc.
  - apply wp_kdo. rewrite Es. unfold unpinned in Hk. fold s1 in Hk. rewrite <- app_assoc in Hk. exact Hk.
Qed.

Lemma buffer_set_none (Q : Z -> kstate -> Prop) :
  rc = 0 -> Q (-1) unpinned -> wp (ioctl_do_buffer_set p arg) Q s.
Proof.
  intros E HQ. eapply wp_unpinned; [left; lia|]. rewrite E. by apply wp_ret.
Qed.

(** One step that returns, before something stops. *)
Local Ltac then_stops := eapply stops_bind; [rewrite <- wp_bind_ret|].
Local Ltac by_ret := apply wp_ret; split; reflexivity.

Lemma buffer_set_faults :
  - 4096 < rc < 2 ^ 31 -> rc < 0 \/ a = 0 /\ rc <> 0 ->
  fst (ioctl_do_buffer_set p arg s) = Halt (if a =? 0 then NullDeref else Undefined).
Proof.
  intros Hr Hcase. pose proof (ceil_pages_bound size Hsize). rewrite <- (upd_nil p i s Hi). unfold ioctl_do_buffer_set.
  then_stops; [eapply wp_copy_two_words; [rewrite app_nil_r; exact Hc|done|lia|]; by_ret|].
  change (s32 0) with 0. cbn [negb Z.eqb app]. cbv zeta.
  rewrite npages_ceil, (u64_small (np * 8)), Z.div_mul by (done || lia).
  then_stops; [apply wp_alloc_any; [exact Ha|]; by_ret|].
  then_stops; [apply wp_inst_upd; by_ret|].
  then_stops; [apply wp_kdo; by_ret|].
  then_stops; [apply wp_inst_get; by_ret|].
  cbn [huge_pages set_field set_huge_pages app].
  set (s1 := if a =? 0 then s else _). assert (Es : k_trace s1 = k_trace s) by (unfold s1; by destruct (a =? 0)).
  assert (Hx : k_arrays s1 !! a = if a =? 0 then None else Some (replicate (Z.to_nat np) None)).
  { unfold s1. cbn. destruct (Z.eqb_spec a 0) as [->|]; [exact Hnull|apply lookup_insert_eq]. }
  then_stops; [apply wp_pins_none; [lia| | |by_ret]|].
  { intros Hne. rewrite Hx, (proj2 (Z.eqb_neq a 0) Hne). by eexists. }
  { rewrite Es, <- Hrc. by rewrite <- app_assoc. }
  then_stops; [apply wp_kdo; by_ret|].
  rewrite s32_small, (proj2 (Z.eqb_neq rc 0)) by lia.
  destruct (Z.to_nat (u64 rc)) as [|m] eqn:Em.
  { exfalso. unfold u64 in Em. pose proof (Z.mod_pos_bound rc (2 ^ 64) ltac:(done)).
    assert (Hz : rc mod 2 ^ 64 = 0) by lia. destruct (Z.lt_trichotomy rc 0) as [|[|]]; [|lia|].
    - rewrite <- (Z.mod_add _ 1), Z.mod_small in Hz by lia. lia.
    - rewrite Z.mod_small in Hz by lia. lia. }
  cbn [for_loop]. do 2 apply pbind_halt. unfold pbind at 1, inst_get. rewrite upd_heap.
  cbn [huge_pages set_field set_huge_pages]. apply pbind_halt. unfold array_get, pbind, array_at.
  cbn [k_arrays upd set_heap set_trace]. rewrite Hx. destruct (Z.eqb_spec a 0); [done|].
  rewrite (nth_get_ok _ _ None); [done|done|]. rewrite lookup_replicate. split; [done|lia].
Qed.
End Unexpected.
(** What is done to one page on release; pages that are not reserved are
    marked dirty. *)
Definition put_calls (h : hist) (pg : Z) : list kcall :=
  [KDownReadMmapSem] ++
  (if env_page_reserved (h ++ [KDownReadMmapSem]) pg then [] else [KSetPageDirty pg]) ++
  [KPutPage pg; KUpReadMmapSem].

Fixpoint release_calls (h : hist) (l : list Z) : list kcall :=
  match l with
  | [] => []
  | pg :: l' => put_calls h pg ++ release_calls (h ++ put_calls h pg) l'
  end.

Lemma release_calls_snoc h l pg :
  release_calls h (l ++ [pg]) = release_calls h l ++ put_calls (h ++ release_calls h l) pg.
Proof.
  revert h. induction l as [|q l IH]; intros h; cbn [release_calls app].
  - by rewrite !app_nil_r.
  - rewrite IH, <- !app_assoc. done.
Qed.

Lemma release_loop p i evs l s (Q : unit + Empty_set -> kstate -> Prop) :
  pages_at (huge_pages i) l s ->
  Q (inl tt) (upd p i (evs ++ release_calls (k_trace s ++ evs) l) s) ->
  wp (for_loop (length l) 0 tt (fun k _ =>
        let* st := inst_get p in
        let* pg := array_get (huge_pages st) k in
        kdo KDownReadMmapSem;;
        let* reserved := page_reserved pg in
        (if negb reserved then kdo (KSetPageDirty pg) else pret tt);;
        kdo (KPutPage pg);;
        kdo KUpReadMmapSem;;
        pret (inl tt))) Q (upd p i evs s).
Proof.
  intros Hl HQ.
  apply (wp_for_loop (fun k _ t => exists n, k = Z.of_nat n /\
    t = upd p i (evs ++ release_calls (k_trace s ++ evs) (take n l)) s)).
  - exists 0%nat. by rewrite app_nil_r.
  - intros k [] t Hk (n & -> & ->).
    destruct (lookup_lt_is_Some_2 l n) as [pg Hpg]; [lia|].
    apply wp_inst_get. eapply pages_at_get; [done..|]. apply wp_kdo, wp_bind.
    unfold wp at 1, page_reserved. rewrite upd_trace.
    set (r := env_page_reserved _ pg).
    assert (Hr : env_page_reserved (((k_trace s ++ evs) ++
      release_calls (k_trace s ++ evs) (take n l)) ++ [KDownReadMmapSem]) pg = r)
      by (unfold r; by rewrite <- !app_assoc).
    assert (Hnext : wp (kdo (KPutPage pg);; kdo KUpReadMmapSem;; pret (inl tt))
      (fun o t1 => match o with
         | inl m => exists n1, Z.of_nat n + 1 = Z.of_nat n1 /\
             t1 = upd p i (evs ++ release_calls (k_trace s ++ evs) (take n1 l)) s
         | inr e => Q (inr e) t1 end)
      (upd p i (evs ++ release_calls (k_trace s ++ evs) (take n l) ++ [KDownReadMmapSem] ++
        (if r then [] else [KSetPageDirty pg])) s)).
    { do 2 apply wp_kdo. apply wp_ret. exists (S n). split; [lia|].
      rewrite (take_S_r _ _ pg), release_calls_snoc by done. unfold put_calls.
      rewrite Hr. by rewrite <- !app_assoc. }
    destruct r; cbn [negb].
    + apply wp_bind, wp_ret. rewrite <- app_assoc. exact Hnext.
    + apply wp_kdo. rewrite <- !app_assoc. exact Hnext.
  - intros [] t (n & Hn & ->). assert (n = length l) as -> by lia.
    rewrite firstn_all. exact HQ.
Qed.

Lemma wp_free_words {B} p i evs a s (k : unit -> kprog B) Q :
  wp (k tt) Q (upd p i (evs ++ [KFreeArray a]) (set_arrays (delete a (k_arrays s)) s)) ->
  wp (pbind (free_words a) k) Q (upd p i evs s).
Proof.
  intros Hk. apply wp_bind. unfold free_words. apply wp_kdo, wp_modify. exact Hk.
Qed.

(** A buffer of [l] pages is set in the instance. *)
Definition buffer_of (i : dev_inst) (l : list Z) (s : kstate) : Prop :=
  pages_at (huge_pages i) l s /\ huge_npages i = Z.of_nat (length l) /\
  huge_hnpages i = huge_count (Z.of_nat (length l)) /\ Z.of_nat (length l) <= 2 ^ 30.

Lemma release_spec p i evs l s (Q : Z -> kstate -> Prop) :
  buffer_of i l s ->
  Q 0 (upd p i (evs ++ release_calls (k_trace s ++ evs) l ++ [KFreeArray (huge_pages i)])
         (set_arrays (delete (huge_pages i) (k_arrays s)) s)) ->
  wp (ioctl_release_mapping p) Q (upd p i evs s).
Proof.
  intros (Hl & Hn & _ & Hmax) HQ. unfold ioctl_release_mapping. apply wp_inst_get.
  cbv zeta. rewrite Hn, s32_small, Nat2Z.id by lia.
  apply wp_bind, release_loop; [done|]. apply wp_inst_get, wp_free_words, wp_ret.
  by rewrite <- app_assoc.
Qed.

(** With its pages gone, a buffer cannot be released again. *)
Lemma release_gone p i s :
  k_heap s !! p = Some i -> 0 < s32 (huge_npages i) -> huge_pages i <> 0 ->
  k_arrays s !! huge_pages i = None ->
  ioctl_release_mapping p s = (Halt WildAccess, s).
Proof.
  intros Hi Hn Ha Hnone. unfold ioctl_release_mapping, pbind at 1, inst_get at 1.
  rewrite Hi. cbv zeta.
  destruct (Z.to_nat (s32 (huge_npages i))) as [|n] eqn:E; [lia|]. cbn [for_loop].
  unfold pbind, inst_get, array_get, array_at, pbind. rewrite Hi, Hnone.
  by rewrite (proj2 (Z.eqb_neq _ _) Ha).
Qed.
(** The bus addresses of the first [n] huge pages: those of every 512th page. *)
Definition phys_of (l : list Z) (n : Z) : list Z :=
  (fun k => u64 (env_page_to_phys (l !!! Z.to_nat (512 * k)))) <$> seqZ 0 n.

Lemma phys_of_S l n : 0 <= n ->
  phys_of l (n + 1) = phys_of l n ++ [u64 (env_page_to_phys (l !!! Z.to_nat (512 * n)))].
Proof.
  intros Hn. unfold phys_of. replace (n + 1) with (Z.of_nat (S (Z.to_nat n))) by lia.
  rewrite seqZ_S, fmap_app, Z2Nat.id by lia. done.
Qed.

Lemma length_phys_of l n : length (phys_of l n) = Z.to_nat n.
Proof. unfold phys_of. by rewrite length_fmap, length_seqZ. Qed.

(** The kernel array while it is filled: [j] of [n] words. *)
Definition partly (l : list Z) (j n : Z) : list (option Z) :=
  (Some <$> phys_of l j) ++ replicate (Z.to_nat (n - j)) None.

Lemma length_partly l j n : 0 <= j <= n -> length (partly l j n) = Z.to_nat n.
Proof.
  intros ?. unfold partly. rewrite length_app, length_fmap, length_phys_of, length_replicate.
  lia.
Qed.

Lemma partly_set l j n :
  0 <= j < n ->
  <[Z.to_nat j := Some (u64 (env_page_to_phys (l !!! Z.to_nat (512 * j))))]> (partly l j n) =
    partly l (j + 1) n.
Proof.
  intros Hj. unfold partly. rewrite insert_app_r_alt
    by (rewrite length_fmap, length_phys_of; lia).
  rewrite length_fmap, length_phys_of, Nat.sub_diag, phys_of_S, fmap_app, <- app_assoc by lia.
  replace (Z.to_nat (n - j)) with (S (Z.to_nat (n - (j + 1)))) by lia. done.
Qed.

Lemma mapping_loop p i evs b l s (Q : Z + Empty_set -> kstate -> Prop) :
  let n := huge_count (Z.of_nat (length l)) in
  pages_at (huge_pages i) l s -> b <> huge_pages i ->
  k_arrays s !! b = Some (partly l 0 n) ->
  Q (inl n) (upd p i evs (set_arrays (<[b := partly l n n]> (k_arrays s)) s)) ->
  wp (for_loop (length l) 0 0 (fun k j =>
        if k mod 512 =? 0 then
          let* st := inst_get p in
          let* pg := array_get (huge_pages st) k in
          array_set b j (u64 (env_page_to_phys pg));;
          pret (inl (j + 1))
        else pret (inl j))) Q (upd p i evs s).
Proof.
  intros n Hl Hb Hb0 HQ.
  apply (wp_for_loop (fun k j t => 0 <= k /\ j = huge_count k /\
    t = upd p i evs (set_arrays (<[b := partly l j n]> (k_arrays s)) s))).
  - split; [done|]. split; [done|]. change (huge_count 0) with 0.
    rewrite insert_id by done. by destruct s.
  - intros k j t Hk (Hk0 & -> & ->).
    pose proof (huge_count_S k ltac:(lia)) as HS.
    destruct (Z.eqb_spec (k mod 512) 0) as [E|E].
    2: { apply wp_ret. split; [lia|]. split; [done|]. done. }
    destruct (lookup_lt_is_Some_2 l (Z.to_nat k)) as [pg Hpg]; [lia|].
    assert (Hkc : k = 512 * huge_count k /\ huge_count k < n)
      by (unfold n, huge_count; zdivmod).
    assert (Hpos : 0 <= huge_count k) by apply huge_count_range, Hk0.
    apply wp_inst_get. rewrite <- (Z2Nat.id k) at 1 by done. eapply pages_at_get; [|done|].
    { destruct Hl as [rest Hl]. exists rest. cbn. by rewrite lookup_insert_ne. }
    eapply wp_array_set; [apply lookup_insert_eq|rewrite length_partly by lia; lia|].
    apply wp_ret. split; [lia|]. split; [done|]. rewrite <- partly_set by lia.
    replace (l !!! Z.to_nat (512 * huge_count k)) with pg
      by (symmetry; apply list_lookup_total_correct; by rewrite <- (proj1 Hkc)).
    unfold upd, set_heap, set_trace, set_arrays. cbn. by rewrite insert_insert_eq.
  - intros j t (_ & -> & ->). exact HQ.
Qed.

Lemma words_of_spec p i evs b l s {B} (k : list Z -> kprog B) Q :
  k_arrays s !! b = Some (Some <$> l) ->
  wp (k l) Q (upd p i evs s) ->
  wp (pbind (words_of b (Z.of_nat (length l))) k) Q (upd p i evs s).
Proof.
  intros Hb Hk. apply wp_bind. unfold words_of. rewrite Nat2Z.id. apply wp_bind.
  apply (wp_for_loop (fun j m t => exists n, j = Z.of_nat n /\ m = take n l /\
    t = upd p i evs s)).
  - by exists 0%nat.
  - intros j m t Hj (n & -> & -> & ->).
    destruct (lookup_lt_is_Some_2 l n) as [v Hv]; [lia|].
    eapply wp_array_get; [exact Hb|lia| |].
    { rewrite Nat2Z.id, list_lookup_fmap, Hv. done. }
    apply wp_ret. exists (S n). split; [lia|]. by rewrite (take_S_r _ _ v).
  - intros m t (n & Hn & -> & ->). assert (n = length l) as -> by lia.
    rewrite firstn_all. apply wp_ret. exact Hk.
Qed.

(** The answers to the copies of [ioctl_do_mapping_get]. *)
Definition mapping_calls (arg b n uaddr : Z) (data : list Z) (r1 r2 : Z) : list kcall :=
  [KCopyFromUser arg 0; KAllocArray b n; KCopyToUser arg [n; uaddr] r1] ++
  (if r1 =? 0 then [KCopyToUser uaddr data r2] else []) ++ [KFreeArray b].

Lemma mapping_get_spec p i arg max uaddr b l s (Q : Z -> kstate -> Prop)
    (n := huge_count (Z.of_nat (length l)))
    (h1 := k_trace s ++ [KCopyFromUser arg 0]) :
  k_heap s !! p = Some i -> buffer_of i l s -> n <= max ->
  env_copy_from_user (k_trace s) arg = (max, uaddr, 0) ->
  0 <= max < 2 ^ 64 -> 0 <= uaddr < 2 ^ 64 ->
  env_alloc_array h1 n = b -> 0 < b < 2 ^ 64 -> k_arrays s !! b = None ->
  (forall r1 r2, Q (if (r1 =? 0) && (r2 =? 0) then 0 else - EACCES)
     (upd p i (mapping_calls arg b n uaddr (phys_of l n) r1 r2) s)) ->
  wp (ioctl_do_mapping_get p arg) Q s.
Proof.
  intros Hi (Hl & Hnp & Hhn & Hmax) Hle Hc Hm Hu Hb Hbr Hfresh HQ.
  assert (Hn := huge_count_range (Z.of_nat (length l)) ltac:(lia)). fold n in Hn, Hhn.
  assert (Hne : b <> huge_pages i)
    by (intros ->; destruct Hl as [rest Hl]; by rewrite Hl in Hfresh).
  rewrite <- (upd_nil p i s Hi). unfold ioctl_do_mapping_get.
  eapply wp_copy_two_words; [rewrite app_nil_r; exact Hc|done|done|].
  change (s32 0) with 0. cbn [negb Z.eqb app]. apply wp_inst_get. cbv zeta.
  rewrite Hhn, (proj2 (Z.ltb_ge _ _) Hle), Hnp.
  rewrite (Z.mul_comm 8), (u64_small (n * 8)), Z.div_mul by lia.
  rewrite s32_small, Nat2Z.id by lia.
  eapply wp_alloc_words; [exact Hb|done|]. apply wp_bind.
  eapply mapping_loop.
  { destruct Hl as [rest Hl]. exists rest. cbn. by rewrite lookup_insert_ne. }
  { done. }
  { cbn. rewrite lookup_insert_eq. unfold partly. by rewrite Z.sub_0_r. }
  cbn [k_arrays set_arrays]. fold n. rewrite insert_insert_eq.
  set (A := <[b := partly l n n]> (k_arrays s)).
  assert (Hclean : forall e, upd p i e (set_arrays (delete b A) (set_arrays A s)) = upd p i e s).
  { intros e. unfold A. rewrite delete_insert_id by done. by destruct s. }
  change (set_arrays A (set_arrays _ s)) with (set_arrays A s).
  unfold copy_to_user. apply wp_kask. intros r1 _. cbn [app].
  destruct (r1 =? 0) eqn:E1; cbn [negb].
  2: { apply wp_free_words, wp_ret. cbn [k_arrays set_arrays app]. rewrite Hclean.
       specialize (HQ r1 0). unfold mapping_calls in HQ. by rewrite E1 in HQ. }
  rewrite <- (Z2Nat.id n) at 1 by lia. rewrite <- (length_phys_of l n).
  eapply words_of_spec.
  { cbn. unfold A. rewrite lookup_insert_eq. unfold partly. by rewrite Z.sub_diag, app_nil_r. }
  apply wp_kask. intros r2 _. cbn [app].
  specialize (HQ r1 r2). unfold mapping_calls in HQ. rewrite E1 in HQ. cbn [andb app] in HQ.
  destruct (r2 =? 0); cbn [negb]; apply wp_free_words, wp_ret;
    cbn [k_arrays set_arrays app]; by rewrite Hclean.
Qed.
(** *** What the ioctls hold *)

Definition pages_res (l : list Z) : gmultiset resource := list_to_set_disj (RPage <$> l).

Lemma acquires_held R1 R2 e :
  acquires R1 e -> R1 = R2 -> acquires R2 e.
Proof. by intros ? <-. Qed.

Lemma sem_balanced R evs :
  acquires R evs -> acquires R ([KDownReadMmapSem] ++ evs ++ [KUpReadMmapSem]).
Proof.
  intros Ha. rewrite app_assoc. eapply (acquires_releases_rest {[+ RMmapSem +]}).
  - eapply acquires_held; [by apply acquires_app; [by apply acquires_one|]|].
    multiset_solver.
  - by apply releases_one.
Qed.

Lemma pin_acquires arg a addr np l :
  a <> 0 -> acquires (pages_res l ⊎ {[+ RArray a +]}) (pin_calls arg a addr np l).
Proof.
  intros Ha. unfold pin_calls.
  apply (acquires_app {[+ RArray a +]} (pages_res l) [KCopyFromUser arg 0; KAllocArray a np]
    ([KDownReadMmapSem] ++ [KGetUserPages addr np (Z.of_nat (length l)) l] ++
     [KUpReadMmapSem])).
  - eapply acquires_held;
      [apply (acquires_app ∅ {[+ RArray a +]} [_] [_]);
        [by apply acquires_skip|apply acquires_one]|].
    + intros L. cbn. by rewrite (proj2 (Z.eqb_neq a 0)).
    + apply gmultiset_disj_union_right_id.
  - apply sem_balanced. by intros L.
Qed.

Lemma set_acquires arg a addr np l :
  a <> 0 -> acquires (pages_res l ⊎ {[+ RArray a +]}) (set_calls arg a addr np l).
Proof.
  intros Ha. unfold set_calls. eapply acquires_held.
  - apply acquires_app; [by apply pin_acquires|].
    apply acquires_quiet, Forall_fmap, Forall_true. by intros pg.
  - apply gmultiset_disj_union_left_id.
Qed.

Lemma put_releases h pg : releases {[+ RPage pg +]} (put_calls h pg).
Proof.
  intros L. unfold put_calls.
  assert (Hd : forall (b : bool) M, ledger M (if b then [] else [KSetPageDirty pg]) = Some M)
    by by intros [] M.
  rewrite ledger_app. cbn [ledger ledger_step acquire mbind option_bind].
  rewrite ledger_app, Hd. cbn [ledger ledger_step acquire mbind option_bind].
  replace ({[+ RMmapSem +]} ⊎ ({[+ RPage pg +]} ⊎ L)) with
    ({[+ RPage pg +]} ⊎ ({[+ RMmapSem +]} ⊎ L)) by multiset_solver.
  rewrite release_held. cbn [mbind option_bind]. by rewrite release_held.
Qed.

Lemma release_releases h l : releases (pages_res l) (release_calls h l).
Proof.
  revert h. induction l as [|pg l IH]; intros h; [apply releases_nil|].
  unfold pages_res. rewrite fmap_cons, list_to_set_disj_cons.
  apply releases_app; [apply put_releases|apply IH].
Qed.

Lemma release_not_dirty h l pg :
  (forall h1 q, q ∈ l -> env_page_reserved (h ++ h1) q = true) ->
  KSetPageDirty pg ∉ release_calls h l.
Proof.
  revert h. induction l as [|q l IH]; intros h Hr; cbn [release_calls]; [set_solver|].
  assert (Hq : put_calls h q = [KDownReadMmapSem; KPutPage q; KUpReadMmapSem])
    by (unfold put_calls; by rewrite Hr by set_solver).
  rewrite Hq. cbn [app]. intros Hin. repeat (apply elem_of_cons in Hin as [|Hin]; [done|]).
  revert Hin. apply IH. intros h1 q1 Hq1. rewrite <- app_assoc. apply Hr. set_solver.
Qed.
End CharSpecs.
