(* ===== verification/XdmaTheorems.v ===== *)
(** * What the driver's bring-up and tear-down guarantee

    The properties of [probe], [remove] and their stages, and their instances
    on an example board.  The statements are about the whole functions; the
    lemmas behind them are in the files of the stages. *)

From stdpp Require Import base gmap gmultiset list strings numbers option.
From S2P Require Import Prelude CInt XdmaRegs Kernel Resources XdmaBars XdmaEngines XdmaProbe.
Open Scope Z_scope.

(** ** An example board

    BAR 0 is the user BAR, BAR 1 the DMA configuration, BAR 2 the bypass;
    channel 0 has an engine of each direction.  [msix] says whether the device
    has MSI-X, [node_rc] what registering the second node answers. *)

Definition board_dev : pci_device := {|
  pdev := 0x9000; no_msi := false; bus_flags := [0; 0];
  resource_start := fun k => k * 0x10000000;
  resource_len := fun k => if k <? 3 then 0x100000 else 0 |}.

Definition board_bar (k : Z) : Z := 0x100000 * (k + 1).

Definition board_read (a : Z) : Z :=
  let off := a - board_bar 1 in
  if off =? XDMA_OFS_INT_CTRL then IRQ_BLOCK_ID
  else if off =? XDMA_OFS_CONFIG then CONFIG_BLOCK_ID
  else if off =? 0 then Z.shiftl XDMA_ID_H2C 16
  else if off =? 0x1000 then Z.shiftl XDMA_ID_C2H 16
  else 0.

Definition board (msix : bool) (node_rc : Z) : KernelEnv := {|
  env_kzalloc := fun _ => 0x5000;
  env_pci_enable_device := fun _ _ => 0;
  env_pci_find_capability := fun _ _ ty =>
    if ty =? PCI_CAP_ID_MSIX then Z.b2z msix * 0x60 else 0x50;
  env_pci_enable_msix_exact := fun _ _ _ => 0;
  env_pci_enable_msi := fun _ _ => 0;
  env_pci_request_regions := fun _ _ => 0;
  env_pci_iomap := fun _ _ k _ => board_bar k;
  env_ioread32 := fun _ a => board_read a;
  env_dma_set_mask := fun _ _ => 0;
  env_misc_register := fun _ m => match m with misc_dev_node => 0 | bypass_node => node_rc end;
  env_pci_register_driver := fun _ => 0;
  env_io_remap_pfn_range := fun _ _ _ _ => 0;
  env_copy_from_user := fun _ _ => (0, 0, 0);
  env_copy_to_user := fun _ _ _ => 0;
  env_alloc_array := fun _ n => 0x7000;
  env_get_user_pages := fun _ _ n => n;
  env_user_page := fun _ start k => start + k;
  env_page_to_phys := fun pg => pg * 0x1000;
  env_page_reserved := fun _ _ => false |}.

Definition no_node : miscdevice := MiscDevice 0 EmptyString None 0.
Definition boot : kstate := KState [] ∅ ∅ no_node no_node ∅.

Section Properties.
Context `{KernelEnv}.
Implicit Types (dev : pci_device) (s : kstate).

(** ** Probing and removing a device *)

(** C1: [probe] on any PCI device returns: no [BUG_ON], no bad pointer and no
    index out of range on any path.  If it returns 0 and had memory, the
    instance is bound to the device, both nodes are set up, and the instance is
    [probed]: the BARs are mapped and identified, a channel of each direction
    is chosen, and exactly the resources of a working device are held. *)
Theorem probe_success dev s :
  pdev dev <> 0 ->
  wp (probe dev) (fun rc s1 => rc = 0 ->
    s1 = log (KZalloc 0) s \/
    exists p m i evs, 0 < p /\ probed dev p m i evs /\
      k_trace s1 = k_trace s ++ evs /\ k_heap s1 = <[p := i]> (k_heap s) /\
      k_drvdata s1 = <[pdev dev := p]> (k_drvdata s) /\
      k_control s1 = node misc_dev_node (pdev dev) /\
      k_bypass s1 = node bypass_node (pdev dev)) s.
Proof.
  intros Hd. eapply wp_mono; [by apply probe_spec|].
  intros rc s1 [_ ->|p s0 _ _ [? _]|p m i evs _ ? ? ->] Hrc; [by left|done|right].
  by exists p, m, i, evs.
Qed.

(** C2: when [probe] fails, the instance is freed, the call that failed is
    named by the stage, and what is still held is exactly [leak]: nothing when
    the device could not be enabled; MSI-X, when it was enabled, from then on;
    also the enabled device when the regions are in use; and also the first
    node when the second one cannot be registered.  Nothing is released twice. *)
Theorem probe_failure dev s :
  pdev dev <> 0 ->
  wp (probe dev) (fun rc s1 => rc <> 0 ->
    exists p st m evs, k_trace s1 = k_trace s ++ evs /\ k_heap s1 = delete p (k_heap s) /\
      failed_call dev st rc evs /\ ledger ∅ evs = Some (leak dev st m rc)) s.
Proof.
  intros Hd. eapply wp_mono; [by apply probe_spec|].
  intros rc s1 [-> _|p s0 _ (Ht & Hh & _) (_ & st & m & evs & -> & Hc & Ha & _)|? ? ? ? -> _ _ _] Hrc;
    [done| |done].
  exists p, st, m, evs. cbn. rewrite Ht, Hh. do 3 (split; [done|]).
  rewrite Ha. apply f_equal. apply gmultiset_disj_union_right_id.
Qed.

(** C13: every register access of [probe] is inside a BAR mapping that is live
    at that moment, on every path, whatever the device answers. *)
Theorem probe_register_accesses dev s :
  pdev dev <> 0 ->
  wp (probe dev) (fun rc s1 =>
    exists evs, k_trace s1 = k_trace s ++ evs /\ is_Some (mmio [] evs)) s.
Proof.
  intros Hd. eapply wp_mono; [by apply probe_spec|].
  intros rc s1 [_ ->|p s0 _ (Ht & _) (_ & st & m & evs & -> & _ & _ & Hm)|p m i evs _ _ Hp ->].
  - exists [KZalloc 0]. split; [done|]. by eexists.
  - exists evs. cbn. by rewrite Ht.
  - exists evs. split; [done|]. apply Hp.
Qed.

(** C12: [remove] after a successful [probe] of a device that was not bound
    gives everything back: the calls of both leave nothing held, release
    nothing twice and touch no register outside a live mapping. *)
Theorem probe_remove_balanced dev s :
  pdev dev <> 0 -> k_drvdata s !! pdev dev = None ->
  wp (probe dev) (fun rc s1 => rc = 0 ->
    wp (remove dev) (fun _ s2 => exists evs, k_trace s2 = k_trace s ++ evs /\
      ledger ∅ evs = Some ∅ /\ is_Some (mmio [] evs)) s1) s.
Proof.
  intros Hd Hdrv. eapply wp_mono; [by apply probe_spec|].
  intros rc s1 [_ ->|p s0 _ _ [? _]|p m i evs _ Hp Hpr ->] Hrc; [|done|].
  - unfold remove, wp, pbind, dev_get_drvdata. cbv zeta.
    rewrite (proj2 (Z.eqb_neq _ _) Hd). cbn. rewrite Hdrv. cbn.
    exists [KZalloc 0]. split; [done|]. split; [done|by eexists].
  - eapply (remove_spec _ _ m); [done|lia|apply lookup_insert_eq|apply Hpr|apply Hpr|].
    exists (evs ++ remove_calls dev p m i). split; [done|]. split.
    + pose proof (acquires_releases _ _ _ (probed_held _ _ _ _ _ Hpr)
        (remove_releases dev p m i (probed_flags _ _ _ _ _ Hpr)) ∅) as ->.
      apply f_equal. apply gmultiset_disj_union_right_id.
    + destruct (probed_mmio _ _ _ _ _ Hpr) as [N HN].
      eapply mmio_is_Some_app; [done|]. apply mmio_no_access, remove_no_access.
Qed.

(** [remove(NULL)], which the code means to accept, dereferences the null
    pointer in the message it prints. *)
Theorem remove_null_crashes dev s :
  pdev dev = 0 -> remove dev s = (Halt NullDeref, s).
Proof. intros Hd. unfold remove, pbind, dev_get_drvdata. by rewrite Hd. Qed.

(** ** BARs and engines *)

(** C32: [map_bars] on a fresh instance either maps every BAR that is present
    (each up to INT_MAX bytes), takes as configuration BAR the first one that
    is large enough and identifies itself, and gives the others their roles;
    or, if a mapping fails or no BAR identifies itself, it returns -1 with the
    table empty and every mapping undone. *)
Theorem map_bars_maps_or_undoes p dev i s :
  p <> 0 -> bar i = no_bars -> config_bar_idx i = -1 -> k_heap s !! p = Some i ->
  wp (map_bars p dev) (fun rc s1 => exists i1 evs, s1 = upd p i1 evs s /\
    ((rc = 0 /\ mapped dev i i1 evs) \/ (rc = -1 /\ unmapped dev i i1 evs))) s.
Proof. intros Hp Hb Hc Hi. exact (map_bars_spec p dev _ i Hp Hb Hc s eq_refl Hi). Qed.

(** C33: [identify_bars] gives the roles its comment promises: with two BARs the
    one before the configuration BAR is the user's and the one after it the
    bypass; with three and the configuration in the middle, both; any other
    arrangement leaves the roles alone. *)
Theorem identify_bars_layout p l c pos i s :
  p <> 0 -> NoDup l -> 0 <= pos -> l !! Z.to_nat pos = Some c -> k_heap s !! p = Some i ->
  identify_bars p (id_array l) (Z.of_nat (length l)) pos s =
    (Done tt, upd p (set_roles (layout_roles l c).1 (layout_roles l c).2 i) [] s).
Proof.
  intros Hp Hl Hpos Hc Hi.
  destruct (proj1 (wp_run _ _ _) (identify_bars_roles p l pos c (k_trace s) i Hp Hl Hpos Hc
    s eq_refl Hi)) as ([] & s1 & -> & i1 & evs & -> & -> & ->). done.
Qed.

(** The channel a direction uses: it answered, and no lower one did. *)
Definition lowest (l : list bool) (c : Z) : Prop :=
  0 <= c /\ l !! Z.to_nat c = Some true /\ forall k, 0 <= k < c -> l !! Z.to_nat k = Some false.

Lemma first_true_lowest l : first_true 0 l <> -1 -> lowest l (first_true 0 l).
Proof.
  intros Hne. destruct (first_true_range 0 l) as [|Hr]; [done|].
  destruct (proj1 (first_true_spec l (Z.to_nat (first_true 0 l))) ltac:(lia)) as [Ht Hf].
  split; [lia|]. split; [done|]. intros k Hk. apply Hf. lia.
Qed.

Lemma first_true_none l : first_true 0 l = -1 -> forall k, l !! k <> Some true.
Proof.
  assert (G : forall c, 0 <= c -> first_true c l = -1 -> forall k, l !! k <> Some true).
  2: by apply (G 0).
  induction l as [|b l IH]; intros c Hc Hf [|k]; cbn in *; try done.
  - destruct b; [lia|done].
  - destruct b; [lia|]. apply (IH (c + 1)); [lia|done].
Qed.

(** C34: [probe_engines] asks every channel in both directions; it returns
    -ENODEV exactly when a direction has no engine, and otherwise records the
    lowest channel and the number of engines of each direction, and enables
    descriptor bypass in the two blocks it chose. *)
Theorem probe_engines_lowest p base i s :
  p <> 0 -> 0 <= config_bar_idx i -> bar i !! Z.to_nat (config_bar_idx i) = Some base ->
  0 < base -> k_heap s !! p = Some i ->
  wp (probe_engines p) (fun rc s1 => exists rs i1 evs, s1 = upd p i1 evs s /\
    length rs = Z.to_nat XDMA_CHANNEL_NUM_MAX /\
    let answers d := matches d 0 rs in
    h2c_count i1 = num_true (answers true) /\ c2h_count i1 = num_true (answers false) /\
    ((rc = - ENODEV /\ evs = channel_reads base 0 rs /\
      exists d, forall k, answers d !! k <> Some true) \/
     (rc = 0 /\ lowest (answers true) (h2c_engine i1) /\
      lowest (answers false) (c2h_engine i1) /\ desc_bypass_enabled i1 = true /\
      evs = channel_reads base 0 rs ++ enable_calls (h2c_regs i1) (c2h_regs i1)))) s.
Proof.
  intros Hp Hc Hb Hpos Hi.
  eapply wp_mono; [exact (probe_engines_spec p base _ i Hp Hc Hb Hpos s eq_refl Hi)|].
  intros rc s1 (i1 & evs & -> & rs & Hrs & Hcase). exists rs, i1, evs.
  do 2 (split; [done|]). cbv zeta in *.
  destruct (Z.eqb_spec (first_true 0 (matches true 0 rs)) (-1)) as [E1|E1];
    [|destruct (Z.eqb_spec (first_true 0 (matches false 0 rs)) (-1)) as [E2|E2]];
    cbn [orb] in Hcase; destruct Hcase as (-> & -> & ->); do 2 (split; [done|]).
  - left. do 2 (split; [done|]). exists true. by apply first_true_none.
  - left. do 2 (split; [done|]). exists false. by apply first_true_none.
  - right. split; [done|]. cbn [h2c_engine c2h_engine]. split; [|split; [|done]].
    + by apply (first_true_lowest (matches true 0 rs)).
    + by apply (first_true_lowest (matches false 0 rs)).
Qed.

(** The register block [probe_engines] takes for the H2C engine is the one
    where it looked for the C2H engine of that channel, and the other way
    round: the two offsets are swapped between the search and the choice. *)
Theorem engine_blocks_swapped p base i s :
  p <> 0 -> 0 <= config_bar_idx i -> bar i !! Z.to_nat (config_bar_idx i) = Some base ->
  0 < base -> k_heap s !! p = Some i ->
  wp (probe_engines p) (fun rc s1 => rc = 0 -> exists i1, k_heap s1 !! p = Some i1 /\
    h2c_regs i1 = engine_addr base false (h2c_engine i1) /\
    c2h_regs i1 = engine_addr base true (c2h_engine i1)) s.
Proof.
  intros Hp Hc Hb Hpos Hi.
  eapply wp_mono; [exact (probe_engines_spec p base _ i Hp Hc Hb Hpos s eq_refl Hi)|].
  intros rc s1 (i1 & evs & -> & rs & _ & Hcase) Hrc. cbv zeta in Hcase. exists i1.
  split; [apply upd_heap|]. destruct (_ || _); destruct Hcase as (-> & -> & _); [done|].
  assert (Eh : h2c_engine (engines_noted rs i) = first_true 0 (matches true 0 rs)) by done.
  assert (Ec : c2h_engine (engines_noted rs i) = first_true 0 (matches false 0 rs)) by done.
  unfold engine_addr. cbn [h2c_regs c2h_regs h2c_engine c2h_engine set_regs set_field
    set_h2c_regs set_c2h_regs set_desc_bypass_enabled negb Z.b2z].
  rewrite Eh, Ec. unfold C2H_CHANNEL_OFFSET. split; lia.
Qed.

(** ** Bit utilities and the MSI-X vector table *)

(** A 64-bit address split with [PCI_DMA_H] and [PCI_DMA_L] and put
    together by [build_u64] loses its top four bits: the mask of the high word
    has seven hexadecimal digits.  Below 2^60 the round trip is exact. *)
Theorem build_u64_split addr :
  0 <= addr < 2 ^ 64 -> build_u64 (PCI_DMA_H addr) (PCI_DMA_L addr) = addr mod 2 ^ 60.
Proof.
  intros Ha. rewrite build_u64_arith, PCI_DMA_H_arith, PCI_DMA_L_arith. zdivmod.
Qed.

(** [write_msix_vectors] gives the sixteen user interrupts the vectors 0 to
    15 and the eight channel interrupts the vectors 16 to 23: byte [k mod 4] of
    register [k / 4] of the block holds the vector of source [k].  It makes six
    writes and changes nothing else. *)
Theorem msix_vector_table p i base s :
  p <> 0 -> 0 <= config_bar_idx i -> bar i !! Z.to_nat (config_bar_idx i) = Some base ->
  k_heap s !! p = Some i ->
  exists evs, write_msix_vectors p s = (Done tt, upd p i evs s) /\ length evs = 6%nat /\
    forall k, 0 <= k < 24 -> exists f v,
      (f = if k <? 16 then reg_at interrupt_regs (base + XDMA_OFS_INT_CTRL)
                             "user_msi_vector" (k / 4)
           else reg_at interrupt_regs (base + XDMA_OFS_INT_CTRL)
                             "channel_msi_vector" ((k - 16) / 4)) /\
      KWrite32 f v ∈ evs /\ v / 2 ^ (8 * (k mod 4)) mod 2 ^ 8 = k.
Proof.
  intros Hp Hc Hb Hi.
  assert (Hw : ispec p (write_msix_vectors p) (k_trace s) i (fun _ i1 evs => i1 = i /\
    evs = (fun c => KWrite32 c.1 c.2) <$>
      [(reg_at interrupt_regs (base + XDMA_OFS_INT_CTRL) "user_msi_vector" 0, 0x03020100);
       (reg_at interrupt_regs (base + XDMA_OFS_INT_CTRL) "user_msi_vector" 1, 0x07060504);
       (reg_at interrupt_regs (base + XDMA_OFS_INT_CTRL) "user_msi_vector" 2, 0x0b0a0908);
       (reg_at interrupt_regs (base + XDMA_OFS_INT_CTRL) "user_msi_vector" 3, 0x0f0e0d0c);
       (reg_at interrupt_regs (base + XDMA_OFS_INT_CTRL) "channel_msi_vector" 0, 0x13121110);
       (reg_at interrupt_regs (base + XDMA_OFS_INT_CTRL) "channel_msi_vector" 1,
          0x17161514)])).
  { unfold write_msix_vectors, int_block. apply ispec_bug; [by apply Z.eqb_neq|].
    apply ispec_assoc, ispec_get, ispec_assoc. eapply bar_get_spec; [done..|].
    apply ispec_pure. do 6 apply ispec_do. by apply ispec_ret. }
  destruct (proj1 (wp_run _ _ _) (Hw s eq_refl Hi)) as ([] & s1 & -> & i1 & evs & -> & -> & ->).
  eexists. split; [done|]. split; [done|]. intros k Hk.
  assert (Hcases : exists n, k = Z.of_nat n /\ (n < 24)%nat) by (exists (Z.to_nat k); lia).
  destruct Hcases as (n & -> & Hn).
  eexists. exists (default 0 ([0x03020100; 0x07060504; 0x0b0a0908; 0x0f0e0d0c; 0x13121110;
    0x17161514] !! (n / 4)%nat)). split; [reflexivity|].
  set (q := (n / 4)%nat). assert (Hq : q = (n / 4)%nat) by done. clearbody q.
  assert (Hlk : forall l x, l !! q = Some x -> x ∈ (l : list kcall))
    by (intros l x; apply list_elem_of_lookup_2).
  do 24 (destruct n as [|n];
    [vm_compute in Hq; rewrite Hq; rewrite Hq in Hlk; split;
     [apply Hlk; reflexivity|reflexivity]|]). lia.
Qed.
End Properties.

Lemma probe_success_witness :
  fst (probe (H := board true 0) board_dev boot) = Done 0 /\
  wp (probe (H := board true 0) board_dev) (fun rc s1 => rc = 0 ->
    s1 = log (KZalloc 0) boot \/
    exists p m i evs, 0 < p /\ probed board_dev p m i evs /\
      k_trace s1 = k_trace boot ++ evs /\ k_heap s1 = <[p := i]> (k_heap boot) /\
      k_drvdata s1 = <[pdev board_dev := p]> (k_drvdata boot) /\
      k_control s1 = node misc_dev_node (pdev board_dev) /\
      k_bypass s1 = node bypass_node (pdev board_dev)) boot.
Proof.
  split; [by vm_compute|]. apply (probe_success (H := board true 0) board_dev boot).
  discriminate.
Defined.

Lemma probe_failure_witness :
  fst (probe (H := board true (-12)) board_dev boot) = Done (-12) /\
  wp (probe (H := board true (-12)) board_dev) (fun rc s1 => rc <> 0 ->
    exists p st m evs, k_trace s1 = k_trace boot ++ evs /\
      k_heap s1 = delete p (k_heap boot) /\ failed_call board_dev st rc evs /\
      ledger ∅ evs = Some (leak board_dev st m rc)) boot.
Proof.
  split; [by vm_compute|]. apply (probe_failure (H := board true (-12)) board_dev boot).
  discriminate.
Defined.

Lemma probe_register_accesses_witness :
  wp (probe (H := board false 0) board_dev) (fun rc s1 =>
    exists evs, k_trace s1 = k_trace boot ++ evs /\ is_Some (mmio [] evs)) boot.
Proof.
  apply (probe_register_accesses (H := board false 0) board_dev boot). discriminate.
Defined.

Lemma probe_remove_balanced_witness :
  fst (probe (H := board true 0) board_dev boot) = Done 0 /\
  wp (probe (H := board true 0) board_dev) (fun rc s1 => rc = 0 ->
    wp (remove board_dev) (fun _ s2 => exists evs, k_trace s2 = k_trace boot ++ evs /\
      ledger ∅ evs = Some ∅ /\ is_Some (mmio [] evs)) s1) boot.
Proof.
  split; [by vm_compute|]. apply (probe_remove_balanced (H := board true 0) board_dev boot).
  - discriminate.
  - reflexivity.
Defined.

Lemma remove_null_crashes_witness :
  let dev := PciDevice 0 false [] (fun _ => 0) (fun _ => 0) in
  remove dev boot = (Halt NullDeref, boot).
Proof. apply remove_null_crashes. reflexivity. Defined.

(** The board after [alloc_dev_instance], and after [map_bars]. *)
Definition allocated : kstate := upd 0x5000 (fresh_inst 0x9000) [] boot.

Definition board_inst : dev_inst :=
  fresh_inst 0x9000 <| bar := [board_bar 0; board_bar 1; board_bar 2; 0; 0; 0] |>
    <| config_bar_idx := 1 |> <| user_bar_idx := 0 |> <| bypass_bar_idx := 2 |>.

Definition board_mapped : kstate := upd 0x5000 board_inst [] boot.

Lemma map_bars_witness :
  fst (map_bars (H := board true 0) 0x5000 board_dev allocated) = Done 0 /\
  wp (map_bars (H := board true 0) 0x5000 board_dev) (fun rc s1 => exists i1 evs,
    s1 = upd 0x5000 i1 evs allocated /\
    ((rc = 0 /\ mapped board_dev (fresh_inst 0x9000) i1 evs) \/
     (rc = -1 /\ unmapped board_dev (fresh_inst 0x9000) i1 evs))) allocated.
Proof.
  split; [by vm_compute|].
  apply (map_bars_maps_or_undoes (H := board true 0)); [discriminate|reflexivity..].
Defined.

Lemma identify_bars_layout_witness :
  identify_bars 0x5000 (id_array [0; 1; 2]) 3 1 allocated =
    (Done tt, upd 0x5000 (set_roles (Some 0) (Some 2) (fresh_inst 0x9000)) [] allocated).
Proof.
  apply (identify_bars_layout 0x5000 [0; 1; 2] 1 1 (fresh_inst 0x9000) allocated);
    [discriminate| |discriminate|reflexivity|reflexivity].
  apply (bool_decide_unpack _). by vm_compute.
Defined.

Lemma probe_engines_lowest_witness :
  fst (probe_engines (H := board true 0) 0x5000 board_mapped) = Done 0 /\
  wp (probe_engines (H := board true 0) 0x5000) (fun rc s1 => exists rs i1 evs,
    s1 = upd 0x5000 i1 evs board_mapped /\ length rs = Z.to_nat XDMA_CHANNEL_NUM_MAX /\
    let answers d := matches d 0 rs in
    h2c_count i1 = num_true (answers true) /\ c2h_count i1 = num_true (answers false) /\
    ((rc = - ENODEV /\ evs = channel_reads (board_bar 1) 0 rs /\
      exists d, forall k, answers d !! k <> Some true) \/
     (rc = 0 /\ lowest (answers true) (h2c_engine i1) /\
      lowest (answers false) (c2h_engine i1) /\ desc_bypass_enabled i1 = true /\
      evs = channel_reads (board_bar 1) 0 rs ++ enable_calls (h2c_regs i1) (c2h_regs i1))))
    board_mapped.
Proof.
  split; [by vm_compute|].
  apply (probe_engines_lowest (H := board true 0) 0x5000 (board_bar 1) board_inst);
    [discriminate|discriminate|reflexivity|reflexivity|reflexivity].
Defined.

Lemma engine_blocks_swapped_witness :
  fst (probe_engines (H := board true 0) 0x5000 board_mapped) = Done 0 /\
  wp (probe_engines (H := board true 0) 0x5000) (fun rc s1 => rc = 0 ->
    exists i1, k_heap s1 !! 0x5000 = Some i1 /\
      h2c_regs i1 = engine_addr (board_bar 1) false (h2c_engine i1) /\
      c2h_regs i1 = engine_addr (board_bar 1) true (c2h_engine i1)) board_mapped.
Proof.
  split; [by vm_compute|].
  apply (engine_blocks_swapped (H := board true 0) 0x5000 (board_bar 1) board_inst);
    [discriminate|discriminate|reflexivity|reflexivity|reflexivity].
Defined.

Lemma build_u64_split_witness :
  0 <= 0xf123456789abcdef < 2 ^ 64 /\
  build_u64 (PCI_DMA_H 0xf123456789abcdef) (PCI_DMA_L 0xf123456789abcdef) = 0x123456789abcdef.
Proof. split; [lia|]. apply (build_u64_split 0xf123456789abcdef). lia. Defined.

Lemma msix_vector_table_witness :
  exists evs, write_msix_vectors 0x5000 board_mapped =
      (Done tt, upd 0x5000 board_inst evs board_mapped) /\ length evs = 6%nat /\
    forall k, 0 <= k < 24 -> exists f v,
      (f = if k <? 16 then reg_at interrupt_regs (board_bar 1 + XDMA_OFS_INT_CTRL)
                             "user_msi_vector" (k / 4)
           else reg_at interrupt_regs (board_bar 1 + XDMA_OFS_INT_CTRL)
                             "channel_msi_vector" ((k - 16) / 4)) /\
      KWrite32 f v ∈ evs /\ v / 2 ^ (8 * (k mod 4)) mod 2 ^ 8 = k.
Proof.
  apply (msix_vector_table 0x5000 board_inst (board_bar 1));
    [discriminate|discriminate|reflexivity|reflexivity].
Defined.
