(* ===== verification/XdmaCharTheorems.v ===== *)
(** * What the device nodes guarantee

    The properties of mmap and of the ioctls, and their instances on the
    example board. *)

From stdpp Require Import base gmap gmultiset list strings numbers option.
From S2P Require Import Prelude CInt XdmaRegs Kernel Resources XdmaBars XdmaProbe XdmaTheorems.
From S2P Require Import XdmaChar.
Open Scope Z_scope.

Section Mmap.
Context `{KernelEnv}.

(** C31: mapping a node either is refused with -EINVAL, when the area is larger
    than the BAR, without any effect; or asks for exactly the pages of the
    area, uncached and as I/O memory, starting at the BAR, so that with a
    page-aligned BAR no byte outside the BAR becomes visible; the result is 0
    exactly when the kernel could map them, and -EAGAIN otherwise. *)
Theorem mmap_within_bar m idx dev vma p i s :
  node_of m dev p i s -> 0 <= idx i -> 0 <= resource_start dev (idx i) < 2 ^ 64 ->
  0 <= resource_len dev (idx i) < 2 ^ 64 -> resource_start dev (idx i) mod PAGE_SIZE = 0 ->
  let start := resource_start dev (idx i) in
  let len := resource_len dev (idx i) in
  (len < vm_size vma /\ node_mmap m idx dev vma s = (Done (- EINVAL, vma), s)) \/
  exists pfn rc r, vm_size vma <= len /\
    node_mmap m idx dev vma s =
      (Done (r, vma_io vma), log (KRemapPfn (vm_start vma) pfn (vm_size vma) rc) s) /\
    pfn * PAGE_SIZE = start /\ pfn * PAGE_SIZE + vm_size vma <= start + len /\
    (r = 0 <-> rc = 0) /\ (r = 0 \/ r = - EAGAIN).
Proof.
  intros Hn Hidx Hs Hl Hal start len. rewrite (node_mmap_spec _ _ _ _ p i) by done.
  fold start in Hs, Hal |- *. fold len in Hl |- *. rewrite !u64_small by done.
  destruct (Z.ltb_spec len (vm_size vma)) as [E|E]; [by left|right]. cbv zeta.
  eexists _, _, _. split; [done|]. split; [reflexivity|].
  assert (Hp : Z.shiftr start PAGE_SHIFT * PAGE_SIZE = start).
  { unfold PAGE_SIZE, PAGE_SHIFT in *. rewrite Z.shiftr_div_pow2 by done.
    pose proof (Z.div_mod start (2 ^ 12)). lia. }
  rewrite Hp. split; [done|]. split; [lia|].
  destruct (Z.eqb_spec (s32 (env_io_remap_pfn_range (k_trace s) (vm_start vma)
    (Z.shiftr start PAGE_SHIFT) (vm_size vma))) 0); split; unfold EAGAIN; lia.
Qed.

(** The page offset the user passes to mmap has no influence: any offset
    gives the beginning of the BAR. *)
Theorem mmap_ignores_offset m idx dev vma off s :
  let at_off := VmArea (vm_start vma) (vm_end vma) off (vm_flags vma) (vm_noncached vma) in
  match node_mmap m idx dev vma s, node_mmap m idx dev at_off s with
  | (Done (r1, _), s1), (Done (r2, _), s2) => r1 = r2 /\ s1 = s2
  | (Halt e1, s1), (Halt e2, s2) => e1 = e2 /\ s1 = s2
  | _, _ => False
  end.
Proof.
  cbv zeta. unfold node_mmap, node_parent, dev_get_drvdata, pci_resource, BUG_ON, inst_get,
    kask, pbind, pret, halt, require, get_state, vma_io. cbn [vm_start vm_end vm_pgoff].
  repeat (case_match; simplify_eq; try done).
Qed.

(** On a device without the BAR of a node, mapping that node reads the
    resource table at index -1: the role index is not checked. *)
Theorem mmap_absent_bar m idx dev vma p i s :
  node_of m dev p i s -> idx i = -1 -> node_mmap m idx dev vma s = (Halt OutOfBounds, s).
Proof. intros Hn Hi. eapply node_mmap_absent; [done|lia]. Qed.
End Mmap.

Section Ioctls.
Context `{KernelEnv}.
Implicit Types (i : dev_inst) (s : kstate).

(** C30: BUFFER_SET on [size] bytes, for every answer of the kernel.  When the
    user's words cannot be copied, the number of missing bytes is the result.  When
    no page can be pinned the result is -1, and the page array is recorded and
    stays allocated.  When some pages are pinned (not all perhaps), each of them is
    marked reserved, and the instance records the buffer: the address, the number
    of pages, their size, and the number of 2 MB groups.  In the remaining cases
    the driver runs on, and uses a page that is not there: a negative number from
    [get_user_pages], which stands for an error, is taken as a huge number of
    pages in an array that nobody filled; and without memory for the array it is
    the null pointer that is read. *)
Theorem buffer_set_functional p i arg addr size n a rc s
    (np := (size + 4095) / 4096) (h1 := k_trace s ++ [KCopyFromUser arg 0])
    (h2 := h1 ++ [KAllocArray a np; KDownReadMmapSem])
    (l := (fun k => env_user_page h2 addr k) <$> seqZ 0 rc)
    (set := char_xdma_ioctl p IOCTL_XDMA_BUFFER_SET arg) :
  k_heap s !! p = Some i -> k_arrays s !! 0 = None ->
  env_copy_from_user (k_trace s) arg = (addr, size, n) -> 0 <= n < 2 ^ 31 ->
  0 <= addr < 2 ^ 64 -> 0 < size <= 2 ^ 42 ->
  env_alloc_array h1 np = a -> 0 <= a < 2 ^ 64 ->
  env_get_user_pages h2 addr np = rc -> - 4096 < rc <= np ->
  if 0 <? n then set s = (Done n, log (KCopyFromUser arg n) s)
  else if rc =? 0 then
    wp set (fun r s1 => r = -1 /\ k_trace s1 = k_trace s ++ pin_calls arg a addr np [] /\
      k_heap s1 = <[p := i <| huge_pages := a |>]> (k_heap s) /\
      (a <> 0 -> ledger ∅ (pin_calls arg a addr np []) = Some {[+ RArray a +]})) s
  else if (0 <? rc) && negb (a =? 0) then
    wp set (fun r s1 => r = 0 /\ k_trace s1 = k_trace s ++ set_calls arg a addr np l /\
      k_heap s1 = <[p := with_buffer a addr rc i]> (k_heap s) /\ pages_at a l s1) s
  else fst (set s) = Halt (if a =? 0 then NullDeref else Undefined).
Proof.
  intros Hi H0 Hc Hn Haddr Hsize Ha Har Hrc Hr. pose proof (ceil_pages_bound size Hsize) as Hnp. fold np in Hnp.
  change set with (ioctl_do_buffer_set p arg).
  destruct (Z.ltb_spec 0 n) as [Hpos|Hzero]; [apply (buffer_set_refused p arg addr size); [exact Hc|lia]|].
  assert (n = 0) as -> by lia. destruct (Z.eqb_spec rc 0) as [Ez|Hne].
  - eapply buffer_set_none; try done. unfold unpinned. fold np h1 h2. rewrite Ez, seqZ_nil by done.
    split; [done|]. split; [by destruct (a =? 0)|]. split; [by destruct (a =? 0)|].
    intros Hne0. rewrite (pin_acquires arg a addr np [] Hne0 ∅). apply f_equal. unfold pages_res.
    cbn [fmap list_fmap list_to_set_disj]. multiset_solver.
  - assert (Hfault : rc < 0 \/ a = 0 -> fst (ioctl_do_buffer_set p arg s) = Halt (if a =? 0 then NullDeref else Undefined)).
    { intros Hcase. eapply buffer_set_faults; try done; lia. }
    destruct (Z.ltb_spec 0 rc) as [Hp|Hneg]; cbn [andb]; [|apply Hfault; lia].
    destruct (Z.eqb_spec a 0) as [Ea|Hna]; cbn [negb]; [apply Hfault; by right|].
    assert (El : Z.of_nat (length l) = rc) by (unfold l; rewrite length_fmap, length_seqZ; lia).
    apply (buffer_set_spec p i arg addr size a l s); [done| |].
    { split; [done|]. split; [done|]. split; [done|]. split; [exact Ha|]. split; [lia|].
      rewrite El. split; [exact Hrc|]. split; [lia|done]. }
    intros s1 (Ht & Hh & _) Hl. rewrite bool_decide_false by (intros E; rewrite E in El; cbn in El; lia).
    rewrite El. cbn [k_trace k_heap upd set_heap set_trace]. by rewrite Ht, Hh.
Qed.

(** C27: a buffer that was set and then released leaves nothing pinned, nothing
    allocated and the process lock free; every page is put exactly once. *)
Theorem buffer_roundtrip p i arg addr size a l s :
  k_heap s !! p = Some i -> buffer_answers (k_trace s) arg addr size a l -> l <> [] ->
  wp (char_xdma_ioctl p IOCTL_XDMA_BUFFER_SET arg;;
      char_xdma_ioctl p IOCTL_XDMA_RELEASE arg) (fun rc s1 => rc = 0 /\
    k_arrays s1 = delete a (k_arrays s) /\
    exists evs, k_trace s1 = k_trace s ++ evs /\ ledger ∅ evs = Some ∅) s.
Proof.
  intros Hi Ha Hne. apply wp_bind.
  change (char_xdma_ioctl p IOCTL_XDMA_BUFFER_SET arg) with (ioctl_do_buffer_set p arg).
  change (char_xdma_ioctl p IOCTL_XDMA_RELEASE arg) with (ioctl_release_mapping p).
  apply (buffer_set_spec p i arg addr size a l s); [done..|].
  intros s1 (Ht & Hh & _ & Hdel) Hl. rewrite bool_decide_false by done.
  assert (Ha0 : a <> 0) by (destruct Ha as (_ & _ & _ & _ & ? & _); lia).
  apply (release_spec _ _ _ l).
  { split; [done|]. split; [done|]. split; [done|].
    destruct Ha as (_ & _ & Hs & _ & _ & _ & Hle & _).
    pose proof (ceil_pages_bound size Hs). lia. }
  split; [done|]. split; [exact Hdel|]. eexists. split.
  { cbn [k_trace upd set_heap set_trace set_arrays]. by rewrite Ht. }
  assert (Hb : acquires ∅ (set_calls arg a addr ((size + 4095) / 4096) l ++
    release_calls (k_trace s1 ++ set_calls arg a addr ((size + 4095) / 4096) l) l ++
    [KFreeArray a])).
  { eapply acquires_releases; [by apply set_acquires|].
    apply releases_app; [apply release_releases|]. apply releases_one.
    intros L. cbn. by rewrite (proj2 (Z.eqb_neq a 0)). }
  rewrite Ht in Hb. rewrite Hb. apply f_equal. apply gmultiset_disj_union_right_id.
Qed.

(** No page is ever marked dirty when a buffer is released: BUFFER_SET
    marked all of them reserved, and the release marks only those that are
    not.  (The premise: a page stays reserved until something clears it.) *)
Theorem pages_never_dirty p i arg addr size a l s :
  (forall h pg, KSetPageReserved pg ∈ h -> env_page_reserved h pg = true) ->
  k_heap s !! p = Some i -> buffer_answers (k_trace s) arg addr size a l -> l <> [] ->
  wp (char_xdma_ioctl p IOCTL_XDMA_BUFFER_SET arg;;
      char_xdma_ioctl p IOCTL_XDMA_RELEASE arg) (fun rc s1 =>
    exists evs, k_trace s1 = k_trace s ++ evs /\ forall pg, KSetPageDirty pg ∉ evs) s.
Proof.
  intros Hr Hi Ha Hne. apply wp_bind.
  change (char_xdma_ioctl p IOCTL_XDMA_BUFFER_SET arg) with (ioctl_do_buffer_set p arg).
  change (char_xdma_ioctl p IOCTL_XDMA_RELEASE arg) with (ioctl_release_mapping p).
  apply (buffer_set_spec p i arg addr size a l s); [done..|].
  intros s1 (Ht & Hh & _ & Hdel) Hl. rewrite bool_decide_false by done.
  apply (release_spec _ _ _ l).
  { split; [done|]. split; [done|]. split; [done|].
    destruct Ha as (_ & _ & Hs & _ & _ & _ & Hle & _).
    pose proof (ceil_pages_bound size Hs). lia. }
  eexists. split.
  { cbn [k_trace upd set_heap set_trace set_arrays]. by rewrite Ht. }
  intros pg. rewrite !elem_of_app. intros [Hin|[Hin|Hin]].
  - unfold set_calls, pin_calls in Hin. apply elem_of_app in Hin as [Hin|Hin]; [set_solver|].
    apply list_elem_of_fmap in Hin as (? & ? & _). done.
  - revert Hin. apply release_not_dirty. intros h1 q Hq. apply Hr.
    apply elem_of_app. left. apply elem_of_app. right. unfold set_calls.
    apply elem_of_app. right. by apply list_elem_of_fmap_2.
  - set_solver.
Qed.

(** C29: MAPPING_GET gives the user the number of 2 MB groups of the buffer and
    the bus address of the first page of each, if there is room for them; a
    failed copy gives -EACCES; the kernel's temporary array is freed in every
    case and the instance, the buffer and the other arrays are unchanged. *)
Theorem mapping_get_functional p i arg max uaddr b l s
    (n := huge_count (Z.of_nat (length l))) :
  k_heap s !! p = Some i -> buffer_of i l s ->
  env_copy_from_user (k_trace s) arg = (max, uaddr, 0) ->
  0 <= max < 2 ^ 64 -> 0 <= uaddr < 2 ^ 64 -> n <= max ->
  env_alloc_array (k_trace s ++ [KCopyFromUser arg 0]) n = b -> 0 < b < 2 ^ 64 ->
  k_arrays s !! b = None ->
  wp (char_xdma_ioctl p IOCTL_XDMA_MAPPING_GET arg) (fun rc s1 =>
    exists r1 r2, rc = (if (r1 =? 0) && (r2 =? 0) then 0 else - EACCES) /\
      s1 = upd p i (mapping_calls arg b n uaddr
             ((fun k => u64 (env_page_to_phys (l !!! Z.to_nat (512 * k)))) <$> seqZ 0 n)
             r1 r2) s) s.
Proof.
  intros Hi Hl Hc Hm Hu Hn Hb Hbr Hf.
  change (char_xdma_ioctl p IOCTL_XDMA_MAPPING_GET arg) with (ioctl_do_mapping_get p arg).
  apply (mapping_get_spec p i arg max uaddr b l s); [done..|].
  intros r1 r2. by exists r1, r2.
Qed.

(** The number of pages survives a release, so a second RELEASE uses the
    page array after it was freed. *)
Theorem release_twice_crashes p i l s :
  k_heap s !! p = Some i -> buffer_of i l s -> l <> [] -> huge_pages i <> 0 ->
  fst ((char_xdma_ioctl p IOCTL_XDMA_RELEASE 0;;
        char_xdma_ioctl p IOCTL_XDMA_RELEASE 0) s) = Halt WildAccess.
Proof.
  intros Hi Hl Hne Ha.
  change (char_xdma_ioctl p IOCTL_XDMA_RELEASE 0) with (ioctl_release_mapping p).
  destruct (proj1 (wp_run (ioctl_release_mapping p) (fun _ s1 =>
    k_heap s1 !! p = Some i /\ k_arrays s1 !! huge_pages i = None) s)) as (r & s1 & E & Hi1 & Hnone).
  { rewrite <- (upd_nil p i s Hi). apply (release_spec _ _ _ l); [done|].
    split; [apply upd_heap|]. cbn. apply lookup_delete_eq. }
  unfold pbind. rewrite E. destruct Hl as (_ & Hn & _ & Hmax).
  rewrite (release_gone p i s1); [done|done| |done|done].
  rewrite Hn, s32_small by lia. destruct l; [done|cbn; lia].
Qed.

(** [xdma_open] computes the instance from the character device of the
    inode as if that were embedded in an instance.  Nothing in the driver
    registers the embedded device; and unless the inode's is the one of a live
    instance, BUFFER_SET that could read its argument, and RELEASE, work on
    memory that is not an instance. *)
Theorem open_gives_no_instance i_cdev cmd arg s :
  0 <= i_cdev < 2 ^ 64 ->
  (forall p i, k_heap s !! p = Some i -> u64 (p + cdev_offset) <> i_cdev) ->
  cmd = IOCTL_XDMA_BUFFER_SET \/ cmd = IOCTL_XDMA_RELEASE ->
  s32 (env_copy_from_user (k_trace s) arg).2 = 0 ->
  exists r, (r = NullDeref \/ r = WildAccess) /\
    fst (char_xdma_ioctl (fst (xdma_open i_cdev)) cmd arg s) = Halt r.
Proof.
  intros Hr Hno Hcmd Hc.
  assert (Hq : k_heap s !! fst (xdma_open i_cdev) = None).
  { destruct (k_heap s !! _) as [i|] eqn:E; [|done]. destruct (Hno _ _ E).
    cbn. unfold cdev_offset, u64 in *. zdivmod. }
  revert Hq. generalize (fst (xdma_open i_cdev)) as q. intros q Hq.
  assert (Hget : forall B (k : dev_inst -> kprog B) t, k_heap t !! q = None ->
    exists r, (r = NullDeref \/ r = WildAccess) /\ fst (pbind (inst_get q) k t) = Halt r).
  { intros B k t Ht. unfold pbind, inst_get. rewrite Ht. destruct (q =? 0); eauto. }
  destruct Hcmd as [-> | ->].
  - change (char_xdma_ioctl q IOCTL_XDMA_BUFFER_SET arg) with (ioctl_do_buffer_set q arg).
    assert (Hset : forall B (f : dev_inst -> dev_inst) (k : unit -> kprog B) t,
      k_heap t !! q = None -> exists r, (r = NullDeref \/ r = WildAccess) /\
        fst (pbind (inst_upd q f) k t) = Halt r).
    { intros B f k t Ht. unfold inst_upd.
      destruct (Hget _ (fun i => modify_state
        (fun s => set_heap (<[q := f i]> (k_heap s)) s)) t Ht) as (r & Hr1 & Hf).
      exists r. split; [done|]. by apply pbind_halt. }
    unfold ioctl_do_buffer_set, copy_two_words, kask, alloc_words.
    unfold pbind at 1. destruct (env_copy_from_user (k_trace s) arg) as [[w1 w2] w3].
    cbn [snd] in Hc. rewrite Hc. cbn [negb Z.eqb]. cbv zeta.
    unfold pbind at 1. unfold pbind at 1. unfold kask. destruct (_ =? 0); by apply Hset.
  - apply Hget, Hq.
Qed.
End Ioctls.

(** ** On the example board *)

(** A user with a buffer of 5000 bytes at 0x10000, described at address 1, and
    room for four bus addresses at 0x2000, described at address 2. *)
Definition user_board_with (pinned : Z -> Z) : KernelEnv := {|
  env_kzalloc := @env_kzalloc (board true 0);
  env_pci_enable_device := @env_pci_enable_device (board true 0);
  env_pci_find_capability := @env_pci_find_capability (board true 0);
  env_pci_enable_msix_exact := @env_pci_enable_msix_exact (board true 0);
  env_pci_enable_msi := @env_pci_enable_msi (board true 0);
  env_pci_request_regions := @env_pci_request_regions (board true 0);
  env_pci_iomap := @env_pci_iomap (board true 0);
  env_ioread32 := @env_ioread32 (board true 0);
  env_dma_set_mask := @env_dma_set_mask (board true 0);
  env_misc_register := @env_misc_register (board true 0);
  env_pci_register_driver := fun _ => 0;
  env_io_remap_pfn_range := fun _ _ _ _ => 0;
  env_copy_from_user := fun _ arg => if arg =? 1 then (0x10000, 5000, 0) else (4, 0x2000, 0);
  env_copy_to_user := fun _ _ _ => 0;
  env_alloc_array := fun _ n => if n =? 1 then 0x8000 else 0x7000;
  env_get_user_pages := fun _ _ n => pinned n;
  env_user_page := fun _ start k => start / 0x1000 + k;
  env_page_to_phys := fun pg => pg * 0x1000;
  env_page_reserved := fun h pg =>
    existsb (fun e => match e with KSetPageReserved q => q =? pg | _ => false end) h |}.
Definition user_board : KernelEnv := user_board_with (fun n => n).

Definition board_ready : kstate :=
  set_nodes 0x9000 (bind_drvdata board_dev 0x5000 board_mapped).
Definition board_area (size : Z) : vm_area := VmArea 0x400000 (0x400000 + size) 0 0 false.

Definition buffered_inst : dev_inst := with_buffer 0x7000 0x10000 2 board_inst.
Definition board_buffered : kstate :=
  set_arrays {[0x7000 := [Some 16; Some 17]]} (upd 0x5000 buffered_inst [] boot).

Lemma mmap_within_bar_witness :
  node_of misc_dev_node board_dev 0x5000 board_inst board_ready /\
  ((0x100000 < vm_size (board_area 0x1000) /\
    node_mmap (H := user_board) misc_dev_node user_bar_idx board_dev (board_area 0x1000)
      board_ready = (Done (- EINVAL, board_area 0x1000), board_ready)) \/
   exists pfn rc r, vm_size (board_area 0x1000) <= 0x100000 /\
    node_mmap (H := user_board) misc_dev_node user_bar_idx board_dev (board_area 0x1000)
      board_ready = (Done (r, vma_io (board_area 0x1000)),
        log (KRemapPfn (vm_start (board_area 0x1000)) pfn (vm_size (board_area 0x1000)) rc)
          board_ready) /\
    pfn * PAGE_SIZE = 0 /\
    pfn * PAGE_SIZE + vm_size (board_area 0x1000) <= 0 + 0x100000 /\
    (r = 0 <-> rc = 0) /\ (r = 0 \/ r = - EAGAIN)).
Proof.
  assert (Hn : node_of misc_dev_node board_dev 0x5000 board_inst board_ready).
  { split; [discriminate|]. split; [discriminate|]. repeat split. }
  split; [exact Hn|].
  apply (mmap_within_bar (H := user_board) misc_dev_node user_bar_idx board_dev
    (board_area 0x1000) 0x5000 board_inst board_ready Hn); cbn; try done; lia.
Defined.

Lemma mmap_absent_bar_witness :
  let s := set_nodes 0x9000 (bind_drvdata board_dev 0x5000 allocated) in
  node_mmap (H := user_board) misc_dev_node user_bar_idx board_dev (board_area 0x1000) s =
    (Halt OutOfBounds, s).
Proof.
  apply (mmap_absent_bar (H := user_board) misc_dev_node user_bar_idx board_dev
    (board_area 0x1000) 0x5000 (fresh_inst 0x9000)); [|reflexivity].
  split; [discriminate|]. split; [discriminate|]. repeat split.
Defined.

Lemma board_answers :
  buffer_answers (H := user_board) (k_trace board_mapped) 1 0x10000 5000 0x7000 [16; 17].
Proof. repeat split; vm_compute; congruence. Qed.

(** Both pages are pinned; or the address of the user is a bad one. *)
Lemma buffer_set_functional_witness :
  let set pinned := char_xdma_ioctl (H := user_board_with pinned) 0x5000 IOCTL_XDMA_BUFFER_SET 1 in
  wp (set (fun n => n)) (fun r s1 => r = 0 /\
    k_trace s1 = k_trace board_mapped ++ set_calls 1 0x7000 0x10000 2 [16; 17] /\
    k_heap s1 = <[0x5000 := with_buffer 0x7000 0x10000 2 board_inst]> (k_heap board_mapped) /\
    pages_at 0x7000 [16; 17] s1) board_mapped /\
  fst (set (fun _ => - EFAULT) board_mapped) = Halt Undefined.
Proof.
  split.
  - apply (buffer_set_functional (H := user_board) 0x5000 board_inst 1 0x10000 5000 0 0x7000 2 board_mapped);
      first [reflexivity|split; first [discriminate|reflexivity]].
  - apply (buffer_set_functional (H := user_board_with (fun _ => - EFAULT)) 0x5000 board_inst 1 0x10000 5000 0
      0x7000 (- EFAULT) board_mapped); first [reflexivity|split; first [discriminate|reflexivity]].
Defined.

Lemma buffer_roundtrip_witness :
  wp (char_xdma_ioctl (H := user_board) 0x5000 IOCTL_XDMA_BUFFER_SET 1;;
      char_xdma_ioctl (H := user_board) 0x5000 IOCTL_XDMA_RELEASE 1) (fun rc s1 => rc = 0 /\
    k_arrays s1 = delete 0x7000 (k_arrays board_mapped) /\
    exists evs, k_trace s1 = k_trace board_mapped ++ evs /\ ledger ∅ evs = Some ∅) board_mapped.
Proof.
  apply (buffer_roundtrip (H := user_board) 0x5000 board_inst 1 0x10000 5000 0x7000
    [16; 17] board_mapped); [reflexivity|exact board_answers|discriminate].
Defined.

Lemma board_keeps_reserved h pg :
  KSetPageReserved pg ∈ h -> @env_page_reserved user_board h pg = true.
Proof.
  intros Hin. cbn. apply existsb_exists. exists (KSetPageReserved pg).
  split; [by apply list_elem_of_In|by apply Z.eqb_refl].
Qed.

Lemma pages_never_dirty_witness :
  wp (char_xdma_ioctl (H := user_board) 0x5000 IOCTL_XDMA_BUFFER_SET 1;;
      char_xdma_ioctl (H := user_board) 0x5000 IOCTL_XDMA_RELEASE 1) (fun rc s1 =>
    exists evs, k_trace s1 = k_trace board_mapped ++ evs /\
      forall pg, KSetPageDirty pg ∉ evs) board_mapped.
Proof.
  apply (pages_never_dirty (H := user_board) 0x5000 board_inst 1 0x10000 5000 0x7000
    [16; 17] board_mapped);
    [exact board_keeps_reserved|reflexivity|exact board_answers|discriminate].
Defined.

Lemma board_buffer_of : buffer_of buffered_inst [16; 17] board_buffered.
Proof. split; [by exists []|]. split; [done|]. by split. Qed.

Lemma mapping_get_functional_witness :
  wp (char_xdma_ioctl (H := user_board) 0x5000 IOCTL_XDMA_MAPPING_GET 2) (fun rc s1 =>
    exists r1 r2, rc = (if (r1 =? 0) && (r2 =? 0) then 0 else - EACCES) /\
      s1 = upd 0x5000 buffered_inst (mapping_calls 2 0x8000 1 0x2000
             ((fun k => u64 (@env_page_to_phys user_board ([16; 17] !!! Z.to_nat (512 * k))))
                <$> seqZ 0 1) r1 r2) board_buffered) board_buffered.
Proof.
  apply (mapping_get_functional (H := user_board) 0x5000 buffered_inst 2 4 0x2000 0x8000
    [16; 17] board_buffered);
    [reflexivity|exact board_buffer_of|reflexivity|lia|lia|by vm_compute|reflexivity|lia
    |reflexivity].
Defined.

Lemma release_twice_crashes_witness :
  fst ((char_xdma_ioctl (H := user_board) 0x5000 IOCTL_XDMA_RELEASE 0;;
        char_xdma_ioctl (H := user_board) 0x5000 IOCTL_XDMA_RELEASE 0) board_buffered) =
    Halt WildAccess.
Proof.
  apply (release_twice_crashes (H := user_board) 0x5000 buffered_inst [16; 17]);
    [reflexivity|exact board_buffer_of|discriminate|discriminate].
Defined.

Lemma open_gives_no_instance_witness :
  exists r, (r = NullDeref \/ r = WildAccess) /\
    fst (char_xdma_ioctl (H := user_board) (fst (xdma_open 0xa000)) IOCTL_XDMA_RELEASE 0
           board_ready) = Halt r.
Proof.
  apply (open_gives_no_instance (H := user_board)); [lia| |by right|reflexivity].
  intros p i Hp. change (k_heap board_ready) with (<[0x5000 := board_inst]> (∅ : gmap Z dev_inst)) in Hp.
  apply lookup_insert_Some in Hp as [[<- _]|[_ Hp]]; [by vm_compute|].
  by rewrite lookup_empty in Hp.
Defined.
