(* ===== verification/Allocator.v ===== *)
(** * The contract of an allocator

    What a client of the huge-page memory may rely on, as an abstract machine
    on the blocks it holds, and as a class: an implementation names its state,
    its step and its invariant, and shows that each step is one of the abstract
    machine.  Runs are followed here once, for every implementation. *)

From stdpp Require Import base gmap list numbers option.
From S2P Require Import Prelude CInt.
Open Scope Z_scope.

Definition memset (mem : Z -> Z) (a v n : Z) : Z -> Z :=
  fun x => if (a <=? x) && (x <? a + n) then v else mem x.

(** ** Requests *)

(** The blocks a client holds: address to size. *)
Definition blocks : Type := gmap Z Z.

Definition apart (a n b m : Z) : Prop := a + n <= b \/ b + m <= a.

(** A block of [n] bytes at [a] may be handed out: inside the region, apart
    from all that are held, at least as large as asked for. *)
Definition grants (base size : Z) (B : blocks) (allocSize a n : Z) : Prop :=
  allocSize <= n < allocSize + 4096 /\ base <= a /\ a + n <= base + size /\
  forall b m, B !! b = Some m -> apart a n b m.

(** [OpAllocate] comes with the behaviour of the weak compare-and-exchange. *)
Inductive op : Type :=
  | OpAllocate (cas : nat -> bool) (allocSize : Z)
  | OpFree (ptr : Z)
  | OpStore (a v : Z).

(** What a client may do: ask for at least a byte, without overflow, and write
    into a block it holds.  It may free any pointer. *)
Definition allowed (o : op) (B : blocks) : Prop :=
  match o with
  | OpAllocate _ n => 0 < n <= 2 ^ 64 - 4096
  | OpFree _ => True
  | OpStore a _ => exists b m, B !! b = Some m /\ b <= a < b + m
  end.

(** ** The abstract allocator: the blocks held and the bytes in them *)

Inductive spec_step (base size : Z) :
    blocks -> (Z -> Z) -> op -> Z -> blocks -> (Z -> Z) -> Prop :=
  | spec_allocate B M cas n a m :
      a <> 0 -> grants base size B n a m -> (forall x, a <= x < a + m -> M x = 0) ->
      spec_step base size B M (OpAllocate cas n) a (<[a := m]> B) M
  | spec_full B M cas n : spec_step base size B M (OpAllocate cas n) 0 B M
  | spec_free B M ptr M' :
      (forall b m x, delete ptr B !! b = Some m -> b <= x < b + m -> M' x = M x) ->
      spec_step base size B M (OpFree ptr) 0 (delete ptr B) M'
  | spec_store B M a v : spec_step base size B M (OpStore a v) 0 B (memset M a v 1).

(** Runs: the operations with their results. *)
Inductive spec_run (base size : Z) :
    blocks -> (Z -> Z) -> list (op * Z) -> blocks -> (Z -> Z) -> Prop :=
  | spec_run_nil B M : spec_run base size B M [] B M
  | spec_run_cons B M o r B1 M1 tr B2 M2 :
      spec_step base size B M o r B1 M1 -> spec_run base size B1 M1 tr B2 M2 ->
      spec_run base size B M ((o, r) :: tr) B2 M2.

(** ** Implementations *)

Class Allocator (St : Type) : Type := {
  al_base : St -> Z;
  al_size : St -> Z;
  al_live : St -> blocks;
  al_mem : St -> Z -> Z;
  al_ok : St -> Prop;
  al_step : op -> St -> Z * St;
  al_refines : forall o st, al_ok st -> allowed o (al_live st) ->
    let '(r, st') := al_step o st in
    al_ok st' /\ al_base st' = al_base st /\ al_size st' = al_size st /\
    spec_step (al_base st) (al_size st) (al_live st) (al_mem st) o r (al_live st') (al_mem st');
}.

Section Runs.
Context {St : Type} `{Allocator St}.
Implicit Type st : St.

Fixpoint run (ops : list op) (st : St) : list (op * Z) * St :=
  match ops with
  | [] => ([], st)
  | o :: ops' =>
      let (r, st1) := al_step o st in
      let (tr, st2) := run ops' st1 in ((o, r) :: tr, st2)
  end.

(** Each operation is allowed when its turn comes. *)
Fixpoint allowed_run (ops : list op) (st : St) : Prop :=
  match ops with
  | [] => True
  | o :: ops' => allowed o (al_live st) /\ allowed_run ops' (snd (al_step o st))
  end.

Lemma run_refines ops st :
  al_ok st -> allowed_run ops st ->
  let '(tr, st') := run ops st in
  al_ok st' /\ al_base st' = al_base st /\ al_size st' = al_size st /\
  spec_run (al_base st) (al_size st) (al_live st) (al_mem st) tr (al_live st') (al_mem st').
Proof.
  revert st. induction ops as [|o ops IH]; intros st Hw Ha; cbn [run].
  { do 3 (split; [done|]). constructor. }
  destruct Ha as [Ho Ha]. pose proof (al_refines o st Hw Ho) as Hs.
  destruct (al_step o st) as [r st1] eqn:E. cbn [snd] in Ha.
  destruct Hs as (Hw1 & Hb & Hz & Hs). specialize (IH st1 Hw1 Ha).
  destruct (run ops st1) as [tr st2]. destruct IH as (Hw2 & Hb2 & Hz2 & Hr).
  rewrite Hb, Hz in *. do 3 (split; [done|]). by econstructor.
Qed.

(** An invariant of the steps is one of the runs. *)
Lemma run_invariant (I : St -> Prop) ops st :
  (forall o st1, al_ok st1 -> allowed o (al_live st1) -> I st1 -> I (snd (al_step o st1))) ->
  al_ok st -> allowed_run ops st -> I st ->
  al_ok (snd (run ops st)) /\ I (snd (run ops st)).
Proof.
  intros Hstep. revert st. induction ops as [|o ops IH]; intros st Hw Ha HI; [done|].
  destruct Ha as [Ho Ha]. pose proof (al_refines o st Hw Ho) as Hs.
  specialize (Hstep o st Hw Ho HI). cbn [run].
  destruct (al_step o st) as [r st1]. cbn [snd] in *. destruct Hs as (Hw1 & _).
  specialize (IH st1 Hw1 Ha Hstep). by destruct (run ops st1).
Qed.
End Runs.
