(* ===== verification/MemoryManager.v ===== *)
(** * The huge-page memory manager

    [sw/src/fpga/MemoryManager.{h,cpp}]: a first-fit allocator over one region
    of user memory, as a linked list of chunks.  The list is the linked list,
    in order; memory is a function from addresses to bytes.  The atomic flags
    matter only through [compare_exchange_weak], which may fail spuriously:
    [cas k] says that it does not at the [k]-th chunk visited. *)

From stdpp Require Import base gmap list numbers option sorting.
From S2P Require Import Prelude CInt Allocator.
Open Scope Z_scope.

(** ** Data *)

Record MemChunk : Type := Chunk {
  c_addr : Z;
  c_size : Z;
  c_free : bool;
}.

Record MemoryManager : Type := Manager {
  mm_base : Z;
  mm_size : Z;
  mm_chunks : list MemChunk;
  mm_mem : Z -> Z;
}.

Definition set_chunks (st : MemoryManager) (l : list MemChunk) : MemoryManager :=
  Manager (mm_base st) (mm_size st) l (mm_mem st).

(** ** Operations *)

(** The constructor. *)
Definition new_manager (base size : Z) (mem : Z -> Z) : MemoryManager :=
  Manager base size [Chunk base size true] (memset mem base 0 size).

(** The destructor deletes every chunk. *)
Definition destroy (st : MemoryManager) : MemoryManager := set_chunks st [].

Definition rounded_size (allocSize : Z) : Z := u64 (u64 (allocSize + 4095) / 4096 * 4096).

(** The loop of [allocate] from chunk number [k] on. *)
Fixpoint acquire_chunk (cas : nat -> bool) (k : nat) (roundedSize : Z) (l : list MemChunk)
    : option (Z * list MemChunk) :=
  match l with
  | [] => None
  | current :: next =>
      if (c_free current && (roundedSize <=? c_size current)) && cas k then
        Some (c_addr current,
          if roundedSize <? c_size current then
            Chunk (c_addr current) roundedSize false ::
            Chunk (u64 (c_addr current + roundedSize))
                  (u64 (c_size current - roundedSize)) true :: next
          else Chunk (c_addr current) (c_size current) false :: next)
      else
        match acquire_chunk cas (S k) roundedSize next with
        | Some (a, l') => Some (a, current :: l')
        | None => None
        end
  end.

(** [nullptr] is 0. *)
Definition allocate (cas : nat -> bool) (allocSize : Z) (st : MemoryManager)
    : Z * MemoryManager :=
  match acquire_chunk cas 0 (rounded_size allocSize) (mm_chunks st) with
  | Some (a, l) => (a, set_chunks st l)
  | None => (0, st)
  end.

Definition free_chunk (ptr : Z) (mem : Z -> Z) (c : MemChunk) : (Z -> Z) * MemChunk :=
  if c_addr c =? ptr
  then (memset mem (c_addr c) 0 (c_size c), Chunk (c_addr c) (c_size c) true)
  else (mem, c).

(** The loop of [free]. *)
Fixpoint free_chunks (ptr : Z) (mem : Z -> Z) (l : list MemChunk)
    : (Z -> Z) * list MemChunk :=
  match l with
  | [] => (mem, [])
  | c :: l' =>
      let (mem1, c1) := free_chunk ptr mem c in
      let (mem2, l2) := free_chunks ptr mem1 l' in
      (mem2, c1 :: l2)
  end.

Definition free (ptr : Z) (st : MemoryManager) : MemoryManager :=
  let (mem, l) := free_chunks ptr (mm_mem st) (mm_chunks st) in
  Manager (mm_base st) (mm_size st) l mem.

(** A write of the program that owns the memory. *)
Definition store (a v : Z) (st : MemoryManager) : MemoryManager :=
  Manager (mm_base st) (mm_size st) (mm_chunks st) (memset (mm_mem st) a v 1).

(** ** The invariant *)

(** The chunks tile [a, e) in address order, none of them empty. *)
Fixpoint tiles (a : Z) (l : list MemChunk) (e : Z) : Prop :=
  match l with
  | [] => a = e
  | c :: l' => c_addr c = a /\ 0 < c_size c /\ tiles (a + c_size c) l' e
  end.

Definition zero_at (mem : Z -> Z) (c : MemChunk) : Prop :=
  forall x, c_addr c <= x < c_addr c + c_size c -> mem x = 0.

Record wf (st : MemoryManager) : Prop := {
  wf_base : 0 < mm_base st;
  wf_top : mm_base st + mm_size st < 2 ^ 64;
  wf_tiles : tiles (mm_base st) (mm_chunks st) (mm_base st + mm_size st);
  wf_zero : forall c, c ∈ mm_chunks st -> c_free c = true -> zero_at (mm_mem st) c;
}.

(** The blocks a client holds. *)
Definition live (st : MemoryManager) : blocks :=
  list_to_map ((fun c => (c_addr c, c_size c)) <$>
               filter (fun c => c_free c = false) (mm_chunks st)).

Lemma rounded_size_spec n :
  0 < n <= 2 ^ 64 - 4096 ->
  n <= rounded_size n < n + 4096 /\ rounded_size n mod 4096 = 0.
Proof.
  intros Hn. unfold rounded_size. rewrite (u64_small (n + 4095)) by lia.
  rewrite u64_small by zdivmod. zdivmod.
Qed.

(** *** Tilings *)

Lemma tiles_le a l e : tiles a l e -> a <= e.
Proof. revert a. induction l as [|c l IH]; intros a; cbn; [lia|]. intros (_ & ? & ?%IH). lia. Qed.

Lemma tiles_elem a l e c :
  tiles a l e -> c ∈ l -> a <= c_addr c /\ 0 < c_size c /\ c_addr c + c_size c <= e.
Proof.
  revert a. induction l as [|d l IH]; intros a; cbn; [set_solver|].
  intros (<- & Hs & Ht) [->|Hc]%elem_of_cons.
  - apply tiles_le in Ht. lia.
  - specialize (IH _ Ht Hc). lia.
Qed.

Lemma tiles_app a l1 l2 e :
  tiles a (l1 ++ l2) e <-> exists m, tiles a l1 m /\ tiles m l2 e.
Proof.
  revert a. induction l1 as [|c l1 IH]; intros a; cbn.
  - split; [by eexists|]. by intros (m & -> & ?).
  - rewrite IH. split.
    + intros (? & ? & m & ? & ?). by exists m.
    + intros (m & (? & ? & ?) & ?). eauto.
Qed.

Lemma tiles_apart a l1 c l2 d e :
  tiles a (l1 ++ c :: l2) e -> d ∈ l1 ++ l2 ->
  apart (c_addr c) (c_size c) (c_addr d) (c_size d).
Proof.
  intros (m & H1 & H2 & Hs & H3)%tiles_app [Hd|Hd]%elem_of_app; unfold apart.
  - pose proof (tiles_elem _ _ _ _ H1 Hd). lia.
  - pose proof (tiles_elem _ _ _ _ H3 Hd). lia.
Qed.

Lemma tiles_addr_inj a l e c d :
  tiles a l e -> c ∈ l -> d ∈ l -> c_addr c = c_addr d -> c = d.
Proof.
  intros Ht (l1 & l2 & ->)%list_elem_of_split Hd E.
  apply elem_of_app in Hd as [Hd|[->|Hd]%elem_of_cons]; [|done|].
  - pose proof (tiles_apart _ _ _ _ d _ Ht ltac:(set_solver)) as Ha.
    pose proof (tiles_elem _ _ _ d Ht ltac:(set_solver)).
    pose proof (tiles_elem _ _ _ c Ht ltac:(set_solver)). unfold apart in Ha. lia.
  - pose proof (tiles_apart _ _ _ _ d _ Ht ltac:(set_solver)) as Ha.
    pose proof (tiles_elem _ _ _ d Ht ltac:(set_solver)).
    pose proof (tiles_elem _ _ _ c Ht ltac:(set_solver)). unfold apart in Ha. lia.
Qed.

Lemma tiles_NoDup a l e : tiles a l e -> NoDup (c_addr <$> l).
Proof.
  revert a. induction l as [|c l IH]; intros a; cbn; [constructor|].
  intros (<- & Hs & Ht). constructor; [|by eapply IH].
  intros (d & Hd & Hin)%list_elem_of_fmap.
  pose proof (tiles_elem _ _ _ d Ht Hin). lia.
Qed.

(** *** [allocate] *)

(** What becomes of the chunk that is taken. *)
Definition taken (r : Z) (c : MemChunk) : list MemChunk :=
  if r <? c_size c then
    [Chunk (c_addr c) r false; Chunk (u64 (c_addr c + r)) (u64 (c_size c - r)) true]
  else [Chunk (c_addr c) (c_size c) false].

(** Why a chunk is passed over. *)
Definition passed (cas : nat -> bool) (r : Z) (k : nat) (d : MemChunk) : Prop :=
  c_free d = false \/ c_size d < r \/ cas k = false.

Lemma acquire_chunk_some cas k r l a l' :
  acquire_chunk cas k r l = Some (a, l') ->
  exists l1 c l2, l = l1 ++ c :: l2 /\ a = c_addr c /\ c_free c = true /\
    r <= c_size c /\ l' = l1 ++ taken r c ++ l2 /\
    (forall j d, l1 !! j = Some d -> passed cas r (k + j) d) /\ cas (k + length l1)%nat = true.
Proof.
  revert k l'. induction l as [|c l IH]; intros k l'; cbn [acquire_chunk]; [done|].
  destruct ((c_free c && (r <=? c_size c)) && cas k) eqn:E.
  - intros [= <- <-]. apply andb_true_iff in E as [[Ef Er%Z.leb_le]%andb_true_iff Ec].
    exists [], c, l. do 4 (split; [done|]). split; [unfold taken; by destruct (r <? c_size c)|].
    split; [done|]. by rewrite Nat.add_0_r.
  - destruct (acquire_chunk cas (S k) r l) as [[b l2]|] eqn:Ea; [|done].
    intros [= <- <-]. destruct (IH _ _ Ea) as (l1 & d & l3 & -> & Hb & Hf & Hr & -> & Hp & Hc).
    exists (c :: l1), d, l3. do 5 (split; [done|]). split; [|cbn [length]; by rewrite <- Nat.add_succ_comm].
    intros [|j] d0 Hd; [injection Hd as ->|].
    + rewrite Nat.add_0_r. unfold passed.
      destruct (c_free d0), (Z.leb_spec r (c_size d0)), (cas k); try done; auto.
    + rewrite <- Nat.add_succ_comm. by apply Hp.
Qed.

Lemma acquire_chunk_none cas k r l :
  acquire_chunk cas k r l = None -> forall j d, l !! j = Some d -> passed cas r (k + j) d.
Proof.
  revert k. induction l as [|c l IH]; intros k; cbn [acquire_chunk]; [done|].
  destruct ((c_free c && (r <=? c_size c)) && cas k) eqn:E; [done|].
  destruct (acquire_chunk cas (S k) r l) as [[b l2]|] eqn:Ea; [done|].
  intros _ [|j] d Hd; [injection Hd as ->|].
  - rewrite Nat.add_0_r. unfold passed.
    destruct (c_free d), (Z.leb_spec r (c_size d)), (cas k); try done; auto.
  - rewrite <- Nat.add_succ_comm. by apply IH.
Qed.

Lemma taken_tiles a r c l e :
  0 < a -> e < 2 ^ 64 -> 0 < r <= c_size c -> tiles a (c :: l) e -> tiles a (taken r c ++ l) e.
Proof.
  intros Ha He Hr (<- & Hs & Ht). assert (Hle := tiles_le _ _ _ Ht). unfold taken.
  destruct (Z.ltb_spec r (c_size c)); cbn [app tiles c_addr c_size].
  - rewrite !u64_small by lia. do 2 (split; [done || lia|]). split; [done|].
    split; [lia|]. by replace (c_addr c + r + (c_size c - r)) with (c_addr c + c_size c) by lia.
  - by do 2 (split; [done|]).
Qed.

(** The block that [taken] hands out. *)
Definition granted (r : Z) (c : MemChunk) : Z := if r <? c_size c then r else c_size c.

Lemma live_chunks (l : list MemChunk) a e b m :
  tiles a l e ->
  (list_to_map (M := gmap Z Z) ((fun c => (c_addr c, c_size c)) <$>
     filter (fun c => c_free c = false) l)) !! b = Some m <->
  exists c, c ∈ l /\ c_free c = false /\ c_addr c = b /\ c_size c = m.
Proof.
  intros Ht. split.
  - intros Hl%elem_of_list_to_map_2. apply list_elem_of_fmap in Hl as (c & [= -> ->] & Hc).
    apply list_elem_of_filter in Hc as [Hf Hc]. by exists c.
  - intros (c & Hc & Hf & <- & <-). apply elem_of_list_to_map_1.
    + rewrite <- list_fmap_compose. change (fst ∘ _) with c_addr.
      assert (Hn := tiles_NoDup _ _ _ Ht). clear Ht Hc.
      induction l as [|d l IH]; [constructor|].
      apply list.NoDup_cons in Hn as [Hd Hn]. rewrite filter_cons.
      destruct (decide (c_free d = false)); cbn; [|by apply IH].
      apply list.NoDup_cons. split; [|by apply IH].
      intros (x & Hx & Hin)%list_elem_of_fmap. apply Hd. rewrite Hx.
      apply list_elem_of_fmap_2. by apply list_elem_of_filter in Hin as [_ ?].
    + apply list_elem_of_fmap. exists c. split; [done|]. by apply list_elem_of_filter.
Qed.

Lemma live_lookup st b m :
  wf st -> live st !! b = Some m <->
    exists c, c ∈ mm_chunks st /\ c_free c = false /\ c_addr c = b /\ c_size c = m.
Proof. intros Hw. eapply live_chunks, Hw. Qed.

Lemma taken_free r c d : d ∈ taken r c -> c_free d = true ->
  d = Chunk (u64 (c_addr c + r)) (u64 (c_size c - r)) true /\ r < c_size c.
Proof.
  unfold taken. destruct (Z.ltb_spec r (c_size c)); [|set_solver].
  intros [->|[->|[]%elem_of_nil]%elem_of_cons]%elem_of_cons; done.
Qed.

Lemma taken_held r c d : d ∈ taken r c -> c_free d = false ->
  c_addr d = c_addr c /\ c_size d = granted r c.
Proof.
  unfold taken, granted. destruct (Z.ltb_spec r (c_size c)).
  - intros [->|[->|[]%elem_of_nil]%elem_of_cons]%elem_of_cons; done.
  - by intros ->%list_elem_of_singleton.
Qed.

Lemma taken_has r c : exists d, d ∈ taken r c /\ c_free d = false /\
  c_addr d = c_addr c /\ c_size d = granted r c.
Proof.
  unfold taken, granted. destruct (Z.ltb_spec r (c_size c)); (eexists; split; [left|done]).
Qed.

Lemma split_apart a l1 c l2 e b m :
  tiles a (l1 ++ c :: l2) e -> c_free c = true ->
  (exists d, d ∈ l1 ++ c :: l2 /\ c_free d = false /\ c_addr d = b /\ c_size d = m) ->
  apart (c_addr c) (c_size c) b m.
Proof.
  intros Ht Hc (d & Hd & Hf & <- & <-). eapply tiles_apart; [exact Ht|].
  apply elem_of_app in Hd as [Hd|[->|Hd]%elem_of_cons]; [set_solver|congruence|set_solver].
Qed.

(** A request that is served. *)
Lemma allocate_some n st l1 c l2 :
  wf st -> 0 < n <= 2 ^ 64 - 4096 -> mm_chunks st = l1 ++ c :: l2 -> c_free c = true ->
  rounded_size n <= c_size c ->
  let r := rounded_size n in
  let st' := set_chunks st (l1 ++ taken r c ++ l2) in
  wf st' /\ live st' = <[c_addr c := granted r c]> (live st) /\
  r <= granted r c <= c_size c.
Proof.
  intros Hw Hn Hl Hf Hr r st'. destruct (rounded_size_spec n Hn) as [Hrn _]. fold r in Hr, Hrn.
  assert (Hg : r <= granted r c <= c_size c)
    by (unfold granted; destruct (Z.ltb_spec r (c_size c)); lia).
  pose proof (wf_tiles _ Hw) as Ht. rewrite Hl in Ht. pose proof (wf_base _ Hw).
  pose proof (wf_top _ Hw).
  assert (Ht' : tiles (mm_base st) (mm_chunks st') (mm_base st + mm_size st)).
  { cbn. apply tiles_app in Ht as (m & H1 & H2). apply tiles_app. exists m. split; [done|].
    apply tiles_le in H1. apply taken_tiles; (lia || done). }
  assert (Hw' : wf st').
  { split; try done. intros d Hd Hfd. cbn in Hd.
    apply elem_of_app in Hd as [Hd|[Hd|Hd]%elem_of_app].
    - apply (wf_zero _ Hw); [rewrite Hl; set_solver|done].
    - destruct (taken_free _ _ _ Hd Hfd) as [-> Hlt].
      pose proof (tiles_elem _ _ _ c Ht ltac:(set_solver)).
      intros x. cbn. rewrite !u64_small by lia. intros Hx.
      apply (wf_zero _ Hw c); [rewrite Hl; set_solver|done|lia].
    - apply (wf_zero _ Hw); [rewrite Hl; set_solver|done]. }
  split; [done|]. split; [|done]. apply map_eq. intros b. apply option_eq. intros m.
  rewrite lookup_insert_Some, !live_lookup by done. cbn. rewrite Hl.
  assert (Haddr : forall d, d ∈ l1 ++ l2 -> c_addr d <> c_addr c).
  { intros d Hd E. pose proof (tiles_apart _ _ _ _ _ _ Ht Hd) as Ha.
    pose proof (tiles_elem _ _ _ c Ht ltac:(set_solver)).
    pose proof (tiles_elem _ _ _ d Ht ltac:(set_solver)). unfold apart in Ha. lia. }
  split.
  - intros (d & Hd & Hfd & <- & <-).
    apply elem_of_app in Hd as [Hd|[Hd|Hd]%elem_of_app].
    + right. split; [intros E; by apply (Haddr d); [set_solver|]|].
      exists d. split; [set_solver|done].
    + destruct (taken_held _ _ _ Hd Hfd) as [-> ->]. by left.
    + right. split; [intros E; by apply (Haddr d); [set_solver|]|].
      exists d. split; [set_solver|done].
  - intros [[<- <-]|[Hne (d & Hd & Hfd & <- & <-)]].
    + destruct (taken_has r c) as (d & Hd & ?). exists d. split; [set_solver|done].
    + exists d. split; [|done].
      apply elem_of_app in Hd as [Hd|[->|Hd]%elem_of_cons]; [set_solver|congruence|set_solver].
Qed.

(** *** [free] *)

(** Every chunk at the address is zeroed and becomes free. *)
Lemma free_chunks_spec ptr mem l :
  free_chunks ptr mem l =
    (fold_left (fun m c => if c_addr c =? ptr then memset m (c_addr c) 0 (c_size c) else m)
       l mem,
     (fun c => if c_addr c =? ptr then Chunk (c_addr c) (c_size c) true else c) <$> l).
Proof.
  revert mem. induction l as [|c l IH]; intros mem; [done|].
  cbn [free_chunks fmap list_fmap fold_left]. unfold free_chunk.
  destruct (c_addr c =? ptr); by rewrite IH.
Qed.

Definition released (ptr : Z) (c : MemChunk) : MemChunk :=
  if c_addr c =? ptr then Chunk (c_addr c) (c_size c) true else c.

Lemma released_tiles ptr a l e : tiles a l e -> tiles a (released ptr <$> l) e.
Proof.
  revert a. induction l as [|c l IH]; intros a; cbn; [done|].
  intros (? & ? & ?). unfold released at 1 2 3.
  destruct (c_addr c =? ptr); cbn; (split; [done|]); (split; [done|]); by apply IH.
Qed.

(** Which bytes [free] clears: those of the chunk at the address. *)
Lemma cleared_byte ptr l mem x :
  let mem' := fold_left (fun m c =>
    if c_addr c =? ptr then memset m (c_addr c) 0 (c_size c) else m) l mem in
  (mem' x = mem x \/ mem' x = 0) /\
  (mem x = 0 -> mem' x = 0) /\
  (forall c, c ∈ l -> c_addr c = ptr -> c_addr c <= x < c_addr c + c_size c -> mem' x = 0) /\
  (mem' x <> mem x -> exists c, c ∈ l /\ c_addr c = ptr /\ c_addr c <= x < c_addr c + c_size c).
Proof.
  cbv zeta. revert mem. induction l as [|c l IH]; intros mem; cbn [fold_left].
  { split; [by left|]. split; [done|]. split; [set_solver|done]. }
  set (m1 := if c_addr c =? ptr then _ else _). destruct (IH m1) as (H1 & H2 & H3 & H4).
  assert (Hm : m1 x = mem x \/
    (m1 x = 0 /\ c_addr c = ptr /\ c_addr c <= x < c_addr c + c_size c)).
  { unfold m1. destruct (Z.eqb_spec (c_addr c) ptr); [|by left]. unfold memset.
    destruct (Z.leb_spec (c_addr c) x), (Z.ltb_spec x (c_addr c + c_size c)); cbn; auto. }
  split; [|split; [|split]].
  - destruct Hm as [<-|[E _]]; [done|]. right. by apply H2.
  - intros E. apply H2. destruct Hm as [->|[? _]]; done.
  - intros d [->|Hd]%elem_of_cons Ep Hx; [|by eapply H3].
    apply H2. unfold m1. rewrite Ep, Z.eqb_refl. unfold memset. rewrite <- Ep.
    by rewrite (proj2 (Z.leb_le _ _)), (proj2 (Z.ltb_lt _ _)) by lia.
  - intros Hne. destruct Hm as [E|(_ & ? & ?)].
    + destruct H4 as (d & Hd & ?); [by rewrite E|]. exists d. split; [set_solver|done].
    + exists c. split; [set_solver|done].
Qed.

Lemma free_spec ptr st :
  wf st ->
  wf (free ptr st) /\ live (free ptr st) = delete ptr (live st) /\
  (forall b m x, live st !! b = Some m -> b <= x < b + m ->
     mm_mem (free ptr st) x = if b =? ptr then 0 else mm_mem st x).
Proof.
  intros Hw. unfold free. rewrite free_chunks_spec. fold (released ptr).
  pose proof (wf_tiles _ Hw) as Ht.
  set (mem' := fold_left _ _ _).
  assert (Hb := fun x => cleared_byte ptr (mm_chunks st) (mm_mem st) x). cbv zeta in Hb.
  fold mem' in Hb.
  set (st' := Manager _ _ _ _).
  assert (Hw' : wf st').
  { split; cbn; [apply Hw|apply Hw|by apply released_tiles|].
    intros c' (c & -> & Hc)%list_elem_of_fmap Hf x Hx. unfold released in *.
    destruct (Hb x) as (_ & H2 & H3 & _).
    destruct (Z.eqb_spec (c_addr c) ptr); [by eapply H3|]. apply H2.
    by apply (wf_zero _ Hw c). }
  split; [done|]. split.
  - apply map_eq. intros b. apply option_eq. intros m.
    rewrite lookup_delete_Some, !live_lookup by done. cbn. split.
    + intros (c' & (c & -> & Hc)%list_elem_of_fmap & Hf & Ha & Hs). unfold released in *.
      destruct (Z.eqb_spec (c_addr c) ptr); [done|]. split; [congruence|]. by exists c.
    + intros (Hne & c & Hc & Hf & Ha & Hs). exists c. split; [|done].
      apply list_elem_of_fmap. exists c. split; [|done]. unfold released.
      destruct (Z.eqb_spec (c_addr c) ptr); congruence.
  - intros b m x (c & Hc & Hf & <- & <-)%live_lookup Hx; [|done].
    destruct (Hb x) as (H1 & H2 & H3 & H4). cbn.
    destruct (Z.eqb_spec (c_addr c) ptr) as [E|E]; [by eapply H3|].
    destruct (Z.eq_dec (mem' x) (mm_mem st x)) as [|Hne]; [done|].
    destruct (H4 Hne) as (d & Hd & Ed & Hxd).
    exfalso. assert (c_addr c <> c_addr d) as Hcd by congruence.
    apply list_elem_of_split in Hc as (l1 & l2 & El). rewrite El in Ht, Hd.
    assert (Hd' : d ∈ l1 ++ l2).
    { apply elem_of_app in Hd as [Hd|[->|Hd]%elem_of_cons]; [set_solver|done|set_solver]. }
    pose proof (tiles_apart _ _ _ _ _ _ Ht Hd') as Hap. unfold apart in Hap. lia.
Qed.

(** *** A run of the manager *)

Definition step (o : op) (st : MemoryManager) : Z * MemoryManager :=
  match o with
  | OpAllocate cas n => allocate cas n st
  | OpFree ptr => (0, free ptr st)
  | OpStore a v => (0, store a v st)
  end.

Lemma grants_chunk base size st l1 c l2 n m :
  wf st -> mm_base st = base -> mm_size st = size -> mm_chunks st = l1 ++ c :: l2 ->
  c_free c = true -> n <= m < n + 4096 -> m <= c_size c ->
  grants base size (live st) n (c_addr c) m.
Proof.
  intros Hw <- <- Hl Hf Hm Hc. pose proof (wf_tiles _ Hw) as Ht.
  rewrite Hl in Ht. pose proof (tiles_elem _ _ _ c Ht ltac:(set_solver)) as Hin.
  split; [done|]. split; [lia|]. split; [lia|]. intros b k Hb.
  apply live_lookup in Hb; [|done]. rewrite Hl in Hb.
  pose proof (split_apart _ _ _ _ _ _ _ Ht Hf Hb) as Ha. unfold apart in *. lia.
Qed.

Lemma store_wf a v st b m :
  wf st -> live st !! b = Some m -> b <= a < b + m -> wf (store a v st).
Proof.
  intros Hw Hb Ha. split; [apply Hw..|]. intros c Hc Hf x Hx. cbn in *. unfold memset.
  apply live_lookup in Hb as (d & Hd & Hfd & <- & <-); [|done].
  assert (Hne : x <> a).
  { intros ->. apply list_elem_of_split in Hc as (l1 & l2 & El).
    pose proof (wf_tiles _ Hw) as Ht. rewrite El in Ht, Hd.
    pose proof (split_apart _ _ _ _ _ (c_addr d) (c_size d) Ht Hf
      ltac:(by exists d)) as Hap. unfold apart in Hap. lia. }
  destruct (Z.leb_spec a x), (Z.ltb_spec x (a + 1)); cbn; try lia;
    by apply (wf_zero _ Hw c).
Qed.

Lemma allocate_exact cas n st a l' :
  wf st -> 0 < n <= 2 ^ 64 - 4096 ->
  acquire_chunk cas 0 (rounded_size n) (mm_chunks st) = Some (a, l') ->
  exists l1 c l2, mm_chunks st = l1 ++ c :: l2 /\ c_free c = true /\ a = c_addr c /\
    rounded_size n <= c_size c /\ wf (set_chunks st l') /\
    live (set_chunks st l') = <[a := rounded_size n]> (live st) /\
    (forall j d, l1 !! j = Some d -> passed cas (rounded_size n) j d) /\ cas (length l1) = true.
Proof.
  intros Hw Hn Ha.
  destruct (acquire_chunk_some _ _ _ _ _ _ Ha) as (l1 & c & l2 & Hl & -> & Hf & Hr & -> & Hp & Hc).
  destruct (allocate_some n st l1 c l2 Hw Hn Hl Hf Hr) as (Hw' & Hlive & Hg).
  exists l1, c, l2. do 5 (split; [done|]). split; [|done].
  rewrite Hlive. f_equal. unfold granted in *.
  destruct (Z.ltb_spec (rounded_size n) (c_size c)); lia.
Qed.

Lemma step_refines o st :
  wf st -> allowed o (live st) ->
  let '(r, st') := step o st in
  wf st' /\ mm_base st' = mm_base st /\ mm_size st' = mm_size st /\
  spec_step (mm_base st) (mm_size st) (live st) (mm_mem st) o r (live st') (mm_mem st').
Proof.
  intros Hw Ho. destruct o as [cas n|ptr|a v]; cbn [step].
  - unfold allocate. destruct (acquire_chunk _ _ _ _) as [[a l']|] eqn:E.
    2: { do 3 (split; [done|]). constructor. }
    destruct (allocate_exact _ _ _ _ _ Hw Ho E)
      as (l1 & c & l2 & Hl & Hf & -> & Hr & Hw' & Hlive & _).
    do 3 (split; [done|]). rewrite Hlive. cbn [mm_mem set_chunks].
    destruct (rounded_size_spec n Ho) as [Hrn _].
    pose proof (wf_tiles _ Hw) as Ht. rewrite Hl in Ht.
    pose proof (tiles_elem _ _ _ c Ht ltac:(set_solver)). pose proof (wf_base _ Hw).
    constructor; [lia|by eapply grants_chunk|].
    intros x Hx. apply (wf_zero _ Hw c); [rewrite Hl; set_solver|done|lia].
  - destruct (free_spec ptr st Hw) as (Hw' & Hlive & Hm).
    split; [done|]. unfold free. destruct (free_chunks _ _ _) eqn:E.
    do 2 (split; [done|]). assert (Hfe : free ptr st = Manager (mm_base st) (mm_size st) l z)
      by (unfold free; by rewrite E). rewrite <- Hfe, Hlive. constructor.
    intros b m x Hb Hx. apply lookup_delete_Some in Hb as [Hne Hb].
    rewrite (Hm b m x Hb Hx). by rewrite (proj2 (Z.eqb_neq b ptr)).
  - destruct Ho as (b & m & Hb & Ha). split; [by eapply store_wf|].
    do 2 (split; [done|]). constructor.
Qed.

#[export] Instance manager_allocator : Allocator MemoryManager := {|
  al_base := mm_base;
  al_size := mm_size;
  al_live := live;
  al_mem := mm_mem;
  al_ok := wf;
  al_step := step;
  al_refines := step_refines |}.

Lemma new_manager_wf base size mem :
  0 < base -> 0 < size -> base + size < 2 ^ 64 -> wf (new_manager base size mem).
Proof.
  intros Hb Hs Ht. split; [done|done|by cbn|].
  intros c ->%list_elem_of_singleton _ x Hx. cbn in *. unfold memset.
  by rewrite (proj2 (Z.leb_le _ _)), (proj2 (Z.ltb_lt _ _)) by lia.
Qed.

Lemma new_manager_live base size mem : live (new_manager base size mem) = ∅.
Proof. done. Qed.

(** *** Alignment and fragmentation *)

(** All chunks start a whole number of pages after the base. *)
Definition aligned (st : MemoryManager) : Prop :=
  forall c, c ∈ mm_chunks st -> (c_addr c - mm_base st) mod 4096 = 0.

Lemma step_aligned o st :
  wf st -> allowed o (live st) -> aligned st -> aligned (snd (step o st)).
Proof.
  intros Hw Ho Hal. destruct o as [cas n|ptr|a v]; cbn [step snd]; [| |done].
  - unfold allocate. destruct (acquire_chunk _ _ _ _) as [[a l']|] eqn:E; [|done].
    destruct (acquire_chunk_some _ _ _ _ _ _ E) as (l1 & c & l2 & Hl & -> & Hf & Hr & -> & _).
    intros d Hd. cbn in Hd |- *.
    assert (Hc : (c_addr c - mm_base st) mod 4096 = 0) by (apply Hal; rewrite Hl; set_solver).
    pose proof (wf_tiles _ Hw) as Ht. rewrite Hl in Ht.
    pose proof (tiles_elem _ _ _ c Ht ltac:(set_solver)).
    pose proof (wf_base _ Hw). pose proof (wf_top _ Hw).
    cbn [allowed] in Ho. destruct (rounded_size_spec n Ho) as [Hrn Hr0].
    apply elem_of_app in Hd as [Hd|[Hd|Hd]%elem_of_app];
      [apply Hal; rewrite Hl; set_solver| |apply Hal; rewrite Hl; set_solver].
    destruct (c_free d) eqn:Ed.
    + destruct (taken_free _ _ _ Hd Ed) as [-> Hlt]. cbn [c_addr c_size]. rewrite u64_small by lia.
      zdivmod.
    + by destruct (taken_held _ _ _ Hd Ed) as [-> _].
  - unfold free. rewrite free_chunks_spec. intros c' Hc'. cbn in *.
    apply list_elem_of_fmap in Hc' as (c & -> & Hc).
    destruct (c_addr c =? ptr); cbn [c_addr]; by apply Hal.
Qed.

Lemma step_sizes o st r :
  wf st -> allowed o (live st) -> (forall c, c ∈ mm_chunks st -> c_size c < r) ->
  forall c, c ∈ mm_chunks (snd (step o st)) -> c_size c < r.
Proof.
  intros Hw Ho Hs. destruct o as [cas n|ptr|a v]; cbn [step snd]; [| |done].
  - unfold allocate. destruct (acquire_chunk _ _ _ _) as [[a l']|] eqn:E; [|done].
    destruct (acquire_chunk_some _ _ _ _ _ _ E) as (l1 & c & l2 & Hl & -> & Hf & Hr & -> & _).
    intros d Hd. cbn in Hd.
    assert (Hc : c_size c < r) by (apply Hs; rewrite Hl; set_solver).
    pose proof (wf_tiles _ Hw) as Ht. rewrite Hl in Ht.
    pose proof (tiles_elem _ _ _ c Ht ltac:(set_solver)).
    pose proof (wf_base _ Hw). pose proof (wf_top _ Hw).
    cbn [allowed] in Ho. destruct (rounded_size_spec n Ho) as [Hrn _].
    apply elem_of_app in Hd as [Hd|[Hd|Hd]%elem_of_app];
      [apply Hs; rewrite Hl; set_solver| |apply Hs; rewrite Hl; set_solver].
    destruct (c_free d) eqn:Ed.
    + destruct (taken_free _ _ _ Hd Ed) as [-> Hlt]. cbn [c_addr c_size]. rewrite u64_small by lia. lia.
    + destruct (taken_held _ _ _ Hd Ed) as [_ ->]. unfold granted. destruct (_ <? _); lia.
  - unfold free. rewrite free_chunks_spec. intros c' Hc'. cbn in *.
    apply list_elem_of_fmap in Hc' as (c & -> & Hc).
    destruct (c_addr c =? ptr); cbn [c_size]; by apply Hs.
Qed.

(** ** Properties *)

(** C3: any sequence of requests of a well-behaved client is answered as the
    abstract allocator may: a block that is returned lies in the region, is at
    least as large as asked for and at most a page larger, is apart from every
    block in use and reads as zero; freeing touches no other block.  This holds
    for every behaviour of the weak compare-and-exchange. *)
Theorem manager_refines_allocator base size mem ops :
  0 < base -> 0 < size -> base + size < 2 ^ 64 ->
  allowed_run ops (new_manager base size mem) ->
  let '(tr, st) := run ops (new_manager base size mem) in
  wf st /\ spec_run base size ∅ (memset mem base 0 size) tr (live st) (mm_mem st).
Proof.
  intros Hb Hs Ht Ha.
  pose proof (run_refines ops (new_manager base size mem)
    (new_manager_wf base size mem Hb Hs Ht) Ha) as Hr.
  destruct (run ops _) as [tr st]. by destruct Hr as (Hw & _ & _ & Hr).
Qed.

(** C35: [allocate] takes the free chunk with the lowest address among those that
    are large enough and for which the compare-and-exchange, which may fail
    without reason, succeeds; and it fails, changing nothing, exactly when there
    is none.  Nothing else than the one chunk changes hands. *)
Theorem allocate_first_fit cas n st :
  wf st -> 0 < n <= 2 ^ 64 - 4096 ->
  let fits j d := mm_chunks st !! j = Some d /\ c_free d = true /\ rounded_size n <= c_size d /\ cas j = true in
  let '(a, st') := allocate cas n st in
  (a = 0 /\ st' = st /\ forall j d, ~ fits j d) \/
  (exists j c, fits j c /\ a = c_addr c /\ (forall j' d, fits j' d -> c_addr c <= c_addr d) /\
     live st' = <[a := rounded_size n]> (live st)).
Proof.
  intros Hw Hn. cbv zeta. unfold allocate. destruct (acquire_chunk _ _ _ _) as [[a l']|] eqn:E.
  - right. destruct (allocate_exact _ _ _ _ _ Hw Hn E)
      as (l1 & c & l2 & Hl & Hf & -> & Hr & _ & Hlive & Hp & Hc).
    exists (length l1), c. split; [split; [by rewrite Hl, list_lookup_middle|done]|].
    split; [done|]. split; [|done].
    intros j d (Hd & Hfd & Hrd & Hcd). pose proof (wf_tiles _ Hw) as Ht. rewrite Hl in Ht, Hd.
    apply tiles_app in Ht as (m & H1 & H2).
    pose proof (tiles_elem _ _ _ c H2 ltac:(set_solver)).
    apply lookup_app_Some in Hd as [Hd|[_ Hd]].
    + destruct (Hp j d Hd) as [?|[?|?]]; [congruence|lia|congruence].
    + destruct H2 as (E2 & _ & H3). apply list_elem_of_lookup_2, elem_of_cons in Hd as [->|Hd]; [done|].
      pose proof (tiles_elem _ _ _ d H3 Hd). lia.
  - left. do 2 (split; [done|]). intros j d (Hj & Hfd & Hrd & Hcd).
    destruct (acquire_chunk_none _ _ _ _ E j d Hj) as [?|[?|Hf]]; [congruence|lia|].
    change (cas j = false) in Hf. congruence.
Qed.

(** Every address the manager returns is a whole number of pages after the
    base of the region. *)
Theorem allocate_aligned base size mem ops cas n :
  0 < base -> 0 < size -> base + size < 2 ^ 64 ->
  allowed_run ops (new_manager base size mem) ->
  let st := snd (run ops (new_manager base size mem)) in
  fst (allocate cas n st) <> 0 -> (fst (allocate cas n st) - base) mod 4096 = 0.
Proof.
  intros Hb Hs Ht Ha st Hnz.
  destruct (run_invariant (fun s => aligned s /\ mm_base s = base) ops _
    ltac:(intros o s1 Hw Ho [Hal Hba]; change (al_step o s1) with (step o s1); split; [by apply step_aligned|];
          pose proof (step_refines o s1 Hw Ho) as Hr; destruct (step o s1);
          destruct Hr as (_ & Hr & _); cbn [snd]; by rewrite Hr)
    (new_manager_wf base size mem Hb Hs Ht) Ha) as [_ [Hal Hba]].
  { split; [|done]. intros c ->%list_elem_of_singleton. cbn. by rewrite Z.sub_diag. }
  fold st in Hal, Hba. unfold allocate in *.
  destruct (acquire_chunk _ _ _ _) as [[a l']|] eqn:E; [|done]. cbn [fst].
  destruct (acquire_chunk_some _ _ _ _ _ _ E) as (l1 & c & l2 & Hl & -> & _).
  rewrite <- Hba. apply Hal. rewrite Hl. set_solver.
Qed.

(** Memory that was split is never put together again: once every chunk is
    smaller than a request, that request fails for ever, however much of the
    memory is freed. *)
Theorem fragmentation_is_permanent ops cas n st :
  wf st -> allowed_run ops st ->
  (forall c, c ∈ mm_chunks st -> c_size c < rounded_size n) ->
  fst (allocate cas n (snd (run ops st))) = 0.
Proof.
  intros Hw Ha Hs.
  destruct (run_invariant (fun s => forall c, c ∈ mm_chunks s -> c_size c < rounded_size n)
    ops st ltac:(intros o s1 Hw1 Ho1 Hs1; exact (step_sizes o s1 _ Hw1 Ho1 Hs1)) Hw Ha Hs) as [_ Hs'].
  unfold allocate. destruct (acquire_chunk _ _ _ _) as [[a l']|] eqn:E; [|done].
  destruct (acquire_chunk_some _ _ _ _ _ _ E) as (l1 & c & l2 & Hl & _ & _ & Hr & _).
  specialize (Hs' c ltac:(rewrite Hl; set_solver)). lia.
Qed.

(** A request of no bytes (or one so large that rounding it up overflows)
    returns the address of a free chunk without taking any of it: the next
    request gets the same address. *)
Theorem empty_request_aliases st c l n m :
  wf st -> mm_chunks st = c :: l -> c_free c = true -> rounded_size n = 0 ->
  0 < m <= 2 ^ 64 - 4096 -> rounded_size m <= c_size c ->
  let '(a1, st1) := allocate (fun _ => true) n st in
  let '(a2, _) := allocate (fun _ => true) m st1 in
  a1 = c_addr c /\ a2 = a1.
Proof.
  intros Hw Hl Hf Hn Hm Hr. pose proof (wf_tiles _ Hw) as Ht. rewrite Hl in Ht.
  pose proof (tiles_elem _ _ _ c Ht ltac:(set_solver)) as Hc.
  pose proof (wf_base _ Hw). pose proof (wf_top _ Hw).
  unfold allocate at 1. rewrite Hl, Hn. cbn [acquire_chunk]. rewrite Hf.
  rewrite (proj2 (Z.leb_le 0 (c_size c))), (proj2 (Z.ltb_lt 0 (c_size c))) by lia.
  cbn [andb].
  unfold allocate, set_chunks. cbn [mm_chunks acquire_chunk c_free c_size c_addr andb].
  rewrite Z.add_0_r, Z.sub_0_r, !u64_small by lia.
  rewrite (proj2 (Z.leb_le (rounded_size m) (c_size c))) by lia. cbn [andb].
  by destruct (rounded_size m <? c_size c).
Qed.

(** ** An example region of two pages *)

Definition region : MemoryManager := new_manager 0x10000 0x2000 (fun _ => 7).
Definition always (_ : nat) : bool := true.
Definition fill : list op :=
  [OpAllocate always 100; OpAllocate always 4096; OpFree 0x10000; OpFree 0x11000].

Lemma fill_allowed : allowed_run fill region.
Proof. repeat split; discriminate. Qed.

Lemma manager_refines_allocator_witness :
  fst (run fill region) = zip fill [0x10000; 0x11000; 0; 0] /\
  let '(tr, st) := run fill region in
  wf st /\ spec_run 0x10000 0x2000 ∅ (memset (fun _ => 7) 0x10000 0 0x2000) tr (live st)
    (mm_mem st).
Proof.
  split; [reflexivity|].
  apply (manager_refines_allocator 0x10000 0x2000 (fun _ => 7) fill);
    [reflexivity|reflexivity|reflexivity|exact fill_allowed].
Defined.

Lemma region_wf : wf region.
Proof. by apply new_manager_wf. Qed.

(** The first exchange on the whole region works, or fails without reason. *)
Lemma allocate_first_fit_witness :
  let fits cas j d :=
    mm_chunks region !! j = Some d /\ c_free d = true /\ rounded_size 100 <= c_size d /\ cas j = true in
  let holds (cas : nat -> bool) :=
    let '(a, st') := allocate cas 100 region in
    (a = 0 /\ st' = region /\ forall j d, ~ fits cas j d) \/
    (exists j c, fits cas j c /\ a = c_addr c /\ (forall j' d, fits cas j' d -> c_addr c <= c_addr d) /\
       live st' = <[a := rounded_size 100]> (live region)) in
  holds always /\ holds (fun _ => false) /\
  fst (allocate always 100 region) = 0x10000 /\ fst (allocate (fun _ => false) 100 region) = 0.
Proof.
  split; [|split]; [apply (allocate_first_fit always 100 region region_wf)
    |apply (allocate_first_fit (fun _ => false) 100 region region_wf)|by split]; (split; [reflexivity|discriminate]).
Defined.

Lemma allocate_aligned_witness :
  (fst (allocate always 5 (snd (run [OpAllocate always 100] region))) - 0x10000) mod 4096 = 0.
Proof.
  apply (allocate_aligned 0x10000 0x2000 (fun _ => 7) [OpAllocate always 100] always 5);
    [reflexivity|reflexivity|reflexivity| |discriminate].
  repeat split; discriminate.
Defined.

Lemma fragmentation_witness :
  let st := snd (run fill region) in
  Forall (fun c => c_free c = true) (mm_chunks st) /\
  fst (allocate always 8192 (snd (run [OpFree 0x10000] st))) = 0.
Proof.
  pose proof (run_refines fill region region_wf fill_allowed) as Hr.
  split; [by repeat constructor|].
  apply (fragmentation_is_permanent [OpFree 0x10000] always 8192 (snd (run fill region))).
  - exact (proj1 Hr).
  - by split.
  - intros c Hc. repeat (apply elem_of_cons in Hc as [->|Hc]; [reflexivity|]).
    by apply elem_of_nil in Hc.
Defined.

Lemma empty_request_aliases_witness :
  rounded_size (2 ^ 64 - 1) = 0 /\
  let '(a1, st1) := allocate always (2 ^ 64 - 1) region in
  let '(a2, _) := allocate always 64 st1 in
  a1 = 0x10000 /\ a2 = a1.
Proof.
  split; [reflexivity|].
  apply (empty_request_aliases region (Chunk 0x10000 0x2000 true) [] (2 ^ 64 - 1) 64);
    [exact region_wf|reflexivity|reflexivity|reflexivity|split; [reflexivity|discriminate]
    |discriminate].
Defined.
