(* ===== verification/FpgaController.v ===== *)
(** * The benchmark controller of the host

    [sw/src/fpga/FpgaController.{h,cpp}]: register access through the mapped
    control BAR, and the methods that configure, run and read out a test.  The
    answers of the device and of mmap are the class [FpgaEnv], functions of
    what happened so far; every access must be inside a mapping.  What is
    printed is part of the trace; the bandwidth is kept as the numbers it is
    computed from. *)

From stdpp Require Import base gmap list numbers option.
From S2P Require Import Prelude CInt.
Open Scope Z_scope.

(** ** The world of the controller *)

Inductive fevent : Type :=
  | FMmap (fd size p : Z)
  | FMunmap (p size rc : Z)
  | FOpen (path fd : Z)
  | FClose (fd : Z)
  | FCalloc (n p : Z)
  | FIoctl (fd cmd : Z) (args : list Z) (rc : Z)
  | FLock
  | FUnlock
  | FWrite (ptr v : Z)
  | FRead (ptr v : Z)
  | FSleep
  | FPrintStatus (v : Z)
  | FPrintSpeed (rd : bool) (channel bytes mhz cycles : Z)
  | FPrintLatency (v : Z).

Definition fhist : Type := list fevent.

(** [host_big_endian]: which branch of the byte-order macros is compiled. *)
Class FpgaEnv : Type := {
  host_big_endian : bool;
  dev_read : fhist -> Z -> Z;
  os_mmap : fhist -> Z -> Z -> Z;          (* descriptor, size *)
  os_munmap : fhist -> Z -> Z;
  os_open : fhist -> Z -> Z;
  os_calloc : fhist -> Z -> Z;
  os_ioctl : fhist -> Z -> Z -> list Z -> Z;
  os_memory : fhist -> Z -> Z;             (* what fresh memory holds *)
}.

Record fstate : Type := FState {
  f_trace : fhist;
  f_maps : list (Z * Z);     (* start and size *)
}.

Definition fprog (A : Type) : Type := prog fstate A.

Definition flog (e : fevent) (s : fstate) : fstate := FState (f_trace s ++ [e]) (f_maps s).
Definition fdo (e : fevent) : fprog unit := modify_state (flog e).
Definition fask {A} (ans : fhist -> A) (e : A -> fevent) : fprog A :=
  fun s => let a := ans (f_trace s) in (Done a, flog (e a) s).

Definition within (ptr : Z) (m : Z * Z) : bool :=
  (m.1 <=? ptr) && (ptr + 4 <=? m.1 + m.2).
Definition touch (ptr : Z) : fprog unit :=
  let* s := get_state in require (existsb (within ptr) (f_maps s)) WildAccess.

Definition MAP_SIZE : Z := 32 * 1024.
Definition MAP_FAILED : Z := 2 ^ 64 - 1.
Definition userRegAddressOffset : Z := 0.

(** The register numbers, local constants of every method. *)
Definition resetAddr : Z := 0.
Definition workGroupSizeAddr : Z := 1.
Definition strideLengthAddr : Z := 2.
Definition numOpsAddrLower : Z := 3.
Definition numOpsAddrUpper : Z := 4.
Definition memBurstSizeAddr : Z := 5.
Definition initialAddrAddr : Z := 6.
Definition writeEnableAddr : Z := 7.
Definition readEnableAddr : Z := 8.
Definition latencyTestEnableAddr : Z := 9.
Definition hbmChannelAddr : Z := 10.
Definition startAddr : Z := 11.
Definition endWrAddr : Z := 12.
Definition endRdAddr : Z := 13.
Definition latTimerSumWrAddr : Z := 14.
Definition latTimerSumRdAddr : Z := 15.
Definition latTimerAddr : Z := 16.

Record FpgaController : Type := Controller {
  m_base : Z;
  by_base : Z;
}.

(** [__bswap_16]. *)
Definition bswap_16 (x : Z) : Z :=
  Z.lor (Z.shiftl (Z.land (u16 x) 0xff) 8) (Z.shiftr (u16 x) 8).

Section Controller.
Context `{FpgaEnv}.

Definition htols (x : Z) : Z := if host_big_endian then bswap_16 x else x.

(** [mmap] and [munmap] of [size] bytes. *)
Definition mmap (fd size : Z) : fprog Z :=
  let* p := fask (fun h => u64 (os_mmap h fd size)) (FMmap fd size) in
  (if p =? MAP_FAILED then pret tt
   else modify_state (fun s => FState (f_trace s) ((p, size) :: f_maps s)));;
  pret p.

Definition munmap (p size : Z) : fprog Z :=
  let* rc := fask (fun h => s32 (os_munmap h p)) (FMunmap p size) in
  (if rc =? -1 then pret tt
   else modify_state (fun s =>
          FState (f_trace s) (filter (fun m => m <> (p, size)) (f_maps s))));;
  pret rc.

(** The results are not checked. *)
Definition new_controller (fd byfd : Z) : fprog FpgaController :=
  let* m := mmap fd MAP_SIZE in
  let* b := mmap byfd MAP_SIZE in
  pret (Controller m b).

(** A failure is only reported. *)
Definition delete_controller (c : FpgaController) : fprog unit :=
  munmap (m_base c) MAP_SIZE;; munmap (by_base c) MAP_SIZE;; pret tt.

(** ** Register access *)

Definition reg_ptr (c : FpgaController) (addr : Z) : Z :=
  u64 (m_base c + userRegAddressOffset + u32 (Z.shiftl (u32 addr) 2)).

Definition writeReg (c : FpgaController) (addr value : Z) : fprog unit :=
  let wPtr := reg_ptr c addr in
  let writeVal := u32 (htols (u32 value)) in
  touch wPtr;; fdo (FWrite wPtr writeVal).

Definition readReg (c : FpgaController) (addr : Z) : fprog Z :=
  let rPtr := reg_ptr c addr in
  touch rPtr;;
  let* v := fask (fun h => u32 (dev_read h rPtr)) (FRead rPtr) in
  pret (u32 (htols v)).

(** ** Configuring and running a test *)

Definition configHBM (c : FpgaController)
    (workGroupSize numOps strideLength memBurstSize initialAddr hbmChannel : Z) : fprog unit :=
  fdo FLock;;
  writeReg c hbmChannelAddr hbmChannel;;
  writeReg c workGroupSizeAddr workGroupSize;;
  writeReg c strideLengthAddr strideLength;;
  writeReg c numOpsAddrLower (u32 numOps);;
  writeReg c numOpsAddrUpper (u32 (Z.shiftr numOps 32));;
  writeReg c memBurstSizeAddr memBurstSize;;
  writeReg c initialAddrAddr initialAddr;;
  writeReg c latencyTestEnableAddr 0;;
  fdo FUnlock.

Definition runHBMtest (c : FpgaController)
    (write_enable read_enable latency_test_enable hbmChannel
     workGroupSize numOps strideLength memBurstSize initialAddr : Z) : fprog unit :=
  fdo FLock;;
  writeReg c hbmChannelAddr hbmChannel;;
  writeReg c workGroupSizeAddr workGroupSize;;
  writeReg c strideLengthAddr strideLength;;
  writeReg c numOpsAddrLower (u32 numOps);;
  writeReg c numOpsAddrUpper (u32 (Z.shiftr numOps 32));;
  writeReg c memBurstSizeAddr memBurstSize;;
  writeReg c initialAddrAddr initialAddr;;
  writeReg c writeEnableAddr write_enable;;
  writeReg c readEnableAddr read_enable;;
  writeReg c latencyTestEnableAddr latency_test_enable;;
  writeReg c startAddr 1;;
  writeReg c startAddr 0;;
  fdo FUnlock.

(** The methods for the DDR board have the same text. *)
Definition configDDR := configHBM.
Definition runDDRtest := runHBMtest.

(** ** Reading the results *)

(** The loop that waits for the engines, one second per round; [fuel] bounds
    the rounds. *)
Fixpoint wait_done (c : FpgaController) (fuel : nat) (write_enable read_enable : Z)
    : fprog unit :=
  match fuel with
  | O => halt OutOfFuel
  | S fuel' =>
      fdo FSleep;;
      let* endWr := readReg c endWrAddr in
      fdo (FPrintStatus endWr);;
      let* endRd := readReg c endRdAddr in
      fdo (FPrintStatus endRd);;
      if negb (endWr =? write_enable) || negb (endRd =? read_enable)
      then wait_done c fuel' write_enable read_enable
      else pret tt
  end.

(** One direction of one channel: select it, read its cycle count, print the
    bandwidth [bytes * mhz / cycles / 1000]. *)
Definition print_speed (c : FpgaController) (rd : bool) (mhz numOps : Z)
    (memBurstSize : list Z) (i : Z) : fprog unit :=
  writeReg c hbmChannelAddr i;;
  let* sum := readReg c (if rd then latTimerSumRdAddr else latTimerSumWrAddr) in
  let* burst := nth_get memBurstSize i in
  fdo (FPrintSpeed rd i (u64 (burst * numOps)) mhz sum).

Definition print_speeds (c : FpgaController) (mhz write_enable read_enable numOps : Z)
    (memBurstSize : list Z) : fprog unit :=
  for_loop (R := Empty_set) 32 0 tt (fun i _ =>
    (if negb (Z.land (Z.shiftr write_enable i) 1 =? 0)
     then print_speed c false mhz numOps memBurstSize i else pret tt);;
    (if negb (Z.land (Z.shiftr read_enable i) 1 =? 0)
     then print_speed c true mhz numOps memBurstSize i else pret tt);;
    pret (inl tt));;
  pret tt.

(** The latency samples: at most 10000 are read into an array of 10000, and the
    first 100 of the array are printed. *)
Definition print_latencies (c : FpgaController) (numOps : Z) : fprog unit :=
  let numRegReadNum := if numOps <? 10000 then numOps else 10000 in
  let* r := for_loop (R := Empty_set) (Z.to_nat numRegReadNum) 0
              (replicate (Z.to_nat 10000) None) (fun i lat_time_arry =>
    let* latTimer := readReg c latTimerAddr in
    let* lat_time_arry := nth_set lat_time_arry i (Some latTimer) in
    pret (inl lat_time_arry)) in
  match r with
  | inr e => match e with end
  | inl lat_time_arry =>
      for_loop (R := Empty_set) 100 0 tt (fun i _ =>
        let* o := nth_get lat_time_arry i in
        let* v := init_get o in
        fdo (FPrintLatency v);;
        pret (inl tt));;
      pret tt
  end.

Definition read_data (mhz : Z) (c : FpgaController) (fuel : nat)
    (write_enable read_enable latency_test_enable hbmChannel numOps : Z)
    (memBurstSize : list Z) : fprog unit :=
  fdo FLock;;
  writeReg c hbmChannelAddr hbmChannel;;
  wait_done c fuel write_enable read_enable;;
  print_speeds c mhz write_enable read_enable numOps memBurstSize;;
  (if latency_test_enable =? 0 then pret tt else print_latencies c numOps);;
  fdo FUnlock.

Definition readHBMData := read_data 450.
Definition readDDRData := read_data 300.
End Controller.

(** ** Specifications *)

Definition emit (evs : fhist) (s : fstate) : fstate := FState (f_trace s ++ evs) (f_maps s).

Lemma emit_nil s : emit [] s = s.
Proof. unfold emit. rewrite app_nil_r. by destruct s. Qed.

Lemma emit_emit e1 e2 s : emit e2 (emit e1 s) = emit (e1 ++ e2) s.
Proof. unfold emit. cbn. by rewrite app_assoc. Qed.

Lemma flog_emit e evs s : flog e (emit evs s) = emit (evs ++ [e]) s.
Proof. unfold flog, emit. cbn. by rewrite <- app_assoc. Qed.

Section ControllerSpecs.
Context `{FpgaEnv}.
Implicit Types (s : fstate) (c : FpgaController).

(** The control BAR of the controller is mapped. *)
Definition mapped c s : Prop :=
  0 <= m_base c /\ m_base c + MAP_SIZE <= 2 ^ 64 /\ (m_base c, MAP_SIZE) ∈ f_maps s.

Definition reg_addr c (k : Z) : Z := m_base c + 4 * k.

Lemma reg_ptr_addr c k :
  0 <= m_base c -> m_base c + MAP_SIZE <= 2 ^ 64 -> 0 <= k < 8192 ->
  reg_ptr c k = reg_addr c k.
Proof.
  intros Hb Ht Hk. unfold reg_ptr, reg_addr, userRegAddressOffset, MAP_SIZE in *.
  rewrite Z.shiftl_mul_pow2 by done. rewrite (u32_small k) by lia.
  rewrite (u32_small (k * 2 ^ 2)) by lia. rewrite u64_small by lia. lia.
Qed.

Lemma touch_reg c k s :
  mapped c s -> 0 <= k < 8192 -> existsb (within (reg_addr c k)) (f_maps s) = true.
Proof.
  intros (Hb & Ht & Hm) Hk. apply existsb_exists. eexists. split; [by apply list_elem_of_In|].
  unfold within, reg_addr, MAP_SIZE in *. cbn. apply andb_true_iff.
  split; apply Z.leb_le; lia.
Qed.

Lemma wp_fdo {B} e evs s (k : unit -> fprog B) Q :
  wp (k tt) Q (emit (evs ++ [e]) s) -> wp (pbind (fdo e) k) Q (emit evs s).
Proof. intros Hk. apply wp_bind, wp_modify. by rewrite flog_emit. Qed.

Lemma wp_fdo_last e evs s (Q : unit -> fstate -> Prop) :
  Q tt (emit (evs ++ [e]) s) -> wp (fdo e) Q (emit evs s).
Proof. intros Hk. apply wp_modify. by rewrite flog_emit. Qed.

Lemma wp_writeReg {B} c k v evs s (f : unit -> fprog B) Q :
  host_big_endian = false -> mapped c s -> 0 <= k < 8192 ->
  wp (f tt) Q (emit (evs ++ [FWrite (reg_addr c k) (u32 v)]) s) ->
  wp (pbind (writeReg c k v) f) Q (emit evs s).
Proof.
  intros He Hm Hk Hf. apply wp_bind. unfold writeReg, htols. rewrite He, u32_u32.
  destruct Hm as (Hb & Ht & Hin) eqn:Em. rewrite reg_ptr_addr by done.
  apply wp_bind. unfold touch. apply wp_bind, wp_get. cbn [emit f_maps].
  apply wp_require; [by apply touch_reg|]. by apply wp_fdo_last.
Qed.

Lemma wp_readReg {B} c k evs s (f : Z -> fprog B) Q :
  host_big_endian = false -> mapped c s -> 0 <= k < 8192 ->
  (forall v, v = u32 (dev_read (f_trace s ++ evs) (reg_addr c k)) ->
     wp (f v) Q (emit (evs ++ [FRead (reg_addr c k) v]) s)) ->
  wp (pbind (readReg c k) f) Q (emit evs s).
Proof.
  intros He Hm Hk Hf. apply wp_bind. unfold readReg, htols. rewrite He.
  destruct Hm as (Hb & Ht & Hin) eqn:Em. rewrite reg_ptr_addr by done.
  apply wp_bind. unfold touch. apply wp_bind, wp_get. cbn [emit f_maps].
  apply wp_require; [by apply touch_reg|]. apply wp_bind. unfold wp at 1, fask. cbn [emit f_trace].
  rewrite u32_u32. fold (emit evs s). rewrite flog_emit.
  apply wp_ret, (Hf _ eq_refl).
Qed.

(** The register writes of the two methods, register number and value. *)
Definition config_writes (workGroupSize numOps strideLength memBurstSize initialAddr
    hbmChannel : Z) : list (Z * Z) :=
  [(hbmChannelAddr, u32 hbmChannel); (workGroupSizeAddr, u32 workGroupSize);
   (strideLengthAddr, u32 strideLength); (numOpsAddrLower, u32 numOps);
   (numOpsAddrUpper, u32 (Z.shiftr numOps 32)); (memBurstSizeAddr, u32 memBurstSize);
   (initialAddrAddr, u32 initialAddr); (latencyTestEnableAddr, 0)].

Definition run_writes (write_enable read_enable latency_test_enable hbmChannel
    workGroupSize numOps strideLength memBurstSize initialAddr : Z) : list (Z * Z) :=
  [(hbmChannelAddr, u32 hbmChannel); (workGroupSizeAddr, u32 workGroupSize);
   (strideLengthAddr, u32 strideLength); (numOpsAddrLower, u32 numOps);
   (numOpsAddrUpper, u32 (Z.shiftr numOps 32)); (memBurstSizeAddr, u32 memBurstSize);
   (initialAddrAddr, u32 initialAddr); (writeEnableAddr, u32 write_enable);
   (readEnableAddr, u32 read_enable); (latencyTestEnableAddr, u32 latency_test_enable);
   (startAddr, 1); (startAddr, 0)].

Definition locked_writes c (ws : list (Z * Z)) : fhist :=
  FLock :: ((fun w => FWrite (reg_addr c w.1) w.2) <$> ws) ++ [FUnlock].

Lemma configHBM_spec c wg n st bs ia ch evs s (Q : unit -> fstate -> Prop) :
  host_big_endian = false -> mapped c s ->
  Q tt (emit (evs ++ locked_writes c (config_writes wg n st bs ia ch)) s) ->
  wp (configHBM c wg n st bs ia ch) Q (emit evs s).
Proof.
  intros He Hm HQ. unfold configHBM. apply wp_fdo.
  do 8 (apply wp_writeReg; [done|done|done|]). apply wp_fdo_last.
  rewrite !u32_u32. by rewrite <- !app_assoc.
Qed.

Lemma runHBMtest_spec c we re lt ch wg n st bs ia evs s (Q : unit -> fstate -> Prop) :
  host_big_endian = false -> mapped c s ->
  Q tt (emit (evs ++ locked_writes c (run_writes we re lt ch wg n st bs ia)) s) ->
  wp (runHBMtest c we re lt ch wg n st bs ia) Q (emit evs s).
Proof.
  intros He Hm HQ. unfold runHBMtest. apply wp_fdo.
  do 12 (apply wp_writeReg; [done|done|done|]). apply wp_fdo_last.
  rewrite !u32_u32. by rewrite <- !app_assoc.
Qed.

(** *** Waiting *)

(** One round of the loop, and several. *)
Definition round_events c (endWr endRd : Z) : fhist :=
  [FSleep; FRead (reg_addr c endWrAddr) endWr; FPrintStatus endWr;
   FRead (reg_addr c endRdAddr) endRd; FPrintStatus endRd].
Definition polls c (vs : list (Z * Z)) : fhist :=
  concat ((fun v => round_events c v.1 v.2) <$> vs).

Lemma polls_snoc c vs v : polls c (vs ++ [v]) = polls c vs ++ round_events c v.1 v.2.
Proof. unfold polls. by rewrite fmap_app, concat_app. Qed.

(** When the loop begins after the history [h], the device shows the expected
    status in its round [n] and in the later ones. *)
Definition finishes c (h : fhist) (n : nat) (we re : Z) : Prop :=
  forall vs v, (n <= S (length vs))%nat ->
    u32 (dev_read (h ++ polls c vs ++ [FSleep]) (reg_addr c endWrAddr)) = we /\
    u32 (dev_read (h ++ polls c vs ++ [FSleep; FRead (reg_addr c endWrAddr) v; FPrintStatus v])
      (reg_addr c endRdAddr)) = re.

(** The rounds before the last one did not show the expected status. *)
Definition waits c (we re : Z) (e : fhist) : Prop :=
  exists vs, e = polls c vs /\ Forall (fun v => v <> (we, re)) vs.

Lemma wait_rounds_spec c fuel we re evs vs s (Q : unit -> fstate -> Prop) n :
  host_big_endian = false -> mapped c s -> finishes c (f_trace s ++ evs) n we re ->
  (n <= length vs + fuel)%nat -> (1 <= fuel)%nat -> Forall (fun v => v <> (we, re)) vs ->
  (forall e, waits c we re e -> Q tt (emit (evs ++ e ++ round_events c we re) s)) ->
  wp (wait_done c fuel we re) Q (emit (evs ++ polls c vs) s).
Proof.
  intros He Hm Hf. revert vs. induction fuel as [|fuel IH]; intros vs Hn H1 Hvs HQ; [lia|].
  cbn [wait_done]. apply wp_fdo.
  apply wp_readReg; [done|done|done|]. intros v1 E1. apply wp_fdo.
  apply wp_readReg; [done|done|done|]. intros v2 E2. apply wp_fdo.
  replace ((((((evs ++ _) ++ _) ++ _) ++ _) ++ _) ++ _)
    with (evs ++ polls c (vs ++ [(v1, v2)])) by by rewrite polls_snoc, <- !app_assoc.
  destruct (decide ((v1, v2) = (we, re))) as [[= -> ->]|Hne].
  - rewrite !Z.eqb_refl. cbn [negb orb]. apply wp_ret. rewrite polls_snoc. apply HQ. by exists vs.
  - assert (Hb : negb (v1 =? we) || negb (v2 =? re) = true).
    { destruct (Z.eqb_spec v1 we), (Z.eqb_spec v2 re); try done. subst. done. }
    rewrite Hb. apply IH; [rewrite length_app; cbn; lia| | |done].
    + destruct fuel; [|lia]. exfalso. apply Hne.
      destruct (Hf vs v1 ltac:(lia)) as [F1 F2]. rewrite <- !app_assoc in E1, E2, F1, F2.
      rewrite <- !app_assoc in E2. cbn [app] in E1, E2. by rewrite E1, E2, F1, F2.
    + apply Forall_app_2; [done|by constructor].
Qed.

Lemma wait_done_spec c fuel we re evs s (Q : unit -> fstate -> Prop) n :
  host_big_endian = false -> mapped c s -> finishes c (f_trace s ++ evs) n we re ->
  (n <= fuel)%nat -> (1 <= fuel)%nat ->
  (forall e, waits c we re e -> Q tt (emit (evs ++ e ++ round_events c we re) s)) ->
  wp (wait_done c fuel we re) Q (emit evs s).
Proof.
  intros He Hm Hf Hn H1 HQ. rewrite <- (app_nil_r evs).
  by apply (wait_rounds_spec c fuel we re evs [] s Q n).
Qed.

(** *** Bandwidths *)

Lemma enable_bit m i : 0 <= i -> negb (Z.land (Z.shiftr m i) 1 =? 0) = Z.testbit m i.
Proof.
  intros Hi. rewrite (land_mask _ 1 1) by done. rewrite <- Z.bit0_mod, Z.shiftr_spec by lia.
  rewrite Z.add_0_l. by destruct (Z.testbit m i).
Qed.

(** What is read and printed for one direction of a channel. *)
Definition speed_events c (mhz numOps : Z) (bursts : list Z) (rd : bool) (i cycles : Z) : fhist :=
  [FWrite (reg_addr c hbmChannelAddr) (u32 i);
   FRead (reg_addr c (if rd then latTimerSumRdAddr else latTimerSumWrAddr)) cycles;
   FPrintSpeed rd i (u64 ((bursts !!! Z.to_nat i) * numOps)) mhz cycles].

(** The directions of channel [i] that are enabled, writing first. *)
Definition enabled (we re i : Z) : list (bool * Z) :=
  (if Z.testbit we i then [(false, i)] else []) ++ (if Z.testbit re i then [(true, i)] else []).

(** The report on a list of channels, each with the cycles it showed. *)
Fixpoint report c (mhz numOps : Z) (bursts : list Z) (chs : list (bool * Z)) (cs : list Z)
    : fhist :=
  match chs, cs with
  | (rd, i) :: chs', v :: cs' =>
      speed_events c mhz numOps bursts rd i v ++ report c mhz numOps bursts chs' cs'
  | _, _ => []
  end.

Lemma report_app c mhz numOps bursts chs1 cs1 chs2 cs2 :
  length chs1 = length cs1 ->
  report c mhz numOps bursts (chs1 ++ chs2) (cs1 ++ cs2) =
    report c mhz numOps bursts chs1 cs1 ++ report c mhz numOps bursts chs2 cs2.
Proof.
  revert cs1. induction chs1 as [|[rd i] chs1 IH]; intros [|v cs1]; try done.
  intros [= Hl]. cbn [report app]. by rewrite IH, app_assoc.
Qed.

Lemma print_speed_spec {B} c rd mhz numOps bursts i evs s (k : unit -> fprog B) Q :
  host_big_endian = false -> mapped c s -> 0 <= i < Z.of_nat (length bursts) ->
  (forall v, wp (k tt) Q (emit (evs ++ speed_events c mhz numOps bursts rd i v) s)) ->
  wp (pbind (print_speed c rd mhz numOps bursts i) k) Q (emit evs s).
Proof.
  intros He Hm Hi Hk. apply wp_bind. unfold print_speed.
  apply wp_writeReg; [done..|]. apply wp_readReg; [done|done|by destruct rd|]. intros v _.
  destruct (lookup_lt_is_Some_2 bursts (Z.to_nat i)) as [b Hb]; [lia|].
  rewrite (nth_get_ok _ _ b), pbind_ret by (done || lia). apply wp_fdo_last.
  specialize (Hk v). unfold speed_events in Hk.
  rewrite (list_lookup_total_correct _ _ _ Hb) in Hk. by rewrite <- !app_assoc.
Qed.

(** [if] a direction is enabled. *)
Lemma print_enabled_spec {B} c rd mhz numOps bursts m i evs s (k : unit -> fprog B) Q :
  host_big_endian = false -> mapped c s -> 0 <= i < Z.of_nat (length bursts) ->
  (forall cs, length cs = length (if Z.testbit m i then [(rd, i)] else []) ->
     wp (k tt) Q (emit (evs ++ report c mhz numOps bursts
       (if Z.testbit m i then [(rd, i)] else []) cs) s)) ->
  wp (pbind (if negb (Z.land (Z.shiftr m i) 1 =? 0) then print_speed c rd mhz numOps bursts i
             else pret tt) k) Q (emit evs s).
Proof.
  intros He Hm Hi Hk. rewrite enable_bit by lia. destruct (Z.testbit m i).
  - apply print_speed_spec; [done..|]. intros v. specialize (Hk [v] eq_refl).
    cbn [report] in Hk. by rewrite app_nil_r in Hk.
  - apply wp_bind, wp_ret. specialize (Hk [] eq_refl). cbn [report] in Hk.
    by rewrite app_nil_r in Hk.
Qed.

Lemma print_speeds_spec {B} c mhz we re numOps bursts evs s (k : unit -> fprog B) Q :
  host_big_endian = false -> mapped c s -> (32 <= length bursts)%nat ->
  (forall cs, length cs = length (flat_map (enabled we re) (seqZ 0 32)) ->
     wp (k tt) Q (emit (evs ++ report c mhz numOps bursts
       (flat_map (enabled we re) (seqZ 0 32)) cs) s)) ->
  wp (pbind (print_speeds c mhz we re numOps bursts) k) Q (emit evs s).
Proof.
  intros He Hm Hlen Hk. apply wp_bind. unfold print_speeds. apply wp_bind.
  apply (wp_for_loop (fun j (_ : unit) t => exists n cs, j = Z.of_nat n /\
    length cs = length (flat_map (enabled we re) (seqZ 0 (Z.of_nat n))) /\
    t = emit (evs ++ report c mhz numOps bursts
          (flat_map (enabled we re) (seqZ 0 (Z.of_nat n))) cs) s)).
  - exists 0%nat, []. by rewrite app_nil_r.
  - intros j [] t Hj (n & cs & -> & Hcs & ->).
    apply print_enabled_spec; [done|done|lia|]. intros c1 Hc1.
    apply print_enabled_spec; [done|done|lia|]. intros c2 Hc2. apply wp_ret.
    exists (S n), (cs ++ c1 ++ c2). split; [lia|].
    assert (E : flat_map (enabled we re) (seqZ 0 (Z.of_nat (S n))) =
      flat_map (enabled we re) (seqZ 0 (Z.of_nat n)) ++
      (if Z.testbit we (Z.of_nat n) then [(false, Z.of_nat n)] else []) ++
      (if Z.testbit re (Z.of_nat n) then [(true, Z.of_nat n)] else [])).
    { rewrite seqZ_S, flat_map_app, Z.add_0_l. cbn [flat_map]. by rewrite app_nil_r. }
    rewrite E, !length_app, Hcs, Hc1, Hc2. split; [done|].
    rewrite !report_app by done. by rewrite <- !app_assoc.
  - intros [] t (n & cs & Hn & Hcs & ->). assert (n = 32%nat) as -> by lia.
    apply wp_ret, Hk, Hcs.
Qed.
(** *** Latencies *)

Definition lat_reads c (vs : list Z) : fhist := FRead (reg_addr c latTimerAddr) <$> vs.

(** The array after the samples [vs] were read. *)
Definition lat_array (vs : list Z) : list (option Z) :=
  (Some <$> vs) ++ replicate (Z.to_nat 10000 - length vs) None.

Lemma lat_array_snoc vs v :
  (length vs < Z.to_nat 10000)%nat ->
  <[length vs := Some v]> (lat_array vs) = lat_array (vs ++ [v]).
Proof.
  intros Hl. unfold lat_array. rewrite insert_app_r_alt by (by rewrite length_fmap).
  rewrite length_fmap, Nat.sub_diag, fmap_app, length_app, <- app_assoc.
  replace (Z.to_nat 10000 - length vs)%nat
    with (S (Z.to_nat 10000 - (length vs + 1))) by lia. done.
Qed.

Lemma length_lat_array vs :
  (length vs <= Z.to_nat 10000)%nat -> length (lat_array vs) = Z.to_nat 10000.
Proof. intros Hl. unfold lat_array. rewrite length_app, length_fmap, length_replicate. lia. Qed.

Lemma lat_loop_spec c n evs s (Q : list (option Z) + Empty_set -> fstate -> Prop) :
  host_big_endian = false -> mapped c s -> (n <= Z.to_nat 10000)%nat ->
  (forall vs, length vs = n -> Q (inl (lat_array vs)) (emit (evs ++ lat_reads c vs) s)) ->
  wp (for_loop n 0 (replicate (Z.to_nat 10000) None) (fun i arr =>
        let* v := readReg c latTimerAddr in
        let* arr := nth_set arr i (Some v) in
        pret (inl arr))) Q (emit evs s).
Proof.
  intros He Hm Hn HQ.
  apply (wp_for_loop (fun j arr t => exists vs, j = Z.of_nat (length vs) /\
    arr = lat_array vs /\ t = emit (evs ++ lat_reads c vs) s)).
  - exists []. split; [done|]. split; [|by rewrite app_nil_r].
    unfold lat_array. by rewrite Nat.sub_0_r.
  - intros j arr t Hj (vs & -> & -> & ->). apply wp_readReg; [done..|]. intros v _.
    rewrite nth_set_ok, pbind_ret by (rewrite length_lat_array; lia).
    apply wp_ret. exists (vs ++ [v]). rewrite length_app. cbn. split; [lia|].
    rewrite Nat2Z.id, lat_array_snoc by lia. split; [done|].
    unfold lat_reads. by rewrite fmap_app, app_assoc.
  - intros arr t (vs & Hvs & -> & ->). apply HQ. lia.
Qed.

Lemma lat_array_lookup vs n :
  (n < Z.to_nat 10000)%nat -> lat_array vs !! n = Some (vs !! n).
Proof.
  intros Hn. unfold lat_array. destruct (vs !! n) as [v|] eqn:E.
  - apply lookup_app_l_Some. by rewrite list_lookup_fmap, E.
  - apply lookup_ge_None in E. rewrite lookup_app_r by (by rewrite length_fmap).
    rewrite length_fmap. apply lookup_replicate_2. lia.
Qed.

Definition lat_count (numOps : Z) : Z := Z.min numOps 10000.

Lemma print_latencies_spec c numOps evs s (Q : unit -> fstate -> Prop) :
  host_big_endian = false -> mapped c s -> 100 <= numOps ->
  (forall vs, length vs = Z.to_nat (lat_count numOps) ->
     Q tt (emit (evs ++ lat_reads c vs ++ (FPrintLatency <$> take 100 vs)) s)) ->
  wp (print_latencies c numOps) Q (emit evs s).
Proof.
  intros He Hm Hn HQ. unfold print_latencies. cbv zeta.
  replace (if numOps <? 10000 then numOps else 10000) with (lat_count numOps)
    by (unfold lat_count; destruct (Z.ltb_spec numOps 10000); lia).
  apply wp_bind, lat_loop_spec; [done|done|unfold lat_count; lia|].
  intros vs Hvs. apply wp_bind.
  apply (wp_for_loop (fun j (_ : unit) t => exists n, j = Z.of_nat n /\
    t = emit (evs ++ lat_reads c vs ++ (FPrintLatency <$> take n vs)) s)).
  - exists 0%nat. by rewrite app_nil_r.
  - intros j [] t Hj (n & -> & ->).
    destruct (lookup_lt_is_Some_2 vs n) as [v Hv]; [unfold lat_count in *; lia|].
    rewrite (nth_get_ok _ _ (Some v)), pbind_ret
      by (lia || (rewrite Nat2Z.id, lat_array_lookup by lia; by rewrite Hv)).
    cbn [init_get]. rewrite pbind_ret. apply wp_fdo, wp_ret. exists (S n). split; [lia|].
    by rewrite (take_S_r _ _ v), fmap_app, <- !app_assoc by done.
  - intros [] t (n & Hj & ->). assert (n = 100%nat) as -> by lia. apply wp_ret. by apply HQ.
Qed.

(** With fewer than 100 operations the loop prints entries of the array that
    were never written. *)
Lemma print_latencies_short c numOps evs s :
  host_big_endian = false -> mapped c s -> 0 <= numOps < 100 ->
  fst (print_latencies c numOps (emit evs s)) = Halt Undefined.
Proof.
  intros He Hm Hn. unfold print_latencies. cbv zeta.
  rewrite (proj2 (Z.ltb_lt numOps 10000)) by lia. unfold pbind at 1.
  match goal with |- context [for_loop (Z.to_nat numOps) ?i ?l ?b ?t] =>
    destruct (proj1 (wp_run (for_loop (Z.to_nat numOps) i l b)
      (fun o t1 => exists vs, length vs = Z.to_nat numOps /\ o = inl (lat_array vs) /\
         exists e1, t1 = emit e1 s) t)) as (o & t1 & -> & vs & Hvs & -> & e1 & ->) end.
  { apply lat_loop_spec; [done|done|lia|]. intros vs Hvs. exists vs. split; [done|].
    split; [done|]. by eexists. }
  apply pbind_halt.
  apply (for_loop_halts (fun j (_ : unit) t => exists n, j = Z.of_nat n /\
    exists e2, t = emit e2 s) _ _ (Z.to_nat numOps)); [lia| | |].
  - exists 0%nat. split; [done|]. by eexists.
  - intros j [] t Hj (n & -> & e2 & ->).
    destruct (lookup_lt_is_Some_2 vs n) as [v Hv]; [lia|].
    rewrite (nth_get_ok _ _ (Some v)), pbind_ret
      by (lia || (rewrite Nat2Z.id, lat_array_lookup by lia; by rewrite Hv)).
    cbn [init_get]. rewrite pbind_ret. apply wp_fdo, wp_ret. exists tt. split; [done|].
    exists (S n). split; [lia|]. by eexists.
  - intros [] t _. rewrite (nth_get_ok _ _ None), pbind_ret; [done|lia|].
    rewrite lat_array_lookup by lia. f_equal. apply lookup_ge_None. lia.
Qed.

(** *** Reading out a test *)

Definition data_events c (mhz write_enable read_enable latency_test_enable hbmChannel numOps : Z)
    (bursts : list Z) (e : fhist) (cs vs : list Z) : fhist :=
  [FLock; FWrite (reg_addr c hbmChannelAddr) (u32 hbmChannel)] ++ e ++
  round_events c write_enable read_enable ++
  report c mhz numOps bursts (flat_map (enabled write_enable read_enable) (seqZ 0 32)) cs ++
  (if latency_test_enable =? 0 then []
   else lat_reads c vs ++ (FPrintLatency <$> take 100 vs)) ++ [FUnlock].

Lemma read_data_spec mhz c fuel n we re lt ch numOps bursts s
    (Q : unit -> fstate -> Prop) :
  host_big_endian = false -> mapped c s ->
  finishes c (f_trace s ++ [FLock; FWrite (reg_addr c hbmChannelAddr) (u32 ch)]) n we re ->
  (n <= fuel)%nat -> (1 <= fuel)%nat -> (32 <= length bursts)%nat -> lt = 0 \/ 100 <= numOps ->
  (forall e cs vs, waits c we re e ->
     length cs = length (flat_map (enabled we re) (seqZ 0 32)) ->
     (lt <> 0 -> length vs = Z.to_nat (lat_count numOps)) ->
     Q tt (emit (data_events c mhz we re lt ch numOps bursts e cs vs) s)) ->
  wp (read_data mhz c fuel we re lt ch numOps bursts) Q s.
Proof.
  intros He Hm Hf Hn H1 Hb Hlt HQ. rewrite <- (emit_nil s). unfold read_data.
  apply wp_fdo, wp_writeReg; [done..|]. apply wp_bind.
  eapply wait_done_spec; [done..|exact Hf|done|done|]. intros e Hw.
  apply print_speeds_spec; [done..|]. intros cs Hcs.
  destruct (Z.eqb_spec lt 0) as [->|Hne].
  - apply wp_bind, wp_ret, wp_fdo_last. specialize (HQ e cs [] Hw Hcs ltac:(done)).
    unfold data_events in HQ. cbn [Z.eqb] in HQ. by rewrite <- !app_assoc.
  - apply wp_bind, print_latencies_spec; [done|done|lia|]. intros vs Hvs.
    apply wp_fdo_last. specialize (HQ e cs vs Hw Hcs (fun _ => Hvs)).
    unfold data_events in HQ. rewrite (proj2 (Z.eqb_neq lt 0) Hne) in HQ.
    by rewrite <- !app_assoc in *.
Qed.
End ControllerSpecs.
