(* ===== verification/Fpga.v ===== *)
(** * The device handle of the host programs

    [sw/src/fpga/Fpga.{h,cpp}] and [Configuration.h]: the static class that
    opens the devices, maps the huge pages, creates the controller and the
    memory manager, and takes all of it down again.  A pointer to an object is
    null, live or dangling. *)

From stdpp Require Import base gmap list numbers option.
From S2P Require Import Prelude CInt XdmaChar Allocator MemoryManager FpgaController.
Open Scope Z_scope.

(** ** Constants *)

Definition HUGE_PAGE_SIZE : Z := 2 * 1024 * 1024.
Definition NUM_HUGE_PAGES : Z := 4096.
Definition DMA_SIZE : Z := u64 (NUM_HUGE_PAGES * HUGE_PAGE_SIZE).

(** The paths that are opened. *)
Definition huge_path : Z := 0.      (* /media/huge/abc *)
Definition control_path : Z := 1.   (* /dev/xdma_control *)
Definition bypass_path : Z := 2.    (* /dev/xdma_bypass *)

(** ** State *)

Inductive pointer (A : Type) : Type :=
  | Null
  | Live (a : A)
  | Dangling.
Arguments Null {A}.
Arguments Live {A} a.
Arguments Dangling {A}.

(** The static members, and the world. *)
Record fpga : Type := Fpga {
  controller : pointer FpgaController;
  mm : pointer MemoryManager;
  nodeId : Z;
  fd : Z;
  byfd : Z;
  hfd : Z;
  huge_base : Z;
  world : fstate;
}.

Definition set_controller (c : pointer FpgaController) (s : fpga) : fpga :=
  Fpga c (mm s) (nodeId s) (fd s) (byfd s) (hfd s) (huge_base s) (world s).
Definition set_mm (m : pointer MemoryManager) (s : fpga) : fpga :=
  Fpga (controller s) m (nodeId s) (fd s) (byfd s) (hfd s) (huge_base s) (world s).
Definition set_nodeId (n : Z) (s : fpga) : fpga :=
  Fpga (controller s) (mm s) n (fd s) (byfd s) (hfd s) (huge_base s) (world s).
Definition set_fd (x : Z) (s : fpga) : fpga :=
  Fpga (controller s) (mm s) (nodeId s) x (byfd s) (hfd s) (huge_base s) (world s).
Definition set_byfd (x : Z) (s : fpga) : fpga :=
  Fpga (controller s) (mm s) (nodeId s) (fd s) x (hfd s) (huge_base s) (world s).
Definition set_hfd (x : Z) (s : fpga) : fpga :=
  Fpga (controller s) (mm s) (nodeId s) (fd s) (byfd s) x (huge_base s) (world s).
Definition set_huge_base (x : Z) (s : fpga) : fpga :=
  Fpga (controller s) (mm s) (nodeId s) (fd s) (byfd s) (hfd s) x (world s).
Definition set_world (w : fstate) (s : fpga) : fpga :=
  Fpga (controller s) (mm s) (nodeId s) (fd s) (byfd s) (hfd s) (huge_base s) w.

(** Before [main]: static members are zero. *)
Definition fresh (w : fstate) : fpga := Fpga Null Null 0 0 0 0 0 w.

Definition gprog (A : Type) : Type := prog fpga A.

Definition lift {A} (m : fprog A) : gprog A :=
  fun s => let (o, w) := m (world s) in (o, set_world w s).

Definition deref {A} (p : pointer A) : gprog A :=
  match p with
  | Null => halt NullDeref
  | Live a => pret a
  | Dangling => halt WildAccess
  end.

Section Fpga.
Context `{FpgaEnv}.

(** ** Operations *)

Definition open_path (path : Z) : gprog Z :=
  lift (fask (fun h => s32 (os_open h path)) (FOpen path)).

Definition ioctl (d cmd : Z) (args : list Z) : gprog Z :=
  lift (fask (fun h => s32 (os_ioctl h d cmd args)) (FIoctl d cmd args)).

Definition setNodeId (n : Z) : gprog unit := modify_state (set_nodeId n).

(** [memset] over [n] bytes, all of which must be mapped. *)
Definition touch_region (a n : Z) : gprog unit :=
  let* s := get_state in
  require (existsb (fun m => (m.1 <=? a) && (a + n <=? m.1 + m.2)) (f_maps (world s)))
    WildAccess.

(** [new MemoryManager(base, size)] on the memory as it is now. *)
Definition create_manager (base size : Z) : gprog MemoryManager :=
  touch_region base size;;
  let* s := get_state in
  pret (new_manager base size (os_memory (f_trace (world s)))).

(** The part after the devices are open. *)
Definition setup_devices (d b base : Z) : gprog unit :=
  let* s := get_state in
  (match controller s with
   | Null =>
       let* c := lift (new_controller d b) in
       modify_state (set_controller (Live c))
   | _ => pret tt
   end);;
  ioctl d IOCTL_XDMA_BUFFER_SET [base; DMA_SIZE];;
  let npages := DMA_SIZE / (2 * 1024 * 1024) in
  let* dma_addr := lift (fask (fun h => u64 (os_calloc h npages)) (FCalloc npages)) in
  ioctl d IOCTL_XDMA_MAPPING_GET [npages; dma_addr];;
  let* m := create_manager base DMA_SIZE in
  modify_state (set_mm (Live m)).

Definition initializeMemory : gprog unit :=
  let* h := open_path huge_path in
  modify_state (set_hfd h);;
  if h =? -1 then halt (Exited 1)
  else
    let* base := lift (mmap h DMA_SIZE) in
    modify_state (set_huge_base base);;
    if base =? MAP_FAILED then halt (Exited 1)
    else
      let* d := open_path control_path in
      modify_state (set_fd d);;
      if d =? -1 then halt (Exited 1)
      else
        let* b := open_path bypass_path in
        modify_state (set_byfd b);;
        if b =? -1 then halt (Exited 1) else setup_devices d b base.

(** [delete p]: nothing for null; of a dangling pointer it is undefined. *)
Definition delete {A} (p : pointer A) (destructor : A -> gprog unit) : gprog (pointer A) :=
  match p with
  | Null => pret Null
  | Live a => destructor a;; pret Dangling
  | Dangling => halt Undefined
  end.

Definition close (d : Z) : gprog unit := lift (fdo (FClose d)).

Definition clear : gprog unit :=
  let* s := get_state in
  let* c := delete (controller s) (fun c => lift (delete_controller c)) in
  modify_state (set_controller c);;
  let* m := delete (mm s) (fun _ => pret tt) in
  modify_state (set_mm m);;
  lift (munmap (huge_base s) DMA_SIZE);;
  close (fd s);; close (byfd s);; close (hfd s).

Definition getController : gprog (pointer FpgaController) :=
  let* s := get_state in pret (controller s).

Definition allocate (cas : nat -> bool) (size : Z) : gprog Z :=
  let* s := get_state in
  let* m := deref (mm s) in
  let (a, m') := MemoryManager.allocate cas size m in
  modify_state (set_mm (Live m'));; pret a.

Definition free (p : Z) : gprog unit :=
  let* s := get_state in
  let* m := deref (mm s) in
  modify_state (set_mm (Live (MemoryManager.free p m))).

(** A program that uses the memory: its requests, and its writes of bytes. *)
Definition write_byte (a v : Z) : gprog unit :=
  touch_region a 1;;
  let* s := get_state in
  let* m := deref (mm s) in
  modify_state (set_mm (Live (store a v m))).

Definition serve_one (o : op) : gprog Z :=
  match o with
  | OpAllocate cas n => allocate cas n
  | OpFree p => free p;; pret 0
  | OpStore a v => write_byte a v;; pret 0
  end.

Fixpoint serve (ops : list op) : gprog (list (op * Z)) :=
  match ops with
  | [] => pret []
  | o :: ops' =>
      let* r := serve_one o in
      let* tr := serve ops' in
      pret ((o, r) :: tr)
  end.
End Fpga.

(** ** Specifications *)

Lemma DMA_SIZE_eq : DMA_SIZE = 2 ^ 33.
Proof. done. Qed.

(** The machine serves what the program asks of it.  The descriptors, the
    addresses and the results of the ioctls are not fixed. *)
Class WorkingOs `{FpgaEnv} : Prop := {
  open_works : forall h path, 0 <= path <= 2 -> 0 <= os_open h path < 2 ^ 31;
  mmap_works : forall h d n, 0 < n <= DMA_SIZE ->
    0 < os_mmap h d n /\ os_mmap h d n + n < 2 ^ 64 /\ os_mmap h d n mod 4096 = 0;
  munmap_works : forall h p, os_munmap h p = 0;
}.

Lemma wp_lift {A B} (m : fprog A) (k : A -> gprog B) s Q :
  wp m (fun a w => wp (k a) Q (set_world w s)) (world s) -> wp (pbind (lift m) k) Q s.
Proof.
  unfold wp, pbind, lift. by destruct (m (world s)) as [[a|r] w].
Qed.

Lemma wp_lift_last {A} (m : fprog A) s Q :
  wp m (fun a w => Q a (set_world w s)) (world s) -> wp (lift m) Q s.
Proof. unfold wp, lift. by destruct (m (world s)) as [[a|r] w]. Qed.

Lemma wp_fask_st {A} `{FpgaEnv} (ans : fhist -> A) e tr maps (Q : A -> fstate -> Prop) :
  Q (ans tr) (FState (tr ++ [e (ans tr)]) maps) -> wp (fask ans e) Q (FState tr maps).
Proof. done. Qed.

Lemma wp_fask_any {A} `{FpgaEnv} (ans : fhist -> A) e tr maps (Q : A -> fstate -> Prop) :
  (forall a, Q a (FState (tr ++ [e a]) maps)) -> wp (fask ans e) Q (FState tr maps).
Proof. intros Hk. apply wp_fask_st, Hk. Qed.

(** After one step the state is a record again. *)
Ltac settle :=
  unfold set_controller, set_mm, set_nodeId, set_fd, set_byfd, set_hfd, set_huge_base,
    set_world, flog;
  cbn [controller mm nodeId fd byfd hfd huge_base world f_trace f_maps].
Ltac modify := apply wp_bind, wp_modify; settle.

Section FpgaSpecs.
Context `{WorkingOs}.

Lemma wp_mmap {B} d n tr maps (k : Z -> fprog B) Q :
  0 < n <= DMA_SIZE ->
  (forall p, 0 < p -> p + n < 2 ^ 64 -> p mod 4096 = 0 ->
     wp (k p) Q (FState (tr ++ [FMmap d n p]) ((p, n) :: maps))) ->
  wp (pbind (mmap d n) k) Q (FState tr maps).
Proof.
  intros Hn Hk. destruct (mmap_works tr d n Hn) as (H1 & H2 & H3).
  apply wp_bind. unfold mmap. apply wp_bind, wp_fask_st.
  rewrite u64_small by lia. rewrite (proj2 (Z.eqb_neq _ MAP_FAILED)).
  - by apply wp_bind, wp_modify, wp_ret, Hk.
  - unfold MAP_FAILED. lia.
Qed.

Lemma wp_munmap {B} p n tr maps (k : Z -> fprog B) Q :
  wp (k 0) Q (FState (tr ++ [FMunmap p n 0]) (filter (fun m => m <> (p, n)) maps)) ->
  wp (pbind (munmap p n) k) Q (FState tr maps).
Proof.
  intros Hk. apply wp_bind. unfold munmap. apply wp_bind, wp_fask_st.
  rewrite munmap_works. change (s32 0) with 0. cbn [Z.eqb]. exact Hk.
Qed.

Lemma wp_open {B} path s (k : Z -> gprog B) Q :
  0 <= path <= 2 ->
  (forall d, 0 <= d < 2 ^ 31 ->
     wp (k d) Q (set_world (flog (FOpen path d) (world s)) s)) ->
  wp (pbind (open_path path) k) Q s.
Proof.
  intros Hp Hk. apply wp_lift. destruct (world s) as [tr maps]. apply wp_fask_st.
  pose proof (open_works tr path Hp) as Ho. rewrite s32_small by lia. by apply Hk.
Qed.

Lemma wp_ioctl {B} d cmd args s (k : Z -> gprog B) Q :
  (forall rc, wp (k rc) Q (set_world (flog (FIoctl d cmd args rc) (world s)) s)) ->
  wp (pbind (ioctl d cmd args) k) Q s.
Proof.
  intros Hk. apply wp_lift. destruct (world s) as [tr maps]. apply wp_fask_st, Hk.
Qed.

Definition open_events (h d b base : Z) : fhist :=
  [FOpen huge_path h; FMmap h DMA_SIZE base; FOpen control_path d; FOpen bypass_path b].

(** Opening succeeds, whatever there was before. *)
Lemma open_devices_spec {B} c0 m0 n fd0 byfd0 hfd0 base0 tr maps (k : unit -> gprog B) Q :
  (forall h d b base, 0 < base -> base + DMA_SIZE < 2 ^ 64 ->
     wp (pbind (setup_devices d b base) k) Q (Fpga c0 m0 n d b h base
       (FState (tr ++ open_events h d b base) ((base, DMA_SIZE) :: maps)))) ->
  wp (pbind initializeMemory k) Q (Fpga c0 m0 n fd0 byfd0 hfd0 base0 (FState tr maps)).
Proof.
  intros Hk. apply wp_bind. unfold initializeMemory.
  apply wp_open; [done|]. intros h Hh. settle. modify.
  rewrite (proj2 (Z.eqb_neq h (-1))) by lia. apply wp_lift. settle.
  rewrite <- (wp_bind_ret (mmap h DMA_SIZE)). apply wp_mmap; [done|]. intros base Hb1 Hb2 _.
  apply wp_ret. settle. modify.
  rewrite (proj2 (Z.eqb_neq base MAP_FAILED))
    by (pose proof DMA_SIZE_eq; unfold MAP_FAILED; lia).
  apply wp_open; [done|]. intros d Hd. settle. modify.
  rewrite (proj2 (Z.eqb_neq d (-1))) by lia.
  apply wp_open; [done|]. intros b Hb. settle. modify.
  rewrite (proj2 (Z.eqb_neq b (-1))) by lia.
  specialize (Hk h d b base Hb1 Hb2). unfold open_events in Hk.
  rewrite <- !app_assoc. cbn [app]. revert Hk. unfold wp at 1, pbind at 1. unfold wp.
  by destruct (setup_devices _ _ _ _) as [[u|r] s1].
Qed.

(** The two ioctls, with any result, and the manager. *)
Definition ioctl_events (d base a rc1 rc2 : Z) : fhist :=
  [FIoctl d IOCTL_XDMA_BUFFER_SET [base; DMA_SIZE] rc1; FCalloc 4096 a;
   FIoctl d IOCTL_XDMA_MAPPING_GET [4096; a] rc2].

Lemma setup_manager_spec {B} c n d b h base m0 tr maps (k : unit -> gprog B) Q :
  (base, DMA_SIZE) ∈ maps ->
  (forall a rc1 rc2, let tr1 := tr ++ ioctl_events d base a rc1 rc2 in
     wp (k tt) Q (Fpga c (Live (new_manager base DMA_SIZE (os_memory tr1))) n d b h base
       (FState tr1 maps))) ->
  wp (pbind (ioctl d IOCTL_XDMA_BUFFER_SET [base; DMA_SIZE];;
     let npages := DMA_SIZE / (2 * 1024 * 1024) in
     let* dma_addr := lift (fask (fun h => u64 (os_calloc h npages)) (FCalloc npages)) in
     ioctl d IOCTL_XDMA_MAPPING_GET [npages; dma_addr];;
     let* m := create_manager base DMA_SIZE in
     modify_state (set_mm (Live m))) k) Q (Fpga c m0 n d b h base (FState tr maps)).
Proof.
  intros Hin Hk. apply wp_bind, wp_ioctl. intros rc1. settle.
  apply wp_lift, wp_fask_any. intros a. settle.
  apply wp_ioctl. intros rc2. settle. unfold create_manager.
  apply wp_bind, wp_bind, wp_bind, wp_get. settle. apply wp_require.
  { apply existsb_exists. exists (base, DMA_SIZE). split; [by apply list_elem_of_In|].
    cbn [fst snd]. by rewrite !Z.leb_refl. }
  apply wp_bind, wp_get, wp_ret, wp_modify. settle.
  specialize (Hk a rc1 rc2). cbv zeta in Hk.
  change (DMA_SIZE / (2 * 1024 * 1024)) with 4096.
  unfold ioctl_events in Hk. rewrite <- !app_assoc. cbn [app]. exact Hk.
Qed.

(** What the program did to get ready, the first time. *)
Definition init_events (h d b base m y a rc1 rc2 : Z) : fhist :=
  open_events h d b base ++ [FMmap d MAP_SIZE m; FMmap b MAP_SIZE y] ++
  ioctl_events d base a rc1 rc2.

(** [initializeMemory] makes that many calls. *)
Definition init_length : nat := length (init_events 0 0 0 0 0 0 0 0 0).

Lemma initializeMemory_spec {B} m0 n fd0 byfd0 hfd0 base0 tr maps (k : unit -> gprog B) Q :
  (forall h d b base m y a rc1 rc2,
     0 < base -> base + DMA_SIZE < 2 ^ 64 -> 0 < m -> m + MAP_SIZE < 2 ^ 64 ->
     m mod 4096 = 0 ->
     let tr1 := tr ++ init_events h d b base m y a rc1 rc2 in
     wp (k tt) Q (Fpga (Live (Controller m y))
       (Live (new_manager base DMA_SIZE (os_memory tr1)))
       n d b h base (FState tr1 ((y, MAP_SIZE) :: (m, MAP_SIZE) :: (base, DMA_SIZE) :: maps)))) ->
  wp (pbind initializeMemory k) Q (Fpga Null m0 n fd0 byfd0 hfd0 base0 (FState tr maps)).
Proof.
  intros Hk. apply open_devices_spec. intros h d b base Hb1 Hb2.
  apply wp_bind. unfold setup_devices. apply wp_bind, wp_get. settle.
  apply wp_bind, wp_lift. settle.
  apply wp_mmap; [done|]. intros m Hm1 Hm2 Hm3.
  apply wp_mmap; [done|]. intros y Hy1 Hy2 _. apply wp_ret, wp_modify. settle.
  rewrite <- wp_bind_ret. apply setup_manager_spec; [by right; right; left|].
  intros a rc1 rc2. apply wp_ret.
  specialize (Hk h d b base m y a rc1 rc2 Hb1 Hb2 Hm1 Hm2 Hm3). cbv zeta in Hk.
  unfold init_events in Hk. rewrite <- !app_assoc. exact Hk.
Qed.

(** With a controller left over, none is created. *)
Lemma initializeMemory_again {B} m0 n fd0 byfd0 hfd0 base0 tr maps (k : unit -> gprog B) Q :
  (forall h d b base a rc1 rc2,
     0 < base -> base + DMA_SIZE < 2 ^ 64 ->
     let tr1 := tr ++ open_events h d b base ++ ioctl_events d base a rc1 rc2 in
     wp (k tt) Q (Fpga Dangling (Live (new_manager base DMA_SIZE (os_memory tr1)))
       n d b h base (FState tr1 ((base, DMA_SIZE) :: maps)))) ->
  wp (pbind initializeMemory k) Q (Fpga Dangling m0 n fd0 byfd0 hfd0 base0 (FState tr maps)).
Proof.
  intros Hk. apply open_devices_spec. intros h d b base Hb1 Hb2.
  apply wp_bind. unfold setup_devices. apply wp_bind, wp_get. settle.
  apply wp_bind, wp_ret.
  rewrite <- wp_bind_ret. apply setup_manager_spec; [by left|].
  intros a rc1 rc2. apply wp_ret.
  specialize (Hk h d b base a rc1 rc2 Hb1 Hb2). cbv zeta in Hk.
  rewrite <- app_assoc. exact Hk.
Qed.

Lemma all_unmapped (p q r : Z * Z) maps :
  maps ⊆ [q; p; r] ->
  filter (fun m => m <> r) (filter (fun m => m <> q) (filter (fun m => m <> p) maps)) = [].
Proof.
  intros Hm. destruct (filter _ _) as [|x l] eqn:E; [done|]. exfalso.
  assert (Hx : x ∈ x :: l) by left. rewrite <- E, !list_elem_of_filter in Hx.
  destruct Hx as (Hr & Hq & Hp & Hx). specialize (Hm x Hx). set_solver.
Qed.

Definition clear_events (s : fpga) (c : FpgaController) : fhist :=
  [FMunmap (m_base c) MAP_SIZE 0; FMunmap (by_base c) MAP_SIZE 0;
   FMunmap (huge_base s) DMA_SIZE 0; FClose (fd s); FClose (byfd s); FClose (hfd s)].

Lemma clear_spec {B} s c m (k : unit -> gprog B) Q :
  controller s = Live c -> mm s = Live m ->
  f_maps (world s) ⊆ [(by_base c, MAP_SIZE); (m_base c, MAP_SIZE); (huge_base s, DMA_SIZE)] ->
  wp (k tt) Q (Fpga Dangling Dangling (nodeId s) (fd s) (byfd s) (hfd s) (huge_base s)
    (FState (f_trace (world s) ++ clear_events s c) [])) ->
  wp (pbind clear k) Q s.
Proof.
  intros Hc Hm Hmaps Hk. destruct s as [c0 m0 n d b h base [tr maps]]. cbn in Hc, Hm. subst.
  cbn in Hmaps.
  apply wp_bind. unfold clear. apply wp_bind, wp_get. settle. cbn [delete].
  apply wp_bind, wp_bind, wp_lift_last. unfold delete_controller. settle.
  apply wp_munmap, wp_munmap, wp_ret, wp_ret. settle. modify. cbn [delete].
  apply wp_bind, wp_bind, wp_ret, wp_ret. modify. apply wp_lift. settle.
  rewrite <- (wp_bind_ret (munmap base DMA_SIZE)). apply wp_munmap, wp_ret. settle.
  do 2 (apply wp_lift, wp_modify; settle). apply wp_lift_last, wp_modify. settle.
  rewrite all_unmapped by done. unfold clear_events in Hk. cbn in Hk.
  rewrite <- !app_assoc. exact Hk.
Qed.

(** The handle hands every request on to the manager. *)
Lemma serve_one_step o s m :
  mm s = Live m -> wf m -> (mm_base m, mm_size m) ∈ f_maps (world s) -> allowed o (live m) ->
  serve_one o s = (Done (fst (step o m)), set_mm (Live (snd (step o m))) s).
Proof.
  intros Hm Hw Hin Ho. destruct o as [cas n|ptr|a v]; cbn [serve_one step].
  - unfold allocate, pbind, get_state, deref. rewrite Hm. unfold pret.
    by destruct (MemoryManager.allocate cas n m).
  - unfold free, pbind, get_state, deref. by rewrite Hm.
  - destruct Ho as (b & k & Hb & Ha).
    apply live_lookup in Hb as (c & Hc & _ & <- & <-); [|done].
    pose proof (tiles_elem _ _ _ c (wf_tiles _ Hw) Hc) as Hr.
    unfold write_byte, touch_region, pbind at 1 2 3, get_state.
    assert (Hin2 : existsb (fun m0 => (m0.1 <=? a) && (a + 1 <=? m0.1 + m0.2))
      (f_maps (world s)) = true).
    { apply existsb_exists. exists (mm_base m, mm_size m).
      split; [by apply list_elem_of_In|]. cbn [fst snd].
      by rewrite (proj2 (Z.leb_le (mm_base m) a)), (proj2 (Z.leb_le (a + 1) _)) by lia. }
    rewrite Hin2. unfold require, pret, pbind, deref. by rewrite Hm.
Qed.

Lemma serve_run ops s m :
  mm s = Live m -> wf m -> (mm_base m, mm_size m) ∈ f_maps (world s) -> allowed_run ops m ->
  serve ops s = (Done (fst (run ops m)), set_mm (Live (snd (run ops m))) s).
Proof.
  revert s m. induction ops as [|o ops IH]; intros s m Hm Hw Hin Ha.
  { cbn. unfold pret. f_equal. destruct s. cbn in Hm |- *. by subst. }
  destruct Ha as [Ho Ha]. cbn [serve run]. unfold pbind at 1.
  rewrite (serve_one_step o s m Hm Hw Hin Ho).
  pose proof (step_refines o m Hw Ho) as Hs.
  change (al_step o m) with (step o m) in *.
  destruct (step o m) as [r m1]. cbn [fst snd] in *. destruct Hs as (Hw1 & Hb & Hz & _).
  unfold pbind. rewrite (IH (set_mm (Live m1) s) m1);
    [|done|done|by rewrite Hb, Hz|done].
  by destruct (run ops m1).
Qed.
End FpgaSpecs.
