(* ===== verification/BenchControl.v ===== *)
(** * The register bank of the benchmark hardware

    [xdma_control.sv] and the parameter registers of [hbm_benchmark.sv], in
    [hw/rtl/u280_hbm] and [hw/rtl/u280_ddr], one register write at a time:
    between two writes of the host the clocked copies have settled.  [System]
    proves that the registers of the two clocks implement this view. *)

From stdpp Require Import base gmap list numbers option.
From S2P Require Import Prelude CInt.
Open Scope Z_scope.

(** ** The two designs *)

Inductive design : Type := u280_hbm | u280_ddr.

(** [N_MEM_INTF], the memory channels, and the parameters of [lt_engine]. *)
Definition n_mem_intf (B : design) : Z := match B with u280_hbm => 32 | u280_ddr => 2 end.
Definition addr_width (B : design) : Z := match B with u280_hbm => 33 | u280_ddr => 34 end.
Definition data_width (B : design) : Z := match B with u280_hbm => 256 | u280_ddr => 512 end.
Definition len_width (B : design) : Z := match B with u280_hbm => 4 | u280_ddr => 8 end.
(** The bits of [lt_params[i]] that take the initial address. *)
Definition addr_field (B : design) : Z := match B with u280_hbm => 33 | u280_ddr => 64 end.

(** ** Data *)

(** The parameters of one engine, the fields of [lt_params[i]]. *)
Record lt_params : Type := LtParams {
  lp_work_group_size : Z;
  lp_stride : Z;
  lp_num_mem_ops : Z;
  lp_mem_burst_size : Z;
  lp_initial_addr : Z;
  lp_latency : bool;
}.

(** An engine that was started: the write or the read engine of a channel. *)
Record started : Type := Started {
  st_read : bool;
  st_channel : Z;
  st_params : lt_params;
}.

Record bench : Type := Bench {
  dma_control_reg : Z -> Z;
  params : Z -> lt_params;
  engines_started : list started;
}.

(** ** The outputs of the bank *)

Definition out_work_group_size (r : Z -> Z) : Z := r 1.
Definition out_stride (r : Z -> Z) : Z := r 2.
Definition out_num_mem_ops (r : Z -> Z) : Z := r 4 * 2 ^ 32 + r 3.
Definition out_mem_burst_size (r : Z -> Z) : Z := r 5.
(** [{dma_control_reg[6], 2'b00}], 34 bits, for the HBM; for the DDR the
    registers 17 and 6 are the halves of 64 bits. *)
Definition out_initial_addr (B : design) (r : Z -> Z) : Z :=
  match B with u280_hbm => Z.shiftl (r 6) 2 | u280_ddr => r 17 * 2 ^ 32 + r 6 end.
Definition out_write_enable (B : design) (r : Z -> Z) : Z := r 7 mod 2 ^ n_mem_intf B.
Definition out_read_enable (B : design) (r : Z -> Z) : Z := r 8 mod 2 ^ n_mem_intf B.
Definition out_latency_test_enable (r : Z -> Z) : bool := Z.odd (r 9).
Definition out_hbm_channel (r : Z -> Z) : Z := r 10 mod 2 ^ 8.
Definition out_start (r : Z -> Z) : bool := Z.odd (r 11).

(** What the parameter registers of the selected channel take over. *)
Definition staged (B : design) (r : Z -> Z) : lt_params :=
  LtParams (out_work_group_size r) (out_stride r) (out_num_mem_ops r) (out_mem_burst_size r)
    (out_initial_addr B r mod 2 ^ addr_field B) (out_latency_test_enable r).

(** ** One register write *)

Definition write_reg (r : Z -> Z) (k v : Z) : Z -> Z := fun j => if j =? k then v else r j.

(** The engines that a rising edge of [start] starts: of each channel whose
    enable bit is set, with the channel's parameters. *)
Definition start_engines (B : design) (r : Z -> Z) (p : Z -> lt_params) : list started :=
  flat_map (fun i =>
    (if Z.testbit (out_write_enable B r) i then [Started false i (p i)] else []) ++
    (if Z.testbit (out_read_enable B r) i then [Started true i (p i)] else []))
    (seqZ 0 (n_mem_intf B)).

(** A write of [v] at byte offset [off] of the BAR. *)
Definition hw_write (B : design) (off v : Z) (b : bench) : bench :=
  let r := write_reg (dma_control_reg b) (Z.shiftr off 2 mod 64) v in
  let p := fun i => if (i =? out_hbm_channel r) && (i <? n_mem_intf B) then staged B r
                    else params b i in
  Bench r p (engines_started b ++
    if negb (out_start (dma_control_reg b)) && out_start r then start_engines B r p
    else []).

Definition hw_writes (B : design) (ws : list (Z * Z)) (b : bench) : bench :=
  fold_left (fun b w => hw_write B (4 * w.1) w.2 b) ws b.

(** ** Lemmas *)

Lemma hw_writes_app B ws1 ws2 b : hw_writes B (ws1 ++ ws2) b = hw_writes B ws2 (hw_writes B ws1 b).
Proof. apply fold_left_app. Qed.

Lemma reg_index k : 0 <= k < 64 -> Z.shiftr (4 * k) 2 mod 64 = k.
Proof.
  intros Hk. rewrite Z.shiftr_div_pow2, (Z.mul_comm 4) by done.
  change (2 ^ 2) with 4. rewrite Z.div_mul by done. by apply Z.mod_small.
Qed.

Lemma out_bit n m i : 0 <= i < n -> Z.testbit (m mod 2 ^ n) i = Z.testbit m i.
Proof. intros Hi. apply Z.mod_pow2_bits_low. lia. Qed.

Definition write_regs (ws : list (Z * Z)) (r : Z -> Z) : Z -> Z :=
  fold_left (fun r w => write_reg r w.1 w.2) ws r.

(** A register that neither selects a channel nor starts anything. *)
Definition plain (w : Z * Z) : Prop := 0 <= w.1 < 10.

Lemma write_regs_other ws r k :
  Forall plain ws -> 10 <= k -> write_regs ws r k = r k.
Proof.
  intros Hp Hk. revert r. induction Hp as [|w ws Hw _ IH]; intros r; [done|]. cbn.
  rewrite IH. unfold write_reg, plain in *. by rewrite (proj2 (Z.eqb_neq k w.1)) by lia.
Qed.

Lemma n_mem_intf_range B : 0 < n_mem_intf B <= 32.
Proof. by destruct B. Qed.

Section Writes.
Context (B : design).
Let Hn : 0 < n_mem_intf B <= 32 := n_mem_intf_range B.

Lemma hw_write_reg k v b :
  0 <= k < 64 ->
  hw_write B (4 * k) v b =
    let r := write_reg (dma_control_reg b) k v in
    let p := fun i => if (i =? out_hbm_channel r) && (i <? n_mem_intf B) then staged B r else params b i in
    Bench r p (engines_started b ++
      if negb (out_start (dma_control_reg b)) && out_start r then start_engines B r p else []).
Proof. intros Hk. unfold hw_write. by rewrite reg_index. Qed.

(** Plain writes set up the selected channel and touch no other. *)
Lemma hw_writes_plain ws b :
  Forall plain ws ->
  let b' := hw_writes B ws b in
  let ch := out_hbm_channel (dma_control_reg b) in
  dma_control_reg b' = write_regs ws (dma_control_reg b) /\
  engines_started b' = engines_started b /\
  (forall j, j <> ch -> params b' j = params b j) /\
  (ws <> [] -> ch < n_mem_intf B -> params b' ch = staged B (dma_control_reg b')).
Proof.
  cbv zeta. revert b. induction ws as [|w ws IH] using rev_ind; intros b Hp; [done|].
  apply Forall_app in Hp as [Hp Hw]. rewrite Forall_singleton in Hw.
  rewrite hw_writes_app. cbn [hw_writes fold_left].
  destruct (IH b Hp) as (Hr & He & Hj & _). set (b1 := hw_writes B ws b) in *.
  unfold plain in Hw. fold (hw_writes B ws b). fold b1. rewrite hw_write_reg by lia.
  cbv zeta. cbn [dma_control_reg params engines_started].
  assert (Ech : out_hbm_channel (write_reg (dma_control_reg b1) w.1 w.2) =
                out_hbm_channel (dma_control_reg b)).
  { unfold out_hbm_channel, write_reg. rewrite (proj2 (Z.eqb_neq 10 w.1)) by lia.
    by rewrite Hr, write_regs_other by (done || lia). }
  assert (Est : out_start (write_reg (dma_control_reg b1) w.1 w.2) = out_start (dma_control_reg b1)).
  { unfold out_start, write_reg. by rewrite (proj2 (Z.eqb_neq 11 w.1)) by lia. }
  rewrite Ech, Est. split; [|split; [|split]].
  - rewrite Hr. unfold write_regs. by rewrite fold_left_app.
  - by rewrite He, andb_negb_l, app_nil_r.
  - intros j Hne. rewrite (proj2 (Z.eqb_neq _ _) Hne). cbn [andb]. by apply Hj.
  - intros _ Hlt. by rewrite Z.eqb_refl, (proj2 (Z.ltb_lt _ _) Hlt).
Qed.

(** Selecting a channel. *)
Lemma hw_select ch b :
  0 <= ch < n_mem_intf B ->
  let b' := hw_writes B [(10, ch)] b in
  dma_control_reg b' = write_reg (dma_control_reg b) 10 ch /\
  out_hbm_channel (dma_control_reg b') = ch /\
  engines_started b' = engines_started b /\
  (forall j, j <> ch -> params b' j = params b j).
Proof.
  intros Hch. cbn [hw_writes fold_left fst snd]. rewrite hw_write_reg by lia.
  cbv zeta. cbn [dma_control_reg params engines_started]. split; [done|].
  assert (E : out_hbm_channel (write_reg (dma_control_reg b) 10 ch) = ch).
  { unfold out_hbm_channel, write_reg. cbn. apply Z.mod_small. change (2 ^ 8) with 256. lia. }
  split; [done|]. split.
  - change (out_start (write_reg (dma_control_reg b) 10 ch)) with (out_start (dma_control_reg b)).
    by rewrite andb_negb_l, app_nil_r.
  - intros j Hne. by rewrite E, (proj2 (Z.eqb_neq _ _) Hne).
Qed.

(** Selecting a channel and setting it up. *)
Lemma hw_setup ch ws b :
  0 <= ch < n_mem_intf B -> Forall plain ws -> ws <> [] ->
  let b' := hw_writes B ((10, ch) :: ws) b in
  dma_control_reg b' = write_regs ws (write_reg (dma_control_reg b) 10 ch) /\
  out_hbm_channel (dma_control_reg b') = ch /\
  engines_started b' = engines_started b /\
  (forall j, j <> ch -> params b' j = params b j) /\
  params b' ch = staged B (dma_control_reg b').
Proof.
  intros Hch Hp Hne. cbv zeta. rewrite (hw_writes_app B [(10, ch)] ws).
  destruct (hw_select ch b Hch) as (Hr & Hc & He & Hj).
  set (b1 := hw_writes B [(10, ch)] b) in *.
  destruct (hw_writes_plain ws b1 Hp) as (Hr2 & He2 & Hj2 & Hs2).
  rewrite Hc in Hj2, Hs2. split; [by rewrite Hr2, Hr|]. split.
  - rewrite Hr2. unfold out_hbm_channel in *. by rewrite write_regs_other by (done || lia).
  - split; [by rewrite He2|]. split; [|apply Hs2; [done|lia]].
    intros j Hne2. by rewrite Hj2, Hj.
Qed.

(** The start pulse. *)
Lemma hw_pulse b :
  out_start (dma_control_reg b) = false -> out_hbm_channel (dma_control_reg b) < n_mem_intf B ->
  params b (out_hbm_channel (dma_control_reg b)) = staged B (dma_control_reg b) ->
  let b' := hw_writes B [(11, 1); (11, 0)] b in
  engines_started b' = engines_started b ++ start_engines B (dma_control_reg b) (params b) /\
  (forall j, params b' j = params b j) /\ out_start (dma_control_reg b') = false.
Proof.
  intros Hs Hc Hst. cbn [hw_writes fold_left fst snd]. rewrite !hw_write_reg by lia.
  cbv zeta. cbn [dma_control_reg params engines_started].
  set (r := dma_control_reg b) in *. set (r1 := write_reg r 11 1).
  assert (E1 : out_start r1 = true) by done. rewrite Hs, E1. cbn [negb andb].
  assert (Hp : forall i, (if (i =? out_hbm_channel r1) && (i <? n_mem_intf B) then staged B r1
    else params b i) = params b i).
  { intros i. change (out_hbm_channel r1) with (out_hbm_channel r).
    destruct (Z.eqb_spec i (out_hbm_channel r)) as [->|]; [|done].
    by rewrite (proj2 (Z.ltb_lt _ _) Hc), Hst. }
  split; [|split; [|done]].
  - rewrite app_nil_r. f_equal. unfold start_engines. apply flat_map_ext. intros i.
    by rewrite Hp.
  - intros j. change (out_hbm_channel (write_reg r1 11 0)) with (out_hbm_channel r).
    change (staged B (write_reg r1 11 0)) with (staged B r1). by rewrite Hp, Hp.
Qed.
End Writes.
