(* ===== verification/HbmTest.v ===== *)
(** * The test programs

    [main] of [sw/src/hbm_test.cpp] and [sw/src/ddr_test.cpp]: defaults, command
    line, configuration file, and the calls of the controller.  The option
    parser is a library: its result is an argument.  The two programs differ in
    their defaults and loop bounds, kept in a [test_kind]. *)

From Stdlib Require Import Ascii String.
From stdpp Require Import base gmap list strings numbers option.
From S2P Require Import Prelude CInt FpgaController BenchControl.
Open Scope Z_scope.

(** ** Strings of the C++ library *)

Definition chars : Type := list ascii.

Definition find_first_of (c : ascii) : chars -> option nat :=
  fix go (s : chars) : option nat :=
    match s with
    | [] => None
    | x :: s' => if decide (x = c) then Some 0%nat
                 else match go s' with Some k => Some (S k) | None => None end
    end.

(** [substr(0, pos)] and [substr(pos + 1)], where [pos] may be [npos], that is,
    -1: then both are the whole string. *)
Definition before (pos : option nat) (s : chars) : chars :=
  match pos with Some k => take k s | None => s end.
Definition after (pos : option nat) (s : chars) : chars :=
  match pos with Some k => drop (S k) s | None => s end.

Definition isspace (c : ascii) : bool :=
  let k := Z.of_nat (nat_of_ascii c) in (k =? 32) || ((9 <=? k) && (k <=? 13)).
Definition digit (c : ascii) : option Z :=
  let k := Z.of_nat (nat_of_ascii c) in
  if (48 <=? k) && (k <=? 57) then Some (k - 48) else None.

Fixpoint skip_spaces (s : chars) : chars :=
  match s with
  | c :: s' => if isspace c then skip_spaces s' else s
  | [] => []
  end.

(** The value of the leading digits, with [acc] before them. *)
Fixpoint digits (acc : Z) (s : chars) : Z :=
  match s with
  | c :: s' => match digit c with Some d => digits (acc * 10 + d) s' | None => acc end
  | [] => acc
  end.

Definition starts_with_digit (s : chars) : bool :=
  match s with c :: _ => match digit c with Some _ => true | None => false end | [] => false end.

(** [stoi]: throws when there is no number or it is no [int]. *)
Definition stoi {S} (s : chars) : prog S Z :=
  let s := skip_spaces s in
  let '(neg, s) := match s with
                   | c :: s' => if decide (c = "-"%char) then (true, s')
                                else if decide (c = "+"%char) then (false, s') else (false, s)
                   | [] => (false, [])
                   end in
  if negb (starts_with_digit s) then halt Thrown
  else
    let v := if neg : bool then - digits 0 s else digits 0 s in
    if (- 2 ^ 31 <=? v) && (v <=? INT_MAX) then pret v else halt Thrown.

(** ** The settings of a test *)

Record settings : Type := Settings {
  workGroupSize : list Z;
  numOps : list Z;
  strideLength : list Z;
  memBurstSize : list Z;
  initialAddr : list Z;
  write_enable : Z;
  read_enable : Z;
  latency_test_enable : Z;
  latency_channel : Z;
}.

Definition set_workGroupSize (l : list Z) (s : settings) : settings :=
  Settings l (numOps s) (strideLength s) (memBurstSize s) (initialAddr s)
    (write_enable s) (read_enable s) (latency_test_enable s) (latency_channel s).
Definition set_strideLength (l : list Z) (s : settings) : settings :=
  Settings (workGroupSize s) (numOps s) l (memBurstSize s) (initialAddr s)
    (write_enable s) (read_enable s) (latency_test_enable s) (latency_channel s).
Definition set_memBurstSize (l : list Z) (s : settings) : settings :=
  Settings (workGroupSize s) (numOps s) (strideLength s) l (initialAddr s)
    (write_enable s) (read_enable s) (latency_test_enable s) (latency_channel s).
Definition set_write_enable (m : Z) (s : settings) : settings :=
  Settings (workGroupSize s) (numOps s) (strideLength s) (memBurstSize s) (initialAddr s)
    m (read_enable s) (latency_test_enable s) (latency_channel s).
Definition set_read_enable (m : Z) (s : settings) : settings :=
  Settings (workGroupSize s) (numOps s) (strideLength s) (memBurstSize s) (initialAddr s)
    (write_enable s) m (latency_test_enable s) (latency_channel s).
Definition set_latency (en ch : Z) (s : settings) : settings :=
  Settings (workGroupSize s) (numOps s) (strideLength s) (memBurstSize s) (initialAddr s)
    (write_enable s) (read_enable s) en ch.

(** What the command line gives. *)
Record options : Type := Options {
  o_readEnable : option Z;
  o_writeEnable : option Z;
  o_channel : option Z;
  o_workGroupSize : option Z;
  o_strideLength : option Z;
  o_memBurstSize : option Z;
  o_configFile : option (option (list chars));    (* the lines, if it opens *)
}.

Record test_kind : Type := TestKind {
  tk_defaults : settings;
  tk_channels : Z;          (* channels that are configured *)
  tk_writes : Z;            (* entries an option of the command line sets *)
  tk_burst_writes : Z;      (* the same for memBurstSize *)
  tk_mhz : Z;
  tk_has_channel : bool;    (* the option "channel" is registered *)
}.

Definition hbm_test : test_kind := {|
  tk_defaults := {|
    workGroupSize := replicate 32 0x10000000;
    numOps := [100000; 100000; 100000; 100000; 10000000; 10000000; 100000; 1000000;
               1000000; 1000000; 100000; 100000; 1000000; 1000000; 100000; 100000] ++
              replicate 16 100000;
    strideLength := replicate 32 64;
    memBurstSize := replicate 32 64;
    initialAddr := replicate 32 0;
    write_enable := 0; read_enable := 0; latency_test_enable := 0; latency_channel := 0 |};
  tk_channels := 32; tk_writes := 32; tk_burst_writes := 33; tk_mhz := 450;
  tk_has_channel := true |}.

Definition ddr_test : test_kind := {|
  tk_defaults := {|
    workGroupSize := replicate 32 0x10000000;
    numOps := replicate 32 100000;
    strideLength := [64; 64 * 2; 64 * 4; 64 * 8; 64 * 16; 64 * 32; 64 * 64; 64 * 128;
                     64 * 256; 64 * 512; 64 * 1024; 64 * 2048; 64 * 4096; 64; 64; 64] ++
                    replicate 16 64;
    memBurstSize := replicate 32 64;
    initialAddr := (fun i => 0x04000000 * i) <$> seqZ 0 32;
    write_enable := 0; read_enable := 1; latency_test_enable := 0; latency_channel := 0 |};
  tk_channels := 2; tk_writes := 2; tk_burst_writes := 3; tk_mhz := 300;
  tk_has_channel := false |}.

(** ** Command line and configuration file *)

Definition sprog (A : Type) : Type := prog settings A.

Definition set_entries (n v : Z) (get : settings -> list Z)
    (set : list Z -> settings -> settings) : sprog unit :=
  for_loop (R := Empty_set) (Z.to_nat n) 0 tt (fun i _ =>
    let* st := get_state in
    let* l := nth_set (get st) i v in
    modify_state (set l);;
    pret (inl tt));;
  pret tt.

Definition when {A} (o : option A) (f : A -> sprog unit) : sprog unit :=
  match o with Some a => f a | None => pret tt end.

Definition set_entry (get : settings -> list Z) (set : list Z -> settings -> settings)
    (i v : Z) : sprog unit :=
  let* st := get_state in
  let* l := nth_set (get st) i (u32 v) in
  modify_state (set l).

(** One line of the file. *)
Definition config_line (s : chars) : sprog unit :=
  if bool_decide (s = []) || bool_decide (take 2 s = ["/"; "/"]%char) then pret tt
  else
    let index := find_first_of " "%char s in
    let s_cmd := before index s in
    let s_data := after index s in
    let index2 := find_first_of " "%char s_data in
    let* mchannel := stoi (before index2 s_data) in
    let* mvalue := stoi (after index2 s_data) in
    let shifted := if (0 <=? mchannel) && (mchannel <? 32)
                   then pret (u32 (Z.shiftl mvalue mchannel)) else halt Undefined in
    if decide (s_cmd = list_ascii_of_string "strideLength") then
      set_entry strideLength set_strideLength mchannel mvalue
    else if decide (s_cmd = list_ascii_of_string "workGroupSize") then
      set_entry workGroupSize set_workGroupSize mchannel mvalue
    else if decide (s_cmd = list_ascii_of_string "memBurstSize") then
      set_entry memBurstSize set_memBurstSize mchannel mvalue
    else if decide (s_cmd = list_ascii_of_string "readEnable") then
      let* m := shifted in
      modify_state (fun st => set_read_enable (Z.land (read_enable st) m) st)
    else if decide (s_cmd = list_ascii_of_string "writeEnable") then
      let* m := shifted in
      modify_state (fun st => set_write_enable (Z.land (write_enable st) m) st)
    else if decide (s_cmd = list_ascii_of_string "latencyChannel") then
      modify_state (set_latency (u32 mvalue) (u32 mchannel))
    else pret tt.

Fixpoint config_lines (ls : list chars) : sprog unit :=
  match ls with
  | [] => pret tt
  | s :: ls' => config_line s;; config_lines ls'
  end.

Definition configure (k : test_kind) (o : options) : sprog unit :=
  when (o_readEnable o) (fun v => modify_state (set_read_enable (u32 v)));;
  when (o_writeEnable o) (fun v => modify_state (set_write_enable (u32 v)));;
  (if tk_has_channel k
   then when (o_channel o) (fun v =>
          modify_state (fun st => set_latency (latency_test_enable st) (u32 v) st))
   else pret tt);;
  when (o_workGroupSize o) (fun v =>
    set_entries (tk_writes k) (u32 v) workGroupSize set_workGroupSize);;
  when (o_strideLength o) (fun v =>
    set_entries (tk_writes k) (u32 v) strideLength set_strideLength);;
  when (o_memBurstSize o) (fun v =>
    set_entries (tk_burst_writes k) (u32 v) memBurstSize set_memBurstSize);;
  when (o_configFile o) (fun f => when f config_lines).

(** ** Running the test *)

Section Run.
Context `{FpgaEnv}.

Definition config_channels (c : FpgaController) (n : Z) (st : settings) : fprog unit :=
  for_loop (R := Empty_set) (Z.to_nat n) 0 tt (fun i _ =>
    let* wg := nth_get (workGroupSize st) i in
    let* no := nth_get (numOps st) i in
    let* sl := nth_get (strideLength st) i in
    let* bs := nth_get (memBurstSize st) i in
    let* ia := nth_get (initialAddr st) i in
    configHBM c wg no sl bs ia i;;
    pret (inl tt));;
  pret tt.

Definition run_test (k : test_kind) (c : FpgaController) (fuel : nat) (st : settings)
    : fprog unit :=
  config_channels c (tk_channels k) st;;
  let lc := latency_channel st in
  let* wg := nth_get (workGroupSize st) lc in
  let* no := nth_get (numOps st) lc in
  let* sl := nth_get (strideLength st) lc in
  let* bs := nth_get (memBurstSize st) lc in
  let* ia := nth_get (initialAddr st) lc in
  runHBMtest c (write_enable st) (read_enable st) (latency_test_enable st) lc wg no sl bs ia;;
  read_data (tk_mhz k) c fuel (write_enable st) (read_enable st) (latency_test_enable st) lc no
    (memBurstSize st).

(** From the end of [initializeMemory] on. *)
Definition main_test (k : test_kind) (c : FpgaController) (fuel : nat) (o : options)
    : fprog unit :=
  fun s => match configure k o (tk_defaults k) with
           | (Done _, st) => run_test k c fuel st s
           | (Halt r, _) => (Halt r, s)
           end.
End Run.

(** ** Specifications *)

(** *** The configuration file *)

(** No bit of [a] outside [b]. *)
Definition submask (a b : Z) : Prop := Z.land a b = a.

Lemma submask_refl a : submask a a.
Proof. apply Z.land_diag. Qed.

Lemma submask_trans a b c : submask a b -> submask b c -> submask a c.
Proof. unfold submask. intros <- E. by rewrite <- Z.land_assoc, E. Qed.

Lemma submask_land a m : submask (Z.land a m) a.
Proof. unfold submask. by rewrite <- Z.land_assoc, (Z.land_comm m), Z.land_assoc, Z.land_diag. Qed.

(** Neither mask gains a bit. *)
Definition clears (st st' : settings) : Prop :=
  submask (read_enable st') (read_enable st) /\ submask (write_enable st') (write_enable st).

Lemma clears_refl st : clears st st.
Proof. split; apply submask_refl. Qed.

Lemma clears_trans st1 st2 st3 : clears st1 st2 -> clears st2 st3 -> clears st1 st3.
Proof. intros [] []. split; by eapply submask_trans. Qed.

Lemma nth_set_state {A} (l : list A) i v (st : settings) : snd (nth_set l i v st) = st.
Proof. unfold nth_set. by destruct (_ && _). Qed.

Lemma stoi_state s (st : settings) : snd (stoi s st) = st.
Proof.
  unfold stoi. destruct (match skip_spaces s with [] => _ | _ => _ end) as [neg s1].
  destruct (negb _); [done|]. by destruct (_ && _).
Qed.

Lemma clears_bind {A} (m : sprog A) (k : A -> sprog unit) st :
  snd (m st) = st -> (forall a, clears st (snd (k a st))) ->
  clears st (snd (pbind m k st)).
Proof.
  intros Hm Hk. unfold pbind. destruct (m st) as [[a|r] st1]; cbn in Hm; subst; [apply Hk|].
  apply clears_refl.
Qed.

Lemma set_entry_clears get set i v st :
  (forall l st1, clears st1 (set l st1)) -> clears st (snd (set_entry get set i v st)).
Proof.
  intros Hs. apply clears_bind; [done|]. intros st1.
  apply clears_bind; [apply nth_set_state|]. intros l. apply Hs.
Qed.

Lemma config_line_clears s st : clears st (snd (config_line s st)).
Proof.
  unfold config_line. destruct (_ || _); [apply clears_refl|]. cbv zeta.
  apply clears_bind; [apply stoi_state|]. intros ch.
  apply clears_bind; [apply stoi_state|]. intros v.
  repeat match goal with |- context [if decide ?P then _ else _] => destruct (decide P) end;
    try (apply set_entry_clears; split; apply submask_refl); try (split; apply submask_refl).
  - apply clears_bind; [by destruct (_ && _)|]. intros m. cbn.
    split; [apply submask_land|apply submask_refl].
  - apply clears_bind; [by destruct (_ && _)|]. intros m. cbn.
    split; [apply submask_refl|apply submask_land].
Qed.

Lemma config_lines_clears ls st : clears st (snd (config_lines ls st)).
Proof.
  revert st. induction ls as [|s ls IH]; intros st; [apply clears_refl|].
  cbn [config_lines]. unfold pbind. pose proof (config_line_clears s st) as Hc.
  destruct (config_line s st) as [[[]|r] st1]; cbn [snd] in *; [|done].
  eapply clears_trans; [exact Hc|apply IH].
Qed.

(** *** The command line *)

Lemma set_entries_spec n v get set st :
  (forall l s, get (set l s) = l) -> (forall l1 l2 s, set l2 (set l1 s) = set l2 s) ->
  (forall s, set (get s) s = s) -> 0 <= n ->
  (n <= Z.of_nat (length (get st)) ->
     set_entries n v get set st =
       (Done tt, set (replicate (Z.to_nat n) v ++ drop (Z.to_nat n) (get st)) st)) /\
  (Z.of_nat (length (get st)) < n -> fst (set_entries n v get set st) = Halt OutOfBounds).
Proof.
  intros Hgs Hss Hsg Hn. set (len := length (get st)).
  set (I := fun (j : Z) (_ : unit) t => exists k, j = Z.of_nat k /\
    t = set (replicate k v ++ drop k (get st)) st).
  assert (HI0 : I 0 tt st) by (exists 0%nat; split; [done|]; symmetry; exact (Hsg st)).
  assert (Hlen : forall k, (k <= len)%nat -> length (replicate k v ++ drop k (get st)) = len).
  { intros k Hk. rewrite length_app, length_replicate, length_drop. fold len. lia. }
  assert (Hstep : forall j t, 0 <= j < Z.of_nat len -> I j tt t ->
    wp (let* st0 := get_state in let* l := nth_set (get st0) j v in modify_state (set l);;
        pret (inl tt)) (fun (o : unit + Empty_set) t1 => o = inl tt /\ I (j + 1) tt t1) t).
  { intros j t Hj (k & -> & ->). apply wp_bind, wp_get.
    rewrite Hgs, nth_set_ok, pbind_ret by (rewrite Hlen; lia).
    apply wp_bind, wp_modify, wp_ret. split; [done|]. exists (S k). split; [lia|].
    rewrite Hss. f_equal. rewrite Nat2Z.id, insert_app_r_alt by (rewrite length_replicate; lia).
    rewrite length_replicate, Nat.sub_diag.
    destruct (lookup_lt_is_Some_2 (get st) k) as [x Hx]; [unfold len in Hj; lia|].
    rewrite (drop_S _ x) by done. by rewrite replicate_S_end, <- app_assoc. }
  split; intros Hle.
  - destruct (proj1 (wp_run (set_entries n v get set) (fun _ t => I n tt t) st))
      as ([] & t & -> & k & Hk & ->); [|by assert (Z.to_nat n = k) as -> by lia].
    unfold set_entries. apply wp_bind.
    apply (wp_for_loop I); [done| |].
    + intros j [] t Hj Ht. eapply wp_mono; [apply Hstep; [lia|done]|].
      by intros o t1 [-> ?].
    + intros [] t Ht. apply wp_ret. by replace n with (0 + Z.of_nat (Z.to_nat n)) by lia.
  - unfold set_entries. apply pbind_halt. apply (for_loop_halts I _ _ len); [lia|done| |].
    + intros j [] t Hj Ht. eapply wp_mono; [apply Hstep; [lia|done]|].
      intros o t1 [-> ?]. by exists tt.
    + intros [] t (k & Hk & ->). assert (k = len) as -> by lia.
      unfold pbind, get_state. rewrite Hgs. unfold nth_set.
      rewrite Hlen, (proj2 (Z.ltb_ge _ _)), andb_false_r by lia. done.
Qed.

(** *** From the settings to the engines *)

Definition entry (l : list Z) (i : Z) : Z := l !!! Z.to_nat i.

(** An array of 32 words of [w] bits. *)
Definition words (w : Z) (l : list Z) : Prop :=
  length l = 32%nat /\ forall i, 0 <= i < 32 -> 0 <= entry l i < 2 ^ w.

Record typed_settings (st : settings) : Prop := {
  wf_workGroupSize : words 32 (workGroupSize st);
  wf_numOps : words 64 (numOps st);
  wf_strideLength : words 32 (strideLength st);
  wf_memBurstSize : words 32 (memBurstSize st);
  wf_initialAddr : words 32 (initialAddr st);
  wf_write : 0 <= write_enable st < 2 ^ 32;
  wf_read : 0 <= read_enable st < 2 ^ 32;
  wf_latency : 0 <= latency_test_enable st < 2 ^ 32;
  wf_channel_word : 0 <= latency_channel st < 2 ^ 32;
}.

Lemma wf_lengths st : typed_settings st ->
  length (workGroupSize st) = 32%nat /\ length (numOps st) = 32%nat /\
  length (strideLength st) = 32%nat /\ length (memBurstSize st) = 32%nat /\
  length (initialAddr st) = 32%nat.
Proof. intros H. repeat split; apply H. Qed.

Lemma wf_words st : typed_settings st -> forall i, 0 <= i < 32 ->
  0 <= entry (workGroupSize st) i < 2 ^ 32 /\ 0 <= entry (numOps st) i < 2 ^ 64 /\
  0 <= entry (strideLength st) i < 2 ^ 32 /\ 0 <= entry (memBurstSize st) i < 2 ^ 32 /\
  0 <= entry (initialAddr st) i < 2 ^ 32.
Proof.
  intros [[_ H1] [_ H2] [_ H3] [_ H4] [_ H5] _ _ _ _] i Hi.
  repeat (split; [by auto|]). by auto.
Qed.

(** And the latency channel exists. *)
Record wf_settings (st : settings) : Prop := {
  wf_typed :> typed_settings st;
  wf_channel : 0 <= latency_channel st < 32;
}.

(** *** The settings keep their types *)

Lemma words_insert w l k v :
  words w l -> 0 <= v < 2 ^ w -> words w (<[k := v]> l).
Proof.
  intros [Hl Hw] Hv. split; [by rewrite length_insert|]. intros i Hi. unfold entry.
  destruct (decide (k = Z.to_nat i)) as [->|Hne].
  - rewrite list_lookup_total_insert_eq; [done|lia].
  - rewrite list_lookup_total_insert_ne by done. by apply Hw.
Qed.

(** A program that keeps the types. *)
Abbreviation preserves := (keeps typed_settings).

(** One of the three arrays that are set. *)
Definition array_field (get : settings -> list Z) (set : list Z -> settings -> settings) : Prop :=
  forall st, typed_settings st ->
    words 32 (get st) /\ forall l, words 32 l -> typed_settings (set l st).

Lemma array_workGroupSize : array_field workGroupSize set_workGroupSize.
Proof. intros st []. split; [done|]. by intros l Hl. Qed.
Lemma array_strideLength : array_field strideLength set_strideLength.
Proof. intros st []. split; [done|]. by intros l Hl. Qed.
Lemma array_memBurstSize : array_field memBurstSize set_memBurstSize.
Proof. intros st []. split; [done|]. by intros l Hl. Qed.

Create HintDb settings.
#[local] Hint Resolve array_workGroupSize array_strideLength array_memBurstSize : settings.

Lemma preserves_set get set i v :
  array_field get set -> 0 <= v < 2 ^ 32 ->
  preserves (let* st := get_state in let* l := nth_set (get st) i v in modify_state (set l)).
Proof.
  intros Hf Hv st Ht. unfold pbind, get_state, nth_set. destruct (_ && _); [|done].
  apply (Hf st Ht), words_insert; [apply (Hf st Ht)|done].
Qed.

Lemma preserves_entry get set i v : array_field get set -> preserves (set_entry get set i v).
Proof. intros Hf. apply preserves_set; [done|apply u32_range]. Qed.

Lemma preserves_entries get set n v :
  array_field get set -> 0 <= v < 2 ^ 32 -> preserves (set_entries n v get set).
Proof.
  intros Hf Hv. apply keeps_bind; [|intros; apply keeps_ret].
  apply keeps_for. intros j l st Ht.
  pose proof (preserves_set get set j v Hf Hv st Ht) as Hp. revert Hp.
  unfold pbind, get_state, nth_set. by destruct (_ && _).
Qed.

Lemma preserves_when {A} (o : option A) (f : A -> sprog unit) :
  (forall a, preserves (f a)) -> preserves (when o f).
Proof. intros Hf. destruct o; [apply Hf|apply keeps_ret]. Qed.

Lemma preserves_stoi l : preserves (stoi l).
Proof. intros st Ht. by rewrite stoi_state. Qed.

Lemma land_range a b n : 0 <= n -> 0 <= a < 2 ^ n -> 0 <= Z.land a b < 2 ^ n.
Proof.
  intros Hn Ha. split; [apply Z.land_nonneg; lia|].
  rewrite <- (Z.mod_small a (2 ^ n)), <- Z.land_ones, <- Z.land_assoc,
    (Z.land_comm (Z.ones n)), Z.land_assoc, Z.land_ones by lia.
  apply Z.mod_pos_bound. lia.
Qed.

Lemma typed_masks st w r l c :
  typed_settings st -> 0 <= w < 2 ^ 32 -> 0 <= r < 2 ^ 32 -> 0 <= l < 2 ^ 32 ->
  0 <= c < 2 ^ 32 ->
  typed_settings (set_write_enable w (set_read_enable r (set_latency l c st))).
Proof. by intros []. Qed.

Lemma preserves_line s : preserves (config_line s).
Proof.
  unfold config_line. destruct (_ || _); [apply keeps_ret|]. cbv zeta.
  apply keeps_bind; [apply preserves_stoi|]. intros ch.
  apply keeps_bind; [apply preserves_stoi|]. intros v.
  repeat match goal with |- context [if decide ?P then _ else _] => destruct (decide P) end;
    try (apply preserves_entry; auto with settings); try apply keeps_ret.
  - apply keeps_bind; [intros st Ht; by destruct (_ && _)|]. intros m st []. cbn.
    split; try done. by apply land_range.
  - apply keeps_bind; [intros st Ht; by destruct (_ && _)|]. intros m st []. cbn.
    split; try done. by apply land_range.
  - intros st []. split; try done; apply u32_range.
Qed.

Lemma preserves_lines ls : preserves (config_lines ls).
Proof.
  induction ls as [|l ls IH]; [apply keeps_ret|].
  apply keeps_bind; [apply preserves_line|done].
Qed.

Lemma preserves_configure k o : preserves (configure k o).
Proof.
  unfold configure. repeat (apply keeps_bind; [|intros _]);
    try (destruct (tk_has_channel k); [|apply keeps_ret]);
    apply preserves_when; intros v;
    try (apply preserves_entries; [auto with settings|apply u32_range]);
    try (apply preserves_when, preserves_lines);
    intros st []; split; try done; apply u32_range.
Qed.

Definition words_ok (w : Z) (l : list Z) : bool :=
  (length l =? 32)%nat && forallb (fun x => (0 <=? x) && (x <? 2 ^ w)) l.

Lemma words_check w l : words_ok w l = true -> words w l.
Proof.
  unfold words_ok. rewrite andb_true_iff, Nat.eqb_eq, forallb_forall.
  intros [Hl Hw]. split; [done|]. intros i Hi.
  specialize (Hw (entry l i)). rewrite andb_true_iff, Z.leb_le, Z.ltb_lt in Hw. apply Hw.
  apply list_elem_of_In, list_elem_of_lookup. exists (Z.to_nat i).
  apply list_lookup_lookup_total_lt. lia.
Qed.

Lemma defaults_typed :
  typed_settings (tk_defaults hbm_test) /\ typed_settings (tk_defaults ddr_test).
Proof. by split; split; try (apply words_check; vm_compute). Qed.

(** The writes of configuring channel [i], and of running the test. *)
Definition config_of (st : settings) (i : Z) : list (Z * Z) :=
  config_writes (entry (workGroupSize st) i) (entry (numOps st) i) (entry (strideLength st) i)
    (entry (memBurstSize st) i) (entry (initialAddr st) i) i.

Definition run_of (st : settings) : list (Z * Z) :=
  let i := latency_channel st in
  run_writes (write_enable st) (read_enable st) (latency_test_enable st) i
    (entry (workGroupSize st) i) (entry (numOps st) i) (entry (strideLength st) i)
    (entry (memBurstSize st) i) (entry (initialAddr st) i).

(** The test program of a design. *)
Definition test_of (B : design) : test_kind :=
  match B with u280_hbm => hbm_test | u280_ddr => ddr_test end.

(** The initial address of the hardware for a setting of the program.  The
    program never writes register 17, which holds [up]. *)
Definition host_address (B : design) (up a : Z) : Z :=
  match B with u280_hbm => 4 * a mod 2 ^ 33 | u280_ddr => (up * 2 ^ 32 + a) mod 2 ^ 64 end.

(** What the engine of channel [i] should work with. *)
Definition params_of (B : design) (up : Z) (st : settings) (i : Z) : lt_params :=
  LtParams (entry (workGroupSize st) i) (entry (strideLength st) i) (entry (numOps st) i)
    (entry (memBurstSize st) i) (host_address B up (entry (initialAddr st) i))
    ((i =? latency_channel st) && Z.odd (latency_test_enable st)).

Lemma nth_get_entry {S} (l : list Z) i :
  length l = 32%nat -> 0 <= i < 32 -> nth_get (S := S) l i = pret (entry l i).
Proof.
  intros Hl Hi. apply nth_get_ok; [lia|]. apply list_lookup_lookup_total_lt. lia.
Qed.

Lemma num_ops_split x : 0 <= x < 2 ^ 64 -> u32 (Z.shiftr x 32) * 2 ^ 32 + u32 x = x.
Proof. intros Hx. rewrite Z.shiftr_div_pow2 by done. unfold u32. zdivmod. Qed.

Lemma host_address_out B r a :
  0 <= a < 2 ^ 32 -> r 6 = u32 a ->
  out_initial_addr B r mod 2 ^ addr_field B = host_address B (r 17) a.
Proof.
  intros Ha E. rewrite u32_small in E by done. destruct B; cbn [out_initial_addr host_address]; rewrite E.
  - by rewrite Z.shiftl_mul_pow2, (Z.mul_comm _ (2 ^ 2)).
  - done.
Qed.

Lemma config_settings B (st : settings) (r : Z -> Z) i :
  wf_settings st -> 0 <= i < 32 ->
  staged B (write_regs (tail (config_of st i)) r) =
    LtParams (entry (workGroupSize st) i) (entry (strideLength st) i) (entry (numOps st) i)
      (entry (memBurstSize st) i) (host_address B (r 17) (entry (initialAddr st) i)) false.
Proof.
  intros Hw Hi. destruct (wf_words _ Hw i Hi) as (H1 & H2 & H3 & H4 & H5).
  unfold staged. rewrite (host_address_out B _ (entry (initialAddr st) i)) by done.
  unfold out_work_group_size, out_stride, out_num_mem_ops, out_mem_burst_size,
    out_latency_test_enable.
  cbv [config_of config_writes write_regs fold_left tail write_reg fst snd Z.eqb Pos.eqb
    workGroupSizeAddr strideLengthAddr numOpsAddrLower numOpsAddrUpper memBurstSizeAddr
    initialAddrAddr latencyTestEnableAddr].
  by rewrite num_ops_split, !u32_small by done.
Qed.

Lemma run_settings B (st : settings) (r : Z -> Z) :
  wf_settings st ->
  let r' := write_regs (take 9 (tail (run_of st))) r in
  staged B r' = params_of B (r 17) st (latency_channel st) /\
  r' 7 = write_enable st /\ r' 8 = read_enable st.
Proof.
  intros Hw. cbv zeta.
  destruct (wf_words _ Hw _ (wf_channel _ Hw)) as (H1 & H2 & H3 & H4 & H5).
  pose proof (wf_write _ Hw). pose proof (wf_read _ Hw). pose proof (wf_latency _ Hw).
  unfold staged. rewrite (host_address_out B _ (entry (initialAddr st) (latency_channel st))) by done.
  unfold params_of, out_work_group_size, out_stride, out_num_mem_ops,
    out_mem_burst_size, out_latency_test_enable.
  cbv [run_of run_writes write_regs fold_left tail take write_reg fst snd Z.eqb Pos.eqb
    workGroupSizeAddr strideLengthAddr numOpsAddrLower numOpsAddrUpper memBurstSizeAddr
    initialAddrAddr latencyTestEnableAddr writeEnableAddr readEnableAddr].
  rewrite num_ops_split, !u32_small by done.
  split; [|done].
  fold (latency_channel st =? latency_channel st).
  f_equal. by destruct (latency_channel st) as [|p|p]; cbn; rewrite ?Pos.eqb_refl.
Qed.

Lemma config_plain st i : Forall plain (tail (config_of st i)).
Proof. unfold config_of, config_writes. cbn [tail]. repeat (constructor; [by unfold plain|]). constructor. Qed.

Lemma run_plain st : Forall plain (take 9 (tail (run_of st))).
Proof.
  unfold run_of, run_writes. cbn [tail take]. repeat (constructor; [by unfold plain|]).
  constructor.
Qed.

(** The engines that a run starts. *)
Definition started_of (B : design) (up : Z) (st : settings) : list started :=
  flat_map (fun i =>
    (if Z.testbit (write_enable st) i then [Started false i (params_of B up st i)] else []) ++
    (if Z.testbit (read_enable st) i then [Started true i (params_of B up st i)] else []))
    (seqZ 0 (n_mem_intf B)).

Definition setup_writes (st : settings) (n : Z) : list (Z * Z) :=
  flat_map (config_of st) (seqZ 0 n).

Lemma setup_hw B st n b :
  wf_settings st -> (n <= Z.to_nat (n_mem_intf B))%nat -> out_start (dma_control_reg b) = false ->
  let b' := hw_writes B (setup_writes st (Z.of_nat n)) b in
  out_start (dma_control_reg b') = false /\ engines_started b' = engines_started b /\
  dma_control_reg b' 17 = dma_control_reg b 17 /\
  forall i, 0 <= i < Z.of_nat n ->
    params b' i = LtParams (entry (workGroupSize st) i) (entry (strideLength st) i)
      (entry (numOps st) i) (entry (memBurstSize st) i)
      (host_address B (dma_control_reg b 17) (entry (initialAddr st) i)) false.
Proof.
  intros Hw Hn Hs. pose proof (n_mem_intf_range B) as HB.
  induction n as [|n IH]; cbv zeta; [repeat (split; [done|]); lia|].
  specialize (IH ltac:(lia)). cbv zeta in IH. destruct IH as (Hs1 & He1 & H17 & Hp1).
  unfold setup_writes in *. rewrite seqZ_S, flat_map_app, hw_writes_app, Z.add_0_l.
  cbn [flat_map]. rewrite app_nil_r. set (b1 := hw_writes B _ b) in *.
  change (config_of st (Z.of_nat n)) with
    ((10, u32 (Z.of_nat n)) :: tail (config_of st (Z.of_nat n))).
  rewrite (u32_small (Z.of_nat n)) by lia.
  destruct (hw_setup B (Z.of_nat n) (tail (config_of st (Z.of_nat n))) b1)
    as (Hr & _ & He & Hj & Hp); [lia|apply config_plain|done|].
  split; [|split; [|split]].
  - rewrite Hr. unfold out_start. by rewrite write_regs_other by (apply config_plain || lia).
  - by rewrite He.
  - rewrite Hr. by rewrite write_regs_other by (apply config_plain || lia).
  - intros i Hi. destruct (decide (i = Z.of_nat n)) as [->|Hne].
    + rewrite Hp, Hr, <- H17. apply (config_settings B st (write_reg (dma_control_reg b1) 10 (Z.of_nat n)));
      [done|lia].
    + rewrite Hj by done. apply Hp1. lia.
Qed.

(** The writes up to the start: every channel, then the latency channel again
    with the enable masks. *)
Definition arm_writes (B : design) (st : settings) : list (Z * Z) :=
  setup_writes st (n_mem_intf B) ++ (10, latency_channel st) :: take 9 (tail (run_of st)).

Lemma run_of_split st :
  wf_settings st ->
  run_of st = ((10, latency_channel st) :: take 9 (tail (run_of st))) ++ [(11, 1); (11, 0)].
Proof.
  intros Hw. pose proof (wf_channel _ Hw). unfold run_of, run_writes. cbn [tail take app].
  by rewrite (u32_small (latency_channel st)) by lia.
Qed.

Lemma arm_hw B st b :
  wf_settings st -> latency_channel st < n_mem_intf B -> out_start (dma_control_reg b) = false ->
  let b' := hw_writes B (arm_writes B st) b in
  let r := dma_control_reg b' in
  engines_started b' = engines_started b /\ out_start r = false /\
  out_hbm_channel r = latency_channel st /\ params b' (latency_channel st) = staged B r /\
  r 7 = write_enable st /\ r 8 = read_enable st /\
  forall i, 0 <= i < n_mem_intf B -> params b' i = params_of B (dma_control_reg b 17) st i.
Proof.
  intros Hw Hlt Hs. cbv zeta. unfold arm_writes. rewrite hw_writes_app. pose proof (n_mem_intf_range B) as HB.
  destruct (setup_hw B st (Z.to_nat (n_mem_intf B)) b Hw (le_n _) Hs) as (Hs1 & He1 & H17 & Hp1).
  cbv zeta in *. rewrite Z2Nat.id in * by lia. set (b1 := hw_writes B (setup_writes st _) b) in *.
  pose proof (wf_channel _ Hw) as Hlc. set (lc := latency_channel st) in *.
  destruct (hw_setup B lc (take 9 (tail (run_of st))) b1)
    as (Hr & Hc & He & Hj & Hp); [lia|apply run_plain|done|].
  set (b2 := hw_writes B (_ :: _) b1) in *.
  destruct (run_settings B st (write_reg (dma_control_reg b1) 10 lc) Hw) as (Hst & Hwe & Hre).
  rewrite <- Hr in Hst, Hwe, Hre.
  split; [by rewrite He|]. split.
  { rewrite Hr. unfold out_start. by rewrite write_regs_other by (apply run_plain || lia). }
  split; [done|]. split; [done|]. split; [done|]. split; [done|]. intros i Hi.
  destruct (decide (i = lc)) as [->|Hne]; [by rewrite Hp, Hst, <- H17|].
  rewrite Hj, Hp1 by (done || lia). unfold params_of. fold lc.
  by rewrite (proj2 (Z.eqb_neq i lc) Hne).
Qed.

Lemma run_hw B st b :
  wf_settings st -> latency_channel st < n_mem_intf B -> out_start (dma_control_reg b) = false ->
  let b' := hw_writes B (setup_writes st (n_mem_intf B) ++ run_of st) b in
  engines_started b' = engines_started b ++ started_of B (dma_control_reg b 17) st.
Proof.
  intros Hw Hlt Hs. cbv zeta. rewrite (run_of_split st Hw), app_assoc, hw_writes_app.
  destruct (arm_hw B st b Hw Hlt Hs) as (He & Hs2 & Hc & Hst & Hwe & Hre & Hp).
  fold (arm_writes B st). set (b2 := hw_writes B (arm_writes B st) b) in *.
  destruct (hw_pulse B b2) as (Hf & _ & _); [done|by rewrite Hc|by rewrite Hc|].
  rewrite Hf, He. f_equal. unfold start_engines, started_of, out_write_enable, out_read_enable.
  rewrite Hwe, Hre. apply flat_map_ext_in. intros i Hi%elem_of_seqZ.
  by rewrite !out_bit, Hp by lia.
Qed.

(** All writes until the program waits for the hardware. *)
Definition program_writes (B : design) (st : settings) : list (Z * Z) :=
  setup_writes st (n_mem_intf B) ++ run_of st ++ [(10, latency_channel st)].

(** *** The register writes in a trace *)

Definition reg_write (c : FpgaController) (e : fevent) : option (Z * Z) :=
  match e with FWrite p v => Some ((p - m_base c) / 4, v) | _ => None end.
Definition reg_writes (c : FpgaController) (evs : list fevent) : list (Z * Z) :=
  omap (reg_write c) evs.

Lemma reg_writes_app c e1 e2 : reg_writes c (e1 ++ e2) = reg_writes c e1 ++ reg_writes c e2.
Proof. apply omap_app. Qed.

Lemma reg_writes_addr c k v : reg_write c (FWrite (reg_addr c k) v) = Some (k, v).
Proof.
  cbn. unfold reg_addr. replace (m_base c + 4 * k - m_base c) with (k * 4) by lia.
  by rewrite Z.div_mul.
Qed.

Lemma reg_writes_locked c ws : reg_writes c (locked_writes c ws) = ws.
Proof.
  unfold locked_writes. rewrite app_comm_cons, reg_writes_app. cbn [reg_writes].
  change (reg_writes c (FLock :: ?l)) with (reg_writes c l).
  change (reg_writes c [FUnlock]) with (@nil (Z * Z)). rewrite app_nil_r.
  induction ws as [|[k v] ws IH]; [done|]. unfold reg_writes in *. cbn [fmap list_fmap].
  cbn [omap list_omap fst snd]. rewrite reg_writes_addr. f_equal. exact IH.
Qed.

Definition selects (ws : list (Z * Z)) : Prop := Forall (fun w => w.1 = 10) ws.

Lemma test_channels B : tk_channels (test_of B) = n_mem_intf B.
Proof. by destruct B. Qed.

Lemma selects_hw B ws b :
  selects ws -> engines_started (hw_writes B ws b) = engines_started b.
Proof.
  intros Hs. revert b. induction Hs as [|[k v] ws Hk _ IH]; intros b; [done|].
  cbn in Hk. subst k. cbn [hw_writes fold_left fst snd]. fold (hw_writes B ws).
  etransitivity; [apply IH|]. unfold hw_write. rewrite reg_index by lia.
  cbn [engines_started]. unfold out_start, write_reg. cbn [Z.eqb Pos.eqb].
  by rewrite andb_negb_l, app_nil_r.
Qed.

Lemma selects_report c mhz no bursts chs cs :
  selects (reg_writes c (report c mhz no bursts chs cs)).
Proof.
  revert cs. induction chs as [|[rd i] chs IH]; intros [|v cs]; [constructor|constructor|constructor|].
  cbn [report]. rewrite reg_writes_app. apply Forall_app. split; [|apply IH].
  unfold speed_events, reg_writes. cbn [omap list_omap]. rewrite reg_writes_addr.
  by constructor.
Qed.

Lemma no_writes c (evs : list fevent) :
  Forall (fun e => reg_write c e = None) evs -> reg_writes c evs = [].
Proof. induction 1 as [|e evs He _ IH]; [done|]. unfold reg_writes in *. cbn. by rewrite He. Qed.

Lemma waits_writes c we re e : waits c we re e -> reg_writes c e = [].
Proof.
  intros (vs & -> & _). apply no_writes, Forall_concat, Forall_fmap, Forall_true.
  intros v. by repeat constructor.
Qed.

Lemma data_writes c mhz we re lt ch no bursts e cs vs :
  waits c we re e -> exists later,
    reg_writes c (data_events c mhz we re lt ch no bursts e cs vs) = (10, u32 ch) :: later /\
    selects later.
Proof.
  intros Hw. unfold data_events. rewrite !reg_writes_app, (waits_writes _ _ _ _ Hw).
  assert (E : reg_writes c (if lt =? 0 then []
    else lat_reads c vs ++ (FPrintLatency <$> take 100 vs)) = []).
  { destruct (lt =? 0); [done|]. apply no_writes, Forall_app_2;
      apply Forall_fmap, Forall_true; done. }
  rewrite E. eexists. split.
  - unfold reg_writes at 1. cbn [omap list_omap]. change (reg_write c FLock) with (@None (Z * Z)).
    rewrite reg_writes_addr. done.
  - repeat apply Forall_app_2; try done. apply selects_report.
Qed.

Lemma selects_data c mhz we re lt ch no bursts e cs vs :
  waits c we re e -> selects (reg_writes c (data_events c mhz we re lt ch no bursts e cs vs)).
Proof.
  intros Hw. destruct (data_writes c mhz we re lt ch no bursts e cs vs Hw) as (later & -> & Hl).
  by constructor.
Qed.

Section RunSpecs.
Context `{FpgaEnv}.

Definition setup_events (c : FpgaController) (st : settings) (n : Z) : fhist :=
  flat_map (fun i => locked_writes c (config_of st i)) (seqZ 0 n).

(** What a test does until it waits. *)
Definition start_events (k : test_kind) (c : FpgaController) (st : settings) : fhist :=
  setup_events c st (tk_channels k) ++ locked_writes c (run_of st) ++
  [FLock; FWrite (reg_addr c hbmChannelAddr) (u32 (latency_channel st))].

Lemma setup_events_writes c st n :
  reg_writes c (setup_events c st n) = setup_writes st n.
Proof.
  unfold setup_events, setup_writes. induction (seqZ 0 n) as [|i l IH]; [done|].
  cbn [flat_map]. by rewrite reg_writes_app, reg_writes_locked, IH.
Qed.

Lemma config_channels_spec {B} c st n s (k : unit -> fprog B) Q :
  host_big_endian = false -> mapped c s -> typed_settings st -> 0 <= n <= 32 ->
  wp (k tt) Q (emit (setup_events c st n) s) ->
  wp (pbind (config_channels c n st) k) Q s.
Proof.
  intros He Hm Hw Hn Hk. apply wp_bind. unfold config_channels. apply wp_bind.
  apply (wp_for_loop (fun j (_ : unit) t => 0 <= j /\ t = emit (setup_events c st j) s)).
  - split; [done|]. by rewrite emit_nil.
  - intros j [] t Hj (_ & ->). destruct (wf_lengths _ Hw) as (? & ? & ? & ? & ?).
    rewrite !nth_get_entry, !pbind_ret by (done || lia). apply wp_bind.
    apply configHBM_spec; [done|done|]. apply wp_ret. split; [lia|].
    unfold setup_events. replace (j + 1) with (Z.of_nat (S (Z.to_nat j))) by lia.
    rewrite seqZ_S, flat_map_app, Z2Nat.id, Z.add_0_l by lia. cbn [flat_map].
    by rewrite app_nil_r.
  - intros [] t (_ & ->). apply wp_ret. rewrite Z.add_0_l, Z2Nat.id by lia. exact Hk.
Qed.

Lemma run_test_spec k c fuel n st s (Q : unit -> fstate -> Prop) :
  host_big_endian = false -> mapped c s -> wf_settings st -> 0 <= tk_channels k <= 32 ->
  finishes c (f_trace s ++ start_events k c st) n (write_enable st) (read_enable st) ->
  (n <= fuel)%nat -> (1 <= fuel)%nat ->
  latency_test_enable st = 0 \/ 100 <= entry (numOps st) (latency_channel st) ->
  (forall e cs vs, waits c (write_enable st) (read_enable st) e ->
     length cs = length (flat_map (enabled (write_enable st) (read_enable st)) (seqZ 0 32)) ->
     Q tt (emit (setup_events c st (tk_channels k) ++ locked_writes c (run_of st) ++
       data_events c (tk_mhz k) (write_enable st) (read_enable st) (latency_test_enable st)
         (latency_channel st) (entry (numOps st) (latency_channel st)) (memBurstSize st)
         e cs vs) s)) ->
  wp (run_test k c fuel st) Q s.
Proof.
  intros He Hm Hw Hk Hf Hn H1 Hlt HQ. unfold run_test.
  destruct (wf_lengths _ Hw) as (? & ? & ? & Hbl & ?). pose proof (wf_channel _ Hw).
  apply config_channels_spec; [done|done|apply Hw|done|]. cbv zeta.
  rewrite !nth_get_entry, !pbind_ret by done. apply wp_bind.
  apply runHBMtest_spec; [done|done|].
  eapply read_data_spec; [done|exact Hm| |exact Hn|exact H1|by rewrite Hbl|exact Hlt|].
  { unfold start_events in Hf. cbn [emit f_trace]. by rewrite <- !app_assoc. }
  intros e cs vs Hwt Hcs _. rewrite emit_emit, <- app_assoc. by apply HQ.
Qed.
End RunSpecs.

(** *** What is printed *)

(** The lines with a bandwidth: the direction, the channel, the bytes, the clock and
    the cycles. *)
Definition speed_line (e : fevent) : option (bool * Z * Z * Z * Z) :=
  match e with FPrintSpeed rd i bytes mhz cycles => Some (rd, i, bytes, mhz, cycles) | _ => None end.
Definition printed (evs : list fevent) : list (bool * Z * Z * Z * Z) := omap speed_line evs.
(** Without the cycles. *)
Definition speed_lines (evs : list fevent) : list (bool * Z * Z * Z) := (printed evs).*1.

Lemma printed_app e1 e2 : printed (e1 ++ e2) = printed e1 ++ printed e2.
Proof. apply omap_app. Qed.

Lemma no_speed (evs : list fevent) :
  Forall (fun e => speed_line e = None) evs -> printed evs = [].
Proof. induction 1 as [|e evs He _ IH]; [done|]. unfold printed in *. cbn. by rewrite He. Qed.

Lemma printed_report c mhz no bursts chs cs :
  length cs = length chs ->
  printed (report c mhz no bursts chs cs) =
    zip ((fun x => (x.1, x.2, u64 (entry bursts x.2 * no), mhz)) <$> chs) cs.
Proof.
  revert cs. induction chs as [|[rd i] chs IH]; intros [|v cs]; try done.
  intros [= Hl]. cbn [report fmap list_fmap]. rewrite printed_app, IH by done. done.
Qed.

Lemma printed_locked c ws : printed (locked_writes c ws) = [].
Proof.
  apply no_speed. unfold locked_writes. constructor; [done|].
  apply Forall_app_2; [apply Forall_fmap, Forall_true; done|by repeat constructor].
Qed.

Lemma printed_setup c st n : printed (setup_events c st n) = [].
Proof.
  unfold setup_events. induction (seqZ 0 n) as [|i l IH]; [done|].
  cbn [flat_map]. by rewrite printed_app, printed_locked.
Qed.

Lemma printed_data c mhz we re lt ch no bursts e cs vs :
  waits c we re e -> length cs = length (flat_map (enabled we re) (seqZ 0 32)) ->
  printed (data_events c mhz we re lt ch no bursts e cs vs) =
    zip ((fun x => (x.1, x.2, u64 (entry bursts x.2 * no), mhz)) <$>
      flat_map (enabled we re) (seqZ 0 32)) cs.
Proof.
  intros (ws & -> & _) Hcs. unfold data_events. rewrite !printed_app.
  rewrite printed_report by done.
  assert (E1 : printed (polls c ws) = []).
  { apply no_speed, Forall_concat, Forall_fmap, Forall_true. intros v. by repeat constructor. }
  assert (E2 : printed (if lt =? 0 then []
    else lat_reads c vs ++ (FPrintLatency <$> take 100 vs)) = []).
  { apply no_speed. destruct (lt =? 0); [done|].
    apply Forall_app_2; apply Forall_fmap, Forall_true; done. }
  rewrite E1, E2. cbn [app]. by rewrite !app_nil_r.
Qed.

Lemma speed_lines_data c mhz we re lt ch no bursts e cs vs :
  waits c we re e -> length cs = length (flat_map (enabled we re) (seqZ 0 32)) ->
  speed_lines (data_events c mhz we re lt ch no bursts e cs vs) =
    (fun x => (x.1, x.2, u64 (entry bursts x.2 * no), mhz)) <$>
      flat_map (enabled we re) (seqZ 0 32).
Proof.
  intros Hw Hcs. unfold speed_lines. rewrite printed_data by done. apply fst_zip.
  rewrite length_fmap. lia.
Qed.

Lemma speed_lines_app e1 e2 : speed_lines (e1 ++ e2) = speed_lines e1 ++ speed_lines e2.
Proof. unfold speed_lines. by rewrite printed_app, fmap_app. Qed.

Lemma speed_lines_start k c st :
  speed_lines (setup_events c st (tk_channels k)) = [] /\ speed_lines (locked_writes c (run_of st)) = [].
Proof. unfold speed_lines. by rewrite printed_setup, printed_locked. Qed.

(** ** Properties *)

Section Properties.
Context `{FpgaEnv}.

(** C14: the whole chain from the settings to the hardware, for either design
    and its program.  The register writes of the test, in the order the program
    makes them, start exactly the engines of the design whose enable bits are
    set, each once; every engine gets the parameters of its own channel (the
    64-bit number of operations is put together again; the address is
    multiplied by four for the HBM, and for the DDR it has what register 17
    held as its upper half), and only the latency channel gets the latency bit;
    all of this before the start pulse.  The writes are [program_writes], and
    behind them only the channel is selected, so nothing more is started. *)
Theorem test_starts_engines B c fuel n st s :
  host_big_endian = false -> mapped c s -> wf_settings st -> latency_channel st < n_mem_intf B ->
  finishes c (f_trace s ++ start_events (test_of B) c st) n (write_enable st) (read_enable st) ->
  (n <= fuel)%nat -> (1 <= fuel)%nat ->
  latency_test_enable st = 0 \/ 100 <= entry (numOps st) (latency_channel st) ->
  wp (run_test (test_of B) c fuel st) (fun _ s1 => exists evs later, s1 = emit evs s /\
    reg_writes c evs = program_writes B st ++ later /\ selects later /\
    forall b, out_start (dma_control_reg b) = false ->
      engines_started (hw_writes B (reg_writes c evs) b) =
        engines_started b ++ started_of B (dma_control_reg b 17) st) s.
Proof.
  intros He Hm Hw Hc Hf Hn H1 Hlt. pose proof (n_mem_intf_range B).
  eapply run_test_spec; [done..|by destruct B|exact Hf|done|done|done|].
  intros e cs vs Hwt Hcs.
  destruct (data_writes c (tk_mhz (test_of B)) (write_enable st) (read_enable st)
    (latency_test_enable st) (latency_channel st) (entry (numOps st) (latency_channel st))
    (memBurstSize st) e cs vs Hwt) as (later & E & Hl).
  eexists _, later. split; [done|]. pose proof (wf_channel _ Hw).
  rewrite !reg_writes_app, setup_events_writes, reg_writes_locked, E, test_channels, u32_small by lia.
  unfold program_writes. split; [by rewrite <- !app_assoc|]. split; [done|]. intros b Hb.
  rewrite app_assoc, hw_writes_app, selects_hw by by constructor. by apply run_hw.
Qed.

(** The test returns once the device shows the enabled channels as done,
    and prints one bandwidth for each enabled direction of each channel, in
    channel order, writing first.  The bytes it assumes are those of the number
    of operations of the latency channel, also for the channels whose own
    number is different. *)
Theorem test_reports_speeds k c fuel n st s :
  host_big_endian = false -> mapped c s -> wf_settings st -> 0 <= tk_channels k <= 32 ->
  finishes c (f_trace s ++ start_events k c st) n (write_enable st) (read_enable st) ->
  (n <= fuel)%nat -> (1 <= fuel)%nat ->
  latency_test_enable st = 0 \/ 100 <= entry (numOps st) (latency_channel st) ->
  wp (run_test k c fuel st) (fun _ s1 => exists evs, s1 = emit evs s /\
    speed_lines evs = (fun x => (x.1, x.2,
        u64 (entry (memBurstSize st) x.2 * entry (numOps st) (latency_channel st)),
        tk_mhz k)) <$> flat_map (enabled (write_enable st) (read_enable st)) (seqZ 0 32)) s.
Proof.
  intros He Hm Hw Hk Hf Hn H1 Hlt. eapply run_test_spec; [done..|exact Hf|done|done|done|].
  intros e cs vs Hwt Hcs. eexists. split; [done|].
  destruct (speed_lines_start k c st) as [E1 E2]. rewrite !speed_lines_app, E1, E2. by apply speed_lines_data.
Qed.

(** With the latency test and fewer than 100 operations, the read-out
    prints entries of its array that were never written. *)
Theorem short_latency_test_undefined c fuel n we re lt ch no bursts s :
  host_big_endian = false -> mapped c s ->
  finishes c (f_trace s ++ [FLock; FWrite (reg_addr c hbmChannelAddr) (u32 ch)]) n we re ->
  (n <= fuel)%nat -> (1 <= fuel)%nat -> (32 <= length bursts)%nat -> lt <> 0 -> 0 <= no < 100 ->
  fst (readHBMData c fuel we re lt ch no bursts s) = Halt Undefined.
Proof.
  intros He Hm Hf Hn H1 Hb Hlt Hno. unfold readHBMData, read_data.
  assert (Hpre : wp (fdo FLock;; writeReg c hbmChannelAddr ch;; wait_done c fuel we re;;
    print_speeds c 450 we re no bursts;; pret tt) (fun _ s1 => exists evs, s1 = emit evs s) s).
  { apply (eq_ind (emit [] s) (wp _ _)); [|apply emit_nil].
    apply wp_fdo, wp_writeReg; [done..|]. apply wp_bind.
    eapply wait_done_spec; [done|done|exact Hf|lia|done|]. intros e Hw.
    apply print_speeds_spec; [done..|]. intros cs _. apply wp_ret. by eexists. }
  revert Hpre. unfold wp, pbind.
  destruct (fdo FLock s) as [[u0|r0] s0]; [|done].
  destruct (writeReg c hbmChannelAddr ch s0) as [[u1|r1] s1]; [|done].
  destruct (wait_done c fuel we re s1) as [[u2|r2] s2]; [|done].
  destruct (print_speeds c 450 we re no bursts s2) as [[u3|r3] s3]; [|done].
  intros (evs & [= ->]). rewrite (proj2 (Z.eqb_neq lt 0) Hlt).
  pose proof (print_latencies_short c no evs s He Hm Hno) as Hs.
  by destruct (print_latencies c no (emit evs s)) as [[]].
Qed.

(** If mapping the control device fails, the first register access of the
    controller is outside every mapping: the constructor does not look at the
    result of mmap. *)
Theorem failed_mmap_faults fd byfd wg no sl bs ia ch s :
  (forall h, u64 (os_mmap h fd MAP_SIZE) = MAP_FAILED) ->
  (forall h, u64 (os_mmap h byfd MAP_SIZE) = MAP_FAILED) ->
  f_maps s = [] ->
  fst ((let* c := new_controller fd byfd in configHBM c wg no sl bs ia ch) s) = Halt WildAccess.
Proof.
  intros H1 H2 Hs. unfold new_controller, mmap, fask, pbind, pret. rewrite H1, Z.eqb_refl.
  cbv beta iota. rewrite H2, Z.eqb_refl. cbv beta iota.
  unfold configHBM, writeReg, touch, fdo, modify_state, get_state, require, pbind.
  cbn [f_maps flog]. rewrite Hs. done.
Qed.
End Properties.

(** The lines [readEnable] and [writeEnable] of a configuration file can
    only clear bits of the enable masks, whatever the file says; so a test that
    is started without the command-line options, with both masks 0, runs with
    no channel enabled. *)
Theorem config_file_cannot_enable ls st :
  let st' := snd (config_lines ls st) in
  submask (read_enable st') (read_enable st) /\ submask (write_enable st') (write_enable st).
Proof. apply config_lines_clears. Qed.

(** The option memBurstSize of the HBM test writes one entry past the end
    of its array, whatever the other options are. *)
Theorem burst_option_overruns o v :
  o_memBurstSize o = Some v ->
  fst (configure hbm_test o (tk_defaults hbm_test)) = Halt OutOfBounds.
Proof.
  intros Hv. unfold configure. rewrite Hv.
  set (I := fun st => length (workGroupSize st) = 32%nat /\ length (strideLength st) = 32%nat /\
    length (memBurstSize st) = 32%nat).
  assert (Hskip : forall m (k : unit -> sprog unit) st,
    wp m (fun _ => I) st -> (forall st1, I st1 -> fst (k tt st1) = Halt OutOfBounds) ->
    fst (pbind m k st) = Halt OutOfBounds).
  { intros m k st Hm Hk. unfold wp, pbind in *. destruct (m st) as [[[]|] st1]; [|done].
    by apply Hk. }
  assert (Hset : forall n v1 get set st,
    (forall l s, get (set l s) = l) -> (forall l1 l2 s, set l2 (set l1 s) = set l2 s) ->
    (forall s, set (get s) s = s) -> length (get st) = 32%nat -> 0 <= n <= 32 ->
    (forall l, length l = 32%nat -> I (set l st)) ->
    wp (set_entries n v1 get set) (fun _ => I) st).
  { intros n v1 get set st H1 H2 H3 Hl Hn HI. unfold wp.
    rewrite (proj1 (set_entries_spec n v1 get set st H1 H2 H3 (proj1 Hn)) ltac:(lia)).
    apply HI. rewrite length_app, length_replicate, length_drop. lia. }
  apply Hskip; [destruct (o_readEnable o); [by apply wp_modify|by apply wp_ret]|].
  intros st1 HI1. apply Hskip; [destruct (o_writeEnable o); [by apply wp_modify|by apply wp_ret]|].
  intros st2 HI2. cbn [tk_has_channel hbm_test].
  apply Hskip; [destruct (o_channel o); [by apply wp_modify|by apply wp_ret]|].
  intros st3 HI3. apply Hskip.
  { destruct (o_workGroupSize o); [|by apply wp_ret].
    apply Hset; [done|done|by intros []|apply HI3|by cbn|].
    intros l Hl. split; [done|apply HI3]. }
  intros st4 HI4. apply Hskip.
  { destruct (o_strideLength o); [|by apply wp_ret].
    apply Hset; [done|done|by intros []|apply HI4|by cbn|].
    intros l Hl. split; [apply HI4|]. split; [done|apply HI4]. }
  intros st5 (_ & _ & Hl5). apply pbind_halt. cbn [when tk_burst_writes hbm_test].
  apply (set_entries_spec 33 (u32 v) memBurstSize set_memBurstSize st5);
    [done|done|by intros []|lia|lia].
Qed.

(** ** Examples *)

(** The device shows channel 0 done for writing and channel 1 for reading. *)
Definition bench_env : FpgaEnv := {|
  host_big_endian := false;
  dev_read := fun _ p => if p =? 0x10030 then 1 else if p =? 0x10034 then 2 else 1000;
  os_mmap := fun _ fd _ => 0x10000 * fd;
  os_munmap := fun _ _ => 0;
  os_open := fun _ path => path + 1;
  os_calloc := fun _ _ => 0x7000;
  os_ioctl := fun _ _ _ _ => 0;
  os_memory := fun _ _ => 7 |}.

Definition bench_controller : FpgaController := Controller 0x10000 0x20000.
Definition bench_state : fstate := FState [] [(0x10000, MAP_SIZE)].

(** The defaults, with a latency test of the write engine of channel 0. *)
Definition bench_settings : settings :=
  set_write_enable 1 (set_read_enable 2 (set_latency 1 0 (tk_defaults hbm_test))).

Lemma bench_wf : wf_settings bench_settings.
Proof.
  split; [|done]. unfold bench_settings.
  destruct (typed_masks (tk_defaults hbm_test) 1 2 1 0) as []; [apply defaults_typed|done..|].
  by split.
Qed.

Lemma bench_mapped : mapped bench_controller bench_state.
Proof. split; [done|]. split; [done|]. by left. Qed.

Lemma bench_finishes h : finishes (H := bench_env) bench_controller h 0 1 2.
Proof. by intros vs v _. Qed.

Lemma bench_samples :
  latency_test_enable bench_settings = 0 \/
  100 <= entry (numOps bench_settings) (latency_channel bench_settings).
Proof. right. by vm_compute. Qed.

Lemma test_starts_engines_witness :
  started_of u280_hbm 0 bench_settings =
    [Started false 0 (LtParams 0x10000000 64 100000 64 0 true);
     Started true 1 (LtParams 0x10000000 64 100000 64 0 false)] /\
  wp (run_test (H := bench_env) hbm_test bench_controller 1 bench_settings)
    (fun _ s1 => exists evs later, s1 = emit evs bench_state /\
       reg_writes bench_controller evs = program_writes u280_hbm bench_settings ++ later /\
       selects later /\
       forall b, out_start (dma_control_reg b) = false ->
         engines_started (hw_writes u280_hbm (reg_writes bench_controller evs) b) =
           engines_started b ++ started_of u280_hbm (dma_control_reg b 17) bench_settings)
    bench_state.
Proof.
  split; [vm_compute; reflexivity|].
  exact (test_starts_engines (H := bench_env) u280_hbm bench_controller 1 0 bench_settings
    bench_state eq_refl bench_mapped bench_wf (proj1 (Z.ltb_lt 0 32) eq_refl) (bench_finishes _)
    (le_S _ _ (le_n 0)) (le_n 1) bench_samples).
Defined.

Lemma test_reports_speeds_witness :
  wp (run_test (H := bench_env) hbm_test bench_controller 1 bench_settings)
    (fun _ s1 => exists evs, s1 = emit evs bench_state /\
       speed_lines evs = (fun x => (x.1, x.2,
         u64 (entry (memBurstSize bench_settings) x.2 *
              entry (numOps bench_settings) (latency_channel bench_settings)), 450)) <$>
         flat_map (enabled (write_enable bench_settings) (read_enable bench_settings))
           (seqZ 0 32))
    bench_state.
Proof.
  exact (test_reports_speeds (H := bench_env) hbm_test bench_controller 1 0 bench_settings
    bench_state eq_refl bench_mapped bench_wf
    (conj (proj1 (Z.leb_le 0 32) eq_refl) (proj1 (Z.leb_le 32 32) eq_refl))
    (bench_finishes _) (le_S _ _ (le_n 0)) (le_n 1) bench_samples).
Defined.

(** The two lines it prints. *)
Example bench_speeds :
  (fun x => (x.1, x.2,
     u64 (entry (memBurstSize bench_settings) x.2 *
          entry (numOps bench_settings) (latency_channel bench_settings)), 450)) <$>
    flat_map (enabled (write_enable bench_settings) (read_enable bench_settings)) (seqZ 0 32) =
  [(false, 0, 6400000, 450); (true, 1, 6400000, 450)].
Proof. vm_compute. reflexivity. Qed.

Lemma short_latency_test_undefined_witness :
  fst (readHBMData (H := bench_env) bench_controller 1 1 2 1 0 50 (replicate 32 64)
         bench_state) = Halt Undefined.
Proof.
  apply (short_latency_test_undefined (H := bench_env) bench_controller 1 0 1 2 1 0 50
    (replicate 32 64) bench_state eq_refl bench_mapped (bench_finishes _));
    [lia|lia|reflexivity|discriminate|lia].
Defined.

(** No device can be mapped. *)
Definition no_mmap_env : FpgaEnv := {|
  host_big_endian := false;
  dev_read := fun _ _ => 0;
  os_mmap := fun _ _ _ => -1;
  os_munmap := fun _ _ => 0;
  os_open := fun _ path => path + 1;
  os_calloc := fun _ _ => 0x7000;
  os_ioctl := fun _ _ _ _ => 0;
  os_memory := fun _ _ => 7 |}.

Lemma failed_mmap_faults_witness :
  fst ((let* c := new_controller (H := no_mmap_env) 3 4 in
        configHBM (H := no_mmap_env) c 64 1 64 64 0 0) (FState [] [])) = Halt WildAccess.
Proof.
  apply (failed_mmap_faults (H := no_mmap_env) 3 4 64 1 64 64 0 0 (FState [] []));
    [reflexivity|reflexivity|reflexivity].
Defined.

Definition burst_options : options := Options None None None None None (Some 128) None.

Lemma burst_option_overruns_witness :
  fst (configure hbm_test burst_options (tk_defaults hbm_test)) = Halt OutOfBounds.
Proof. apply (burst_option_overruns burst_options 128). reflexivity. Defined.
