(* ===== verification/TestProgram.v ===== *)
(** * The test programs from start to end

    [main] of [sw/src/hbm_test.cpp] and [sw/src/ddr_test.cpp] with the device
    handle around it, and what the user program and the driver make of each
    other's arguments. *)

From Stdlib Require Import Permutation.
From stdpp Require Import base gmap gmultiset list numbers option.
From S2P Require Import Prelude CInt XdmaRegs Kernel Resources XdmaBars XdmaProbe XdmaChar.
From S2P Require Import XdmaTheorems XdmaCharTheorems Allocator MemoryManager FpgaController.
From S2P Require Import Fpga.
From S2P Require Import BenchControl HbmTest.
Open Scope Z_scope.

Section Main.
Context `{FpgaEnv}.

(** [argv] is in [o] already. *)
Definition main (k : test_kind) (fuel : nat) (o : options) : gprog unit :=
  setNodeId 0;;
  initializeMemory;;
  let* p := getController in
  let* c := deref p in
  lift (main_test k c fuel o);;
  clear.
End Main.

(** ** Specifications *)

(** The descriptors that were opened, and those that were closed. *)
Definition opened (evs : list fevent) : list Z :=
  omap (fun e => match e with FOpen _ d => Some d | _ => None end) evs.
Definition closed (evs : list fevent) : list Z :=
  omap (fun e => match e with FClose d => Some d | _ => None end) evs.

(** Nothing in these events opens, closes or maps. *)
Definition plain_event (e : fevent) : Prop :=
  match e with FOpen _ _ | FClose _ | FMmap _ _ _ | FMunmap _ _ _ => False | _ => True end.

Lemma opened_app e1 e2 : opened (e1 ++ e2) = opened e1 ++ opened e2.
Proof. apply omap_app. Qed.
Lemma closed_app e1 e2 : closed (e1 ++ e2) = closed e1 ++ closed e2.
Proof. apply omap_app. Qed.

Lemma plain_opened evs : Forall plain_event evs -> opened evs = [] /\ closed evs = [].
Proof. by induction 1 as [|[] evs He _ IH]. Qed.

Lemma plain_report c mhz no bursts chs cs : Forall plain_event (report c mhz no bursts chs cs).
Proof.
  revert cs. induction chs as [|[rd i] chs IH]; intros [|v cs]; [constructor|constructor|constructor|].
  cbn [report]. apply Forall_app_2; [|apply IH]. repeat (constructor; [done|]). constructor.
Qed.

Lemma plain_locked c ws : Forall plain_event (locked_writes c ws).
Proof.
  unfold locked_writes. constructor; [done|].
  apply Forall_app_2; [apply Forall_fmap, Forall_true; done|by constructor].
Qed.

Lemma plain_setup c st n : Forall plain_event (setup_events c st n).
Proof.
  unfold setup_events. induction (seqZ 0 n) as [|i l IH]; [constructor|].
  cbn [flat_map]. apply Forall_app_2; [apply plain_locked|done].
Qed.

Lemma plain_waits c we re e : waits c we re e -> Forall plain_event e.
Proof.
  intros (vs & -> & _). apply Forall_concat, Forall_fmap, Forall_true.
  intros v. repeat (constructor; [done|]). constructor.
Qed.

Lemma plain_data c mhz we re lt ch no bursts e cs vs :
  waits c we re e -> Forall plain_event (data_events c mhz we re lt ch no bursts e cs vs).
Proof.
  intros Hw. unfold data_events. repeat apply Forall_app_2.
  - repeat (constructor; [done|]). constructor.
  - by eapply plain_waits.
  - repeat (constructor; [done|]). constructor.
  - apply plain_report.
  - destruct (lt =? 0); [constructor|].
    apply Forall_app_2; apply Forall_fmap, Forall_true; done.
  - by constructor.
Qed.

(** The events of a whole test, between the set-up and the end. *)
Definition test_events (k : test_kind) (c : FpgaController) (st : settings) (e : fhist)
    (cs vs : list Z) : fhist :=
  setup_events c st (tk_channels k) ++ locked_writes c (run_of st) ++
  data_events c (tk_mhz k) (write_enable st) (read_enable st) (latency_test_enable st)
    (latency_channel st) (entry (numOps st) (latency_channel st)) (memBurstSize st) e cs vs.

Lemma plain_test k c st e cs vs :
  waits c (write_enable st) (read_enable st) e -> Forall plain_event (test_events k c st e cs vs).
Proof.
  intros Hw. unfold test_events. apply Forall_app_2; [apply plain_setup|].
  apply Forall_app_2; [apply plain_locked|by apply plain_data].
Qed.

Lemma typed_wf st :
  typed_settings st -> 0 <= latency_channel st < 32 -> wf_settings st.
Proof. by split. Qed.

Section MainSpecs.
Context `{WorkingOs}.

(** No access to the device. *)
Definition off_bus (e : fevent) : Prop :=
  match e with FRead _ _ | FWrite _ _ => False | _ => True end.

(** What the program has done before its first register access: so many calls
    of the system. *)
Definition fresh_history (h : fhist) : Prop := Forall off_bus h /\ length h = init_length.

(** The command line of [k] is accepted and gives a test that ends: the
    channel exists, and when the device has been given the test and nothing else
    it finishes within [n] rounds. *)
Record runnable (k : test_kind) (o : options) (st : settings) (n : nat) : Prop := {
  run_little_endian : host_big_endian = false;
  run_defaults : typed_settings (tk_defaults k);
  run_channels : 0 <= tk_channels k <= 32;
  run_configured : configure k o (tk_defaults k) = (Done tt, st);
  run_channel : 0 <= latency_channel st < 32;
  run_finishes : forall c h, m_base c mod 4096 = 0 -> fresh_history h ->
    finishes c (h ++ start_events k c st) n (write_enable st) (read_enable st);
  run_samples : latency_test_enable st = 0 \/ 100 <= entry (numOps st) (latency_channel st);
}.

Lemma runnable_wf k o st n : runnable k o st n -> wf_settings st.
Proof.
  intros Hr. apply typed_wf; [|apply Hr].
  pose proof (preserves_configure k o _ (run_defaults _ _ _ _ Hr)) as Ht.
  by rewrite (run_configured _ _ _ _ Hr) in Ht.
Qed.

Lemma main_test_spec {B} k o st n fuel c w (f : unit -> fprog B) Q :
  runnable k o st n -> (n <= fuel)%nat -> (1 <= fuel)%nat ->
  m_base c mod 4096 = 0 -> mapped c w -> fresh_history (f_trace w) ->
  (forall e cs vs, waits c (write_enable st) (read_enable st) e ->
     length cs = length (flat_map (enabled (write_enable st) (read_enable st)) (seqZ 0 32)) ->
     wp (f tt) Q (emit (test_events k c st e cs vs) w)) ->
  wp (pbind (main_test k c fuel o) f) Q w.
Proof.
  intros Hr Hn H1 Hc Hm Hoff HQ. apply wp_bind. unfold wp, main_test.
  rewrite (run_configured _ _ _ _ Hr).
  change (wp (run_test k c fuel st) (fun a => wp (f a) Q) w).
  eapply run_test_spec; [apply Hr|done|by eapply runnable_wf|apply Hr|by apply Hr|done|done|
    apply Hr|]. intros e cs vs Hw Hcs. by apply HQ.
Qed.

Lemma main_spec k o st n fuel (Q : unit -> fpga -> Prop) :
  runnable k o st n -> (n <= fuel)%nat -> (1 <= fuel)%nat ->
  (forall h d b base m y a rc1 rc2 e cs vs (c := Controller m y),
     m mod 4096 = 0 -> waits c (write_enable st) (read_enable st) e ->
     length cs = length (flat_map (enabled (write_enable st) (read_enable st)) (seqZ 0 32)) ->
     Q tt (Fpga Dangling Dangling 0 d b h base
       (FState (init_events h d b base m y a rc1 rc2 ++ test_events k c st e cs vs ++
          [FMunmap m MAP_SIZE 0; FMunmap y MAP_SIZE 0; FMunmap base DMA_SIZE 0;
           FClose d; FClose b; FClose h]) []))) ->
  wp (main k fuel o) Q (fresh (FState [] [])).
Proof.
  intros Hr Hn H1 HQ. unfold main, fresh. apply wp_bind, wp_modify. settle.
  apply initializeMemory_spec. intros h d b base m y a rc1 rc2 Hb1 Hb2 Hm1 Hm2 Hm3.
  cbn [app]. apply wp_bind, wp_bind, wp_get, wp_ret. settle. cbn [deref].
  rewrite pbind_ret. apply wp_lift. settle. rewrite <- wp_bind_ret.
  eapply main_test_spec; [exact Hr|done|done|done| | |].
  { split; [cbn; lia|]. split; [cbn; lia|]. by right; left. }
  { split; [by repeat constructor|done]. }
  intros e cs vs Hw Hcs. apply wp_ret. settle. rewrite <- wp_bind_ret.
  eapply clear_spec; [done|done|done|]. apply wp_ret. settle.
  unfold emit. cbn [f_trace f_maps]. unfold clear_events. settle.
  cbn [m_base by_base]. rewrite <- app_assoc. by apply HQ.
Qed.
End MainSpecs.

Section Properties.
Context `{WorkingOs}.

(** C4: the whole program, for either design.  On a machine that serves its requests, with a
    command line that is accepted, it returns; the engines it starts are those
    whose enable bits are set, with the parameters of their channels; it prints
    one bandwidth for each of them; and at the end every mapping is undone and
    every descriptor that was opened is closed, once.  The results of the two
    ioctls do not matter. *)
Theorem main_complete B o st n fuel :
  runnable (test_of B) o st n -> latency_channel st < n_mem_intf B ->
  (n <= fuel)%nat -> (1 <= fuel)%nat ->
  wp (main (test_of B) fuel o) (fun _ s => exists c,
    f_maps (world s) = [] /\ Permutation (closed (f_trace (world s))) (opened (f_trace (world s))) /\
    (forall b, out_start (dma_control_reg b) = false ->
       engines_started (hw_writes B (reg_writes c (f_trace (world s))) b) =
         engines_started b ++ started_of B (dma_control_reg b 17) st) /\
    speed_lines (f_trace (world s)) = (fun x => (x.1, x.2,
        u64 (entry (memBurstSize st) x.2 * entry (numOps st) (latency_channel st)),
        tk_mhz (test_of B))) <$>
      flat_map (enabled (write_enable st) (read_enable st)) (seqZ 0 32))
    (fresh (FState [] [])).
Proof.
  intros Hr Hlc Hn H1. eapply main_spec; [done..|].
  intros h d b base m y a rc1 rc2 e cs vs c _ Hw Hcs. exists c. settle. split; [done|].
  destruct (plain_opened _ (plain_test (test_of B) c st e cs vs Hw)) as [Ho Hc].
  split; [|split].
  - rewrite !opened_app, !closed_app, Ho, Hc. cbn. solve_Permutation.
  - intros b0 Hb0. unfold test_events.
    rewrite !reg_writes_app, setup_events_writes, reg_writes_locked.
    change (reg_writes c (init_events h d b base m y a rc1 rc2)) with (@nil (Z * Z)).
    cbn [app]. rewrite <- !app_assoc, app_assoc, hw_writes_app.
    rewrite selects_hw; [rewrite test_channels; by apply run_hw; [eapply runnable_wf|..]|].
    apply Forall_app_2; [by apply selects_data|by constructor].
  - unfold test_events.
    destruct (speed_lines_start (test_of B) c st) as [E1 E2].
    rewrite !speed_lines_app, E1, E2, speed_lines_data by done.
    cbn. by rewrite app_nil_r.
Qed.

(** C36: after [initializeMemory], also when the driver refused both ioctls,
    the controller's registers are mapped, and every sequence of requests that a
    client of [allocate] and [free] may make, on addresses that depend on where
    the huge pages are, is answered as the abstract allocator of that region
    may answer it. *)
Theorem initialize_ready (ops : Z -> list op) m0 n fd0 byfd0 hfd0 base0 tr maps :
  (forall base mem, 0 < base -> base + DMA_SIZE < 2 ^ 64 ->
     allowed_run (ops base) (new_manager base DMA_SIZE mem)) ->
  wp (initializeMemory;; let* s := get_state in serve (ops (huge_base s)))
    (fun trace s => exists c m mem,
       controller s = Live c /\ mapped c (world s) /\ mm s = Live m /\ wf m /\
       spec_run (huge_base s) DMA_SIZE ∅ (memset mem (huge_base s) 0 DMA_SIZE) trace
         (live m) (mm_mem m))
    (Fpga Null m0 n fd0 byfd0 hfd0 base0 (FState tr maps)).
Proof.
  intros Ha. apply initializeMemory_spec.
  intros h d b base m y a rc1 rc2 Hb1 Hb2 Hm1 Hm2 Hm3. cbv zeta. apply wp_bind, wp_get. settle.
  set (mem := os_memory _). specialize (Ha base mem Hb1 Hb2).
  assert (Hw : wf (new_manager base DMA_SIZE mem)) by by apply new_manager_wf.
  unfold wp. erewrite serve_run; [|done|exact Hw|by right; right; left|exact Ha].
  pose proof (run_refines (ops base) _ Hw Ha) as Hr.
  destruct (run (ops base) _) as [trace m1]. destruct Hr as (Hw1 & _ & _ & Hr).
  cbn [fst snd]. settle. exists (Controller m y), m1, mem. split; [done|].
  split; [split; [cbn; lia|split; [cbn; lia|by right; left]]|]. by split.
Qed.

(** [clear] leaves the pointer to the deleted controller in place, so that
    [initializeMemory] does not make a new one: after a second initialisation
    the first register access goes through the dangling pointer. *)
Theorem reinitialised_controller_dangles n tr wg no sl bs ia ch :
  fst ((initializeMemory;; clear;; initializeMemory;;
        let* p := getController in let* c := deref p in
        lift (configHBM c wg no sl bs ia ch))
       (Fpga Null Null n 0 0 0 0 (FState tr []))) = Halt WildAccess.
Proof.
  set (rest := initializeMemory;; _).
  assert (Hrest : forall m0 fd0 byfd0 hfd0 base0 tr0 maps,
    wp (initializeMemory;; getController) (fun p _ => p = Dangling)
      (Fpga Dangling m0 n fd0 byfd0 hfd0 base0 (FState tr0 maps))).
  { intros. apply initializeMemory_again. intros. by apply wp_bind, wp_get, wp_ret. }
  assert (Hw : wp (initializeMemory;; clear;; initializeMemory;; getController)
    (fun p _ => p = Dangling) (Fpga Null Null n 0 0 0 0 (FState tr []))).
  { apply initializeMemory_spec. intros h d b base m y a rc1 rc2 Hb1 Hb2 Hm1 Hm2 Hm3. cbv zeta.
    eapply clear_spec; [done|done|done|]. settle. apply Hrest. }
  revert Hw. unfold rest, wp, pbind. destruct (initializeMemory _) as [[[]|r] s1]; [|done].
  destruct (clear s1) as [[[]|r] s2]; [|done].
  destruct (initializeMemory s2) as [[[]|r] s3]; [|done].
  destruct (getController s3) as [[p|r] s4]; [|done]. by intros ->.
Qed.
End Properties.

Section Failures.
Context `{FpgaEnv}.

(** The program stops in [m] with status 1, and the objects are those of [s0]. *)
Definition exits {A} (s0 : fpga) (m : gprog A) (s : fpga) : Prop :=
  exists s1, m s = (Halt (Exited 1), s1) /\ controller s1 = controller s0 /\ mm s1 = mm s0.

Lemma exits_here {A} s0 s :
  controller s = controller s0 -> mm s = mm s0 -> exits (A := A) s0 (halt (Exited 1)) s.
Proof. intros. by exists s. Qed.

(** One call that opens or maps: either it fails, or the program goes on. *)
Lemma exits_open {A} s0 path set (k : Z -> gprog A) s :
  controller s = controller s0 -> mm s = mm s0 ->
  (forall d s1, controller (set d s1) = controller s1 /\ mm (set d s1) = mm s1) ->
  (forall d s1, d <> -1 -> (exists h, d = s32 (os_open h path)) ->
     controller s1 = controller s0 -> mm s1 = mm s0 -> exits s0 (k d) s1) ->
  exits s0 (let* d := open_path path in modify_state (set d);;
            if d =? -1 then halt (Exited 1) else k d) s.
Proof.
  intros Hc Hm Hset Hk. unfold exits, open_path, lift, fask, pbind, modify_state.
  set (d := s32 (os_open (f_trace (world s)) path)). set (s1 := set_world _ s).
  destruct (Hset d s1) as [H1 H2].
  destruct (Z.eqb_spec d (-1)) as [E|E].
  - eexists. split; [done|]. by rewrite H1, H2.
  - apply Hk; [done|by eexists|by rewrite H1|by rewrite H2].
Qed.

(** When the huge-page file or one of the two devices cannot be opened, or
    the huge pages cannot be mapped, the program exits with status 1 and has
    made neither a controller nor a manager. *)
Theorem open_failure_exits s :
  (exists path, 0 <= path <= 2 /\ forall h, s32 (os_open h path) = -1) \/
  (forall h d, u64 (os_mmap h d DMA_SIZE) = MAP_FAILED) ->
  exists s1, initializeMemory s = (Halt (Exited 1), s1) /\
    controller s1 = controller s /\ mm s1 = mm s.
Proof.
  intros Hf. unfold initializeMemory. apply exits_open; [done..|].
  intros h s1 Hh [h1 Eh] Hc1 Hm1.
  unfold exits, mmap, lift, pbind at 1 2, fask.
  destruct (Z.eqb_spec (u64 (os_mmap (f_trace (world s1)) h DMA_SIZE)) MAP_FAILED) as [E|E].
  { unfold pbind, pret, modify_state. rewrite (proj2 (Z.eqb_eq _ _) E). by eexists. }
  destruct Hf as [(path & Hp & Hf)|Hf]; [|by rewrite Hf in E].
  unfold pbind at 1 2, pret, modify_state at 1 2. rewrite (proj2 (Z.eqb_neq _ _) E).
  apply exits_open; [done..|]. intros d s2 Hd [h2 Ed] Hc2 Hm2.
  apply exits_open; [done..|]. intros b s3 Hb [h3 Eb] _ _. exfalso.
  assert (path = 0 \/ path = 1 \/ path = 2) as [Ep|[Ep|Ep]] by lia;
    subst path; [apply Hh|apply Hd|apply Hb]; subst; apply Hf.
Qed.

(** Nothing checks the latency channel of the command line or of the file:
    one that does not exist is used as an index into the arrays. *)
Theorem bad_channel_overruns k c fuel st s :
  host_big_endian = false -> mapped c s -> typed_settings st -> 0 <= tk_channels k <= 32 ->
  32 <= latency_channel st ->
  fst (run_test k c fuel st s) = Halt OutOfBounds.
Proof.
  intros He Hm Ht Hk Hc. unfold run_test.
  assert (Hw : wp (config_channels c (tk_channels k) st) (fun _ _ => True) s).
  { rewrite <- wp_bind_ret. apply config_channels_spec; [done..|]. by apply wp_ret. }
  revert Hw. cbv zeta. unfold wp, pbind at 1.
  destruct (config_channels c (tk_channels k) st s) as [[u|r] s1]; [|done]. intros _.
  apply pbind_halt. destruct (wf_lengths _ Ht) as (Hl & _).
  unfold nth_get. rewrite (proj2 (Z.ltb_ge _ _)) by lia.
  by rewrite lookup_ge_None_2 by lia.
Qed.
End Failures.

(** C37: whatever the command line and the file hold, every setting stays a
    value of its C type: the arrays keep their 32 entries, the words their
    width; also when reading the file throws half-way. *)
Theorem configure_typed o :
  typed_settings (snd (configure hbm_test o (tk_defaults hbm_test))) /\
  typed_settings (snd (configure ddr_test o (tk_defaults ddr_test))).
Proof. destruct defaults_typed. split; by apply preserves_configure. Qed.

(** ** The program and the driver *)

Section Driver.
Context `{KernelEnv}.

(** The two ioctls of [initializeMemory] with the program's arguments (the huge
    region, and then a table with an entry for each 2 MB page of it), on an
    instance that is allocated (the one that [xdma_open] computes is not): the
    table is always large enough, so that MAPPING_GET is not refused for its size,
    and the bus address of every 512th page that was pinned is copied into it; the
    result is -EACCES when a copy fails. *)
Theorem initialize_ioctls p i arg1 arg2 base a b uaddr l s
    (np := DMA_SIZE / 4096) (n := huge_count (Z.of_nat (length l)))
    (h := k_trace s ++ set_calls arg1 a base np l) :
  k_heap s !! p = Some i -> buffer_answers (k_trace s) arg1 base DMA_SIZE a l -> l <> [] ->
  env_copy_from_user h arg2 = (DMA_SIZE / HUGE_PAGE_SIZE, uaddr, 0) -> 0 <= uaddr < 2 ^ 64 ->
  env_alloc_array (h ++ [KCopyFromUser arg2 0]) n = b -> 0 < b < 2 ^ 64 ->
  b <> a -> k_arrays s !! b = None ->
  wp (let* rc1 := char_xdma_ioctl p IOCTL_XDMA_BUFFER_SET arg1 in
      let* rc2 := char_xdma_ioctl p IOCTL_XDMA_MAPPING_GET arg2 in pret (rc1, rc2))
    (fun rc s1 => n <= DMA_SIZE / HUGE_PAGE_SIZE /\ exists r1 r2,
       rc = (0, if (r1 =? 0) && (r2 =? 0) then 0 else - EACCES) /\
       k_trace s1 = h ++ mapping_calls arg2 b n uaddr
         ((fun k => u64 (env_page_to_phys (l !!! Z.to_nat (512 * k)))) <$> seqZ 0 n) r1 r2) s.
Proof.
  intros Hi Ha Hne Hc Hu Hb Hbr Hba Hf. apply wp_bind.
  change (char_xdma_ioctl p IOCTL_XDMA_BUFFER_SET arg1) with (ioctl_do_buffer_set p arg1).
  change (char_xdma_ioctl p IOCTL_XDMA_MAPPING_GET arg2) with (ioctl_do_mapping_get p arg2).
  assert (Hle : Z.of_nat (length l) <= 2 ^ 21) by apply Ha.
  assert (Hn : n <= 4096) by (unfold n, huge_count; zdivmod).
  apply (buffer_set_spec p i arg1 base DMA_SIZE a l s); [done..|].
  intros s1 (Ht & Hh & _ & Hdel) Hl. rewrite bool_decide_false by done.
  change ((DMA_SIZE + 4095) / 4096) with np.
  set (i1 := with_buffer _ _ _ i). set (s2 := upd p i1 _ s1).
  assert (Et : k_trace s2 = h) by (cbn; by rewrite Ht).
  apply wp_bind. apply (mapping_get_spec p i1 arg2 4096 uaddr b l s2).
  - apply upd_heap.
  - split; [exact Hl|]. split; [done|]. split; [done|]. lia.
  - exact Hn.
  - rewrite Et. exact Hc.
  - done.
  - done.
  - rewrite Et. exact Hb.
  - done.
  - cbn. rewrite <- (lookup_delete_ne _ a b) by done. rewrite Hdel.
    by rewrite lookup_delete_ne by done.
  - intros r1 r2. apply wp_ret. split; [exact Hn|]. exists r1, r2. split; [done|].
    cbn [k_trace upd set_heap set_trace]. by rewrite <- Et.
Qed.
End Driver.

(** ** Examples *)

(** A machine that works; every register of a device is found by its place in
    the page. *)
Definition good_env : FpgaEnv := {|
  host_big_endian := false;
  dev_read := fun _ p => let r := p mod 4096 in
    if r =? 48 then 1 else if r =? 52 then 2 else 1000;
  os_mmap := fun h _ _ => 4096 + 2 ^ 35 * (Z.of_nat (length h) mod 1024);
  os_munmap := fun _ _ => 0;
  os_open := fun _ path => Z.abs path + 3;
  os_calloc := fun _ _ => 0x7000;
  os_ioctl := fun _ _ _ _ => -1;
  os_memory := fun _ _ => 7 |}.

Lemma good_works : WorkingOs (H := good_env).
Proof.
  split; [intros h path Hp; cbn; lia| |done].
  intros h d n Hn. pose proof DMA_SIZE_eq. cbn [os_mmap good_env].
  pose proof (Z.mod_pos_bound (Z.of_nat (length h)) 1024 eq_refl).
  set (q := Z.of_nat (length h) mod 1024) in *. split; [lia|]. split; [lia|].
  replace (4096 + 2 ^ 35 * q) with ((1 + 2 ^ 23 * q) * 4096) by lia. by rewrite Z.mod_mul.
Qed.

(** Writing on channel 0 and reading on channel 1. *)
Definition good_options : options := Options (Some 2) (Some 1) (Some 0) None None None None.
Definition good_settings : settings :=
  set_latency 0 0 (set_write_enable 1 (set_read_enable 2 (tk_defaults hbm_test))).

Lemma good_runnable : runnable (H := good_env) hbm_test good_options good_settings 0.
Proof.
  split; [done|apply defaults_typed|done|done|done| |by left].
  intros c h Hc _ vs v _. unfold reg_addr. cbn [dev_read good_env].
  rewrite !(Z.add_mod (m_base c)), Hc by done. done.
Qed.

Lemma main_complete_witness :
  wp (main (H := good_env) hbm_test 1 good_options) (fun _ s => exists c,
    f_maps (world s) = [] /\ Permutation (closed (f_trace (world s))) (opened (f_trace (world s))) /\
    (forall b, out_start (dma_control_reg b) = false ->
       engines_started (hw_writes u280_hbm (reg_writes c (f_trace (world s))) b) =
         engines_started b ++ started_of u280_hbm (dma_control_reg b 17) good_settings) /\
    speed_lines (f_trace (world s)) = (fun x => (x.1, x.2,
        u64 (entry (memBurstSize good_settings) x.2 *
             entry (numOps good_settings) (latency_channel good_settings)), 450)) <$>
      flat_map (enabled (write_enable good_settings) (read_enable good_settings)) (seqZ 0 32))
    (fresh (FState [] [])).
Proof.
  exact (main_complete (H := good_env) (H0 := good_works) u280_hbm good_options good_settings 0 1
    good_runnable (proj1 (Z.ltb_lt 0 32) eq_refl) (le_S _ _ (le_n 0)) (le_n 1)).
Defined.

(** A client that takes a block, writes its first byte, and gives it back. *)
Definition good_client (base : Z) : list op :=
  [OpAllocate always 100; OpStore base 7; OpFree base].

Lemma good_client_allowed base mem :
  0 < base -> base + DMA_SIZE < 2 ^ 64 ->
  allowed_run (good_client base) (new_manager base DMA_SIZE mem).
Proof.
  intros Hb Ht. split; [split; [done|discriminate]|]. split; [|by split].
  exists base, 4096. split; [|lia]. apply lookup_insert_eq.
Qed.

Lemma initialize_ready_witness :
  wp (initializeMemory (H := good_env);;
      let* s := get_state in serve (good_client (huge_base s)))
    (fun trace s => exists c m mem,
       controller s = Live c /\ mapped c (world s) /\ mm s = Live m /\ wf m /\
       spec_run (huge_base s) DMA_SIZE ∅ (memset mem (huge_base s) 0 DMA_SIZE) trace
         (live m) (mm_mem m)) (fresh (FState [] [])).
Proof.
  exact (initialize_ready (H := good_env) (H0 := good_works) good_client Null 0 0 0 0 0 [] []
    good_client_allowed).
Defined.

Lemma reinitialised_controller_dangles_witness :
  fst ((initializeMemory (H := good_env);; clear (H := good_env);;
        initializeMemory (H := good_env);;
        let* p := getController in let* c := deref p in
        lift (configHBM (H := good_env) c 64 1 64 64 0 0)) (fresh (FState [] []))) =
    Halt WildAccess.
Proof.
  exact (reinitialised_controller_dangles (H := good_env) (H0 := good_works) 0 [] 64 1 64 64 0 0).
Defined.

(** Without the driver there is no control device. *)
Definition no_driver_env : FpgaEnv := {|
  host_big_endian := false;
  dev_read := fun _ _ => 0;
  os_mmap := fun h _ _ => 4096;
  os_munmap := fun _ _ => 0;
  os_open := fun _ path => if path =? control_path then -1 else 5;
  os_calloc := fun _ _ => 0x7000;
  os_ioctl := fun _ _ _ _ => -1;
  os_memory := fun _ _ => 7 |}.

Lemma open_failure_exits_witness :
  exists s1, initializeMemory (H := no_driver_env) (fresh (FState [] [])) =
      (Halt (Exited 1), s1) /\
    controller s1 = Null /\ mm s1 = Null.
Proof.
  apply (open_failure_exits (H := no_driver_env) (fresh (FState [] []))).
  left. exists control_path. split; [split; discriminate|reflexivity].
Defined.

Lemma bad_channel_overruns_witness :
  fst (run_test (H := bench_env) hbm_test bench_controller 1
         (set_latency 1 40 (tk_defaults hbm_test)) bench_state) = Halt OutOfBounds.
Proof.
  apply (bad_channel_overruns (H := bench_env) hbm_test bench_controller 1
    (set_latency 1 40 (tk_defaults hbm_test)) bench_state eq_refl bench_mapped).
  - destruct defaults_typed as [[] _]. split; assumption || (split; [discriminate|reflexivity]).
  - split; discriminate.
  - discriminate.
Defined.

(** The kernel pins two pages of the huge region at 0x10000. *)
Definition huge_board : KernelEnv := {|
  env_kzalloc := @env_kzalloc (board true 0);
  env_pci_enable_device := @env_pci_enable_device (board true 0);
  env_pci_find_capability := @env_pci_find_capability (board true 0);
  env_pci_enable_msix_exact := @env_pci_enable_msix_exact (board true 0);
  env_pci_enable_msi := @env_pci_enable_msi (board true 0);
  env_pci_request_regions := @env_pci_request_regions (board true 0);
  env_pci_iomap := @env_pci_iomap (board true 0);
  env_ioread32 := @env_ioread32 (board true 0);
  env_dma_set_mask := @env_dma_set_mask (board true 0);
  env_misc_register := @env_misc_register (board true 0);
  env_pci_register_driver := fun _ => 0;
  env_io_remap_pfn_range := fun _ _ _ _ => 0;
  env_copy_from_user := fun _ arg =>
    if arg =? 1 then (0x10000, DMA_SIZE, 0) else (4096, 0x2000, 0);
  env_copy_to_user := fun _ _ _ => 0;
  env_alloc_array := fun _ n => if n =? 1 then 0x8000 else 0x7000;
  env_get_user_pages := fun _ _ _ => 2;
  env_user_page := fun _ start k => start / 0x1000 + k;
  env_page_to_phys := fun pg => pg * 0x1000;
  env_page_reserved := fun _ _ => true |}.

Lemma huge_answers :
  buffer_answers (H := huge_board) (k_trace board_mapped) 1 0x10000 DMA_SIZE 0x7000 [16; 17].
Proof. repeat split; vm_compute; congruence. Qed.

Lemma initialize_ioctls_witness :
  wp (let* rc1 := char_xdma_ioctl (H := huge_board) 0x5000 IOCTL_XDMA_BUFFER_SET 1 in
      let* rc2 := char_xdma_ioctl (H := huge_board) 0x5000 IOCTL_XDMA_MAPPING_GET 2 in
      pret (rc1, rc2))
    (fun rc s1 => 1 <= DMA_SIZE / HUGE_PAGE_SIZE /\ exists r1 r2,
       rc = (0, if (r1 =? 0) && (r2 =? 0) then 0 else - EACCES) /\
       k_trace s1 =
         (k_trace board_mapped ++ set_calls 1 0x7000 0x10000 (DMA_SIZE / 4096) [16; 17]) ++
         mapping_calls 2 0x8000 1 0x2000
           ((fun k => u64 (@env_page_to_phys huge_board ([16; 17] !!! Z.to_nat (512 * k))))
              <$> seqZ 0 1) r1 r2) board_mapped.
Proof.
  apply (initialize_ioctls (H := huge_board) 0x5000 board_inst 1 2 0x10000 0x7000 0x8000 0x2000
    [16; 17] board_mapped); [reflexivity|exact huge_answers|discriminate|reflexivity
    |split; [discriminate|reflexivity]|reflexivity|split; reflexivity|discriminate|reflexivity].
Defined.
