(* ===== verification/CpuBench.v ===== *)
(** * The CPU benchmarks

    [cpu_benchmark/latency_huge_table.cpp]: the table of byte offsets and the
    pointer chase through it ([perf_counter_asm], the one that is called, and
    [perf_counter]), the program around it, and what it writes.
    [cpu_benchmark/throughput.cpp]: the contents of [p] and the loops of a reading
    thread.  The time stamps are a parameter; the frequency, which is only printed,
    is not modelled, nor are the labels between the numbers.

    An arithmetic result that does not fit its type ends a program.  The function
    of a thread has no return statement: what follows its end is a parameter,
    [falls_off], either a return or any way to stop. *)

From stdpp Require Import base gmap list numbers option.
From S2P Require Import Prelude CInt.
Open Scope Z_scope.

(** ** The latency benchmark *)

(** The globals; [index_temp] and [addr] are addresses.  With them the time stamps
    that were read, and the numbers written to the screen and to the file. *)
Record chase : Type := Chase {
  t_p : list Z;
  t_index : list Z;
  t_res : list Z;
  t_addr : Z;
  t_start : Z;
  t_index_temp : Z;
  t_ticks : nat;
  t_cout : list Z;
  t_file : list Z;
}.

Definition cprog (A : Type) : Type := prog chase A.

Definition set_p (l : list Z) (s : chase) : chase :=
  Chase l (t_index s) (t_res s) (t_addr s) (t_start s) (t_index_temp s) (t_ticks s) (t_cout s) (t_file s).
Definition set_index (l : list Z) (s : chase) : chase :=
  Chase (t_p s) l (t_res s) (t_addr s) (t_start s) (t_index_temp s) (t_ticks s) (t_cout s) (t_file s).
Definition set_res (l : list Z) (s : chase) : chase :=
  Chase (t_p s) (t_index s) l (t_addr s) (t_start s) (t_index_temp s) (t_ticks s) (t_cout s) (t_file s).
Definition set_addr (a : Z) (s : chase) : chase :=
  Chase (t_p s) (t_index s) (t_res s) a (t_start s) (t_index_temp s) (t_ticks s) (t_cout s) (t_file s).
Definition set_start (a : Z) (s : chase) : chase :=
  Chase (t_p s) (t_index s) (t_res s) (t_addr s) a (t_index_temp s) (t_ticks s) (t_cout s) (t_file s).
Definition set_index_temp (a : Z) (s : chase) : chase :=
  Chase (t_p s) (t_index s) (t_res s) (t_addr s) (t_start s) a (t_ticks s) (t_cout s) (t_file s).
Definition set_ticks (n : nat) (s : chase) : chase :=
  Chase (t_p s) (t_index s) (t_res s) (t_addr s) (t_start s) (t_index_temp s) n (t_cout s) (t_file s).
Definition set_cout (l : list Z) (s : chase) : chase :=
  Chase (t_p s) (t_index s) (t_res s) (t_addr s) (t_start s) (t_index_temp s) (t_ticks s) l (t_file s).
Definition set_file (l : list Z) (s : chase) : chase :=
  Chase (t_p s) (t_index s) (t_res s) (t_addr s) (t_start s) (t_index_temp s) (t_ticks s) (t_cout s) l.

(** [cout<<x] *)
Definition print (x : Z) : cprog unit := modify_state (fun s => set_cout (t_cout s ++ [x]) s).

(** A [long] result; overflow is undefined. *)
Definition s64 (x : Z) : Z := (x + 2 ^ 63) mod 2 ^ 64 - 2 ^ 63.
Definition long_result {S} (x : Z) : prog S Z :=
  if (- 2 ^ 63 <=? x) && (x <? 2 ^ 63) then pret x else halt Undefined.

(** The end of a function without the [return] of its result. *)
Definition run_off {S} (falls_off : option stop) : prog S unit :=
  match falls_off with Some r => halt r | None => pret tt end.

Section Latency.
(** The time stamp counter, and where the table and the samples are mapped. *)
Context (tsc : nat -> Z) (p_base index_base : Z).

(** The place of an address in an array of longs. *)
Definition slot (base a : Z) : cprog Z :=
  if (base <=? a) && ((a - base) mod 8 =? 0) then pret ((a - base) / 8) else halt WildAccess.

(** [rdtsc] into a pair of words. *)
Definition rdtsc_words : cprog (Z * Z) :=
  fun s => let v := u64 (tsc (t_ticks s)) in
           (Done (u32 v, u32 (Z.shiftr v 32)), set_ticks (S (t_ticks s)) s).

Definition join_words (l h : Z) : Z := Z.lor l (Z.shiftl h 32).

(** [p[i] = 8*(i+stride)%array_size] for every [i]. *)
Definition fill_table (array_size stride : Z) : cprog unit :=
  for_loop (R := Empty_set) (Z.to_nat array_size) 0 tt (fun i _ =>
    let* x := int_result (i + stride) in
    let* y := int_result (8 * x) in
    let* s := get_state in
    let* l := nth_set (t_p s) i (Z.rem y array_size) in
    modify_state (set_p l);;
    pret (inl tt));;
  pret tt.

(** [cout<<addr] *)
Definition print_addr : cprog unit :=
  let* s := get_state in
  print (s64 (t_addr s)).

(** [cout<<addr<<endl; cout<<addr+op*8*stride<<endl]; the product is an [int]. *)
Definition print_bounds (op stride : Z) : cprog unit :=
  print_addr;;
  let* x := int_result (op * 8) in
  let* y := int_result (x * stride) in
  let* s := get_state in
  let* z := long_result (s64 (t_addr s) + y) in
  print z.

(** A load: the [asm] statement and the lines behind it. *)
Definition load_next (i : Z) : cprog (unit + Empty_set) :=
  let* s := get_state in
  let rcx := t_index_temp s in
  let rsi := u64 (0 + t_addr s) in
  let* (l1, h1) := rdtsc_words in
  let* k := slot p_base rsi in
  let* rdi := nth_get (t_p s) k in
  let* j := slot index_base rcx in
  let* l := nth_set (t_index s) j rdi in
  modify_state (set_index l);;
  let* (l2, h2) := rdtsc_words in
  modify_state (set_addr (u64 (t_start s + rdi)));;
  modify_state (set_index_temp (u64 (rcx + 8)));;
  let* s := get_state in
  let* r := nth_set (t_res s) i (s32 (u64 (join_words l2 h2 - join_words l1 h1))) in
  modify_state (set_res r);;
  pret (inl tt).

Definition perf_counter_asm (op stride : Z) : cprog unit :=
  modify_state (fun s => set_start (t_addr s) s);;
  print_bounds op stride;;
  modify_state (set_index_temp index_base);;
  for_loop (R := Empty_set) (Z.to_nat op) 0 tt (fun i _ => load_next i);;
  print_addr;;
  modify_state (fun s => set_addr (t_start s) s).

(** The variant in C, with indices; [now] is the clock difference, a [double]
    that must fit an [int]. *)
Definition perf_counter (now : Z -> Z) (op stride : Z) : cprog unit :=
  modify_state (fun s => set_start (t_addr s) s);;
  print_bounds op stride;;
  for_loop (R := Empty_set) (Z.to_nat op) 0 0 (fun i j =>
    let* s := get_state in
    let* j := nth_get (t_p s) j in
    let* l := nth_set (t_index s) i j in
    modify_state (set_index l);;
    let* s := get_state in
    let* x := int_result (now i) in
    let* r := nth_set (t_res s) i x in
    modify_state (set_res r);;
    pret (inl j));;
  print_addr;;
  modify_state (fun s => set_addr (t_start s) s).

(** The sums over the results: [sumup] and [cycles] are [int]s; an index is a
    [long], and the sum with one is cut to 32 bits. *)
Definition add_index (acc i : Z) : cprog Z :=
  let* s := get_state in
  let* x := nth_get (t_index s) i in
  pret (s32 (acc + x)).
Definition add_result (acc i : Z) : cprog Z :=
  let* s := get_state in
  let* x := nth_get (t_res s) i in
  int_result (acc + x).

(** [f<<(res[i])] *)
Definition write_result (i : Z) : cprog unit :=
  let* s := get_state in
  let* x := nth_get (t_res s) i in
  modify_state (fun s => set_file (t_file s ++ [x]) s).

Definition sum_loop (op : Z) (add : Z -> Z -> cprog Z) : cprog Z :=
  let* r := for_loop (R := Empty_set) (Z.to_nat op) 0 0 (fun i acc =>
    let* acc := add acc i in pret (inl acc)) in
  match r with inl acc => pret acc | inr e => match e with end end.

(** From the mapped arrays on: the table is written and chased twice. *)
Definition chase_twice (array_size stride op : Z) : cprog unit :=
  fill_table array_size stride;;
  modify_state (set_addr p_base);;
  perf_counter_asm op stride;;
  fill_table array_size stride;;
  let* sumup := sum_loop op (fun acc i => let* acc := add_result acc i in add_index acc i) in
  perf_counter_asm op stride;;
  let* cycles := sum_loop op (fun acc i => let* acc := add_result acc i in write_result i;; pret acc) in
  print sumup;;
  let* sumup := sum_loop op add_index in
  print sumup;;
  print cycles.

(** The thread: it binds itself to a processor, opens the file and gives up when
    there is no memory for the table. *)
Definition test_latency (falls_off : option stop) (processor : Z) (affinity : Z -> bool)
    (mapped : bool) (array_size stride op : Z) : cprog unit :=
  require (affinity processor) (Exited 134);;
  modify_state (set_file []);;
  if mapped then chase_twice array_size stride op;; run_off falls_off else pret tt.

(** [main] has arrays for [cpu_nums] threads, creates the one of processor 5,
    waits for it and prints [sizeof(long)]. *)
Definition latency_main (falls_off : option stop) (cpu_nums : Z) (affinity : Z -> bool)
    (mapped : bool) (array_size stride op : Z) : cprog unit :=
  require (5 <? cpu_nums) OutOfBounds;;
  test_latency falls_off 5 affinity mapped array_size stride op;;
  print 8.
End Latency.

(** [(end.tv_sec-start.tv_sec)*10e9 + end.tv_nsec - start.tv_nsec] *)
Definition elapsed (s0 n0 s1 n1 : Z) : Z := (s1 - s0) * (10 * 10 ^ 9) + n1 - n0.

(** ** The throughput benchmark *)

(** An element of [p] as its eight words of 64 bits, and [p[i][0]=i] for the
    elements of the array; the other words are what the memory holds. *)
Definition fill_element (raw : Z -> list Z) (i : Z) : list Z := <[0%nat := i]> (raw i).

(** [_mm512_reduce_add_epi32]: the sum of the sixteen lanes, at 32 bits. *)
Definition reduce_add_epi32 (v : list Z) : Z :=
  s32 (foldr (fun w acc => u32 w + u32 (Z.shiftr w 32) + acc) 0 v).

(** A thread's state: the elements of [p] it has read, in order. *)
Definition rprog (A : Type) : Type := prog (list Z) A.

Section Throughput.
(** The sum of the sixteen lanes of an element. *)
Context (lanes : Z -> Z).

Definition read_element (work_group_size k : Z) : rprog Z :=
  if (0 <=? k) && (k <? work_group_size)
  then modify_state (fun l => l ++ [k]);; pret (lanes k)
  else halt OutOfBounds.

(** [sum[j] += _mm512_reduce_add_epi32(p[(start+i*stride+j)%work_group_size])];
    product and sum are [int]s. *)
Definition access (work_group_size start stride i j : Z) (sum : list Z) : rprog (list Z) :=
  let* d := int_result (i * stride) in
  let* v := read_element work_group_size (Z.rem (start + d + j) work_group_size) in
  let* old := nth_get sum j in
  let* new := int_result (old + v) in
  nth_set sum j new.

(** The loops of [read]. *)
Definition read_round (work_group_size start burst stride i : Z) (sum : list Z) :
    rprog (list Z + Empty_set) :=
  for_loop (R := Empty_set) (Z.to_nat burst) 0 sum (fun j sum =>
    let* sum := access work_group_size start stride i j sum in pret (inl sum)).

Definition read (work_group_size op burst stride index : Z) : rprog (list Z) :=
  let start := op * stride * index in
  let* r := for_loop (R := Empty_set) (Z.to_nat op) 0 (replicate (Z.to_nat burst) 0)
              (fun i sum => read_round work_group_size start burst stride i sum) in
  match r with inl sum => pret sum | inr e => match e with end end.
End Throughput.

(** ** Specifications *)

Definition table (array_size stride : Z) : list Z :=
  (fun i => 8 * (i + stride) mod array_size) <$> seqZ 0 array_size.

Lemma length_table n st : 0 <= n -> length (table n st) = Z.to_nat n.
Proof. intros Hn. unfold table. by rewrite length_fmap, length_seqZ. Qed.

Lemma table_lookup n st i :
  0 <= i < n -> table n st !! Z.to_nat i = Some (8 * (i + st) mod n).
Proof.
  intros Hi. unfold table. rewrite list_lookup_fmap, lookup_seqZ_lt by lia. cbn.
  by rewrite Z2Nat.id, Z.add_0_l by lia.
Qed.

(** A list whose first [k] entries were replaced, one by one. *)
Lemma insert_prefix (f : Z -> Z) (l : list Z) (k : nat) :
  (k < length l)%nat ->
  <[k := f (Z.of_nat k)]> ((f <$> seqZ 0 (Z.of_nat k)) ++ drop k l) =
    (f <$> seqZ 0 (Z.of_nat (S k))) ++ drop (S k) l.
Proof.
  intros Hk. rewrite insert_app_r_alt by (rewrite length_fmap, length_seqZ; lia).
  rewrite length_fmap, length_seqZ, Nat2Z.id, Nat.sub_diag, seqZ_S, fmap_app, Z.add_0_l.
  destruct (lookup_lt_is_Some_2 l k Hk) as [x Hx]. rewrite (drop_S _ _ _ Hx).
  by rewrite <- app_assoc.
Qed.

Lemma length_prefix (f : Z -> Z) (l : list Z) (k : nat) :
  (k <= length l)%nat -> length ((f <$> seqZ 0 (Z.of_nat k)) ++ drop k l) = length l.
Proof.
  intros Hk. rewrite length_app, length_fmap, length_seqZ, length_drop. lia.
Qed.

Lemma fill_table_spec {B} n st s (k : unit -> cprog B) Q :
  0 < n -> 0 <= st -> 8 * (n - 1 + st) <= INT_MAX -> length (t_p s) = Z.to_nat n ->
  wp (k tt) Q (set_p (table n st) s) -> wp (pbind (fill_table n st) k) Q s.
Proof.
  intros Hn Hst Hov Hl Hk. apply wp_bind. unfold fill_table. apply wp_bind.
  set (f := fun i => 8 * (i + st) mod n).
  apply (wp_for_loop (fun j (_ : unit) t => exists m : nat, j = Z.of_nat m /\
    t = set_p ((f <$> seqZ 0 (Z.of_nat m)) ++ drop m (t_p s)) s)).
  - exists 0%nat. split; [done|]. by destruct s.
  - intros j [] t Hj (m & -> & ->). unfold INT_MAX in *.
    rewrite !int_result_ok, !pbind_ret, !int_result_ok, !pbind_ret by (unfold INT_MAX; lia).
    apply wp_bind, wp_get. cbn [t_p set_p].
    rewrite nth_set_ok, pbind_ret by (rewrite length_prefix; lia).
    apply wp_bind, wp_modify, wp_ret. exists (S m). split; [lia|].
    rewrite Nat2Z.id, Z.rem_mod_nonneg by lia.
    unfold set_p. cbn. f_equal. apply (insert_prefix f). lia.
  - intros [] t (m & Hm & ->). assert (m = Z.to_nat n) as -> by lia.
    apply wp_ret. rewrite drop_ge, app_nil_r, Z2Nat.id by lia. exact Hk.
Qed.

(** A time stamp goes through two words; a difference is kept. *)
Lemma join_split v : join_words (u32 (u64 v)) (u32 (Z.shiftr (u64 v) 32)) = u64 v.
Proof.
  unfold join_words. pose proof (u64_range v) as Hv.
  rewrite Z.lor_comm, lor_fields by (done || apply u32_range).
  rewrite Z.shiftr_div_pow2 by done. unfold u32.
  rewrite (Z.mod_small (u64 v / 2 ^ 32)).
  - pose proof (Z.div_mod (u64 v) (2 ^ 32) ltac:(lia)). lia.
  - split; [apply Z.div_pos; lia|]. apply Z.div_lt_upper_bound; lia.
Qed.

Lemma difference_kept v1 v2 D :
  0 <= v2 - v1 <= D -> D <= INT_MAX -> s32 (u64 (u64 v2 - u64 v1)) = v2 - v1.
Proof.
  intros Hd HD. unfold INT_MAX in HD. unfold u64 at 1, u64 at 1, u64 at 1.
  rewrite <- Zminus_mod, Z.mod_small by lia. apply s32_small. lia.
Qed.

Lemma s64_small x : - 2 ^ 63 <= x < 2 ^ 63 -> s64 x = x.
Proof. intros Hx. unfold s64. rewrite Z.mod_small; lia. Qed.

(** Sums of a prefix of a list. *)
Definition zsum (l : list Z) : Z := foldr Z.add 0 l.

Lemma zsum_snoc l x : zsum (l ++ [x]) = zsum l + x.
Proof. unfold zsum. induction l as [|y l IH]; cbn; lia. Qed.

Lemma zsum_range l M : Forall (fun x => 0 <= x <= M) l -> 0 <= zsum l <= Z.of_nat (length l) * M.
Proof. unfold zsum. induction 1 as [|x l Hx _ IH]; cbn [foldr length]; lia. Qed.

Section LatencySpecs.
Context (tsc : nat -> Z) (p_base index_base D : Z).
Context (Htsc : forall k, 0 <= tsc (S k) - tsc k <= D) (HD : D <= INT_MAX).

(** What a chase stores: the byte offset it goes to next. *)
Definition chain (n st k : Z) : Z := 8 * st * k mod n.
Definition samples (n st op : Z) : list Z := (fun k => chain n st (k + 1)) <$> seqZ 0 op.

(** The differences of the time stamps before and after each load, when [t0] had
    been read before. *)
Definition latency (t0 : nat) (k : Z) : Z :=
  tsc (S (t0 + 2 * Z.to_nat k)) - tsc (t0 + 2 * Z.to_nat k)%nat.
Definition latencies (t0 : nat) (op : Z) : list Z := latency t0 <$> seqZ 0 op.

Lemma chain_range n st k : 0 < n -> 0 <= chain n st k < n.
Proof. intros Hn. by apply Z.mod_pos_bound. Qed.

(** With a multiple of 8 for the size, every offset is one of a long, and the
    long there holds the next offset. *)
Lemma chain_slot n st k :
  0 < n -> n mod 8 = 0 -> 0 <= st ->
  chain n st k mod 8 = 0 /\ 0 <= chain n st k / 8 < n /\
  8 * (chain n st k / 8 + st) mod n = chain n st (k + 1).
Proof.
  intros Hn H8 Hst. pose proof (chain_range n st k Hn) as Hr. unfold chain in *.
  assert (Hm : (8 * st * k mod n) mod 8 = 0).
  { assert (E : n = 8 * (n / 8)) by (pose proof (Z.div_mod n 8); lia). rewrite E.
    rewrite <- Z.mul_assoc, Z.mul_mod_distr_l by lia. rewrite Z.mul_comm. by apply Z.mod_mul. }
  split; [done|]. split; [zdivmod|].
  assert (E : 8 * ((8 * st * k mod n) / 8) = 8 * st * k mod n) by zdivmod.
  rewrite Z.mul_add_distr_l, E, Z.add_mod_idemp_l by lia. f_equal. lia.
Qed.

Lemma wp_slot {B} base a k s (f : Z -> cprog B) Q :
  0 <= k -> a = base + 8 * k -> wp (f k) Q s -> wp (pbind (slot base a) f) Q s.
Proof.
  intros Hk -> Hf. unfold slot. rewrite (proj2 (Z.leb_le _ _)) by lia.
  replace (base + 8 * k - base) with (k * 8) by lia.
  rewrite Z.mod_mul, Z.div_mul by done. exact Hf.
Qed.

Lemma wp_print_addr {B} s (f : unit -> cprog B) Q :
  0 <= t_addr s < 2 ^ 63 -> wp (f tt) Q (set_cout (t_cout s ++ [t_addr s]) s) ->
  wp (pbind print_addr f) Q s.
Proof.
  intros Ha Hf. apply wp_bind. unfold print_addr. apply wp_bind, wp_get, wp_modify.
  by rewrite s64_small by lia.
Qed.

Lemma wp_print_bounds {B} op st s (f : unit -> cprog B) Q :
  0 <= op -> 0 <= st -> op * 8 <= INT_MAX -> op * 8 * st <= INT_MAX ->
  0 <= t_addr s -> t_addr s + op * 8 * st < 2 ^ 63 ->
  wp (f tt) Q (set_cout (t_cout s ++ [t_addr s; t_addr s + op * 8 * st]) s) ->
  wp (pbind (print_bounds op st) f) Q s.
Proof.
  intros Hop Hst H8 Hmax Ha Hend Hf. assert (0 <= op * 8 * st) by nia.
  apply wp_bind. unfold print_bounds. apply wp_print_addr; [lia|].
  rewrite !int_result_ok, !pbind_ret, int_result_ok, pbind_ret by (unfold INT_MAX in *; lia).
  apply wp_bind, wp_get. cbn [t_addr set_cout]. unfold long_result.
  rewrite s64_small, (proj2 (Z.leb_le _ _)), (proj2 (Z.ltb_lt _ _)) by lia. cbn [andb].
  rewrite pbind_ret. apply wp_modify. cbn [t_cout set_cout]. rewrite <- app_assoc. exact Hf.
Qed.

(** The state of a chase after [j] steps, and at its end. *)
Definition chased (n st op : Z) (s : chase) (j : nat) : chase :=
  Chase (table n st) (samples n st (Z.of_nat j) ++ drop j (t_index s))
    (latencies (t_ticks s) (Z.of_nat j) ++ drop j (t_res s))
    (p_base + chain n st (Z.of_nat j)) p_base (index_base + 8 * Z.of_nat j) (t_ticks s + 2 * j)
    (t_cout s ++ [p_base; p_base + op * 8 * st]) (t_file s).
Definition after_chase (n st op : Z) (s : chase) : chase :=
  Chase (table n st) (samples n st op) (latencies (t_ticks s) op) p_base p_base
    (index_base + 8 * op) (t_ticks s + 2 * Z.to_nat op)
    (t_cout s ++ [p_base; p_base + op * 8 * st; p_base + chain n st op]) (t_file s).

(** One load: from the place of the chain, with a time stamp before and after. *)
Lemma chase_step n st op s m :
  0 < n -> n mod 8 = 0 -> 0 <= st -> (m < Z.to_nat op)%nat ->
  0 <= p_base -> p_base + 8 * n < 2 ^ 64 -> 0 <= index_base -> index_base + 8 * op < 2 ^ 64 ->
  length (t_index s) = Z.to_nat op -> length (t_res s) = Z.to_nat op ->
  wp (load_next tsc p_base index_base (Z.of_nat m))
    (fun (o : unit + Empty_set) t => o = inl tt /\ t = chased n st op s (S m))
    (chased n st op s m).
Proof.
  intros Hn H8 Hst Hm Hp1 Hp2 Hi1 Hi2 Hli Hlr. unfold load_next.
  destruct (chain_slot n st (Z.of_nat m) Hn H8 Hst) as (Hm8 & Hms & Hmn).
  pose proof (chain_range n st (Z.of_nat m) Hn) as Hmr.
  pose proof (chain_range n st (Z.of_nat m + 1) Hn) as Hmr1.
  apply wp_bind, wp_get. cbv zeta. apply wp_bind. unfold rdtsc_words at 1. unfold wp at 1.
  cbn [t_p t_index t_res t_addr t_start t_index_temp t_ticks chased].
  eapply wp_slot; [exact (proj1 Hms)| |].
  { rewrite Z.add_0_l, u64_small by lia.
    pose proof (Z.div_mod (chain n st (Z.of_nat m)) 8). lia. }
  rewrite (nth_get_ok _ _ _ (proj1 Hms) (table_lookup n st _ Hms)), pbind_ret, Hmn.
  eapply wp_slot; [|reflexivity|]; [lia|].
  unfold samples at 1. rewrite nth_set_ok, pbind_ret by (rewrite length_prefix; lia).
  apply wp_bind, wp_modify, wp_bind. unfold rdtsc_words. unfold wp at 1.
  apply wp_bind, wp_modify, wp_bind, wp_modify, wp_bind, wp_get.
  unfold set_ticks, set_index, set_addr, set_index_temp, set_res, chased.
  cbn [t_p t_index t_res t_addr t_start t_index_temp t_ticks t_cout t_file].
  unfold latencies at 1. rewrite nth_set_ok, pbind_ret by (rewrite length_prefix; lia).
  apply wp_bind, wp_modify, wp_ret. split; [done|].
  cbn [t_p t_index t_res t_addr t_start t_index_temp t_ticks t_cout t_file].
  rewrite !join_split, (difference_kept _ _ D (Htsc _) HD), !Nat2Z.id, !u64_small by lia.
  f_equal; try lia.
  - apply (insert_prefix (fun k => chain n st (k + 1))). lia.
  - assert (E : latency (t_ticks s) (Z.of_nat m) = tsc (S (t_ticks s + 2 * m)) - tsc (t_ticks s + 2 * m)%nat).
    { unfold latency. by rewrite Nat2Z.id. }
    rewrite <- E. apply (insert_prefix (latency (t_ticks s))). lia.
  - do 2 f_equal. lia.
Qed.

Lemma perf_counter_asm_spec {B} n st op s (k : unit -> cprog B) Q :
  0 < n -> n mod 8 = 0 -> 0 <= st -> 0 <= op -> op * 8 <= INT_MAX -> op * 8 * st <= INT_MAX ->
  0 <= p_base -> p_base + 8 * n < 2 ^ 63 -> p_base + op * 8 * st < 2 ^ 63 ->
  0 <= index_base -> index_base + 8 * op < 2 ^ 64 ->
  t_p s = table n st -> t_addr s = p_base ->
  length (t_index s) = Z.to_nat op -> length (t_res s) = Z.to_nat op ->
  wp (k tt) Q (after_chase n st op s) ->
  wp (pbind (perf_counter_asm tsc p_base index_base op st) k) Q s.
Proof.
  intros Hn H8 Hst Hop Ho8 Hos Hp1 Hp2 Hp3 Hi1 Hi2 Hp Ha Hli Hlr Hk.
  apply wp_bind. unfold perf_counter_asm. apply wp_bind, wp_modify.
  apply wp_print_bounds; [done|done|done|done|cbn; lia|cbn; lia|]. apply wp_bind, wp_modify, wp_bind.
  apply (wp_for_loop (fun j (_ : unit) t => exists m : nat, j = Z.of_nat m /\ t = chased n st op s m)).
  - exists 0%nat. split; [done|]. unfold chased, set_cout, set_index_temp, set_start. cbn.
    unfold chain. rewrite Z.mul_0_r, Z.mod_0_l, !Z.add_0_r, Nat.add_0_r, Hp, Ha by lia. done.
  - intros j [] t Hj (m & -> & ->). eapply wp_mono; [eapply chase_step; done || lia|].
    intros o t (-> & ->). exists (S m). split; [lia|done].
  - intros [] t (m & Hm & ->). assert (m = Z.to_nat op) as -> by lia.
    pose proof (chain_range n st op Hn).
    apply wp_print_addr; [cbn; rewrite Z2Nat.id by lia; lia|]. apply wp_modify.
    unfold set_addr, set_cout, chased, after_chase in *. cbn in *.
    rewrite Z2Nat.id, !drop_ge, !app_nil_r, <- app_assoc in * by lia. exact Hk.
Qed.

(** The sums over the results, as long as they stay in an [int]; the state may
    change with the place. *)
Lemma sum_loop_spec {B} op add (F : nat -> Z) (G : nat -> chase) (k : Z -> cprog B) Q :
  F 0%nat = 0 ->
  (forall i, (i < Z.to_nat op)%nat -> add (F i) (Z.of_nat i) (G i) = (Done (F (S i)), G (S i))) ->
  wp (k (F (Z.to_nat op))) Q (G (Z.to_nat op)) -> wp (pbind (sum_loop op add) k) Q (G 0%nat).
Proof.
  intros H0 Hadd Hk. apply wp_bind. unfold sum_loop. apply wp_bind.
  apply (wp_for_loop (fun i acc t => exists m : nat, i = Z.of_nat m /\ acc = F m /\ t = G m)).
  - by exists 0%nat.
  - intros i acc t Hi (m & -> & -> & ->). apply wp_bind. unfold wp.
    rewrite Hadd by lia. exists (S m). split; [lia|done].
  - intros acc t (m & Hm & -> & ->). assert (m = Z.to_nat op) as -> by lia. by apply wp_ret.
Qed.

Lemma prefix_sum l M op i x :
  Forall (fun x => 0 <= x <= M) (take (Z.to_nat op) l) -> (i < Z.to_nat op)%nat -> l !! i = Some x ->
  0 <= M -> 0 <= zsum (take i l) + x <= op * M /\ zsum (take (S i) l) = zsum (take i l) + x.
Proof.
  intros Hl Hi Hx HM. assert (E : take (S i) l = take i l ++ [x]) by by apply take_S_r.
  assert (Hs : Forall (fun x => 0 <= x <= M) (take (S i) l)).
  { apply (Forall_take _ (S i)) in Hl. rewrite take_take in Hl.
    by replace (S i `min` Z.to_nat op)%nat with (S i) in Hl by lia. }
  pose proof (zsum_range _ M Hs) as Hz. rewrite length_take in Hz. rewrite E, zsum_snoc in *.
  split; [nia|done].
Qed.

Lemma add_result_spec s M op i :
  Forall (fun x => 0 <= x <= M) (take (Z.to_nat op) (t_res s)) -> 0 <= M -> op * M <= INT_MAX ->
  (Z.to_nat op <= length (t_res s))%nat -> (i < Z.to_nat op)%nat ->
  forall a, 0 <= a -> a + op * M <= INT_MAX ->
  add_result (a + zsum (take i (t_res s))) (Z.of_nat i) s =
    (Done (a + zsum (take (S i) (t_res s))), s).
Proof.
  intros Hl HM Hmax Hlen Hi a Ha Ham. unfold add_result, get_state. unfold pbind at 1.
  destruct (lookup_lt_is_Some_2 (t_res s) i) as [x Hx]; [lia|].
  destruct (prefix_sum _ M op i x Hl Hi Hx HM) as [Hr ->].
  rewrite (nth_get_ok _ _ x), pbind_ret by (lia || by rewrite Nat2Z.id).
  rewrite int_result_ok by (unfold INT_MAX in *; lia). unfold pret. do 2 f_equal. lia.
Qed.

Lemma add_index_spec s M op i :
  Forall (fun x => 0 <= x <= M) (take (Z.to_nat op) (t_index s)) -> 0 <= M ->
  (Z.to_nat op <= length (t_index s))%nat -> (i < Z.to_nat op)%nat ->
  forall a, 0 <= a -> a + op * M <= INT_MAX ->
  add_index (a + zsum (take i (t_index s))) (Z.of_nat i) s =
    (Done (a + zsum (take (S i) (t_index s))), s).
Proof.
  intros Hl HM Hlen Hi a Ha Ham. unfold add_index, get_state. unfold pbind at 1.
  destruct (lookup_lt_is_Some_2 (t_index s) i) as [x Hx]; [lia|].
  destruct (prefix_sum _ M op i x Hl Hi Hx HM) as [Hr ->].
  rewrite (nth_get_ok _ _ x), pbind_ret by (lia || by rewrite Nat2Z.id).
  rewrite s32_small by (unfold INT_MAX in *; lia). unfold pret. do 2 f_equal. lia.
Qed.

Lemma prefix_range l M op i :
  Forall (fun x => 0 <= x <= M) (take (Z.to_nat op) l) -> (i <= Z.to_nat op)%nat -> 0 <= M -> 0 <= op ->
  0 <= zsum (take i l) <= op * M.
Proof.
  intros Hl Hi HM Hop. apply (Forall_take _ i) in Hl. rewrite take_take, Nat.min_l in Hl by lia.
  pose proof (zsum_range _ M Hl) as Hz. rewrite length_take in Hz. nia.
Qed.

(** The three loops over the samples: both sums in one, the sum of the latencies
    that also writes them, and the sum of the indices. *)
Section SumLoops.
Context (M N op : Z) (s : chase).
Context (HM : 0 <= M) (HN : 0 <= N) (Hop : 0 <= op) (Hmax : op * (N + M) <= INT_MAX).
Context (HlM : Forall (fun x => 0 <= x <= M) (t_res s)) (HlN : Forall (fun x => 0 <= x <= N) (t_index s)).
Context (Hr : length (t_res s) = Z.to_nat op) (Hi : length (t_index s) = Z.to_nat op).

Lemma sum_both_spec {B} (k : Z -> cprog B) Q :
  wp (k (zsum (t_res s) + zsum (t_index s))) Q s ->
  wp (pbind (sum_loop op (fun acc i => let* acc := add_result acc i in add_index acc i)) k) Q s.
Proof.
  intros Hk.
  apply (sum_loop_spec op _ (fun i => zsum (take i (t_index s)) + zsum (take i (t_res s))) (fun _ => s));
    [done| |by rewrite !take_ge, Z.add_comm by lia].
  intros i Hlt.
  pose proof (prefix_range _ N op i (Forall_take _ _ _ HlN) ltac:(lia) HN Hop).
  pose proof (prefix_range _ M op (S i) (Forall_take _ _ _ HlM) ltac:(lia) HM Hop).
  unfold pbind. rewrite (add_result_spec s M op i (Forall_take _ _ _ HlM)) by lia.
  rewrite (Z.add_comm (zsum (take i (t_index s)))).
  rewrite (add_index_spec s N op i (Forall_take _ _ _ HlN)) by lia. do 2 f_equal. lia.
Qed.

Lemma sum_index_spec {B} (k : Z -> cprog B) Q :
  wp (k (zsum (t_index s))) Q s -> wp (pbind (sum_loop op add_index) k) Q s.
Proof.
  intros Hk. apply (sum_loop_spec op _ (fun i => 0 + zsum (take i (t_index s))) (fun _ => s));
    [done| |by rewrite take_ge by lia].
  intros i Hlt. apply (add_index_spec s N op i (Forall_take _ _ _ HlN)); lia.
Qed.

Lemma sum_written_spec {B} (k : Z -> cprog B) Q :
  wp (k (zsum (t_res s))) Q (set_file (t_file s ++ t_res s) s) ->
  wp (pbind (sum_loop op (fun acc i => let* acc := add_result acc i in write_result i;; pret acc)) k) Q s.
Proof.
  intros Hk. set (G i := set_file (t_file s ++ take i (t_res s)) s).
  replace s with (G 0%nat) at 1 by (unfold G; cbn; rewrite app_nil_r; by destruct s).
  apply (sum_loop_spec op _ (fun i => 0 + zsum (take i (t_res s))) G);
    [done| |unfold G; by rewrite take_ge by lia].
  intros i Hlt. destruct (lookup_lt_is_Some_2 (t_res s) i) as [x Hx]; [lia|].
  unfold pbind at 1.
  rewrite (add_result_spec (G i) M op i (Forall_take _ _ _ HlM)) by (lia || (cbn [t_res set_file G]; lia)).
  unfold write_result, pbind, get_state. cbn [t_res set_file G].
  rewrite (nth_get_ok _ _ x) by (lia || by rewrite Nat2Z.id). cbn. unfold G, set_file. cbn.
  by rewrite (take_S_r _ _ _ Hx), app_assoc.
Qed.
End SumLoops.

Lemma samples_range n st op : 0 < n -> Forall (fun x => 0 <= x <= n) (samples n st op).
Proof.
  intros Hn. apply Forall_fmap, Forall_true. intros k. cbn.
  pose proof (chain_range n st (k + 1) Hn). lia.
Qed.

Lemma latencies_range t0 op : Forall (fun x => 0 <= x <= D) (latencies t0 op).
Proof. apply Forall_fmap, Forall_true. intros k. apply Htsc. Qed.

(** Two chases and what they print. *)
Definition bounds (n st op : Z) : list Z := [p_base; p_base + op * 8 * st; p_base + chain n st op].
Definition chased_twice (n st op : Z) (s : chase) : chase :=
  let first := latencies (t_ticks s) op in
  let second := latencies (t_ticks s + 2 * Z.to_nat op) op in
  Chase (table n st) (samples n st op) second p_base p_base (index_base + 8 * op)
    (t_ticks s + 2 * Z.to_nat op + 2 * Z.to_nat op)
    (t_cout s ++ bounds n st op ++ bounds n st op ++
      [zsum first + zsum (samples n st op); zsum (samples n st op); zsum second])
    (t_file s ++ second).

Lemma chase_twice_spec n st op s :
  0 < n -> n mod 8 = 0 -> 0 <= st -> 0 < op -> 8 * (n - 1 + st) <= INT_MAX ->
  op * 8 <= INT_MAX -> op * 8 * st <= INT_MAX -> op * (n + D) <= INT_MAX ->
  0 <= p_base -> p_base + 8 * n < 2 ^ 63 -> p_base + op * 8 * st < 2 ^ 63 ->
  0 <= index_base -> index_base + 8 * op < 2 ^ 64 ->
  length (t_p s) = Z.to_nat n -> length (t_index s) = Z.to_nat op -> length (t_res s) = Z.to_nat op ->
  wp (chase_twice tsc p_base index_base n st op) (fun _ t => t = chased_twice n st op s) s.
Proof.
  intros Hn H8 Hst Hop Hov Ho8 Hos Hsum Hp1 Hp2 Hp3 Hi1 Hi2 Hlp Hli Hlr. unfold chase_twice.
  pose proof (Htsc 0%nat) as HD0.
  assert (Hlat : forall t0, length (latencies t0 op) = Z.to_nat op).
  { intros t0. unfold latencies. by rewrite length_fmap, length_seqZ. }
  assert (Hsam : length (samples n st op) = Z.to_nat op).
  { unfold samples. by rewrite length_fmap, length_seqZ. }
  apply fill_table_spec; [done..|]. apply wp_bind, wp_modify.
  apply (perf_counter_asm_spec n st op); [first [done|lia]..|].
  apply fill_table_spec; [done|done|done|by cbn; rewrite length_table by lia|].
  apply (sum_both_spec D n op);
    [first [done|lia|apply latencies_range|by apply samples_range|apply Hlat|apply Hsam]..|].
  apply (perf_counter_asm_spec n st op); [first [done|lia|apply Hsam|apply Hlat]..|].
  apply (sum_written_spec D n op);
    [first [done|lia|apply latencies_range|by apply samples_range|apply Hlat|apply Hsam]..|].
  apply wp_bind, wp_modify.
  apply (sum_index_spec D n op);
    [first [done|lia|apply latencies_range|by apply samples_range|apply Hlat|apply Hsam]..|].
  apply wp_bind, wp_modify, wp_modify. unfold set_cout, chased_twice, bounds. cbn.
  f_equal. by rewrite <- !app_assoc.
Qed.

(** The variant in C uses the byte offsets as indices. *)
Definition hop (n st : Z) (k : nat) : Z := Nat.iter k (fun j => 8 * (j + st) mod n) 0.
Definition hops (n st : Z) (op : nat) : list Z :=
  (fun k => hop n st (S (Z.to_nat k))) <$> seqZ 0 (Z.of_nat op).

Lemma hop_range n st k : 0 < n -> 0 <= hop n st k < n.
Proof. intros Hn. destruct k; cbn; [lia|by apply Z.mod_pos_bound]. Qed.

Lemma perf_counter_spec now n st op s :
  0 < n -> (forall i, 0 <= now i <= INT_MAX) ->
  0 <= op -> 0 <= st -> op * 8 <= INT_MAX -> op * 8 * st <= INT_MAX ->
  0 <= t_addr s -> t_addr s + op * 8 * st < 2 ^ 63 -> t_p s = table n st ->
  length (t_index s) = Z.to_nat op -> length (t_res s) = Z.to_nat op ->
  wp (perf_counter now op st) (fun _ t => t_index t = hops n st (Z.to_nat op)) s.
Proof.
  intros Hn Hnow Hop Hst Ho8 Hos Ha1 Ha2 Hp Hli Hlr. unfold perf_counter. assert (0 <= op * 8 * st) by nia.
  apply wp_bind, wp_modify, wp_print_bounds; [done..|]. apply wp_bind.
  apply (wp_for_loop (fun i j t => exists m : nat, i = Z.of_nat m /\ j = hop n st m /\
    t_p t = table n st /\ length (t_res t) = Z.to_nat op /\ t_addr t = t_addr s /\
    t_index t = hops n st m ++ drop m (t_index s))).
  - by exists 0%nat.
  - intros i j t Hi (m & -> & -> & Htp & Htr & Hta & Hti).
    pose proof (hop_range n st m Hn) as Hr.
    apply wp_bind, wp_get.
    rewrite Htp, (nth_get_ok _ _ _ (proj1 Hr) (table_lookup n st _ Hr)), pbind_ret.
    rewrite nth_set_ok, pbind_ret
      by (rewrite Hti; unfold hops; rewrite length_prefix by lia; lia).
    apply wp_bind, wp_modify, wp_bind, wp_get. cbn [t_res set_index].
    pose proof (Hnow (Z.of_nat m)). rewrite int_result_ok, pbind_ret by lia.
    rewrite nth_set_ok, pbind_ret by lia. apply wp_bind, wp_modify, wp_ret.
    exists (S m). split; [lia|]. split; [done|]. split; [done|].
    split; [by cbn; rewrite length_insert|]. split; [done|]. cbn [t_index set_res set_index].
    rewrite Nat2Z.id, Hti. unfold hops.
    replace (8 * (hop n st m + st) mod n) with (hop n st (S (Z.to_nat (Z.of_nat m))))
      by by rewrite Nat2Z.id.
    apply (insert_prefix (fun k => hop n st (S (Z.to_nat k)))). lia.
  - intros j t (m & Hm & _ & _ & _ & Hta & Hti). assert (m = Z.to_nat op) as -> by lia.
    apply wp_print_addr; [rewrite Hta; lia|].
    apply wp_modify. cbn. by rewrite Hti, drop_ge, app_nil_r by lia.
Qed.
End LatencySpecs.

(** A program that returns with [Q], or ends in undefined behaviour, which cannot
    happen under [P]. *)
Definition upto {S A} (P : Prop) (m : prog S A) (Q : A -> S -> Prop) (s : S) : Prop :=
  match m s with (Done a, t) => Q a t | (Halt r, _) => r = Undefined /\ ~ P end.

Definition fits (x : Z) : Prop := - 2 ^ 31 <= x <= INT_MAX.

Section Upto.
Context {S : Type} (P : Prop).
Implicit Type s : S.

Lemma upto_wp {A} (m : prog S A) Q s : wp m Q s -> upto P m Q s.
Proof. unfold wp, upto. by destruct (m s) as [[a|r] t]. Qed.

Lemma upto_bind {A B} (m : prog S A) (k : A -> prog S B) Q s :
  upto P m (fun a => upto P (k a) Q) s -> upto P (pbind m k) Q s.
Proof. unfold upto, pbind. by destruct (m s) as [[a|r] t]. Qed.

Lemma upto_mono {A} (m : prog S A) (Q Q' : A -> S -> Prop) s :
  upto P m Q s -> (forall a t, Q a t -> Q' a t) -> upto P m Q' s.
Proof. unfold upto. destruct (m s) as [[a|r] t]; auto. Qed.

Lemma upto_int {B} x (k : Z -> prog S B) Q s :
  (P -> fits x) -> (fits x -> upto P (k x) Q s) -> upto P (pbind (int_result x) k) Q s.
Proof.
  intros Hfit Hk. destruct (decide (fits x)) as [Hx|Hx].
  - rewrite int_result_ok, pbind_ret by done. by apply Hk.
  - apply upto_bind. unfold upto, int_result. destruct (_ && _) eqn:E; [|by split; [done|intros Hp; apply Hx, Hfit]].
    apply andb_true_iff in E as [? ?]. destruct Hx. unfold fits. lia.
Qed.

Lemma upto_for_loop {L} (I : Z -> L -> S -> Prop) (Q : L + Empty_set -> S -> Prop)
    (body : Z -> L -> prog S (L + Empty_set)) n i l s :
  I i l s ->
  (forall j m t, i <= j < i + Z.of_nat n -> I j m t ->
     upto P (body j m) (fun o t1 => exists m1, o = inl m1 /\ I (j + 1) m1 t1) t) ->
  (forall m t, I (i + Z.of_nat n) m t -> Q (inl m) t) ->
  upto P (for_loop n i l body) Q s.
Proof.
  revert i l s. induction n as [|n IH]; intros i l s HI Hbody Hend; cbn [for_loop].
  - apply upto_wp, wp_ret, Hend. by rewrite Z.add_0_r.
  - apply upto_bind. eapply upto_mono; [apply Hbody; [lia|exact HI]|].
    intros o t (m1 & -> & HI1). apply IH; [done|intros; apply Hbody; [lia|done]|].
    intros m t1 Hm. apply Hend. by replace (i + Z.of_nat (Datatypes.S n)) with (i + 1 + Z.of_nat n) by lia.
Qed.
End Upto.

Section ThroughputSpecs.
Context (lanes : Z -> Z) (wgs op burst stride index : Z).
Context (Hw : 0 < wgs) (Hb : 0 <= burst) (Hs : 0 < stride) (Hi : 0 <= index) (Ho : 0 <= op).

(** The element of access [j] in round [i]; those of a round, and of the first
    rounds; the sum of a place after [i] rounds. *)
Definition element (i j : Z) : Z := (op * stride * index + i * stride + j) mod wgs.
Definition round_elements (i : Z) : list Z := element i <$> seqZ 0 burst.
Definition elements (rounds : Z) : list Z := flat_map round_elements (seqZ 0 rounds).
Definition lane_sum (i j : Z) : Z := zsum ((fun r => lanes (element r j)) <$> seqZ 0 i).
Definition lane_sums (i : Z) : list Z := lane_sum i <$> seqZ 0 burst.

(** No product and no sum of the first [i] rounds leaves an [int]. *)
Definition all_fit (i : Z) : Prop :=
  forall r j, 0 <= r < i -> 0 <= j < burst -> fits (r * stride) /\ fits (lane_sum (r + 1) j).

Lemma seqZ_snoc n : 0 <= n -> seqZ 0 (n + 1) = seqZ 0 n ++ [n].
Proof. intros Hn. rewrite <- (Z2Nat.id n Hn). change 1 with (Z.of_nat 1). rewrite <- Nat2Z.inj_add, Nat.add_1_r. by rewrite seqZ_S. Qed.

Lemma lane_sum_next i j : 0 <= i -> lane_sum (i + 1) j = lane_sum i j + lanes (element i j).
Proof. intros Hi0. unfold lane_sum. rewrite seqZ_snoc, fmap_app by done. apply zsum_snoc. Qed.

Lemma access_spec i m l :
  0 <= i < op -> (Z.of_nat m < burst) ->
  upto (all_fit op) (access lanes wgs (op * stride * index) stride i (Z.of_nat m)
      ((lane_sum (i + 1) <$> seqZ 0 (Z.of_nat m)) ++ drop m (lane_sums i)))
    (fun sum l1 => sum = (lane_sum (i + 1) <$> seqZ 0 (Z.of_nat (S m))) ++ drop (S m) (lane_sums i) /\
       l1 = l ++ [element i (Z.of_nat m)] /\ fits (i * stride) /\ fits (lane_sum (i + 1) (Z.of_nat m))) l.
Proof.
  intros Hi0 Hm. assert (Hl : length (lane_sums i) = Z.to_nat burst).
  { unfold lane_sums. by rewrite length_fmap, length_seqZ. }
  unfold access. apply upto_int; [intros Hp; apply (Hp i (Z.of_nat m)); lia|intros Hprod].
  assert (0 <= op * stride * index + i * stride + Z.of_nat m) by nia.
  rewrite Z.rem_mod_nonneg by lia. fold (element i (Z.of_nat m)).
  pose proof (Z.mod_pos_bound (op * stride * index + i * stride + Z.of_nat m) wgs Hw) as Hr.
  fold (element i (Z.of_nat m)) in Hr. apply upto_bind, upto_wp. unfold read_element.
  rewrite (proj2 (Z.leb_le _ _) (proj1 Hr)), (proj2 (Z.ltb_lt _ _) (proj2 Hr)). cbn [andb].
  apply wp_bind, wp_modify, wp_ret.
  rewrite (nth_get_ok _ _ (lane_sum i (Z.of_nat m))), pbind_ret, <- lane_sum_next; [|lia|lia|].
  - apply upto_int; [intros Hp; apply (Hp i (Z.of_nat m)); lia|intros Hsum].
    rewrite nth_set_ok by (rewrite length_prefix; lia). apply upto_wp, wp_ret.
    rewrite Nat2Z.id. split; [|done]. apply (insert_prefix (lane_sum (i + 1))). lia.
  - rewrite Nat2Z.id, lookup_app_r; rewrite length_fmap, length_seqZ, Nat2Z.id; [|done].
    rewrite Nat.sub_diag, lookup_drop, Nat.add_0_r. unfold lane_sums.
    rewrite list_lookup_fmap, lookup_seqZ_lt by lia. done.
Qed.

Lemma round_spec i l :
  0 <= i < op -> all_fit i ->
  upto (all_fit op) (read_round lanes wgs (op * stride * index) burst stride i (lane_sums i))
    (fun o l1 => exists sum, o = inl sum /\ sum = lane_sums (i + 1) /\ l1 = l ++ round_elements i /\
       all_fit (i + 1)) l.
Proof.
  intros Hi0 Hfit. assert (Hl : length (lane_sums i) = Z.to_nat burst).
  { unfold lane_sums. by rewrite length_fmap, length_seqZ. }
  apply (upto_for_loop _ (fun j sum l1 => exists m : nat, j = Z.of_nat m /\
    sum = (lane_sum (i + 1) <$> seqZ 0 (Z.of_nat m)) ++ drop m (lane_sums i) /\
    l1 = l ++ (element i <$> seqZ 0 (Z.of_nat m)) /\
    forall j', 0 <= j' < Z.of_nat m -> fits (i * stride) /\ fits (lane_sum (i + 1) j'))).
  - exists 0%nat. split; [done|]. split; [done|]. split; [by rewrite app_nil_r|lia].
  - intros j sum l1 Hj (m & -> & -> & -> & Hfj). apply upto_bind.
    eapply upto_mono; [apply access_spec; lia|]. intros sum l2 (-> & -> & H1 & H2).
    apply upto_wp, wp_ret. eexists. split; [done|]. exists (S m). split; [lia|]. split; [done|].
    split; [by rewrite seqZ_S, fmap_app, Z.add_0_l, app_assoc|].
    intros j' Hj'. destruct (decide (j' = Z.of_nat m)) as [->|]; [done|apply Hfj; lia].
  - intros sum l1 (m & Hm & -> & -> & Hfj). assert (m = Z.to_nat burst) as -> by lia.
    rewrite Z2Nat.id in * by lia. eexists. split; [done|].
    split; [by rewrite drop_ge, app_nil_r by lia|]. split; [done|].
    intros r j Hr Hj. destruct (decide (r = i)) as [->|]; [by apply Hfj|apply Hfit; lia].
Qed.

(** A thread that reads returns just when everything fits, and otherwise ends in
    undefined behaviour. *)
Lemma read_outcome :
  match read lanes wgs op burst stride index [] with
  | (Done sum, l) => sum = lane_sums op /\ l = elements op /\ all_fit op
  | (Halt r, _) => r = Undefined /\ ~ all_fit op
  end.
Proof.
  change (upto (all_fit op) (read lanes wgs op burst stride index)
    (fun sum l => sum = lane_sums op /\ l = elements op /\ all_fit op) []).
  unfold read. cbv zeta. apply upto_bind.
  apply (upto_for_loop _ (fun j sum l => exists m : nat, j = Z.of_nat m /\
    sum = lane_sums j /\ l = elements j /\ all_fit j)).
  - exists 0%nat. split; [done|]. split; [|split; [done|intros r j Hr; lia]].
    unfold lane_sums. apply list_eq_Forall2, Forall2_same_length_lookup_2.
    { by rewrite length_replicate, length_fmap, length_seqZ. }
    intros k x y [-> _]%lookup_replicate Hy. rewrite list_lookup_fmap in Hy.
    destruct (seqZ 0 burst !! k); [|done]. cbn in Hy. by injection Hy as <-.
  - intros j sum l Hj (m & -> & -> & -> & Hfit).
    eapply upto_mono; [apply round_spec; [lia|done]|]. intros o l2 (sum & -> & -> & -> & Hfit1).
    eexists. split; [done|]. exists (S m). split; [lia|]. split; [done|]. split; [|done].
    unfold elements. rewrite seqZ_snoc, flat_map_app by lia. cbn [flat_map]. by rewrite app_nil_r.
  - intros sum l (m & Hm & -> & -> & Hfit). rewrite Z.add_0_l, Z2Nat.id in * by lia. by apply upto_wp, wp_ret.
Qed.
End ThroughputSpecs.

(** The contents of the program: when the other words hold 0, the sum of the lanes
    is the number of the element. *)
Lemma reduce_filled (raw : Z -> list Z) k :
  0 <= k < 2 ^ 31 -> raw k = replicate 8 0 -> reduce_add_epi32 (fill_element raw k) = k.
Proof.
  intros Hk E. unfold reduce_add_epi32, fill_element. rewrite E.
  change (s32 (u32 k + u32 (Z.shiftr k 32) + 0) = k).
  rewrite Z.shiftr_div_pow2, (Z.div_small k) by lia. change (u32 0) with 0.
  rewrite u32_small, s32_small by lia. lia.
Qed.

(** ** Properties *)

(** C39: the latency benchmark loads only from its table, at offsets of longs;
    the [k]-th sample is the offset of the element [stride] * [k] places on,
    modulo [array_size] bytes.  So the chase stays within the first
    [array_size] bytes of a table of eight times that size.  With time stamps
    that grow by at most [D], and products and sums that fit their types, the
    program comes to the end of its thread, whatever follows there, and has
    written: for each chase where it starts, where it is expected to end and where
    it ends; the sum of the latencies of the first chase and of the offsets, the
    sum of the offsets, and the sum of the latencies of the second chase; and to
    the file those latencies, each the difference of the time stamps around its
    load. *)
Theorem latency_chain tsc p_base index_base D falls_off cpu_nums affinity array_size stride op s
    (offsets := (fun k => 8 * stride * (k + 1) mod array_size) <$> seqZ 0 op)
    (first := latencies tsc (t_ticks s) op)
    (second := latencies tsc (t_ticks s + 2 * Z.to_nat op) op)
    (walk := [p_base; p_base + op * 8 * stride; p_base + 8 * stride * op mod array_size]) :
  (forall k, 0 <= tsc (S k) - tsc k <= D) ->
  5 < cpu_nums -> affinity 5 = true ->
  0 < array_size -> array_size mod 8 = 0 -> 0 <= stride -> 0 < op ->
  8 * (array_size - 1 + stride) <= INT_MAX -> op * 8 * stride <= INT_MAX -> op * 8 <= INT_MAX ->
  op * (array_size + D) <= INT_MAX ->
  0 <= p_base -> p_base + 8 * array_size < 2 ^ 63 -> p_base + op * 8 * stride < 2 ^ 63 ->
  0 <= index_base -> index_base + 8 * op < 2 ^ 64 ->
  length (t_p s) = Z.to_nat array_size -> length (t_index s) = Z.to_nat op ->
  length (t_res s) = Z.to_nat op ->
  exists t,
    latency_main tsc p_base index_base falls_off cpu_nums affinity true array_size stride op s =
      match falls_off with
      | None => (Done tt, set_cout (t_cout t ++ [8]) t)
      | Some r => (Halt r, t)
      end /\
    t_index t = offsets /\ Forall (fun x => 0 <= x < array_size /\ x mod 8 = 0) offsets /\
    t_res t = second /\ t_file t = second /\
    t_cout t = t_cout s ++ walk ++ walk ++ [zsum first + zsum offsets; zsum offsets; zsum second].
Proof.
  intros Htsc Hcpu Haff Hn H8 Hst Hop Hov Hos Ho8 Hsum Hp1 Hp2 Hp3 Hi1 Hi2 Hlp Hli Hlr.
  pose proof (Htsc 0%nat) as HD0. assert (0 <= op * D /\ 0 <= op * array_size) as [] by nia.
  assert (HD : D <= INT_MAX) by (unfold INT_MAX in *; nia).
  exists (chased_twice tsc p_base index_base array_size stride op (set_file [] s)).
  pose proof (chase_twice_spec tsc p_base index_base D Htsc HD array_size stride op (set_file [] s)
    Hn H8 Hst Hop Hov Ho8 Hos Hsum Hp1 Hp2 Hp3 Hi1 Hi2 Hlp Hli Hlr) as Hrun.
  apply wp_run in Hrun as ([] & t & Hrun & ->). split.
  - unfold latency_main, test_latency. rewrite (proj2 (Z.ltb_lt 5 cpu_nums) Hcpu), Haff.
    unfold require, pbind at 1 2 3 4 5, pret, modify_state. rewrite Hrun. by destruct falls_off.
  - split; [done|]. split; [|done]. apply Forall_fmap, Forall_true. intros k.
    split; [by apply chain_range|by apply (chain_slot array_size stride (k + 1))].
Qed.

(** A reading thread of the throughput benchmark visits, in each of its
    [op] rounds, [burst] elements from [stride] times the round on, modulo the
    size of the working set, and adds up their lanes, exactly as long as every
    product of a round with the stride and every sum is an [int]. *)
Theorem throughput_elements lanes wgs op burst stride index :
  0 < wgs -> 0 <= burst -> 0 < stride -> 0 <= index -> 0 <= op ->
  match read lanes wgs op burst stride index [] with
  | (Done sum, l) =>
      l = flat_map (fun i => (fun j => (op * stride * index + i * stride + j) mod wgs)
            <$> seqZ 0 burst) (seqZ 0 op) /\
      sum = (fun j => zsum ((fun i => lanes ((op * stride * index + i * stride + j) mod wgs))
            <$> seqZ 0 op)) <$> seqZ 0 burst /\
      all_fit lanes wgs op burst stride index op
  | (Halt r, _) => r = Undefined /\ ~ all_fit lanes wgs op burst stride index op
  end.
Proof.
  intros Hw Hb Hs Hi Ho. pose proof (read_outcome lanes wgs op burst stride index Hw Hb Hs Hi Ho) as Hr.
  destruct (read _ _ _ _ _ _ _) as [[sum|r] l]; [|done]. by destruct Hr as (-> & -> & ?).
Qed.

(** With the table of the program [perf_counter] stays at one element from the
    eighth step on. *)
Lemma perf_counter_settles k : (8 <= k)%nat -> hop 0x400000 32 k = hop 0x400000 32 8.
Proof.
  intros Hk. induction Hk as [|k Hk IH]; [done|].
  change (hop 0x400000 32 (S k)) with (8 * (hop 0x400000 32 k + 32) mod 0x400000).
  rewrite IH. by vm_compute.
Qed.

(** A second counts for ten thousand million nanoseconds. *)
Lemma elapsed_overcounts s0 n0 s1 n1 :
  elapsed s0 n0 s1 n1 = (s1 * 10 ^ 9 + n1) - (s0 * 10 ^ 9 + n0) + 9 * 10 ^ 9 * (s1 - s0).
Proof. unfold elapsed. lia. Qed.

(** ** Examples *)

Definition small_chase : chase :=
  Chase (replicate 64 0) (replicate 10 0) (replicate 10 0) 0 0 0 0 [] [].

(** A time stamp counter that goes faster and faster. *)
Definition small_tsc (k : nat) : Z := if (k <? 100)%nat then Z.of_nat k * Z.of_nat k else 10000.

Lemma latency_chain_witness :
  let main := latency_main small_tsc 0x200000 0x400000 None 8 (fun _ => true) true 64 3 10 in
  let offsets := [24; 48; 8; 32; 56; 16; 40; 0; 24; 48] in
  let walk := [0x200000; 0x2000f0; 0x200030] in
  exists t, main small_chase = (Done tt, set_cout (t_cout t ++ [8]) t) /\
    t_index t = offsets /\ Forall (fun x => 0 <= x < 64 /\ x mod 8 = 0) offsets /\
    t_res t = [41; 45; 49; 53; 57; 61; 65; 69; 73; 77] /\ t_file t = t_res t /\
    t_cout t = walk ++ walk ++ [486; 296; 590].
Proof.
  destruct (latency_chain small_tsc 0x200000 0x400000 200 None 8 (fun _ => true) 64 3 10 small_chase)
    as (t & Hm & Hi & Hf & Hr & Hw & Hc);
    [intros k; unfold small_tsc; destruct (Nat.ltb_spec k 100), (Nat.ltb_spec (S k) 100);
      [|assert (k = 99)%nat as -> by lia| |]; lia
    |first [reflexivity|discriminate]..|].
  exists t. split; [exact Hm|]. split; [exact Hi|]. split; [exact Hf|].
  split; [exact Hr|]. split; [by rewrite Hw, Hr|exact Hc].
Defined.

(** Four rounds of two elements. *)
Lemma throughput_elements_witness :
  read (fun k => k) 16 4 2 3 1 [] = (Done [34; 22], [12; 13; 15; 0; 2; 3; 5; 6]) /\
  match read (fun k => k) 16 4 2 3 1 [] with
  | (Done sum, l) =>
      l = flat_map (fun i => (fun j => (4 * 3 * 1 + i * 3 + j) mod 16) <$> seqZ 0 2) (seqZ 0 4) /\
      sum = (fun j => zsum ((fun i => (4 * 3 * 1 + i * 3 + j) mod 16) <$> seqZ 0 4)) <$> seqZ 0 2 /\
      all_fit (fun k => k) 16 4 2 3 1 4
  | (Halt r, _) => r = Undefined /\ ~ all_fit (fun k => k) 16 4 2 3 1 4
  end.
Proof.
  split; [vm_compute; reflexivity|]. apply (throughput_elements (fun k => k) 16 4 2 3 1); lia.
Defined.
