(* ===== verification/CpuThreads.v ===== *)
(** * The threads of the CPU throughput benchmark

    [cpu_benchmark/throughput.cpp] as it runs: [main] creates the threads and
    joins them, every thread executes [read], access by access, and all share
    the barrier, the clock and the arrays of results.  Steps interleave freely;
    [step] takes one of [main] or of one thread, [prog_step] adds the loops of
    [main] over strides and bursts.

    [read] has no return statement: what follows its end is the parameter
    [falls_off], a return or any way to stop.  A bandwidth is kept as bytes and
    nanoseconds, a line of the file without the division.  What [tmp] holds before
    it is written, the clock, the words of [p] that the program does not write and
    the processors a thread may be bound to are parameters as well. *)

From stdpp Require Import base gmap list numbers option relations.
From S2P Require Import Prelude CInt.
From S2P Require Import CpuBench.
Open Scope Z_scope.

(** ** Threads and the session they share *)

Inductive phase : Type :=
  | Created                                  (* before it is bound to a processor *)
  | Ready                                    (* at the call of the barrier *)
  | Blocked                                  (* in the barrier *)
  | Released                                 (* behind the barrier *)
  | Reading (start : Z * Z) (i j : Z)        (* in the loops *)
  | Timed (start stop : Z * Z)
  | Stored                                   (* [t[index]] is written *)
  | Ended.

#[export] Instance phase_eq_dec : EqDecision phase.
Proof. solve_decision. Defined.

Record thread : Type := Thread {
  th_index : Z;
  th_sum : list Z;
  th_reads : list Z;       (* the elements of [p] it has read *)
  th_phase : phase;
}.

Inductive main_phase : Type :=
  | Creating (i : Z)
  | Joining (i : Z)
  | Reported (max : Z).

(** One execution of the body of the inner loop of [main], and the globals. *)
Record session : Type := Session {
  s_main : main_phase;
  s_threads : list thread;
  s_arrived : Z;           (* threads that called the barrier *)
  s_tmp : list Z;
  s_t : list Z;
  s_sp : list (Z * Z);
  s_ticks : nat;
  s_crash : option stop;
}.

Section Threads.
Context (work_group_size op thread_num : Z) (affinity : Z -> bool) (lanes : Z -> Z)
  (now : nat -> Z * Z) (found : list Z) (falls_off : option stop).

Section Session.
Context (stride burst : Z).

Definition crash (r : stop) (s : session) : session :=
  Session (s_main s) (s_threads s) (s_arrived s) (s_tmp s) (s_t s) (s_sp s) (s_ticks s) (Some r).
Definition set_thread (k : nat) (th : thread) (s : session) : session :=
  Session (s_main s) (<[k := th]> (s_threads s)) (s_arrived s) (s_tmp s) (s_t s) (s_sp s)
    (s_ticks s) (s_crash s).
Definition set_main (m : main_phase) (s : session) : session :=
  Session m (s_threads s) (s_arrived s) (s_tmp s) (s_t s) (s_sp s) (s_ticks s) (s_crash s).
Definition arrive (s : session) : session :=
  Session (s_main s) (s_threads s) (s_arrived s + 1) (s_tmp s) (s_t s) (s_sp s) (s_ticks s)
    (s_crash s).
Definition tick (s : session) : session :=
  Session (s_main s) (s_threads s) (s_arrived s) (s_tmp s) (s_t s) (s_sp s) (S (s_ticks s))
    (s_crash s).
Definition set_result (t : list Z) (sp : list (Z * Z)) (s : session) : session :=
  Session (s_main s) (s_threads s) (s_arrived s) (s_tmp s) t sp (s_ticks s) (s_crash s).

(** [read], from the assertion on.  A failed [assert] ends the process by a
    signal (status 134). *)
Definition to_phase (th : thread) (ph : phase) : thread :=
  Thread (th_index th) (th_sum th) (th_reads th) ph.

Definition thread_step (k : nat) (s : session) : option session :=
  th ← s_threads s !! k;
  match th_phase th with
  | Created =>
      Some match s_tmp s !! k with
           | Some index =>
               if affinity index
               then set_thread k (Thread index (replicate (Z.to_nat burst) 0) [] Ready) s
               else crash (Exited 134) s
           | None => crash OutOfBounds s
           end
  | Ready => Some (arrive (set_thread k (to_phase th Blocked) s))
  | Blocked =>
      if thread_num <=? s_arrived s then Some (set_thread k (to_phase th Released) s) else None
  | Released =>
      Some (tick (set_thread k (to_phase th (Reading (now (s_ticks s)) 0 0)) s))
  | Reading start i j =>
      Some (if i <? op then
              if j <? burst then
                match access lanes work_group_size (op * stride * th_index th) stride i j
                        (th_sum th) (th_reads th) with
                | (Done sum, reads) =>
                    set_thread k (Thread (th_index th) sum reads (Reading start i (j + 1))) s
                | (Halt r, _) => crash r s
                end
              else set_thread k (to_phase th (Reading start (i + 1) 0)) s
            else tick (set_thread k (to_phase th (Timed start (now (s_ticks s)))) s))
  | Timed (s0, n0) (s1, n1) =>
      Some match nth_set (s_t s) (th_index th) (elapsed s0 n0 s1 n1) tt with
           | (Done t, _) => set_result t (s_sp s) (set_thread k (to_phase th Stored) s)
           | (Halt r, _) => crash r s
           end
  | Stored =>
      Some match nth_get (s_t s) (th_index th) tt with
           | (Done t, _) =>
               match nth_set (s_sp s) (th_index th) (op * burst * 64, t) tt with
               | (Done sp, _) =>
                   let s' := set_result (s_t s) sp (set_thread k (to_phase th Ended) s) in
                   match falls_off with None => s' | Some r => crash r s' end
               | (Halt r, _) => crash r s
               end
           | (Halt r, _) => crash r s
           end
  | Ended => None
  end.

(** The body of the loop of [main]: create, join, take the longest time. *)
Definition longest (t : list Z) : Z :=
  foldl (fun max x => if max <? x then x else max) 0 (take (Z.to_nat thread_num) t).

Definition main_step (s : session) : option session :=
  match s_main s with
  | Creating i =>
      Some (if i <? thread_num then
              match nth_set (s_tmp s) i i tt with
              | (Done tmp, _) =>
                  Session (Creating (i + 1)) (s_threads s ++ [Thread 0 [] [] Created])
                    (s_arrived s) tmp (s_t s) (s_sp s) (s_ticks s) (s_crash s)
              | (Halt r, _) => crash r s
              end
            else set_main (Joining 0) s)
  | Joining i =>
      if i <? thread_num then
        th ← s_threads s !! Z.to_nat i;
        match th_phase th with Ended => Some (set_main (Joining (i + 1)) s) | _ => None end
      else if thread_num <=? Z.of_nat (length (s_t s))
      then Some (set_main (Reported (longest (s_t s))) s)
      else Some (crash OutOfBounds s)
  | Reported _ => None
  end.

Inductive step (s s' : session) : Prop :=
  | main_moves : s_crash s = None -> main_step s = Some s' -> step s s'
  | thread_moves k : s_crash s = None -> thread_step k s = Some s' -> step s s'.

(** [pthread_barrier_init], new arrays [tmp] and [Thread]. *)
Definition new_session (t : list Z) (sp : list (Z * Z)) (ticks : nat) : session :=
  Session (Creating 0) [] 0 found t sp ticks None.
End Session.

(** ** The loops of [main] *)

(** What a line of the file is computed from. *)
Record line : Type := Line {
  l_stride : Z;
  l_burst : Z;
  l_bytes : Z;
  l_max : Z;
  l_speeds : list (Z * Z);
}.

Record program : Type := Program {
  g_ii : Z;
  g_jj : Z;
  g_stride : Z;
  g_burst : Z;
  g_lines : list line;
  g_session : session;
}.

(** A line, then [burst*=2] and the next round of the inner loop, or
    [stride*=2] and the next of the outer one. *)
Definition next_session (max : Z) (p : program) : program :=
  let s := g_session p in
  let lines := g_lines p ++ [Line (g_stride p) (g_burst p) (op * g_burst p * 64 * thread_num) max
                               (take (Z.to_nat thread_num) (s_sp s))] in
  let fresh := new_session (s_t s) (s_sp s) (s_ticks s) in
  if INT_MAX <? g_burst p * 2
  then Program (g_ii p) (g_jj p) (g_stride p) (g_burst p) lines (crash Undefined s)
  else if g_jj p + 1 <? 5
  then Program (g_ii p) (g_jj p + 1) (g_stride p) (g_burst p * 2) lines fresh
  else if INT_MAX <? g_stride p * 2
  then Program (g_ii p) (g_jj p) (g_stride p) (g_burst p) lines (crash Undefined s)
  else Program (g_ii p + 1) 0 (g_stride p * 2)
         (if g_ii p + 1 <? 11 then 8 else g_burst p * 2) lines fresh.

Inductive prog_step (p p' : program) : Prop :=
  | session_moves s' :
      g_ii p < 11 -> step (g_stride p) (g_burst p) (g_session p) s' ->
      p' = Program (g_ii p) (g_jj p) (g_stride p) (g_burst p) (g_lines p) s' -> prog_step p p'
  | session_ends max :
      g_ii p < 11 -> s_crash (g_session p) = None -> s_main (g_session p) = Reported max ->
      p' = next_session max p -> prog_step p p'.

Definition start : program :=
  Program 0 0 64 8 [] (new_session (replicate 20 0) (replicate 20 (0, 0)) 0).
End Threads.

(** The sum of the lanes of element [k] of [p], as the program fills it. *)
Definition contents (raw : Z -> list Z) (k : Z) : Z := reduce_add_epi32 (fill_element raw k).

(** ** Sums over the threads *)

Section Sums.
Context {A : Type} (f : A -> Z).

Definition sum_of (l : list A) : Z := foldr (fun x acc => f x + acc) 0 l.

Lemma sum_of_snoc l x : sum_of (l ++ [x]) = sum_of l + f x.
Proof. unfold sum_of. induction l as [|y l IH]; cbn; lia. Qed.

Lemma sum_of_insert l k x y :
  l !! k = Some x -> sum_of (<[k := y]> l) = sum_of l - f x + f y.
Proof.
  revert k. induction l as [|z l IH]; intros [|k] Hk; [done..| |].
  - injection Hk as ->. cbn. lia.
  - change (f z + sum_of (<[k := y]> l) = f z + sum_of l - f x + f y). rewrite (IH k Hk). lia.
Qed.

Lemma sum_of_nonneg l : (forall x, x ∈ l -> 0 <= f x) -> 0 <= sum_of l.
Proof.
  unfold sum_of. induction l as [|x l IH]; intros Hf; cbn; [done|].
  pose proof (Hf x ltac:(left)). enough (0 <= sum_of l) by (unfold sum_of in *; lia).
  apply IH. intros y Hy. apply Hf. by right.
Qed.
End Sums.
#[global] Arguments sum_of : simpl never.

(** How many satisfy a test. *)
Definition tally {A} (p : A -> bool) (l : list A) : Z := sum_of (fun x => Z.b2z (p x)) l.
#[global] Arguments tally : simpl never.

Lemma tally_cons {A} (p : A -> bool) x l : tally p (x :: l) = Z.b2z (p x) + tally p l.
Proof. done. Qed.

Lemma tally_range {A} (p : A -> bool) l : 0 <= tally p l <= Z.of_nat (length l).
Proof.
  induction l as [|x l IH]; [done|]. rewrite tally_cons. cbn [length]. destruct (p x); cbn [Z.b2z]; lia.
Qed.

Lemma tally_missed {A} (p : A -> bool) l k x :
  l !! k = Some x -> p x = false -> tally p l < Z.of_nat (length l).
Proof.
  revert k. induction l as [|y l IH]; intros [|k] Hk Hp; [done..| |]; rewrite tally_cons; cbn [length].
  - injection Hk as ->. rewrite Hp. pose proof (tally_range p l). cbn [Z.b2z]. lia.
  - specialize (IH k Hk Hp). destruct (p y); cbn [Z.b2z]; lia.
Qed.

Lemma tally_all {A} (p : A -> bool) l :
  (exists k x, l !! k = Some x /\ p x = false) \/ tally p l = Z.of_nat (length l).
Proof.
  induction l as [|y l IH]; [by right|]. destruct (p y) eqn:E; [|by left; exists 0%nat, y].
  destruct IH as [(k & x & Hk & Hx)|IH]; [left; by exists (S k), x|right].
  rewrite tally_cons, E, IH. cbn [Z.b2z length]. lia.
Qed.

(** ** What is left of [read] from inside its loops *)

Lemma for_loop_S {St L R} n i (l : L) (body : Z -> L -> prog St (L + R)) :
  for_loop (S n) i l body =
    pbind (body i l) (fun o => match o with
                               | inl l1 => for_loop n (i + 1) l1 body
                               | inr r => pret (inr r)
                               end).
Proof. done. Qed.

Section Rest.
Context (lanes : Z -> Z) (wgs op burst stride index : Z).
Context (Hop : 0 <= op) (Hburst : 0 <= burst).

Definition rounds_from (i : Z) (sum : list Z) : rprog (list Z) :=
  let* r := for_loop (R := Empty_set) (Z.to_nat (op - i)) i sum
              (fun i sum => read_round lanes wgs (op * stride * index) burst stride i sum) in
  match r with inl sum => pret sum | inr e => match e with end end.

Definition rest (i j : Z) (sum : list Z) : rprog (list Z) :=
  if i <? op then
    let* r := for_loop (R := Empty_set) (Z.to_nat (burst - j)) j sum (fun j sum =>
      let* sum := access lanes wgs (op * stride * index) stride i j sum in pret (inl sum)) in
    match r with inl sum => rounds_from (i + 1) sum | inr e => match e with end end
  else pret sum.

Lemma rest_start l :
  rest 0 0 (replicate (Z.to_nat burst) 0) l = read lanes wgs op burst stride index l.
Proof.
  unfold rest, read. cbv zeta. destruct (Z.ltb_spec 0 op).
  - assert (E : Z.to_nat op = S (Z.to_nat (op - 1))) by lia. rewrite E, for_loop_S.
    rewrite Z.sub_0_r. unfold rounds_from, read_round, pbind.
    by destruct (for_loop _ _ _ _ _) as [[[]|] ?].
  - assert (op = 0) as -> by lia. done.
Qed.

Lemma rest_access i j sum l :
  i < op -> j < burst ->
  rest i j sum l =
    match access lanes wgs (op * stride * index) stride i j sum l with
    | (Done sum1, l1) => rest i (j + 1) sum1 l1
    | (Halt r, l1) => (Halt r, l1)
    end.
Proof.
  intros Hi Hj. unfold rest. rewrite (proj2 (Z.ltb_lt i op) Hi).
  assert (E : Z.to_nat (burst - j) = S (Z.to_nat (burst - (j + 1)))) by lia.
  rewrite E, for_loop_S. unfold pbind, pret.
  by destruct (access _ _ _ _ _ _ _ _) as [[]].
Qed.

Lemma rest_round i sum l : 0 <= i < op -> rest i burst sum l = rest (i + 1) 0 sum l.
Proof.
  intros Hi. transitivity (rounds_from (i + 1) sum l).
  { unfold rest. by rewrite (proj2 (Z.ltb_lt i op)), Z.sub_diag by lia. }
  unfold rest, rounds_from. destruct (Z.ltb_spec (i + 1) op).
  - assert (E : Z.to_nat (op - (i + 1)) = S (Z.to_nat (op - (i + 1 + 1)))) by lia.
    rewrite E, for_loop_S, Z.sub_0_r. unfold read_round, pbind.
    by destruct (for_loop _ _ _ _ _) as [[[]|] ?].
  - replace (Z.to_nat (op - (i + 1))) with 0%nat by lia. done.
Qed.

Lemma rest_end i j sum l : op <= i -> rest i j sum l = (Done sum, l).
Proof. intros Hi. unfold rest. by rewrite (proj2 (Z.ltb_ge i op) Hi). Qed.
End Rest.

(** ** The invariant of a session *)

Definition passed (th : thread) : bool :=
  match th_phase th with Created | Ready => false | _ => true end.
Definition measuring (th : thread) : bool :=
  match th_phase th with Created | Ready | Blocked => false | _ => true end.

(** A machine that can run the threads: a processor for each, and room for them
    in the arrays. *)
Record machine (thread_num : Z) (affinity : Z -> bool) (found : list Z) : Prop := {
  m_threads : 0 <= thread_num <= 20;
  m_found : thread_num <= Z.of_nat (length found);
  m_affinity : forall k, 0 <= k < thread_num -> affinity k = true;
}.

Section SessionProofs.
Context (wgs op n : Z) (affinity : Z -> bool) (lanes : Z -> Z) (now : nat -> Z * Z)
  (falls_off : option stop) (found : list Z) (stride burst : Z).
Context (Hop : 0 <= op) (Hburst : 0 <= burst) (Hm : machine n affinity found).

(** What a thread computes when it runs by itself. *)
Definition alone (k : Z) : outcome (list Z) * list Z := read lanes wgs op burst stride k [].

Definition thread_ok (t : list Z) (sp : list (Z * Z)) (k : nat) (th : thread) : Prop :=
  match th_phase th with
  | Created => True
  | Ready | Blocked | Released =>
      th_index th = Z.of_nat k /\ th_sum th = replicate (Z.to_nat burst) 0 /\ th_reads th = []
  | Reading _ i j =>
      th_index th = Z.of_nat k /\ 0 <= i <= op /\ 0 <= j <= burst /\ (i = op -> j = 0) /\
      rest lanes wgs op burst stride (Z.of_nat k) i j (th_sum th) (th_reads th) = alone (Z.of_nat k)
  | Timed _ _ | Stored =>
      th_index th = Z.of_nat k /\ alone (Z.of_nat k) = (Done (th_sum th), th_reads th)
  | Ended =>
      th_index th = Z.of_nat k /\ alone (Z.of_nat k) = (Done (th_sum th), th_reads th) /\
      exists v, t !! k = Some v /\ sp !! k = Some (op * burst * 64, v)
  end.

Definition ended_below (i : Z) (l : list thread) : Prop :=
  forall k th, Z.of_nat k < i -> l !! k = Some th -> th_phase th = Ended.

Record session_ok (s : session) : Prop := {
  ok_main : match s_main s with
            | Creating i => i = Z.of_nat (length (s_threads s)) /\ i <= n
            | Joining i => Z.of_nat (length (s_threads s)) = n /\ 0 <= i <= n /\
                           ended_below i (s_threads s)
            | Reported max => Z.of_nat (length (s_threads s)) = n /\
                              ended_below n (s_threads s) /\ max = longest n (s_t s)
            end;
  ok_tmp : n <= Z.of_nat (length (s_tmp s)) /\
           forall k, (k < length (s_threads s))%nat -> s_tmp s !! k = Some (Z.of_nat k);
  ok_t : length (s_t s) = 20%nat;
  ok_sp : length (s_sp s) = 20%nat;
  ok_threads : forall k th, s_threads s !! k = Some th -> thread_ok (s_t s) (s_sp s) k th;
  ok_arrived : s_arrived s = tally passed (s_threads s);
  ok_barrier : forall k th, s_threads s !! k = Some th -> measuring th = true -> s_arrived s = n;
  ok_crash : match s_crash s with
             | None => True
             | Some r => falls_off = Some r \/ exists k, 0 <= k < n /\ (alone k).1 = Halt r
             end;
}.

Definition thread_work (th : thread) : Z :=
  match th_phase th with
  | Created => op * (burst + 1) + 7
  | Ready => op * (burst + 1) + 6
  | Blocked => op * (burst + 1) + 5
  | Released => op * (burst + 1) + 4
  | Reading _ i j => (op - i) * (burst + 1) - j + 3
  | Timed _ _ => 2
  | Stored => 1
  | Ended => 0
  end.
Definition main_work (m : main_phase) : Z :=
  match m with
  | Creating i => (n - i) * (op * (burst + 1) + 8) + n + 2
  | Joining i => n - i + 1
  | Reported _ => 0
  end.

(** An upper bound of the steps that are left. *)
Definition work (s : session) : Z :=
  main_work (s_main s) + sum_of thread_work (s_threads s) +
  match s_crash s with None => 1 | Some _ => 0 end.

Lemma threads_number s : session_ok s -> Z.of_nat (length (s_threads s)) <= n.
Proof. intros []. destruct (s_main s); lia. Qed.

Lemma thread_number s k th : session_ok s -> s_threads s !! k = Some th -> Z.of_nat k < n <= 20.
Proof.
  intros Hok Hk%lookup_lt_Some. pose proof (threads_number s Hok). destruct Hm. lia.
Qed.

Lemma work_nonneg s : session_ok s -> 0 <= work s.
Proof.
  intros Hok. pose proof (threads_number s Hok). destruct Hok, Hm. unfold work.
  assert (0 <= sum_of thread_work (s_threads s)).
  { apply sum_of_nonneg. intros th (k & Hk)%list_elem_of_lookup.
    pose proof (ok_threads0 k th Hk) as Hth. unfold thread_ok, thread_work in *.
    destruct (th_phase th); nia. }
  assert (0 <= op * (burst + 1)) by (apply Z.mul_nonneg_nonneg; lia).
  assert (0 <= main_work (s_main s)).
  { unfold main_work. destruct (s_main s) as [i|i|]; [|lia..].
    pose proof (Z.mul_nonneg_nonneg (n - i) (op * (burst + 1) + 8)). lia. }
  destruct (s_crash s); lia.
Qed.

(** A thread moves and writes, if anything, its own results. *)
Lemma session_move s k th th' a' t' sp' ticks :
  session_ok s -> s_crash s = None -> s_threads s !! k = Some th -> th_phase th <> Ended ->
  a' = s_arrived s - Z.b2z (passed th) + Z.b2z (passed th') ->
  (passed th = true -> passed th' = true) -> (measuring th' = true -> a' = n) ->
  length t' = 20%nat -> length sp' = 20%nat ->
  (forall k', k' <> k -> t' !! k' = s_t s !! k' /\ sp' !! k' = s_sp s !! k') ->
  thread_ok t' sp' k th' ->
  session_ok (Session (s_main s) (<[k := th']> (s_threads s)) a' (s_tmp s) t' sp' ticks (s_crash s)).
Proof.
  intros Hok Hc Hk Hne Ha Hp Hmeas Ht Hsp Hkeep Hth'.
  pose proof (lookup_lt_Some _ _ _ Hk) as Hlt. pose proof (threads_number s Hok) as Hnum.
  destruct Hok as [Hmain [Htmp1 Htmp2] _ _ Hths Harr Hbar _].
  assert (Hended : forall i, ended_below i (s_threads s) -> i <= Z.of_nat k).
  { intros i Hi. destruct (Z.le_gt_cases i (Z.of_nat k)) as [|Hik]; [done|].
    by destruct Hne; apply (Hi k). }
  assert (Hbelow : forall i, ended_below i (s_threads s) -> ended_below i (<[k:=th']> (s_threads s))).
  { intros i Hi k' th1 Hk' Hl. specialize (Hended i Hi).
    rewrite list_lookup_insert_ne in Hl by lia. by apply (Hi k'). }
  split; cbn; rewrite ?length_insert; try done.
  - destruct (s_main s) as [i|i|max]; [done| |].
    + destruct Hmain as (H1 & H2 & H3). split; [done|]. split; [done|]. by apply Hbelow.
    + destruct Hmain as (H1 & H2 & H3). specialize (Hended n H2). lia.
  - intros k' th1 Hl. destruct (decide (k' = k)) as [->|Hkk].
    + rewrite list_lookup_insert_eq in Hl by done. by injection Hl as <-.
    + rewrite list_lookup_insert_ne in Hl by done. specialize (Hths k' th1 Hl).
      destruct (Hkeep k' Hkk) as [E1 E2]. unfold thread_ok in *. by rewrite E1, E2.
  - unfold tally in *. rewrite (sum_of_insert _ _ _ _ _ Hk). lia.
  - intros k' th1 Hl Hme. destruct (decide (k' = k)) as [->|Hkk].
    + rewrite list_lookup_insert_eq in Hl by done. injection Hl as <-. by apply Hmeas.
    + rewrite list_lookup_insert_ne in Hl by done. specialize (Hbar k' th1 Hl Hme).
      destruct (passed th) eqn:Ep; [rewrite Hp in Ha by done; cbn in Ha; lia|].
      pose proof (tally_missed passed _ k th Hk Ep). lia.
  - by rewrite Hc.
Qed.

(** Its work. *)
Lemma work_move s k th th' a' t' sp' ticks :
  s_crash s = None -> s_threads s !! k = Some th -> thread_work th' < thread_work th ->
  work (Session (s_main s) (<[k := th']> (s_threads s)) a' (s_tmp s) t' sp' ticks (s_crash s)) < work s.
Proof.
  intros Hc Hk Hw. unfold work. cbn [s_main s_threads s_crash].
  rewrite (sum_of_insert _ _ _ _ _ Hk). lia.
Qed.
Lemma crash_ok s r :
  session_ok s -> s_crash s = None -> falls_off = Some r \/ (exists k, 0 <= k < n /\ (alone k).1 = Halt r) ->
  session_ok (crash r s) /\ work (crash r s) < work s.
Proof.
  intros [] Hc Hr. split; [by split|]. unfold work. cbn. rewrite Hc. lia.
Qed.

(** The results of the other threads. *)
Lemma insert_others {A} (l : list A) (k k' : nat) x : k' <> k -> <[k := x]> l !! k' = l !! k'.
Proof. intros Hk. apply list_lookup_insert_ne. lia. Qed.

(** A step that leaves the results alone. *)
Lemma quiet_move s k th th' a' ticks :
  session_ok s -> s_crash s = None -> s_threads s !! k = Some th -> th_phase th <> Ended ->
  a' = s_arrived s - Z.b2z (passed th) + Z.b2z (passed th') ->
  (passed th = true -> passed th' = true) -> (measuring th' = true -> a' = n) ->
  thread_ok (s_t s) (s_sp s) k th' -> thread_work th' < thread_work th ->
  let s' := Session (s_main s) (<[k := th']> (s_threads s)) a' (s_tmp s) (s_t s) (s_sp s) ticks
              (s_crash s) in
  session_ok s' /\ work s' < work s.
Proof.
  intros Hok Hc Hk Hne Ha Hp Hme Hth' Hw s'. split.
  - apply (session_move s k th th'); try done; apply Hok.
  - by apply (work_move s k th th').
Qed.

(** A step of a thread in its loops, and when it stores its results. *)
Lemma reading_step_ok s k index sum reads t0 i j s' :
  session_ok s -> s_crash s = None -> s_threads s !! k = Some (Thread index sum reads (Reading t0 i j)) ->
  thread_step wgs op n affinity lanes now falls_off stride burst k s = Some s' ->
  session_ok s' /\ work s' < work s.
Proof.
  intros Hok Hc Hk Hstep. unfold thread_step in Hstep. rewrite Hk in Hstep.
  cbn [mbind option_bind th_phase th_index th_sum th_reads to_phase] in Hstep.
  pose proof (thread_number s k _ Hok Hk) as Hkn. pose proof (ok_threads s Hok k _ Hk) as Hth.
  pose proof (ok_barrier s Hok k _ Hk) as Hbar. unfold thread_ok in Hth.
  cbn [th_phase th_index th_sum th_reads] in Hth.
  destruct Hth as (-> & Hi & Hj & Hij & Hrest). injection Hstep as <-.
  destruct (Z.ltb_spec i op) as [Hio|Hio].
  - destruct (Z.ltb_spec j burst) as [Hjb|Hjb].
    + rewrite rest_access in Hrest by done.
      destruct (access _ _ _ _ _ _ _ _) as [[sum1|r] reads1].
      * apply (quiet_move s k _ (Thread _ sum1 reads1 (Reading t0 i (j + 1))) (s_arrived s)
          (s_ticks s) Hok Hc Hk); try done; cbn; [lia| |lia].
        repeat (split; [lia|]). done.
      * apply (crash_ok s r); [done|done|right]. exists (Z.of_nat k). split; [lia|]. by rewrite <- Hrest.
    + assert (j = burst) as -> by lia. rewrite rest_round in Hrest by lia.
      apply (quiet_move s k _ (Thread _ sum reads (Reading t0 (i + 1) 0)) (s_arrived s)
        (s_ticks s) Hok Hc Hk); try done; cbn; [lia| |lia].
      repeat (split; [lia|]). done.
  - rewrite rest_end in Hrest by done.
    apply (quiet_move s k _ (Thread _ sum reads (Timed t0 (now (s_ticks s)))) (s_arrived s)
      (S (s_ticks s)) Hok Hc Hk); try done; cbn; [lia|].
    assert (i = op) as -> by lia. rewrite Hij by done. lia.
Qed.

Lemma storing_step_ok s k index sum reads ph s' :
  session_ok s -> s_crash s = None -> s_threads s !! k = Some (Thread index sum reads ph) ->
  (exists t0 t1, ph = Timed t0 t1) \/ ph = Stored ->
  thread_step wgs op n affinity lanes now falls_off stride burst k s = Some s' ->
  session_ok s' /\ work s' < work s.
Proof.
  intros Hok Hc Hk Hph. revert Hok Hc Hk.
  intros Hok Hc Hk Hstep. unfold thread_step in Hstep. rewrite Hk in Hstep.
  cbn [mbind option_bind th_phase th_index th_sum th_reads to_phase] in Hstep.
  pose proof (thread_number s k _ Hok Hk) as Hkn. pose proof (ok_threads s Hok k _ Hk) as Hth.
  pose proof (ok_barrier s Hok k _ Hk) as Hbar. unfold thread_ok in Hth.
  cbn [th_phase th_index th_sum th_reads] in Hth.
  pose proof (ok_t s Hok) as Ht. pose proof (ok_sp s Hok) as Hsp.
  destruct Hph as [([s0 n0] & [s1 n1] & ->)| ->]; destruct Hth as [-> Hal]; injection Hstep as <-.
  - rewrite nth_set_ok by lia. cbn [pret]. rewrite Nat2Z.id. split.
    + apply (session_move s k _ (Thread _ sum reads Stored) (s_arrived s)
        (<[k:=elapsed s0 n0 s1 n1]> (s_t s)) (s_sp s) (s_ticks s) Hok Hc Hk);
        try done; rewrite ?length_insert; try done; cbn; [lia|].
      intros k' Hk'. by rewrite insert_others.
    + by apply (work_move s k _ (Thread _ sum reads Stored) _ _ _ _ Hc Hk).
  - destruct (lookup_lt_is_Some_2 (s_t s) k) as [v Hv]; [lia|].
    rewrite (nth_get_ok _ _ v) by (lia || by rewrite Nat2Z.id). cbn [pret].
    rewrite nth_set_ok by lia. cbn [pret]. rewrite Nat2Z.id.
    set (s' := set_result _ _ _). assert (Hs' : session_ok s' /\ work s' < work s).
    { split; [|by apply (work_move s k _ (Thread _ sum reads Ended) _ _ _ _ Hc Hk)].
      apply (session_move s k _ (Thread _ sum reads Ended) (s_arrived s) (s_t s)
        (<[k:=(op * burst * 64, v)]> (s_sp s)) (s_ticks s) Hok Hc Hk);
        try done; rewrite ?length_insert; try done; cbn; [lia| |].
      - intros k' Hk'. by rewrite insert_others.
      - split; [done|]. split; [done|]. exists v. split; [done|].
        apply list_lookup_insert_eq. lia. }
    destruct falls_off as [r|] eqn:Ef; [|exact Hs'].
    destruct (crash_ok s' r (proj1 Hs') Hc (or_introl Ef)). split; [done|lia].
Qed.

(** One step of a thread. *)
Lemma thread_step_ok s k s' :
  session_ok s -> s_crash s = None ->
  thread_step wgs op n affinity lanes now falls_off stride burst k s = Some s' ->
  session_ok s' /\ work s' < work s.
Proof.
  intros Hok Hc Hstep. destruct (s_threads s !! k) as [[index sum reads ph]|] eqn:Hk;
    [|unfold thread_step in Hstep; by rewrite Hk in Hstep].
  assert (Hdone : (exists t0 i j, ph = Reading t0 i j) \/ (exists t0 t1, ph = Timed t0 t1) \/ ph = Stored ->
    session_ok s' /\ work s' < work s).
  { intros [(t0 & i & j & ->)|Hph]; [by eapply reading_step_ok|by eapply storing_step_ok]. }
  unfold thread_step in Hstep. rewrite Hk in Hstep.
  cbn [mbind option_bind th_phase th_index th_sum th_reads to_phase] in Hstep.
  pose proof (thread_number s k _ Hok Hk) as Hkn. pose proof (ok_threads s Hok k _ Hk) as Hth.
  unfold thread_ok in Hth. cbn [th_phase th_index th_sum th_reads] in Hth.
  destruct ph; try (apply Hdone; by eauto).
  - injection Hstep as <-. rewrite (proj2 (ok_tmp s Hok) k) by by apply lookup_lt_Some in Hk.
    rewrite (m_affinity _ _ _ Hm) by lia.
    apply (quiet_move s k _ (Thread _ _ _ Ready) (s_arrived s) (s_ticks s) Hok Hc Hk);
      try done; cbn; lia.
  - injection Hstep as <-.
    apply (quiet_move s k _ (Thread index sum reads Blocked) (s_arrived s + 1) (s_ticks s) Hok Hc Hk);
      try done; cbn; lia.
  - destruct (Z.leb_spec n (s_arrived s)) as [Hle|]; [|done]. injection Hstep as <-.
    apply (quiet_move s k _ (Thread index sum reads Released) (s_arrived s) (s_ticks s) Hok Hc Hk);
      try done; cbn; [lia| |lia].
    intros _. rewrite (ok_arrived s Hok) in *. pose proof (tally_range passed (s_threads s)).
    pose proof (threads_number s Hok). lia.
  - injection Hstep as <-. destruct Hth as (-> & -> & ->).
    pose proof (ok_barrier s Hok k _ Hk eq_refl) as Hbar.
    apply (quiet_move s k _ (Thread _ _ _ (Reading (now (s_ticks s)) 0 0)) (s_arrived s)
      (S (s_ticks s)) Hok Hc Hk); try done; cbn; [lia| |lia].
    split; [done|]. split; [lia|]. split; [lia|]. split; [done|]. by apply rest_start.
Qed.

(** One step of [main]. *)
Lemma main_step_ok s s' :
  session_ok s -> s_crash s = None -> main_step n s = Some s' -> session_ok s' /\ work s' < work s.
Proof.
  intros Hok Hc Hstep. destruct Hok as [Hmain [Htmp1 Htmp2] Ht Hsp Hths Harr Hbar _].
  pose proof (m_threads _ _ _ Hm) as Hn. unfold main_step in Hstep.
  destruct (s_main s) as [i|i|max] eqn:E; [| |done].
  - injection Hstep as <-. destruct Hmain as [Hi Hin]. destruct (Z.ltb_spec i n) as [Hlt|].
    + rewrite nth_set_ok by lia. cbn [pret]. rewrite Hi, Nat2Z.id.
      assert (Hlast : forall k th, (s_threads s ++ [Thread 0 [] [] Created]) !! k = Some th ->
                s_threads s !! k = Some th \/ th = Thread 0 [] [] Created).
      { intros k th [Hk|[_ Hk]]%lookup_app_Some; [by left|right].
        by apply list_lookup_singleton_Some in Hk as [_ <-]. }
      split.
      * split; cbn [s_main s_threads s_tmp s_t s_sp s_arrived s_crash]; try done.
        -- rewrite length_app. cbn. lia.
        -- rewrite length_insert, length_app. split; [done|]. intros k Hk. cbn in Hk.
           destruct (decide (k = length (s_threads s))) as [->|Hne].
           ++ apply list_lookup_insert_eq. lia.
           ++ rewrite insert_others by done. apply Htmp2. lia.
        -- intros k th [Hk| ->]%Hlast; [by apply Hths|done].
        -- unfold tally in *. rewrite sum_of_snoc, Harr. cbn. lia.
        -- intros k th [Hk| ->]%Hlast; [by apply (Hbar k th)|done].
        -- by rewrite Hc.
      * unfold work. cbn [s_main s_threads s_crash]. rewrite E, Hc, sum_of_snoc. cbn. lia.
    + split; [split; cbn [set_main s_main s_threads s_tmp s_t s_sp s_arrived s_crash];
        rewrite ?Hc; try done|].
      * split; [lia|]. split; [lia|]. intros k th Hk. lia.
      * assert (i = n) as -> by lia. unfold work. cbn. rewrite E, Hc. cbn. lia.
  - destruct Hmain as (Hl & Hi & Hend). destruct (Z.ltb_spec i n) as [Hlt|].
    + destruct (s_threads s !! Z.to_nat i) as [th|] eqn:Hth; [|done].
      cbn [mbind option_bind] in Hstep. destruct (th_phase th) eqn:Ep; try done. injection Hstep as <-.
      split; [split; cbn; rewrite ?Hc; try done|].
      * split; [done|]. split; [lia|]. intros k th1 Hk Hk1.
        destruct (decide (k = Z.to_nat i)) as [->|]; [congruence|]. apply (Hend k); [lia|done].
      * unfold work. cbn. rewrite E, Hc. cbn. lia.
    + rewrite Ht in Hstep. rewrite (proj2 (Z.leb_le n _)) in Hstep by lia. injection Hstep as <-.
      assert (i = n) as -> by lia. split; [split; cbn; rewrite ?Hc; done|].
      unfold work. cbn. rewrite E, Hc. cbn. lia.
Qed.

Lemma step_ok s s' :
  session_ok s -> step wgs op n affinity lanes now falls_off stride burst s s' ->
  session_ok s' /\ work s' < work s.
Proof.
  intros Hok [Hc Hs|k Hc Hs]; [by apply main_step_ok|by apply (thread_step_ok s k)].
Qed.

(** As long as [main] has not reported, somebody can move. *)
Lemma session_moves_on s :
  session_ok s -> s_crash s = None -> (forall max, s_main s <> Reported max) ->
  exists s', step wgs op n affinity lanes now falls_off stride burst s s'.
Proof.
  intros Hok Hc Hne. pose proof (ok_main s Hok) as Hmain.
  assert (Hs : (exists s', main_step n s = Some s') ->
    exists s', step wgs op n affinity lanes now falls_off stride burst s s').
  { intros [s' Hs]. exists s'. by apply main_moves. }
  unfold main_step in Hs.
  destruct (s_main s) as [i|i|max] eqn:E; [by apply Hs; eexists| |by destruct (Hne max)].
  destruct Hmain as (Hl & Hi & Hend).
  assert (Hthread : forall k th, s_threads s !! k = Some th -> th_phase th <> Ended ->
    (th_phase th = Blocked -> s_arrived s = n) ->
    exists s', step wgs op n affinity lanes now falls_off stride burst s s').
  { intros k th Hk Hp Hb. assert (Ht : exists s', thread_step wgs op n affinity lanes now falls_off stride burst k s = Some s').
    { unfold thread_step. rewrite Hk. cbn [mbind option_bind].
      destruct (th_phase th) as [| | | | |[] []| |]; try done; try by eexists.
      by rewrite Hb, Z.leb_refl by done; eexists. }
    destruct Ht as [s' Ht]. exists s'. by apply (thread_moves _ _ _ _ _ _ _ _ _ _ _ k). }
  destruct (tally_all passed (s_threads s)) as [(k & th & Hk & Hp)|Hall].
  { apply (Hthread k th Hk); unfold passed in Hp; by destruct (th_phase th). }
  rewrite <- (ok_arrived s Hok), Hl in Hall.
  destruct (Z.ltb_spec i n) as [Hlt|].
  - destruct (lookup_lt_is_Some_2 (s_threads s) (Z.to_nat i)) as [th Hth]; [lia|].
    destruct (decide (th_phase th = Ended)) as [Hp|Hp]; [|by apply (Hthread _ th Hth)].
    apply Hs. rewrite Hth. cbn [mbind option_bind]. rewrite Hp. by eexists.
  - apply Hs. destruct (n <=? _); by eexists.
Qed.

Lemma new_session_ok t sp ticks :
  length t = 20%nat -> length sp = 20%nat -> session_ok (new_session found t sp ticks).
Proof.
  intros Ht Hsp. pose proof (m_threads _ _ _ Hm). split; cbn; try done.
  - lia.
  - split; [apply Hm|]. intros k Hk. lia.
Qed.

(** What a session leaves when it has reported. *)
Lemma reported s max :
  session_ok s -> s_main s = Reported max ->
  Z.of_nat (length (s_threads s)) = n /\ max = longest n (s_t s) /\
  (forall k th, s_threads s !! k = Some th ->
     alone (Z.of_nat k) = (Done (th_sum th), th_reads th) /\
     exists v, s_t s !! k = Some v /\ s_sp s !! k = Some (op * burst * 64, v)).
Proof.
  intros Hok E. pose proof (ok_main s Hok) as Hmain. rewrite E in Hmain.
  destruct Hmain as (Hl & Hend & Hmax). split; [done|]. split; [done|]. intros k th Hk.
  pose proof (ok_threads s Hok k th Hk) as Hth. unfold thread_ok in Hth.
  rewrite (Hend k th) in Hth by (done || by apply lookup_lt_Some in Hk; lia).
  split; apply Hth.
Qed.
End SessionProofs.

(** ** Schedules *)

(** Who moves next, [None] for [main]; who cannot move is passed over. *)
Section Schedules.
Context (wgs op n : Z) (affinity : Z -> bool) (lanes : Z -> Z) (now : nat -> Z * Z)
  (falls_off : option stop) (stride burst : Z).

Definition move (m : option nat) (s : session) : option session :=
  match s_crash s with
  | Some _ => None
  | None => match m with
            | None => main_step n s
            | Some k => thread_step wgs op n affinity lanes now falls_off stride burst k s
            end
  end.

Fixpoint run (sched : list (option nat)) (s : session) : session :=
  match sched with
  | [] => s
  | m :: sched => run sched (default s (move m s))
  end.

Lemma run_reachable sched s : rtc (step wgs op n affinity lanes now falls_off stride burst) s (run sched s).
Proof.
  revert s. induction sched as [|m sched IH]; intros s; cbn; [done|].
  destruct (move m s) as [s'|] eqn:E; cbn; [|apply IH]. apply rtc_l with s'; [|apply IH].
  unfold move in E. destruct (s_crash s) eqn:Ec; [done|].
  destruct m as [k|]; [by apply (thread_moves _ _ _ _ _ _ _ _ _ _ _ k)|by apply main_moves].
Qed.
End Schedules.

(** ** The invariant of the program *)

Definition configurations : list (Z * Z) :=
  seqZ 0 11 ≫= (fun ii => (fun jj => (64 * 2 ^ ii, 8 * 2 ^ jj)) <$> seqZ 0 5).

Lemma longest_upper n t x : x ∈ take (Z.to_nat n) t -> x <= longest n t.
Proof.
  unfold longest. generalize (take (Z.to_nat n) t) as l. intros l.
  assert (H : forall l a, a <= foldl (fun max x => if max <? x then x else max) a l /\
    (forall x, x ∈ l -> x <= foldl (fun max x => if max <? x then x else max) a l)).
  { clear. induction l as [|y l IH]; intros a; cbn.
    - split; [lia|]. intros x Hx. by apply elem_of_nil in Hx.
    - destruct (IH (if a <? y then y else a)) as [H1 H2]. destruct (Z.ltb_spec a y).
      + split; [lia|]. intros x [->|Hx]%elem_of_cons; [lia|by apply H2].
      + split; [lia|]. intros x [->|Hx]%elem_of_cons; [lia|by apply H2]. }
  apply H.
Qed.

Lemma longest_attained n t : longest n t = 0 \/ longest n t ∈ take (Z.to_nat n) t.
Proof.
  unfold longest. generalize (take (Z.to_nat n) t) as l. intros l.
  assert (H : forall l a, foldl (fun max x => if max <? x then x else max) a l = a \/
    foldl (fun max x => if max <? x then x else max) a l ∈ l).
  { clear. induction l as [|y l IH]; intros a; cbn; [by left|].
    destruct (IH (if a <? y then y else a)) as [E|E]; [|right; by right].
    rewrite E. destruct (a <? y); [right; left|by left]. }
  apply H.
Qed.

Section ProgramProofs.
Context (wgs op n : Z) (affinity : Z -> bool) (lanes : Z -> Z) (now : nat -> Z * Z)
  (found : list Z) (falls_off : option stop).
Context (Hwgs : 0 < wgs) (Hn : 0 < n) (Hm : machine n affinity found).
Context (Hop : 0 < op) (Hlarge : INT_MAX < (op - 1) * 4096).

Local Abbreviation pstep := (prog_step wgs op n affinity lanes now found falls_off).
Local Abbreviation ok := (session_ok wgs op n lanes falls_off).

(** A line of the file: a speed for every thread, and the longest time. *)
Definition line_ok (l : line) : Prop :=
  l_bytes l = op * l_burst l * 64 * n /\ Z.of_nat (length (l_speeds l)) = n /\
  Forall (fun sp => sp.1 = op * l_burst l * 64 /\ sp.2 <= l_max l) (l_speeds l).

Record prog_ok (p : program) : Prop := {
  pk_ii : 0 <= g_ii p <= 6;
  pk_jj : 0 <= g_jj p < 5;
  pk_last : g_ii p = 6 -> g_jj p = 0;
  pk_stride : g_stride p = 64 * 2 ^ g_ii p;
  pk_burst : g_burst p = 8 * 2 ^ g_jj p;
  pk_session : ok (g_stride p) (g_burst p) (g_session p);
  pk_lines : (fun l => (l_stride l, l_burst l)) <$> g_lines p =
             take (Z.to_nat (5 * g_ii p + g_jj p)) configurations;
  pk_good : Forall line_ok (g_lines p);
}.

(** The steps left: those of the session, and more for every configuration. *)
Definition prog_work (p : program) : Z :=
  (30 - (5 * g_ii p + g_jj p)) * (n * (op * 129 + 8) + n + 4) + work op n (g_burst p) (g_session p).

Lemma burst_values j : 0 <= j < 5 -> 8 <= 8 * 2 ^ j <= 128.
Proof.
  intros Hj. assert (j = 0 \/ j = 1 \/ j = 2 \/ j = 3 \/ j = 4) as [->|[->|[->|[->| ->]]]] by lia; done.
Qed.

(** With a stride of 4096 a thread never comes to its end: the last product does
    not fit. *)
Lemma alone_overflows burst k a :
  0 < burst -> 0 <= k -> (alone wgs op lanes 4096 burst k).1 <> Done a.
Proof.
  intros Hb Hk E. unfold alone in E.
  pose proof (read_outcome lanes wgs op burst 4096 k Hwgs ltac:(lia) ltac:(done) Hk ltac:(lia)) as Hr.
  destruct (read _ _ _ _ _ _ _) as [[sum|] l]; [|done]. destruct Hr as (_ & _ & Hfit).
  destruct (Hfit (op - 1) 0) as [Hprod _]; [lia..|]. unfold fits in Hprod. lia.
Qed.

Lemma alone_stops stride burst k r :
  0 < stride -> 0 <= burst -> 0 <= k -> (alone wgs op lanes stride burst k).1 = Halt r -> r = Undefined.
Proof.
  intros Hs Hb Hk E. unfold alone in E.
  pose proof (read_outcome lanes wgs op burst stride k Hwgs Hb Hs Hk ltac:(lia)) as Hr.
  destruct (read _ _ _ _ _ _ _) as [[sum|] l]; [done|]. destruct Hr as (-> & _). by injection E.
Qed.

Lemma stride_values i : 0 <= i <= 6 -> i = 6 \/ 0 < 64 * 2 ^ i <= 2048.
Proof.
  intros Hi. assert (i = 0 \/ i = 1 \/ i = 2 \/ i = 3 \/ i = 4 \/ i = 5 \/ i = 6)
    as [->|[->|[->|[->|[->|[->| ->]]]]]] by lia; first [by left|right; done].
Qed.

Lemma configuration_at i j :
  0 <= i < 6 -> 0 <= j < 5 ->
  configurations !! Z.to_nat (5 * i + j) = Some (64 * 2 ^ i, 8 * 2 ^ j).
Proof.
  intros Hi Hj. assert (i = 0 \/ i = 1 \/ i = 2 \/ i = 3 \/ i = 4 \/ i = 5)
    as [->|[->|[->|[->|[->| ->]]]]] by lia;
  assert (j = 0 \/ j = 1 \/ j = 2 \/ j = 3 \/ j = 4) as [->|[->|[->|[->| ->]]]] by lia; reflexivity.
Qed.

Lemma start_ok : prog_ok (start found).
Proof.
  split; cbn; try done. by apply (new_session_ok wgs op n affinity lanes falls_off).
Qed.

(** The line that a session gives. *)
Lemma reported_line s max stride burst :
  0 <= burst -> ok stride burst s -> s_main s = Reported max ->
  line_ok (Line stride burst (op * burst * 64 * n) max (take (Z.to_nat n) (s_sp s))).
Proof.
  intros Hb Hok E. pose proof (m_threads _ _ _ Hm).
  destruct (reported wgs op n lanes falls_off stride burst s max Hok E) as (Hl & -> & Hth).
  split; [done|]. cbn. rewrite length_take, (ok_sp _ _ _ _ _ _ _ _ Hok). split; [lia|].
  apply Forall_forall. intros sp Hsp%list_elem_of_lookup. destruct Hsp as [k Hk].
  apply lookup_take_Some in Hk as [Hk Hkn].
  destruct (lookup_lt_is_Some_2 (s_threads s) k) as [th Ht]; [lia|].
  destruct (Hth k th Ht) as (_ & v & Hv & Hs). rewrite Hs in Hk. injection Hk as <-. cbn.
  split; [done|]. apply longest_upper. apply list_elem_of_lookup. exists k.
  by rewrite lookup_take_lt.
Qed.

(** A session with the stride 4096 never reports. *)
Lemma reporting_stride p max :
  prog_ok p -> s_main (g_session p) = Reported max -> g_ii p <= 5.
Proof.
  intros [Hii Hjj Hlast Hs Hb Hok _ _] E. pose proof (burst_values _ Hjj) as Hbv.
  destruct (reported wgs op n lanes falls_off _ _ _ max Hok E) as (Hl & _ & Hth).
  destruct (lookup_lt_is_Some_2 (s_threads (g_session p)) 0) as [th Ht]; [lia|].
  destruct (Hth 0%nat th Ht) as (Ha & _).
  assert (g_ii p = 6 \/ g_ii p <= 5) as [E6|] by lia; [|done].
  rewrite Hs, E6 in Ha. change (64 * 2 ^ 6) with 4096 in Ha.
  destruct (alone_overflows (g_burst p) (Z.of_nat 0) (th_sum th)); [lia|done|by rewrite Ha].
Qed.

Lemma crashing p r :
  prog_ok p -> s_crash (g_session p) = Some r -> r = Undefined \/ falls_off = Some r.
Proof.
  intros [Hii Hjj Hlast Hs Hb Hok _ _] E. pose proof (burst_values _ Hjj) as Hbv.
  pose proof (stride_values (g_ii p) Hii) as Hsv.
  pose proof (ok_crash _ _ _ _ _ _ _ _ Hok) as Hc. rewrite E in Hc.
  destruct Hc as [Hc|(k & Hk & Hr)]; [by right|left].
  assert (0 < g_stride p) by (rewrite Hs; destruct Hsv as [->|]; [done|lia]).
  by apply (alone_stops (g_stride p) (g_burst p) k r); [done|lia|lia|].
Qed.

Lemma next_ok p max :
  prog_ok p -> s_main (g_session p) = Reported max ->
  let p' := next_session op n found max p in prog_ok p' /\ prog_work p' < prog_work p.
Proof.
  intros Hpok E. pose proof (reporting_stride p max Hpok E) as H5.
  destruct Hpok as [Hii Hjj Hlast Hs Hb Hok Hlines Hgood].
  pose proof (burst_values _ Hjj) as Hbv. pose proof (stride_values _ Hii) as Hsv.
  assert (Hline : line_ok (Line (g_stride p) (g_burst p) (op * g_burst p * 64 * n) max
            (take (Z.to_nat n) (s_sp (g_session p))))) by (by apply reported_line; [lia|..]).
  assert (Hnew : forall stride burst, ok stride burst (new_session found (s_t (g_session p))
            (s_sp (g_session p)) (s_ticks (g_session p)))).
  { intros stride burst. apply (new_session_ok wgs op n affinity lanes falls_off); [done|apply Hok..]. }
  pose proof (work_nonneg wgs op n affinity lanes falls_off found (g_stride p) (g_burst p) (Z.lt_le_incl _ _ Hop) ltac:(lia) Hm _ Hok)
    as Hw.
  assert (Hless : forall burst, burst <= 128 -> work op n burst (new_session found (s_t (g_session p))
            (s_sp (g_session p)) (s_ticks (g_session p))) < n * (op * 129 + 8) + n + 4).
  { intros burst Hb1. unfold work, new_session. cbn [s_main s_threads s_crash main_work].
    change (sum_of (thread_work op burst) []) with 0.
    assert (op * (burst + 1) <= op * 129) by (apply Z.mul_le_mono_nonneg_l; lia). nia. }
  assert (Hnext : forall l, l_stride l = g_stride p -> l_burst l = g_burst p ->
    (fun l => (l_stride l, l_burst l)) <$> (g_lines p ++ [l]) =
      take (S (Z.to_nat (5 * g_ii p + g_jj p))) configurations).
  { intros l E1 E2. rewrite fmap_app, Hlines. cbn. rewrite E1, E2, Hs, Hb.
    symmetry. apply take_S_r, configuration_at; lia. }
  unfold next_session, prog_work. cbv zeta.
  rewrite (proj2 (Z.ltb_ge INT_MAX (g_burst p * 2))) by (unfold INT_MAX; lia).
  rewrite (proj2 (Z.ltb_ge INT_MAX (g_stride p * 2))) by (unfold INT_MAX; lia).
  destruct (Z.ltb_spec (g_jj p + 1) 5) as [Hj|Hj].
  - split; [split; cbn [g_ii g_jj g_stride g_burst g_lines g_session]; try done; try lia|].
    + rewrite Hb, Z.pow_add_r by lia. lia.
    + rewrite Hnext by done. f_equal. lia.
    + by apply Forall_app; split; [|constructor].
    + cbn [g_ii g_jj g_burst g_session].
      pose proof (burst_values (g_jj p + 1) ltac:(lia)) as Hb1. rewrite Z.pow_add_r in Hb1 by lia.
      pose proof (Hless (g_burst p * 2) ltac:(lia)). lia.
  - assert (Hj4 : g_jj p = 4) by lia.
    rewrite (proj2 (Z.ltb_lt (g_ii p + 1) 11)) by lia.
    split; [split; cbn [g_ii g_jj g_stride g_burst g_lines g_session]; try done; try lia|].
    + rewrite Hs, Z.pow_add_r by lia. lia.
    + rewrite Hnext by done. f_equal. lia.
    + by apply Forall_app; split; [|constructor].
    + cbn [g_ii g_jj g_burst g_session]. pose proof (Hless 8 ltac:(lia)). lia.
Qed.

Lemma prog_step_ok p p' : prog_ok p -> pstep p p' -> prog_ok p' /\ prog_work p' < prog_work p.
Proof.
  intros Hpok [s' _ Hs ->|max _ _ E ->]; [|by apply next_ok].
  destruct Hpok as [Hii Hjj Hlast Hst Hb Hok Hlines Hgood]. pose proof (burst_values _ Hjj) as Hbv.
  destruct (step_ok wgs op n affinity lanes now falls_off found (g_stride p) (g_burst p)
    (Z.lt_le_incl _ _ Hop) ltac:(lia) Hm _ s' Hok Hs) as [Hok' Hw].
  split; [by split|]. unfold prog_work. cbn [g_ii g_jj g_burst g_session]. lia.
Qed.

Lemma prog_work_nonneg p : prog_ok p -> 0 <= prog_work p.
Proof.
  intros [Hii Hjj Hlast Hst Hb Hok _ _]. pose proof (burst_values _ Hjj) as Hbv.
  pose proof (work_nonneg wgs op n affinity lanes falls_off found (g_stride p) (g_burst p) (Z.lt_le_incl _ _ Hop) ltac:(lia) Hm _ Hok).
  unfold prog_work. assert (0 <= 30 - (5 * g_ii p + g_jj p)).
  { assert (g_ii p = 6 \/ g_ii p <= 5) as [E6|] by lia; [rewrite Hlast by done|]; lia. }
  assert (0 <= n * (op * 129 + 8)) by (apply Z.mul_nonneg_nonneg; lia). nia.
Qed.

Lemma reachable_ok p : rtc pstep (start found) p -> prog_ok p.
Proof.
  intros H. assert (G : forall q, prog_ok q -> rtc pstep q p -> prog_ok p).
  { clear H. intros q Hq Hr. induction Hr as [|q1 q2 q3 Hs _ IH]; [done|].
    apply IH, (prog_step_ok q1 q2 Hq Hs). }
  apply (G (start found)); [apply start_ok|done].
Qed.

(** Somebody can move, or a thread has stopped. *)
Lemma moves_or_crashed p :
  prog_ok p -> (exists p', pstep p p') \/
    exists r, s_crash (g_session p) = Some r /\ (r = Undefined \/ falls_off = Some r).
Proof.
  intros Hpok. destruct (s_crash (g_session p)) as [r|] eqn:Ec.
  { right. exists r. split; [done|]. by apply (crashing p). }
  left. pose proof (pk_ii p Hpok). pose proof (burst_values _ (pk_jj p Hpok)) as Hbv.
  assert (Hmain : (exists max, s_main (g_session p) = Reported max) \/
    forall max, s_main (g_session p) <> Reported max) by (destruct (s_main (g_session p)); eauto).
  destruct Hmain as [[max E]|Hne].
  - eexists. by apply (session_ends _ _ _ _ _ _ _ _ _ _ max); [lia|..].
  - destruct (session_moves_on wgs op n affinity lanes now falls_off (g_stride p) (g_burst p) _
      (pk_session p Hpok) Ec Hne) as [s' Hs].
    eexists. by apply (session_moves _ _ _ _ _ _ _ _ _ _ s'); [lia|..].
Qed.

(** What has been written. *)
Lemma lines_written p :
  prog_ok p -> g_stride p <= 4096 /\
    (fun l => (l_stride l, l_burst l)) <$> g_lines p = take (length (g_lines p)) (take 30 configurations) /\
    Forall line_ok (g_lines p).
Proof.
  intros [Hii Hjj Hlast Hs Hb Hok Hlines Hgood].
  split; [destruct (stride_values _ Hii) as [E|]; rewrite Hs, ?E; [done|lia]|]. split; [|done].
  assert (Hle : (Z.to_nat (5 * g_ii p + g_jj p) <= 30)%nat).
  { assert (g_ii p = 6 \/ g_ii p <= 5) as [E6|] by lia; [rewrite E6, Hlast by done; done|lia]. }
  assert (E : length (g_lines p) = Z.to_nat (5 * g_ii p + g_jj p)).
  { apply (f_equal length) in Hlines. rewrite length_fmap, length_take in Hlines.
    change (length configurations) with 55%nat in Hlines. lia. }
  rewrite E, take_take, Nat.min_l by done. exact Hlines.
Qed.

(** When the threads of the first session overflow, the program stays there. *)
Lemma first_session p :
  (forall a, (alone wgs op lanes 64 8 0).1 <> Done a) -> rtc pstep (start found) p ->
  g_stride p = 64 /\ g_burst p = 8 /\ g_lines p = [].
Proof.
  intros Hnone Hr. enough (Hall : prog_ok p /\ g_stride p = 64 /\ g_burst p = 8 /\ g_lines p = []) by apply Hall.
  assert (G : forall q, (prog_ok q /\ g_stride q = 64 /\ g_burst q = 8 /\ g_lines q = []) -> rtc pstep q p ->
    prog_ok p /\ g_stride p = 64 /\ g_burst p = 8 /\ g_lines p = []).
  { clear Hr. intros q Hq Hr. induction Hr as [|q1 q2 q3 Hs _ IH]; [done|]. apply IH.
    destruct Hq as (Hq & E1 & E2 & E3). destruct (prog_step_ok q1 q2 Hq Hs) as [Hq2 _].
    destruct Hs as [s' _ _ ->|max _ _ E _]; [done|]. exfalso.
    pose proof (pk_session q1 Hq) as Hok. rewrite E1, E2 in Hok.
    destruct (reported wgs op n lanes falls_off _ _ _ max Hok E) as (Hl & _ & Hth).
    destruct (lookup_lt_is_Some_2 (s_threads (g_session q1)) 0) as [th Ht]; [lia|].
    destruct (Hth 0%nat th Ht) as (Ha & _). apply (Hnone (th_sum th)). change 0 with (Z.of_nat 0). by rewrite Ha. }
  apply (G (start found)); [|done]. by split; [apply start_ok|].
Qed.
End ProgramProofs.

(** Elements that hold their own number overflow at once: after 8193 rounds the
    numbers 0, 64, 128, ... make more than an [int]. *)
Lemma multiples_sum m : zsum ((fun r => 64 * r) <$> seqZ 0 (Z.of_nat m)) = 32 * Z.of_nat m * (Z.of_nat m - 1).
Proof.
  induction m as [|m IH]; [done|]. rewrite seqZ_S, fmap_app, Z.add_0_l. cbn [fmap list_fmap].
  rewrite zsum_snoc, IH. lia.
Qed.

Lemma numbers_overflow lanes wgs op a :
  2 ^ 20 <= wgs -> 8193 <= op -> (forall k, 0 <= k < wgs -> lanes k = k) ->
  (alone wgs op lanes 64 8 0).1 <> Done a.
Proof.
  intros Hwgs Hop Hl E. unfold alone in E.
  pose proof (read_outcome lanes wgs op 8 64 0 ltac:(lia) ltac:(done) ltac:(done) ltac:(done) ltac:(lia)) as Hr.
  destruct (read _ _ _ _ _ _ _) as [[sum|] l]; [|done]. destruct Hr as (_ & _ & Hfit).
  destruct (Hfit 8192 0) as [_ Hsum]; [lia..|]. unfold fits, lane_sum in Hsum.
  rewrite (list_fmap_ext _ (fun r => 64 * r)) in Hsum.
  - pose proof (multiples_sum 8193) as Hm. change (Z.of_nat 8193) with (8192 + 1) in Hm.
    rewrite Hm in Hsum. unfold INT_MAX in Hsum. lia.
  - intros k x Hx%list_elem_of_lookup_2%elem_of_seqZ. unfold element.
    rewrite Z.mul_0_r, Z.mod_small by lia. rewrite Hl; lia.
Qed.

Lemma session_reachable_ok wgs op n affinity lanes now falls_off found stride burst t sp ticks s :
  0 <= op -> 0 <= burst -> machine n affinity found -> length t = 20%nat -> length sp = 20%nat ->
  rtc (step wgs op n affinity lanes now falls_off stride burst) (new_session found t sp ticks) s ->
  session_ok wgs op n lanes falls_off stride burst s.
Proof.
  intros Hop Hb Hm Ht Hsp Hr.
  pose proof (new_session_ok wgs op n affinity lanes falls_off found stride burst Hm t sp ticks Ht Hsp) as Hok.
  induction Hr as [|s1 s2 s3 Hs _ IH]; [done|]. apply IH.
  by apply (step_ok wgs op n affinity lanes now falls_off found stride burst Hop Hb Hm s1).
Qed.

(** ** Properties *)

(** C22: however [main] and the threads interleave, when [main] reports every
    thread has read, in order, the elements that [read] visits when it runs alone,
    and has their sums, none of which left an [int]; its bandwidth is that of its
    own bytes and its own time; and the time that is reported is the longest of
    the threads' times, or 0 when none is positive.  ([main] reports only if the
    threads return at their end.) *)
Theorem threads_read_alone wgs op n affinity lanes now found falls_off stride burst t sp ticks s max :
  0 < wgs -> 0 <= op -> 0 <= burst -> 0 < stride -> machine n affinity found ->
  length t = 20%nat -> length sp = 20%nat ->
  rtc (step wgs op n affinity lanes now falls_off stride burst) (new_session found t sp ticks) s ->
  s_main s = Reported max ->
  Z.of_nat (length (s_threads s)) = n /\
  (forall x, x ∈ take (Z.to_nat n) (s_t s) -> x <= max) /\ (max = 0 \/ max ∈ take (Z.to_nat n) (s_t s)) /\
  forall k th, s_threads s !! k = Some th ->
    let visited j i := (op * stride * Z.of_nat k + i * stride + j) mod wgs in
    read lanes wgs op burst stride (Z.of_nat k) [] = (Done (th_sum th), th_reads th) /\
    th_reads th = flat_map (fun i => (fun j => visited j i) <$> seqZ 0 burst) (seqZ 0 op) /\
    th_sum th = (fun j => zsum ((fun i => lanes (visited j i)) <$> seqZ 0 op)) <$> seqZ 0 burst /\
    all_fit lanes wgs op burst stride (Z.of_nat k) op /\
    exists v, s_t s !! k = Some v /\ s_sp s !! k = Some (op * burst * 64, v).
Proof.
  intros Hw Hop Hb Hs Hm Ht Hsp Hr E.
  pose proof (session_reachable_ok _ _ _ _ _ _ _ _ _ _ _ _ _ _ Hop Hb Hm Ht Hsp Hr) as Hok.
  destruct (reported wgs op n lanes falls_off stride burst s max Hok E) as (Hl & -> & Hth).
  split; [done|]. split; [apply longest_upper|]. split; [apply longest_attained|].
  intros k th Hk visited. destruct (Hth k th Hk) as [Ha Hv]. split; [exact Ha|]. unfold alone in Ha.
  pose proof (read_outcome lanes wgs op burst stride (Z.of_nat k) Hw Hb Hs ltac:(lia) Hop) as Hro.
  rewrite Ha in Hro. destruct Hro as (-> & -> & Hfit). done.
Qed.

(** C23: no thread reads the clock before all threads have been created and have
    reached the barrier, in whatever order they run. *)
Theorem measured_together wgs op n affinity lanes now found falls_off stride burst t sp ticks s k th :
  0 <= op -> 0 <= burst -> machine n affinity found -> length t = 20%nat -> length sp = 20%nat ->
  rtc (step wgs op n affinity lanes now falls_off stride burst) (new_session found t sp ticks) s ->
  s_threads s !! k = Some th -> measuring th = true ->
  Z.of_nat (length (s_threads s)) = n /\ Forall (fun th => passed th = true) (s_threads s).
Proof.
  intros Hop Hb Hm Ht Hsp Hr Hk Hme.
  pose proof (session_reachable_ok _ _ _ _ _ _ _ _ _ _ _ _ _ _ Hop Hb Hm Ht Hsp Hr) as Hok.
  pose proof (threads_number wgs op n lanes falls_off stride burst s Hok) as Hnum.
  pose proof (ok_barrier _ _ _ _ _ _ _ _ Hok k th Hk Hme) as Harr.
  rewrite (ok_arrived _ _ _ _ _ _ _ _ Hok) in Harr.
  pose proof (tally_range passed (s_threads s)). split; [lia|].
  apply Forall_lookup. intros k' th' Hk'. destruct (passed th') eqn:Ep; [done|].
  pose proof (tally_missed passed _ k' th' Hk' Ep). lia.
Qed.

(** C21: the program takes finitely many steps, whatever the schedule and whatever
    the other words of [p] hold, and never reaches its end: it stops in undefined
    behaviour, where the product [i*stride] or a sum of lanes leaves the [int]s (or
    in what follows the end of [read]).  At the stride 4096 the product alone is
    too large, so of the fifty-five lines it writes at most the thirty of the
    strides from 64 to 2048, in their order.  With zeros in the other words the sum
    of the numbers 0, 64, 128, ... is too large after 8193 rounds: the program
    then stops in the first of its sessions and writes no line. *)
Theorem throughput_main_overflows wgs op n affinity raw now found falls_off p
    (steps := prog_step wgs op n affinity (contents raw) now found falls_off) :
  0 < wgs -> 0 < n -> machine n affinity found -> INT_MAX < (op - 1) * 4096 ->
  rtc steps (start found) p ->
  (forall p', steps p p' -> 0 <= prog_work op n p' < prog_work op n p) /\
  ((exists p', steps p p') \/
   exists r, s_crash (g_session p) = Some r /\ (r = Undefined \/ falls_off = Some r)) /\
  (g_stride p <= 4096 /\
   (fun l => (l_stride l, l_burst l)) <$> g_lines p = take (length (g_lines p)) (take 30 configurations) /\
   Forall (line_ok op n) (g_lines p)) /\
  ((forall k, 0 <= k < wgs -> raw k = replicate 8 0) -> 2 ^ 20 <= wgs <= 2 ^ 31 ->
   g_stride p = 64 /\ g_burst p = 8 /\ g_lines p = []).
Proof.
  intros Hwgs Hn Hm Hlarge Hr.
  assert (Hop : 8193 <= op) by (unfold INT_MAX in Hlarge; lia). assert (H0 : 0 < op) by lia.
  pose proof (reachable_ok wgs op n affinity (contents raw) now found falls_off Hwgs Hn Hm H0 Hlarge p Hr) as Hok.
  split; [|split; [|split]].
  - intros p' Hs.
    destruct (prog_step_ok wgs op n affinity _ now found falls_off Hwgs Hn Hm H0 Hlarge p p' Hok Hs).
    split; [|done]. by apply (prog_work_nonneg wgs op n affinity (contents raw) found falls_off Hn Hm H0).
  - by apply (moves_or_crashed wgs op n affinity (contents raw) now found falls_off Hwgs H0).
  - by apply (lines_written wgs op n (contents raw) falls_off).
  - intros Hraw Hsize. apply (first_session wgs op n affinity (contents raw) now found falls_off); try done.
    intros a. apply numbers_overflow; [lia|done|]. intros k Hk. apply reduce_filled; [lia|by apply Hraw].
Qed.

(** ** Examples: two threads of four elements each, and the program's numbers *)

Definition small_run (rounds : nat) : session :=
  run 16 2 2 (fun k => k <? 4) (fun k => k) (fun t => (0, 100 * Z.of_nat t)) None 3 2
    (mjoin (replicate rounds [None; Some 1%nat; Some 0%nat]))
    (new_session (replicate 4 7) (replicate 20 0) (replicate 20 (0, 0)) 0).

Lemma small_run_reachable rounds :
  rtc (step 16 2 2 (fun k => k <? 4) (fun k => k) (fun t => (0, 100 * Z.of_nat t)) None 3 2)
    (new_session (replicate 4 7) (replicate 20 0) (replicate 20 (0, 0)) 0) (small_run rounds).
Proof. apply run_reachable. Qed.

Lemma small_machine : machine 2 (fun k => k <? 4) (replicate 4 7).
Proof. split; [done|done|]. intros k Hk. apply Z.ltb_lt. lia. Qed.

Lemma threads_read_alone_witness :
  let s := small_run 20 in
  s_main s = Reported 200 /\ th_reads <$> s_threads s = [[0; 1; 3; 4]; [6; 7; 9; 10]] /\
  th_sum <$> s_threads s = [[3; 5]; [15; 17]] /\
  Z.of_nat (length (s_threads s)) = 2 /\
  (forall x, x ∈ take 2 (s_t s) -> x <= 200) /\ (200 = 0 \/ 200 ∈ take 2 (s_t s)) /\
  forall k th, s_threads s !! k = Some th ->
    let visited j i := (2 * 3 * Z.of_nat k + i * 3 + j) mod 16 in
    read (fun k => k) 16 2 2 3 (Z.of_nat k) [] = (Done (th_sum th), th_reads th) /\
    th_reads th = flat_map (fun i => (fun j => visited j i) <$> seqZ 0 2) (seqZ 0 2) /\
    th_sum th = (fun j => zsum ((fun i => visited j i) <$> seqZ 0 2)) <$> seqZ 0 2 /\
    all_fit (fun k => k) 16 2 2 3 (Z.of_nat k) 2 /\
    exists v, s_t s !! k = Some v /\ s_sp s !! k = Some (256, v).
Proof.
  assert (E : s_main (small_run 20) = Reported 200) by (vm_compute; reflexivity).
  split; [exact E|]. split; [vm_compute; reflexivity|]. split; [vm_compute; reflexivity|].
  assert (H0 : 0 <= 2) by lia. assert (H3 : 0 < 3) by lia. assert (H16 : 0 < 16) by lia.
  exact (threads_read_alone 16 2 2 _ (fun k => k) _ _ None 3 2 (replicate 20 0) (replicate 20 (0, 0)) 0%nat
    (small_run 20) 200 H16 H0 H0 H3 small_machine
    eq_refl eq_refl (small_run_reachable 20) E).
Defined.

(** After seven rounds both threads are in their loops. *)
Lemma measured_together_witness :
  let s := small_run 7 in
  exists th, s_threads s !! 0%nat = Some th /\ measuring th = true /\
    Z.of_nat (length (s_threads s)) = 2 /\ Forall (fun th => passed th = true) (s_threads s).
Proof.
  assert (E : exists th, s_threads (small_run 7) !! 0%nat = Some th /\ measuring th = true).
  { vm_compute. eexists. split; reflexivity. }
  destruct E as (th & E & Hme). exists th. assert (H0 : 0 <= 2) by lia.
  split; [exact E|]. split; [exact Hme|].
  exact (measured_together 16 2 2 _ _ _ _ None 3 2 (replicate 20 0) (replicate 20 (0, 0)) 0%nat
    (small_run 7) 0%nat th H0 H0 small_machine eq_refl eq_refl (small_run_reachable 7) E Hme).
Defined.

(** A million operations, sixteen threads on a machine of 32 processors, and a
    fresh array. *)
Lemma throughput_main_overflows_witness :
  machine 16 (fun k => k <? 32) (replicate 32 0) /\
  let p := start (replicate 32 0) in
  let steps := prog_step (2 ^ 28) 1000000 16 (fun k => k <? 32) (contents (fun _ => replicate 8 0))
                 (fun t => (0, Z.of_nat t)) (replicate 32 0) None in
  (forall p', steps p p' -> 0 <= prog_work 1000000 16 p' < prog_work 1000000 16 p) /\
  ((exists p', steps p p') \/
   exists r, s_crash (g_session p) = Some r /\ (r = Undefined \/ None = Some r)) /\
  (g_stride p <= 4096 /\
   (fun l => (l_stride l, l_burst l)) <$> g_lines p = take (length (g_lines p)) (take 30 configurations) /\
   Forall (line_ok 1000000 16) (g_lines p)) /\
  forall p, rtc steps (start (replicate 32 0)) p -> g_stride p = 64 /\ g_burst p = 8 /\ g_lines p = [].
Proof.
  assert (Hm : machine 16 (fun k => k <? 32) (replicate 32 0)).
  { split; [done|done|]. intros k Hk. apply Z.ltb_lt. lia. }
  split; [exact Hm|].
  assert (Hw : 0 < 2 ^ 28) by lia. assert (Hn : 0 < 16) by lia.
  assert (H6 : INT_MAX < (1000000 - 1) * 4096) by (unfold INT_MAX; lia).
  pose proof (fun p => throughput_main_overflows (2 ^ 28) 1000000 16 (fun k => k <? 32)
    (fun _ => replicate 8 0) (fun t => (0, Z.of_nat t)) (replicate 32 0) None p Hw Hn Hm H6) as H.
  destruct (H _ (rtc_refl _ _)) as (H1 & H2 & H3 & _). split; [exact H1|]. split; [exact H2|].
  split; [exact H3|]. intros q Hq. apply (H q Hq); [done|]. split; lia.
Defined.
