(* ===== verification/GpuThroughput.v ===== *)
(** * The GPU throughput benchmark

    [gpu_benchmark/global_TH.cu]: the kernel [GlobalCopy], thread by thread, and
    the host functions [BandwidthCopy], [ReportRow] and [main].  The threads of
    a launch run in some order, an argument; the device array is a function
    with a length; what the local array [temp] holds before its first use, the
    numbers of [rand] and the clock are parameters.  The sums in [temp], which
    nobody looks at, wrap.  A bandwidth is kept as the number of bytes and the
    microseconds it is computed from.  [hostOut], which is only written, and
    [maxThreads], which is only printed, are left out; [new] throws when there
    is no memory, so the test of its result is never true. *)

From stdpp Require Import base gmap list numbers option sorting.
From S2P Require Import Prelude CInt.
Open Scope Z_scope.

(** ** The kernel *)

(** The elements of [in] that were read, and the array [out]. *)
Record device : Type := Device {
  d_reads : list Z;
  d_out : list Z;
}.

Definition dprog (A : Type) : Type := prog device A.

Section Kernel.
(** The template arguments, the launch, the arguments, and [temp]. *)
Context (b s gridDim blockDim N : Z) (input : Z -> Z) (junk : list Z).

Definition in_get (k : Z) : dprog Z :=
  if (0 <=? k) && (k <? N)
  then modify_state (fun d => Device (d_reads d ++ [k]) (d_out d));; pret (input k)
  else halt OutOfBounds.

Definition out_set (k v : Z) : dprog unit :=
  let* d := get_state in
  let* l := nth_set (d_out d) k v in
  modify_state (fun d => Device (d_reads d) l).

(** [blockIdx.x * blockDim.x + threadIdx.x], and where the thread starts. *)
Definition thread_id (th : Z * Z) : Z := u32 (th.1 * blockDim + th.2).
Definition copy_start (th : Z * Z) : Z :=
  s32 (u32 (s * (thread_id th / b) + thread_id th mod b)).
Definition copy_step : Z := s32 (u32 (s * (u32 (blockDim * gridDim) / b))).

(** The sixteen loads of a round. *)
Definition copy_round (i : Z) (temp : list Z) : dprog (list Z) :=
  let* r := for_loop (R := Empty_set) 16 0 temp (fun j temp =>
    let* d := int_result (j * copy_step) in
    let* k := int_result (i + d) in
    let* v := in_get k in
    let* old := nth_get temp j in
    let* temp := nth_set temp j (s32 (old + v)) in
    pret (inl temp)) in
  match r with inl temp => pret temp | inr e => match e with end end.

(** [for (i = start; i < N; i += step*16)]; [i] is compared as a [size_t]. *)
Fixpoint copy_loop (fuel : nat) (i : Z) (temp : list Z) : dprog (list Z) :=
  match fuel with
  | O => halt OutOfFuel
  | S fuel =>
      if u64 i <? N then
        let* temp := copy_round i temp in
        let* d := int_result (copy_step * 16) in
        let* i := int_result (i + d) in
        copy_loop fuel i temp
      else pret temp
  end.

Definition GlobalCopy (fuel : nat) (th : Z * Z) : dprog unit :=
  let* temp := copy_loop fuel (copy_start th) junk in
  for_loop (R := Empty_set) 16 0 tt (fun j _ =>
    let* v := nth_get temp j in
    out_set j v;;
    pret (inl tt));;
  pret tt.

(** A launch: every thread of the grid, in the order [ths]. *)
Fixpoint launch (fuel : nat) (ths : list (Z * Z)) : dprog unit :=
  match ths with
  | [] => pret tt
  | th :: ths => GlobalCopy fuel th;; launch fuel ths
  end.
End Kernel.

(** The threads of a grid. *)
Definition grid (gridDim blockDim : Z) : list (Z * Z) :=
  seqZ 0 gridDim ≫= (fun blk => (fun t => (blk, t)) <$> seqZ 0 blockDim).

(** ** The host *)

(** What the host does to the device and to its heap. *)
Inductive gpu_event : Type :=
  | CudaMalloc (bytes : Z)
  | CudaMemset (bytes : Z)
  | NewArray (elements : Z)
  | CopyToDevice (bytes : Z)
  | CopyToHost (bytes : Z)
  | Launch (b s gridDim blockDim : Z)
  | DeleteArray
  | CudaFree.

Record host : Type := Host {
  h_device : device;
  h_input : Z -> Z;          (* deviceIn *)
  h_hostIn : Z -> Z;
  h_log : list gpu_event;
  h_launches : nat;
  h_rands : nat;
  h_times : nat;
}.

Definition hprog (A : Type) : Type := prog host A.

(** A measured bandwidth: [bytes / share] bytes in [usec] microseconds. *)
Record speed : Type := Speed {
  sp_bytes : Z;
  sp_share : Z;
  sp_usec : Z;
}.

Section HostPrograms.
(** Loop bound of a thread; the order of the threads and what is in [temp], per
    launch; [rand]; the clock; the comparison of two bandwidths. *)
Context (fuel : nat) (order : nat -> Z -> Z -> list (Z * Z)) (junk : nat -> list Z)
  (rand : nat -> Z) (now : nat -> Z * Z) (faster : speed -> option speed -> bool).

Definition act (e : gpu_event) : hprog unit :=
  modify_state (fun h => Host (h_device h) (h_input h) (h_hostIn h) (h_log h ++ [e])
    (h_launches h) (h_rands h) (h_times h)).

Definition gettimeofday : hprog (Z * Z) :=
  fun h => (Done (now (h_times h)), Host (h_device h) (h_input h) (h_hostIn h) (h_log h)
    (h_launches h) (h_rands h) (S (h_times h))).

(** [GlobalCopy<b,s><<<cBlocks,cThreads>>>(deviceOut, deviceIn, N)] *)
Definition launch_copy (b s N cBlocks cThreads : Z) : hprog unit :=
  act (Launch b s cBlocks cThreads);;
  fun h =>
    let k := h_launches h in
    match launch b s cBlocks cThreads N (h_input h) (junk k) fuel (order k cBlocks cThreads)
            (h_device h) with
    | (o, d) => (o, Host d (h_input h) (h_hostIn h) (h_log h) (S k) (h_rands h) (h_times h))
    end.

(** [hostIn[i] = rand()] *)
Definition fill_host (N : Z) : hprog unit :=
  for_loop (R := Empty_set) (Z.to_nat N) 0 tt (fun i _ =>
    modify_state (fun h => Host (h_device h) (h_input h)
      (fun k => if k =? i then s32 (rand (h_rands h)) else h_hostIn h k)
      (h_log h) (h_launches h) (S (h_rands h)) (h_times h));;
    pret (inl tt));;
  pret tt.

Definition cIterations : Z := 4.

Definition BandwidthCopy (b s N cBlocks cThreads : Z) : hprog speed :=
  let* n := int_result (cBlocks * cThreads) in
  require (negb (u64 n =? 0)) Undefined;;
  fill_host N;;
  act (CopyToDevice (N * 4));;
  modify_state (fun h => Host (h_device h) (h_hostIn h) (h_hostIn h) (h_log h)
    (h_launches h) (h_rands h) (h_times h));;
  launch_copy b s N cBlocks cThreads;;
  act (CopyToHost (N * 4));;
  let* (s0, u0) := gettimeofday in
  for_loop (R := Empty_set) (Z.to_nat cIterations) 0 tt (fun _ _ =>
    launch_copy b s N cBlocks cThreads;; pret (inl tt));;
  let* (s1, u1) := gettimeofday in
  pret (Speed (b * N * cIterations * 4) s ((s1 - s0) * 1000000 + (u1 - u0))).

(** The loop over the numbers of threads; [n] bounds it. *)
Fixpoint rows (n : nat) (b s N cThreads threadStop cBlocks : Z) (best : option speed) :
    hprog (option speed) :=
  match n with
  | O => halt OutOfFuel
  | S n =>
      if u64 cThreads <=? threadStop then
        let* bw := BandwidthCopy b s N cBlocks cThreads in
        let best := if faster bw best then Some bw else best in
        let* next := int_result (cThreads * 2) in
        rows n b s N next threadStop cBlocks best
      else pret best
  end.

Definition ReportRow (n : nat) (b s N threadStart threadStop cBlocks : Z) : hprog (option speed) :=
  act (CudaMalloc (N * 4));;
  act (CudaMalloc (N * 4));;
  act (CudaMemset (N * 4));;
  act (NewArray N);;
  act (NewArray N);;
  let* best := rows n b s N threadStart threadStop cBlocks None in
  act DeleteArray;;
  act DeleteArray;;
  act CudaFree;;
  act CudaFree;;
  pret best.

Definition BLOCK_BASE : Z := 64.

(** The rows of [main], for its one number of blocks. *)
Definition gpu_main : hprog unit :=
  let* N := int_result (64 * 1024 * 1024 * 8) in
  ReportRow 2 16 256 N 128 128 BLOCK_BASE;;
  ReportRow 2 32 256 N 128 128 BLOCK_BASE;;
  ReportRow 2 64 256 N 128 128 BLOCK_BASE;;
  ReportRow 2 128 256 N 128 128 BLOCK_BASE;;
  pret tt.
End HostPrograms.

(** ** What a launch reads *)

Lemma length_bind_const {A B} (f : A -> list B) l n :
  (forall x, x ∈ l -> length (f x) = n) -> length (l ≫= f) = (length l * n)%nat.
Proof.
  induction l as [|x l IH]; intros Hn; [done|]. cbn. rewrite length_app, IH.
  - by rewrite Hn by (by left).
  - intros y Hy. apply Hn. by right.
Qed.

Section Reads.
Context (b s gridDim blockDim N : Z).

(** The threads, and the distance between two elements that a thread reads. *)
Definition threads : Z := gridDim * blockDim.
Definition stride_of : Z := s * (threads / b).

(** A launch that covers the array: whole rounds, and no overflow. *)
Record covering : Prop := {
  cov_b : 0 < b <= s;
  cov_grid : 0 < gridDim /\ 0 < blockDim;
  cov_div : threads mod b = 0;
  cov_small : N + 16 * stride_of <= INT_MAX /\ threads < 2 ^ 32;
  cov_pos : 0 < N;
  cov_rounds : N mod (16 * stride_of) = 0;
}.
Context (Hcov : covering).

Definition thread_start (th : Z * Z) : Z :=
  let id := th.1 * blockDim + th.2 in s * (id / b) + id mod b.
Definition thread_reads (th : Z * Z) : list Z :=
  (fun q => thread_start th + q * stride_of) <$> seqZ 0 (N / stride_of).

Definition in_grid (th : Z * Z) : Prop := 0 <= th.1 < gridDim /\ 0 <= th.2 < blockDim.

Lemma elem_of_grid th : th ∈ grid gridDim blockDim <-> in_grid th.
Proof.
  unfold grid, in_grid. rewrite list_elem_of_bind. split.
  - intros (blk & (t & -> & Ht)%list_elem_of_fmap & Hb). rewrite elem_of_seqZ in Ht, Hb. cbn. lia.
  - intros [H1 H2]. exists th.1. rewrite list_elem_of_fmap, elem_of_seqZ. split; [|lia].
    exists th.2. rewrite elem_of_seqZ. destruct th; cbn in *. split; [done|lia].
Qed.

Lemma NoDup_grid : NoDup (grid gridDim blockDim).
Proof.
  unfold grid. apply NoDup_bind.
  - intros x1 x2 y _ _ (t1 & -> & _)%list_elem_of_fmap (t2 & [= <- _] & _)%list_elem_of_fmap. done.
  - intros x _. apply NoDup_fmap; [by intros ?? [= ->]|apply NoDup_seqZ].
  - apply NoDup_seqZ.
Qed.

Lemma thread_in_range th :
  in_grid th -> 0 <= th.1 * blockDim + th.2 < threads /\ 0 <= thread_start th < stride_of.
Proof.
  intros [H1 H2]. destruct Hcov as [Hb Hg Hd _ _ _]. unfold threads in *.
  assert (Hid : 0 <= th.1 * blockDim + th.2 < gridDim * blockDim) by nia.
  split; [done|]. unfold thread_start, stride_of, threads. cbv zeta.
  set (id := th.1 * blockDim + th.2) in *.
  pose proof (Z.div_mod id b ltac:(lia)) as E. pose proof (Z.mod_pos_bound id b ltac:(lia)).
  pose proof (Z.div_mod (gridDim * blockDim) b ltac:(lia)) as E2. rewrite Hd in E2.
  set (K := gridDim * blockDim / b) in *.
  assert (Hlt : id / b < K) by (apply Z.div_lt_upper_bound; lia).
  assert (0 <= id / b) by (apply Z.div_pos; lia).
  assert (s * (id / b) <= s * (K - 1)) by (apply Z.mul_le_mono_nonneg_l; lia). nia.
Qed.

Lemma stride_pos : 0 < stride_of /\ 0 < threads / b /\ threads = threads / b * b.
Proof.
  destruct Hcov as [Hb [Hg1 Hg2] Hd _ _ _].
  assert (Ht : 0 < threads) by (unfold threads; nia).
  pose proof (Z.div_mod threads b ltac:(lia)) as E. rewrite Hd in E. unfold stride_of. nia.
Qed.

Lemma whole_steps : exists n, 0 < n /\ N = n * stride_of.
Proof.
  destruct stride_pos as (Hs & _). destruct Hcov as [_ _ _ _ Hpos Hr].
  apply Z.mod_divide in Hr as [k Hk]; [|lia]. exists (16 * k). nia.
Qed.

(** The element [y] belongs to one thread and one of its steps. *)
Lemma reader_of th y :
  in_grid th -> y ∈ thread_reads th ->
  0 <= y < N /\ y mod s < b /\
  th.1 * blockDim + th.2 = (y / s) mod (threads / b) * b + y mod s.
Proof.
  intros Hth (q & -> & Hq)%list_elem_of_fmap. rewrite elem_of_seqZ in Hq.
  destruct (thread_in_range th Hth) as [Hid Hst], stride_pos as (Hs & HK & HT).
  destruct Hcov as [Hb _ _ _ Hpos Hr].
  destruct whole_steps as (n & Hn & HN). rewrite HN, Z.div_mul in Hq by lia.
  split; [nia|]. unfold thread_start. cbv zeta. set (id := th.1 * blockDim + th.2) in *.
  pose proof (Z.mod_pos_bound id b ltac:(lia)) as Hm. set (K := threads / b) in *.
  assert (Ey : s * (id / b) + id mod b + q * stride_of = s * (id / b + q * K) + id mod b).
  { unfold stride_of. fold K. lia. }
  rewrite Ey. rewrite (Z.mul_comm s), Z.add_comm, Z.mod_add, (Z.mod_small (id mod b) s) by lia.
  split; [lia|]. rewrite Z.div_add, (Z.div_small (id mod b) s), Z.add_0_l by lia.
  assert (HidK : 0 <= id / b < K).
  { split; [apply Z.div_pos; lia|]. apply Z.div_lt_upper_bound; lia. }
  rewrite Z.mod_add, Z.mod_small by lia. pose proof (Z.div_mod id b ltac:(lia)). lia.
Qed.

Lemma has_reader y :
  0 <= y < N -> y mod s < b -> exists th, in_grid th /\ y ∈ thread_reads th.
Proof.
  intros Hy Hyb. destruct stride_pos as (Hs & HK & HT). destruct Hcov as [Hb [Hg1 Hg2] _ _ Hpos Hr].
  set (K := threads / b) in *. set (u := y / s).
  pose proof (Z.mod_pos_bound y s ltac:(lia)) as Hm. pose proof (Z.div_mod y s ltac:(lia)) as Ey.
  pose proof (Z.mod_pos_bound u K HK) as HuK. pose proof (Z.div_mod u K ltac:(lia)) as Eu.
  assert (Hu : 0 <= u) by (apply Z.div_pos; lia).
  set (id := u mod K * b + y mod s). assert (Hid : 0 <= id < threads) by (unfold id; nia).
  assert (E1 : id / b = u mod K) by (unfold id; rewrite Z.div_add_l, Z.div_small by lia; lia).
  assert (E2 : id mod b = y mod s) by (unfold id; rewrite Z.add_comm, Z.mod_add, Z.mod_small by lia; lia).
  exists (id / blockDim, id mod blockDim). split.
  - split; cbn; [split; [apply Z.div_pos; lia|]|by apply Z.mod_pos_bound].
    apply Z.div_lt_upper_bound; [lia|]. unfold threads in Hid. lia.
  - apply list_elem_of_fmap. exists (u / K). rewrite elem_of_seqZ. unfold thread_start. cbn.
    replace (id / blockDim * blockDim + id mod blockDim) with id
      by (pose proof (Z.div_mod id blockDim); lia).
    rewrite E1, E2. unfold stride_of. fold K. split; [fold u in Ey; nia|].
    split; [by apply Z.div_pos|]. rewrite Z.add_0_l. fold K.
    destruct whole_steps as (n & Hn & HN). unfold stride_of in HN. fold K in HN.
    rewrite HN, Z.div_mul by nia.
    unfold u in *. apply Z.div_lt_upper_bound; [lia|]. apply Z.div_lt_upper_bound; [lia|]. lia.
Qed.

(** Together the threads read the first [b] of every [s] elements, once each. *)
Lemma reads_cover :
  grid gridDim blockDim ≫= thread_reads ≡ₚ filter (fun y => y mod s < b) (seqZ 0 N).
Proof.
  destruct stride_pos as (Hs & HK & HT). destruct (cov_grid Hcov) as [Hg1 Hg2].
  apply NoDup_Permutation.
  - apply NoDup_bind; [|intros th _; apply NoDup_fmap; [intros q1 q2 H; nia|apply NoDup_seqZ]|
      apply NoDup_grid].
    intros [a1 t1] [a2 t2] y Ha1%elem_of_grid Ha2%elem_of_grid H1 H2.
    destruct (reader_of _ y Ha1 H1) as (_ & _ & E1), (reader_of _ y Ha2 H2) as (_ & _ & E2).
    unfold in_grid in *. cbn in *. assert (a1 = a2) by nia. subst. f_equal. lia.
  - apply NoDup_filter, NoDup_seqZ.
  - intros y. rewrite list_elem_of_bind, list_elem_of_filter, elem_of_seqZ. split.
    + intros (th & Hin & Hth%elem_of_grid). destruct (reader_of th y Hth Hin) as (? & ? & _).
      split; [done|lia].
    + intros [Hyb Hy]. destruct (has_reader y) as (th & Hth & Hin); [lia|done|].
      exists th. by rewrite elem_of_grid.
Qed.

(** As many as the benchmark counts. *)
Lemma length_reads :
  Z.of_nat (length (grid gridDim blockDim ≫= thread_reads)) = b * N / s.
Proof.
  destruct stride_pos as (Hs & HK & HT), whole_steps as (q & Hq & EN).
  destruct Hcov as [Hb [Hg1 Hg2] _ _ Hpos Hr].
  rewrite (length_bind_const _ _ (Z.to_nat q)).
  - unfold grid. rewrite (length_bind_const _ _ (Z.to_nat blockDim)).
    + rewrite length_seqZ, !Nat2Z.inj_mul, !Z2Nat.id by lia. fold threads. rewrite EN, HT.
      unfold stride_of. replace (b * (q * (s * (threads / b)))) with (b * q * (threads / b) * s) by lia.
      rewrite Z.div_mul by lia. lia.
    + intros blk _. by rewrite length_fmap, length_seqZ.
  - intros th _. unfold thread_reads. rewrite length_fmap, length_seqZ, EN, Z.div_mul by lia. done.
Qed.
End Reads.

(** The share [b] of [s] of the array is a whole number. *)
Lemma share_divides b s gridDim blockDim N :
  covering b s gridDim blockDim N -> exists k, b * N = k * s.
Proof.
  intros Hcov. destruct (whole_steps b s gridDim blockDim N Hcov) as (n & _ & E).
  exists (b * n * (threads gridDim blockDim / b)). rewrite E. unfold stride_of. lia.
Qed.

(** The launches of the program. *)
Lemma main_covering b : b ∈ [16; 32; 64; 128] -> covering b 256 64 128 (2 ^ 29).
Proof.
  rewrite !elem_of_cons. intros [->|[->|[->|[->|[]%not_elem_of_nil]]]]; by split; vm_compute.
Qed.
Lemma main_rounds b : b ∈ [16; 32; 64; 128] -> 2 ^ 29 / (16 * stride_of b 256 64 128) <= 2048.
Proof.
  rewrite !elem_of_cons. intros [->|[->|[->|[->|[]%not_elem_of_nil]]]]; by vm_compute.
Qed.

(** ** The kernel does that *)

Section KernelSpecs.
Context (b s gridDim blockDim N : Z) (input : Z -> Z) (junk : list Z).
Context (Hcov : covering b s gridDim blockDim N).
Abbreviation st := (stride_of b s gridDim blockDim).

Lemma copy_step_ok : copy_step b s gridDim blockDim = st.
Proof.
  destruct (stride_pos b s gridDim blockDim N Hcov) as (Hs & HK & HT).
  destruct Hcov as [Hb [Hg1 Hg2] _ [Hsm Ht] Hpos _].
  assert (H0 : 0 <= threads gridDim blockDim) by (unfold threads; nia).
  unfold copy_step, INT_MAX in *. rewrite (Z.mul_comm blockDim).
  fold (threads gridDim blockDim). rewrite (u32_small (threads gridDim blockDim)) by lia.
  fold (stride_of b s gridDim blockDim). rewrite u32_small, s32_small by lia. done.
Qed.

Lemma copy_start_ok th :
  in_grid gridDim blockDim th -> copy_start b s blockDim th = thread_start b s blockDim th.
Proof.
  intros Hth. destruct (thread_in_range b s gridDim blockDim N Hcov th Hth) as [Hid Hst].
  destruct Hcov as [Hb _ _ [Hsm Ht] Hpos _].
  unfold copy_start, thread_start, thread_id in *. cbv zeta in *. unfold INT_MAX in *.
  rewrite (u32_small (th.1 * blockDim + th.2)) by lia. rewrite u32_small, s32_small by lia. done.
Qed.

(** The elements of a round, and of [n] rounds. *)
Definition round_reads (i : Z) : list Z := (fun j => i + j * st) <$> seqZ 0 16.

Lemma copy_round_spec i temp d (Q : list Z -> device -> Prop) :
  0 <= i -> i + 15 * st < N -> length temp = 16%nat ->
  (forall temp1, length temp1 = 16%nat ->
     Q temp1 (Device (d_reads d ++ round_reads i) (d_out d))) ->
  wp (copy_round b s gridDim blockDim N input i temp) Q d.
Proof.
  intros Hi Hlt Hl HQ. unfold copy_round. rewrite copy_step_ok.
  destruct (stride_pos b s gridDim blockDim N Hcov) as (Hs & _ & _).
  destruct (cov_small _ _ _ _ _ Hcov) as [Hsm _]. apply wp_bind.
  apply (wp_for_loop (fun j t d1 => exists m : nat, j = Z.of_nat m /\ length t = 16%nat /\
    d1 = Device (d_reads d ++ ((fun j => i + j * st) <$> seqZ 0 (Z.of_nat m))) (d_out d))).
  - exists 0%nat. split; [done|]. split; [done|]. cbn. rewrite app_nil_r. by destruct d.
  - intros j t d1 Hj (m & -> & Hlt1 & ->). unfold INT_MAX in *.
    rewrite !int_result_ok, !pbind_ret, !int_result_ok, !pbind_ret by (unfold INT_MAX; nia).
    unfold in_get. rewrite (proj2 (Z.leb_le _ _)), (proj2 (Z.ltb_lt _ _)) by nia. cbn [andb].
    apply wp_bind, wp_bind, wp_modify, wp_ret. cbn [d_reads d_out].
    destruct (lookup_lt_is_Some_2 t m) as [old Hold]; [lia|].
    rewrite (nth_get_ok _ _ old), pbind_ret by (lia || by rewrite Nat2Z.id).
    rewrite nth_set_ok, pbind_ret by lia. apply wp_ret. exists (S m). split; [lia|].
    split; [by rewrite length_insert|].
    by rewrite seqZ_S, fmap_app, Z.add_0_l, app_assoc.
  - intros t d1 (m & Hm & Hl1 & ->). assert (m = 16%nat) as -> by lia. apply wp_ret. by apply HQ.
Qed.

Lemma round_reads_cons i n :
  round_reads i ++ ((fun q => i + 16 * st + q * st) <$> seqZ 0 (16 * Z.of_nat n)) =
  (fun q => i + q * st) <$> seqZ 0 (16 * Z.of_nat (S n)).
Proof.
  replace (16 * Z.of_nat (S n)) with (16 + 16 * Z.of_nat n) by lia.
  rewrite (seqZ_app 0 16) by lia. rewrite fmap_app. unfold round_reads. f_equal.
  rewrite (Z.add_comm 0 16), <- fmap_add_seqZ, <- list_fmap_compose.
  apply list_fmap_ext. intros k q _. cbn. lia.
Qed.

(** [n] rounds are left. *)
Lemma copy_loop_spec (n : nat) fuel i temp d (Q : list Z -> device -> Prop) :
  (n < fuel)%nat -> 0 <= i -> N <= i + 16 * st * Z.of_nat n < N + st -> length temp = 16%nat ->
  (forall temp1, length temp1 = 16%nat ->
     Q temp1 (Device (d_reads d ++ ((fun q => i + q * st) <$> seqZ 0 (16 * Z.of_nat n))) (d_out d))) ->
  wp (copy_loop b s gridDim blockDim N input fuel i temp) Q d.
Proof.
  destruct (stride_pos b s gridDim blockDim N Hcov) as (Hs & _ & _).
  destruct (cov_small _ _ _ _ _ Hcov) as [Hsm _]. unfold INT_MAX in Hsm.
  revert fuel i temp d. induction n as [|n IH]; intros [|fuel] i temp d Hf Hi Hn Hl HQ; try lia;
    cbn [copy_loop]; rewrite u64_small by lia.
  - rewrite (proj2 (Z.ltb_ge _ _)) by lia. apply wp_ret. specialize (HQ temp Hl).
    cbn in HQ. rewrite app_nil_r in HQ. by destruct d.
  - rewrite (proj2 (Z.ltb_lt _ _)) by nia.
    apply wp_bind, copy_round_spec; [done|nia|done|]. intros temp1 Hl1.
    rewrite copy_step_ok, !int_result_ok, !pbind_ret, !int_result_ok, !pbind_ret
      by (unfold INT_MAX; nia).
    apply IH; [lia|lia|nia|done|]. intros temp2 Hl2. cbn [d_reads d_out].
    specialize (HQ temp2 Hl2). rewrite <- round_reads_cons, app_assoc in HQ.
    rewrite (Z.mul_comm st 16). exact HQ.
Qed.

Lemma GlobalCopy_spec fuel th d (Q : unit -> device -> Prop) :
  in_grid gridDim blockDim th -> N / (16 * st) < Z.of_nat fuel ->
  length junk = 16%nat -> (16 <= length (d_out d))%nat ->
  (forall d1, d_reads d1 = d_reads d ++ thread_reads b s gridDim blockDim N th ->
     length (d_out d1) = length (d_out d) -> Q tt d1) ->
  wp (GlobalCopy b s gridDim blockDim N input junk fuel th) Q d.
Proof.
  intros Hth Hfuel Hjk Ho HQ. unfold GlobalCopy. apply wp_bind.
  destruct (stride_pos b s gridDim blockDim N Hcov) as (Hs & _ & _).
  destruct (thread_in_range b s gridDim blockDim N Hcov th Hth) as [_ Hst].
  pose proof (cov_rounds _ _ _ _ _ Hcov) as Hr. apply Z.mod_divide in Hr as [k Hk]; [|lia].
  pose proof (cov_pos _ _ _ _ _ Hcov) as Hpos.
  rewrite Hk, Z.div_mul in Hfuel by lia.
  rewrite copy_start_ok by done.
  apply (copy_loop_spec (Z.to_nat k)); [nia|lia|nia|done|]. intros temp Hl.
  apply wp_bind. set (d1 := Device _ _).
  apply (wp_for_loop (fun j (_ : unit) d2 => 0 <= j /\ d_reads d2 = d_reads d1 /\
    length (d_out d2) = length (d_out d))).
  - done.
  - intros j [] d2 Hj (Hj0 & Hr2 & Ho2).
    destruct (lookup_lt_is_Some_2 temp (Z.to_nat j)) as [v Hv]; [lia|].
    rewrite (nth_get_ok _ _ v), pbind_ret by (done || lia).
    apply wp_bind. unfold out_set. apply wp_bind, wp_get.
    rewrite nth_set_ok, pbind_ret by lia. apply wp_modify, wp_ret. cbn.
    rewrite length_insert. split; [lia|done].
  - intros [] d2 (_ & Hr2 & Ho2). apply wp_ret, HQ; [|done]. rewrite Hr2. unfold d1, thread_reads. cbn.
    rewrite Hk. replace (k * (16 * st)) with (16 * k * st) by lia.
    rewrite Z.div_mul, Z2Nat.id by nia. done.
Qed.

Lemma launch_spec fuel ths d (Q : unit -> device -> Prop) :
  Forall (in_grid gridDim blockDim) ths -> N / (16 * st) < Z.of_nat fuel ->
  length junk = 16%nat -> (16 <= length (d_out d))%nat ->
  (forall d1, d_reads d1 = d_reads d ++ (ths ≫= thread_reads b s gridDim blockDim N) ->
     length (d_out d1) = length (d_out d) -> Q tt d1) ->
  wp (launch b s gridDim blockDim N input junk fuel ths) Q d.
Proof.
  intros Hths Hfuel Hjk. revert d. induction Hths as [|th ths Hth _ IH]; intros d Ho HQ.
  - apply wp_ret, HQ; [|done]. cbn. by rewrite app_nil_r.
  - cbn [launch]. apply wp_bind, GlobalCopy_spec; [done..|]. intros d1 Hr1 Ho1.
    apply IH; [lia|]. intros d2 Hr2 Ho2. apply HQ; [|lia]. by rewrite Hr2, Hr1, <- app_assoc.
Qed.
End KernelSpecs.

(** ** The host programs *)

(** The elements that one launch is meant to read. *)
Definition counted_elements (b s N : Z) : list Z := filter (fun y => y mod s < b) (seqZ 0 N).

Section HostSpecs.
Context (fuel : nat) (order : nat -> Z -> Z -> list (Z * Z)) (junk : nat -> list Z)
  (rand : nat -> Z) (now : nat -> Z * Z) (faster : speed -> option speed -> bool).
Context (Horder : forall k g t, order k g t ≡ₚ grid g t).
Context (Hjunk : forall k, length (junk k) = 16%nat).

(** What a step of the host leaves: events, launches that read, and the device. *)
Record did (h h1 : host) (evs : list gpu_event) (reads : list Z) : Prop := {
  did_log : h_log h1 = h_log h ++ evs;
  did_reads : d_reads (h_device h1) = d_reads (h_device h) ++ reads;
  did_out : length (d_out (h_device h1)) = length (d_out (h_device h));
}.

Lemma did_trans h h1 h2 e1 e2 r1 r2 :
  did h h1 e1 r1 -> did h1 h2 e2 r2 -> did h h2 (e1 ++ e2) (r1 ++ r2).
Proof. intros [] []. split; [by rewrite did_log1, did_log0, app_assoc|
  by rewrite did_reads1, did_reads0, app_assoc|congruence]. Qed.

Lemma act_did e h (Q : unit -> host -> Prop) :
  (forall h1, did h h1 [e] [] -> Q tt h1) -> wp (act e) Q h.
Proof. intros HQ. apply wp_modify, HQ. split; cbn; [done|by rewrite app_nil_r|done]. Qed.

Lemma fill_host_did N h (Q : unit -> host -> Prop) :
  (forall h1, did h h1 [] [] -> Q tt h1) -> wp (fill_host rand N) Q h.
Proof.
  intros HQ. unfold fill_host. apply wp_bind.
  apply (wp_for_loop (fun _ (_ : unit) h1 => did h h1 [] [])).
  - split; [by rewrite app_nil_r|by rewrite app_nil_r|done].
  - intros j [] h1 _ H1. apply wp_bind, wp_modify, wp_ret. by destruct H1.
  - intros [] h1 H1. by apply wp_ret, HQ.
Qed.

Section OneSize.
Context (b s N cBlocks cThreads : Z) (Hcov : covering b s cBlocks cThreads N).
Context (Hfuel : N / (16 * stride_of b s cBlocks cThreads) < Z.of_nat fuel).

Lemma launch_copy_did h (Q : unit -> host -> Prop) :
  (16 <= length (d_out (h_device h)))%nat ->
  (forall h1 l, did h h1 [Launch b s cBlocks cThreads] l -> l ≡ₚ counted_elements b s N -> Q tt h1) ->
  wp (launch_copy fuel order junk b s N cBlocks cThreads) Q h.
Proof.
  intros Ho HQ. unfold launch_copy. apply wp_bind, act_did. intros h1 [Hlog Hreads Hout].
  rewrite app_nil_r in Hreads. unfold wp.
  pose proof (launch_spec b s cBlocks cThreads N (h_input h1) (junk (h_launches h1)) Hcov fuel
    (order (h_launches h1) cBlocks cThreads) (h_device h1)
    (fun _ d => d_reads d = d_reads (h_device h1) ++
       (order (h_launches h1) cBlocks cThreads ≫= thread_reads b s cBlocks cThreads N) /\
       length (d_out d) = length (d_out (h_device h1)))) as Hl.
  unfold wp in Hl. destruct (launch _ _ _ _ _ _ _ _ _ _) as [[[]|] d].
  - destruct Hl as [Hr Hlen]; [|done|done|lia|done|].
    + rewrite Forall_forall. intros th Hth. rewrite Horder in Hth. by apply elem_of_grid.
    + eapply HQ.
      * split; cbn; [exact Hlog|by rewrite Hr, Hreads|congruence].
      * rewrite Horder. by apply reads_cover.
  - apply Hl; [|done|done|lia|done].
    rewrite Forall_forall. intros th Hth. rewrite Horder in Hth. by apply elem_of_grid.
Qed.

(** The timed launches. *)
Definition timed_events : list gpu_event := replicate 4 (Launch b s cBlocks cThreads).

Lemma BandwidthCopy_did h (Q : speed -> host -> Prop) :
  (16 <= length (d_out (h_device h)))%nat ->
  (forall r h1 l0 l,
     did h h1 ([CopyToDevice (N * 4); Launch b s cBlocks cThreads; CopyToHost (N * 4)] ++ timed_events)
       (l0 ++ l) ->
     l0 ≡ₚ counted_elements b s N ->
     l ≡ₚ mjoin (replicate 4 (counted_elements b s N)) ->
     sp_bytes r = b * N * 4 * 4 -> sp_share r = s -> Q r h1) ->
  wp (BandwidthCopy fuel order junk rand now b s N cBlocks cThreads) Q h.
Proof.
  intros Ho HQ. unfold BandwidthCopy.
  destruct (stride_pos b s cBlocks cThreads N Hcov) as (Hs & HK & HT).
  destruct (Hcov) as [Hb [Hg1 Hg2] Hd [Hsm Ht] Hpos Hr].
  assert (Htn : 0 < cBlocks * cThreads <= INT_MAX).
  { unfold stride_of, threads, INT_MAX in *. nia. }
  rewrite int_result_ok, pbind_ret by lia.
  apply wp_bind, wp_require; [rewrite u64_small by (unfold INT_MAX in *; lia);
    apply negb_true_iff, Z.eqb_neq; lia|].
  apply wp_bind, fill_host_did. intros h1 D1. apply wp_bind, act_did. intros h2 D2.
  apply wp_bind, wp_modify. set (h3 := Host _ _ _ _ _ _ _).
  pose proof (did_trans _ _ _ _ _ _ _ D1 D2) as D12.
  assert (D3 : did h h3 [CopyToDevice (N * 4)] []) by (destruct D12; by split).
  apply wp_bind, launch_copy_did; [destruct D3; lia|]. intros h4 l0 D4 Hl0.
  apply wp_bind, act_did. intros h5 D5.
  pose proof (did_trans _ _ _ _ _ _ _ (did_trans _ _ _ _ _ _ _ D3 D4) D5) as D35.
  cbn [app] in D35. rewrite app_nil_r in D35.
  apply wp_bind. unfold gettimeofday at 1. unfold wp at 1. destruct (now (h_times h5)) as [s0 u0].
  set (h6 := Host _ _ _ _ _ _ _).
  assert (D6 : did h h6 [CopyToDevice (N * 4); Launch b s cBlocks cThreads; CopyToHost (N * 4)] l0)
    by (destruct D35; by split).
  apply wp_bind.
  apply (wp_for_loop (fun j (_ : unit) h7 => exists m l, j = Z.of_nat m /\
    l ≡ₚ mjoin (replicate m (counted_elements b s N)) /\
    did h6 h7 (replicate m (Launch b s cBlocks cThreads)) l)).
  - exists 0%nat, []. split; [done|]. split; [done|]. split; [by rewrite app_nil_r|by rewrite app_nil_r|done].
  - intros j [] h7 Hj (m & l & -> & Hl & D7). apply wp_bind, launch_copy_did.
    { destruct D6, D7. lia. }
    intros h8 l1 D8 Hl1. apply wp_ret. exists (S m), (l ++ l1). split; [lia|].
    pose proof (did_trans _ _ _ _ _ _ _ D7 D8) as D78. split.
    + cbn [replicate mjoin list_join]. rewrite Hl, Hl1. apply Permutation_app_comm.
    + by rewrite replicate_S_end.
  - intros [] h7 (m & l & Hm & Hl & D7). assert (m = 4%nat) as -> by (unfold cIterations in Hm; lia).
    apply wp_bind. unfold gettimeofday. unfold wp at 1. destruct (now (h_times h7)) as [s1 u1].
    apply wp_ret. eapply (HQ _ _ l0 l); [|done|done|done|done].
    pose proof (did_trans _ _ _ _ _ _ _ D6 D7) as D67. by destruct D67.
Qed.
End OneSize.

(** A row of the program: one number of threads. *)
Definition row_events (b s N cBlocks cThreads : Z) : list gpu_event :=
  [CudaMalloc (N * 4); CudaMalloc (N * 4); CudaMemset (N * 4); NewArray N; NewArray N;
   CopyToDevice (N * 4); Launch b s cBlocks cThreads; CopyToHost (N * 4)] ++
  timed_events b s cBlocks cThreads ++ [DeleteArray; DeleteArray; CudaFree; CudaFree].

Lemma ReportRow_did b s N cBlocks cThreads h (Q : option speed -> host -> Prop) :
  covering b s cBlocks cThreads N ->
  N / (16 * stride_of b s cBlocks cThreads) < Z.of_nat fuel ->
  0 < cThreads <= 1024 -> (16 <= length (d_out (h_device h)))%nat ->
  (forall r h1 l, did h h1 (row_events b s N cBlocks cThreads) l ->
     l ≡ₚ mjoin (replicate 5 (counted_elements b s N)) -> Q r h1) ->
  wp (ReportRow fuel order junk rand now faster 2 b s N cThreads cThreads cBlocks) Q h.
Proof.
  intros Hcov Hfuel Hth Ho HQ. unfold ReportRow.
  apply wp_bind, act_did. intros h1 D1. apply wp_bind, act_did. intros h2 D2.
  apply wp_bind, act_did. intros h3 D3. apply wp_bind, act_did. intros h4 D4.
  apply wp_bind, act_did. intros h5 D5.
  pose proof (did_trans _ _ _ _ _ _ _ (did_trans _ _ _ _ _ _ _ (did_trans _ _ _ _ _ _ _
    (did_trans _ _ _ _ _ _ _ D1 D2) D3) D4) D5) as D. cbn [app] in D. clear D1 D2 D3 D4 D5.
  apply wp_bind. cbn [rows]. rewrite u64_small, Z.leb_refl by lia.
  apply wp_bind, (BandwidthCopy_did b s N cBlocks cThreads Hcov Hfuel); [destruct D; lia|].
  intros r h6 l0 l D6 Hl0 Hl _ _. rewrite int_result_ok, pbind_ret by (unfold INT_MAX; lia).
  rewrite u64_small, (proj2 (Z.leb_gt _ _)) by lia. apply wp_ret.
  pose proof (did_trans _ _ _ _ _ _ _ D D6) as DD.
  apply wp_bind, act_did. intros h7 D7. apply wp_bind, act_did. intros h8 D8.
  apply wp_bind, act_did. intros h9 D9. apply wp_bind, act_did. intros h10 D10.
  pose proof (did_trans _ _ _ _ _ _ _ (did_trans _ _ _ _ _ _ _ (did_trans _ _ _ _ _ _ _
    (did_trans _ _ _ _ _ _ _ DD D7) D8) D9) D10) as DE.
  apply wp_ret, (HQ _ _ (l0 ++ l)).
  - rewrite !app_nil_r in DE. destruct DE as [DL DR DO]. by split.
  - change (replicate 5 (counted_elements b s N))
      with (counted_elements b s N :: replicate 4 (counted_elements b s N)).
    cbn [mjoin list_join]. by rewrite Hl0, Hl.
Qed.
End HostSpecs.

Lemma bind_four {A B} (f : A -> list B) a1 a2 a3 a4 l1 l2 l3 l4 :
  l1 ≡ₚ f a1 -> l2 ≡ₚ f a2 -> l3 ≡ₚ f a3 -> l4 ≡ₚ f a4 ->
  ((l1 ++ l2) ++ l3) ++ l4 ≡ₚ [a1; a2; a3; a4] ≫= f.
Proof. intros -> -> -> ->. cbn. by rewrite app_nil_r, <- !app_assoc. Qed.

(** ** Properties *)

(** C25: a launch that covers its array reads the first [b] of every [s] elements
    of it and nothing else, each exactly once over all threads, whatever the
    order of the threads; no read is outside the array, and the loops of the
    threads end within [N / (16 * stride)] rounds. *)
Theorem launch_reads_each_once b s gridDim blockDim N input junk fuel ths d :
  covering b s gridDim blockDim N -> ths ≡ₚ grid gridDim blockDim ->
  N / (16 * stride_of b s gridDim blockDim) < Z.of_nat fuel ->
  length junk = 16%nat -> (16 <= length (d_out d))%nat ->
  wp (launch b s gridDim blockDim N input junk fuel ths) (fun _ d1 =>
    exists l, d_reads d1 = d_reads d ++ l /\ NoDup l /\
      (forall y, y ∈ l <-> 0 <= y < N /\ y mod s < b)) d.
Proof.
  intros Hcov Hths Hfuel Hj Ho. apply launch_spec; [done| |done..|].
  - rewrite Forall_forall. intros th Hth. rewrite Hths in Hth. by apply elem_of_grid.
  - intros d1 Hr _. exists (ths ≫= thread_reads b s gridDim blockDim N). split; [done|].
    assert (E : ths ≫= thread_reads b s gridDim blockDim N ≡ₚ counted_elements b s N)
      by (rewrite Hths; by apply reads_cover).
    split.
    + rewrite E. apply NoDup_filter, NoDup_seqZ.
    + intros y. rewrite E. unfold counted_elements. rewrite list_elem_of_filter, elem_of_seqZ. lia.
Qed.

(** C26: the bandwidth that [BandwidthCopy] computes counts what was read: the
    bytes of its formula are four times the number of elements that the timed
    launches read, when that formula divides evenly. *)
Theorem bandwidth_counts_reads fuel order junk rand now b s N cBlocks cThreads h :
  (forall k g t, order k g t ≡ₚ grid g t) -> (forall k, length (junk k) = 16%nat) ->
  covering b s cBlocks cThreads N ->
  N / (16 * stride_of b s cBlocks cThreads) < Z.of_nat fuel ->
  (16 <= length (d_out (h_device h)))%nat ->
  wp (BandwidthCopy fuel order junk rand now b s N cBlocks cThreads) (fun r h1 =>
    exists l0 timed, d_reads (h_device h1) = d_reads (h_device h) ++ l0 ++ timed /\
      Z.of_nat (length timed) = 4 * Z.of_nat (length l0) /\
      sp_bytes r = sp_share r * (4 * Z.of_nat (length timed))) h.
Proof.
  intros Horder Hjunk Hcov Hfuel Ho.
  apply (BandwidthCopy_did fuel order junk rand now Horder Hjunk b s N cBlocks cThreads Hcov Hfuel);
    [done|].
  intros r h1 l0 timed [_ Hr _] Hl0 Ht -> ->. exists l0, timed. split; [done|].
  assert (E : Z.of_nat (length (counted_elements b s N)) = b * N / s).
  { rewrite <- (length_reads b s cBlocks cThreads N Hcov).
    by rewrite (reads_cover b s cBlocks cThreads N Hcov). }
  destruct (share_divides b s cBlocks cThreads N Hcov) as [k Hk].
  rewrite Hk, Z.div_mul in E by (destruct (cov_b _ _ _ _ _ Hcov); lia).
  rewrite Ht, Hl0. cbn [replicate mjoin list_join]. rewrite !length_app. cbn [length]. lia.
Qed.

(** C24: the program itself, for every order of the threads and whatever the
    clock shows, returns after its four rows: each allocates, launches once to
    check and four times to measure, and frees everything; every launch reads
    its share of the array once. *)
Theorem gpu_main_runs fuel order junk rand now faster h :
  (forall k g t, order k g t ≡ₚ grid g t) -> (forall k, length (junk k) = 16%nat) ->
  (2048 < fuel)%nat -> (16 <= length (d_out (h_device h)))%nat ->
  wp (gpu_main fuel order junk rand now faster) (fun _ h1 =>
    h_log h1 = h_log h ++ ([16; 32; 64; 128] ≫= (fun b => row_events b 256 (2 ^ 29) 64 128)) /\
    exists l, d_reads (h_device h1) = d_reads (h_device h) ++ l /\
      l ≡ₚ [16; 32; 64; 128] ≫= (fun b => mjoin (replicate 5 (counted_elements b 256 (2 ^ 29))))) h.
Proof.
  intros Horder Hjunk Hf Ho. unfold gpu_main.
  rewrite int_result_ok, pbind_ret by (unfold INT_MAX; lia).
  change (64 * 1024 * 1024 * 8) with (2 ^ 29).
  assert (Hrow : forall b h, b ∈ [16; 32; 64; 128] -> (16 <= length (d_out (h_device h)))%nat ->
    forall Q : option speed -> host -> Prop,
    (forall r h1 l, did h h1 (row_events b 256 (2 ^ 29) 64 128) l ->
       l ≡ₚ mjoin (replicate 5 (counted_elements b 256 (2 ^ 29))) -> Q r h1) ->
    wp (ReportRow fuel order junk rand now faster 2 b 256 (2 ^ 29) 128 128 BLOCK_BASE) Q h).
  { intros b h' Hb Ho' Q HQ. apply ReportRow_did; [done|done|by apply main_covering| |lia|done|done].
    pose proof (main_rounds b Hb). unfold BLOCK_BASE. lia. }
  apply wp_bind; apply (Hrow 16); [left|exact Ho|]. intros r1 h1 l1 D1 H1.
  apply wp_bind; apply (Hrow 32); [right; left|destruct D1; lia|]. intros r2 h2 l2 D2 H2.
  pose proof (did_trans _ _ _ _ _ _ _ D1 D2) as D12.
  apply wp_bind; apply (Hrow 64); [right; right; left|destruct D12; lia|]. intros r3 h3 l3 D3 H3.
  pose proof (did_trans _ _ _ _ _ _ _ D12 D3) as D13.
  apply wp_bind; apply (Hrow 128); [right; right; right; left|destruct D13; lia|]. intros r4 h4 l4 D4 H4.
  destruct (did_trans _ _ _ _ _ _ _ D13 D4) as [DL DR _]. apply wp_ret. split.
  - rewrite DL. cbn [mbind list_bind]. by rewrite app_nil_r, <- !app_assoc.
  - exists (((l1 ++ l2) ++ l3) ++ l4). split; [done|].
    exact (bind_four (fun b => mjoin (replicate 5 (counted_elements b 256 (2 ^ 29)))) _ _ _ _ _ _ _ _
      H1 H2 H3 H4).
Qed.

(** ** Examples: two of every four elements, eight threads *)

Definition small_device : device := Device [] (replicate 16 0).
Definition small_host : host := Host small_device (fun _ => 0) (fun _ => 0) [] 0 0 0.

Lemma small_covering : covering 2 4 2 4 256.
Proof. by split; vm_compute. Qed.

Lemma launch_reads_each_once_witness :
  take 3 (d_reads (snd (GlobalCopy 2 4 2 4 256 (fun k => k) (replicate 16 0) 2 (1, 1) small_device)))
    = [9; 25; 41] /\
  wp (launch 2 4 2 4 256 (fun k => k) (replicate 16 0) 2 (rev (grid 2 4))) (fun _ d1 =>
    exists l, d_reads d1 = d_reads small_device ++ l /\ NoDup l /\
      (forall y, y ∈ l <-> 0 <= y < 256 /\ y mod 4 < 2)) small_device.
Proof.
  split; [by vm_compute|].
  assert (Hp : rev (grid 2 4) ≡ₚ grid 2 4) by (symmetry; apply Permutation_rev).
  assert (Hf : 256 / (16 * stride_of 2 4 2 4) < Z.of_nat 2) by by vm_compute.
  assert (Ho : (16 <= length (d_out small_device))%nat) by (cbn; lia).
  exact (launch_reads_each_once 2 4 2 4 256 (fun k => k) (replicate 16 0) 2 _ small_device
    small_covering Hp Hf eq_refl Ho).
Defined.

Lemma bandwidth_counts_reads_witness :
  wp (BandwidthCopy 2 (fun _ => grid) (fun _ => replicate 16 0) Z.of_nat (fun _ => (0, 0)) 2 4 256 2 4)
    (fun r h1 => exists l0 timed,
      d_reads (h_device h1) = d_reads (h_device small_host) ++ l0 ++ timed /\
      Z.of_nat (length timed) = 4 * Z.of_nat (length l0) /\
      sp_bytes r = sp_share r * (4 * Z.of_nat (length timed))) small_host.
Proof.
  assert (Hf : 256 / (16 * stride_of 2 4 2 4) < Z.of_nat 2) by by vm_compute.
  assert (Ho : (16 <= length (d_out (h_device small_host)))%nat) by (cbn; lia).
  exact (bandwidth_counts_reads 2 (fun _ => grid) (fun _ => replicate 16 0) Z.of_nat (fun _ => (0, 0))
    2 4 256 2 4 small_host (fun _ _ _ => Permutation_refl _) (fun _ => eq_refl) small_covering Hf Ho).
Defined.

Lemma gpu_main_runs_witness :
  wp (gpu_main 2049 (fun _ => grid) (fun _ => replicate 16 0) Z.of_nat (fun _ => (0, 0)) (fun _ _ => true))
    (fun _ h1 =>
    h_log h1 = h_log small_host ++ ([16; 32; 64; 128] ≫= (fun b => row_events b 256 (2 ^ 29) 64 128)) /\
    exists l, d_reads (h_device h1) = d_reads (h_device small_host) ++ l /\
      l ≡ₚ [16; 32; 64; 128] ≫= (fun b => mjoin (replicate 5 (counted_elements b 256 (2 ^ 29))))) small_host.
Proof.
  assert (Hf : (2048 < 2049)%nat) by lia.
  assert (Ho : (16 <= length (d_out (h_device small_host)))%nat) by (cbn; lia).
  exact (gpu_main_runs 2049 (fun _ => grid) (fun _ => replicate 16 0) Z.of_nat (fun _ => (0, 0))
    (fun _ _ => true) small_host (fun _ _ _ => Permutation_refl _) (fun _ => eq_refl) Hf Ho).
Defined.
