(* ===== verification/GpuLatency.v ===== *)
(** * The GPU latency benchmark

    [gpu_benchmark/global_latency.cu]: the table that [parametric_measure_global]
    writes, the kernel [global_latency] with its arrays, and the host around it.
    [clock()] and what the uninitialised [temp] holds are parameters; the results
    of the CUDA calls are only printed and are left out. *)

From stdpp Require Import base gmap list numbers option.
From S2P Require Import Prelude CInt.
Open Scope Z_scope.

(** ** The kernel *)

(** The arrays on the device and in the shared memory of the one thread. *)
Record latency : Type := Latency {
  my_array : list Z;
  duration : list Z;
  index : list Z;
  s_tvalue : list Z;
  s_index : list Z;
  clocks : nat;
}.

Definition lprog (A : Type) : Type := prog latency A.

Definition set_my_array (l : list Z) (d : latency) : latency :=
  Latency l (duration d) (index d) (s_tvalue d) (s_index d) (clocks d).
Definition set_duration (l : list Z) (d : latency) : latency :=
  Latency (my_array d) l (index d) (s_tvalue d) (s_index d) (clocks d).
Definition set_index (l : list Z) (d : latency) : latency :=
  Latency (my_array d) (duration d) l (s_tvalue d) (s_index d) (clocks d).
Definition set_s_tvalue (l : list Z) (d : latency) : latency :=
  Latency (my_array d) (duration d) (index d) l (s_index d) (clocks d).
Definition set_s_index (l : list Z) (d : latency) : latency :=
  Latency (my_array d) (duration d) (index d) (s_tvalue d) l (clocks d).

Section Kernel.
Context (clock : nat -> Z) (junk : Z).

Definition read_clock : lprog Z :=
  fun d => (Done (u32 (clock (clocks d))),
            Latency (my_array d) (duration d) (index d) (s_tvalue d) (s_index d) (S (clocks d))).

(** [a[k] = v] for an array of the kernel. *)
Definition put (get : latency -> list Z) (set : list Z -> latency -> latency) (k v : Z) : lprog unit :=
  let* d := get_state in
  let* l := nth_set (get d) k v in
  modify_state (set l).
Definition fetch (get : latency -> list Z) (k : Z) : lprog Z :=
  let* d := get_state in nth_get (get d) k.

(** The shared arrays are cleared. *)
Definition clear_shared (n : Z) : lprog unit :=
  for_loop (R := Empty_set) (Z.to_nat n) 0 tt (fun k _ =>
    put s_index set_s_index k 0;;
    put s_tvalue set_s_tvalue k 0;;
    pret (inl tt));;
  pret tt.

(** The first round: the sum of the array. *)
Definition sum_array (array_length : Z) : lprog Z :=
  let* r := for_loop (R := Empty_set) (Z.to_nat array_length) 0 junk (fun k temp =>
    let* v := fetch my_array k in
    pret (inl (s32 (temp + v)))) in
  match r with inl temp => pret temp | inr e => match e with end end.

(** The second round: the pointer chase. *)
Definition chase (n : Z) : lprog Z :=
  let* r := for_loop (R := Empty_set) (Z.to_nat n) 0 0 (fun k j =>
    let* start_time := read_clock in
    let* j := fetch my_array j in
    put s_index set_s_index k j;;
    let* end_time := read_clock in
    put s_tvalue set_s_tvalue k (u32 (end_time - start_time));;
    pret (inl j)) in
  match r with inl j => pret j | inr e => match e with end end.

Definition copy_back (n : Z) : lprog unit :=
  for_loop (R := Empty_set) (Z.to_nat n) 0 tt (fun k _ =>
    let* v := fetch s_index k in
    put index set_index k v;;
    let* v := fetch s_tvalue k in
    put duration set_duration k v;;
    pret (inl tt));;
  pret tt.

Definition global_latency (array_length iterations : Z) : lprog unit :=
  let* n := int_result (iterations * 160) in
  clear_shared n;;
  let* temp := sum_array array_length in
  put index set_index (2 * 160) (u32 temp);;
  let* j := chase n in
  put my_array set_my_array array_length j;;
  let* v := fetch my_array j in
  put my_array set_my_array (array_length + 1) v;;
  copy_back n.
End Kernel.

(** ** The host *)

(** [h_a[i] = (i+1024*16)%N], from zeros. *)
Definition fill_table (N : Z) : prog (list Z) unit :=
  for_loop (R := Empty_set) (Z.to_nat N) 0 tt (fun i _ =>
    let* l := get_state in
    let* l := nth_set l i 0 in
    modify_state (fun _ => l);;
    pret (inl tt));;
  for_loop (R := Empty_set) (Z.to_nat N) 0 tt (fun i _ =>
    let* x := int_result (i + 1024 * 16) in
    let* l := get_state in
    let* l := nth_set l i (u32 (Z.rem x N)) in
    modify_state (fun _ => l);;
    pret (inl tt));;
  let* l := get_state in
  let* l := nth_set l N 0 in
  let* l := nth_set l (N + 1) 0 in
  modify_state (fun _ => l).

(** From the host's table to the results the host prints.  [malloc] and
    [cudaMalloc] leave what they find in the arrays; the two last elements of
    the table are not copied to the device. *)
Definition parametric_measure_global (clock : nat -> Z) (junk : Z)
    (h_a d_a found_duration found_index found_t found_i : list Z) (N iterations : Z) :
    outcome (list (Z * Z)) * list Z :=
  match fill_table N h_a with
  | (Done _, h_a) =>
      let d_a := take (Z.to_nat N) h_a ++ drop (Z.to_nat N) d_a in
      let d := Latency d_a found_duration found_index found_t found_i 0 in
      match global_latency clock junk N iterations d with
      | (Done _, d) => (Done (take (Z.to_nat (iterations * 160)) (zip (index d) (duration d))), my_array d)
      | (Halt r, d) => (Halt r, my_array d)
      end
  | (Halt r, h_a) => (Halt r, h_a)
  end.

(** [measure_global]: the one size of the program. *)
Definition measure_global (clock : nat -> Z) (junk : Z)
    (h_a d_a found_duration found_index found_t found_i : list Z) : outcome (list (Z * Z)) * list Z :=
  parametric_measure_global clock junk h_a d_a found_duration found_index found_t found_i
    (20 * 256 * 1024) 1.

(** The program allocates [sizeof(unsigned int)*160*2] bytes for [d_index]. *)
Definition results_length : Z := 160 * 2.

(** ** Specifications *)

Definition hop (N k : Z) : Z := 1024 * 16 * k mod N.
Definition table (N : Z) : list Z := (fun i => (i + 1024 * 16) mod N) <$> seqZ 0 N.

Lemma gpu_table_lookup N i : 0 <= i < N -> table N !! Z.to_nat i = Some ((i + 1024 * 16) mod N).
Proof.
  intros Hi. unfold table. rewrite list_lookup_fmap, lookup_seqZ_lt by lia. cbn.
  by rewrite Z2Nat.id, Z.add_0_l by lia.
Qed.

Lemma length_gpu_table N : 0 <= N -> length (table N) = Z.to_nat N.
Proof. intros HN. unfold table. by rewrite length_fmap, length_seqZ. Qed.

(** An array whose first [k] elements were written, one by one. *)
Definition written (f : Z -> Z) (k : nat) (l : list Z) : list Z :=
  (f <$> seqZ 0 (Z.of_nat k)) ++ drop k l.

Lemma length_written f k l : (k <= length l)%nat -> length (written f k l) = length l.
Proof. intros Hk. unfold written. rewrite length_app, length_fmap, length_seqZ, length_drop. lia. Qed.

Lemma written_S f k l :
  (k < length l)%nat -> <[k := f (Z.of_nat k)]> (written f k l) = written f (S k) l.
Proof.
  intros Hk. unfold written. rewrite insert_app_r_alt by (rewrite length_fmap, length_seqZ; lia).
  rewrite length_fmap, length_seqZ, Nat2Z.id, Nat.sub_diag, seqZ_S, fmap_app, Z.add_0_l.
  destruct (lookup_lt_is_Some_2 l k Hk) as [x Hx]. rewrite (drop_S _ _ _ Hx).
  by rewrite <- app_assoc.
Qed.

Lemma wp_put get set k v (Q : unit -> latency -> Prop) d :
  0 <= k < Z.of_nat (length (get d)) -> Q tt (set (<[Z.to_nat k := v]> (get d)) d) ->
  wp (put get set k v) Q d.
Proof.
  intros Hk HQ. unfold put. apply wp_bind, wp_get. rewrite nth_set_ok, pbind_ret by done.
  by apply wp_modify.
Qed.

Lemma wp_fetch get k v (Q : Z -> latency -> Prop) d :
  0 <= k -> get d !! Z.to_nat k = Some v -> Q v d -> wp (fetch get k) Q d.
Proof.
  intros Hk Hv HQ. unfold fetch. apply wp_bind, wp_get. rewrite (nth_get_ok _ _ v) by done.
  by apply wp_ret.
Qed.

Section KernelSpecs.
Context (clock : nat -> Z) (junk N : Z) (HN : 0 < N).

(** The arrays of a kernel as the host allocates them, [index] with [n] places. *)
Record allocated (n : nat) (d : latency) : Prop := {
  al_array : length (my_array d) = Z.to_nat (N + 2);
  al_duration : length (duration d) = 320%nat;
  al_index : length (index d) = n;
  al_tvalue : length (s_tvalue d) = 320%nat;
  al_sindex : length (s_index d) = 320%nat;
}.

Lemma clear_shared_spec n n1 d (Q : unit -> latency -> Prop) :
  0 <= n <= 320 -> allocated n1 d ->
  (forall d1, allocated n1 d1 -> my_array d1 = my_array d -> index d1 = index d -> Q tt d1) ->
  wp (clear_shared n) Q d.
Proof.
  intros Hn Hal HQ. unfold clear_shared. apply wp_bind.
  apply (wp_for_loop (fun j (_ : unit) d1 => 0 <= j /\ allocated n1 d1 /\
    my_array d1 = my_array d /\ index d1 = index d)).
  - done.
  - intros j [] d1 Hj (H0 & Ha & Hm & Hi). pose proof Ha as [].
    apply wp_bind, wp_put; [lia|]. apply wp_bind, wp_put; [cbn; lia|]. apply wp_ret.
    split; [lia|]. split; [|done]. by split; cbn; rewrite ?length_insert.
  - intros [] d1 (_ & Ha & Hm & Hi). by apply wp_ret, HQ.
Qed.

Lemma sum_array_spec n1 d (Q : Z -> latency -> Prop) :
  allocated n1 d -> (forall temp, Q temp d) -> wp (sum_array junk N) Q d.
Proof.
  intros [Hal _ _ _ _] HQ. unfold sum_array. apply wp_bind.
  apply (wp_for_loop (fun j (_ : Z) d1 => 0 <= j /\ d1 = d)).
  - done.
  - intros j temp d1 Hj (H0 & ->). apply wp_bind.
    destruct (lookup_lt_is_Some_2 (my_array d) (Z.to_nat j)) as [v Hv]; [lia|].
    apply (wp_fetch _ _ v); [done|done|]. apply wp_ret. split; [lia|done].
  - intros temp d1 (_ & ->). apply wp_ret, HQ.
Qed.

(** The chase through the table. *)
Lemma gpu_hop_range k : 0 <= hop N k < N.
Proof. by apply Z.mod_pos_bound. Qed.

Lemma hop_next k : (hop N k + 1024 * 16) mod N = hop N (k + 1).
Proof. unfold hop. rewrite Z.add_mod_idemp_l by lia. f_equal. lia. Qed.

Definition chased (n1 : nat) (d : latency) (k : nat) (d1 : latency) : Prop :=
  allocated n1 d1 /\ my_array d1 = my_array d /\ index d1 = index d /\
  take k (s_index d1) = (fun k => hop N (k + 1)) <$> seqZ 0 (Z.of_nat k).

Lemma chase_spec n n1 d (Q : Z -> latency -> Prop) :
  0 <= n <= 320 -> allocated n1 d ->
  (forall i, 0 <= i < N -> my_array d !! Z.to_nat i = Some ((i + 1024 * 16) mod N)) ->
  (forall d1, chased n1 d (Z.to_nat n) d1 -> Q (hop N n) d1) ->
  wp (chase clock n) Q d.
Proof.
  intros Hn Hal Htab HQ. unfold chase. apply wp_bind.
  apply (wp_for_loop (fun i j d1 => exists k : nat, i = Z.of_nat k /\ j = hop N i /\ chased n1 d k d1)).
  - exists 0%nat. split; [done|]. split; [unfold hop; by rewrite Z.mul_0_r, Z.mod_0_l by lia|].
    by split.
  - intros i j d1 Hi (k & -> & -> & Ha & Hm & Hx & Hs). pose proof (gpu_hop_range (Z.of_nat k)) as Hr.
    apply wp_bind. unfold read_clock at 1. unfold wp at 1. set (d2 := Latency _ _ _ _ _ _).
    assert (Ha2 : allocated n1 d2) by (by destruct Ha). pose proof Ha as [].
    apply wp_bind, (wp_fetch _ _ (hop N (Z.of_nat k + 1))); [lia| |].
    { cbn. rewrite Hm, Htab, hop_next by done. done. }
    apply wp_bind, wp_put; [cbn; lia|].
    apply wp_bind. unfold read_clock. unfold wp at 1.
    apply wp_bind, wp_put; [cbn; lia|]. apply wp_ret. exists (S k). split; [lia|].
    split; [f_equal; lia|]. split; [by split; cbn; rewrite ?length_insert|].
    split; [done|]. split; [done|]. cbn. rewrite Nat2Z.id.
    rewrite (take_S_r _ _ (hop N (Z.of_nat k + 1))), take_insert_ge, Hs, seqZ_S, fmap_app, Z.add_0_l;
      [done|lia|by apply list_lookup_insert_eq; lia].
  - intros j d1 (k & Hk & -> & Hc). assert (k = Z.to_nat n) as -> by lia. apply wp_ret.
    replace (0 + Z.of_nat (Z.to_nat n)) with n by lia. by apply HQ.
Qed.

Lemma copy_back_spec n n1 d (Q : unit -> latency -> Prop) :
  0 <= n <= 320 -> (320 <= n1)%nat -> allocated n1 d ->
  (forall d1, my_array d1 = my_array d ->
     take (Z.to_nat n) (index d1) = take (Z.to_nat n) (s_index d) ->
     take (Z.to_nat n) (duration d1) = take (Z.to_nat n) (s_tvalue d) -> Q tt d1) ->
  wp (copy_back n) Q d.
Proof.
  intros Hn Hn1 Hal HQ. unfold copy_back. apply wp_bind.
  apply (wp_for_loop (fun i (_ : unit) d1 => exists k : nat, i = Z.of_nat k /\ allocated n1 d1 /\
    my_array d1 = my_array d /\ s_index d1 = s_index d /\ s_tvalue d1 = s_tvalue d /\
    take k (index d1) = take k (s_index d) /\ take k (duration d1) = take k (s_tvalue d))).
  - by exists 0%nat.
  - intros i [] d1 Hi (k & -> & Ha & Hm & Hs & Ht & Hx & Hd). pose proof Ha as [].
    destruct (lookup_lt_is_Some_2 (s_index d) k) as [x Hxk]; [rewrite <- Hs; lia|].
    destruct (lookup_lt_is_Some_2 (s_tvalue d) k) as [v Hvk]; [rewrite <- Ht; lia|].
    apply wp_bind, (wp_fetch _ _ x); [lia|by rewrite Nat2Z.id, Hs|].
    apply wp_bind, wp_put; [lia|].
    apply wp_bind, (wp_fetch _ _ v); [lia|by rewrite Nat2Z.id; cbn; rewrite Ht|].
    apply wp_bind, wp_put; [cbn; lia|]. apply wp_ret. exists (S k). split; [lia|].
    split; [by split; cbn; rewrite ?length_insert|]. split; [done|]. split; [done|]. split; [done|].
    cbn. rewrite Nat2Z.id, !(take_S_r _ _ x) by (done || apply list_lookup_insert_eq; lia).
    rewrite !(take_S_r _ _ v) by (done || apply list_lookup_insert_eq; lia).
    rewrite !take_insert_ge by lia. by rewrite Hx, Hd.
  - intros [] d1 (k & Hk & _ & Hm & _ & _ & Hx & Hd). assert (k = Z.to_nat n) as -> by lia.
    by apply wp_ret, HQ.
Qed.
End KernelSpecs.

Lemma wp_then_halt {S A B} (m : prog S A) (k : A -> prog S B) s r :
  wp m (fun a s1 => fst (k a s1) = Halt r) s -> fst (pbind m k s) = Halt r.
Proof. unfold wp, pbind. by destruct (m s) as [[a|] s1]. Qed.

(** The host's table. *)
Lemma gpu_fill_table_spec N h_a :
  0 < N -> N - 1 + 1024 * 16 <= INT_MAX -> length h_a = Z.to_nat (N + 2) ->
  wp (fill_table N) (fun _ l => l = table N ++ [0; 0]) h_a.
Proof.
  intros HN Hmax Hl. unfold fill_table. apply wp_bind.
  apply (wp_for_loop (fun j (_ : unit) l => 0 <= j /\ length l = length h_a)).
  - done.
  - intros j [] l Hj (H0 & Hll). apply wp_bind, wp_get. rewrite nth_set_ok, pbind_ret by lia.
    apply wp_bind, wp_modify, wp_ret. rewrite length_insert. split; [lia|done].
  - intros [] l (_ & Hll). apply wp_bind. set (f := fun i => (i + 1024 * 16) mod N).
    apply (wp_for_loop (fun j (_ : unit) l1 => exists k : nat, j = Z.of_nat k /\ l1 = written f k l)).
    + by exists 0%nat.
    + intros j [] l1 Hj (k & -> & ->). unfold INT_MAX in Hmax.
      rewrite int_result_ok, pbind_ret by (unfold INT_MAX; lia). apply wp_bind, wp_get.
      rewrite nth_set_ok, pbind_ret by (rewrite length_written; lia).
      apply wp_bind, wp_modify, wp_ret. exists (S k). split; [lia|].
      rewrite Nat2Z.id, Z.rem_mod_nonneg by lia. fold (f (Z.of_nat k)).
      pose proof (Z.mod_pos_bound (Z.of_nat k + 1024 * 16) N HN).
      rewrite u32_small by (unfold f; lia). apply written_S. lia.
    + intros [] l1 (k & Hk & ->). assert (k = Z.to_nat N) as -> by lia.
      destruct (drop (Z.to_nat N) l) as [|x [|y [|z r]]] eqn:Ed;
        pose proof (f_equal length Ed) as Hd; rewrite length_drop in Hd; cbn in Hd; try lia.
      assert (Ew : written f (Z.to_nat N) l = table N ++ [x; y]).
      { unfold written, table. by rewrite Ed, Z2Nat.id by lia. }
      pose proof (length_gpu_table N ltac:(lia)) as Htl.
      apply wp_bind, wp_get. rewrite Ew, nth_set_ok, pbind_ret by (rewrite length_app; cbn; lia).
      rewrite insert_app_r_alt, Htl by lia. replace (Z.to_nat N - Z.to_nat N)%nat with 0%nat by lia.
      cbn [insert list_insert]. rewrite nth_set_ok, pbind_ret by (rewrite length_app; cbn; lia).
      apply wp_modify. rewrite insert_app_r_alt, Htl by lia.
      by replace (Z.to_nat (N + 1) - Z.to_nat N)%nat with 1%nat by lia.
Qed.

(** ** Properties *)

(** C38: with room for the sum of the first round, the kernel follows the table:
    the [k]-th index it reports is [(k + 1)] * 16384 elements on, modulo the
    size, in as many steps as asked for; every access is inside its array, and
    the two elements behind the table get the last index and its successor. *)
Theorem gpu_latency_chain clock junk N iterations n1 d :
  0 < N -> 0 <= iterations <= 2 -> (321 <= n1)%nat -> allocated N n1 d ->
  (forall i, 0 <= i < N -> my_array d !! Z.to_nat i = Some ((i + 1024 * 16) mod N)) ->
  wp (global_latency clock junk N iterations) (fun _ d1 =>
    take (Z.to_nat (iterations * 160)) (index d1) =
      (fun k => 1024 * 16 * (k + 1) mod N) <$> seqZ 0 (iterations * 160) /\
    my_array d1 !! Z.to_nat N = Some (1024 * 16 * (iterations * 160) mod N) /\
    my_array d1 !! Z.to_nat (N + 1) = Some (1024 * 16 * (iterations * 160 + 1) mod N)) d.
Proof.
  intros HN Hit Hn1 Hal Htab. unfold global_latency.
  rewrite int_result_ok, pbind_ret by (unfold INT_MAX; lia). set (n := iterations * 160).
  assert (Hn : 0 <= n <= 320) by (unfold n; lia).
  apply wp_bind, (clear_shared_spec N HN n n1); [done|done|]. intros d1 Ha1 Hm1 Hi1.
  apply wp_bind, (sum_array_spec junk N HN n1); [done|]. intros temp. pose proof Ha1 as [].
  apply wp_bind, wp_put; [lia|]. set (d2 := set_index _ d1).
  assert (Ha2 : allocated N n1 d2) by (by split; cbn; rewrite ?length_insert).
  apply wp_bind, (chase_spec clock N HN n n1); [done|done|by cbn; rewrite Hm1|].
  intros d3 (Ha3 & Hm3 & _ & Hs3). pose proof Ha3 as [].
  pose proof (gpu_hop_range N HN n) as Hr.
  apply wp_bind, wp_put; [lia|]. set (d4 := set_my_array _ d3).
  apply wp_bind, (wp_fetch _ _ (hop N (n + 1))); [lia| |].
  { cbn. rewrite list_lookup_insert_ne by lia. rewrite Hm3. cbn. rewrite Hm1, Htab by done.
    by rewrite hop_next. }
  apply wp_bind, wp_put; [cbn; rewrite length_insert; lia|]. set (d5 := set_my_array _ d4).
  apply (copy_back_spec N HN n n1); [done|lia|by split; cbn; rewrite ?length_insert|].
  intros d6 Hm6 Hx6 _. rewrite Hx6, Hm6. cbn. split; [|split].
  - by rewrite Hs3, Z2Nat.id by lia.
  - rewrite list_lookup_insert_ne by lia. apply list_lookup_insert_eq. lia.
  - apply list_lookup_insert_eq. rewrite length_insert. lia.
Qed.

(** The program allocates 320 places for the indices and the kernel writes
    the sum of its first round to place 320: it always leaves the array before
    the first latency is measured. *)
Theorem gpu_latency_overruns clock junk h_a d_a found_duration found_index found_t found_i N iterations :
  0 < N -> N - 1 + 1024 * 16 <= INT_MAX -> 0 <= iterations <= 2 ->
  length h_a = Z.to_nat (N + 2) -> length d_a = Z.to_nat (N + 2) ->
  length found_duration = Z.to_nat results_length -> length found_index = Z.to_nat results_length ->
  length found_t = 320%nat -> length found_i = 320%nat ->
  fst (parametric_measure_global clock junk h_a d_a found_duration found_index found_t found_i N iterations)
    = Halt OutOfBounds.
Proof.
  intros HN Hmax Hit Hh Hd Hfd Hfi Hft Hfs. unfold parametric_measure_global.
  pose proof (gpu_fill_table_spec N h_a HN Hmax Hh) as Hf. unfold wp in Hf.
  destruct (fill_table N h_a) as [[[]|] l]; [|done]. subst l. cbv zeta.
  set (d := Latency _ _ _ _ _ 0).
  assert (Ha : allocated N 320 d).
  { split; cbn; try done. rewrite length_app, length_take, length_drop, length_app.
    rewrite length_gpu_table by lia. cbn. lia. }
  assert (E : fst (global_latency clock junk N iterations d) = Halt OutOfBounds);
    [|destruct (global_latency _ _ _ _ _) as [[]]; cbn in *; congruence].
  unfold global_latency. rewrite int_result_ok, pbind_ret by (unfold INT_MAX; lia).
  apply wp_then_halt, (clear_shared_spec N HN (iterations * 160) 320); [lia|done|]. intros d1 Ha1 _ _.
  apply wp_then_halt, (sum_array_spec junk N HN 320); [done|]. intros temp.
  apply pbind_halt. unfold put, pbind, get_state. cbn [fst].
  unfold nth_set. by rewrite (al_index _ _ _ Ha1).
Qed.

(** ** Examples *)

Definition small_latency (n1 : nat) : latency :=
  Latency (table 5 ++ [0; 0]) (replicate 320 0) (replicate n1 0) (replicate 320 0) (replicate 320 0) 0.

Lemma gpu_latency_chain_witness :
  let d1 := snd (global_latency Z.of_nat 7 5 1 (small_latency 321)) in
  take 4 (index d1) = [4; 3; 2; 1] /\
  wp (global_latency Z.of_nat 7 5 1) (fun _ d1 =>
    take 160 (index d1) = (fun k => 1024 * 16 * (k + 1) mod 5) <$> seqZ 0 160 /\
    my_array d1 !! 5%nat = Some (1024 * 16 * 160 mod 5) /\
    my_array d1 !! 6%nat = Some (1024 * 16 * 161 mod 5)) (small_latency 321).
Proof.
  split; [by vm_compute|].
  assert (HN : 0 < 5) by lia. assert (Hit : 0 <= 1 <= 2) by lia. assert (Hn : (321 <= 321)%nat) by lia.
  assert (Ha : allocated 5 321 (small_latency 321)) by (by split).
  assert (Ht : forall i, 0 <= i < 5 ->
    my_array (small_latency 321) !! Z.to_nat i = Some ((i + 1024 * 16) mod 5)).
  { intros i Hi. cbn [my_array small_latency]. rewrite lookup_app_l by (rewrite length_gpu_table; lia). by apply gpu_table_lookup. }
  exact (gpu_latency_chain Z.of_nat 7 5 1 321 (small_latency 321) HN Hit Hn Ha Ht).
Defined.

(** The program's own size: 20 * 256 * 1024 elements. *)
Lemma gpu_latency_overruns_witness :
  let N := 20 * 256 * 1024 in
  fst (measure_global Z.of_nat 0 (replicate (Z.to_nat (N + 2)) 0)
    (replicate (Z.to_nat (N + 2)) 0) (replicate 320 0) (replicate 320 0) (replicate 320 0)
    (replicate 320 0)) = Halt OutOfBounds.
Proof.
  cbv zeta. assert (HN : 0 < 20 * 256 * 1024) by lia.
  assert (Hm : 20 * 256 * 1024 - 1 + 1024 * 16 <= INT_MAX) by (unfold INT_MAX; lia).
  assert (Hit : 0 <= 1 <= 2) by lia.
  exact (gpu_latency_overruns Z.of_nat 0 _ _ (replicate 320 0) (replicate 320 0) (replicate 320 0)
    (replicate 320 0) _ 1 HN Hm Hit (length_replicate _ _) (length_replicate _ _)
    (length_replicate 320 0) (length_replicate 320 0) (length_replicate 320 0) (length_replicate 320 0)).
Defined.
