(* ===== verification/Clock.v ===== *)
(** * Clocked circuits

    A synchronous circuit is a function from its inputs and its registers to
    its registers after the next clock edge: all non-blocking assignments read
    the registers before the edge.  The inputs of all cycles are a function of
    the cycle.  This file has bit vectors, register update, the run of a circuit
    with what can be counted and collected along it, and rules for what
    eventually happens. *)

From stdpp Require Import base list numbers option.
From S2P Require Import Prelude.
Open Scope Z_scope.

(** ** Bit vectors *)

(** A value put into [w] bits, and [w] bits of a vector from bit [lo] on. *)
Definition trunc (w x : Z) : Z := x mod 2 ^ w.
Definition slice (lo w x : Z) : Z := Z.shiftr x lo mod 2 ^ w.

Lemma trunc_range w x : 0 <= w -> 0 <= trunc w x < 2 ^ w.
Proof. intros Hw. apply Z.mod_pos_bound, Z.pow_pos_nonneg; lia. Qed.

Lemma trunc_small w x : 0 <= x < 2 ^ w -> trunc w x = x.
Proof. apply Z.mod_small. Qed.

Lemma trunc_trunc v w x : 0 <= v <= w -> trunc v (trunc w x) = trunc v x.
Proof.
  intros Hv. unfold trunc. apply Z.mod_mod_divide. exists (2 ^ (w - v)).
  rewrite <- Z.pow_add_r by lia. f_equal. lia.
Qed.

Lemma slice_range lo w x : 0 <= w -> 0 <= slice lo w x < 2 ^ w.
Proof. intros Hw. apply Z.mod_pos_bound, Z.pow_pos_nonneg; lia. Qed.

(** A masked value is at most the mask. *)
Lemma land_below x m : 0 <= m -> 0 <= Z.land x m <= m.
Proof.
  intros Hm. assert (0 <= Z.land x m) by (apply Z.land_nonneg; lia). split; [done|].
  assert (E : Z.ldiff m x + Z.land m x = m).
  { assert (D : Z.land (Z.ldiff m x) (Z.land m x) = 0).
    { apply Z.bits_inj'. intros n _. rewrite !Z.land_spec, Z.ldiff_spec, Z.bits_0.
      by destruct (Z.testbit m n), (Z.testbit x n). }
    by rewrite Z.add_nocarry_lxor, Z.lxor_lor, Z.lor_ldiff_and. }
  rewrite (Z.land_comm m x) in E.
  assert (0 <= Z.ldiff m x) by (apply Z.ldiff_nonneg; lia). lia.
Qed.

(** Counting in a register. *)
Lemma trunc_add w x y : 0 <= w -> trunc w (trunc w x + y) = trunc w (x + y).
Proof.
  intros Hw. unfold trunc. apply Z.add_mod_idemp_l. pose proof (Z.pow_pos_nonneg 2 w). lia.
Qed.

(** A counter with a second one for its rounds. *)
Lemma div_mod_succ c b :
  0 < b ->
  (c + 1) mod b = (if c mod b =? b - 1 then 0 else c mod b + 1) /\
  (c + 1) / b = (if c mod b =? b - 1 then c / b + 1 else c / b).
Proof.
  intros Hb. pose proof (Z.div_mod c b ltac:(lia)) as E. pose proof (Z.mod_pos_bound c b Hb).
  destruct (Z.eqb_spec (c mod b) (b - 1)).
  - split; symmetry; [apply (Z.mod_unique_pos _ _ (c / b + 1))|apply (Z.div_unique_pos _ _ _ 0)]; nia.
  - split; symmetry; [apply (Z.mod_unique_pos _ _ (c / b))
                     |apply (Z.div_unique_pos _ _ _ (c mod b + 1))]; nia.
Qed.

(** ** Register update

    [r <| f := v |>] is the record [r] with [v] in field [f].  The update is
    found from the [Registers] instance of the record, which lists its fields. *)

Class Registers (R : Type) : Type := eta_registers : R -> R.
Class Register {R T : Type} (f : R -> T) : Type := update_register : (T -> T) -> R -> R.

Ltac find_update f :=
  match type of f with
  | ?R -> ?T =>
      let i := constr:(ltac:(typeclasses eauto) : Registers R) in
      let i := match i with ?x : _ => x | ?x => x end in
      let fields := eval red in i in
      match eval pattern f in fields with
      | ?g _ =>
          let u := constr:(fun (h : T -> T) (r : R) => g (fun x => h (f x)) r) in
          let u := eval cbv beta in u in exact u
      end
  end.
#[export] Hint Extern 1 (Register ?f) => find_update f : typeclass_instances.

Notation "r '<|' f ':=' v '|>'" := (update_register (f := f) (fun _ => v) r)
  (at level 12, left associativity, f at level 9, v at level 200) : c_scope.

(** All branches of what a clock edge does. *)
Ltac branches :=
  repeat match goal with |- context [if ?b then _ else _] => destruct b eqn:? end;
  repeat split; try done; try congruence.

(** ** Runs *)

Section Run.
Context {R I : Type} (step : I -> R -> R) (env : nat -> I) (r0 : R).

(** The registers in cycle [t]. *)
Fixpoint at_cycle (t : nat) : R :=
  match t with
  | O => r0
  | S t' => step (env t') (at_cycle t')
  end.
End Run.

(** A run goes on as one from its present registers. *)
Lemma at_cycle_shift {R I} (step : I -> R -> R) env r0 k t :
  at_cycle step (fun u => env (k + u)%nat) (at_cycle step env r0 k) t =
    at_cycle step env r0 (k + t).
Proof.
  induction t as [|t IH]; [by rewrite Nat.add_0_r|]. rewrite Nat.add_succ_r. cbn. by rewrite IH.
Qed.

(** In how many of the first [t] cycles something happens, and the values seen
    when it does. *)
Fixpoint count (p : nat -> bool) (t : nat) : Z :=
  match t with
  | O => 0
  | S t' => count p t' + Z.b2z (p t')
  end.

Fixpoint observed {A} (p : nat -> bool) (f : nat -> A) (t : nat) : list A :=
  match t with
  | O => []
  | S t' => observed p f t' ++ (if p t' then [f t'] else [])
  end.

Lemma count_S p t : count p (S t) = count p t + Z.b2z (p t).
Proof. done. Qed.

Lemma observed_S {A} p (f : nat -> A) t :
  observed p f (S t) = observed p f t ++ (if p t then [f t] else []).
Proof. done. Qed.

Lemma count_mono p t t' : (t <= t')%nat -> count p t <= count p t'.
Proof. intros Ht. induction Ht; cbn; [lia|]. destruct (p m); cbn; lia. Qed.

Lemma count_nonneg p t : 0 <= count p t.
Proof. apply (count_mono p 0). lia. Qed.

Lemma count_le p t : count p t <= Z.of_nat t.
Proof. induction t as [|t IH]; cbn [count]; [done|]. destruct (p t); cbn [Z.b2z]; lia. Qed.

Lemma length_observed {A} p (f : nat -> A) t : Z.of_nat (length (observed p f t)) = count p t.
Proof.
  induction t; cbn; [done|]. rewrite length_app. destruct (p t); cbn; lia.
Qed.

(** A run in two parts. *)
Lemma observed_add {A} p (f : nat -> A) m n :
  observed p f (m + n) = observed p f m ++ observed (fun u => p (m + u)%nat) (fun u => f (m + u)%nat) n.
Proof.
  induction n as [|n IH]; [by rewrite Nat.add_0_r, app_nil_r|].
  by rewrite Nat.add_succ_r, !observed_S, IH, app_assoc.
Qed.

Lemma count_add p m n : count p (m + n) = count p m + count (fun u => p (m + u)%nat) n.
Proof.
  rewrite <- (length_observed p id), <- (length_observed p id), <- (length_observed _ (fun u => id (m + u)%nat)).
  rewrite observed_add, length_app. lia.
Qed.

Lemma observed_none {A} p (f : nat -> A) n : (forall u, (u < n)%nat -> p u = false) -> observed p f n = [].
Proof.
  intros Hp. induction n as [|n IH]; [done|]. rewrite observed_S, IH, Hp by auto with lia. done.
Qed.

Lemma observed_ext {A} p p' (f f' : nat -> A) n :
  (forall u, (u < n)%nat -> p u = p' u /\ (p u = true -> f u = f' u)) ->
  observed p f n = observed p' f' n.
Proof.
  intros H. induction n as [|n IH]; [done|]. rewrite !observed_S, IH by auto with lia.
  destruct (H n ltac:(lia)) as [<- Hf]. destruct (p n); [by rewrite Hf|done].
Qed.

(** Where a value that was seen comes from. *)
Lemma observed_lookup {A} p (f : nat -> A) n k v :
  observed p f n !! k = Some v ->
  exists u, (u < n)%nat /\ p u = true /\ count p u = Z.of_nat k /\ f u = v.
Proof.
  induction n as [|n IH]; [done|]. rewrite observed_S. intros H. apply lookup_app_Some in H as [H|[Hl H]].
  - destruct (IH H) as (u & Hu & H1). exists u. split; [lia|done].
  - destruct (p n) eqn:Hp; [|done]. apply list_lookup_singleton_Some in H as [Hk <-].
    exists n. split; [lia|]. split; [done|]. split; [|done]. rewrite <- (length_observed p f). lia.
Qed.

(** A count that grows has a reason. *)
Lemma count_lt p t t' :
  count p t < count p t' -> exists u, (t <= u < t')%nat /\ p u = true.
Proof.
  induction t' as [|t' IH]; intros Hlt.
  - pose proof (count_nonneg p t). cbn in Hlt. lia.
  - rewrite count_S in Hlt. destruct (p t') eqn:Ep.
    + exists t'. split; [|done]. destruct (decide (t <= t')%nat); [lia|].
      pose proof (count_mono p (S t') t). rewrite count_S in *. cbn in *. rewrite Ep in *. cbn in *. lia.
    + destruct IH as (u & Hu & Hp); [cbn in Hlt; lia|]. exists u. split; [lia|done].
Qed.

(** ** What happens eventually *)

Section Eventually.
Implicit Types P Q U : nat -> Prop.

(** From every cycle with [P] on there is one with [Q]. *)
Definition leads_to P Q : Prop := forall t, P t -> exists t', (t <= t')%nat /\ Q t'.

Lemma leads_to_next P Q : (forall t, P t -> Q (S t)) -> leads_to P Q.
Proof. intros H t Ht. exists (S t). auto. Qed.

Lemma leads_to_trans P Q U : leads_to P Q -> leads_to Q U -> leads_to P U.
Proof.
  intros HPQ HQU t Ht. destruct (HPQ t Ht) as (t1 & Ht1 & HQ).
  destruct (HQU t1 HQ) as (t2 & Ht2 & HU). exists t2. split; [lia|done].
Qed.

Lemma leads_to_weaken P Q Q' : leads_to P Q -> (forall t, Q t -> Q' t) -> leads_to P Q'.
Proof. intros H HQ t Ht. destruct (H t Ht) as (t1 & ? & ?). eauto. Qed.

(** Waiting: [P] stays until [go], which comes. *)
Lemma leads_to_wait P Q (go : nat -> bool) :
  (forall t, P t -> if go t then Q (S t) else P (S t)) ->
  (forall t, P t -> exists t', (t <= t')%nat /\ go t' = true) ->
  leads_to P Q.
Proof.
  intros Hstep Hgo t Ht. destruct (Hgo t Ht) as (t' & Hle & Hg).
  remember (t' - t)%nat as d eqn:Hd. revert t Ht Hle Hd.
  induction d as [|d IH]; intros t Ht Hle Hd.
  - assert (t' = t) as -> by lia. specialize (Hstep t Ht). rewrite Hg in Hstep.
    exists (S t). auto.
  - specialize (Hstep t Ht). destruct (go t); [exists (S t); auto|].
    destruct (IH (S t)) as (t2 & ? & ?); [done|lia|lia|]. exists t2. split; [lia|done].
Qed.

(** Counting down. *)
Lemma leads_to_down (F : nat -> nat -> Prop) Q n :
  (forall m, leads_to (F (S m)) (fun t => F m t \/ Q t)) -> leads_to (F n) (fun t => F 0%nat t \/ Q t).
Proof.
  intros H. induction n as [|n IH].
  - intros t Ht. exists t. auto.
  - intros t Ht. destruct (H n t Ht) as (t1 & Hle & [HF|HQ]); [|exists t1; auto].
    destruct (IH t1 HF) as (t2 & ? & ?). exists t2. split; [lia|done].
Qed.
End Eventually.
