(* ===== verification/ClockDomains.v ===== *)
(** * Circuits with several clocks

    A clock is the increasing sequence of the times of its edges.  A register of
    the clock changes at those times only; what it takes from a register of
    another clock is the value that this has at the time of the edge.  Times are
    natural numbers in a unit that is fine enough for all edges.  At an edge that
    two clocks have in common, both sides see the values from before it. *)

From stdpp Require Import base list numbers option.
From S2P Require Import Prelude Clock.
Open Scope Z_scope.

Record clock : Type := MkClock {
  edge_at : nat -> nat;
  edge_mono : forall k, (edge_at k < edge_at (S k))%nat;
}.

Section Edges.
Context (c : clock).

(** The number of edges before time [x]. *)
Fixpoint edges (x : nat) : nat :=
  match x with
  | O => O
  | S x' => if (edge_at c (edges x') =? x')%nat then S (edges x') else edges x'
  end.
(** There is an edge at [x]. *)
Definition ticks (x : nat) : bool := (edge_at c (edges x) =? x)%nat.

Lemma edges_S x : edges (S x) = if ticks x then S (edges x) else edges x.
Proof. done. Qed.

Lemma edge_at_mono k l : (k <= l)%nat -> (edge_at c k <= edge_at c l)%nat.
Proof. induction 1 as [|l _ IH]; [done|]. pose proof (edge_mono c l). lia. Qed.

Lemma edge_at_strict k l : (k < l)%nat -> (edge_at c k < edge_at c l)%nat.
Proof. intros Hkl. pose proof (edge_mono c k). pose proof (edge_at_mono (S k) l Hkl). lia. Qed.

Lemma edges_spec x :
  (x <= edge_at c (edges x))%nat /\ forall k, (k < edges x)%nat -> (edge_at c k < x)%nat.
Proof.
  induction x as [|x [IH1 IH2]]; [split; [lia|intros k Hk; cbn in Hk; lia]|].
  rewrite edges_S. unfold ticks. destruct (Nat.eqb_spec (edge_at c (edges x)) x) as [E|Hne].
  - split; [pose proof (edge_mono c (edges x)); lia|].
    intros k Hk. assert (k < edges x \/ k = edges x)%nat as [Hlt| ->] by lia; [|lia].
    specialize (IH2 k Hlt). lia.
  - split; [lia|]. intros k Hk. specialize (IH2 k Hk). lia.
Qed.

Lemma edges_at k : edges (edge_at c k) = k.
Proof.
  destruct (edges_spec (edge_at c k)) as [H1 H2].
  destruct (Nat.lt_trichotomy (edges (edge_at c k)) k) as [Hlt|[E|Hgt]]; [|done|].
  - apply edge_at_strict in Hlt. lia.
  - specialize (H2 k Hgt). lia.
Qed.

Lemma ticks_at k : ticks (edge_at c k) = true.
Proof. unfold ticks. rewrite edges_at. apply Nat.eqb_refl. Qed.

Lemma ticks_edge x : ticks x = true -> edge_at c (edges x) = x.
Proof. apply Nat.eqb_eq. Qed.

Lemma edges_mono x y : (x <= y)%nat -> (edges x <= edges y)%nat.
Proof. induction 1 as [|y _ IH]; [done|]. rewrite edges_S. destruct (ticks y); lia. Qed.

Lemma edge_at_ge k : (k <= edge_at c k)%nat.
Proof. induction k as [|k IH]; [lia|]. pose proof (edge_mono c k). lia. Qed.

(** Registers that change at the edges only make a run of their own. *)
Lemma own_run {R I} (step : I -> R -> R) (input : nat -> I) (s : nat -> R) :
  (forall x, s (S x) = if ticks x then step (input x) (s x) else s x) ->
  forall x, s x = at_cycle step (fun k => input (edge_at c k)) (s 0%nat) (edges x).
Proof.
  intros Hs. induction x as [|x IH]; [done|]. rewrite Hs, edges_S.
  destruct (ticks x) eqn:Et; [|done]. cbn [at_cycle]. by rewrite IH, ticks_edge.
Qed.

(** From one edge to the next. *)
Lemma own_next {R I} (step : I -> R -> R) (input : nat -> I) (s : nat -> R) :
  (forall x, s (S x) = if ticks x then step (input x) (s x) else s x) ->
  s (edge_at c 0) = s 0%nat /\
  forall k, s (edge_at c (S k)) = step (input (edge_at c k)) (s (edge_at c k)).
Proof.
  intros Hs. pose proof (own_run step input s Hs) as H.
  split; [by rewrite H, edges_at|]. intros k. rewrite H, (H (edge_at c k)), !edges_at. done.
Qed.
End Edges.

(** Between two edges of the clock [fast], and before its first one, there is at
    most one of [slow]. *)
Definition keeps_up (slow fast : clock) : Prop :=
  (edges slow (edge_at fast 0) <= 1)%nat /\
  forall k, (edges slow (edge_at fast (S k)) <= S (edges slow (edge_at fast k)))%nat.

Lemma edges_seen_mono slow fast k l :
  (k <= l)%nat -> (edges slow (edge_at fast k) <= edges slow (edge_at fast l))%nat.
Proof. intros Hkl. by apply edges_mono, edge_at_mono. Qed.

(** Every edge of one clock is followed by one of another. *)
Lemma edges_catch_up slow fast j : exists k, (j <= edges slow (edge_at fast k))%nat.
Proof.
  exists (edge_at slow j). rewrite <- (edges_at slow j) at 1. apply edges_mono, edge_at_ge.
Qed.

(** The first edge of [fast] after the edge [j] of [slow]. *)
Definition first_after (slow fast : clock) (j : nat) : nat := edges fast (S (edge_at slow j)).

Lemma first_after_spec slow fast j k :
  (first_after slow fast j <= k)%nat <-> (j < edges slow (edge_at fast k))%nat.
Proof.
  unfold first_after. destruct (edges_spec fast (S (edge_at slow j))) as [H1 H2]. split.
  - intros Hk. pose proof (edge_at_mono fast _ _ Hk). rewrite <- (edges_at slow j) at 1.
    pose proof (edges_mono slow (S (edge_at slow j)) (edge_at fast k) ltac:(lia)) as Hm.
    rewrite edges_S, ticks_at in Hm. lia.
  - intros Hj. destruct (decide (edges fast (S (edge_at slow j)) <= k)%nat); [done|].
    specialize (H2 k ltac:(lia)). pose proof (edges_mono slow (edge_at fast k) (edge_at slow j) ltac:(lia)) as Hm.
    rewrite edges_at in Hm. lia.
Qed.

(** The next edge of the slow clock has not come yet then. *)
Lemma first_after_edges slow fast j :
  keeps_up slow fast -> (1 <= j)%nat ->
  (1 <= first_after slow fast j)%nat /\
  edges slow (edge_at fast (first_after slow fast j)) = S j /\
  edges slow (edge_at fast (first_after slow fast j - 1)) = j.
Proof.
  intros [Hf0 Hf] Hj. set (k := first_after slow fast j).
  pose proof (proj1 (first_after_spec slow fast j k) (le_n _)) as H1.
  assert (Hk : (1 <= k)%nat) by (destruct k; [lia|lia]).
  assert (H2 : ~ (j < edges slow (edge_at fast (k - 1)))%nat).
  { intros H. apply first_after_spec in H. fold k in H. lia. }
  specialize (Hf (k - 1)%nat). replace (S (k - 1)) with k in Hf by lia. lia.
Qed.

(** In three periods of either clock there are two edges of the other. *)
Definition similar (c1 c2 : clock) : Prop :=
  forall k, (edges c2 (edge_at c1 k) + 2 <= edges c2 (edge_at c1 (3 + k)))%nat.

(** A clock with a constant period. *)
Definition periodic (first period : nat) (H : (0 < period)%nat) : clock.
Proof. refine (MkClock (fun k => first + period * k)%nat _). intros k. nia. Defined.

(** ** A clock from some time on *)

Definition later (c : clock) (X : nat) : clock.
Proof.
  refine (MkClock (fun k => edge_at c (edges c X + k) - X)%nat _). intros k.
  pose proof (proj1 (edges_spec c X)). pose proof (edge_at_mono c (edges c X) (edges c X + k) ltac:(lia)).
  pose proof (edge_mono c (edges c X + k)). rewrite Nat.add_succ_r. lia.
Defined.

Lemma later_edge c X k : edge_at (later c X) k = (edge_at c (edges c X + k) - X)%nat.
Proof. done. Qed.

Lemma later_edge_ge c X k : (X <= edge_at c (edges c X + k))%nat.
Proof.
  pose proof (proj1 (edges_spec c X)). pose proof (edge_at_mono c (edges c X) (edges c X + k) ltac:(lia)). lia.
Qed.

Lemma later_edges c X x : (edges c X + edges (later c X) x)%nat = edges c (X + x).
Proof.
  induction x as [|x IH]; [by rewrite !Nat.add_0_r|]. rewrite Nat.add_succ_r, !edges_S. unfold ticks.
  rewrite later_edge, IH. pose proof (later_edge_ge c X (edges (later c X) x)) as H. rewrite IH in H.
  destruct (Nat.eqb_spec (edge_at c (edges c (X + x)) - X) x), (Nat.eqb_spec (edge_at c (edges c (X + x))) (X + x)); lia.
Qed.

Lemma later_ticks c X x : ticks (later c X) x = ticks c (X + x).
Proof.
  unfold ticks. rewrite later_edge, later_edges. pose proof (later_edge_ge c X (edges (later c X) x)) as H.
  rewrite later_edges in H.
  destruct (Nat.eqb_spec (edge_at c (edges c (X + x)) - X) x), (Nat.eqb_spec (edge_at c (edges c (X + x))) (X + x)); lia || done.
Qed.

(** A clock that keeps up goes on doing so. *)
Lemma later_keeps_up slow fast X :
  keeps_up slow fast -> keeps_up (later slow X) (later fast X).
Proof.
  intros [H0 H].
  assert (E : forall k, edges (later slow X) (edge_at (later fast X) k) =
    (edges slow (edge_at fast (edges fast X + k)) - edges slow X)%nat).
  { intros k. pose proof (later_edges slow X (edge_at (later fast X) k)) as E.
    rewrite later_edge in *. pose proof (later_edge_ge fast X k).
    replace (X + (edge_at fast (edges fast X + k) - X))%nat with (edge_at fast (edges fast X + k)) in E by lia.
    lia. }
  split; [rewrite E, Nat.add_0_r|intros k; rewrite !E, Nat.add_succ_r; specialize (H (edges fast X + k)%nat);
    pose proof (edges_mono slow X _ (later_edge_ge fast X k)); lia].
  destruct (edges fast X) as [|m] eqn:Em; [lia|]. specialize (H m).
  destruct (edges_spec fast X) as [_ Hlt]. specialize (Hlt m ltac:(lia)).
  pose proof (edges_mono slow (edge_at fast m) X ltac:(lia)). lia.
Qed.

Lemma later_similar c1 c2 X : similar c1 c2 -> similar (later c1 X) (later c2 X).
Proof.
  intros H k. specialize (H (edges c1 X + k)%nat).
  assert (E : forall k, (edges c2 X + edges (later c2 X) (edge_at (later c1 X) k))%nat =
    edges c2 (edge_at c1 (edges c1 X + k))).
  { intros l. rewrite later_edges, later_edge. pose proof (later_edge_ge c1 X l). f_equal. lia. }
  pose proof (E k) as E1. pose proof (E (3 + k)%nat) as E2.
  replace (edges c1 X + (3 + k))%nat with (3 + (edges c1 X + k))%nat in E2 by lia. lia.
Qed.
