(* ===== verification/AxiLite.v ===== *)
(** * The control registers on their bus

    [xdma_control.sv] of [hw/rtl/u280_hbm] and [hw/rtl/u280_ddr], cycle by cycle:
    the AXI-lite state machines for writes and reads, the register bank, and the
    buffer of latency samples with its two address counters.  The
    first-in-first-out queues of the samples, which cross from the clocks of the
    memories (one for the HBM, one per channel for the DDR), and the memory
    behind the buffer are cores of the vendor: what they show is an input.

    [wr_addr], [wr_data] and [rd_addr] are assigned in combinational blocks and
    keep their value otherwise; they are only looked at in states in which they
    keep it.  The clocked outputs are slices of the bank one cycle earlier, which
    is the register [shown] here. *)

From stdpp Require Import base list numbers option.
From S2P Require Import Prelude Clock.
From S2P Require Import BenchControl.
Open Scope Z_scope.

(** ** Inputs and registers *)

Record ctl_in : Type := CtlIn {
  s_aresetn : bool;
  s_axil_awaddr : Z;
  s_axil_awvalid : bool;
  s_axil_wdata : Z;
  s_axil_wvalid : bool;
  s_axil_bready : bool;
  s_axil_araddr : Z;
  s_axil_arvalid : bool;
  s_axil_rready : bool;
  in_status : Z -> Z;       (* what the registers 12 to 15 take over *)
  fifo_empty : Z -> bool;
  fifo_data_out : Z -> Z;
  doutb : Z;
}.

Record ctl_reg : Type := CtlReg {
  control_reg : Z -> Z;     (* dma_control_reg *)
  shown : Z -> Z;
  w_cstate : Z;             (* 3 bits *)
  r_cstate : Z;
  wr_addr : Z;
  wr_data : Z;
  rd_addr : Z;
  counter : Z;              (* 4 bits *)
  addra_ori : Z;            (* 12 bits *)
  addrb_ori : Z;
  fifo_rd_en_r : Z -> bool;
  ram_wr_en : bool;
  ram_data_in : Z;          (* 8 bits *)
  lat_timer_out : Z;
}.

Definition WIDLE : Z := 1.
Definition WDATA : Z := 2.
Definition WBRSP : Z := 4.
Definition RIDLE : Z := 1.
Definition RDATA : Z := 2.
Definition RWAIT : Z := 4.

(** ** Outputs *)

Definition s_axil_awready (r : ctl_reg) : bool := Z.testbit (w_cstate r) 0.
Definition s_axil_wready (r : ctl_reg) : bool := Z.testbit (w_cstate r) 1.
Definition s_axil_bvalid (r : ctl_reg) : bool := Z.testbit (w_cstate r) 2.
Definition s_axil_arready (r : ctl_reg) : bool := Z.testbit (r_cstate r) 0.
Definition s_axil_rvalid (r : ctl_reg) : bool := Z.testbit (r_cstate r) 1.
Definition s_axil_rdata (r : ctl_reg) : Z := control_reg r (rd_addr r).
Definition fifo_rd_en (i : ctl_in) (q : Z) : bool := negb (fifo_empty i q).
Definition hbm_reset (r : ctl_reg) : bool := Z.odd (shown r 0).
Definition start (r : ctl_reg) : bool := out_start (shown r).
(** The queue whose samples are kept: the only one, or that of the channel. *)
Definition queue (B : design) (r : ctl_reg) : Z :=
  match B with u280_hbm => 0 | u280_ddr => out_hbm_channel (shown r) end.

(** ** One clock edge *)

(** Next state, [wr_addr] and [wr_data]. *)
Definition w_next (i : ctl_in) (r : ctl_reg) : Z * Z * Z :=
  if w_cstate r =? WIDLE then
    if s_axil_awvalid i && s_axil_awready r
    then (WDATA, slice 2 6 (s_axil_awaddr i), wr_data r) else (WIDLE, wr_addr r, wr_data r)
  else if w_cstate r =? WDATA then
    if s_axil_wvalid i && s_axil_wready r
    then (WBRSP, wr_addr r, s_axil_wdata i) else (WDATA, wr_addr r, wr_data r)
  else if w_cstate r =? WBRSP then
    (if s_axil_bvalid r && s_axil_bready i then WIDLE else WBRSP, wr_addr r, wr_data r)
  else (WIDLE, wr_addr r, wr_data r).

Definition r_next (i : ctl_in) (r : ctl_reg) : Z * Z :=
  if r_cstate r =? RIDLE then
    if s_axil_arvalid i && s_axil_arready r
    then (RDATA, slice 2 6 (s_axil_araddr i)) else (RIDLE, rd_addr r)
  else if r_cstate r =? RDATA then
    (if s_axil_rvalid r && s_axil_rready i then RWAIT else RDATA, rd_addr r)
  else if r_cstate r =? RWAIT then
    (if counter r =? 15 then RIDLE else RWAIT, rd_addr r)
  else (RIDLE, rd_addr r).

(** What reset puts into the registers 0 to 11, and 17 for the DDR; the others
    stay. *)
Definition reset_bank (B : design) (r : Z -> Z) (k : Z) : Z :=
  if k =? 1 then 0x10000000 else if k =? 2 then 0x40 else if k =? 3 then 0x1000
  else if (0 <=? k) && (k <=? 11) then 0
  else if match B with u280_hbm => false | u280_ddr => k =? 17 end then 0 else r k.

Definition status_regs (i : ctl_in) (r : ctl_reg) (k : Z) : Z :=
  if (12 <=? k) && (k <=? 15) then in_status i k
  else if k =? 16 then lat_timer_out r else control_reg r k.

Definition bank_next (B : design) (i : ctl_in) (r : ctl_reg) : Z -> Z :=
  if negb (s_aresetn i) then reset_bank B (control_reg r)
  else if w_cstate r =? WBRSP then write_reg (control_reg r) (wr_addr r) (wr_data r)
  else status_regs i r.

(** The counters of the buffer are held at 0 by reset and by [start]. *)
Definition clears (i : ctl_in) (r : ctl_reg) : bool :=
  negb (s_aresetn i) || hbm_reset r || start r.
Definition addra_next (B : design) (i : ctl_in) (r : ctl_reg) : Z :=
  if clears i r then 0 else if fifo_rd_en_r r (queue B r) then trunc 12 (addra_ori r + 1) else addra_ori r.
Definition addrb_next (i : ctl_in) (r : ctl_reg) : Z :=
  if clears i r then 0
  else if (rd_addr r =? 16) && (s_axil_rvalid r && s_axil_rready i)
  then trunc 12 (addrb_ori r + 1) else addrb_ori r.

Definition ctl_step (B : design) (i : ctl_in) (r : ctl_reg) : ctl_reg :=
  let w := w_next i r in
  let rd := r_next i r in
  CtlReg (bank_next B i r) (control_reg r)
    (if negb (s_aresetn i) then WIDLE else w.1.1) (if negb (s_aresetn i) then RIDLE else rd.1)
    w.1.2 w.2 rd.2
    (if negb (s_aresetn i) then 0 else if r_cstate r =? RWAIT then trunc 4 (counter r + 1) else 0)
    (addra_next B i r) (addrb_next i r)
    (fifo_rd_en i) (s_aresetn i && fifo_rd_en i (queue B r))
    (slice 0 8 (fifo_data_out i (queue B r)))
    (if negb (s_aresetn i) then 0 else doutb i).

(** ** A run *)

Section Run.
Context (B : design) (env : nat -> ctl_in) (r0 : ctl_reg).
Context (Hrst : forall t, s_aresetn (env t) = true).

Definition ctl (t : nat) : ctl_reg := at_cycle (ctl_step B) env r0 t.

(** The handshakes of the five channels. *)
Definition aw_taken (t : nat) : bool := s_axil_awvalid (env t) && s_axil_awready (ctl t).
Definition w_taken (t : nat) : bool := s_axil_wvalid (env t) && s_axil_wready (ctl t).
Definition b_taken (t : nat) : bool := s_axil_bvalid (ctl t) && s_axil_bready (env t).
Definition ar_taken (t : nat) : bool := s_axil_arvalid (env t) && s_axil_arready (ctl t).
Definition r_taken (t : nat) : bool := s_axil_rvalid (ctl t) && s_axil_rready (env t).

(** The addresses and the words that were taken in the first [t] cycles. *)
Definition addresses (t : nat) : list Z := observed aw_taken (fun t => s_axil_awaddr (env t)) t.
Definition words (t : nat) : list Z := observed w_taken (fun t => s_axil_wdata (env t)) t.

Lemma ctl_S t : ctl (S t) = ctl_step B (env t) (ctl t).
Proof. done. Qed.

(** The registers that the host alone writes. *)
Definition host_reg (k : Z) : Prop := 0 <= k < 12 \/ 17 <= k < 64.

Definition after (ws : list (Z * Z)) (r : Z -> Z) : Z -> Z :=
  fold_left (fun r w => write_reg r (slice 2 6 w.1) w.2) ws r.

Lemma after_snoc ws w r : after (ws ++ [w]) r = write_reg (after ws r) (slice 2 6 w.1) w.2.
Proof. unfold after. by rewrite fold_left_app. Qed.

(** The bank between two writes, while one is under way, and in its last phase. *)
Definition write_state (t : nat) : Prop :=
  let bank ws := forall k, host_reg k -> control_reg (ctl t) k = after ws (control_reg r0) k in
  (w_cstate (ctl t) = WIDLE /\ length (addresses t) = length (words t) /\
   bank (zip (addresses t) (words t))) \/
  (exists as_ a, w_cstate (ctl t) = WDATA /\ addresses t = as_ ++ [a] /\
   length as_ = length (words t) /\ wr_addr (ctl t) = slice 2 6 a /\ bank (zip as_ (words t))) \/
  (exists as_ a ds d, w_cstate (ctl t) = WBRSP /\ addresses t = as_ ++ [a] /\ words t = ds ++ [d] /\
   length as_ = length ds /\ wr_addr (ctl t) = slice 2 6 a /\ wr_data (ctl t) = d /\
   (bank (zip as_ ds) \/ bank (zip (as_ ++ [a]) (ds ++ [d])))).

Lemma status_host i r k : host_reg k -> status_regs i r k = control_reg r k.
Proof.
  intros Hk. unfold status_regs, host_reg in *.
  destruct (Z.leb_spec 12 k), (Z.leb_spec k 15), (Z.eqb_spec k 16); cbn; try done; lia.
Qed.

Lemma zip_snoc {A C} (l : list A) (k : list C) x y :
  length l = length k -> zip (l ++ [x]) (k ++ [y]) = zip l k ++ [(x, y)].
Proof. intros Hl. by rewrite zip_with_app. Qed.

Lemma zip_extra {A C} (l : list A) (k : list C) x :
  (length k <= length l)%nat -> zip (l ++ [x]) k = zip l k.
Proof.
  revert k. induction l as [|y l IH]; intros [|z k] Hl; cbn in *; try done; [lia|].
  rewrite IH by lia. done.
Qed.

(** In the last phase of a write its word is written again and again. *)
Lemma rewrite_word (r : ctl_reg) as_ a ds d k :
  length as_ = length ds -> wr_addr r = slice 2 6 a -> wr_data r = d ->
  (forall k, host_reg k -> control_reg r k = after (zip as_ ds) (control_reg r0) k) \/
  (forall k, host_reg k -> control_reg r k = after (zip (as_ ++ [a]) (ds ++ [d])) (control_reg r0) k) ->
  host_reg k ->
  write_reg (control_reg r) (wr_addr r) (wr_data r) k =
    after (zip (as_ ++ [a]) (ds ++ [d])) (control_reg r0) k.
Proof.
  intros Hl Hwa Hwd Hb Hk. rewrite zip_snoc, after_snoc, Hwa, Hwd by done. cbn [fst snd].
  destruct Hb as [Hb|Hb]; specialize (Hb k Hk); unfold write_reg.
  - by rewrite Hb.
  - rewrite zip_snoc, after_snoc in Hb by done. cbn [fst snd] in Hb. unfold write_reg in Hb.
    rewrite Hb. by destruct (k =? slice 2 6 a).
Qed.

Context (Hidle : w_cstate r0 = WIDLE).

Lemma write_state_always t : write_state t.
Proof.
  induction t as [|t IH]; [left; by repeat split|].
  unfold write_state in *. rewrite ctl_S. unfold addresses, words. rewrite !observed_S.
  fold (addresses t) (words t). unfold aw_taken, w_taken, s_axil_awready, s_axil_wready.
  cbn [ctl_step w_cstate control_reg wr_addr wr_data]. unfold bank_next, w_next.
  rewrite (Hrst t). cbn [negb].
  destruct IH as [(E & Hl & Hb)|[(as_ & a & E & Ha & Hl & Hw & Hb)|
                 (as_ & a & ds & d & E & Ha & Hd & Hl & Hwa & Hwd & Hb)]]; rewrite E; cbn [Z.eqb Pos.eqb].
  - rewrite andb_false_r, app_nil_r. unfold s_axil_awready. rewrite E.
    change (Z.testbit WIDLE 0) with true. rewrite andb_true_r.
    destruct (s_axil_awvalid (env t)); cbn.
    + right; left. exists (addresses t), (s_axil_awaddr (env t)). repeat (split; [done|]).
      intros k Hk. rewrite status_host by done. by apply Hb.
    + left. rewrite app_nil_r. repeat (split; [done|]).
      intros k Hk. rewrite status_host by done. by apply Hb.
  - rewrite andb_false_r, app_nil_r. unfold s_axil_wready. rewrite E.
    change (Z.testbit WDATA 1) with true. rewrite andb_true_r.
    destruct (s_axil_wvalid (env t)); cbn.
    + right; right. exists as_, a, (words t), (s_axil_wdata (env t)). repeat (split; [done|]).
      left. intros k Hk. rewrite status_host by done. by apply Hb.
    + right; left. rewrite app_nil_r. exists as_, a. repeat (split; [done|]).
      intros k Hk. rewrite status_host by done. by apply Hb.
  - rewrite !andb_false_r, !app_nil_r. unfold s_axil_bvalid. rewrite E.
    change (Z.testbit WBRSP 2) with true. cbn [andb].
    assert (Hb' : forall k, host_reg k ->
      write_reg (control_reg (ctl t)) (wr_addr (ctl t)) (wr_data (ctl t)) k =
      after (zip (as_ ++ [a]) (ds ++ [d])) (control_reg r0) k).
    { intros k Hk. by apply rewrite_word. }
    destruct (s_axil_bready (env t)); cbn.
    + left. split; [done|]. rewrite Ha, Hd, !length_app, Hl. split; [done|]. exact Hb'.
    + right; right. exists as_, a, ds, d. repeat (split; [done|]). by right.
Qed.
(** ** The bus is never stuck *)

(** The master sends the word of a write whose address was taken, and takes the
    response. *)
Record master : Prop := {
  mst_word : forall t, w_cstate (ctl t) = WDATA ->
             exists t', (t <= t')%nat /\ s_axil_wvalid (env t') = true;
  mst_response : forall t, w_cstate (ctl t) = WBRSP ->
                 exists t', (t <= t')%nat /\ s_axil_bready (env t') = true;
}.

Lemma next_state t :
  w_cstate (ctl (S t)) =
    if w_cstate (ctl t) =? WIDLE then if s_axil_awvalid (env t) then WDATA else WIDLE
    else if w_cstate (ctl t) =? WDATA then if s_axil_wvalid (env t) then WBRSP else WDATA
    else if w_cstate (ctl t) =? WBRSP then if s_axil_bready (env t) then WIDLE else WBRSP
    else WIDLE.
Proof.
  rewrite ctl_S. cbn [ctl_step w_cstate]. rewrite (Hrst t). unfold w_next. cbn [negb].
  unfold s_axil_awready, s_axil_wready, s_axil_bvalid.
  destruct (Z.eqb_spec (w_cstate (ctl t)) WIDLE) as [->|].
  { change (Z.testbit WIDLE 0) with true. rewrite andb_true_r. by destruct (s_axil_awvalid _). }
  destruct (Z.eqb_spec (w_cstate (ctl t)) WDATA) as [->|].
  { change (Z.testbit WDATA 1) with true. rewrite andb_true_r. by destruct (s_axil_wvalid _). }
  destruct (Z.eqb_spec (w_cstate (ctl t)) WBRSP) as [->|]; [|done].
  change (Z.testbit WBRSP 2) with true. cbn [andb]. done.
Qed.

Lemma next_addresses t :
  w_cstate (ctl t) = WDATA \/ w_cstate (ctl t) = WBRSP -> addresses (S t) = addresses t.
Proof.
  intros Hs. unfold addresses. rewrite observed_S. unfold aw_taken, s_axil_awready.
  destruct Hs as [-> | ->]; by rewrite andb_false_r, app_nil_r.
Qed.

Lemma write_ends t :
  master -> aw_taken t = true ->
  exists t', (t < t')%nat /\ w_cstate (ctl t') = WIDLE /\
    addresses t' = addresses t ++ [s_axil_awaddr (env t)].
Proof.
  intros [Hw Hb] Ht. set (l := addresses t ++ [s_axil_awaddr (env t)]).
  assert (Hl : addresses (S t) = l) by (unfold addresses; by rewrite observed_S, Ht).
  assert (H1 : w_cstate (ctl (S t)) = WDATA).
  { rewrite next_state. unfold aw_taken, s_axil_awready in Ht.
    apply andb_true_iff in Ht as [-> Hs]. pose proof (write_state_always t) as Hst.
    destruct Hst as [(E & _)|[(as_ & a & E & _)|(as_ & a & ds & d & E & _)]]; rewrite E in *; done. }
  assert (Hgo : leads_to (fun t => w_cstate (ctl t) = WDATA /\ addresses t = l)
                         (fun t => w_cstate (ctl t) = WIDLE /\ addresses t = l)).
  { apply (leads_to_trans _ (fun t => w_cstate (ctl t) = WBRSP /\ addresses t = l)).
    - apply (leads_to_wait _ _ (fun t => s_axil_wvalid (env t))); [|intros u Hu; apply Hw, Hu].
      intros u [Hu Ha]. rewrite next_state, next_addresses, Hu by by left. cbn.
      by destruct (s_axil_wvalid (env u)).
    - apply (leads_to_wait _ _ (fun t => s_axil_bready (env t))); [|intros u Hu; apply Hb, Hu].
      intros u [Hu Ha]. rewrite next_state, next_addresses, Hu by by right. cbn.
      by destruct (s_axil_bready (env u)). }
  destruct (Hgo (S t) (conj H1 Hl)) as (t' & Hle & Hi & Ha). exists t'. split; [lia|]. done.
Qed.

(** *** The bank and its copy, in every cycle *)

(** The writes whose word was taken. *)
Definition requests (t : nat) : list (Z * Z) := zip (addresses t) (words t).

Lemma requests_idle t : w_taken t = false -> requests (S t) = requests t.
Proof.
  intros Hw. unfold requests, words. rewrite observed_S, Hw, app_nil_r. fold (words t).
  pose proof (write_state_always t) as Hs. unfold addresses. rewrite observed_S. fold (addresses t).
  unfold aw_taken, s_axil_awready.
  destruct Hs as [(E & Hl & _)|[(as_ & a & E & _)|(as_ & a & ds & d & E & _)]]; rewrite E;
    change (Z.testbit WDATA 0) with false; change (Z.testbit WBRSP 0) with false;
    rewrite ?andb_false_r, ?app_nil_r; try done.
  destruct (s_axil_awvalid (env t) && _); [|by rewrite app_nil_r].
  apply zip_extra. lia.
Qed.

Lemma requests_taken t :
  w_taken t = true ->
  exists a, requests (S t) = requests t ++ [(a, s_axil_wdata (env t))].
Proof.
  intros Hw. pose proof Hw as Hw'. unfold w_taken, s_axil_wready in Hw'.
  unfold requests, words. rewrite observed_S, Hw. fold (words t).
  unfold addresses. rewrite observed_S. fold (addresses t). unfold aw_taken, s_axil_awready.
  destruct (write_state_always t) as [(E & _)|[(as_ & a & E & Ha & Hl & _)|(as_ & a & ds & d & E & _)]];
    rewrite E in *; [by rewrite andb_false_r in Hw'| |by rewrite andb_false_r in Hw'].
  change (Z.testbit WDATA 0) with false. rewrite andb_false_r, app_nil_r, Ha. exists a.
  rewrite zip_snoc by done. f_equal. symmetry. apply zip_extra. lia.
Qed.

(** After a word the next one is at least three cycles away. *)
Lemma words_apart t :
  w_taken t = true -> w_taken (S t) = false /\ w_taken (S (S t)) = false.
Proof.
  intros Hw. unfold w_taken, s_axil_wready in *. apply andb_true_iff in Hw as [Hv Hs].
  assert (E : w_cstate (ctl t) = WDATA).
  { destruct (write_state_always t) as [(E & _)|[(as_ & a & E & _)|(as_ & a & ds & d & E & _)]];
      rewrite E in *; done. }
  assert (E1 : w_cstate (ctl (S t)) = WBRSP) by (by rewrite next_state, E, Hv).
  split; [by rewrite E1, andb_false_r|]. rewrite next_state, E1. cbn [Z.eqb Pos.eqb WBRSP WIDLE WDATA].
  destruct (s_axil_bready (env (S t))); by rewrite andb_false_r.
Qed.

Lemma bank_follows t k : host_reg k -> control_reg (ctl (S t)) k = after (requests t) (control_reg r0) k.
Proof.
  intros Hk. rewrite ctl_S. cbn [ctl_step control_reg]. unfold bank_next. rewrite Hrst. cbn [negb].
  destruct (write_state_always t) as [(E & Hl & Hb)|[(as_ & a & E & Ha & Hl & Hw & Hb)|
                 (as_ & a & ds & d & E & Ha & Hd & Hl & Hwa & Hwd & Hb)]]; rewrite E; cbn [Z.eqb Pos.eqb WBRSP WIDLE WDATA].
  - rewrite status_host by done. by apply Hb.
  - rewrite status_host by done. rewrite (Hb k Hk). unfold requests. rewrite Ha.
    by rewrite zip_extra by lia.
  - unfold requests. rewrite Ha, Hd. by apply rewrite_word.
Qed.

(** The outputs show the bank one cycle later. *)
Lemma shown_follows t k :
  host_reg k -> (forall k, host_reg k -> shown r0 k = control_reg r0 k) ->
  shown (ctl t) k = after (requests (t - 2)) (control_reg r0) k.
Proof.
  intros Hk H0. destruct t as [|[|t]]; [by apply H0|done|].
  change (shown (ctl (S (S t))) k) with (control_reg (ctl (S t)) k).
  rewrite bank_follows by done. by replace (S (S t) - 2)%nat with t by lia.
Qed.

(** ** Reads *)

Definition read_addresses (t : nat) : list Z := observed ar_taken (fun t => s_axil_araddr (env t)) t.

Context (Hridle : r_cstate r0 = RIDLE) (Hcounter : 0 <= counter r0 < 16).

Definition read_state (t : nat) : Prop :=
  ((r_cstate (ctl t) = RIDLE \/ r_cstate (ctl t) = RWAIT) /\
   Z.of_nat (length (read_addresses t)) = count r_taken t) \/
  (exists as_ a, r_cstate (ctl t) = RDATA /\ read_addresses t = as_ ++ [a] /\
   Z.of_nat (length as_) = count r_taken t /\ rd_addr (ctl t) = slice 2 6 a).

Lemma read_state_always t : read_state t.
Proof.
  induction t as [|t IH]; [left; by split; [left|]|].
  unfold read_state in *. unfold read_addresses. rewrite observed_S, count_S.
  fold (read_addresses t).
  assert (Ea : ar_taken t = s_axil_arvalid (env t) && Z.testbit (r_cstate (ctl t)) 0) by done.
  assert (Er : r_taken t = Z.testbit (r_cstate (ctl t)) 1 && s_axil_rready (env t)) by done.
  rewrite Ea, Er, ctl_S. cbn [ctl_step r_cstate rd_addr]. rewrite (Hrst t). unfold r_next.
  cbn [negb]. unfold s_axil_arready, s_axil_rvalid.
  destruct IH as [[[E|E] Hl]|(as_ & a & E & Ha & Hl & Hr)]; rewrite E; cbn [Z.eqb Pos.eqb].
  - change (Z.testbit RIDLE 0) with true. change (Z.testbit RIDLE 1) with false.
    rewrite andb_true_r. cbn [andb Z.b2z]. rewrite Z.add_0_r.
    destruct (s_axil_arvalid (env t)); cbn [fst snd].
    + right. exists (read_addresses t), (s_axil_araddr (env t)). by repeat (split; [done|]).
    + left. rewrite app_nil_r. split; [by left|done].
  - rewrite andb_false_r, app_nil_r. change (Z.testbit RWAIT 1) with false. cbn [andb Z.b2z].
    left. split; [|lia]. cbn [fst]. destruct (counter (ctl t) =? 15); [by left|by right].
  - rewrite andb_false_r, app_nil_r. change (Z.testbit RDATA 1) with true. cbn [andb].
    destruct (s_axil_rready (env t)); cbn [fst snd Z.b2z].
    + left. split; [by right|]. rewrite Ha, length_app. cbn [length]. lia.
    + right. exists as_, a. rewrite Z.add_0_r. by repeat (split; [done|]).
Qed.

(** ** The buffer of samples *)

(** The word that the memory is given in a cycle with [ram_wr_en]. *)
Definition sample_taken (t : nat) : bool := fifo_rd_en (env t) (queue B (ctl t)).

Lemma buffer_written t :
  fifo_rd_en_r (ctl (S t)) = fifo_rd_en (env t) /\ ram_wr_en (ctl (S t)) = sample_taken t /\
  ram_data_in (ctl (S t)) = slice 0 8 (fifo_data_out (env t) (queue B (ctl t))).
Proof. rewrite ctl_S. cbn. by rewrite (Hrst t). Qed.

(** Without [start] the place of the next sample is the number of those taken. *)
Lemma buffer_place q c t :
  (forall u, queue B (ctl u) = q) -> (forall u, (c <= u)%nat -> clears (env u) (ctl u) = false) -> (0 < c)%nat -> addra_ori (ctl c) = 0 ->
  (c <= t)%nat ->
  addra_ori (ctl t) = trunc 12 (count (fun u => ram_wr_en (ctl u)) t -
                                count (fun u => ram_wr_en (ctl u)) c).
Proof.
  intros Hq Hc Hpos H0 Ht. induction Ht as [|t Ht IH]; [by rewrite H0, Z.sub_diag|].
  rewrite ctl_S, count_S. cbn [ctl_step addra_ori]. unfold addra_next. rewrite (Hc t Ht), IH.
  assert (E : fifo_rd_en_r (ctl t) (queue B (ctl t)) = ram_wr_en (ctl t)).
  { destruct t as [|t]; [lia|]. destruct (buffer_written t) as (-> & -> & _).
    unfold sample_taken. by rewrite !Hq. }
  rewrite E. destruct (ram_wr_en (ctl t)); cbn [Z.b2z].
  - rewrite trunc_add by done. f_equal. lia.
  - f_equal. lia.
Qed.
End Run.

(** The same requests, one at a time, at the bank of [BenchControl]. *)
Definition hw_requests (B : design) (ws : list (Z * Z)) (b : bench) : bench :=
  fold_left (fun b w => hw_write B w.1 w.2 b) ws b.

Lemma hw_requests_after B ws b :
  dma_control_reg (hw_requests B ws b) = after ws (dma_control_reg b).
Proof.
  unfold hw_requests, after. revert b. induction ws as [|w ws IH]; intros b; [done|]. cbn. by rewrite IH.
Qed.

(** ** Properties *)

(** C15: between two writes the bank holds what the writes so far, taken one at a
    time, leave in it: the n-th word goes to the register of the n-th address,
    whatever the master does with its signals; and no write gets stuck: when the
    master, after its address was taken, sends a word and takes the response, the
    slave comes back to the state between two writes before it takes another
    address. *)
Theorem axil_writes_refine B env r0 b :
  (forall t, s_aresetn (env t) = true) -> w_cstate r0 = WIDLE -> control_reg r0 = dma_control_reg b ->
  (forall t, w_cstate (ctl B env r0 t) = WIDLE ->
    length (addresses B env r0 t) = length (words B env r0 t) /\
    forall k, host_reg k ->
      control_reg (ctl B env r0 t) k =
        dma_control_reg (hw_requests B (zip (addresses B env r0 t) (words B env r0 t)) b) k) /\
  (master B env r0 -> forall t, aw_taken B env r0 t = true ->
    exists t', (t < t')%nat /\ w_cstate (ctl B env r0 t') = WIDLE /\
      addresses B env r0 t' = addresses B env r0 t ++ [s_axil_awaddr (env t)]).
Proof.
  intros Hrst Hidle Hb. split.
  - intros t Ht. destruct (write_state_always B env r0 Hrst Hidle t) as
      [(_ & Hl & Hbank)|[(as_ & a & E & _)|(as_ & a & ds & d & E & _)]];
      [|by rewrite E in Ht..].
    split; [done|]. intros k Hk. rewrite hw_requests_after, <- Hb. by apply Hbank.
  - intros Hm t. by apply write_ends.
Qed.

(** The n-th read of the host gives the value of the register of its n-th
    address: of the ones it writes itself, outside of a write, what its writes
    have left; of the status registers, what the engines showed one cycle before. *)
Theorem axil_reads_value B env r0 b t :
  (forall t, s_aresetn (env t) = true) -> w_cstate r0 = WIDLE -> r_cstate r0 = RIDLE ->
  control_reg r0 = dma_control_reg b -> r_taken B env r0 t = true ->
  exists before a, read_addresses B env r0 t = before ++ [a] /\
    Z.of_nat (length before) = count (r_taken B env r0) t /\
    let k := slice 2 6 a in
    (host_reg k -> w_cstate (ctl B env r0 t) = WIDLE ->
       s_axil_rdata (ctl B env r0 t) =
         dma_control_reg (hw_requests B (zip (addresses B env r0 t) (words B env r0 t)) b) k) /\
    (12 <= k <= 15 -> forall u, t = S u -> w_cstate (ctl B env r0 u) <> WBRSP ->
       s_axil_rdata (ctl B env r0 t) = in_status (env u) k).
Proof.
  intros Hrst Hw Hr Hb Ht.
  destruct (read_state_always B env r0 Hrst Hr t) as [[[E|E] _]|(before & a & E & Ha & Hl & Hk)];
    [by unfold r_taken, s_axil_rvalid in Ht; rewrite E in Ht..|].
  exists before, a. split; [done|]. split; [done|]. cbv zeta. unfold s_axil_rdata. rewrite Hk. split.
  - intros Hh Hi. destruct (write_state_always B env r0 Hrst Hw t) as
      [(_ & _ & Hbank)|[(as_ & a' & E' & _)|(as_ & a' & ds & d & E' & _)]]; [|by rewrite E' in Hi..].
    rewrite hw_requests_after, <- Hb. by apply Hbank.
  - intros Hk12 u -> Hu. rewrite ctl_S. cbn [ctl_step control_reg]. unfold bank_next.
    rewrite Hrst, (proj2 (Z.eqb_neq _ _) Hu). cbn [negb]. unfold status_regs.
    by rewrite (proj2 (Z.leb_le 12 _)), (proj2 (Z.leb_le _ 15)) by lia.
Qed.

(** C19: a latency sample that the queue of the selected channel shows is given to the memory behind the
    buffer one cycle later, its low 8 bits only; while [start] is high it goes to
    place 0, over the one before, and from then on the samples go to one place
    after the other, modulo 4096. *)
Theorem latency_samples_buffered B q env r0 c :
  (forall t, s_aresetn (env t) = true) -> (forall t, queue B (ctl B env r0 t) = q) ->
  (forall u, (u <= c)%nat -> clears (env u) (ctl B env r0 u) = true) ->
  (forall u, (c < u)%nat -> clears (env u) (ctl B env r0 u) = false) ->
  forall t,
    ram_wr_en (ctl B env r0 (S t)) = negb (fifo_empty (env t) q) /\
    ram_data_in (ctl B env r0 (S t)) = fifo_data_out (env t) q mod 2 ^ 8 /\
    addra_ori (ctl B env r0 (S t)) =
      if (t <=? c)%nat then 0
      else (count (fun u => ram_wr_en (ctl B env r0 u)) (S t) -
            count (fun u => ram_wr_en (ctl B env r0 u)) (S c)) mod 2 ^ 12.
Proof.
  intros Hrst Hq Hc Hn t. destruct (buffer_written B env r0 Hrst t) as (_ & H2 & H3).
  split; [rewrite H2; unfold sample_taken; by rewrite Hq|].
  split; [by rewrite H3, Hq; unfold slice; rewrite Z.shiftr_0_r|].
  assert (Hheld : forall u, (u <= c)%nat -> addra_ori (ctl B env r0 (S u)) = 0).
  { intros u Hu. rewrite ctl_S. cbn [ctl_step addra_ori]. unfold addra_next. by rewrite Hc. }
  destruct (Nat.leb_spec t c) as [Hle|Hlt]; [by apply Hheld|].
  apply (buffer_place B env r0 Hrst q (S c) (S t)); [done| |lia|by apply Hheld|lia].
  intros u Hu. apply Hn. lia.
Qed.

(** ** Examples: register 2 is written and read back; three samples *)

Definition example_in (t : nat) : ctl_in :=
  CtlIn true 8 (t =? 1)%nat 77 (2 <=? t)%nat true 8 (t =? 6)%nat true (fun _ => 5) (fun _ => true) (fun _ => 0) 0.

Definition idle_reg (seen : Z -> Z) : ctl_reg :=
  CtlReg (fun _ => 0) seen WIDLE RIDLE 0 0 0 0 0 0 (fun _ => false) false 0 0.

Definition idle_bench : bench := Bench (fun _ => 0) (fun _ => LtParams 0 0 0 0 0 false) [].

Lemma example_master : master u280_hbm example_in (idle_reg (fun _ => 0)).
Proof.
  split; intros t _.
  - exists (Nat.max t 2). split; [lia|]. apply Nat.leb_le. lia.
  - exists t. split; [lia|done].
Qed.

Lemma axil_writes_refine_witness :
  let c := ctl u280_hbm example_in (idle_reg (fun _ => 0)) in
  zip (addresses u280_hbm example_in (idle_reg (fun _ => 0)) 5) (words u280_hbm example_in (idle_reg (fun _ => 0)) 5)
    = [(8, 77)] /\
  control_reg (c 5%nat) 2 = 77 /\
  (forall k, host_reg k -> control_reg (c 5%nat) k = dma_control_reg (hw_requests u280_hbm [(8, 77)] idle_bench) k) /\
  exists t', (1 < t')%nat /\ w_cstate (c t') = WIDLE.
Proof.
  cbv zeta.
  assert (E : zip (addresses u280_hbm example_in (idle_reg (fun _ => 0)) 5)
                  (words u280_hbm example_in (idle_reg (fun _ => 0)) 5) = [(8, 77)]) by (vm_compute; reflexivity).
  split; [exact E|]. split; [vm_compute; reflexivity|].
  destruct (axil_writes_refine u280_hbm example_in (idle_reg (fun _ => 0)) idle_bench
    (fun _ => eq_refl) eq_refl eq_refl) as [H1 H2].
  split.
  - assert (Hi : w_cstate (ctl u280_hbm example_in (idle_reg (fun _ => 0)) 5) = WIDLE) by (vm_compute; reflexivity).
    destruct (H1 5%nat Hi) as [_ H]. rewrite E in H. exact H.
  - assert (Ht : aw_taken u280_hbm example_in (idle_reg (fun _ => 0)) 1 = true) by (vm_compute; reflexivity).
    destruct (H2 example_master 1%nat Ht) as (t' & Hlt & Hw & _). exists t'. split; [exact Hlt|exact Hw].
Defined.

Lemma axil_reads_value_witness :
  s_axil_rdata (ctl u280_hbm example_in (idle_reg (fun _ => 0)) 7) = 77 /\
  exists before a, read_addresses u280_hbm example_in (idle_reg (fun _ => 0)) 7 = before ++ [a] /\
    Z.of_nat (length before) = count (r_taken u280_hbm example_in (idle_reg (fun _ => 0))) 7.
Proof.
  split; [vm_compute; reflexivity|].
  assert (Ht : r_taken u280_hbm example_in (idle_reg (fun _ => 0)) 7 = true) by (vm_compute; reflexivity).
  destruct (axil_reads_value u280_hbm example_in (idle_reg (fun _ => 0)) idle_bench 7
    (fun _ => eq_refl) eq_refl eq_refl eq_refl Ht) as (before & a & H1 & H2 & _).
  exists before, a. split; [exact H1|exact H2].
Defined.

(** [start] was high until cycle 0. *)
Definition samples_in (t : nat) : ctl_in :=
  CtlIn true 0 false 0 false true 0 false true (fun _ => 0)
    (fun _ => negb ((1 <=? t)%nat && (t <=? 3)%nat)) (fun _ => 300 + Z.of_nat t) 0.
Definition samples_reg : ctl_reg := idle_reg (fun k => if k =? 11 then 1 else 0).

Lemma samples_quiet t :
  w_cstate (ctl u280_hbm samples_in samples_reg t) = WIDLE /\
  control_reg (ctl u280_hbm samples_in samples_reg t) 0 = 0 /\
  control_reg (ctl u280_hbm samples_in samples_reg t) 11 = 0.
Proof.
  induction t as [|t (E & H0 & H11)]; [done|]. rewrite ctl_S. cbn [ctl_step w_cstate control_reg].
  unfold w_next, bank_next. rewrite E. cbn. by rewrite H0, H11.
Qed.

Lemma latency_samples_buffered_witness :
  let c := ctl u280_hbm samples_in samples_reg in
  (addra_ori (c 3%nat), ram_data_in (c 3%nat)) = (1, 46) /\
  ram_wr_en (c 3%nat) = true /\ ram_data_in (c 3%nat) = 302 mod 2 ^ 8 /\
  addra_ori (c 3%nat) =
    (count (fun u => ram_wr_en (c u)) 3 - count (fun u => ram_wr_en (c u)) 1) mod 2 ^ 12.
Proof.
  cbv zeta. split; [vm_compute; reflexivity|].
  assert (Hc : forall u, (u <= 0)%nat -> clears (samples_in u) (ctl u280_hbm samples_in samples_reg u) = true).
  { intros u Hu. destruct u as [|u]; [reflexivity|lia]. }
  assert (Hn : forall u, (0 < u)%nat -> clears (samples_in u) (ctl u280_hbm samples_in samples_reg u) = false).
  { intros u Hu. destruct u as [|u]; [lia|]. unfold clears, hbm_reset, start, out_start.
    rewrite ctl_S. cbn [ctl_step shown]. destruct (samples_quiet u) as (_ & H0 & H11).
    rewrite H0, H11. reflexivity. }
  exact (latency_samples_buffered u280_hbm 0 samples_in samples_reg 0 (fun _ => eq_refl) (fun _ => eq_refl) Hc Hn 2).
Defined.
