(* ===== verification/SampleBuffer.v ===== *)
(** * The buffer of the latency samples

    [xdma_control.sv] writes the samples into a memory of the vendor
    ([xpm_memory_tdpram], with a read latency of 17 cycles), and register 16 shows
    the place that the host reads next.  Here is what the host gets from it. *)

From stdpp Require Import base list numbers option.
From S2P Require Import Prelude Clock.
From S2P Require Import BenchControl.
From S2P Require Import AxiLite.
Open Scope Z_scope.

Section Buffer.
Context (B : design) (env : nat -> ctl_in) (r0 : ctl_reg) (m0 : Z -> Z).

Abbreviation reg := (ctl B env r0).

(** Port A of the memory: what it holds before the edge of cycle [t]. *)
Fixpoint content (t : nat) (a : Z) : Z :=
  match t with
  | O => m0 a
  | S u => if ram_wr_en (reg u) && (addra_ori (reg u) =? a) then ram_data_in (reg u) else content u a
  end.

Lemma content_S t a :
  content (S t) a =
    if ram_wr_en (reg t) && (addra_ori (reg t) =? a) then ram_data_in (reg t) else content t a.
Proof. done. Qed.

(** [READ_LATENCY_B]. *)
Definition read_latency : nat := 17.

(** Port B: the place of a cycle is on its output 17 cycles later.  Nothing is said
    about a place that is written in the same cycle. *)
Definition ram_reads : Prop :=
  forall t, ram_wr_en (reg t) && (addra_ori (reg t) =? addrb_ori (reg t)) = false ->
    doutb (env (t + read_latency)) = content t (addrb_ori (reg t)).

(** The host takes a word of register 16. *)
Definition sample_read (t : nat) : bool := r_taken B env r0 t && (rd_addr (reg t) =? 16).

Context (Hrst : forall t, s_aresetn (env t) = true).

Lemma register_shows t :
  w_cstate (reg (S t + read_latency)) <> WBRSP ->
  control_reg (reg (2 + t + read_latency)) 16 = doutb (env (t + read_latency)).
Proof.
  intros Hw. change (2 + t + read_latency)%nat with (S (S (t + read_latency))).
  change (S t + read_latency)%nat with (S (t + read_latency)) in Hw.
  rewrite ctl_S. cbn [ctl_step control_reg]. unfold bank_next.
  rewrite Hrst, (proj2 (Z.eqb_neq _ _) Hw). cbn [negb]. unfold status_regs. cbn.
  by rewrite Hrst.
Qed.

(** ** After the start *)

Context (q : Z) (Hq : forall t, queue B (reg t) = q).
Context (c : nat) (Hc : clears (env c) (reg c) = true).
Context (Hn : forall u, (c < u)%nat -> clears (env u) (reg u) = false).

(** The samples that were written in [n] cycles, and the number of those read. *)
Definition samples (n : nat) : list Z :=
  observed (fun u => ram_wr_en (reg (S c + u))) (fun u => ram_data_in (reg (S c + u))) n.
Definition samples_read (n : nat) : Z := count (fun u => sample_read (S c + u)) n.

Lemma next_place n :
  addra_ori (reg (S c + n)) = Z.of_nat (length (samples n)) mod 2 ^ 12.
Proof.
  induction n as [|n IH].
  - rewrite Nat.add_0_r, ctl_S. cbn [ctl_step addra_ori]. unfold addra_next. by rewrite Hc.
  - rewrite Nat.add_succ_r, ctl_S. cbn [ctl_step addra_ori]. unfold addra_next. rewrite Hn, IH by lia.
    assert (E : fifo_rd_en_r (reg (S c + n)) (queue B (reg (S c + n))) = ram_wr_en (reg (S c + n))).
    { change (S c + n)%nat with (S (c + n)). destruct (buffer_written B env r0 Hrst (c + n)) as (-> & -> & _).
      unfold sample_taken. by rewrite !Hq. }
    rewrite E. unfold samples. rewrite observed_S, length_app.
    destruct (ram_wr_en (reg (S c + n))); cbn [length]; [|by rewrite Nat.add_0_r].
    unfold trunc. rewrite Z.add_mod_idemp_l by done. f_equal. lia.
Qed.

Lemma place_read n : addrb_ori (reg (S c + n)) = samples_read n mod 2 ^ 12.
Proof.
  induction n as [|n IH].
  - rewrite Nat.add_0_r, ctl_S. cbn [ctl_step addrb_ori]. unfold addrb_next. by rewrite Hc.
  - rewrite Nat.add_succ_r, ctl_S. cbn [ctl_step addrb_ori]. unfold addrb_next. rewrite Hn, IH by lia.
    unfold samples_read. rewrite count_S. unfold sample_read, r_taken. rewrite andb_comm.
    destruct (_ && _); cbn [Z.b2z]; [|by rewrite Z.add_0_r].
    unfold trunc. by rewrite Z.add_mod_idemp_l by done.
Qed.

(** Each place has the last sample that was written to it. *)
Lemma content_samples n j d :
  samples n !! j = Some d -> (length (samples n) <= j + 4096)%nat ->
  content (S c + n) (Z.of_nat j mod 2 ^ 12) = d.
Proof.
  induction n as [|n IH]; [done|]. rewrite (Nat.add_succ_r (S c) n), content_S, next_place.
  unfold samples. rewrite observed_S. fold (samples n). destruct (ram_wr_en (reg (S c + n))); cbn [andb].
  - rewrite length_app. cbn [length]. intros Hj Hlen.
    destruct (Z.eqb_spec (Z.of_nat (length (samples n)) mod 2 ^ 12) (Z.of_nat j mod 2 ^ 12)) as [E|Hne].
    + apply lookup_app_Some in Hj as [Hj|[Hl Hj]].
      * exfalso. apply lookup_lt_Some in Hj. change (2 ^ 12) with 4096 in E.
        pose proof (Z.div_mod (Z.of_nat (length (samples n))) 4096 ltac:(lia)).
        pose proof (Z.div_mod (Z.of_nat j) 4096 ltac:(lia)). lia.
      * by apply list_lookup_singleton_Some in Hj as [_ ->].
    + apply IH; [|lia]. apply lookup_app_Some in Hj as [Hj|[Hl Hj]]; [done|].
      apply list_lookup_singleton_Some in Hj as [Hj _]. destruct Hne. do 2 f_equal. lia.
  - rewrite app_nil_r. apply IH.
Qed.
End Buffer.

(** What a read shows. *)
Lemma read_shows_sample B env r0 m0 q c n k j d :
  (forall t, s_aresetn (env t) = true) -> ram_reads B env r0 m0 ->
  (forall t, queue B (ctl B env r0 t) = q) -> clears (env c) (ctl B env r0 c) = true ->
  (forall u, (c < u)%nat -> clears (env u) (ctl B env r0 u) = false) ->
  let shown_at := (S c + n)%nat in
  let t := (shown_at + 2 + read_latency)%nat in
  sample_read B env r0 t = true -> w_cstate (ctl B env r0 (t - 1)) <> WBRSP ->
  ram_wr_en (ctl B env r0 shown_at) = false ->
  samples_read B env r0 c n = k ->
  let written := samples B env r0 c n in
  written !! j = Some d -> (length written <= j + 4096)%nat -> Z.of_nat j mod 4096 = k mod 4096 ->
  s_axil_rdata (ctl B env r0 t) = d.
Proof.
  cbv zeta. intros Hrst Hram Hq Hc Hn Hread Hw Hwr Hk Hj Hlen Hjk.
  unfold sample_read in Hread. apply andb_true_iff in Hread as [_ Hrd%Z.eqb_eq].
  unfold s_axil_rdata. rewrite Hrd.
  replace (S c + n + 2 + read_latency)%nat with (2 + (S c + n) + read_latency)%nat in * by lia.
  rewrite register_shows; [|done|by replace (S (S c + n) + read_latency)%nat with (2 + (S c + n) + read_latency - 1)%nat by lia].
  rewrite Hram by by rewrite Hwr. rewrite (place_read B env r0 c Hc Hn), Hk.
  change (2 ^ 12) with 4096. rewrite <- Hjk.
  exact (content_samples B env r0 m0 Hrst q Hq c Hc Hn n j d Hj Hlen).
Qed.

(** ** Properties *)

(** C20: the latency samples, from the queue to the host.  When the host takes
    a word of register 16, it gets the sample with the number of the reads that
    were over 19 cycles before: if this is [k], then the last sample, of those
    that had come by then, whose number is [k] modulo the 4096 places of the
    buffer.  So a host that leaves more than 19 cycles between its reads gets one
    sample after the other, and begins again with the first after 4096.  The
    slave lets the words be 18 cycles apart, and a host that asks that fast gets
    the sample before. *)
Theorem latency_samples_read_back B env r0 m0 q c n k j d :
  (forall t, s_aresetn (env t) = true) -> ram_reads B env r0 m0 ->
  (forall t, queue B (ctl B env r0 t) = q) -> clears (env c) (ctl B env r0 c) = true ->
  (forall u, (c < u)%nat -> clears (env u) (ctl B env r0 u) = false) ->
  let shown_at := (S c + n)%nat in
  let t := (shown_at + 2 + read_latency)%nat in
  sample_read B env r0 t = true -> w_cstate (ctl B env r0 (t - 1)) <> WBRSP ->
  ram_wr_en (ctl B env r0 shown_at) = false ->
  samples_read B env r0 c n = k ->
  let written := samples B env r0 c n in
  written !! j = Some d -> (length written <= j + 4096)%nat -> Z.of_nat j mod 4096 = k mod 4096 ->
  s_axil_rdata (ctl B env r0 t) = d.
Proof. apply read_shows_sample. Qed.

(** ** A memory with this latency *)

Section Memory.
Context (B : design) (host : nat -> ctl_in) (r0 : ctl_reg) (m0 : Z -> Z).

Definition with_doutb (d : Z) (i : ctl_in) : ctl_in :=
  CtlIn (s_aresetn i) (s_axil_awaddr i) (s_axil_awvalid i) (s_axil_wdata i) (s_axil_wvalid i)
    (s_axil_bready i) (s_axil_araddr i) (s_axil_arvalid i) (s_axil_rready i) (in_status i)
    (fifo_empty i) (fifo_data_out i) d.

(** The registers, the memory, and what it has read, the last first. *)
Fixpoint with_memory (t : nat) : ctl_reg * (Z -> Z) * list Z :=
  match t with
  | O => (r0, m0, [])
  | S u =>
      let '(r, m, out) := with_memory u in
      (ctl_step B (with_doutb (default 0 (out !! 16%nat)) (host u)) r,
       (fun a => if ram_wr_en r && (addra_ori r =? a) then ram_data_in r else m a),
       m (addrb_ori r) :: out)
  end.
Definition memory_env (t : nat) : ctl_in :=
  with_doutb (default 0 ((with_memory t).2 !! 16%nat)) (host t).

Lemma with_memory_run t :
  (with_memory t).1.1 = ctl B memory_env r0 t /\
  (forall a, (with_memory t).1.2 a = content B memory_env r0 m0 t a) /\
  length (with_memory t).2 = t /\
  forall j, (j < t)%nat -> (with_memory t).2 !! (t - S j)%nat =
    Some (content B memory_env r0 m0 j (addrb_ori (ctl B memory_env r0 j))).
Proof.
  induction t as [|t IH]; [by repeat split; try lia|]. rewrite ctl_S. unfold memory_env at 1.
  cbn [with_memory]. destruct (with_memory t) as [[r m] out]. cbn [fst snd] in *.
  destruct IH as (E & Hm & Hl & Ho). split; [by rewrite E|]. split; [|split; [by cbn; rewrite Hl|]].
  - intros a. rewrite content_S, <- E. destruct (_ && _); [done|apply Hm].
  - intros j Hj. destruct (decide (j = t)) as [->|Hne].
    + rewrite Nat.sub_diag, <- E. cbn. by rewrite Hm.
    + replace (S t - S j)%nat with (S (t - S j)) by lia. apply Ho. lia.
Qed.

Lemma memory_reads : ram_reads B memory_env r0 m0.
Proof.
  intros t _. unfold memory_env at 1. cbn [doutb with_doutb].
  destruct (with_memory_run (t + read_latency)) as (_ & _ & _ & Ho).
  specialize (Ho t ltac:(unfold read_latency; lia)).
  replace (t + read_latency - S t)%nat with 16%nat in Ho by (unfold read_latency; lia). by rewrite Ho.
Qed.
End Memory.

(** ** Example: three samples, and a host that reads as fast as it can *)

Definition fast_host (t : nat) : ctl_in :=
  CtlIn true 0 false 0 false true 64 ((30 <=? t) && (t <=? 80))%nat true (fun _ => 0)
    (fun _ => negb ((1 <=? t)%nat && (t <=? 3)%nat)) (fun _ => 300 + Z.of_nat t) 0.
Abbreviation fast_env := (memory_env u280_hbm fast_host samples_reg (fun _ => 0)).

Lemma fast_quiet t :
  w_cstate (ctl u280_hbm fast_env samples_reg t) = WIDLE /\
  control_reg (ctl u280_hbm fast_env samples_reg t) 0 = 0 /\
  control_reg (ctl u280_hbm fast_env samples_reg t) 11 = 0.
Proof.
  induction t as [|t (E & H0 & H11)]; [done|]. rewrite ctl_S. cbn [ctl_step w_cstate control_reg].
  unfold w_next, bank_next. rewrite E. cbn. by rewrite H0, H11.
Qed.

(** Its reads are 18 cycles apart; the third one gets the second sample. *)
Lemma latency_samples_read_back_witness :
  List.filter (sample_read u280_hbm fast_env samples_reg) (seq 0 80) = [31; 49; 67]%nat /\
  ((fun t => s_axil_rdata (ctl u280_hbm fast_env samples_reg t)) <$> [31; 49; 67]%nat) = [45; 45; 46].
Proof.
  assert (Hc : clears (fast_env 0) (ctl u280_hbm fast_env samples_reg 0) = true) by done.
  assert (Hn : forall u, (0 < u)%nat -> clears (fast_env u) (ctl u280_hbm fast_env samples_reg u) = false).
  { intros u Hu. destruct u as [|u]; [lia|]. unfold clears, hbm_reset, start, out_start.
    rewrite ctl_S. cbn [ctl_step shown]. destruct (fast_quiet u) as (_ & H0 & H11).
    rewrite H0, H11. reflexivity. }
  assert (H : s_axil_rdata (ctl u280_hbm fast_env samples_reg 67) = 46).
  { apply (latency_samples_read_back u280_hbm fast_env samples_reg (fun _ => 0) 0 0 47 1 1 46
      (fun _ => eq_refl) (memory_reads u280_hbm fast_host samples_reg (fun _ => 0)) (fun _ => eq_refl) Hc Hn);
      [vm_compute; reflexivity|vm_compute; discriminate|vm_compute; reflexivity..
      |apply Nat.leb_le; vm_compute; reflexivity|reflexivity]. }
  split; [vm_compute; reflexivity|]. cbn [fmap list_fmap]. rewrite H. vm_compute. reflexivity.
Defined.
