(* ===== verification/EngineParams.v ===== *)
(** * The parameter vector of an engine

    [lt_params] of [hw/rtl/u280_hbm/rd_engine.sv] and [wr_engine.sv]: 256 bits
    whose fields the engines take apart in the same way. *)

From stdpp Require Import base list numbers option.
From S2P Require Import Prelude Clock.
Open Scope Z_scope.

Definition p_work_group_size (P : Z) : Z := slice 0 32 P.
Definition p_stride (P : Z) : Z := slice 32 32 P.
Definition p_num (P : Z) : Z := slice 64 64 P.
Definition p_burst (P : Z) : Z := trunc 16 (slice 128 32 P).
Definition p_base (A P : Z) : Z := slice 160 A P.
Definition p_latency (P : Z) : bool := Z.testbit P 224.
Definition p_mask (P : Z) : Z := trunc 32 (p_work_group_size P - 1).

(** [(mem_burst_size >> $clog2(DATA_WIDTH/8)) - 8'b1]: beats in a burst, less one. *)
Definition axi_len (DATA_WIDTH LEN_WIDTH burst : Z) : Z :=
  trunc LEN_WIDTH (Z.shiftr burst (Z.log2_up (DATA_WIDTH / 8)) - 1).

(** The address after [k] steps of the stride. *)
Definition op_addr (A P k : Z) : Z :=
  trunc A (p_base A P + Z.land (trunc A (p_stride P * k)) (p_mask P)).

(** With a power of two for its size and room above the initial address, the
    positions are taken modulo the work group. *)
Lemma op_addr_modulo A P k n :
  0 <= n <= 32 -> n <= A -> 0 <= k -> p_work_group_size P = 2 ^ n -> p_base A P + 2 ^ n <= 2 ^ A ->
  op_addr A P k = p_base A P + (p_stride P * k) mod p_work_group_size P.
Proof.
  intros Hn HA Hk Hw Hfit. unfold op_addr.
  assert (Hp : 1 <= 2 ^ n <= 2 ^ 32) by (split; [apply (Z.pow_le_mono_r 2 0)|apply Z.pow_le_mono_r]; lia).
  assert (Hm : p_mask P = Z.ones n).
  { unfold p_mask. rewrite Hw, Z.ones_equiv. apply trunc_small. lia. }
  rewrite Hm, Z.land_ones, Hw by lia. unfold trunc at 2.
  assert (E : 2 ^ A = 2 ^ n * 2 ^ (A - n)) by (rewrite <- Z.pow_add_r by lia; f_equal; lia).
  rewrite E, Z.mod_mod_divide by (exists (2 ^ (A - n)); lia).
  pose proof (Z.mod_pos_bound (p_stride P * k) (2 ^ n) ltac:(lia)).
  pose proof (slice_range 160 A P ltac:(lia)) as Hb. fold (p_base A P) in Hb.
  apply trunc_small. lia.
Qed.

(** ** Composing a vector *)

(** Fields of [w] bits put in front of the rest of a vector. *)
Definition field (w x rest : Z) : Z := x + Z.shiftl rest w.

Lemma slice_field w x rest : 0 <= w -> 0 <= x < 2 ^ w -> slice 0 w (field w x rest) = x.
Proof.
  intros Hw Hx. unfold slice, field. rewrite Z.shiftr_0_r, Z.shiftl_mul_pow2 by done.
  rewrite Z.mod_add by lia. by apply Z.mod_small.
Qed.

Lemma slice_field_low v w x rest :
  0 <= v <= w -> 0 <= x < 2 ^ w -> slice 0 v (field w x rest) = trunc v x.
Proof.
  intros Hv Hx. pose proof (slice_field w x rest ltac:(lia) Hx) as E.
  unfold slice in *. rewrite Z.shiftr_0_r in *. rewrite <- E at 2. symmetry.
  by apply trunc_trunc.
Qed.

Lemma shiftr_field w lo x rest :
  0 <= w <= lo -> 0 <= x < 2 ^ w -> Z.shiftr (field w x rest) lo = Z.shiftr rest (lo - w).
Proof.
  intros Hw Hx. unfold field. rewrite Z.shiftl_mul_pow2 by lia.
  replace lo with (w + (lo - w)) at 1 by lia. rewrite <- Z.shiftr_shiftr by lia.
  f_equal. rewrite Z.shiftr_div_pow2, Z.div_add, Z.div_small by lia. lia.
Qed.

Lemma slice_above w lo k x rest :
  0 <= w <= lo -> 0 <= x < 2 ^ w -> slice lo k (field w x rest) = slice (lo - w) k rest.
Proof. intros Hw Hx. unfold slice. by rewrite shiftr_field. Qed.

Lemma testbit_above w lo x rest :
  0 <= w <= lo -> 0 <= x < 2 ^ w -> Z.testbit (field w x rest) lo = Z.testbit rest (lo - w).
Proof.
  intros Hw Hx. pose proof (shiftr_field w lo x rest Hw Hx) as E.
  rewrite <- (Z.add_0_l lo) at 1. rewrite <- Z.shiftr_spec, E, Z.shiftr_spec by lia.
  by f_equal.
Qed.

Lemma testbit_field b rest : Z.testbit (field 1 (Z.b2z b) rest) 0 = b.
Proof.
  unfold field. rewrite Z.shiftl_mul_pow2, Z.mul_comm by done.
  change (2 ^ 1) with 2. rewrite Z.bit0_odd, Z.odd_add_mul_2. by destruct b.
Qed.
