(* ===== verification/RdEngine.v ===== *)
(** * The read engine of the benchmark

    [hw/rtl/u280_hbm/rd_engine.sv] (the file of [u280_ddr] has the same code),
    cycle by cycle.  The outputs with a constant value ([m_axi_ARID], [ARSIZE],
    [ARBURST] and so on, [m_axi_RREADY]) are left out, as are the inputs that the
    engine does not look at ([RDATA], [RID], [RRESP]). *)

From stdpp Require Import base list numbers option.
From S2P Require Import Prelude Clock EngineParams.
Open Scope Z_scope.

(** ** Registers and inputs *)

Inductive rd_state : Type :=
  | RD_IDLE | RD_STARTED | RD_LATENCY | RD_LAT_VALID | RD_LAT_RESP
  | RD_TH_VALID | RD_TH_RESP | RD_END
  | RD_OTHER (code : Z).    (* the other values of the four bits *)

Record rd_in : Type := RdIn {
  rst_n : bool;
  start : bool;
  lt_params : Z;
  m_axi_ARREADY : bool;
  m_axi_RVALID : bool;
  m_axi_RLAST : bool;
}.

Record rd_reg : Type := RdReg {
  started : bool;
  lt_params_r : Z;
  init_addr : Z;
  num_mem_ops : Z;                (* 32 bits *)
  mem_burst_size : Z;             (* 16 bits *)
  work_group_size : Z;
  stride : Z;
  isRdLatencyTest : bool;
  mem_op_index : Z;
  offset_addr : Z;
  work_group_size_minus_1 : Z;
  num_mem_ops_r : Z;              (* 64 bits *)
  num_mem_ops_minus_1 : Z;
  read_resp_lasts : Z;
  guard_ARVALID : bool;
  state : rd_state;
  end_of_exec : bool;
  lat_timer_sum : Z;
  lat_timer_valid : bool;
  lat_timer : Z;
  m_axi_ARADDR : Z;
  m_axi_ARLEN : Z;
}.

#[export] Instance rd_registers : Registers rd_reg := fun r =>
  RdReg (started r) (lt_params_r r) (init_addr r) (num_mem_ops r) (mem_burst_size r)
    (work_group_size r) (stride r) (isRdLatencyTest r) (mem_op_index r) (offset_addr r)
    (work_group_size_minus_1 r) (num_mem_ops_r r) (num_mem_ops_minus_1 r) (read_resp_lasts r)
    (guard_ARVALID r) (state r) (end_of_exec r) (lat_timer_sum r) (lat_timer_valid r)
    (lat_timer r) (m_axi_ARADDR r) (m_axi_ARLEN r).

Section Engine.
Context (ADDR_WIDTH DATA_WIDTH LEN_WIDTH : Z).

Definition m_axi_ARVALID (r : rd_reg) : bool := guard_ARVALID r.

(** [init_addr + (offset_addr & work_group_size_minus_1)] *)
Definition next_addr (r : rd_reg) : Z :=
  trunc ADDR_WIDTH (init_addr r + Z.land (offset_addr r) (work_group_size_minus_1 r)).
Definition next_offset (r : rd_reg) : Z := trunc ADDR_WIDTH (offset_addr r + stride r).

(** The state machine: one branch of its [case] per definition; [d] has the
    assignments made in front of the [case]. *)
Definition rd_idle (r d : rd_reg) : rd_reg :=
  let d := d <| lat_timer_sum := lat_timer_sum r |> in
  if started r then
    d <| work_group_size := slice 0 32 (lt_params_r r) |>
      <| stride := slice 32 32 (lt_params_r r) |>
      <| num_mem_ops := trunc 32 (slice 64 64 (lt_params_r r)) |>
      <| mem_burst_size := trunc 16 (slice 128 32 (lt_params_r r)) |>
      <| init_addr := slice 160 ADDR_WIDTH (lt_params_r r) |>
      <| isRdLatencyTest := Z.testbit (lt_params_r r) 224 |>
      <| state := RD_STARTED |>
  else d.

Definition rd_started (r d : rd_reg) : rd_reg :=
  d <| work_group_size_minus_1 := trunc 32 (work_group_size r - 1) |>
    <| num_mem_ops_r := num_mem_ops r |>
    <| num_mem_ops_minus_1 := trunc 64 (num_mem_ops r - 1) |>
    <| mem_op_index := 0 |>
    <| offset_addr := 0 |>
    <| lat_timer_sum := 0 |>
    <| state := if isRdLatencyTest r then RD_LAT_VALID else RD_TH_VALID |>.

Definition rd_lat_valid (i : rd_in) (r d : rd_reg) : rd_reg :=
  let d := d <| offset_addr := next_offset r |>
             <| m_axi_ARADDR := next_addr r |>
             <| guard_ARVALID := true |> in
  if m_axi_ARREADY i && m_axi_ARVALID r then
    d <| mem_op_index := trunc 64 (mem_op_index r + 1) |>
      <| lat_timer := 0 |>
      <| guard_ARVALID := false |>
      <| state := RD_LAT_RESP |>
  else d <| state := RD_LAT_VALID |>.

Definition rd_lat_resp (i : rd_in) (r d : rd_reg) : rd_reg :=
  let d := d <| lat_timer := trunc 16 (lat_timer r + 1) |> in
  if m_axi_RLAST i && m_axi_RVALID i then
    d <| lat_timer_valid := true |>
      <| state := if mem_op_index r =? num_mem_ops_r r then RD_END else RD_LAT_VALID |>
  else d.

Definition rd_th_valid (i : rd_in) (r d : rd_reg) : rd_reg :=
  let d := d <| guard_ARVALID := true |> <| m_axi_ARADDR := next_addr r |> in
  if m_axi_ARREADY i && m_axi_ARVALID r then
    let d := d <| offset_addr := next_offset r |>
               <| mem_op_index := trunc 64 (mem_op_index r + 1) |> in
    if num_mem_ops_minus_1 r <=? mem_op_index r
    then d <| state := RD_TH_RESP |> <| guard_ARVALID := false |>
    else d <| state := RD_TH_VALID |>
  else d.

Definition rd_th_resp (r d : rd_reg) : rd_reg :=
  if read_resp_lasts r =? num_mem_ops r then d <| state := RD_END |> else d.

Definition rd_end (d : rd_reg) : rd_reg :=
  d <| end_of_exec := true |> <| state := RD_IDLE |>.

Definition rd_fsm (i : rd_in) (r : rd_reg) : rd_reg :=
  if negb (rst_n i) then r <| state := RD_IDLE |>
  else
    let d := r <| end_of_exec := false |> <| guard_ARVALID := false |>
               <| lat_timer_valid := false |>
               <| lat_timer_sum := trunc 64 (lat_timer_sum r + 1) |> in
    match state r with
    | RD_IDLE => rd_idle r d
    | RD_STARTED => rd_started r d
    | RD_LAT_VALID => rd_lat_valid i r d
    | RD_LAT_RESP => rd_lat_resp i r d
    | RD_TH_VALID => rd_th_valid i r d
    | RD_TH_RESP => rd_th_resp r d
    | RD_END => rd_end d
    | RD_LATENCY | RD_OTHER _ => d <| state := RD_IDLE |>
    end.

(** One clock edge, with the other [always] blocks. *)
Definition rd_step (i : rd_in) (r : rd_reg) : rd_reg :=
  rd_fsm i r
    <| started := rst_n i && start i |>
    <| lt_params_r := lt_params i |>
    <| m_axi_ARLEN := axi_len DATA_WIDTH LEN_WIDTH (mem_burst_size r) |>
    <| read_resp_lasts := if started r then 0
         else trunc 64 (read_resp_lasts r + Z.b2z (m_axi_RLAST i && m_axi_RVALID i)) |>.
End Engine.

(** ** One edge, per state *)

Section Edges.
Context (A DW LW : Z) (i : rd_in) (r : rd_reg) (Hrst : rst_n i = true).
Let r' := rd_step A DW LW i r.
Let ack : bool := m_axi_ARREADY i && m_axi_ARVALID r.
Let last : bool := m_axi_RLAST i && m_axi_RVALID i.

Ltac edge E := unfold r', rd_step, rd_fsm, rd_idle, rd_started, rd_lat_valid, rd_lat_resp,
  rd_th_valid, rd_th_resp, rd_end; rewrite Hrst, E; cbn.

Lemma edge_always :
  started r' = start i /\ lt_params_r r' = lt_params i /\
  read_resp_lasts r' = (if started r then 0 else trunc 64 (read_resp_lasts r + Z.b2z last)).
Proof. unfold r', rd_step. cbn. by rewrite Hrst. Qed.

(** The parameters of a run. *)
Definition same_params (r1 r2 : rd_reg) : Prop :=
  init_addr r1 = init_addr r2 /\ num_mem_ops r1 = num_mem_ops r2 /\ stride r1 = stride r2 /\
  isRdLatencyTest r1 = isRdLatencyTest r2 /\ mem_burst_size r1 = mem_burst_size r2 /\
  work_group_size_minus_1 r1 = work_group_size_minus_1 r2 /\
  num_mem_ops_r r1 = num_mem_ops_r r2 /\ num_mem_ops_minus_1 r1 = num_mem_ops_minus_1 r2.

Lemma edge_params : started r = false -> state r <> RD_STARTED -> same_params r' r.
Proof.
  intros Hs Hne. unfold same_params.
  destruct (state r) eqn:E; try done; edge E; rewrite ?Hs; branches.
Qed.

Lemma edge_idle :
  state r = RD_IDLE -> started r = false ->
  state r' = RD_IDLE /\ guard_ARVALID r' = false /\ end_of_exec r' = false /\
  lat_timer_valid r' = false /\ lat_timer_sum r' = lat_timer_sum r.
Proof. intros E Hs. edge E. rewrite Hs. by cbn. Qed.

Lemma edge_load :
  state r = RD_IDLE -> started r = true ->
  state r' = RD_STARTED /\ guard_ARVALID r' = false /\ end_of_exec r' = false /\
  lat_timer_valid r' = false /\
  work_group_size r' = slice 0 32 (lt_params_r r) /\ stride r' = slice 32 32 (lt_params_r r) /\
  num_mem_ops r' = trunc 32 (slice 64 64 (lt_params_r r)) /\
  mem_burst_size r' = trunc 16 (slice 128 32 (lt_params_r r)) /\
  init_addr r' = slice 160 A (lt_params_r r) /\
  isRdLatencyTest r' = Z.testbit (lt_params_r r) 224.
Proof. intros E Hs. edge E. rewrite Hs. by cbn. Qed.

Lemma edge_started :
  state r = RD_STARTED ->
  state r' = (if isRdLatencyTest r then RD_LAT_VALID else RD_TH_VALID) /\
  guard_ARVALID r' = false /\ end_of_exec r' = false /\ lat_timer_valid r' = false /\
  lat_timer_sum r' = 0 /\ mem_op_index r' = 0 /\ offset_addr r' = 0 /\
  work_group_size_minus_1 r' = trunc 32 (work_group_size r - 1) /\
  num_mem_ops_r r' = num_mem_ops r /\ num_mem_ops_minus_1 r' = trunc 64 (num_mem_ops r - 1) /\
  init_addr r' = init_addr r /\ num_mem_ops r' = num_mem_ops r /\ stride r' = stride r /\
  isRdLatencyTest r' = isRdLatencyTest r /\ mem_burst_size r' = mem_burst_size r.
Proof. intros E. edge E. repeat (split; [done|]). done. Qed.

Lemma edge_th_valid :
  state r = RD_TH_VALID ->
  state r' = (if ack && (num_mem_ops_minus_1 r <=? mem_op_index r)
              then RD_TH_RESP else RD_TH_VALID) /\
  guard_ARVALID r' = negb (ack && (num_mem_ops_minus_1 r <=? mem_op_index r)) /\
  end_of_exec r' = false /\ lat_timer_valid r' = false /\
  lat_timer_sum r' = trunc 64 (lat_timer_sum r + 1) /\ m_axi_ARADDR r' = next_addr A r /\
  mem_op_index r' = (if ack then trunc 64 (mem_op_index r + 1) else mem_op_index r) /\
  offset_addr r' = (if ack then next_offset A r else offset_addr r).
Proof. intros E. unfold ack. edge E. branches. Qed.

Lemma edge_th_resp :
  state r = RD_TH_RESP ->
  state r' = (if read_resp_lasts r =? num_mem_ops r then RD_END else RD_TH_RESP) /\
  guard_ARVALID r' = false /\ end_of_exec r' = false /\ lat_timer_valid r' = false /\
  lat_timer_sum r' = trunc 64 (lat_timer_sum r + 1).
Proof. intros E. edge E. branches. Qed.

Lemma edge_lat_valid :
  state r = RD_LAT_VALID ->
  state r' = (if ack then RD_LAT_RESP else RD_LAT_VALID) /\
  guard_ARVALID r' = negb ack /\ end_of_exec r' = false /\ lat_timer_valid r' = false /\
  lat_timer_sum r' = trunc 64 (lat_timer_sum r + 1) /\ m_axi_ARADDR r' = next_addr A r /\
  mem_op_index r' = (if ack then trunc 64 (mem_op_index r + 1) else mem_op_index r) /\
  offset_addr r' = next_offset A r /\ (ack = true -> lat_timer r' = 0).
Proof. intros E. unfold ack. edge E. branches. Qed.

Lemma edge_lat_resp :
  state r = RD_LAT_RESP ->
  state r' = (if last then if mem_op_index r =? num_mem_ops_r r then RD_END else RD_LAT_VALID
              else RD_LAT_RESP) /\
  guard_ARVALID r' = false /\ end_of_exec r' = false /\ lat_timer_valid r' = last /\
  lat_timer_sum r' = trunc 64 (lat_timer_sum r + 1) /\ mem_op_index r' = mem_op_index r /\
  offset_addr r' = offset_addr r /\ lat_timer r' = trunc 16 (lat_timer r + 1).
Proof. intros E. unfold last. edge E. branches. Qed.

Lemma edge_end :
  state r = RD_END ->
  state r' = RD_IDLE /\ guard_ARVALID r' = false /\ end_of_exec r' = true /\
  lat_timer_valid r' = false /\ lat_timer_sum r' = trunc 64 (lat_timer_sum r + 1).
Proof. intros E. by edge E. Qed.
End Edges.

(** ** A run

    The engine waits, [start] is high in cycle 0 only, and the parameters of
    that cycle are the ones the run has. *)

Record quiet (r : rd_reg) : Prop := {
  quiet_state : state r = RD_IDLE;
  quiet_started : started r = false;
  quiet_valid : guard_ARVALID r = false;
  quiet_end : end_of_exec r = false;
  quiet_sample : lat_timer_valid r = false;
}.

(** The engine keeps 32 bits of the number of operations. *)
Definition p_ops (P : Z) : Z := trunc 32 (p_num P).

(** An engine that waits goes on waiting. *)
Lemma quiet_S A DW LW i r :
  rst_n i = true -> start i = false -> quiet r -> quiet (rd_step A DW LW i r).
Proof.
  intros Hrst Hs [Hq1 Hq2 _ _ _].
  destruct (edge_idle A DW LW i r Hrst Hq1 Hq2) as (E1 & E2 & E3 & E4 & _).
  destruct (edge_always A DW LW i r Hrst) as (E5 & _). by split; rewrite ?E5.
Qed.

(** A cycle of reset, and another one without [start], make it wait. *)
Lemma reset_quiet A DW LW i1 i2 r :
  rst_n i1 = false -> rst_n i2 = true -> start i2 = false ->
  quiet (rd_step A DW LW i2 (rd_step A DW LW i1 r)).
Proof.
  intros H1 H2 Hs. set (r1 := rd_step A DW LW i1 r).
  assert (Q1 : state r1 = RD_IDLE /\ started r1 = false).
  { unfold r1, rd_step, rd_fsm. rewrite H1. by cbn. }
  destruct (edge_idle A DW LW i2 r1 H2 (proj1 Q1) (proj2 Q1)) as (E1 & E2 & E3 & E4 & _).
  destruct (edge_always A DW LW i2 r1 H2) as (E5 & _). by split; rewrite ?E5.
Qed.

Lemma p_ops_range P : 0 <= p_ops P < 2 ^ 32.
Proof. by apply trunc_range. Qed.

Section Run.
Context (A DW LW : Z) (HA : 0 <= A) (env : nat -> rd_in) (r0 : rd_reg).
Context (Hrst : forall t, rst_n (env t) = true).
Context (Hstart : forall t, start (env t) = (t =? 0)%nat).
Context (Hquiet : quiet r0).
Let P : Z := lt_params (env 0%nat).

Definition reg (t : nat) : rd_reg := at_cycle (rd_step A DW LW) env r0 t.
Definition accept (t : nat) : bool := m_axi_ARREADY (env t) && m_axi_ARVALID (reg t).
Definition last (t : nat) : bool := m_axi_RLAST (env t) && m_axi_RVALID (env t).
Definition sample (t : nat) : bool := lat_timer_valid (reg t).

Record configured (r : rd_reg) : Prop := {
  c_base : init_addr r = p_base A P;
  c_stride : stride r = p_stride P;
  c_mask : work_group_size_minus_1 r = p_mask P;
  c_lat : isRdLatencyTest r = p_latency P;
  c_num : num_mem_ops r = p_ops P;
  c_num_r : num_mem_ops_r r = p_ops P;
  c_num_1 : num_mem_ops_minus_1 r = trunc 64 (p_ops P - 1);
}.

(** Nothing was reported yet, and the timer runs. *)
Definition running (t : nat) : Prop :=
  (forall u, (u <= t)%nat -> end_of_exec (reg u) = false) /\
  lat_timer_sum (reg t) = trunc 64 (Z.of_nat t - 3).

(** The end was reported in cycle [te] and the timer stopped. *)
Definition finished (te t : nat) : Prop :=
  (3 < te <= t)%nat /\ (forall u, (u <= t)%nat -> end_of_exec (reg u) = (u =? te)%nat) /\
  lat_timer_sum (reg t) = trunc 64 (Z.of_nat te - 3).

Definition progress (t : nat) : Prop :=
  match state (reg t) with
  | RD_TH_VALID =>
      p_latency P = false /\ running t /\ mem_op_index (reg t) = count accept t /\
      count accept t < p_ops P /\ offset_addr (reg t) = trunc A (p_stride P * count accept t) /\
      guard_ARVALID (reg t) = (3 <? t)%nat /\
      ((3 < t)%nat -> m_axi_ARADDR (reg t) = op_addr A P (count accept (pred t)))
  | RD_TH_RESP =>
      p_latency P = false /\ running t /\ count accept t = p_ops P /\
      guard_ARVALID (reg t) = false
  | RD_LAT_VALID =>
      p_latency P = true /\ running t /\ mem_op_index (reg t) = count accept t /\
      count accept t < p_ops P /\ count sample (S t) = count accept t
  | RD_LAT_RESP =>
      p_latency P = true /\ running t /\ mem_op_index (reg t) = count accept t /\
      1 <= count accept t <= p_ops P /\ count sample (S t) = count accept t - 1 /\
      guard_ARVALID (reg t) = false /\
      exists ta, (ta < t)%nat /\ accept ta = true /\ count accept (S ta) = count accept t /\
        (forall u, (ta < u < t)%nat -> last u = false) /\
        lat_timer (reg t) = trunc 16 (Z.of_nat t - 1 - Z.of_nat ta)
  | RD_END =>
      running t /\ count accept t = p_ops P /\ guard_ARVALID (reg t) = false /\
      (p_latency P = true -> count sample (S t) = p_ops P)
  | RD_IDLE =>
      count accept t = p_ops P /\ guard_ARVALID (reg t) = false /\
      (p_latency P = true -> count sample (S t) = p_ops P) /\ exists te, finished te t
  | RD_STARTED | RD_LATENCY | RD_OTHER _ => False
  end.

Lemma reg_S t : reg (S t) = rd_step A DW LW (env t) (reg t).
Proof. done. Qed.

Lemma started_later t : (2 <= t)%nat -> started (reg t) = false.
Proof.
  destruct t as [|[|t]]; intros Ht; [lia|lia|]. rewrite reg_S.
  destruct (edge_always A DW LW (env (S t)) (reg (S t)) (Hrst _)) as (-> & _).
  by rewrite Hstart.
Qed.

(** The first three cycles. *)
Lemma idle_1 :
  state (reg 1) = RD_IDLE /\ guard_ARVALID (reg 1) = false /\ end_of_exec (reg 1) = false /\
  lat_timer_valid (reg 1) = false /\ started (reg 1) = true /\ lt_params_r (reg 1) = P.
Proof.
  destruct Hquiet as [Hq1 Hq2 Hq3 Hq4 Hq5].
  destruct (edge_idle A DW LW (env 0%nat) r0 (Hrst _) Hq1 Hq2) as (E1 & E2 & E3 & E4 & _).
  destruct (edge_always A DW LW (env 0%nat) r0 (Hrst _)) as (E5 & E6 & _).
  rewrite Hstart in E5. by repeat split.
Qed.

Lemma begins :
  configured (reg 3) /\ running 3 /\ mem_op_index (reg 3) = 0 /\ offset_addr (reg 3) = 0 /\
  guard_ARVALID (reg 3) = false /\ count accept 3 = 0 /\ count sample 4 = 0 /\
  state (reg 3) = (if p_latency P then RD_LAT_VALID else RD_TH_VALID).
Proof.
  destruct Hquiet as [Hq1 Hq2 Hq3 Hq4 Hq5], idle_1 as (I1 & I2 & I3 & I4 & I5 & I6).
  destruct (edge_load A DW LW (env 1%nat) (reg 1) (Hrst _) I1 I5)
    as (L1 & L2 & L3 & L4 & L5 & L6 & L7 & L8 & L9 & L10).
  rewrite <- reg_S, ?I6 in *.
  destruct (edge_started A DW LW (env 2%nat) (reg 2) (Hrst _) L1)
    as (S1 & S2 & S3 & S4 & S5 & S6 & S7 & S8 & S9 & S10 & S11 & S12 & S13 & S14 & S15).
  rewrite <- reg_S in *. fold (p_base A P) in *. fold (p_num P) in *. fold (p_ops P) in *. fold (p_stride P) in *.
  fold (p_latency P) in *.
  split; [constructor; unfold p_mask, p_work_group_size; congruence|]. split; [split; [|done]|].
  { intros [|[|[|[|u]]]] Hu; [done..|lia]. }
  repeat (split; [try done|]); [| |by rewrite S1, L10].
  - rewrite !count_S. unfold accept, m_axi_ARVALID. change (reg 0) with r0.
    by rewrite Hq3, I2, L2, !andb_false_r.
  - rewrite !count_S. unfold sample. change (reg 0) with r0. by rewrite Hq5, I4, L4, S4.
Qed.

Lemma running_S t :
  running t -> end_of_exec (reg (S t)) = false ->
  lat_timer_sum (reg (S t)) = trunc 64 (lat_timer_sum (reg t) + 1) -> running (S t).
Proof.
  intros [Hr Hs] He Hs'. split.
  - intros u Hu. destruct (decide (u = S t)) as [->|]; [done|]. apply Hr. lia.
  - rewrite Hs', Hs, trunc_add by done. f_equal. lia.
Qed.

Lemma configured_S t :
  (2 <= t)%nat -> configured (reg t) -> state (reg t) <> RD_STARTED -> configured (reg (S t)).
Proof.
  intros Ht [] Hs.
  destruct (edge_params A DW LW (env t) (reg t) (Hrst t) (started_later t Ht) Hs)
    as (? & ? & ? & ? & ? & ? & ? & ?).
  rewrite reg_S. constructor; congruence.
Qed.

Lemma count_sample_S t : count sample (S (S t)) = count sample (S t) + Z.b2z (lat_timer_valid (reg (S t))).
Proof. apply count_S. Qed.

(** No address is accepted while none is offered. *)
Lemma accept_guarded t : guard_ARVALID (reg t) = false -> accept t = false.
Proof. intros Hg. unfold accept, m_axi_ARVALID. by rewrite Hg, andb_false_r. Qed.

Lemma accept_offered t : guard_ARVALID (reg t) = true -> accept t = m_axi_ARREADY (env t).
Proof. intros Hg. unfold accept, m_axi_ARVALID. by rewrite Hg, andb_true_r. Qed.

Lemma accept_valid t : accept t = true -> guard_ARVALID (reg t) = true.
Proof. unfold accept, m_axi_ARVALID. by intros [_ Hg]%andb_true_iff. Qed.

Section Cases.
Context (Hops : 1 <= p_ops P) (t : nat) (Ht : (3 <= t)%nat).
Context (Hcfg : configured (reg t)) (Hprog : progress t).

Ltac at_state E :=
  unfold progress in Hprog; rewrite E in Hprog; unfold progress.

Lemma progress_th_valid : state (reg t) = RD_TH_VALID -> progress (S t).
Proof.
  intros E. at_state E. destruct Hprog as (Hlat & Hrun & Hidx & Hlt & Hoff & Hg & Haddr), Hcfg.
  destruct (edge_th_valid A DW LW (env t) (reg t) (Hrst t) E)
    as (E1 & E2 & E3 & E4 & E5 & E6 & E7 & E8).
  rewrite <- reg_S in *. fold (accept t) in *. rewrite E1, E2, E6, E7, E8, count_S.
  pose proof (running_S t Hrun E3 E5) as Hrun'. pose proof (p_ops_range P).
  assert (Ha : next_addr A (reg t) = op_addr A P (count accept t)).
  { unfold next_addr, op_addr. congruence. }
  assert (Ho : next_offset A (reg t) = trunc A (p_stride P * (count accept t + 1))).
  { unfold next_offset. rewrite Hoff, c_stride0, trunc_add by done. f_equal. lia. }
  rewrite c_num_2, Hidx, (trunc_small 64 (p_ops P - 1)) by lia.
  pose proof (count_nonneg accept t).
  destruct (accept t); cbn [andb negb Z.b2z].
  - destruct (Z.leb_spec (p_ops P - 1) (count accept t)).
    + split; [done|]. split; [done|]. split; [lia|done].
    + rewrite trunc_small by lia. split; [done|]. split; [done|]. split; [done|].
      split; [lia|]. split; [done|]. split; [|by rewrite Ha].
      symmetry. apply Nat.ltb_lt. lia.
  - rewrite !Z.add_0_r. split; [done|]. split; [done|]. split; [done|].
    split; [lia|]. split; [done|]. split; [|by rewrite Ha]. symmetry. apply Nat.ltb_lt. lia.
Qed.

Lemma progress_th_resp : state (reg t) = RD_TH_RESP -> progress (S t).
Proof.
  intros E. at_state E. destruct Hprog as (Hlat & Hrun & Hcnt & Hg), Hcfg.
  destruct (edge_th_resp A DW LW (env t) (reg t) (Hrst t) E) as (E1 & E2 & E3 & E4 & E5).
  rewrite <- reg_S in *. rewrite E1, E2, count_S, (accept_guarded t Hg), Hcnt, Z.add_0_r.
  pose proof (running_S t Hrun E3 E5) as Hrun'.
  destruct (_ =? _); [|by auto].
  split; [done|]. split; [done|]. split; [done|]. by rewrite Hlat.
Qed.

Lemma progress_lat_valid : state (reg t) = RD_LAT_VALID -> progress (S t).
Proof.
  intros E. at_state E. destruct Hprog as (Hlat & Hrun & Hidx & Hlt & Hsam), Hcfg.
  destruct (edge_lat_valid A DW LW (env t) (reg t) (Hrst t) E)
    as (E1 & E2 & E3 & E4 & E5 & E6 & E7 & E8 & E9).
  rewrite <- reg_S in *. fold (accept t) in *. rewrite E1, E2, E7, count_sample_S, E4, count_S.
  pose proof (running_S t Hrun E3 E5) as Hrun'. pose proof (p_ops_range P).
  pose proof (count_nonneg accept t).
  destruct (accept t) eqn:Ea; cbn [andb negb Z.b2z].
  - rewrite Hidx, trunc_small by lia. split; [done|]. split; [done|]. split; [done|].
    split; [lia|]. split; [lia|]. split; [done|]. exists t. split; [lia|]. split; [done|].
    split; [by rewrite count_S, Ea|]. split; [lia|].
    rewrite E9 by done. replace (_ - 1 - _) with 0 by lia. done.
  - rewrite !Z.add_0_r. auto 10.
Qed.

Lemma progress_lat_resp : state (reg t) = RD_LAT_RESP -> progress (S t).
Proof.
  intros E. at_state E.
  destruct Hprog as (Hlat & Hrun & Hidx & Hle & Hsam & Hg & ta & Hta & Hacc & Hca & Hno & Htm), Hcfg.
  destruct (edge_lat_resp A DW LW (env t) (reg t) (Hrst t) E)
    as (E1 & E2 & E3 & E4 & E5 & E6 & E7 & E8).
  rewrite <- reg_S in *. fold (last t) in *.
  rewrite E1, E2, E6, count_sample_S, E4, count_S, (accept_guarded t Hg), Z.add_0_r.
  pose proof (running_S t Hrun E3 E5) as Hrun'.
  destruct (last t) eqn:El; cbn [Z.b2z].
  - rewrite c_num_r0, Hidx. destruct (Z.eqb_spec (count accept t) (p_ops P)).
    + split; [done|]. split; [done|]. split; [done|]. lia.
    + split; [done|]. split; [done|]. split; [done|]. lia.
  - split; [done|]. split; [done|]. split; [done|]. split; [lia|]. split; [lia|]. split; [done|].
    exists ta. split; [lia|]. split; [done|]. split; [done|]. split.
    + intros u Hu. destruct (decide (u = t)) as [->|]; [done|]. apply Hno. lia.
    + rewrite E8, Htm, trunc_add by done. f_equal. lia.
Qed.

Lemma progress_end : state (reg t) = RD_END -> progress (S t).
Proof.
  intros E. at_state E. destruct Hprog as ((Hr & Hs) & Hcnt & Hg & Hsam).
  destruct (edge_end A DW LW (env t) (reg t) (Hrst t) E) as (E1 & E2 & E3 & E4 & E5).
  rewrite <- reg_S in *. rewrite E1, E2, count_sample_S, E4, count_S, (accept_guarded t Hg).
  cbn [Z.b2z]. split; [lia|]. split; [done|]. split; [intros Hl; rewrite (Hsam Hl); lia|].
  exists (S t). split; [lia|]. split.
  - intros u Hu. destruct (Nat.eqb_spec u (S t)) as [->|]; [done|]. apply Hr. lia.
  - rewrite E5, Hs, trunc_add by done. f_equal. lia.
Qed.

Lemma progress_idle : state (reg t) = RD_IDLE -> progress (S t).
Proof.
  intros E. at_state E. destruct Hprog as (Hcnt & Hg & Hsam & te & Hte & Hend & Hs).
  destruct (edge_idle A DW LW (env t) (reg t) (Hrst t) E) as (E1 & E2 & E3 & E4 & E5).
  { apply started_later. lia. }
  rewrite <- reg_S in *. rewrite E1, E2, count_sample_S, E4, count_S, (accept_guarded t Hg).
  cbn [Z.b2z]. split; [lia|]. split; [done|]. split; [intros Hl; rewrite (Hsam Hl); lia|].
  exists te. split; [lia|]. split; [|by rewrite E5].
  intros u Hu. destruct (decide (u = S t)) as [->|]; [|apply Hend; lia].
  rewrite E3. symmetry. apply Nat.eqb_neq. lia.
Qed.
End Cases.

Lemma progress_always t :
  1 <= p_ops P -> (3 <= t)%nat -> configured (reg t) /\ progress t.
Proof.
  intros Hops. induction t as [|t IH]; intros Ht; [lia|].
  destruct (decide (t = 2)%nat) as [->|].
  - destruct begins as (B1 & B2 & B3 & B4 & B5 & B6 & B7 & B8). split; [done|].
    unfold progress. rewrite B8. destruct (p_latency P) eqn:El; rewrite B3, B6.
    + repeat (split; [done|]). split; [lia|done].
    + repeat (split; [done|]). rewrite B4, B5, Z.mul_0_r. split; [lia|]. split; [done|].
      split; [done|]. lia.
  - assert (Ht3 : (3 <= t)%nat) by lia. destruct (IH Ht3) as [Hc Hp].
    assert (Hns : state (reg t) <> RD_STARTED).
    { intros E. unfold progress in Hp. by rewrite E in Hp. }
    split; [apply configured_S; [lia|done..]|].
    destruct (state (reg t)) eqn:E; try done.
    + by apply progress_idle.
    + unfold progress in Hp. by rewrite E in Hp.
    + by apply progress_lat_valid.
    + by apply progress_lat_resp.
    + by apply progress_th_valid.
    + by apply progress_th_resp.
    + by apply progress_end.
    + unfold progress in Hp. by rewrite E in Hp.
Qed.

(** ** The end of a run *)

(** The memory: it accepts an address that is offered, it answers only what it
    accepted, and it answers all of it. *)
Record memory : Prop := {
  mem_ready : forall t, m_axi_ARVALID (reg t) = true ->
    exists t', (t <= t')%nat /\ m_axi_ARREADY (env t') = true;
  mem_causal : forall t, count last (S t) <= count accept t;
  mem_answers : forall t, exists t', (t <= t')%nat /\ count accept t <= count last t';
}.

Section Completes.
Context (Hops : 1 <= p_ops P) (Hmem : memory).

Lemma no_answer_2 : count last 2 = 0.
Proof.
  pose proof (mem_causal Hmem 1) as H. pose proof (count_nonneg last 2).
  pose proof (count_mono accept 1 3 ltac:(lia)). destruct begins as (_ & _ & _ & _ & _ & B & _). lia.
Qed.

Lemma lasts_counted t : (2 <= t)%nat -> read_resp_lasts (reg t) = trunc 64 (count last t).
Proof.
  induction t as [|t IH]; intros Ht; [lia|].
  destruct (edge_always A DW LW (env t) (reg t) (Hrst _)) as (_ & _ & E).
  rewrite <- reg_S in E. fold (last t) in E. destruct (decide (t = 1)%nat) as [->|].
  - destruct idle_1 as (_ & _ & _ & _ & Hs & _). rewrite Hs in E. by rewrite E, no_answer_2.
  - rewrite started_later in E by lia. by rewrite E, IH, trunc_add, count_S by lia.
Qed.

(** How many answers came, per state. *)
Definition answered (t : nat) : Prop :=
  match state (reg t) with
  | RD_LAT_VALID => count last t = count accept t
  | RD_LAT_RESP => count last t = count accept t - 1
  | RD_END | RD_IDLE => count last t = p_ops P
  | _ => True
  end.

Lemma last_causal t n : count last t = n -> count accept t = n -> last t = false.
Proof.
  intros <- Ha. pose proof (mem_causal Hmem t) as H. rewrite count_S in H.
  destruct (last t); [cbn in H; lia|done].
Qed.

Lemma answered_S t : (3 <= t)%nat -> answered t -> answered (S t).
Proof.
  intros Ht Hans. destruct (progress_always t Hops Ht) as [Hc Hp].
  unfold answered in *. unfold progress in Hp. rewrite count_S. destruct (state (reg t)) eqn:E; try done.
  - destruct (edge_idle A DW LW (env t) (reg t) (Hrst t) E) as (E1 & _);
      [apply started_later; lia|].
    rewrite <- reg_S in E1. rewrite E1, (last_causal t (p_ops P)) by (done || apply Hp).
    cbn. lia.
  - destruct (edge_lat_valid A DW LW (env t) (reg t) (Hrst t) E) as (E1 & _).
    rewrite <- reg_S in E1. fold (accept t) in E1. rewrite E1, count_S.
    rewrite (last_causal t (count accept t)) by done. destruct (accept t); cbn; lia.
  - destruct Hp as (_ & _ & Hidx & _ & _ & Hg & _).
    destruct (edge_lat_resp A DW LW (env t) (reg t) (Hrst t) E) as (E1 & _).
    rewrite <- reg_S in E1. fold (last t) in E1.
    rewrite E1, count_S, (accept_guarded t Hg), Hidx, (c_num_r _ Hc).
    destruct (last t); [destruct (Z.eqb_spec (count accept t) (p_ops P))|]; cbn; lia.
  - destruct (edge_th_valid A DW LW (env t) (reg t) (Hrst t) E) as (E1 & _).
    rewrite <- reg_S in E1. rewrite E1. by destruct (_ && _).
  - destruct (edge_th_resp A DW LW (env t) (reg t) (Hrst t) E) as (E1 & _).
    rewrite <- reg_S in E1. rewrite E1. destruct (Z.eqb_spec (read_resp_lasts (reg t)) (num_mem_ops (reg t))) as [H|H]; [|done].
    rewrite lasts_counted, (c_num _ Hc) in H by lia. destruct Hp as (_ & _ & Hcnt & _).
    pose proof (mem_causal Hmem t) as Hcs. rewrite count_S in Hcs.
    pose proof (count_nonneg last t). pose proof (p_ops_range P).
    rewrite trunc_small in H by (destruct (last t); cbn in Hcs; lia).
    destruct (last t); cbn in *; lia.
  - destruct Hp as (_ & Hcnt & _).
    destruct (edge_end A DW LW (env t) (reg t) (Hrst t) E) as (E1 & _).
    rewrite <- reg_S in E1. rewrite E1, (last_causal t (p_ops P)) by done. cbn. lia.
Qed.

Lemma answered_always t : (3 <= t)%nat -> answered t.
Proof.
  induction t as [|t IH]; intros Ht; [lia|].
  destruct (decide (t = 2)%nat) as [->|]; [|apply answered_S; [lia|]; apply IH; lia].
  destruct begins as (_ & _ & _ & _ & _ & B & _ & E). unfold answered. rewrite E, B.
  destruct (p_latency P); [|done]. pose proof (mem_causal Hmem 2) as H.
  pose proof (count_nonneg last 3). pose proof (count_mono accept 2 3 ltac:(lia)). lia.
Qed.

(** [m] operations are still to be offered to the memory. *)
Definition left_in (s : rd_state) (m : nat) (t : nat) : Prop :=
  (3 <= t)%nat /\ state (reg t) = s /\ p_ops P - count accept t = Z.of_nat m.

Definition in_state (s : rd_state) (t : nat) : Prop := (3 <= t)%nat /\ state (reg t) = s.

Lemma th_offered m :
  leads_to (fun t => left_in RD_TH_VALID m t /\ guard_ARVALID (reg t) = true)
    (fun t => left_in RD_TH_VALID (pred m) t \/ in_state RD_TH_RESP t).
Proof.
  apply (leads_to_wait _ _ (fun t => m_axi_ARREADY (env t))).
  - intros t ((Ht & E & Hm) & Hg).
    destruct (progress_always (S t) Hops ltac:(lia)) as [_ Hp].
    destruct (edge_th_valid A DW LW (env t) (reg t) (Hrst t) E) as (E1 & E2 & _).
    rewrite <- reg_S in E1, E2. fold (accept t) in E1, E2. unfold progress in Hp.
    rewrite (accept_offered t Hg) in E1, E2.
    unfold left_in, in_state. rewrite count_S, (accept_offered t Hg).
    destruct (m_axi_ARREADY (env t)) eqn:Er.
    + destruct (num_mem_ops_minus_1 (reg t) <=? mem_op_index (reg t)).
      * right. split; [lia|done].
      * left. split; [lia|]. split; [done|]. rewrite E1, count_S in Hp.
        destruct Hp as (_ & _ & _ & Hlt & _). rewrite (accept_offered t Hg), Er in Hlt.
        cbn [Z.b2z andb] in *. lia.
    + split; [|done]. split; [lia|]. split; [done|]. cbn [Z.b2z]. lia.
  - intros t ((Ht & E & Hm) & Hg). by apply (mem_ready Hmem).
Qed.

Lemma th_advances m :
  leads_to (left_in RD_TH_VALID m)
    (fun t => left_in RD_TH_VALID (pred m) t \/ in_state RD_TH_RESP t).
Proof.
  intros t H. destruct (guard_ARVALID (reg t)) eqn:Hg; [by apply (th_offered m)|].
  destruct H as (Ht & E & Hm).
  destruct (edge_th_valid A DW LW (env t) (reg t) (Hrst t) E) as (E1 & E2 & _).
  rewrite <- reg_S in E1, E2. unfold m_axi_ARVALID in E1, E2. rewrite Hg, andb_false_r in E1, E2.
  destruct (th_offered m (S t)) as (t' & Ht' & Hq); [|exists t'; split; [lia|done]].
  split; [|done]. split; [lia|]. split; [done|].
  by rewrite count_S, (accept_guarded t Hg), Z.add_0_r.
Qed.

Lemma th_all_accepted m : leads_to (left_in RD_TH_VALID m) (in_state RD_TH_RESP).
Proof.
  eapply leads_to_weaken.
  - apply (leads_to_down (left_in RD_TH_VALID)). intros k. apply (th_advances (S k)).
  - intros t [(Ht & E & Hm)|]; [|done].
    destruct (progress_always t Hops Ht) as [_ Hp]. unfold progress in Hp. rewrite E in Hp.
    destruct Hp as (_ & _ & _ & Hlt & _). lia.
Qed.

(** After the last address none is accepted any more. *)
Lemma accepted_stays t t' :
  (3 <= t)%nat -> (t <= t')%nat -> count accept t = p_ops P -> count accept t' = p_ops P.
Proof.
  intros H3 Ht Hc. induction Ht as [|u Hu IH]; [done|].
  destruct (progress_always (S u) Hops ltac:(lia)) as [_ Hp].
  pose proof (count_mono accept u (S u) ltac:(lia)). unfold progress in Hp.
  destruct (state (reg (S u))); try done; lia || by apply Hp.
Qed.

Lemma th_answered : leads_to (in_state RD_TH_RESP) (in_state RD_END).
Proof.
  apply (leads_to_wait _ _ (fun t => read_resp_lasts (reg t) =? p_ops P)).
  - intros t [Ht E]. destruct (progress_always t Hops Ht) as [Hc _].
    destruct (edge_th_resp A DW LW (env t) (reg t) (Hrst t) E) as (E1 & _).
    rewrite <- reg_S, (c_num _ Hc) in E1. unfold in_state.
    destruct (_ =? _); (split; [lia|done]).
  - intros t [Ht E]. destruct (progress_always t Hops Ht) as [_ Hp]. unfold progress in Hp.
    rewrite E in Hp. destruct Hp as (_ & _ & Hcnt & _).
    destruct (mem_answers Hmem t) as (t' & Hle & Hans). exists t'. split; [done|].
    apply Z.eqb_eq. rewrite lasts_counted by lia.
    pose proof (mem_causal Hmem t') as Hcs. rewrite count_S in Hcs.
    pose proof (accepted_stays t t' Ht Hle Hcnt) as Hst. pose proof (p_ops_range P).
    assert (count last t' = p_ops P) as -> by (destruct (last t'); cbn in Hcs; lia).
    apply trunc_small. lia.
Qed.

Lemma lat_offered m :
  leads_to (fun t => left_in RD_LAT_VALID (S m) t /\ guard_ARVALID (reg t) = true)
    (left_in RD_LAT_RESP m).
Proof.
  apply (leads_to_wait _ _ (fun t => m_axi_ARREADY (env t))).
  - intros t ((Ht & E & Hm) & Hg).
    destruct (edge_lat_valid A DW LW (env t) (reg t) (Hrst t) E) as (E1 & E2 & _).
    rewrite <- reg_S in E1, E2. fold (accept t) in E1, E2.
    rewrite (accept_offered t Hg) in E1, E2.
    unfold left_in. rewrite count_S, (accept_offered t Hg).
    destruct (m_axi_ARREADY (env t)); cbn [Z.b2z negb] in *.
    + split; [lia|]. split; [done|lia].
    + split; [|done]. split; [lia|]. split; [done|lia].
  - intros t ((Ht & E & Hm) & Hg). by apply (mem_ready Hmem).
Qed.

Lemma lat_accepted m : leads_to (left_in RD_LAT_VALID (S m)) (left_in RD_LAT_RESP m).
Proof.
  intros t H. destruct (guard_ARVALID (reg t)) eqn:Hg; [by apply (lat_offered m)|].
  destruct H as (Ht & E & Hm).
  destruct (edge_lat_valid A DW LW (env t) (reg t) (Hrst t) E) as (E1 & E2 & _).
  rewrite <- reg_S in E1, E2. unfold m_axi_ARVALID in E1, E2. rewrite Hg, andb_false_r in E1, E2.
  destruct (lat_offered m (S t)) as (t' & Ht' & Hq); [|exists t'; split; [lia|done]].
  split; [|done]. split; [lia|]. split; [done|].
  by rewrite count_S, (accept_guarded t Hg), Z.add_0_r.
Qed.

Lemma lat_answered m :
  leads_to (left_in RD_LAT_RESP m) (fun t => left_in RD_LAT_VALID m t \/ in_state RD_END t).
Proof.
  apply (leads_to_wait _ _ last).
  - intros t (Ht & E & Hm). destruct (progress_always t Hops Ht) as [_ Hp].
    unfold progress in Hp. rewrite E in Hp. destruct Hp as (_ & _ & _ & _ & _ & Hg & _).
    destruct (edge_lat_resp A DW LW (env t) (reg t) (Hrst t) E) as (E1 & _).
    rewrite <- reg_S in E1. fold (last t) in E1. unfold left_in, in_state.
    rewrite count_S, (accept_guarded t Hg), Z.add_0_r.
    destruct (last t); [|by (split; [lia|done])].
    destruct (_ =? _); [right|left]; (split; [lia|done]).
  - intros t (Ht & E & Hm). destruct (mem_answers Hmem t) as (t' & Hle & Hans).
    pose proof (answered_always t Ht) as H. unfold answered in H. rewrite E in H.
    destruct (count_lt last t t') as (u & Hu & Hl); [lia|]. exists u. split; [lia|done].
Qed.

Lemma lat_all_answered m : leads_to (left_in RD_LAT_VALID m) (in_state RD_END).
Proof.
  eapply leads_to_weaken.
  - apply (leads_to_down (left_in RD_LAT_VALID)). intros k.
    eapply leads_to_trans; [apply lat_accepted|apply lat_answered].
  - intros t [(Ht & E & Hm)|]; [|done].
    destruct (progress_always t Hops Ht) as [_ Hp]. unfold progress in Hp. rewrite E in Hp.
    destruct Hp as (_ & _ & _ & Hlt & _). lia.
Qed.

Lemma reaches_end : exists t, in_state RD_END t.
Proof.
  destruct begins as (_ & _ & _ & _ & _ & B & _ & E).
  set (m := Z.to_nat (p_ops P)).
  assert (Hm : p_ops P - count accept 3 = Z.of_nat m) by (unfold m; lia).
  destruct (p_latency P).
  - destruct (lat_all_answered m 3%nat) as (t & _ & Ht); [by split|by exists t].
  - destruct (th_all_accepted m 3%nat) as (t1 & _ & Ht1); [by split|].
    destruct (th_answered t1 Ht1) as (t & _ & Ht). by exists t.
Qed.

Lemma idle_stays t t' : in_state RD_IDLE t -> (t <= t')%nat -> in_state RD_IDLE t'.
Proof.
  intros H. induction 1 as [|u Hu IH]; [done|]. destruct IH as [H3 E].
  destruct (edge_idle A DW LW (env u) (reg u) (Hrst u) E) as (E1 & _);
    [apply started_later; lia|]. by split; [lia|].
Qed.
End Completes.

(** ** The addresses on offer *)

Lemma offered_addr t :
  guard_ARVALID (reg (S t)) = true ->
  m_axi_ARADDR (reg (S t)) = next_addr A (reg t) /\
  (state (reg t) = RD_TH_VALID \/ state (reg t) = RD_LAT_VALID).
Proof.
  rewrite reg_S. unfold rd_step, rd_fsm, rd_idle, rd_started, rd_lat_valid, rd_lat_resp,
    rd_th_valid, rd_th_resp, rd_end. rewrite Hrst. cbn.
  destruct (state (reg t)) eqn:?; cbn; branches; auto.
Qed.

Lemma offered_from t :
  1 <= p_ops P -> guard_ARVALID (reg t) = true ->
  exists t0, t = S t0 /\ (3 <= t0)%nat /\ m_axi_ARADDR (reg t) = next_addr A (reg t0).
Proof.
  intros Hops Hg. destruct t as [|t]; [by rewrite (quiet_valid r0 Hquiet : guard_ARVALID (reg 0) = false) in Hg|].
  exists t. split; [done|]. destruct (offered_addr t Hg) as [Haddr Hs]. split; [|done].
  destruct (decide (3 <= t)%nat) as [|Hlt]; [done|].
  destruct begins as (_ & _ & _ & _ & B3 & B & _ & _).
  destruct t as [|[|[|t]]]; [| | |lia]; exfalso.
  - pose proof (quiet_state r0 Hquiet : state (reg 0) = RD_IDLE) as E. rewrite E in Hs.
    by destruct Hs.
  - destruct idle_1 as (I1 & _). rewrite I1 in Hs. by destruct Hs.
  - congruence.
Qed.
Section Throughput.
Context (Hops : 1 <= p_ops P) (Hlat : p_latency P = false).

Lemma th_address t :
  guard_ARVALID (reg t) = true ->
  m_axi_ARADDR (reg t) = op_addr A P (count accept (pred t)) /\ count accept t < p_ops P.
Proof.
  intros Hg. destruct (offered_from t Hops Hg) as (t0 & -> & Ht & _).
  destruct (progress_always (S t0) Hops ltac:(lia)) as [_ Hp].
  unfold progress in Hp. rewrite Hg, Hlat in Hp.
  destruct (state (reg (S t0))); try done; try by destruct Hp.
  - by destruct Hp as (_ & Hf & _).
  - destruct Hp as (_ & _ & _ & Hlt & _ & _ & Haddr). split; [apply Haddr; lia|done].
  - by destruct Hp as (_ & _ & _ & Hf).
  - by destruct Hp as (_ & _ & Hf & _).
Qed.

Lemma th_offers t :
  (3 < t)%nat -> count accept t < p_ops P ->
  state (reg t) = RD_TH_VALID /\ guard_ARVALID (reg t) = true.
Proof.
  intros Ht Hlt. destruct (progress_always t Hops ltac:(lia)) as [_ Hp].
  unfold progress in Hp. rewrite Hlat in Hp.
  destruct (state (reg t)); try done; try by destruct Hp.
  - destruct Hp; lia.
  - destruct Hp as (_ & _ & _ & _ & _ & -> & _). split; [done|]. by apply Nat.ltb_lt.
  - destruct Hp as (_ & _ & ? & _). lia.
  - destruct Hp as (_ & ? & _). lia.
Qed.

Lemma full_speed (k : nat) :
  (forall t, m_axi_ARREADY (env t) = true) -> Z.of_nat k <= p_ops P ->
  count accept (4 + k) = Z.of_nat k /\
  observed accept (fun u => m_axi_ARADDR (reg u)) (4 + k) =
    (fun j => op_addr A P (Z.max 0 (j - 1))) <$> seqZ 0 (Z.of_nat k).
Proof.
  intros Hready. induction k as [|k IH]; intros Hk.
  - destruct begins as (_ & _ & _ & _ & B3 & B & _ & _).
    assert (N0 : forall t, (t <= 3)%nat -> accept t = false).
    { intros t Ht. destruct (decide (t = 3)%nat) as [->|]; [by apply accept_guarded|].
      pose proof (count_mono accept (S t) 3 ltac:(lia)) as Hm. rewrite count_S in Hm.
      pose proof (count_nonneg accept t). destruct (accept t); [cbn [Z.b2z] in Hm; lia|done]. }
    cbn [Nat.add]. by rewrite count_S, B, !observed_S, !N0 by lia.
  - destruct IH as [Hc Ho]; [lia|]. destruct (th_offers (4 + k)) as [_ Hg]; [lia|lia|].
    assert (Ha : accept (4 + k) = true) by by rewrite accept_offered.
    destruct (th_address _ Hg) as [Haddr _].
    replace (4 + S k)%nat with (S (4 + k)) by lia.
    rewrite count_S, observed_S, Ha, Hc, Ho, Haddr, seqZ_S, fmap_app.
    split; [cbn [Z.b2z]; lia|]. rewrite Z.add_0_l. f_equal.
    apply (f_equal (fun j => [op_addr A P j])).
    destruct k as [|k].
    + destruct begins as (_ & _ & _ & _ & _ & B & _ & _). transitivity (count accept 3); [done|by rewrite B].
    + pose proof (count_S accept (4 + k)) as E. change (S (4 + k)) with (4 + S k)%nat in E.
      rewrite Hc in E. change (pred (4 + S k)) with (4 + k)%nat.
      assert (Ha' : accept (4 + k) = true); [|rewrite Ha' in E; cbn [Z.b2z] in E; lia].
      rewrite accept_offered; [done|]. apply th_offers; [lia|].
      pose proof (count_mono accept (4 + k) (4 + S k) ltac:(lia)). lia.
Qed.
End Throughput.
Lemma accepted_le t : 1 <= p_ops P -> count accept t <= p_ops P.
Proof.
  intros Hops. pose proof (count_mono accept t (S (S (S t))) ltac:(lia)).
  destruct (progress_always (S (S (S t))) Hops ltac:(lia)) as [_ Hp]. unfold progress in Hp.
  destruct (state _); try done; try (destruct Hp as (? & ? & ? & ?); lia).
Qed.

(** A sample belongs to the answer of the cycle before. *)
Lemma sample_source t :
  1 <= p_ops P -> sample t = true ->
  exists t0, t = S t0 /\ (3 <= t0)%nat /\ state (reg t0) = RD_LAT_RESP /\ last t0 = true /\
    lat_timer (reg t) = trunc 16 (lat_timer (reg t0) + 1).
Proof.
  intros Hops Hs. unfold sample in Hs.
  destruct begins as (_ & _ & _ & _ & _ & _ & B & _).
  assert (N0 : forall u, (u <= 3)%nat -> sample u = false).
  { intros u Hu. pose proof (count_mono sample (S u) 4 ltac:(lia)) as Hm. rewrite count_S, B in Hm.
    pose proof (count_nonneg sample u). destruct (sample u); [cbn [Z.b2z] in Hm; lia|done]. }
  destruct (decide (t <= 3)%nat) as [Hle|Hgt]; [by rewrite (N0 t Hle : lat_timer_valid _ = _) in Hs|].
  destruct t as [|t0]; [lia|]. exists t0. split; [done|]. split; [lia|].
  destruct (progress_always t0 Hops ltac:(lia)) as [_ Hp]. unfold progress in Hp.
  pose proof (edge_idle A DW LW (env t0) (reg t0) (Hrst t0)) as Ei.
  pose proof (edge_lat_valid A DW LW (env t0) (reg t0) (Hrst t0)) as Ev.
  pose proof (edge_lat_resp A DW LW (env t0) (reg t0) (Hrst t0)) as Er.
  pose proof (edge_th_valid A DW LW (env t0) (reg t0) (Hrst t0)) as Et.
  pose proof (edge_th_resp A DW LW (env t0) (reg t0) (Hrst t0)) as Eq.
  pose proof (edge_end A DW LW (env t0) (reg t0) (Hrst t0)) as Ee.
  rewrite <- reg_S in *. pose proof (started_later t0 ltac:(lia)) as Hst.
  destruct (state (reg t0)); try done.
  - destruct (Ei eq_refl Hst) as (_ & _ & _ & E & _). congruence.
  - destruct (Ev eq_refl) as (_ & _ & _ & E & _). congruence.
  - destruct (Er eq_refl) as (_ & _ & _ & E & _ & _ & _ & E2). fold (last t0) in E.
    split; [done|]. split; [congruence|done].
  - destruct (Et eq_refl) as (_ & _ & _ & E & _). congruence.
  - destruct (Eq eq_refl) as (_ & _ & _ & E & _). congruence.
  - destruct (Ee eq_refl) as (_ & _ & _ & E & _). congruence.
Qed.
(** A run of no operations. *)
Definition endless (t : nat) : Prop :=
  end_of_exec (reg t) = false /\
  match state (reg t) with
  | RD_TH_VALID | RD_LAT_VALID => 0 <= mem_op_index (reg t) <= Z.of_nat t
  | RD_LAT_RESP => 1 <= mem_op_index (reg t) <= Z.of_nat t
  | _ => False
  end.

Lemma endless_S t :
  p_ops P = 0 -> (3 <= t)%nat -> Z.of_nat t < 2 ^ 64 - 1 ->
  configured (reg t) -> endless t -> endless (S t).
Proof.
  intros Hops H3 Ht [] [He Hs]. unfold endless. destruct (state (reg t)) eqn:E; try done.
  - destruct (edge_lat_valid A DW LW (env t) (reg t) (Hrst t) E)
      as (E1 & _ & E3 & _ & _ & _ & E7 & _).
    rewrite <- reg_S in *. rewrite E1, E3, E7.
    destruct (_ && _); rewrite ?trunc_small by lia; (split; [done|lia]).
  - destruct (edge_lat_resp A DW LW (env t) (reg t) (Hrst t) E)
      as (E1 & _ & E3 & _ & _ & E6 & _).
    rewrite <- reg_S in *. rewrite E1, E3, E6, c_num_r0, Hops.
    rewrite (proj2 (Z.eqb_neq _ _)) by lia. by destruct (_ && _); (split; [done|lia]).
  - destruct (edge_th_valid A DW LW (env t) (reg t) (Hrst t) E)
      as (E1 & _ & E3 & _ & _ & _ & E7 & _).
    rewrite <- reg_S in *. rewrite E1, E3, E7, c_num_2, Hops.
    change (trunc 64 (0 - 1)) with (2 ^ 64 - 1). rewrite (proj2 (Z.leb_gt _ _)) by lia.
    rewrite andb_false_r. clear E1 E7.
    destruct (_ && _); rewrite ?trunc_small by lia; (split; [done|lia]).
Qed.

Lemma endless_upto t :
  p_ops P = 0 -> (3 <= t)%nat -> Z.of_nat t < 2 ^ 64 -> configured (reg t) /\ endless t.
Proof.
  intros Hops. induction t as [|t IH]; intros H3 Ht; [lia|].
  destruct (decide (t = 2)%nat) as [->|].
  - destruct begins as (B1 & [B2 _] & B3 & _ & _ & _ & _ & B8). split; [done|].
    unfold endless. rewrite B2, B8, B3 by lia. by destruct (p_latency P); (split; [done|lia]).
  - destruct IH as [Hc He]; [lia|lia|]. split; [|by apply endless_S; [|lia|lia|..]].
    apply configured_S; [lia|done|]. intros E. unfold endless in He. rewrite E in He. by destruct He.
Qed.
End Run.

(** ** Properties *)

Section Properties.
Context (A DW LW : Z) (env : nat -> rd_in) (r0 : rd_reg).
Abbreviation reg := (reg A DW LW env r0).
Abbreviation accept := (accept A DW LW env r0).
Abbreviation sample := (sample A DW LW env r0).
Abbreviation P := (lt_params (env 0%nat)).

(** One run: reset is over, and [start] is a pulse in cycle 0. *)
Record one_run : Prop := {
  run_width : 0 <= A;
  run_reset : forall t, rst_n (env t) = true;
  run_start : forall t, start (env t) = (t =? 0)%nat;
  run_quiet : quiet r0;
}.

(** Where a latency sample comes from. *)
Lemma sample_latency t :
  one_run -> 1 <= p_ops P -> sample t = true ->
    exists ta tl, t = S tl /\ (ta < tl)%nat /\ accept ta = true /\ last env tl = true /\
      (forall u, (ta < u < tl)%nat -> accept u = false /\ last env u = false) /\
      count accept ta = count sample t /\
      lat_timer (reg t) = trunc 16 (Z.of_nat tl - Z.of_nat ta).
Proof.
  intros [HA Hrst Hstart Hquiet] Hops Hs.
  destruct (sample_source A DW LW HA env r0 Hrst Hstart Hquiet t Hops Hs)
    as (tl & -> & H3 & Es & Hl & ->).
  destruct (progress_always A DW LW HA env r0 Hrst Hstart Hquiet tl Hops H3) as [_ Hp].
  unfold progress in Hp. rewrite Es in Hp.
  destruct Hp as (_ & _ & _ & _ & Hcs & _ & ta & Hta & Ha & Hc & Hno & ->).
  exists ta, tl. split; [done|]. split; [done|]. split; [done|]. split; [done|].
  rewrite count_S, Ha in Hc. cbn [Z.b2z] in Hc. split; [|split].
  - intros u Hu. split; [|by apply Hno].
    pose proof (count_mono accept (S ta) u ltac:(lia)) as H1. rewrite count_S, Ha in H1. cbn [Z.b2z] in H1.
    pose proof (count_mono accept (S u) tl ltac:(lia)) as H2. rewrite count_S in H2.
    destruct (accept u); [cbn [Z.b2z] in H2; lia|done].
  - lia.
  - rewrite trunc_add by done. f_equal. lia.
Qed.

(** The run as a whole. *)
Lemma run_done :
  one_run -> 1 <= p_ops P -> memory A DW LW env r0 ->
  exists te, forall t, (te <= t)%nat ->
    end_of_exec (reg t) = (t =? te)%nat /\ (forall u, (u < te)%nat -> end_of_exec (reg u) = false) /\
    count accept t = p_ops P /\ count (last env) t = p_ops P /\
    (p_latency P = true -> count sample t = p_ops P) /\
    lat_timer_sum (reg t) = trunc 64 (Z.of_nat te - 3) /\ state (reg t) = RD_IDLE.
Proof.
  intros [HA Hrst Hstart Hquiet] Hops Hmem.
  destruct (reaches_end A DW LW HA env r0 Hrst Hstart Hquiet Hops Hmem) as (tE & HtE & EE).
  destruct (edge_end A DW LW (env tE) (reg tE) (Hrst tE) EE) as (E1 & _ & E3 & _).
  rewrite <- reg_S in E1, E3. exists (S tE). intros t Ht.
  destruct (idle_stays A DW LW env r0 Hrst Hstart (S tE) t) as [H3 Et];
    [split; [lia|done]|done|].
  destruct (progress_always A DW LW HA env r0 Hrst Hstart Hquiet t Hops H3) as [_ Hp].
  pose proof (answered_always A DW LW HA env r0 Hrst Hstart Hquiet Hops Hmem t H3) as Hans.
  unfold progress in Hp. unfold answered in Hans. rewrite Et in Hp, Hans.
  destruct Hp as (Hcnt & _ & _ & te & Hte & Hend & Hsum).
  assert (te = S tE) as ->.
  { specialize (Hend (S tE) Ht). rewrite E3 in Hend. symmetry in Hend.
    by apply Nat.eqb_eq in Hend. }
  split; [by apply Hend|]. split.
  { intros u Hu. rewrite Hend by lia. apply Nat.eqb_neq. lia. }
  split; [done|]. split; [done|]. split; [|done]. intros Hl.
  destruct (progress_always A DW LW HA env r0 Hrst Hstart Hquiet (pred t) Hops ltac:(lia)) as [_ Hq].
  unfold progress in Hq. replace (S (pred t)) with t in Hq by lia.
  assert (state (reg (pred t)) = RD_END \/ state (reg (pred t)) = RD_IDLE) as [Es|Es].
  { destruct (decide (t = S tE)) as [->|]; [by left|]. right.
    apply (idle_stays A DW LW env r0 Hrst Hstart (S tE) (pred t)); [split; [lia|done]|lia]. }
  - rewrite Es in Hq. by apply Hq.
  - rewrite Es in Hq. by apply Hq.
Qed.

(** C9: a run ends.  With a memory that accepts what it is offered and answers
    what it accepted, once, the engine raises [end_of_exec] in one cycle and
    only there; by then exactly the number of operations of the parameters was
    accepted and answered, each with one latency sample in a latency test; the
    timer has the cycles since the first one of the run and keeps them, and the
    engine is idle again. *)
Theorem rd_run_completes :
  one_run -> 1 <= p_ops P -> memory A DW LW env r0 ->
  exists te, forall t, (te <= t)%nat ->
    end_of_exec (reg t) = (t =? te)%nat /\ (forall u, (u < te)%nat -> end_of_exec (reg u) = false) /\
    count accept t = p_ops P /\ count (last env) t = p_ops P /\
    (p_latency P = true -> count sample t = p_ops P) /\
    lat_timer_sum (reg t) = trunc 64 (Z.of_nat te - 3) /\ state (reg t) = RD_IDLE.
Proof. exact run_done. Qed.

(** C17: in a throughput test the address accepted in a cycle is that of the
    operation whose number is how many were accepted up to the cycle before
    the previous one: an address accepted right after another one repeats the
    older position, as the offset advances one cycle late. *)
Theorem rd_throughput_addresses :
  one_run -> 1 <= p_ops P -> p_latency P = false ->
  forall t, accept t = true ->
    m_axi_ARADDR (reg t) = op_addr A P (count accept (pred t)) /\ count accept t < p_ops P.
Proof.
  intros [HA Hrst Hstart Hquiet] Hops Hlat t Ha. by apply th_address; try apply accept_valid.
Qed.

(** C28: with a memory that is always ready a throughput test reads the first
    address twice and the last one never: operation [k] reads the place of
    operation [k - 1]. *)
Theorem rd_full_speed_addresses :
  one_run -> 1 <= p_ops P -> p_latency P = false ->
  (forall t, m_axi_ARREADY (env t) = true) ->
  observed accept (fun u => m_axi_ARADDR (reg u)) (4 + Z.to_nat (p_ops P)) =
    (fun k => op_addr A P (Z.max 0 (k - 1))) <$> seqZ 0 (p_ops P).
Proof.
  intros [HA Hrst Hstart Hquiet] Hops Hlat Hready.
  destruct (full_speed A DW LW HA env r0 Hrst Hstart Hquiet Hops Hlat (Z.to_nat (p_ops P)) Hready)
    as [_ Ho]; [lia|]. by rewrite Z2Nat.id in Ho by lia.
Qed.

(** A latency sample is the number of cycles between the cycle in which an
    address was accepted and the cycle of the last beat of its answer, modulo
    2^16; there is one operation at a time, and the samples are in the order of
    the operations. *)
Theorem rd_latency_samples :
  one_run -> 1 <= p_ops P ->
  forall t, sample t = true ->
    exists ta tl, t = S tl /\ (ta < tl)%nat /\ accept ta = true /\ last env tl = true /\
      (forall u, (ta < u < tl)%nat -> accept u = false /\ last env u = false) /\
      count accept ta = count sample t /\
      lat_timer (reg t) = trunc 16 (Z.of_nat tl - Z.of_nat ta).
Proof. intros Hrun Hops t. by apply sample_latency. Qed.

(** C40: every address that is accepted lies in the work group: it is at most the
    size minus one above the initial address, modulo the width [A] of an address;
    so it lies between the two when the work group does not reach beyond the
    [2 ^ A] addresses. *)
Theorem rd_addresses_in_group :
  one_run -> 1 <= p_ops P ->
  forall t, accept t = true ->
    (exists o, 0 <= o <= p_mask P /\ m_axi_ARADDR (reg t) = trunc A (p_base A P + o)) /\
    (p_base A P + p_mask P < 2 ^ A ->
       p_base A P <= m_axi_ARADDR (reg t) <= p_base A P + p_mask P).
Proof.
  intros [HA Hrst Hstart Hquiet] Hops t Ha.
  destruct (offered_from A DW LW env r0 Hrst Hstart Hquiet t Hops (accept_valid _ _ _ _ _ t Ha))
    as (t0 & -> & H3 & ->).
  destruct (progress_always A DW LW HA env r0 Hrst Hstart Hquiet t0 Hops H3) as [[] _].
  unfold next_addr. rewrite c_base0, c_mask0.
  pose proof (slice_range 160 A P HA) as Hb. fold (p_base A P) in Hb.
  pose proof (land_below (offset_addr (reg t0)) (p_mask P) (proj1 (trunc_range 32 _ ltac:(done)))).
  split; [eexists; split; [done|reflexivity]|]. intros Hfit. rewrite trunc_small; lia.
Qed.

(** An address that is on offer and not accepted does not stay: the engine
    offers the place of the operations accepted so far in the next cycle, which
    is another one whenever the previous cycle accepted an address. *)
Theorem rd_offer_changes :
  one_run -> 1 <= p_ops P -> p_latency P = false ->
  forall t, m_axi_ARVALID (reg (S t)) = true -> m_axi_ARREADY (env (S t)) = false ->
    accept t = true ->
    m_axi_ARVALID (reg (S (S t))) = true /\
    m_axi_ARADDR (reg (S t)) = op_addr A P (count accept t) /\
    m_axi_ARADDR (reg (S (S t))) = op_addr A P (count accept t + 1).
Proof.
  intros [HA Hrst Hstart Hquiet] Hops Hlat t Hv Hr Ha. unfold m_axi_ARVALID in *.
  pose proof (accept_valid _ _ _ _ _ t Ha) as Hg.
  assert (H3 : (3 < t)%nat).
  { destruct (decide (3 < t)%nat); [done|].
    destruct (offered_from A DW LW env r0 Hrst Hstart Hquiet t Hops Hg) as (t0 & -> & ? & _). lia. }
  destruct (th_address A DW LW HA env r0 Hrst Hstart Hquiet Hops Hlat (S t) Hv) as [Haddr Hlt].
  assert (Hc : count accept (S (S t)) = count accept (S t)).
  { rewrite count_S. unfold accept at 2. by rewrite Hr, Z.add_0_r. }
  destruct (th_offers A DW LW HA env r0 Hrst Hstart Hquiet Hops Hlat (S (S t))) as [_ Hv2];
    [lia|by rewrite Hc|].
  destruct (th_address A DW LW HA env r0 Hrst Hstart Hquiet Hops Hlat _ Hv2) as [Haddr2 _].
  split; [done|]. split; [done|]. rewrite Haddr2. cbn [pred]. by rewrite count_S, Ha.
Qed.

(** A run whose number of operations is a multiple of 2^32 does not end in
    the first 2^64 cycles, whatever the memory does: the read engine keeps 32
    bits of the number, and compares the count of operations with the
    predecessor of 0. *)
Theorem rd_zero_operations_hang :
  one_run -> p_num P mod 2 ^ 32 = 0 ->
  forall t, Z.of_nat t < 2 ^ 64 -> end_of_exec (reg t) = false.
Proof.
  intros [HA Hrst Hstart Hquiet] Hops t Ht. destruct (decide (3 <= t)%nat) as [H3|H3].
  - by destruct (endless_upto A DW LW env r0 Hrst Hstart Hquiet t Hops H3 Ht) as (_ & He & _).
  - destruct (begins A DW LW env r0 Hrst Hstart Hquiet) as (_ & [B _] & _). apply B. lia.
Qed.

(** A memory that is always ready and gives its last answer before cycle [T]. *)
Lemma prompt_memory T :
  one_run -> 1 <= p_ops P -> (forall t, m_axi_ARREADY (env t) = true) ->
  (forall t, (T <= t)%nat -> last env t = false) ->
  (forall t, (t < T)%nat -> count (last env) (S t) <= count accept t) ->
  count (last env) T = p_ops P -> count accept T = p_ops P -> memory A DW LW env r0.
Proof.
  intros [HA Hrst Hstart Hquiet] Hops Hready Hno Hc Hl Ha.
  assert (Hstop : forall t, (T <= t)%nat -> count (last env) t = p_ops P).
  { intros t. induction 1 as [|t Ht IH]; [done|]. by rewrite count_S, IH, Hno, Z.add_0_r. }
  split.
  - intros t _. exists t. split; [done|apply Hready].
  - intros t. destruct (decide (t < T)%nat); [by apply Hc|]. rewrite Hstop, <- Ha by lia.
    apply count_mono. lia.
  - intros t. exists (t + T)%nat. split; [lia|]. rewrite Hstop by lia. by apply accepted_le.
Qed.
End Properties.

(** ** Examples

    Two operations at addresses 4096 and 4160 of a work group of 256 bytes; the
    memory is always ready and answers in the cycles given. *)

Definition example_params (ops : Z) (lat : bool) : Z :=
  256 + Z.shiftl 64 32 + Z.shiftl ops 64 + Z.shiftl 32 128 + Z.shiftl 4096 160 +
  if lat then 2 ^ 224 else 0.

Definition example_env (ops : Z) (lat : bool) (ready : nat -> bool) (answers : list nat) (t : nat) : rd_in :=
  RdIn true (t =? 0)%nat (example_params ops lat) (ready t) true (existsb (Nat.eqb t) answers).

Definition example_reg : rd_reg :=
  RdReg false 0 0 0 0 0 0 false 0 0 0 0 0 0 false RD_IDLE false 0 false 0 0 0.

Lemma example_run ops lat ready answers : one_run 33 (example_env ops lat ready answers) example_reg.
Proof. by split. Qed.

Lemma example_memory lat answers T :
  (forall t, (T <= t)%nat -> existsb (Nat.eqb t) answers = false) ->
  (forall t, (t < T)%nat -> count (last (example_env 2 lat (fun _ => true) answers)) (S t) <=
     count (accept 33 256 4 (example_env 2 lat (fun _ => true) answers) example_reg) t) ->
  count (last (example_env 2 lat (fun _ => true) answers)) T = 2 ->
  count (accept 33 256 4 (example_env 2 lat (fun _ => true) answers) example_reg) T = 2 ->
  memory 33 256 4 (example_env 2 lat (fun _ => true) answers) example_reg.
Proof.
  intros Hno Hc Hl Ha.
  assert (E : p_ops (example_params 2 lat) = 2) by by destruct lat; vm_compute.
  assert (H1 : 1 <= p_ops (example_params 2 lat)) by by rewrite E.
  refine (prompt_memory 33 256 4 _ example_reg T (example_run 2 lat (fun _ => true) answers)
    H1 (fun _ => eq_refl) _ Hc (eq_trans Hl (eq_sym E)) (eq_trans Ha (eq_sym E))).
  intros t Ht. unfold last, example_env. cbn. by rewrite Hno.
Qed.

(** A bounded statement about cycles, by evaluation. *)
Ltac each_cycle_of t := first [exfalso; lia|destruct t as [|t]; [by vm_compute|each_cycle_of t]].
Ltac each_cycle := let t := fresh in let Ht := fresh in intros t Ht; each_cycle_of t.

Lemma rd_run_completes_witness :
  let env := example_env 2 true (fun _ => true) [6; 10]%nat in
  lat_timer (reg 33 256 4 env example_reg 7) = 2 /\
  exists te, forall t, (te <= t)%nat ->
    end_of_exec (reg 33 256 4 env example_reg t) = (t =? te)%nat /\
    (forall u, (u < te)%nat -> end_of_exec (reg 33 256 4 env example_reg u) = false) /\
    count (accept 33 256 4 env example_reg) t = 2 /\ count (last env) t = 2 /\
    (true = true -> count (sample 33 256 4 env example_reg) t = 2) /\
    lat_timer_sum (reg 33 256 4 env example_reg t) = trunc 64 (Z.of_nat te - 3) /\
    state (reg 33 256 4 env example_reg t) = RD_IDLE.
Proof.
  cbv zeta. split; [by vm_compute|].
  assert (Hm : memory 33 256 4 (example_env 2 true (fun _ => true) [6; 10]%nat) example_reg).
  { apply (example_memory true [6; 10]%nat 12); [|each_cycle|by vm_compute|by vm_compute].
    intros t Ht. do 12 (destruct t as [|t]; [lia|]). done. }
  assert (Ho : 1 <= p_ops (example_params 2 true)) by (vm_compute; discriminate).
  exact (rd_run_completes 33 256 4 _ example_reg (example_run 2 true (fun _ => true) [6; 10]%nat) Ho Hm).
Defined.

Lemma rd_throughput_addresses_witness :
  let env := example_env 4 false (fun t => negb (t =? 5)%nat) [] in
  accept 33 256 4 env example_reg 7 = true /\
  m_axi_ARADDR (reg 33 256 4 env example_reg 7) =
    op_addr 33 (example_params 4 false) (count (accept 33 256 4 env example_reg) 6) /\
  count (accept 33 256 4 env example_reg) 7 < 4.
Proof.
  cbv zeta. split; [by vm_compute|].
  assert (Ho : 1 <= p_ops (example_params 4 false)) by (vm_compute; discriminate).
  exact (rd_throughput_addresses 33 256 4 _ example_reg
    (example_run 4 false (fun t => negb (t =? 5)%nat) []) Ho eq_refl 7 ltac:(by vm_compute)).
Defined.

Lemma rd_full_speed_addresses_witness :
  (fun k => op_addr 33 (example_params 4 false) (Z.max 0 (k - 1))) <$> seqZ 0 4 =
    [4096; 4096; 4160; 4224] /\
  let env := example_env 4 false (fun _ => true) [] in
  observed (accept 33 256 4 env example_reg) (fun u => m_axi_ARADDR (reg 33 256 4 env example_reg u)) 8 =
    (fun k => op_addr 33 (example_params 4 false) (Z.max 0 (k - 1))) <$> seqZ 0 4.
Proof.
  split; [by vm_compute|]. cbv zeta.
  assert (Ho : 1 <= p_ops (example_params 4 false)) by (vm_compute; discriminate).
  exact (rd_full_speed_addresses 33 256 4 _ example_reg
    (example_run 4 false (fun _ => true) []) Ho eq_refl (fun _ => eq_refl)).
Defined.

Lemma rd_latency_samples_witness :
  let env := example_env 2 true (fun _ => true) [6; 10]%nat in
  exists ta tl, 11%nat = S tl /\ (ta < tl)%nat /\ accept 33 256 4 env example_reg ta = true /\
    last env tl = true /\
    (forall u, (ta < u < tl)%nat -> accept 33 256 4 env example_reg u = false /\ last env u = false) /\
    count (accept 33 256 4 env example_reg) ta = count (sample 33 256 4 env example_reg) 11 /\
    lat_timer (reg 33 256 4 env example_reg 11) = trunc 16 (Z.of_nat tl - Z.of_nat ta).
Proof.
  cbv zeta. assert (Ho : 1 <= p_ops (example_params 2 true)) by (vm_compute; discriminate).
  exact (rd_latency_samples 33 256 4 _ example_reg
    (example_run 2 true (fun _ => true) [6; 10]%nat) Ho 11 ltac:(by vm_compute)).
Defined.

Lemma rd_addresses_in_group_witness :
  let env := example_env 4 false (fun _ => true) [] in
  4096 <= m_axi_ARADDR (reg 33 256 4 env example_reg 7) <= 4096 + 255.
Proof.
  cbv zeta. assert (Ho : 1 <= p_ops (example_params 4 false)) by (vm_compute; discriminate).
  destruct (rd_addresses_in_group 33 256 4 _ example_reg
    (example_run 4 false (fun _ => true) []) Ho 7 ltac:(by vm_compute)) as [_ H]. exact (H ltac:(by vm_compute)).
Defined.

Lemma rd_offer_changes_witness :
  let env := example_env 4 false (fun t => negb (t =? 6)%nat) [] in
  m_axi_ARADDR (reg 33 256 4 env example_reg 6) = 4160 /\
  m_axi_ARADDR (reg 33 256 4 env example_reg 7) = 4224 /\
  m_axi_ARVALID (reg 33 256 4 env example_reg 7) = true.
Proof.
  cbv zeta. assert (Ho : 1 <= p_ops (example_params 4 false)) by (vm_compute; discriminate).
  destruct (rd_offer_changes 33 256 4 _ example_reg
    (example_run 4 false (fun t => negb (t =? 6)%nat) []) Ho eq_refl 5
    ltac:(by vm_compute) ltac:(by vm_compute) ltac:(by vm_compute)) as (H1 & H2 & H3).
  split; [|split; [|exact H1]].
  - rewrite H2. by vm_compute.
  - rewrite H3. by vm_compute.
Defined.

Lemma rd_zero_operations_hang_witness :
  let env := example_env (2 ^ 32) false (fun _ => true) [] in
  end_of_exec (reg 33 256 4 env example_reg 1000) = false.
Proof.
  cbv zeta. assert (Ho : p_num (example_params (2 ^ 32) false) mod 2 ^ 32 = 0) by by vm_compute.
  exact (rd_zero_operations_hang 33 256 4 _ example_reg
    (example_run (2 ^ 32) false (fun _ => true) []) Ho 1000 ltac:(lia)).
Defined.
