(* ===== verification/WrEngine.v ===== *)
(** * The write engine of the benchmark

    [hw/rtl/u280_hbm/wr_engine.sv] (the same code in [u280_ddr]), cycle by
    cycle.  The outputs with a constant value are left out, and the write
    responses, which the engine accepts and does not look at. *)

From stdpp Require Import base list numbers option.
From S2P Require Import Prelude Clock EngineParams.
Open Scope Z_scope.

(** ** Registers and inputs *)

Inductive wr_state : Type :=
  | WR_IDLE | WR_STARTED | WR_TH_VALID | WR_TH_DATA | WR_END
  | WR_OTHER (code : Z).    (* the other values of the three bits *)

Record wr_in : Type := WrIn {
  rst_n : bool;
  start : bool;
  lt_params : Z;
  m_axi_AWREADY : bool;
  m_axi_WREADY : bool;
}.

Record wr_reg : Type := WrReg {
  started : bool;
  started_r : bool;
  lt_params_r : Z;
  init_addr : Z;
  num_mem_ops : Z;                (* 64 bits *)
  mem_burst_size : Z;             (* 16 bits *)
  work_group_size : Z;
  stride : Z;
  mem_op_index : Z;
  offset_addr : Z;
  work_group_size_minus_1 : Z;
  num_mem_ops_r : Z;
  num_mem_ops_minus_1 : Z;
  wr_ops : Z;
  burst_inc : Z;                  (* 8 bits *)
  wr_data_done : bool;
  is_in_progress : bool;
  guard_AWVALID : bool;
  guard_WVALID : bool;
  state : wr_state;
  end_of_exec : bool;
  lat_timer_sum : Z;
  m_axi_AWADDR : Z;
  m_axi_AWLEN : Z;
}.

#[export] Instance wr_registers : Registers wr_reg := fun r =>
  WrReg (started r) (started_r r) (lt_params_r r) (init_addr r) (num_mem_ops r)
    (mem_burst_size r) (work_group_size r) (stride r) (mem_op_index r) (offset_addr r)
    (work_group_size_minus_1 r) (num_mem_ops_r r) (num_mem_ops_minus_1 r) (wr_ops r)
    (burst_inc r) (wr_data_done r) (is_in_progress r) (guard_AWVALID r) (guard_WVALID r)
    (state r) (end_of_exec r) (lat_timer_sum r) (m_axi_AWADDR r) (m_axi_AWLEN r).

(** The outputs that are not registers. *)
Definition m_axi_AWVALID (r : wr_reg) : bool := guard_AWVALID r.
Definition m_axi_WLAST (r : wr_reg) : bool := (burst_inc r =? m_axi_AWLEN r) && guard_WVALID r.
Definition m_axi_WVALID (r : wr_reg) : bool :=
  negb (wr_ops r =? num_mem_ops_r r) && guard_WVALID r.

Section Engine.
Context (ADDR_WIDTH DATA_WIDTH LEN_WIDTH : Z).

Definition next_addr (r : wr_reg) : Z :=
  trunc ADDR_WIDTH (init_addr r + Z.land (offset_addr r) (work_group_size_minus_1 r)).
Definition next_offset (r : wr_reg) : Z := trunc ADDR_WIDTH (offset_addr r + stride r).

(** The block that counts data beats and bursts: its three registers. *)
Definition wr_data (i : wr_in) (r : wr_reg) : Z * Z * bool :=
  if negb (rst_n i) then (0, 0, false)
  else if started r then (0, 0, false)
  else if is_in_progress r && (m_axi_WREADY i && guard_WVALID r) then
    if burst_inc r =? m_axi_AWLEN r then
      (0, trunc 64 (wr_ops r + 1),
       if wr_ops r =? num_mem_ops_minus_1 r then true else wr_data_done r)
    else (trunc 8 (burst_inc r + 1), wr_ops r, wr_data_done r)
  else (burst_inc r, wr_ops r, wr_data_done r).

(** The state machine, a definition per branch. *)
Definition wr_idle (r d : wr_reg) : wr_reg :=
  let d := d <| lat_timer_sum := lat_timer_sum r |> in
  if started r then
    d <| work_group_size := slice 0 32 (lt_params_r r) |>
      <| stride := slice 32 32 (lt_params_r r) |>
      <| num_mem_ops := slice 64 64 (lt_params_r r) |>
      <| mem_burst_size := trunc 16 (slice 128 32 (lt_params_r r)) |>
      <| init_addr := slice 160 ADDR_WIDTH (lt_params_r r) |>
      <| state := WR_STARTED |>
  else d.

Definition wr_started (r d : wr_reg) : wr_reg :=
  d <| is_in_progress := true |>
    <| offset_addr := 0 |>
    <| work_group_size_minus_1 := trunc 32 (work_group_size r - 1) |>
    <| num_mem_ops_r := num_mem_ops r |>
    <| num_mem_ops_minus_1 := trunc 64 (num_mem_ops r - 1) |>
    <| mem_op_index := 0 |>
    <| lat_timer_sum := 0 |>
    <| state := WR_TH_VALID |>.

Definition wr_th_valid (i : wr_in) (r d : wr_reg) : wr_reg :=
  let d := d <| guard_AWVALID := true |> <| guard_WVALID := true |>
             <| m_axi_AWADDR := next_addr r |> in
  if m_axi_AWREADY i && m_axi_AWVALID r then
    let d := d <| offset_addr := next_offset r |>
               <| mem_op_index := trunc 64 (mem_op_index r + 1) |> in
    if mem_op_index r =? num_mem_ops_minus_1 r
    then d <| guard_AWVALID := false |>
           <| state := if wr_data_done r then WR_END else WR_TH_DATA |>
    else d <| state := WR_TH_VALID |>
  else d.

Definition wr_th_data (r d : wr_reg) : wr_reg :=
  let d := d <| guard_WVALID := true |> in
  if wr_data_done r then d <| guard_WVALID := false |> <| state := WR_END |> else d.

Definition wr_end (d : wr_reg) : wr_reg :=
  d <| is_in_progress := false |> <| end_of_exec := true |> <| state := WR_IDLE |>.

Definition wr_fsm (i : wr_in) (r : wr_reg) : wr_reg :=
  if negb (rst_n i) then r <| is_in_progress := false |> <| state := WR_IDLE |>
  else
    let d := r <| end_of_exec := false |> <| guard_AWVALID := false |>
               <| guard_WVALID := false |>
               <| lat_timer_sum := trunc 64 (lat_timer_sum r + 1) |> in
    match state r with
    | WR_IDLE => wr_idle r d
    | WR_STARTED => wr_started r d
    | WR_TH_VALID => wr_th_valid i r d
    | WR_TH_DATA => wr_th_data r d
    | WR_END => wr_end d
    | WR_OTHER _ => d <| state := WR_IDLE |>
    end.

(** One clock edge, with the other [always] blocks. *)
Definition wr_step (i : wr_in) (r : wr_reg) : wr_reg :=
  let data := wr_data i r in
  wr_fsm i r
    <| started := rst_n i && start i |>
    <| started_r := rst_n i && start i |>
    <| lt_params_r := lt_params i |>
    <| m_axi_AWLEN := axi_len DATA_WIDTH LEN_WIDTH (mem_burst_size r) |>
    <| burst_inc := data.1.1 |> <| wr_ops := data.1.2 |> <| wr_data_done := data.2 |>.
End Engine.

(** ** One edge, per state *)

Section Edges.
Context (A DW LW : Z) (i : wr_in) (r : wr_reg) (Hrst : rst_n i = true).
Let r' := wr_step A DW LW i r.
Let ack : bool := m_axi_AWREADY i && m_axi_AWVALID r.
Let tick : bool := m_axi_WREADY i && guard_WVALID r.

Ltac edge E := unfold r', wr_step, wr_fsm, wr_idle, wr_started, wr_th_valid, wr_th_data, wr_end;
  rewrite Hrst, E; cbn.

Lemma wr_edge_always :
  started r' = start i /\ lt_params_r r' = lt_params i /\
  m_axi_AWLEN r' = axi_len DW LW (mem_burst_size r).
Proof. unfold r', wr_step. cbn. by rewrite Hrst. Qed.

Lemma edge_data :
  burst_inc r' = (wr_data i r).1.1 /\ wr_ops r' = (wr_data i r).1.2 /\
  wr_data_done r' = (wr_data i r).2.
Proof. done. Qed.

Definition same_params (r1 r2 : wr_reg) : Prop :=
  init_addr r1 = init_addr r2 /\ stride r1 = stride r2 /\
  mem_burst_size r1 = mem_burst_size r2 /\
  work_group_size_minus_1 r1 = work_group_size_minus_1 r2 /\
  num_mem_ops_r r1 = num_mem_ops_r r2 /\ num_mem_ops_minus_1 r1 = num_mem_ops_minus_1 r2.

Lemma wr_edge_params : started r = false -> state r <> WR_STARTED -> same_params r' r.
Proof.
  intros Hs Hne. unfold same_params.
  destruct (state r) eqn:E; try done; edge E; rewrite ?Hs; branches.
Qed.

Lemma wr_edge_idle :
  state r = WR_IDLE -> started r = false ->
  state r' = WR_IDLE /\ guard_AWVALID r' = false /\ guard_WVALID r' = false /\
  end_of_exec r' = false /\ lat_timer_sum r' = lat_timer_sum r /\
  is_in_progress r' = is_in_progress r.
Proof. intros E Hs. edge E. rewrite Hs. by cbn. Qed.

Lemma wr_edge_load :
  state r = WR_IDLE -> started r = true ->
  state r' = WR_STARTED /\ guard_AWVALID r' = false /\ guard_WVALID r' = false /\
  end_of_exec r' = false /\ work_group_size r' = slice 0 32 (lt_params_r r) /\
  stride r' = slice 32 32 (lt_params_r r) /\ num_mem_ops r' = slice 64 64 (lt_params_r r) /\
  mem_burst_size r' = trunc 16 (slice 128 32 (lt_params_r r)) /\
  init_addr r' = slice 160 A (lt_params_r r).
Proof. intros E Hs. edge E. rewrite Hs. by cbn. Qed.

Lemma wr_edge_started :
  state r = WR_STARTED ->
  state r' = WR_TH_VALID /\ guard_AWVALID r' = false /\ guard_WVALID r' = false /\
  end_of_exec r' = false /\ is_in_progress r' = true /\
  lat_timer_sum r' = 0 /\ mem_op_index r' = 0 /\ offset_addr r' = 0 /\
  work_group_size_minus_1 r' = trunc 32 (work_group_size r - 1) /\
  num_mem_ops_r r' = num_mem_ops r /\ num_mem_ops_minus_1 r' = trunc 64 (num_mem_ops r - 1) /\
  init_addr r' = init_addr r /\ stride r' = stride r /\ mem_burst_size r' = mem_burst_size r.
Proof. intros E. edge E. repeat (split; [done|]). done. Qed.

Lemma wr_edge_th_valid :
  state r = WR_TH_VALID ->
  let final := ack && (mem_op_index r =? num_mem_ops_minus_1 r) in
  state r' = (if final then if wr_data_done r then WR_END else WR_TH_DATA else WR_TH_VALID) /\
  guard_AWVALID r' = negb final /\ guard_WVALID r' = true /\ end_of_exec r' = false /\
  lat_timer_sum r' = trunc 64 (lat_timer_sum r + 1) /\ m_axi_AWADDR r' = next_addr A r /\
  mem_op_index r' = (if ack then trunc 64 (mem_op_index r + 1) else mem_op_index r) /\
  offset_addr r' = (if ack then next_offset A r else offset_addr r) /\
  is_in_progress r' = is_in_progress r.
Proof. intros E. unfold ack. edge E. branches. Qed.

Lemma edge_th_data :
  state r = WR_TH_DATA ->
  state r' = (if wr_data_done r then WR_END else WR_TH_DATA) /\ guard_AWVALID r' = false /\
  guard_WVALID r' = negb (wr_data_done r) /\ end_of_exec r' = false /\
  lat_timer_sum r' = trunc 64 (lat_timer_sum r + 1) /\ is_in_progress r' = is_in_progress r.
Proof. intros E. edge E. branches. Qed.

Lemma wr_edge_end :
  state r = WR_END ->
  state r' = WR_IDLE /\ guard_AWVALID r' = false /\ guard_WVALID r' = false /\
  end_of_exec r' = true /\ lat_timer_sum r' = trunc 64 (lat_timer_sum r + 1).
Proof. intros E. by edge E. Qed.

(** The data block while a run is in progress. *)
Lemma edge_tick :
  started r = false -> is_in_progress r = true \/ guard_WVALID r = false ->
  burst_inc r' = (if tick then if burst_inc r =? m_axi_AWLEN r then 0 else trunc 8 (burst_inc r + 1)
                  else burst_inc r) /\
  wr_ops r' = (if tick && (burst_inc r =? m_axi_AWLEN r) then trunc 64 (wr_ops r + 1)
               else wr_ops r) /\
  wr_data_done r' = (tick && (burst_inc r =? m_axi_AWLEN r) && (wr_ops r =? num_mem_ops_minus_1 r))
                    || wr_data_done r.
Proof.
  intros Hs Hp. destruct edge_data as (-> & -> & ->). unfold wr_data. rewrite Hrst, Hs. cbn [negb].
  assert (E : is_in_progress r && (m_axi_WREADY i && guard_WVALID r) = tick).
  { unfold tick. destruct Hp as [->| ->]; [done|]. by rewrite !andb_false_r. }
  rewrite E. destruct tick; cbn [andb]; [|done].
  destruct (burst_inc r =? m_axi_AWLEN r); cbn; [|done].
  by destruct (wr_ops r =? num_mem_ops_minus_1 r).
Qed.
End Edges.

(** ** A run *)

Record quiet (r : wr_reg) : Prop := {
  quiet_state : state r = WR_IDLE;
  quiet_started : started r = false;
  quiet_address : guard_AWVALID r = false;
  quiet_data : guard_WVALID r = false;
  quiet_end : end_of_exec r = false;
}.

(** An engine that waits goes on waiting. *)
Lemma wr_quiet_S A DW LW i r :
  rst_n i = true -> start i = false -> quiet r -> quiet (wr_step A DW LW i r).
Proof.
  intros Hrst Hs [Hq1 Hq2 _ _ _].
  destruct (wr_edge_idle A DW LW i r Hrst Hq1 Hq2) as (E1 & E2 & E3 & E4 & _).
  destruct (wr_edge_always A DW LW i r Hrst) as (E5 & _). by split; rewrite ?E5.
Qed.

(** A cycle of reset, and another one without [start], make it wait. *)
Lemma wr_reset_quiet A DW LW i1 i2 r :
  rst_n i1 = false -> rst_n i2 = true -> start i2 = false ->
  quiet (wr_step A DW LW i2 (wr_step A DW LW i1 r)).
Proof.
  intros H1 H2 Hs. set (r1 := wr_step A DW LW i1 r).
  assert (Q1 : state r1 = WR_IDLE /\ started r1 = false).
  { unfold r1, wr_step, wr_fsm. rewrite H1. by cbn. }
  destruct (wr_edge_idle A DW LW i2 r1 H2 (proj1 Q1) (proj2 Q1)) as (E1 & E2 & E3 & E4 & _).
  destruct (wr_edge_always A DW LW i2 r1 H2) as (E5 & _). by split; rewrite ?E5.
Qed.

Lemma p_num_range P : 0 <= p_num P < 2 ^ 64.
Proof. by apply slice_range. Qed.

Section Run.
Context (A DW LW : Z) (HA : 0 <= A) (HLW : 0 <= LW <= 8) (env : nat -> wr_in) (r0 : wr_reg).
Context (Hrst : forall t, rst_n (env t) = true).
Context (Hstart : forall t, start (env t) = (t =? 0)%nat).
Context (Hquiet : quiet r0).
Let P : Z := lt_params (env 0%nat).

Definition reg (t : nat) : wr_reg := at_cycle (wr_step A DW LW) env r0 t.
(** An address, a data beat; [tick] is the beat that the data block counts. *)
Definition accept (t : nat) : bool := m_axi_AWREADY (env t) && m_axi_AWVALID (reg t).
Definition beat (t : nat) : bool := m_axi_WREADY (env t) && m_axi_WVALID (reg t).
Definition tick (t : nat) : bool := m_axi_WREADY (env t) && guard_WVALID (reg t).

(** Beats in a burst and in a run. *)
Definition burst_beats : Z := axi_len DW LW (p_burst P) + 1.
Definition run_beats : Z := p_num P * burst_beats.

Record configured (r : wr_reg) : Prop := {
  c_base : init_addr r = p_base A P;
  c_stride : stride r = p_stride P;
  c_mask : work_group_size_minus_1 r = p_mask P;
  c_burst : mem_burst_size r = p_burst P;
  c_num_r : num_mem_ops_r r = p_num P;
  c_num_1 : num_mem_ops_minus_1 r = trunc 64 (p_num P - 1);
  c_len : m_axi_AWLEN r = burst_beats - 1;
}.

Definition running (t : nat) : Prop :=
  (forall u, (u <= t)%nat -> end_of_exec (reg u) = false) /\
  lat_timer_sum (reg t) = trunc 64 (Z.of_nat t - 3) /\ is_in_progress (reg t) = true.

Definition finished (te t : nat) : Prop :=
  (3 < te <= t)%nat /\ (forall u, (u <= t)%nat -> end_of_exec (reg u) = (u =? te)%nat) /\
  lat_timer_sum (reg t) = trunc 64 (Z.of_nat te - 3).

(** The data counters after [c] ticks. *)
Definition counted (t : nat) : Prop :=
  let c := count tick t in
  burst_inc (reg t) = c mod burst_beats /\ wr_ops (reg t) = trunc 64 (c / burst_beats) /\
  wr_data_done (reg t) = (p_num P <=? c / burst_beats).

Definition progress (t : nat) : Prop :=
  match state (reg t) with
  | WR_TH_VALID =>
      running t /\ mem_op_index (reg t) = count accept t /\ count accept t < p_num P /\
      offset_addr (reg t) = trunc A (p_stride P * count accept t) /\
      guard_AWVALID (reg t) = (3 <? t)%nat /\ guard_WVALID (reg t) = (3 <? t)%nat /\
      ((3 < t)%nat -> m_axi_AWADDR (reg t) = op_addr A P (count accept (pred t)))
  | WR_TH_DATA =>
      running t /\ count accept t = p_num P /\ guard_AWVALID (reg t) = false /\
      guard_WVALID (reg t) = true
  | WR_END =>
      running t /\ count accept t = p_num P /\ guard_AWVALID (reg t) = false /\
      wr_data_done (reg t) = true
  | WR_IDLE =>
      count accept t = p_num P /\ guard_AWVALID (reg t) = false /\
      guard_WVALID (reg t) = false /\ wr_data_done (reg t) = true /\ exists te, finished te t
  | WR_STARTED | WR_OTHER _ => False
  end.

Lemma wr_reg_S t : reg (S t) = wr_step A DW LW (env t) (reg t).
Proof. done. Qed.

Lemma burst_beats_range : 1 <= burst_beats <= 256.
Proof.
  unfold burst_beats, axi_len. pose proof (trunc_range LW
    (Z.shiftr (p_burst P) (Z.log2_up (DW / 8)) - 1) (proj1 HLW)) as H.
  assert (2 ^ LW <= 2 ^ 8) by (apply Z.pow_le_mono_r; lia). lia.
Qed.

Lemma wr_started_later t : (2 <= t)%nat -> started (reg t) = false.
Proof.
  destruct t as [|[|t]]; intros Ht; [lia|lia|]. rewrite wr_reg_S.
  destruct (wr_edge_always A DW LW (env (S t)) (reg (S t)) (Hrst _)) as (-> & _).
  by rewrite Hstart.
Qed.

(** Nothing is sent while the guards are down. *)
Lemma wr_accept_guarded t : guard_AWVALID (reg t) = false -> accept t = false.
Proof. intros Hg. unfold accept, m_axi_AWVALID. by rewrite Hg, andb_false_r. Qed.
Lemma tick_guarded t : guard_WVALID (reg t) = false -> tick t = false.
Proof. intros Hg. unfold tick. by rewrite Hg, andb_false_r. Qed.
Lemma wr_accept_valid t : accept t = true -> guard_AWVALID (reg t) = true.
Proof. unfold accept, m_axi_AWVALID. by intros [_ Hg]%andb_true_iff. Qed.
Lemma beat_tick t : beat t = negb (wr_ops (reg t) =? num_mem_ops_r (reg t)) && tick t.
Proof.
  unfold beat, tick, m_axi_WVALID.
  by destruct (m_axi_WREADY (env t)), (guard_WVALID (reg t)), (_ =? _).
Qed.

Lemma wr_idle_1 :
  state (reg 1) = WR_IDLE /\ guard_AWVALID (reg 1) = false /\ guard_WVALID (reg 1) = false /\
  end_of_exec (reg 1) = false /\ started (reg 1) = true /\ lt_params_r (reg 1) = P.
Proof.
  destruct Hquiet as [Hq1 Hq2 Hq3 Hq4 Hq5].
  destruct (wr_edge_idle A DW LW (env 0%nat) r0 (Hrst _) Hq1 Hq2) as (E1 & E2 & E3 & E4 & _).
  destruct (wr_edge_always A DW LW (env 0%nat) r0 (Hrst _)) as (E5 & E6 & _).
  rewrite Hstart in E5. by repeat split.
Qed.

(** The data registers are reset in the cycle of [started], and stay. *)
Lemma data_2 : burst_inc (reg 2) = 0 /\ wr_ops (reg 2) = 0 /\ wr_data_done (reg 2) = false.
Proof.
  destruct wr_idle_1 as (_ & _ & _ & _ & Hs & _). rewrite wr_reg_S.
  destruct (edge_data A DW LW (env 1%nat) (reg 1)) as (-> & -> & ->).
  unfold wr_data. by rewrite Hrst, Hs.
Qed.

Context (Hops : 1 <= p_num P).

Lemma wr_begins :
  configured (reg 3) /\ running 3 /\ mem_op_index (reg 3) = 0 /\ offset_addr (reg 3) = 0 /\
  guard_AWVALID (reg 3) = false /\ guard_WVALID (reg 3) = false /\
  count accept 3 = 0 /\ count tick 3 = 0 /\ counted 3 /\ state (reg 3) = WR_TH_VALID.
Proof.
  destruct Hquiet as [Hq1 Hq2 Hq3 Hq4 Hq5], wr_idle_1 as (I1 & I2 & I3 & I4 & I5 & I6).
  destruct (wr_edge_load A DW LW (env 1%nat) (reg 1) (Hrst _) I1 I5)
    as (L1 & L2 & L3 & L4 & L5 & L6 & L7 & L8 & L9).
  rewrite <- wr_reg_S, ?I6 in *.
  destruct (wr_edge_started A DW LW (env 2%nat) (reg 2) (Hrst _) L1)
    as (S1 & S2 & S3 & S4 & S5 & S6 & S7 & S8 & S9 & S10 & S11 & S12 & S13 & S14).
  destruct (wr_edge_always A DW LW (env 2%nat) (reg 2) (Hrst _)) as (_ & _ & S15).
  destruct (edge_tick A DW LW (env 2%nat) (reg 2) (Hrst _) (wr_started_later 2 ltac:(lia))
    (or_intror L3)) as (D1 & D2 & D3).
  rewrite <- wr_reg_S, L3, ?andb_false_r in *. destruct data_2 as (D4 & D5 & D6).
  fold (p_base A P) in *. fold (p_num P) in *. fold (p_stride P) in *. fold (p_burst P) in *.
  assert (C0 : count tick 3 = 0).
  { rewrite !count_S. unfold tick. change (reg 0) with r0.
    by rewrite Hq4, I3, L3, !andb_false_r. }
  split; [constructor; unfold p_mask, p_work_group_size, burst_beats in *; try congruence;
    rewrite S15, L8; lia|].
  split; [split; [|done]|].
  { intros [|[|[|[|u]]]] Hu; [done..|lia]. }
  repeat (split; [done|]). split; [|split; [done|split; [|done]]].
  - rewrite !count_S. unfold accept, m_axi_AWVALID. change (reg 0) with r0.
    by rewrite Hq3, I2, L2, !andb_false_r.
  - unfold counted. rewrite C0, D1, D2, D3, D4, D5, D6. cbn [andb orb].
    pose proof burst_beats_range. rewrite Z.mod_0_l, Z.div_0_l by lia. split; [done|].
    split; [done|]. symmetry. apply Z.leb_gt. lia.
Qed.

Lemma wr_running_S t :
  running t -> end_of_exec (reg (S t)) = false -> is_in_progress (reg (S t)) = true ->
  lat_timer_sum (reg (S t)) = trunc 64 (lat_timer_sum (reg t) + 1) -> running (S t).
Proof.
  intros (Hr & Hs & _) He Hp Hs'. split; [|split; [|done]].
  - intros u Hu. destruct (decide (u = S t)) as [->|]; [done|]. apply Hr. lia.
  - rewrite Hs', Hs, trunc_add by done. f_equal. lia.
Qed.

Lemma wr_configured_S t :
  (2 <= t)%nat -> configured (reg t) -> state (reg t) <> WR_STARTED -> configured (reg (S t)).
Proof.
  intros Ht [] Hs.
  destruct (wr_edge_params A DW LW (env t) (reg t) (Hrst t) (wr_started_later t Ht) Hs)
    as (? & ? & ? & ? & ? & ?).
  destruct (wr_edge_always A DW LW (env t) (reg t) (Hrst _)) as (_ & _ & E).
  rewrite wr_reg_S. constructor; try congruence. rewrite E, c_burst0. unfold burst_beats. lia.
Qed.

Lemma counted_S t :
  (2 <= t)%nat -> configured (reg t) -> is_in_progress (reg t) = true \/ guard_WVALID (reg t) = false ->
  counted t -> counted (S t).
Proof.
  intros Ht [] Hp (Hb & Hw & Hd).
  destruct (edge_tick A DW LW (env t) (reg t) (Hrst t) (wr_started_later t Ht) Hp) as (E1 & E2 & E3).
  rewrite <- wr_reg_S in *. fold (tick t) in *. unfold counted. rewrite count_S.
  pose proof burst_beats_range. pose proof (p_num_range P). pose proof (count_nonneg tick t).
  set (c := count tick t) in *. set (B := burst_beats) in *.
  pose proof (Z.mod_pos_bound c B ltac:(lia)). pose proof (Z.div_pos c B ltac:(lia) ltac:(lia)).
  rewrite E1, E2, E3, c_len0, c_num_2, Hb, Hw, Hd. destruct (tick t); cbn [andb orb Z.b2z].
  - destruct (div_mod_succ c B) as [-> ->]; [lia|].
    destruct (Z.eqb_spec (c mod B) (B - 1)); cbn [andb orb].
    + split; [done|]. split; [by apply trunc_add|].
      rewrite (trunc_small 64 (p_num P - 1)) by lia.
      destruct (Z.leb_spec (p_num P) (c / B)) as [Hle|Hgt].
      * rewrite orb_true_r. symmetry. apply Z.leb_le. lia.
      * rewrite orb_false_r, trunc_small by lia. apply eq_true_iff_eq.
        rewrite Z.eqb_eq, Z.leb_le. lia.
    + split; [apply trunc_small; lia|]. done.
  - by rewrite Z.add_0_r.
Qed.

Section Cases.
Context (t : nat) (Ht : (3 <= t)%nat).
Context (Hcfg : configured (reg t)) (Hprog : progress t).

Ltac at_state E :=
  unfold progress in Hprog; rewrite E in Hprog; unfold progress.

Lemma wr_progress_th_valid : state (reg t) = WR_TH_VALID -> progress (S t).
Proof.
  intros E. at_state E. destruct Hprog as (Hrun & Hidx & Hlt & Hoff & Hg & Hgw & Haddr), Hcfg.
  destruct (wr_edge_th_valid A DW LW (env t) (reg t) (Hrst t) E)
    as (E1 & E2 & E3 & E4 & E5 & E6 & E7 & E8 & E9).
  rewrite <- wr_reg_S in *. fold (accept t) in *. rewrite E1, E2, E3, E6, E7, E8, count_S.
  rewrite (proj2 (proj2 Hrun)) in E9.
  pose proof (wr_running_S t Hrun E4 E9 E5) as Hrun'. pose proof (p_num_range P).
  assert (Ha : next_addr A (reg t) = op_addr A P (count accept t)).
  { unfold next_addr, op_addr. congruence. }
  assert (Ho : next_offset A (reg t) = trunc A (p_stride P * (count accept t + 1))).
  { unfold next_offset. rewrite Hoff, c_stride0, trunc_add by done. f_equal. lia. }
  assert (H3 : true = (3 <? S t)%nat) by (symmetry; apply Nat.ltb_lt; lia).
  rewrite c_num_2, Hidx, (trunc_small 64 (p_num P - 1)) by lia.
  pose proof (count_nonneg accept t).
  destruct (accept t) eqn:Ea; cbn [andb negb Z.b2z].
  - destruct (Z.eqb_spec (count accept t) (p_num P - 1)).
    + destruct (wr_data_done (reg t)) eqn:Ed.
      * split; [done|]. split; [lia|]. split; [done|].
        apply wr_accept_valid in Ea. rewrite Hg in Ea.
        destruct (edge_tick A DW LW (env t) (reg t) (Hrst t) (wr_started_later t ltac:(lia))
          (or_introl (proj2 (proj2 Hrun)))) as (_ & _ & D).
        by rewrite <- wr_reg_S, Ed, orb_true_r in D.
      * split; [done|]. split; [lia|done].
    + rewrite trunc_small by lia. split; [done|]. split; [done|]. split; [lia|].
      split; [done|]. split; [done|]. split; [done|]. by rewrite Ha.
  - rewrite !Z.add_0_r. split; [done|]. split; [done|]. split; [done|]. split; [done|].
    split; [done|]. split; [done|]. by rewrite Ha.
Qed.

Lemma progress_th_data : state (reg t) = WR_TH_DATA -> progress (S t).
Proof.
  intros E. at_state E. destruct Hprog as (Hrun & Hcnt & Hg & Hgw).
  destruct (edge_th_data A DW LW (env t) (reg t) (Hrst t) E) as (E1 & E2 & E3 & E4 & E5 & E6).
  rewrite <- wr_reg_S in *. rewrite E1, E2, E3, count_S, (wr_accept_guarded t Hg), Hcnt, Z.add_0_r.
  rewrite (proj2 (proj2 Hrun)) in E6. pose proof (wr_running_S t Hrun E4 E6 E5) as Hrun'.
  destruct (wr_data_done (reg t)) eqn:Ed; [|by auto].
  split; [done|]. split; [done|]. split; [done|].
  destruct (edge_tick A DW LW (env t) (reg t) (Hrst t) (wr_started_later t ltac:(lia))
    (or_introl (proj2 (proj2 Hrun)))) as (_ & _ & D).
  by rewrite <- wr_reg_S, Ed, orb_true_r in D.
Qed.

Lemma wr_progress_end : state (reg t) = WR_END -> progress (S t).
Proof.
  intros E. at_state E. destruct Hprog as ((Hr & Hs & Hp) & Hcnt & Hg & Hd).
  destruct (wr_edge_end A DW LW (env t) (reg t) (Hrst t) E) as (E1 & E2 & E3 & E4 & E5).
  destruct (edge_tick A DW LW (env t) (reg t) (Hrst t) (wr_started_later t ltac:(lia))
    (or_introl Hp)) as (_ & _ & D).
  rewrite <- wr_reg_S in *. rewrite Hd, orb_true_r in D.
  rewrite E1, E2, E3, D, count_S, (wr_accept_guarded t Hg), Z.add_0_r.
  split; [done|]. split; [done|]. split; [done|]. split; [done|].
  exists (S t). split; [lia|]. split.
  - intros u Hu. destruct (Nat.eqb_spec u (S t)) as [->|]; [done|]. apply Hr. lia.
  - rewrite E5, Hs, trunc_add by done. f_equal. lia.
Qed.

Lemma wr_progress_idle : state (reg t) = WR_IDLE -> progress (S t).
Proof.
  intros E. at_state E. destruct Hprog as (Hcnt & Hg & Hgw & Hd & te & Hte & Hend & Hs).
  pose proof (wr_started_later t ltac:(lia)) as Hst.
  destruct (wr_edge_idle A DW LW (env t) (reg t) (Hrst t) E Hst) as (E1 & E2 & E3 & E4 & E5 & _).
  destruct (edge_tick A DW LW (env t) (reg t) (Hrst t) Hst (or_intror Hgw)) as (_ & _ & D).
  rewrite <- wr_reg_S in *. rewrite Hd, orb_true_r in D.
  rewrite E1, E2, E3, D, count_S, (wr_accept_guarded t Hg), Z.add_0_r.
  split; [done|]. split; [done|]. split; [done|]. split; [done|].
  exists te. split; [lia|]. split; [|by rewrite E5].
  intros u Hu. destruct (decide (u = S t)) as [->|]; [|apply Hend; lia].
  rewrite E4. symmetry. apply Nat.eqb_neq. lia.
Qed.
End Cases.

Lemma progress_data t :
  progress t -> is_in_progress (reg t) = true \/ guard_WVALID (reg t) = false.
Proof.
  unfold progress. destruct (state (reg t)); try done.
  - intros (_ & _ & H & _). by right.
  - intros ((_ & _ & H) & _). by left.
  - intros ((_ & _ & H) & _). by left.
  - intros ((_ & _ & H) & _). by left.
Qed.

Lemma wr_progress_always t :
  (3 <= t)%nat -> configured (reg t) /\ counted t /\ progress t.
Proof.
  induction t as [|t IH]; intros Ht; [lia|].
  destruct (decide (t = 2)%nat) as [->|].
  - destruct wr_begins as (B1 & B2 & B3 & B4 & B5 & B6 & B7 & B8 & B9 & B10).
    split; [done|]. split; [done|]. unfold progress. rewrite B10, B3, B4, B5, B6, B7, Z.mul_0_r.
    split; [done|]. split; [done|]. split; [lia|]. split; [done|]. split; [done|].
    split; [done|]. lia.
  - assert (Ht3 : (3 <= t)%nat) by lia. destruct (IH Ht3) as (Hc & Hd & Hp).
    assert (Hns : state (reg t) <> WR_STARTED).
    { intros E. unfold progress in Hp. by rewrite E in Hp. }
    split; [apply wr_configured_S; [lia|done..]|].
    split; [apply counted_S; [lia|done|by apply progress_data|done]|].
    destruct (state (reg t)) eqn:E; try done.
    + by apply wr_progress_idle.
    + by apply wr_progress_th_valid.
    + by apply progress_th_data.
    + by apply wr_progress_end.
    + unfold progress in Hp. by rewrite E in Hp.
Qed.

(** ** The end of a run *)

(** The memory accepts every address and every beat that is offered. *)
Record memory : Prop := {
  mem_address : forall t, m_axi_AWVALID (reg t) = true ->
    exists t', (t <= t')%nat /\ m_axi_AWREADY (env t') = true;
  mem_data : forall t, m_axi_WVALID (reg t) = true ->
    exists t', (t <= t')%nat /\ m_axi_WREADY (env t') = true;
}.

Lemma wr_accept_offered t : guard_AWVALID (reg t) = true -> accept t = m_axi_AWREADY (env t).
Proof. intros Hg. unfold accept, m_axi_AWVALID. by rewrite Hg, andb_true_r. Qed.

Lemma done_iff t :
  (3 <= t)%nat -> wr_data_done (reg t) = true <-> run_beats <= count tick t.
Proof.
  intros Ht. destruct (wr_progress_always t Ht) as (_ & (_ & _ & ->) & _).
  pose proof burst_beats_range. rewrite Z.leb_le. unfold run_beats. split; intros H1.
  - pose proof (Z.mul_div_le (count tick t) burst_beats). nia.
  - apply Z.div_le_lower_bound; lia.
Qed.

Definition in_state (s : wr_state) (t : nat) : Prop := (3 <= t)%nat /\ state (reg t) = s.

(** Addresses still to be accepted, and beats still to be sent. *)
Definition left_address (m t : nat) : Prop :=
  in_state WR_TH_VALID t /\ p_num P - count accept t = Z.of_nat m.
Definition left_data (m t : nat) : Prop :=
  in_state WR_TH_DATA t /\ Z.to_nat (run_beats - count tick t) = m.

Definition addressed (t : nat) : Prop := in_state WR_TH_DATA t \/ in_state WR_END t.

Section Completes.
Context (Hmem : memory).

Lemma address_offered m :
  leads_to (fun t => left_address (S m) t /\ guard_AWVALID (reg t) = true)
    (fun t => left_address m t \/ addressed t).
Proof.
  apply (leads_to_wait _ _ (fun t => m_axi_AWREADY (env t))).
  - intros t (((Ht & E) & Hm) & Hg).
    destruct (wr_progress_always (S t)) as (_ & _ & Hp); [lia|].
    destruct (wr_edge_th_valid A DW LW (env t) (reg t) (Hrst t) E) as (E1 & E2 & _).
    rewrite <- wr_reg_S in E1, E2. fold (accept t) in E1, E2. unfold progress in Hp.
    rewrite (wr_accept_offered t Hg) in E1, E2.
    unfold left_address, addressed, in_state. rewrite count_S, (wr_accept_offered t Hg).
    destruct (m_axi_AWREADY (env t)); cbn [andb Z.b2z negb] in *.
    + destruct (mem_op_index (reg t) =? num_mem_ops_minus_1 (reg t)).
      * right. by destruct (wr_data_done (reg t)); [right|left]; (split; [lia|]).
      * left. split; [split; [lia|done]|lia].
    + split; [|done]. split; [split; [lia|done]|lia].
  - intros t (((Ht & E) & Hm) & Hg). by apply (mem_address Hmem).
Qed.

Lemma address_advances m :
  leads_to (left_address (S m)) (fun t => left_address m t \/ addressed t).
Proof.
  intros t H. destruct (guard_AWVALID (reg t)) eqn:Hg; [by apply (address_offered m)|].
  destruct H as ((Ht & E) & Hm).
  destruct (wr_edge_th_valid A DW LW (env t) (reg t) (Hrst t) E) as (E1 & E2 & _).
  rewrite <- wr_reg_S in E1, E2. unfold m_axi_AWVALID in E1, E2. rewrite Hg, andb_false_r in E1, E2.
  destruct (address_offered m (S t)) as (t' & Ht' & Hq); [|exists t'; split; [lia|done]].
  split; [|done]. split; [split; [lia|done]|].
  by rewrite count_S, (wr_accept_guarded t Hg), Z.add_0_r.
Qed.

Lemma all_addressed m : leads_to (left_address m) addressed.
Proof.
  eapply leads_to_weaken; [apply (leads_to_down left_address); apply address_advances|].
  intros t [((Ht & E) & Hm)|]; [|done].
  destruct (wr_progress_always t Ht) as (_ & _ & Hp). unfold progress in Hp. rewrite E in Hp.
  destruct Hp as (_ & _ & Hlt & _). lia.
Qed.

Lemma data_advances m : leads_to (left_data (S m)) (fun t => left_data m t \/ in_state WR_END t).
Proof.
  apply (leads_to_wait _ _ (fun t => m_axi_WREADY (env t))).
  - intros t ((Ht & E) & Hm). destruct (wr_progress_always t Ht) as (_ & _ & Hp).
    unfold progress in Hp. rewrite E in Hp. destruct Hp as (_ & _ & _ & Hg).
    destruct (edge_th_data A DW LW (env t) (reg t) (Hrst t) E) as (E1 & _).
    rewrite <- wr_reg_S in E1.
    assert (Hd : wr_data_done (reg t) = false).
    { apply not_true_is_false. rewrite done_iff by done. lia. }
    rewrite Hd in E1. unfold left_data, in_state. rewrite count_S. unfold tick at 2 4.
    rewrite Hg, andb_true_r. destruct (m_axi_WREADY (env t)); cbn [Z.b2z].
    + left. split; [split; [lia|done]|lia].
    + split; [split; [lia|done]|lia].
  - intros t ((Ht & E) & Hm). apply (mem_data Hmem).
    destruct (wr_progress_always t Ht) as ([] & (_ & Hw & _) & Hp).
    unfold progress in Hp. rewrite E in Hp. destruct Hp as (_ & _ & _ & Hg).
    unfold m_axi_WVALID. rewrite Hg, andb_true_r, c_num_r0, Hw.
    pose proof burst_beats_range. pose proof (p_num_range P). pose proof (count_nonneg tick t).
    assert (count tick t / burst_beats < p_num P).
    { apply Z.div_lt_upper_bound; [lia|]. unfold run_beats in Hm. lia. }
    pose proof (Z.div_pos (count tick t) burst_beats).
    rewrite trunc_small by lia. apply negb_true_iff, Z.eqb_neq. lia.
Qed.

Lemma data_done : leads_to (left_data 0) (in_state WR_END).
Proof.
  apply leads_to_next. intros t ((Ht & E) & Hm).
  destruct (edge_th_data A DW LW (env t) (reg t) (Hrst t) E) as (E1 & _).
  rewrite <- wr_reg_S in E1. rewrite (proj2 (done_iff t Ht)) in E1 by lia. split; [lia|done].
Qed.

Lemma wr_reaches_end : exists t, in_state WR_END t.
Proof.
  destruct wr_begins as (_ & _ & _ & _ & _ & _ & B & _ & _ & E).
  destruct (all_addressed (Z.to_nat (p_num P)) 3%nat) as (t1 & _ & [Ht1|Ht1]).
  - split; [by split|]. lia.
  - destruct (leads_to_down left_data (in_state WR_END) _ data_advances t1 (conj Ht1 eq_refl))
      as (t2 & _ & [Ht2|Ht2]); [|by exists t2].
    destruct (data_done t2 Ht2) as (t3 & _ & Ht3). by exists t3.
  - by exists t1.
Qed.

Lemma wr_idle_stays t t' : in_state WR_IDLE t -> (t <= t')%nat -> in_state WR_IDLE t'.
Proof.
  intros H. induction 1 as [|u Hu IH]; [done|]. destruct IH as [H3 E].
  destruct (wr_edge_idle A DW LW (env u) (reg u) (Hrst u) E) as (E1 & _);
    [apply wr_started_later; lia|]. by split; [lia|].
Qed.
End Completes.

(** The beats of the memory are the ticks of the engine, up to the last one. *)
Lemma beat_cases t :
  (3 <= t)%nat -> (Z.of_nat t < 2 ^ 64) ->
  beat t = negb (count tick t / burst_beats =? p_num P) && tick t.
Proof.
  intros Ht Hlt. destruct (wr_progress_always t Ht) as ([] & (_ & Hw & _) & _).
  pose proof burst_beats_range. pose proof (count_nonneg tick t).
  pose proof (Z.div_pos (count tick t) burst_beats).
  pose proof (Z.div_le_upper_bound (count tick t) burst_beats (count tick t)).
  pose proof (count_le tick t).
  rewrite beat_tick, c_num_r0, Hw, trunc_small by nia. done.
Qed.

Lemma beat_before t :
  (3 <= t)%nat -> count tick t < run_beats -> beat t = tick t.
Proof.
  intros Ht Hlt. destruct (wr_progress_always t Ht) as ([] & (_ & Hw & _) & _).
  pose proof burst_beats_range. pose proof (count_nonneg tick t). pose proof (p_num_range P).
  assert (count tick t / burst_beats < p_num P).
  { apply Z.div_lt_upper_bound; [lia|]. unfold run_beats in Hlt. lia. }
  pose proof (Z.div_pos (count tick t) burst_beats).
  rewrite beat_tick, c_num_r0, Hw, trunc_small by lia.
  by rewrite (proj2 (Z.eqb_neq _ _)) by lia.
Qed.

Lemma no_beat_3 t : (t <= 3)%nat -> beat t = false /\ tick t = false.
Proof.
  intros Ht. destruct wr_begins as (_ & _ & _ & _ & _ & Hg & _ & Hc & _).
  assert (Htick : tick t = false).
  { destruct (decide (t = 3)%nat) as [->|]; [by apply tick_guarded|].
    pose proof (count_mono tick (S t) 3 ltac:(lia)) as Hm. rewrite count_S in Hm.
    pose proof (count_nonneg tick t). destruct (tick t); [cbn [Z.b2z] in Hm; lia|done]. }
  by rewrite beat_tick, Htick, andb_false_r.
Qed.

Lemma beats_are_ticks t :
  count tick t <= run_beats -> count beat t = count tick t.
Proof.
  induction t as [|t IH]; intros Hle; [done|]. rewrite !count_S in *.
  assert (0 <= Z.b2z (tick t)) by by destruct (tick t).
  rewrite IH by lia. destruct (decide (3 <= t)%nat) as [H3|H3].
  - destruct (tick t) eqn:Et; [|by rewrite beat_tick, Et, andb_false_r].
    rewrite (beat_before t H3), Et by (cbn [Z.b2z] in *; lia). done.
  - destruct (no_beat_3 t) as [-> ->]; [lia|done].
Qed.

(** All beats that are due are sent when all are counted. *)
Lemma beats_sent t : run_beats <= count tick t -> run_beats <= count beat t.
Proof.
  induction t as [|t IH]; intros Hle.
  - pose proof burst_beats_range. unfold run_beats in Hle. cbn in Hle. nia.
  - pose proof (count_mono beat t (S t) ltac:(lia)).
    destruct (decide (run_beats <= count tick t)); [specialize (IH ltac:(done)); lia|].
    rewrite count_S in Hle. assert (count tick (S t) = run_beats) as E.
    { rewrite count_S. destruct (tick t); cbn [Z.b2z] in *; lia. }
    rewrite (beats_are_ticks (S t)); lia.
Qed.

(** Until the last beat is counted the run goes on. *)
Lemma not_done_state t :
  (3 <= t)%nat -> count tick t < run_beats ->
  state (reg (S t)) = WR_TH_VALID \/ state (reg (S t)) = WR_TH_DATA.
Proof.
  intros Ht Hlt.
  assert (Hd : wr_data_done (reg t) = false).
  { apply not_true_is_false. rewrite done_iff by done. lia. }
  destruct (wr_progress_always t Ht) as (_ & _ & Hp). unfold progress in Hp. rewrite Hd in Hp.
  pose proof (wr_edge_th_valid A DW LW (env t) (reg t) (Hrst t)) as Ev.
  pose proof (edge_th_data A DW LW (env t) (reg t) (Hrst t)) as Ed.
  rewrite <- wr_reg_S, Hd in *. destruct (state (reg t)); try done.
  - by destruct Hp as (_ & _ & _ & ? & _).
  - destruct (Ev eq_refl) as (-> & _). destruct (_ && _); auto.
  - destruct (Ed eq_refl) as (-> & _). auto.
  - by destruct Hp as (_ & _ & _ & ?).
Qed.

(** A memory that takes the last beat only when it has all the addresses. *)
Section Ordered.
Context (Hord : forall t, count beat t = run_beats -> count accept t = p_num P).

Definition sent (t : nat) : Prop :=
  (count tick t < run_beats /\ count beat t = count tick t) \/
  (count beat t = run_beats /\ run_beats <= count tick t /\
   ((state (reg t) = WR_TH_DATA /\ count tick t = run_beats) \/
    (guard_WVALID (reg t) = false /\ (state (reg t) = WR_END \/ state (reg t) = WR_IDLE)))).

Lemma sent_S t : (3 <= t)%nat -> sent t -> sent (S t).
Proof.
  intros Ht Hs. unfold sent. rewrite !count_S.
  destruct (wr_progress_always t Ht) as (Hc & (_ & Hw & _) & _).
  destruct Hs as [[Hlt Hb]|(Hb & Hle & [[E Hc1]|[Hg Hs]])].
  - rewrite (beat_before t Ht Hlt), Hb.
    destruct (decide (count tick t + Z.b2z (tick t) < run_beats)); [by left|right].
    assert (Hr : count tick t + Z.b2z (tick t) = run_beats) by (destruct (tick t); cbn [Z.b2z] in *; lia).
    split; [done|]. split; [lia|]. left. split; [|done].
    assert (Ha : count accept (S t) = p_num P).
    { apply Hord. by rewrite count_S, (beat_before t Ht Hlt), Hb. }
    destruct (not_done_state t Ht Hlt) as [E|]; [|done].
    destruct (wr_progress_always (S t)) as (_ & _ & Hp); [lia|]. unfold progress in Hp.
    rewrite E in Hp. destruct Hp as (_ & _ & Hlt2 & _). lia.
  - right. assert (Hbt : beat t = false).
    { rewrite beat_tick, (c_num_r _ Hc), Hw, Hc1. unfold run_beats.
      pose proof burst_beats_range. pose proof (p_num_range P).
      by rewrite Z.div_mul, trunc_small, Z.eqb_refl by lia. }
    rewrite Hbt, Z.add_0_r. split; [done|]. split; [destruct (tick t); cbn; lia|]. right.
    destruct (edge_th_data A DW LW (env t) (reg t) (Hrst t) E) as (E1 & _ & E3 & _).
    rewrite <- wr_reg_S in *. rewrite (proj2 (done_iff t Ht)) in * by lia. by auto.
  - right. rewrite beat_tick, (tick_guarded t Hg), andb_false_r, !Z.add_0_r.
    split; [done|]. split; [done|]. right. destruct Hs as [E|E].
    + destruct (wr_edge_end A DW LW (env t) (reg t) (Hrst t) E) as (E1 & _ & E3 & _).
      rewrite <- wr_reg_S in *. auto.
    + destruct (wr_edge_idle A DW LW (env t) (reg t) (Hrst t) E (wr_started_later t ltac:(lia)))
        as (E1 & _ & E3 & _).
      rewrite <- wr_reg_S in *. auto.
Qed.

Lemma sent_always t : (3 <= t)%nat -> sent t.
Proof.
  induction t as [|t IH]; intros Ht; [lia|].
  destruct (decide (t = 2)%nat) as [->|]; [|apply sent_S; [lia|]; apply IH; lia].
  destruct wr_begins as (_ & _ & _ & _ & _ & _ & _ & Hc & _). pose proof burst_beats_range.
  left. split; [unfold run_beats; nia|]. apply beats_are_ticks. unfold run_beats. nia.
Qed.

Lemma beats_bounded t : count beat t <= run_beats.
Proof.
  pose proof (count_mono beat t (3 + t) ltac:(lia)).
  destruct (sent_always (3 + t)) as [|(? & _)]; lia.
Qed.

Lemma last_marked t :
  beat t = true -> m_axi_WLAST (reg t) = ((count beat t + 1) mod burst_beats =? 0).
Proof.
  intros Hb. pose proof burst_beats_range.
  destruct (decide (3 <= t)%nat) as [H3|H3]; [|by destruct (no_beat_3 t) as [E _]; [lia|rewrite E in Hb]].
  destruct (wr_progress_always t H3) as ([] & (Hbi & Hw & _) & _).
  assert (Ht : tick t = true) by (rewrite beat_tick in Hb; by apply andb_true_iff in Hb as [_ Hb]).
  assert (Hg : guard_WVALID (reg t) = true) by (by apply andb_true_iff in Ht as [_ Hg]).
  destruct (sent_always t H3) as [[Hlt Hc]|(Hc & Hle & [[E He]|[Hf _]])].
  - unfold m_axi_WLAST. rewrite Hg, andb_true_r, Hbi, c_len0, Hc.
    destruct (div_mod_succ (count tick t) burst_beats) as [-> _]; [lia|].
    pose proof (Z.mod_pos_bound (count tick t) burst_beats ltac:(lia)).
    destruct (_ =? _); [done|]. symmetry. apply Z.eqb_neq. lia.
  - rewrite beat_tick, c_num_r0, Hw, He in Hb. unfold run_beats in Hb. pose proof (p_num_range P).
    by rewrite Z.div_mul, trunc_small, Z.eqb_refl in Hb by lia.
  - congruence.
Qed.
End Ordered.

(** Data that runs ahead: the memory takes beats and no address. *)
Section Ahead.
Context (T : nat) (HT : Z.of_nat T < 2 ^ 64).
Context (Hno : forall t, (t < T)%nat -> m_axi_AWREADY (env t) = false).
Context (Hyes : forall t, m_axi_WREADY (env t) = true).

Lemma ahead_state t :
  (3 <= t <= T)%nat -> state (reg t) = WR_TH_VALID /\ count accept t = 0.
Proof.
  induction t as [|t IH]; intros Ht; [lia|].
  destruct wr_begins as (_ & _ & _ & _ & _ & _ & B & _ & _ & E3).
  destruct (decide (t = 2)%nat) as [->|]; [done|].
  destruct IH as [E Hc]; [lia|].
  destruct (wr_edge_th_valid A DW LW (env t) (reg t) (Hrst t) E) as (E1 & _).
  rewrite <- wr_reg_S in E1. rewrite count_S. unfold accept at 2.
  rewrite (Hno t) in * by lia. by rewrite E1, Hc.
Qed.

Lemma ahead_beats (n : nat) :
  (4 + n <= T)%nat ->
  count tick (4 + n) = Z.of_nat n /\
  count beat (4 + n) = (if Z.of_nat n <=? run_beats then Z.of_nat n
                        else if Z.of_nat n <=? run_beats + burst_beats then run_beats
                        else Z.of_nat n - burst_beats).
Proof.
  pose proof burst_beats_range.
  assert (Hr : 1 <= run_beats) by (unfold run_beats; nia).
  induction n as [|n IH]; intros Hn.
  - assert (E : forall t, (t <= 4)%nat -> count tick t = 0 /\ count beat t = 0).
    { induction t as [|t IHt]; intros Ht; [done|]. rewrite !count_S.
      destruct (no_beat_3 t) as [-> ->]; [lia|]. destruct IHt as [-> ->]; [lia|done]. }
    change (4 + 0)%nat with 4%nat. destruct (E 4%nat ltac:(lia)) as [-> ->]. split; [done|].
    by rewrite (proj2 (Z.leb_le _ _)) by lia.
  - destruct IH as [Ht Hb]; [lia|].
    destruct (ahead_state (4 + n)) as [E _]; [lia|].
    assert (Htk : tick (4 + n) = true).
    { destruct (wr_progress_always (4 + n)) as (_ & _ & Hp); [lia|]. unfold progress in Hp.
      rewrite E in Hp. destruct Hp as (_ & _ & _ & _ & _ & Hg & _).
      unfold tick. rewrite Hyes, Hg. apply Nat.ltb_lt. lia. }
    replace (4 + S n)%nat with (S (4 + n)) by lia.
    rewrite !count_S, Htk, Ht, Hb, beat_cases, Htk, Ht, andb_true_r by lia.
    split; [cbn [Z.b2z]; lia|]. pose proof (Z.div_mod (Z.of_nat n) burst_beats ltac:(lia)) as Hdm.
    pose proof (Z.mod_pos_bound (Z.of_nat n) burst_beats ltac:(lia)).
    unfold run_beats in *.
    destruct (Z.eqb_spec (Z.of_nat n / burst_beats) (p_num P)); cbn [negb Z.b2z];
      repeat match goal with |- context [?a <=? ?b] => destruct (Z.leb_spec a b) end; nia.
Qed.
End Ahead.

Lemma wr_accepted_le t : count accept t <= p_num P.
Proof.
  pose proof (count_mono accept t (3 + t) ltac:(lia)).
  destruct (wr_progress_always (3 + t)) as (_ & _ & Hp); [lia|]. unfold progress in Hp.
  destruct (state _); try done; try (destruct Hp as (? & ? & ? & ?); lia).
Qed.

Lemma accepted_addr t :
  accept t = true -> m_axi_AWADDR (reg t) = op_addr A P (count accept (pred t)).
Proof.
  intros Ha. pose proof (wr_accept_valid t Ha) as Hg.
  destruct (decide (3 <= t)%nat) as [H3|H3].
  - destruct (wr_progress_always t H3) as (_ & _ & Hp). unfold progress in Hp. rewrite Hg in Hp.
    destruct (state (reg t)); try done; try by destruct Hp as (_ & ? & _).
    + destruct Hp as (_ & _ & _ & _ & Hlt & _ & Haddr). apply Haddr, Nat.ltb_lt. done.
    + by destruct Hp as (_ & _ & ? & _).
    + by destruct Hp as (_ & _ & ? & _).
  - destruct wr_begins as (_ & _ & _ & _ & _ & _ & B & _).
    pose proof (count_mono accept (S t) 3 ltac:(lia)) as Hm. rewrite count_S, Ha in Hm.
    pose proof (count_nonneg accept t). cbn [Z.b2z] in Hm. lia.
Qed.
End Run.

(** ** Properties *)

Section Properties.
Context (A DW LW : Z) (env : nat -> wr_in) (r0 : wr_reg).
Abbreviation reg := (reg A DW LW env r0).
Abbreviation accept := (accept A DW LW env r0).
Abbreviation beat := (beat A DW LW env r0).
Abbreviation P := (lt_params (env 0%nat)).

(** One run: reset is over, and [start] is a pulse in cycle 0. *)
Record one_run : Prop := {
  run_width : 0 <= A;
  run_len : 0 <= LW <= 8;
  run_reset : forall t, rst_n (env t) = true;
  run_start : forall t, start (env t) = (t =? 0)%nat;
  run_quiet : quiet r0;
}.

(** The run as a whole. *)
Lemma wr_run_done :
  one_run -> 1 <= p_num P -> memory A DW LW env r0 ->
  exists te, forall t, (te <= t)%nat ->
    end_of_exec (reg t) = (t =? te)%nat /\ (forall u, (u < te)%nat -> end_of_exec (reg u) = false) /\
    count accept t = p_num P /\ p_num P * burst_beats DW LW env <= count beat t /\
    lat_timer_sum (reg t) = trunc 64 (Z.of_nat te - 3) /\ state (reg t) = WR_IDLE.
Proof.
  intros [HA HLW Hrst Hstart Hquiet] Hops Hmem.
  destruct (wr_reaches_end A DW LW HA HLW env r0 Hrst Hstart Hquiet Hops Hmem) as (tE & HtE & EE).
  destruct (wr_edge_end A DW LW (env tE) (reg tE) (Hrst tE) EE) as (E1 & _ & _ & E3 & _).
  rewrite <- wr_reg_S in E1, E3. exists (S tE). intros t Ht.
  destruct (wr_idle_stays A DW LW env r0 Hrst Hstart (S tE) t) as [H3 Et];
    [split; [lia|done]|done|].
  destruct (wr_progress_always A DW LW HA HLW env r0 Hrst Hstart Hquiet Hops t H3) as (_ & _ & Hp).
  unfold progress in Hp. rewrite Et in Hp.
  destruct Hp as (Hcnt & _ & _ & Hd & te & Hte & Hend & Hsum).
  assert (te = S tE) as ->.
  { specialize (Hend (S tE) Ht). rewrite E3 in Hend. symmetry in Hend.
    by apply Nat.eqb_eq in Hend. }
  split; [by apply Hend|]. split.
  { intros u Hu. rewrite Hend by lia. apply Nat.eqb_neq. lia. }
  split; [done|]. split; [|done].
  apply (beats_sent A DW LW HA HLW env r0 Hrst Hstart Hquiet Hops).
  by apply (done_iff A DW LW HA HLW env r0 Hrst Hstart Hquiet Hops t H3).
Qed.

(** C10: a run of the write engine ends, with any memory that accepts what it is
    offered, address channel and data channel in any order: [end_of_exec] is
    raised in one cycle and only there; by then exactly the number of
    operations of the parameters was accepted, each at the position of the
    operations accepted before the previous cycle, and at least all beats of
    their bursts; the timer has the cycles since the first one of the run. *)
Theorem wr_run_completes :
  one_run -> 1 <= p_num P -> memory A DW LW env r0 ->
  (forall t, accept t = true -> m_axi_AWADDR (reg t) = op_addr A P (count accept (pred t))) /\
  exists te, forall t, (te <= t)%nat ->
    end_of_exec (reg t) = (t =? te)%nat /\ (forall u, (u < te)%nat -> end_of_exec (reg u) = false) /\
    count accept t = p_num P /\ p_num P * burst_beats DW LW env <= count beat t /\
    lat_timer_sum (reg t) = trunc 64 (Z.of_nat te - 3) /\ state (reg t) = WR_IDLE.
Proof.
  intros Hrun Hops Hmem. split; [|by apply wr_run_done].
  destruct Hrun as [HA HLW Hrst Hstart Hquiet]. by apply accepted_addr.
Qed.

(** C11: with a memory that takes the last beat only when it has all the
    addresses, the engine sends exactly the beats of its bursts, and marks as
    last exactly the last beat of every burst. *)
Theorem wr_beats_exact :
  one_run -> 1 <= p_num P ->
  (forall t, count beat t = p_num P * burst_beats DW LW env -> count accept t = p_num P) ->
  forall t, count beat t <= p_num P * burst_beats DW LW env /\
    (beat t = true ->
     m_axi_WLAST (reg t) = ((count beat t + 1) mod burst_beats DW LW env =? 0)).
Proof.
  intros [HA HLW Hrst Hstart Hquiet] Hops Hord t. split.
  - by apply beats_bounded.
  - by apply last_marked.
Qed.

(** Data that runs ahead of the addresses is sent again.  While the memory
    takes data and no address, the engine counts on past the last burst: after
    a burst's time of silence it offers beats without end.  In cycle [T] that is
    [T - 4 - burst_beats] beats, however few operations there are, and no
    address. *)
Theorem wr_data_overruns (T : nat) :
  one_run -> 1 <= p_num P ->
  4 + (p_num P + 1) * burst_beats DW LW env <= Z.of_nat T < 2 ^ 64 ->
  (forall t, (t < T)%nat -> m_axi_AWREADY (env t) = false) ->
  (forall t, m_axi_WREADY (env t) = true) ->
  count accept T = 0 /\ count beat T = Z.of_nat T - 4 - burst_beats DW LW env.
Proof.
  intros [HA HLW Hrst Hstart Hquiet] Hops HT Hno Hyes.
  pose proof (burst_beats_range DW LW HLW env) as HB.
  destruct (ahead_state A DW LW HLW env r0 Hrst Hstart Hquiet Hops T Hno T) as [_ Hc]; [nia|].
  destruct (ahead_beats A DW LW HA HLW env r0 Hrst Hstart Hquiet Hops T ltac:(lia) Hno Hyes (T - 4))
    as [_ Hb]; [nia|].
  replace (4 + (T - 4))%nat with T in Hb by nia. split; [done|]. rewrite Hb.
  unfold run_beats. destruct (Z.leb_spec (Z.of_nat (T - 4)) (p_num P * burst_beats DW LW env)); [nia|].
  destruct (Z.leb_spec (Z.of_nat (T - 4)) (p_num P * burst_beats DW LW env + burst_beats DW LW env)); nia.
Qed.
End Properties.

(** ** Examples

    Two bursts of two beats; the memory is always ready, for addresses from a
    given cycle on. *)

Definition example_params : Z :=
  256 + Z.shiftl 64 32 + Z.shiftl 2 64 + Z.shiftl 64 128 + Z.shiftl 4096 160.

Definition example_env (from : nat) (t : nat) : wr_in :=
  WrIn true (t =? 0)%nat example_params (from <=? t)%nat true.

Definition example_reg : wr_reg :=
  WrReg false false 0 0 0 0 0 0 0 0 0 0 0 0 0 false false false false WR_IDLE false 0 0 0.

Lemma wr_example_run from : one_run 33 4 (example_env from) example_reg.
Proof. by split. Qed.

Lemma wr_run_completes_witness :
  let env := example_env 6 in
  observed (accept 33 256 4 env example_reg) (fun t => m_axi_AWADDR (reg 33 256 4 env example_reg t)) 10 =
    [4096; 4096] /\
  exists te, forall t, (te <= t)%nat ->
    end_of_exec (reg 33 256 4 env example_reg t) = (t =? te)%nat /\
    (forall u, (u < te)%nat -> end_of_exec (reg 33 256 4 env example_reg u) = false) /\
    count (accept 33 256 4 env example_reg) t = 2 /\
    2 * burst_beats 256 4 env <= count (beat 33 256 4 env example_reg) t /\
    lat_timer_sum (reg 33 256 4 env example_reg t) = trunc 64 (Z.of_nat te - 3) /\
    state (reg 33 256 4 env example_reg t) = WR_IDLE.
Proof.
  cbv zeta. split; [by vm_compute|].
  assert (Hm : memory 33 256 4 (example_env 6) example_reg).
  { split; intros t _; exists (6 + t)%nat; (split; [lia|]); [apply Nat.leb_le; lia|done]. }
  assert (Ho : 1 <= p_num example_params) by (vm_compute; discriminate).
  exact (proj2 (wr_run_completes 33 256 4 (example_env 6) example_reg (wr_example_run 6) Ho Hm)).
Defined.

Lemma wr_beats_exact_witness :
  let env := example_env 0 in
  (fun t => m_axi_WLAST (reg 33 256 4 env example_reg t)) <$> [4; 5; 6; 7]%nat = [false; true; false; true] /\
  forall t, count (beat 33 256 4 env example_reg) t <= 2 * burst_beats 256 4 env /\
    (beat 33 256 4 env example_reg t = true ->
     m_axi_WLAST (reg 33 256 4 env example_reg t) =
       ((count (beat 33 256 4 env example_reg) t + 1) mod burst_beats 256 4 env =? 0)).
Proof.
  cbv zeta. split; [by vm_compute|].
  assert (Ho : 1 <= p_num example_params) by (vm_compute; discriminate).
  apply (wr_beats_exact 33 256 4 (example_env 0) example_reg (wr_example_run 0) Ho).
  intros t Ht. destruct (wr_example_run 0) as [HA HLW Hr Hs Hq].
  pose proof (wr_accepted_le 33 256 4 HA HLW (example_env 0) example_reg Hr Hs Hq Ho t) as Hle.
  destruct (decide (t <= 7)%nat) as [H7|H7].
  - pose proof (count_mono (beat 33 256 4 (example_env 0) example_reg) t 7 H7) as Hm.
    assert (E : count (beat 33 256 4 (example_env 0) example_reg) 7 = 3) by by vm_compute.
    assert (E2 : p_num example_params * burst_beats 256 4 (example_env 0) = 4) by by vm_compute.
    rewrite Ht, E in Hm.
    change (p_num example_params * burst_beats 256 4 (example_env 0) <= 3) in Hm.
    rewrite E2 in Hm. lia.
  - pose proof (count_mono (accept 33 256 4 (example_env 0) example_reg) 8 t ltac:(lia)) as Hm.
    assert (E : count (accept 33 256 4 (example_env 0) example_reg) 8 = p_num example_params) by by vm_compute.
    rewrite E in Hm. apply Z.le_antisymm; [exact Hle|exact Hm].
Defined.

Lemma wr_data_overruns_witness :
  let env := example_env 100 in
  count (accept 33 256 4 env example_reg) 100 = 0 /\
  count (beat 33 256 4 env example_reg) 100 = Z.of_nat 100 - 4 - burst_beats 256 4 env /\
  burst_beats 256 4 env = 2.
Proof.
  cbv zeta. assert (Ho : 1 <= p_num example_params) by (vm_compute; discriminate).
  assert (HB : burst_beats 256 4 (example_env 100) = 2) by by vm_compute.
  assert (HT : 4 + (p_num example_params + 1) * burst_beats 256 4 (example_env 100)
    <= Z.of_nat 100 < 2 ^ 64).
  { rewrite HB. change (p_num example_params) with 2. lia. }
  assert (Hno : forall t, (t < 100)%nat -> m_axi_AWREADY (example_env 100 t) = false).
  { intros t Ht. apply Nat.leb_gt. lia. }
  destruct (wr_data_overruns 33 256 4 (example_env 100) example_reg 100 (wr_example_run 100) Ho HT Hno
    (fun _ => eq_refl)) as [H1 H2].
  split; [exact H1|split; [exact H2|exact HB]].
Defined.
