(* ===== verification/Channel.v ===== *)
(** * One memory channel of the benchmark

    The registers that [hbm_benchmark.sv] of [hw/rtl/u280_hbm] and
    [hw/rtl/u280_ddr] generates for a channel, and [lt_engine.sv] with its two
    engines.  The bank of registers of [BenchControl] is an input here.  For the
    HBM, [start_r] and [start_rr] are one register that is written once per
    channel with the same value; for the DDR there is one per channel, as here.
    There the flags for the end test the vectors as a whole, so an edge that
    another channel sees clears them too: the input [others_start]. *)

From stdpp Require Import base list numbers option.
From S2P Require Import Prelude Clock EngineParams.
From S2P Require Import BenchControl.
From S2P Require Import RdEngine.
From S2P Require Import WrEngine.
Open Scope Z_scope.

(** ** Registers and inputs *)

Record ch_in : Type := ChIn {
  arstn : bool;
  bank : BenchControl.lt_params;     (* the parameter outputs of the bank *)
  hbm_channel : Z;
  write_enable : bool;               (* the bits of this channel *)
  read_enable : bool;
  start_in : bool;
  others_start : bool;               (* an edge of [start] in another channel; DDR only *)
  awready : bool;
  wready : bool;
  arready : bool;
  rvalid : bool;
  rlast : bool;
}.

(** A vector of 512 bits is kept as its halves, for the write and for the read
    engine. *)
Record ch_reg : Type := ChReg {
  lt_params_lo : Z;
  lt_params_hi : Z;
  start_r : bool;
  start_rr : bool;
  start_wr : bool;
  start_rd : bool;
  ld_params_wr : bool;
  ld_params_rd : bool;
  end_wr_o : bool;
  end_rd_o : bool;
  start_wr_reg : bool;
  start_rd_reg : bool;
  ld_params_wr_reg : bool;
  ld_params_rd_reg : bool;
  lt_params_reg_lo : Z;
  lt_params_reg_hi : Z;
  lt_params_staged_lo : Z;
  lt_params_staged_hi : Z;
  inst_wr_engine : WrEngine.wr_reg;
  inst_rd_engine : RdEngine.rd_reg;
}.

(** ** The parameter vector *)

(** The fields that are assigned, in the vector [old]; the bits 193 to 223 and
    230 to 255 are never assigned (for the DDR, only the latter). *)
Definition compose (B : design) (p : BenchControl.lt_params) (i old : Z) : Z :=
  field 32 (trunc 32 (lp_work_group_size p))
    (field 32 (trunc 32 (lp_stride p))
      (field 64 (trunc 64 (lp_num_mem_ops p))
        (field 32 (trunc 32 (lp_mem_burst_size p))
          (field (addr_field B) (trunc (addr_field B) (lp_initial_addr p))
            (field (64 - addr_field B) (slice (160 + addr_field B) (64 - addr_field B) old)
              (field 1 (Z.b2z (lp_latency p))
                (field 5 (trunc 5 i) (slice 230 26 old)))))))).

(** What reset puts there. *)
Definition reset_params (p : BenchControl.lt_params) (i : Z) : BenchControl.lt_params :=
  LtParams (lp_work_group_size p) (lp_stride p) (lp_num_mem_ops p) (lp_mem_burst_size p)
    (0x10000000 * i) false.

Section Channel.
Context (B : design) (ENGINE_ID : Z).

(** The wiring of the engines. *)
Definition rd_inputs (i : ch_in) (r : ch_reg) : RdEngine.rd_in :=
  RdEngine.RdIn (arstn i) (start_rd_reg r) (lt_params_staged_hi r) (arready i) (rvalid i) (rlast i).
Definition wr_inputs (i : ch_in) (r : ch_reg) : WrEngine.wr_in :=
  WrEngine.WrIn (arstn i) (start_wr_reg r) (lt_params_staged_lo r) (awready i) (wready i).

Definition params_lo (i : ch_in) (r : ch_reg) : Z :=
  if negb (arstn i) then compose B (reset_params (bank i) ENGINE_ID) ENGINE_ID (lt_params_lo r)
  else if hbm_channel i =? ENGINE_ID then compose B (bank i) ENGINE_ID (lt_params_lo r)
  else lt_params_lo r.
Definition params_hi (i : ch_in) (r : ch_reg) : Z :=
  if negb (arstn i) || (hbm_channel i =? ENGINE_ID) then lt_params_lo r else lt_params_hi r.

(** The pulse to an engine, and the flag that it is done. *)
Definition pulse (enable arst old : bool) (r : ch_reg) : bool :=
  if negb arst then false else if enable then start_r r && negb (start_rr r) else old.
Definition end_flag (arst others ended old : bool) (r : ch_reg) : bool :=
  if negb arst then false
  else if start_r r && negb (start_rr r) || others then false
  else if ended then true else old.

Definition ch_step (i : ch_in) (r : ch_reg) : ch_reg :=
  ChReg (params_lo i r) (params_hi i r) (start_in i) (start_r r)
    (pulse (write_enable i) (arstn i) (start_wr r) r)
    (pulse (read_enable i) (arstn i) (start_rd r) r)
    (negb (arstn i) || write_enable i || ld_params_wr r)
    (negb (arstn i) || read_enable i || ld_params_rd r)
    (end_flag (arstn i) (others_start i) (WrEngine.end_of_exec (inst_wr_engine r)) (end_wr_o r) r)
    (end_flag (arstn i) (others_start i) (RdEngine.end_of_exec (inst_rd_engine r)) (end_rd_o r) r)
    (start_wr r) (start_rd r) (ld_params_wr r) (ld_params_rd r)
    (lt_params_lo r) (lt_params_hi r)
    (if ld_params_wr_reg r && (slice 225 5 (lt_params_reg_lo r) =? ENGINE_ID)
     then lt_params_reg_lo r else lt_params_staged_lo r)
    (if ld_params_rd_reg r && (slice 225 5 (lt_params_hi r) =? ENGINE_ID)
     then lt_params_reg_hi r else lt_params_staged_hi r)
    (WrEngine.wr_step (addr_width B) (data_width B) (len_width B) (wr_inputs i r) (inst_wr_engine r))
    (RdEngine.rd_step (addr_width B) (data_width B) (len_width B) (rd_inputs i r) (inst_rd_engine r)).
End Channel.

(** ** The fields of the vector *)

Section Compose.
Context (B : design) (p : BenchControl.lt_params) (i old : Z).

Ltac in_range := first [apply trunc_range; lia|apply slice_range; lia|destruct (lp_latency p); cbn; lia].
Ltac normalise :=
  repeat match goal with
         | |- context [?a - ?b] => let v := eval vm_compute in (a - b) in change (a - b) with v
         end.
Ltac descend :=
  unfold compose; cbn [addr_field]; normalise;
  repeat (rewrite slice_above by (lia || in_range); normalise);
  rewrite ?slice_field by (lia || in_range).

Lemma compose_fields :
  let V := compose B p i old in
  p_work_group_size V = trunc 32 (lp_work_group_size p) /\
  p_stride V = trunc 32 (lp_stride p) /\
  p_num V = trunc 64 (lp_num_mem_ops p) /\
  p_burst V = trunc 16 (lp_mem_burst_size p) /\
  p_base (addr_width B) V = trunc (addr_width B) (lp_initial_addr p) /\
  p_latency V = lp_latency p /\
  slice 225 5 V = trunc 5 i.
Proof.
  cbv zeta. destruct B; cbn [addr_width addr_field].
  all: split; [by unfold p_work_group_size; descend|]; split; [by unfold p_stride; descend|].
  all: split; [by unfold p_num; descend|].
  all: split; [by unfold p_burst; descend; apply trunc_trunc|].
  all: split; [unfold p_base; descend;
    first [done|by rewrite trunc_trunc by lia|by rewrite slice_field_low, trunc_trunc by (lia || in_range)]|].
  all: split; [|by descend].
  all: unfold p_latency, compose; cbn [addr_field]; normalise; repeat (rewrite testbit_above by (lia || in_range); normalise);
    apply testbit_field.
Qed.
End Compose.

(** ** Parameters that have settled *)

(** The vector holds the parameters [p] and the number of the channel. *)
Definition holds (B : design) (p : BenchControl.lt_params) (i V : Z) : Prop :=
  p_work_group_size V = trunc 32 (lp_work_group_size p) /\
  p_stride V = trunc 32 (lp_stride p) /\
  p_num V = trunc 64 (lp_num_mem_ops p) /\
  p_burst V = trunc 16 (lp_mem_burst_size p) /\
  p_base (addr_width B) V = trunc (addr_width B) (lp_initial_addr p) /\
  p_latency V = lp_latency p /\
  slice 225 5 V = trunc 5 i.

Record vectors (B : design) (p : BenchControl.lt_params) (i : Z) (r : ch_reg) : Prop := {
  vec_lo : holds B p i (lt_params_lo r);
  vec_hi : holds B p i (lt_params_hi r);
  vec_reg_lo : holds B p i (lt_params_reg_lo r);
  vec_reg_hi : holds B p i (lt_params_reg_hi r);
}.

Section Params.
Context (B : design) (i : Z) (Hi : 0 <= i < 32).

Lemma holds_id p V : holds B p i V -> slice 225 5 V = i.
Proof. intros (_ & _ & _ & _ & _ & _ & ->). by apply trunc_small. Qed.

Lemma compose_holds p old : holds B p i (compose B p i old).
Proof. apply compose_fields. Qed.

(** They stay while the channel is not selected, or selected with the same. *)
Lemma vectors_S p e r :
  arstn e = true -> (hbm_channel e = i -> bank e = p) ->
  vectors B p i r -> vectors B p i (ch_step B i e r).
Proof.
  intros Ha Hb []. unfold ch_step, params_lo, params_hi. rewrite Ha. cbn [negb orb].
  split; cbn; try done.
  - destruct (Z.eqb_spec (hbm_channel e) i) as [E|]; [|done].
    rewrite (Hb E). apply compose_holds.
  - by destruct (_ =? _).
Qed.

(** And the engines are given them. *)
Lemma vectors_staged p e r :
  ld_params_wr_reg r = true -> ld_params_rd_reg r = true -> vectors B p i r ->
  holds B p i (lt_params_staged_lo (ch_step B i e r)) /\
  holds B p i (lt_params_staged_hi (ch_step B i e r)).
Proof.
  intros Hw Hr []. cbn [ch_step lt_params_staged_lo lt_params_staged_hi].
  by rewrite Hw, Hr, !(holds_id p), Z.eqb_refl by done.
Qed.
End Params.

(** The flags that let the engines load are set by reset and never cleared. *)
Definition loading (r : ch_reg) : Prop :=
  ld_params_wr r = true /\ ld_params_rd r = true /\
  ld_params_wr_reg r = true /\ ld_params_rd_reg r = true.

Lemma loading_S B i e r : loading r -> loading (ch_step B i e r).
Proof. intros (H1 & H2 & _). unfold loading. cbn. by rewrite H1, H2, !orb_true_r. Qed.

Lemma reset_loading B i e1 e2 r :
  arstn e1 = false -> loading (ch_step B i e2 (ch_step B i e1 r)).
Proof. intros H1. unfold loading. cbn. by rewrite H1, !orb_true_r. Qed.

(** ** A run of the channel *)

Record idle (r : ch_reg) : Prop := {
  idle_start_r : start_r r = false;
  idle_start_wr : start_wr r = false;
  idle_start_rd : start_rd r = false;
  idle_start_wr_reg : start_wr_reg r = false;
  idle_start_rd_reg : start_rd_reg r = false;
  idle_wr : WrEngine.quiet (inst_wr_engine r);
  idle_rd : RdEngine.quiet (inst_rd_engine r);
}.

Section Run.
Context (B : design) (i : Z) (Hi : 0 <= i < 32) (p : BenchControl.lt_params).
Context (env : nat -> ch_in) (r0 : ch_reg) (we re : bool).

Definition ch (t : nat) : ch_reg := at_cycle (ch_step B i) env r0 t.

(** From cycle 3 on, what the engines see. *)
Definition rd_env (t : nat) : RdEngine.rd_in := rd_inputs (env (3 + t)%nat) (ch (3 + t)%nat).
Definition wr_env (t : nat) : WrEngine.wr_in := wr_inputs (env (3 + t)%nat) (ch (3 + t)%nat).
Definition rd_r0 : RdEngine.rd_reg := inst_rd_engine (ch 3).
Definition wr_r0 : WrEngine.wr_reg := inst_wr_engine (ch 3).

(** Reset is over; the host's write of [start] reaches the channel in cycle 0,
    and its write of 0 later; the other channels see it before cycle 4; the enable
    bits stay; the parameters are in the first two registers of either path, and
    the bank has them for two more cycles. *)
Record ch_run : Prop := {
  run_reset : forall t, arstn (env t) = true;
  run_bank : forall t, (t < 2)%nat -> hbm_channel (env t) = i -> bank (env t) = p;
  run_start : start_in (env 0%nat) = true;
  run_fall : forall t, start_in (env (S t)) = true -> start_in (env t) = true;
  run_others : forall t, (4 <= t)%nat -> others_start (env t) = false;
  run_write : forall t, write_enable (env t) = we;
  run_read : forall t, read_enable (env t) = re;
  run_idle : idle r0;
  run_loading : loading r0;
  run_vectors : vectors B p i r0;
}.

Context (Hrun : ch_run).

Lemma ch_S t : ch (S t) = ch_step B i (env t) (ch t).
Proof. done. Qed.

Lemma ch_loading t : loading (ch t).
Proof. induction t as [|t IH]; [apply Hrun|]. rewrite ch_S. by apply loading_S. Qed.

Lemma ch_vectors t : (t <= 2)%nat -> vectors B p i (ch t).
Proof.
  induction t as [|t IH]; intros Ht; [apply Hrun|]. rewrite ch_S.
  apply vectors_S; [apply Hrun|by apply Hrun|apply IH; lia].
Qed.

Lemma ch_staged t :
  (t <= 2)%nat ->
  holds B p i (lt_params_staged_lo (ch (S t))) /\ holds B p i (lt_params_staged_hi (ch (S t))).
Proof.
  intros Ht.
  rewrite ch_S. destruct (ch_loading t) as (_ & _ & ? & ?). apply vectors_staged; try done.
  by apply ch_vectors.
Qed.

(** The edge is seen in cycle 1 only. *)
Lemma edge_seen t : start_r (ch t) && negb (start_rr (ch t)) = (t =? 1)%nat.
Proof.
  destruct t as [|[|t]].
  - change (ch 0) with r0. by rewrite (idle_start_r _ (run_idle Hrun)).
  - change (start_r (ch 1)) with (start_in (env 0%nat)).
    change (start_rr (ch 1)) with (start_r r0).
    by rewrite (run_start Hrun), (idle_start_r _ (run_idle Hrun)).
  - change (start_r (ch (S (S t)))) with (start_in (env (S t))).
    change (start_rr (ch (S (S t)))) with (start_in (env t)).
    pose proof (run_fall Hrun t) as H. destruct (start_in (env (S t))); [by rewrite H|done].
Qed.

Lemma pulse_at t :
  start_wr (ch t) = we && (t =? 2)%nat /\ start_rd (ch t) = re && (t =? 2)%nat.
Proof.
  induction t as [|t [IH1 IH2]].
  - change (ch 0) with r0. destruct (run_idle Hrun) as [_ -> -> _ _ _ _].
    by rewrite !andb_false_r.
  - rewrite ch_S. cbn [ch_step start_wr start_rd]. unfold pulse.
    rewrite (run_reset Hrun), (run_write Hrun), (run_read Hrun), edge_seen, IH1, IH2.
    cbn [negb]. by destruct we, re.
Qed.

Lemma pulse_reg_at t :
  start_wr_reg (ch t) = we && (t =? 3)%nat /\ start_rd_reg (ch t) = re && (t =? 3)%nat.
Proof.
  destruct t as [|t].
  - change (ch 0) with r0. destruct (run_idle Hrun) as [_ _ _ -> -> _ _].
    by rewrite !andb_false_r.
  - rewrite ch_S. cbn [ch_step start_wr_reg start_rd_reg]. apply pulse_at.
Qed.

(** The engines wait until the pulse comes, and for ever without one. *)
Lemma waits_rd t : (t <= 3)%nat \/ re = false -> RdEngine.quiet (inst_rd_engine (ch t)).
Proof.
  induction t as [|t IH]; intros Ht; [apply Hrun|].
  rewrite ch_S. cbn [ch_step inst_rd_engine]. apply RdEngine.quiet_S.
  - apply Hrun.
  - cbn [rd_inputs RdEngine.start]. rewrite (proj2 (pulse_reg_at t)).
    destruct Ht as [Ht| ->]; [|done]. rewrite (proj2 (Nat.eqb_neq t 3)) by lia. apply andb_false_r.
  - apply IH. destruct Ht; [left; lia|by right].
Qed.

Lemma waits_wr t : (t <= 3)%nat \/ we = false -> WrEngine.quiet (inst_wr_engine (ch t)).
Proof.
  induction t as [|t IH]; intros Ht; [apply Hrun|].
  rewrite ch_S. cbn [ch_step inst_wr_engine]. apply WrEngine.wr_quiet_S.
  - apply Hrun.
  - cbn [wr_inputs WrEngine.start]. rewrite (proj1 (pulse_reg_at t)).
    destruct Ht as [Ht| ->]; [|done]. rewrite (proj2 (Nat.eqb_neq t 3)) by lia. apply andb_false_r.
  - apply IH. destruct Ht; [left; lia|by right].
Qed.

(** From cycle 3 on the engines do a run of their own. *)
Lemma rd_trace t : RdEngine.reg (addr_width B) (data_width B) (len_width B) rd_env rd_r0 t = inst_rd_engine (ch (3 + t)).
Proof.
  induction t as [|t IH]; [reflexivity|]. rewrite RdEngine.reg_S, IH.
  change (3 + S t)%nat with (S (3 + t)). rewrite ch_S. unfold rd_env.
  generalize (ch (3 + t)%nat). intros c. reflexivity.
Qed.
Lemma wr_trace t : WrEngine.reg (addr_width B) (data_width B) (len_width B) wr_env wr_r0 t = inst_wr_engine (ch (3 + t)).
Proof.
  induction t as [|t IH]; [reflexivity|]. rewrite WrEngine.wr_reg_S, IH.
  change (3 + S t)%nat with (S (3 + t)). rewrite ch_S. unfold wr_env.
  generalize (ch (3 + t)%nat). intros c. reflexivity.
Qed.

Lemma rd_runs : re = true -> RdEngine.one_run (addr_width B) rd_env rd_r0.
Proof.
  intros Hre. split; [by destruct B| | |].
  - intros t. apply (run_reset Hrun).
  - intros t. cbn [rd_env rd_inputs RdEngine.start]. rewrite (proj2 (pulse_reg_at _)), Hre. done.
  - apply waits_rd. by left.
Qed.
Lemma wr_runs : we = true -> WrEngine.one_run (addr_width B) (len_width B) wr_env wr_r0.
Proof.
  intros Hwe. split; [by destruct B|by destruct B| | |].
  - intros t. apply (run_reset Hrun).
  - intros t. cbn [wr_env wr_inputs WrEngine.start]. rewrite (proj1 (pulse_reg_at _)), Hwe. done.
  - apply waits_wr. by left.
Qed.

Lemma rd_params_hold : holds B p i (RdEngine.lt_params (rd_env 0%nat)).
Proof. by apply (ch_staged 2). Qed.
Lemma wr_params_hold : holds B p i (WrEngine.lt_params (wr_env 0%nat)).
Proof. by apply (ch_staged 2). Qed.

(** The flags: cleared by the edge, and by that of others in the first cycles;
    set for good by the end. *)
Lemma end_flag_trace (f e : nat -> bool) te :
  (forall t, f (S t) = if (t =? 1)%nat || others_start (env t) then false
                       else if e t then true else f t) ->
  (forall t, (2 <= t)%nat -> e t = (t =? te)%nat) -> (4 <= te)%nat ->
  forall t, (2 <= t)%nat -> f t = (te <? t)%nat.
Proof.
  intros Hf He Hte. induction t as [|t IH]; intros Ht; [lia|].
  rewrite Hf. destruct (Nat.eqb_spec t 1) as [->|]; cbn [orb].
  { symmetry. apply Nat.ltb_ge. lia. }
  rewrite He, IH by lia. destruct (decide (t < 4)%nat) as [Hlt|Hge].
  - rewrite (proj2 (Nat.eqb_neq t te)), !(proj2 (Nat.ltb_ge _ _)) by lia.
    by destruct (others_start (env t)).
  - rewrite (run_others Hrun) by lia. destruct (Nat.eqb_spec t te) as [->|].
    + symmetry. apply Nat.ltb_lt. lia.
    + destruct (Nat.ltb_spec te t), (Nat.ltb_spec te (S t)); done || lia.
Qed.

Lemma end_rd_S t :
  end_rd_o (ch (S t)) = if (t =? 1)%nat || others_start (env t) then false
    else if RdEngine.end_of_exec (inst_rd_engine (ch t)) then true else end_rd_o (ch t).
Proof.
  rewrite ch_S. cbn [ch_step end_rd_o]. unfold end_flag.
  by rewrite (run_reset Hrun), edge_seen.
Qed.
Lemma end_wr_S t :
  end_wr_o (ch (S t)) = if (t =? 1)%nat || others_start (env t) then false
    else if WrEngine.end_of_exec (inst_wr_engine (ch t)) then true else end_wr_o (ch t).
Proof.
  rewrite ch_S. cbn [ch_step end_wr_o]. unfold end_flag.
  by rewrite (run_reset Hrun), edge_seen.
Qed.

(** From the end of an engine's own run to the flag of the channel. *)
Lemma from_engine (e : nat -> bool) te :
  e 2%nat = false ->
  (forall t, (te <= t)%nat -> e (3 + t)%nat = (t =? te)%nat) ->
  (forall u, (u < te)%nat -> e (3 + u)%nat = false) ->
  forall t, (2 <= t)%nat -> e t = (t =? 3 + te)%nat.
Proof.
  intros H2 Hge Hlt t Ht. destruct (decide (t = 2)%nat) as [->|]; [done|].
  replace t with (3 + (t - 3))%nat by lia. set (u := (t - 3)%nat).
  destruct (decide (u < te)%nat).
  - rewrite Hlt by done. symmetry. apply Nat.eqb_neq. lia.
  - rewrite Hge by lia. destruct (Nat.eqb_spec u te), (Nat.eqb_spec (3 + u) (3 + te)); done || lia.
Qed.

(** What the host sees of an engine: its flag rises at [te] and stays; the timer
    has the cycles of the run. *)
Definition reports (flag : ch_reg -> bool) (timer : ch_reg -> Z) (te : nat) : Prop :=
  forall t, (2 <= t)%nat -> flag (ch t) = (te <? t)%nat /\
    ((te < t)%nat -> timer (ch t) = trunc 64 (Z.of_nat te - 6)).

Lemma read_reports :
  re = true -> 1 <= trunc 32 (lp_num_mem_ops p) -> RdEngine.memory (addr_width B) (data_width B) (len_width B) rd_env rd_r0 ->
  exists te, reports end_rd_o (fun c => RdEngine.lat_timer_sum (inst_rd_engine c)) te /\
    forall t, (te <= 3 + t)%nat ->
      count (RdEngine.accept (addr_width B) (data_width B) (len_width B) rd_env rd_r0) t = trunc 32 (lp_num_mem_ops p).
Proof.
  intros Hre Hops Hmem. destruct rd_params_hold as (_ & _ & Hn & _).
  assert (E : RdEngine.p_ops (RdEngine.lt_params (rd_env 0%nat)) = trunc 32 (lp_num_mem_ops p)).
  { unfold RdEngine.p_ops. rewrite Hn. by apply trunc_trunc. }
  destruct (RdEngine.run_done (addr_width B) (data_width B) (len_width B) rd_env rd_r0 (rd_runs Hre) ltac:(by rewrite E) Hmem)
    as (te & Hte).
  assert (Hpos : (1 <= te)%nat).
  { destruct te; [|lia]. destruct (Hte 0%nat (le_n _)) as [H0 _]. rewrite rd_trace in H0.
    by rewrite (RdEngine.quiet_end _ (waits_rd (3 + 0) (or_introl (le_n 3)))) in H0. }
  exists (3 + te)%nat. split.
  - intros t Ht. split.
    + apply (end_flag_trace (fun u => end_rd_o (ch u)) (fun u => RdEngine.end_of_exec (inst_rd_engine (ch u)))); [apply end_rd_S| |lia|done].
      apply from_engine.
      * apply waits_rd. left. lia.
      * intros u Hu. rewrite <- rd_trace. by apply Hte.
      * intros u Hu. rewrite <- rd_trace. by apply (Hte te).
    + intros Hlt. replace t with (3 + (t - 3))%nat by lia. rewrite <- rd_trace.
      destruct (Hte (t - 3)%nat) as (_ & _ & _ & _ & _ & -> & _); [lia|]. f_equal. lia.
  - intros t Ht. rewrite <- E. by apply Hte; lia.
Qed.

Lemma write_reports :
  we = true -> 1 <= trunc 64 (lp_num_mem_ops p) -> WrEngine.memory (addr_width B) (data_width B) (len_width B) wr_env wr_r0 ->
  exists te, reports end_wr_o (fun c => WrEngine.lat_timer_sum (inst_wr_engine c)) te /\
    forall t, (te <= 3 + t)%nat ->
      count (WrEngine.accept (addr_width B) (data_width B) (len_width B) wr_env wr_r0) t = trunc 64 (lp_num_mem_ops p).
Proof.
  intros Hwe Hops Hmem. destruct wr_params_hold as (_ & _ & Hn & _).
  destruct (WrEngine.wr_run_done (addr_width B) (data_width B) (len_width B) wr_env wr_r0 (wr_runs Hwe) ltac:(by rewrite Hn) Hmem)
    as (te & Hte).
  assert (Hpos : (1 <= te)%nat).
  { destruct te; [|lia]. destruct (Hte 0%nat (le_n _)) as [H0 _]. rewrite wr_trace in H0.
    by rewrite (WrEngine.quiet_end _ (waits_wr (3 + 0) (or_introl (le_n 3)))) in H0. }
  exists (3 + te)%nat. split.
  - intros t Ht. split.
    + apply (end_flag_trace (fun u => end_wr_o (ch u)) (fun u => WrEngine.end_of_exec (inst_wr_engine (ch u)))); [apply end_wr_S| |lia|done].
      apply from_engine.
      * apply waits_wr. left. lia.
      * intros u Hu. rewrite <- wr_trace. by apply Hte.
      * intros u Hu. rewrite <- wr_trace. by apply (Hte te).
    + intros Hlt. replace t with (3 + (t - 3))%nat by lia. rewrite <- wr_trace.
      destruct (Hte (t - 3)%nat) as (_ & _ & _ & _ & -> & _); [lia|]. f_equal. lia.
  - intros t Ht. rewrite <- Hn. by apply Hte; lia.
Qed.

(** An engine that was not enabled stays silent. *)
Lemma read_silent :
  re = false -> forall t, (2 <= t)%nat ->
    end_rd_o (ch t) = false /\ RdEngine.m_axi_ARVALID (inst_rd_engine (ch t)) = false.
Proof.
  intros Hre t Ht. split; [|by apply waits_rd; right].
  induction t as [|t IH]; [lia|]. rewrite end_rd_S. destruct (Nat.eqb_spec t 1); [done|].
  destruct (others_start (env t)); [done|]. destruct (waits_rd t) as [_ _ _ -> _]; [by right|]. apply IH. lia.
Qed.
Lemma write_silent :
  we = false -> forall t, (2 <= t)%nat ->
    end_wr_o (ch t) = false /\ WrEngine.m_axi_AWVALID (inst_wr_engine (ch t)) = false.
Proof.
  intros Hwe t Ht. split; [|by apply waits_wr; right].
  induction t as [|t IH]; [lia|]. rewrite end_wr_S. destruct (Nat.eqb_spec t 1); [done|].
  destruct (others_start (env t)); [done|]. destruct (waits_wr t) as [_ _ _ _ ->]; [by right|]. apply IH. lia.
Qed.
End Run.

Lemma elem_of_start_engines B r params b i q :
  Started b i q ∈ start_engines B r params <->
  0 <= i < n_mem_intf B /\ q = params i /\
  Z.testbit (if b then out_read_enable B r else out_write_enable B r) i = true.
Proof.
  unfold start_engines. rewrite list_elem_of_In, in_flat_map. split.
  - intros (j & Hj & Hin). apply list_elem_of_In, elem_of_seqZ in Hj.
    apply in_app_or in Hin as [Hin|Hin];
      destruct (Z.testbit _ j) eqn:E; cbn in Hin; try done;
      destruct Hin as [[= <- <- <-]|[]]; (split; [lia|done]).
  - intros (Hi & -> & Hb). exists i. split; [apply list_elem_of_In, elem_of_seqZ; lia|].
    apply in_or_app. destruct b; rewrite Hb; cbn; auto.
Qed.

(** ** Properties *)

(** The parameters that the register bank shows while a channel is selected
    are, four cycles later, in the vectors of both engines of the channel, cut
    to the widths of the vector's fields, whatever was there before. *)
Theorem parameters_reach_engines B i p env r0 :
  0 <= i < 32 -> loading r0 ->
  (forall t, arstn (env t) = true /\ hbm_channel (env t) = i /\ bank (env t) = p) ->
  forall t, (4 <= t)%nat ->
    holds B p i (lt_params_staged_lo (ch B i env r0 t)) /\
    holds B p i (lt_params_staged_hi (ch B i env r0 t)).
Proof.
  intros Hi Hl Henv.
  assert (Hld : forall t, loading (ch B i env r0 t)).
  { induction t as [|t IH]; [done|]. by apply loading_S. }
  assert (S1 : forall t, holds B p i (lt_params_lo (ch B i env r0 (S t)))).
  { intros t. destruct (Henv t) as (Ha & Hc & Hb). cbn. unfold params_lo.
    rewrite Ha, Hc, Z.eqb_refl, Hb. apply compose_holds. }
  assert (S2 : forall t, holds B p i (lt_params_hi (ch B i env r0 (2 + t)%nat)) /\
                         holds B p i (lt_params_reg_lo (ch B i env r0 (2 + t)%nat))).
  { intros t. destruct (Henv (S t)) as (Ha & Hc & Hb). split; [|apply S1].
    change (holds B p i (params_hi i (env (S t)) (ch B i env r0 (S t)))). unfold params_hi.
    rewrite Hc, Z.eqb_refl, orb_true_r. apply S1. }
  intros t Ht. replace t with (S (3 + (t - 4))) by lia. rewrite ch_S.
  destruct (Hld (3 + (t - 4))%nat) as (_ & _ & ? & ?). apply vectors_staged; try done.
  destruct (S2 (S (t - 4))) as [H1 H2]. split; [apply S1|done|done|apply (S2 (t - 4)%nat)].
Qed.

(** C8: the engines that the register bank starts are the ones that run, with
    its parameters, and the host sees their end.  An engine of the channel in
    the list of started ones performs the number of operations given to it (the
    read engine the lower 32 bits of the number) and then raises its flag for
    good, with the length of the run in its timer; an engine that is not in the
    list offers no address and its flag stays low. *)
Theorem started_engines_finish B i r params env r0 :
  0 <= i < n_mem_intf B ->
  ch_run B i (params i) env r0 (Z.testbit (out_write_enable B r) i)
    (Z.testbit (out_read_enable B r) i) ->
  (forall q, Started true i q ∈ start_engines B r params ->
     1 <= trunc 32 (lp_num_mem_ops q) ->
     RdEngine.memory (addr_width B) (data_width B) (len_width B) (rd_env B i env r0) (rd_r0 B i env r0) ->
     exists te,
       reports B i env r0 end_rd_o (fun c => RdEngine.lat_timer_sum (inst_rd_engine c)) te /\
       forall t, (te <= 3 + t)%nat ->
         count (RdEngine.accept (addr_width B) (data_width B) (len_width B) (rd_env B i env r0) (rd_r0 B i env r0)) t =
           trunc 32 (lp_num_mem_ops q)) /\
  (forall q, Started false i q ∈ start_engines B r params ->
     1 <= trunc 64 (lp_num_mem_ops q) ->
     WrEngine.memory (addr_width B) (data_width B) (len_width B) (wr_env B i env r0) (wr_r0 B i env r0) ->
     exists te,
       reports B i env r0 end_wr_o (fun c => WrEngine.lat_timer_sum (inst_wr_engine c)) te /\
       forall t, (te <= 3 + t)%nat ->
         count (WrEngine.accept (addr_width B) (data_width B) (len_width B) (wr_env B i env r0) (wr_r0 B i env r0)) t =
           trunc 64 (lp_num_mem_ops q)) /\
  (Started true i (params i) ∉ start_engines B r params -> forall t, (2 <= t)%nat ->
     end_rd_o (ch B i env r0 t) = false /\
     RdEngine.m_axi_ARVALID (inst_rd_engine (ch B i env r0 t)) = false) /\
  (Started false i (params i) ∉ start_engines B r params -> forall t, (2 <= t)%nat ->
     end_wr_o (ch B i env r0 t) = false /\
     WrEngine.m_axi_AWVALID (inst_wr_engine (ch B i env r0 t)) = false).
Proof.
  intros Hi Hrun. pose proof (n_mem_intf_range B). assert (Hi32 : 0 <= i < 32) by lia. split; [|split; [|split]].
  - intros q (_ & -> & Hb)%elem_of_start_engines Hops Hmem. by eapply read_reports.
  - intros q (_ & -> & Hb)%elem_of_start_engines Hops Hmem. by eapply write_reports.
  - intros Hno. eapply read_silent; [exact Hrun|]. apply not_true_is_false. intros Hb.
    by apply Hno, elem_of_start_engines.
  - intros Hno. eapply write_silent; [exact Hrun|]. apply not_true_is_false. intros Hb.
    by apply Hno, elem_of_start_engines.
Qed.

(** ** Examples: channel 3, two operations, the read engine enabled *)

Definition example_p : BenchControl.lt_params := LtParams 256 64 2 32 0x30000000 false.
Definition example_V : Z := compose u280_hbm example_p 3 0.

Definition example_in (t : nat) : ch_in :=
  ChIn true example_p 3 false true (t <? 4)%nat false true true true true
    ((t =? 9)%nat || (t =? 10)%nat).

Definition example_ch (V : Z) : ch_reg :=
  ChReg V V false false false false true true false false false false true true V V V V
    WrEngine.example_reg RdEngine.example_reg.

Definition example_bank (k : Z) : Z := if k =? 8 then 8 else 0.

Lemma parameters_reach_engines_witness :
  let t := ch u280_hbm 3 example_in (example_ch 0) 4 in
  lp_stride example_p = p_stride (lt_params_staged_hi t) /\
  holds u280_hbm example_p 3 (lt_params_staged_lo t) /\ holds u280_hbm example_p 3 (lt_params_staged_hi t).
Proof.
  cbv zeta. split; [by vm_compute|].
  assert (Hi : 0 <= 3 < 32) by lia. assert (Ht : (4 <= 4)%nat) by lia.
  exact (parameters_reach_engines u280_hbm 3 example_p example_in (example_ch 0) Hi
    (conj eq_refl (conj eq_refl (conj eq_refl eq_refl)))
    (fun t => conj eq_refl (conj eq_refl eq_refl)) 4 Ht).
Defined.

Lemma example_ch_run :
  ch_run u280_hbm 3 example_p example_in (example_ch example_V)
    (Z.testbit (out_write_enable u280_hbm example_bank) 3) (Z.testbit (out_read_enable u280_hbm example_bank) 3).
Proof.
  split; try done.
  - intros t H. change ((S t <? 4)%nat = true) in H. change ((t <? 4)%nat = true).
    apply Nat.ltb_lt in H. apply Nat.ltb_lt. lia.
Qed.

Lemma example_rd_memory :
  RdEngine.memory 33 256 4 (rd_env u280_hbm 3 example_in (example_ch example_V))
    (rd_r0 u280_hbm 3 example_in (example_ch example_V)).
Proof.
  assert (Hr : RdEngine.one_run 33 (rd_env u280_hbm 3 example_in (example_ch example_V))
      (rd_r0 u280_hbm 3 example_in (example_ch example_V))).
  { by apply (rd_runs u280_hbm 3 example_p example_in _ false true); [apply example_ch_run|]. }
  assert (Ho : 1 <= RdEngine.p_ops (RdEngine.lt_params (rd_env u280_hbm 3 example_in (example_ch example_V) 0)))
    by (vm_compute; discriminate).
  apply (RdEngine.prompt_memory 33 256 4 _ _ 10 Hr Ho (fun _ => eq_refl));
    [|each_cycle|by vm_compute|by vm_compute].
  intros t Ht. change ((((3 + t) =? 9)%nat || ((3 + t) =? 10)%nat) && true = false).
  rewrite (proj2 (Nat.eqb_neq _ 9)), (proj2 (Nat.eqb_neq _ 10)) by lia. done.
Qed.

Lemma started_engines_finish_witness :
  start_engines u280_hbm example_bank (fun _ => example_p) = [Started true 3 example_p] /\
  (exists te,
    reports u280_hbm 3 example_in (example_ch example_V) end_rd_o
      (fun c => RdEngine.lat_timer_sum (inst_rd_engine c)) te /\
    forall t, (te <= 3 + t)%nat ->
      count (RdEngine.accept 33 256 4 (rd_env u280_hbm 3 example_in (example_ch example_V))
        (rd_r0 u280_hbm 3 example_in (example_ch example_V))) t = 2) /\
  end_wr_o (ch u280_hbm 3 example_in (example_ch example_V) 20) = false.
Proof.
  assert (E : start_engines u280_hbm example_bank (fun _ => example_p) = [Started true 3 example_p])
    by by vm_compute.
  split; [exact E|]. assert (Hi : 0 <= 3 < 32) by lia.
  destruct (started_engines_finish u280_hbm 3 example_bank (fun _ => example_p) example_in
    (example_ch example_V) Hi example_ch_run) as (H1 & _ & _ & H4).
  split.
  - apply (H1 example_p); [rewrite E; by left|by vm_compute|exact example_rd_memory].
  - assert (Hno : Started false 3 example_p ∉ start_engines u280_hbm example_bank (fun _ => example_p)).
    { rewrite E, list_elem_of_singleton. discriminate. }
    assert (H2 : (2 <= 20)%nat) by lia. exact (proj1 (H4 Hno 20%nat H2)).
Defined.
