(* ===== verification/Crossing.v ===== *)
(** * From the clock of the bus to the clock of a memory

    A channel samples the outputs of the register bank at the edges of its own
    clock.  What it sees is a sequence of states of [BenchControl], in which a
    write of the host shows for at least three edges.  Then the pulses that reach
    the engines, and the parameters that the engines have at that time, are those
    of the list of started engines of [BenchControl]. *)

From stdpp Require Import base list numbers option.
From S2P Require Import Prelude Clock EngineParams.
From S2P Require Import BenchControl.
From S2P Require Import Channel.
Open Scope Z_scope.

(** ** Starts of engines *)

(** The parameters as an engine takes them out of its vector. *)
Definition decode (B : design) (V : Z) : BenchControl.lt_params :=
  LtParams (p_work_group_size V) (p_stride V) (p_num V) (p_burst V) (p_base (addr_width B) V)
    (p_latency V).

(** What is left of parameters in the widths that an engine has for them. *)
Definition cut (B : design) (p : BenchControl.lt_params) : BenchControl.lt_params :=
  LtParams (trunc 32 (lp_work_group_size p)) (trunc 32 (lp_stride p)) (trunc 64 (lp_num_mem_ops p))
    (trunc 16 (lp_mem_burst_size p)) (trunc (addr_width B) (lp_initial_addr p)) (lp_latency p).

Definition cut_started (B : design) (s : started) : started :=
  Started (st_read s) (st_channel s) (cut B (st_params s)).

(** The engines of channel [i] that are started in a cycle with registers [r]. *)
Definition starts_of (B : design) (i : Z) (r : ch_reg) : list started :=
  (if start_wr_reg r then [Started false i (decode B (lt_params_staged_lo r))] else []) ++
  (if start_rd_reg r then [Started true i (decode B (lt_params_staged_hi r))] else []).

Lemma holds_decode B p i V : holds B p i V -> decode B V = cut B p.
Proof. intros (H1 & H2 & H3 & H4 & H5 & H6 & _). unfold decode, cut. by f_equal. Qed.

(** The parameters of the selected channel are those of the bank. *)
Definition coherent (B : design) (b : bench) : Prop :=
  forall i, 0 <= i < n_mem_intf B -> out_hbm_channel (dma_control_reg b) = i ->
    params b i = staged B (dma_control_reg b).

Lemma coherent_write B off v b : coherent B (hw_write B off v b).
Proof.
  intros i Hi E. unfold hw_write in *. cbn in *.
  by rewrite E, Z.eqb_refl, (proj2 (Z.ltb_lt i _)) by lia.
Qed.

Lemma write_unselected B off v b i :
  out_hbm_channel (dma_control_reg (hw_write B off v b)) <> i ->
  params (hw_write B off v b) i = params b i.
Proof. intros Hne. unfold hw_write in *. cbn in *. by rewrite (proj2 (Z.eqb_neq i _)) by done. Qed.

(** A write that raises [start] changes nothing else. *)
Lemma write_rise B off v b i :
  coherent B b -> 0 <= i < n_mem_intf B -> out_start (dma_control_reg b) = false ->
  out_start (dma_control_reg (hw_write B off v b)) = true ->
  params (hw_write B off v b) i = params b i.
Proof.
  intros Hc Hi H0 H1. unfold hw_write in *. cbn [dma_control_reg params] in *.
  set (k := Z.shiftr off 2 mod 64) in *.
  assert (E : k = 11).
  { unfold out_start, write_reg in *. destruct (Z.eqb_spec 11 k); [done|congruence]. }
  rewrite E. destruct ((i =? _) && _) eqn:Es; [|done].
  apply andb_true_iff in Es as [Es%Z.eqb_eq _].
  change (out_hbm_channel _) with (out_hbm_channel (dma_control_reg b)) in Es.
  rewrite (Hc i Hi (eq_sym Es)). by destruct B.
Qed.

Lemma filter_flat_map {A C} (P : C -> Prop) `{!forall x, Decision (P x)} (f : A -> list C) l :
  filter P (flat_map f l) = flat_map (fun x => filter P (f x)) l.
Proof. induction l as [|x l IH]; [done|]. cbn. by rewrite list.filter_app, IH. Qed.

Lemma flat_map_single {A C} (f : A -> list C) l x :
  NoDup l -> x ∈ l -> (forall y, y <> x -> f y = []) -> flat_map f l = f x.
Proof.
  intros Hnd Hx Hf. induction Hnd as [|y l Hy _ IH]; [by apply elem_of_nil in Hx|]. cbn.
  apply elem_of_cons in Hx as [->|Hx].
  - assert (E : flat_map f l = []); [|by rewrite E, app_nil_r].
    clear IH. induction l as [|z l IH]; [done|]. cbn. apply not_elem_of_cons in Hy as [Hz Hy].
    rewrite Hf, IH by done. done.
  - rewrite (Hf y), IH by (done || by intros ->). done.
Qed.

(** The engines of one channel in the list of started ones. *)
Definition in_channel (i : Z) (s : started) : Prop := st_channel s = i.
#[export] Instance in_channel_dec i s : Decision (in_channel i s).
Proof. unfold in_channel. apply _. Defined.

Lemma start_engines_channel B r p i :
  0 <= i < n_mem_intf B ->
  filter (in_channel i) (start_engines B r p) =
    (if Z.testbit (out_write_enable B r) i then [Started false i (p i)] else []) ++
    (if Z.testbit (out_read_enable B r) i then [Started true i (p i)] else []).
Proof.
  intros Hi. unfold start_engines. rewrite filter_flat_map, (flat_map_single _ _ i).
  - by destruct (Z.testbit _ i), (Z.testbit _ i); cbn; rewrite ?decide_True by done.
  - apply NoDup_seqZ.
  - apply elem_of_seqZ. lia.
  - intros j Hne. by destruct (Z.testbit _ j), (Z.testbit _ j); cbn;
      rewrite ?decide_False by (unfold in_channel; cbn; done).
Qed.

(** ** A channel that samples the bank *)

Section Sampling.
Context (B : design) (i : Z) (Hi : 0 <= i < n_mem_intf B).
Context (seen : nat -> bench) (env : nat -> ch_in) (r0 : ch_reg).

(** What the channel sees at its edges. *)
Record sampled : Prop := {
  smp_reset : forall k, arstn (env k) = true;
  smp_bank : forall k, bank (env k) = staged B (dma_control_reg (seen k));
  smp_channel : forall k, hbm_channel (env k) = out_hbm_channel (dma_control_reg (seen k));
  smp_write : forall k,
    write_enable (env k) = Z.testbit (out_write_enable B (dma_control_reg (seen k))) i;
  smp_read : forall k,
    read_enable (env k) = Z.testbit (out_read_enable B (dma_control_reg (seen k))) i;
  smp_start : forall k, start_in (env k) = out_start (dma_control_reg (seen k));
}.

(** One write after the other, each for three edges at least. *)
Record versions : Prop := {
  ver_start : out_start (dma_control_reg (seen 0%nat)) = false;
  ver_coherent : coherent B (seen 0%nat);
  ver_next : forall k, seen (S k) = seen k \/
    exists off v, seen (S k) = hw_write B off v (seen k) /\
      seen (S (S k)) = seen (S k) /\ seen (S (S (S k))) = seen (S k);
}.

(** The channel waits, with the parameters of the first state. *)
Record waiting : Prop := {
  wait_idle : idle r0;
  wait_loading : loading r0;
  wait_vectors : vectors B (params (seen 0%nat) i) i r0;
}.

Context (Hsmp : sampled) (Hver : versions) (Hwait : waiting).

Definition params_at (k : nat) : BenchControl.lt_params := params (seen k) i.
Definition start_at (k : nat) : bool := out_start (dma_control_reg (seen k)).
Definition rise (k : nat) : bool := start_at k && negb (start_at (k - 1)).

Lemma always_coherent k : coherent B (seen k).
Proof.
  induction k as [|k IH]; [apply Hver|].
  destruct (ver_next Hver k) as [->|(off & v & -> & _)]; [done|apply coherent_write].
Qed.

Lemma unselected_next k :
  out_hbm_channel (dma_control_reg (seen (S k))) <> i -> params_at (S k) = params_at k.
Proof.
  unfold params_at. intros Hne. destruct (ver_next Hver k) as [->|(off & v & E & _)]; [done|].
  rewrite E in *. by apply write_unselected.
Qed.

Lemma unselected_at k :
  out_hbm_channel (dma_control_reg (seen k)) <> i ->
  params_at k = params_at (k - 1) /\ params_at (k - 1) = params_at (k - 2).
Proof.
  intros Hne. destruct k as [|[|k]]; [done|split; [|done]; by apply unselected_next|].
  cbn [Nat.sub]. rewrite Nat.sub_0_r. split; [by apply unselected_next|].
  destruct (ver_next Hver k) as [E|(off & v & _ & E & _)]; unfold params_at; [by rewrite E|].
  apply unselected_next. by rewrite <- E.
Qed.

(** The vectors follow the parameters of the states seen. *)
Lemma vectors_follow t :
  let c := ch B i env r0 t in
  holds B (params_at (t - 1)) i (lt_params_lo c) /\
  holds B (params_at (t - 2)) i (lt_params_hi c) /\
  holds B (params_at (t - 2)) i (lt_params_reg_lo c) /\
  holds B (params_at (t - 3)) i (lt_params_reg_hi c).
Proof.
  cbv zeta. induction t as [|t (IH1 & IH2 & IH3 & IH4)]; [by destruct (wait_vectors Hwait)|].
  rewrite ch_S. cbn [ch_step lt_params_lo lt_params_hi lt_params_reg_lo lt_params_reg_hi].
  unfold params_lo, params_hi. rewrite (smp_reset Hsmp), (smp_bank Hsmp), (smp_channel Hsmp).
  cbn [negb orb]. replace (S t - 2)%nat with (t - 1)%nat by lia.
  replace (S t - 3)%nat with (t - 2)%nat by lia. replace (S t - 1)%nat with t by lia.
  destruct (Z.eqb_spec (out_hbm_channel (dma_control_reg (seen t))) i) as [E|Hne].
  - split; [|done]. unfold params_at. rewrite (always_coherent t i Hi E). apply compose_holds.
  - destruct (unselected_at t Hne) as [E1 E2]. rewrite E1. split; [done|]. split; [by rewrite E2|done].
Qed.

Lemma staged_follow t :
  holds B (params_at (t - 2)) i (lt_params_staged_lo (ch B i env r0 (S t))) /\
  holds B (params_at (t - 3)) i (lt_params_staged_hi (ch B i env r0 (S t))).
Proof.
  assert (Hl : loading (ch B i env r0 t)).
  { induction t as [|t IH]; [apply Hwait|]. rewrite ch_S. by apply loading_S. }
  destruct Hl as (_ & _ & Hl1 & Hl2), (vectors_follow t) as (_ & H2 & H3 & H4).
  pose proof (n_mem_intf_range B). rewrite ch_S. cbn [ch_step lt_params_staged_lo lt_params_staged_hi].
  rewrite Hl1, Hl2, (holds_id B i ltac:(lia) _ _ H2), (holds_id B i ltac:(lia) _ _ H3), Z.eqb_refl.
  done.
Qed.

(** ** The pulses *)

Lemma rise_0 : rise 0 = false.
Proof. unfold rise, start_at. by rewrite (ver_start Hver). Qed.

Lemma rise_stays k :
  rise k = true -> seen (S k) = seen k /\ seen (S (S k)) = seen k /\ params_at (k - 1) = params_at k.
Proof.
  destruct k as [|k]; [by rewrite rise_0|]. unfold rise, start_at, params_at.
  replace (S k - 1)%nat with k by lia. intros [H1 H0%negb_true_iff]%andb_true_iff.
  destruct (ver_next Hver k) as [E|(off & v & E & E2 & E3)]; [congruence|].
  split; [done|]. split; [done|]. rewrite E in *. symmetry.
  apply write_rise; [apply always_coherent|done..].
Qed.

Lemma start_r_at t : start_r (ch B i env r0 t) = start_at (t - 1).
Proof.
  destruct t as [|t].
  - unfold start_at. cbn [Nat.sub]. rewrite (ver_start Hver). apply (wait_idle Hwait).
  - rewrite ch_S. cbn [ch_step start_r]. replace (S t - 1)%nat with t by lia. apply Hsmp.
Qed.

Lemma start_edge_at t :
  start_r (ch B i env r0 t) && negb (start_rr (ch B i env r0 t)) = rise (t - 1).
Proof.
  destruct t as [|t].
  - cbn [Nat.sub]. rewrite rise_0. change (ch B i env r0 0) with r0. by rewrite (idle_start_r _ (wait_idle Hwait)).
  - rewrite start_r_at, ch_S. cbn [ch_step start_rr]. rewrite start_r_at.
    unfold rise. by replace (S t - 1)%nat with t by lia.
Qed.

(** A pulse for each rise with the enable bit set, however the bit changes later. *)
Lemma pulse_follows (en f : nat -> bool) :
  f 0%nat = false ->
  (forall t, f (S t) = if en t then rise (t - 1) else f t) ->
  (forall k, seen (S k) = seen k -> en (S k) = en k) ->
  forall t, f t = en (t - 2)%nat && rise (t - 2).
Proof.
  intros H0 Hf Hen. assert (Hstay : forall k, rise k = true -> en (S k) = en k /\ en (S (S k)) = en k).
  { intros k Hk. destruct (rise_stays k Hk) as (E1 & E2 & _). split; [by apply Hen|].
    rewrite Hen by by rewrite E2, E1. by apply Hen. }
  induction t as [|t IH]; [cbn [Nat.sub]; by rewrite H0, rise_0, andb_false_r|].
  rewrite Hf, IH. replace (S t - 2)%nat with (t - 1)%nat by lia.
  destruct t as [|t]; [cbn [Nat.sub]; rewrite rise_0, !andb_false_r; by destruct (en 0%nat)|].
  replace (S t - 1)%nat with t by lia. replace (S t - 2)%nat with (t - 1)%nat by lia.
  destruct (rise t) eqn:Er.
  - destruct (Hstay t Er) as [E1 _]. rewrite E1.
    destruct (en t) eqn:Ee; [done|]. rewrite andb_true_r.
    destruct (rise (t - 1)) eqn:Ep; [|by rewrite andb_false_r].
    destruct (Hstay (t - 1)%nat Ep) as [E2 _].
    destruct t as [|t]; [by rewrite rise_0 in Er|]. replace (S (S t - 1)) with (S t) in E2 by lia.
    by rewrite <- E2, Ee.
  - rewrite andb_false_r. destruct (en (S t)) eqn:Ee; [done|].
    destruct (rise (t - 1)) eqn:Ep; [|by rewrite andb_false_r]. rewrite andb_true_r.
    destruct t as [|t]; [cbn [Nat.sub] in Ep; by rewrite rise_0 in Ep|].
    destruct (Hstay (S t - 1)%nat Ep) as [_ E2]. replace (S t - 1)%nat with t in * by lia.
    by rewrite <- E2.
Qed.

Definition enabled_at (rd : bool) (k : nat) : bool :=
  Z.testbit ((if rd then out_read_enable else out_write_enable) B (dma_control_reg (seen k))) i.

Lemma start_wr_at t : start_wr (ch B i env r0 t) = enabled_at false (t - 2) && rise (t - 2).
Proof.
  apply (pulse_follows (enabled_at false) (fun t => start_wr (ch B i env r0 t))).
  - apply (wait_idle Hwait).
  - intros u. rewrite ch_S. cbn [ch_step start_wr]. unfold pulse.
    by rewrite (smp_reset Hsmp), (smp_write Hsmp), start_edge_at.
  - intros k E. unfold enabled_at. by rewrite E.
Qed.
Lemma start_rd_at t : start_rd (ch B i env r0 t) = enabled_at true (t - 2) && rise (t - 2).
Proof.
  apply (pulse_follows (enabled_at true) (fun t => start_rd (ch B i env r0 t))).
  - apply (wait_idle Hwait).
  - intros u. rewrite ch_S. cbn [ch_step start_rd]. unfold pulse.
    by rewrite (smp_reset Hsmp), (smp_read Hsmp), start_edge_at.
  - intros k E. unfold enabled_at. by rewrite E.
Qed.

Lemma pulse_regs_at t :
  start_wr_reg (ch B i env r0 t) = enabled_at false (t - 3) && rise (t - 3) /\
  start_rd_reg (ch B i env r0 t) = enabled_at true (t - 3) && rise (t - 3).
Proof.
  destruct t as [|t].
  - cbn [Nat.sub]. rewrite rise_0, !andb_false_r. split; apply (wait_idle Hwait).
  - rewrite ch_S. cbn [ch_step start_wr_reg start_rd_reg].
    rewrite start_wr_at, start_rd_at. by replace (S t - 3)%nat with (t - 2)%nat by lia.
Qed.

(** ** The started engines *)

(** Those of the first [t] cycles. *)
Definition starts (t : nat) : list started :=
  flat_map (fun u => starts_of B i (ch B i env r0 u)) (seq 0 t).

Lemma starts_S t : starts (S t) = starts t ++ starts_of B i (ch B i env r0 t).
Proof. unfold starts. by rewrite seq_S, flat_map_app, Nat.add_0_l; cbn; rewrite app_nil_r. Qed.

Lemma starts_at k :
  starts_of B i (ch B i env r0 (4 + k)) =
    if rise (S k) then
      (if enabled_at false (S k) then [Started false i (cut B (params_at (S k)))] else []) ++
      (if enabled_at true (S k) then [Started true i (cut B (params_at (S k)))] else [])
    else [].
Proof.
  unfold starts_of. destruct (pulse_regs_at (4 + k)) as [-> ->].
  replace (4 + k - 3)%nat with (S k) by lia.
  destruct (rise (S k)) eqn:Er; [|by rewrite !andb_false_r]. rewrite !andb_true_r.
  destruct (staged_follow (3 + k)) as [H1 H2]. change (S (3 + k)) with (4 + k)%nat in *.
  replace (3 + k - 2)%nat with (S k) in H1 by lia. replace (3 + k - 3)%nat with k in H2 by lia.
  destruct (rise_stays (S k) Er) as (_ & _ & E). replace (S k - 1)%nat with k in E by lia.
  rewrite E in H2. by rewrite (holds_decode _ _ _ _ H1), (holds_decode _ _ _ _ H2).
Qed.

Lemma starts_early t : (t <= 4)%nat -> starts t = [].
Proof.
  induction t as [|t IH]; intros Ht; [done|]. rewrite starts_S, IH by lia. unfold starts_of.
  destruct (pulse_regs_at t) as [-> ->]. replace (t - 3)%nat with 0%nat by lia.
  by rewrite rise_0, !andb_false_r.
Qed.

Lemma starts_follow k :
  engines_started (seen 0%nat) = [] ->
  starts (4 + k) = cut_started B <$> filter (in_channel i) (engines_started (seen k)).
Proof.
  intros H0. induction k as [|k IH].
  - rewrite H0. by apply starts_early.
  - change (4 + S k)%nat with (S (4 + k)). rewrite starts_S, IH, starts_at.
    assert (Er : rise (S k) = negb (start_at k) && start_at (S k)).
    { unfold rise. replace (S k - 1)%nat with k by lia. apply andb_comm. }
    rewrite Er. unfold enabled_at, params_at, start_at.
    destruct (ver_next Hver k) as [E|(off & v & E & _)]; rewrite E.
    + by rewrite andb_negb_l, app_nil_r.
    + unfold hw_write. cbn [engines_started dma_control_reg params].
      rewrite list.filter_app, fmap_app. f_equal.
      destruct (negb (out_start (dma_control_reg (seen k))) && _); [|reflexivity].
      rewrite (start_engines_channel _ _ _ _ Hi), fmap_app.
      by repeat destruct (Z.testbit _ i).
Qed.
End Sampling.
