(* ===== verification/System.v ===== *)
(** * The top level: register bank and channels on their clocks

    What [hbm_benchmark.sv] of [hw/rtl/u280_hbm] and [hw/rtl/u280_ddr] puts
    together: [xdma_control] on the clock of the bus, the channels on the clock of
    their memory (one clock for the HBM, one for each of the two channels of the
    DDR), the status that goes back to the registers 12 to 15, and the registers
    that carry the latency samples of the selected channel to the queue.  No
    signal between the clocks is synchronised in the source: a register takes what
    the other side shows at its own edge.  That a flip-flop settles to one of the
    two values is part of this model.

    The memories, the host on the bus, and the queues and the memory of the
    samples are inputs. *)

From stdpp Require Import base list numbers option.
From S2P Require Import Prelude Clock ClockDomains.
From S2P Require Import RdEngine.
From S2P Require Import WrEngine.
From S2P Require Import Channel.
From S2P Require Import AxiLite.
From S2P Require Import BenchControl.
From S2P Require Import Crossing.
Open Scope Z_scope.

(** ** State and inputs *)

(** The answers of the memory of a channel. *)
Record mem_ports : Type := MemPorts {
  awready : bool;
  wready : bool;
  arready : bool;
  rvalid : bool;
  rlast : bool;
}.

Record sys_in : Type := SysIn {
  host : ctl_in;                (* its [in_status] is not used *)
  locked : Z -> bool;           (* MMCM_LOCK_0, or c0_ddr4_aresetn and c1_ddr4_aresetn *)
  ports : Z -> mem_ports;
}.

Record sys : Type := Sys {
  xdma_control : ctl_reg;
  channels : Z -> ch_reg;
  lat_timer_mid : Z -> Z;       (* HBM: one for eight channels *)
  lat_timer_valid_mid : Z -> bool;
  lat_timer_o : Z;
  lat_timer_valid_o : bool;
  lat_timer_i : Z -> Z;         (* in front of the queues *)
  lat_timer_valid_i : Z -> bool;
}.

(** ** Wires *)

(** A vector of bits. *)
Definition vector (n : Z) (f : Z -> bool) : Z :=
  foldr (fun c v => Z.lor (if f c then Z.shiftl 1 c else 0) v) 0 (seqZ 0 n).

Definition selected (s : sys) : Z := out_hbm_channel (shown (xdma_control s)).

(** [end_wr_o], [end_rd_o] and the timers of the selected channel, whose lower
    halves are connected. *)
Definition status (B : design) (s : sys) (k : Z) : Z :=
  if k =? 12 then vector (n_mem_intf B) (fun c => end_wr_o (channels s c))
  else if k =? 13 then vector (n_mem_intf B) (fun c => end_rd_o (channels s c))
  else if k =? 14 then
    slice 0 32 (WrEngine.lat_timer_sum (inst_wr_engine (channels s (selected s))))
  else slice 0 32 (RdEngine.lat_timer_sum (inst_rd_engine (channels s (selected s)))).

Definition with_status (f : Z -> Z) (i : ctl_in) : ctl_in :=
  CtlIn (s_aresetn i) (s_axil_awaddr i) (s_axil_awvalid i) (s_axil_wdata i) (s_axil_wvalid i)
    (s_axil_bready i) (s_axil_araddr i) (s_axil_arvalid i) (s_axil_rready i) f
    (fifo_empty i) (fifo_data_out i) (doutb i).

(** [start_r & (~start_rr)], a vector for the DDR. *)
Definition start_edge (r : ch_reg) : bool := start_r r && negb (start_rr r).
Definition any_start (B : design) (s : sys) : bool :=
  match B with
  | u280_hbm => false
  | u280_ddr => existsb (fun c => start_edge (channels s c)) (seqZ 0 (n_mem_intf B))
  end.

Definition ch_input (B : design) (i : sys_in) (s : sys) (c : Z) : ch_in :=
  let r := shown (xdma_control s) in
  ChIn (locked i c && negb (hbm_reset (xdma_control s))) (staged B r) (out_hbm_channel r)
    (Z.testbit (out_write_enable B r) c) (Z.testbit (out_read_enable B r) c)
    (AxiLite.start (xdma_control s)) (any_start B s)
    (awready (ports i c)) (wready (ports i c)) (arready (ports i c)) (rvalid (ports i c))
    (rlast (ports i c)).

(** The latency samples of a channel, which are those of its read engine. *)
Definition lat_timer_of (s : sys) (c : Z) : Z := RdEngine.lat_timer (inst_rd_engine (channels s c)).
Definition lat_timer_valid_of (s : sys) (c : Z) : bool :=
  RdEngine.lat_timer_valid (inst_rd_engine (channels s c)).

(** ** One instant *)

Section Step.
Context (B : design) (bus : clock) (mem : Z -> clock).

(** HBM: [lat_timer[{j, hbm_channel[2:0]}]]. *)
Definition mid_channel (s : sys) (j : Z) : Z := 8 * j + slice 0 3 (selected s).

Definition sys_step (xi : nat * sys_in) (s : sys) : sys :=
  let '(x, i) := xi in
  let hbm_edge := ticks (mem 0) x in
  Sys (if ticks bus x then ctl_step B (with_status (status B s) (host i)) (xdma_control s)
       else xdma_control s)
    (fun c => if ticks (mem c) x then ch_step B c (ch_input B i s c) (channels s c)
              else channels s c)
    (fun j => if hbm_edge then if locked i 0 then lat_timer_of s (mid_channel s j) else 0
              else lat_timer_mid s j)
    (fun j => if hbm_edge then locked i 0 && lat_timer_valid_of s (mid_channel s j)
              else lat_timer_valid_mid s j)
    (if hbm_edge then lat_timer_mid s (slice 3 2 (selected s)) else lat_timer_o s)
    (if hbm_edge then lat_timer_valid_mid s (slice 3 2 (selected s)) else lat_timer_valid_o s)
    (fun q => if ticks (mem q) x
              then match B with u280_hbm => lat_timer_o s | u280_ddr => lat_timer_of s q end
              else lat_timer_i s q)
    (fun q => if ticks (mem q) x
              then match B with u280_hbm => lat_timer_valid_o s | u280_ddr => lat_timer_valid_of s q end
              else lat_timer_valid_i s q).
End Step.

Lemma testbit_vector n f c : 0 <= c < n -> Z.testbit (vector n f) c = f c.
Proof.
  intros Hc. unfold vector.
  assert (E : forall l, (forall d, d ∈ l -> 0 <= d) ->
    Z.testbit (foldr (fun c v => Z.lor (if f c then Z.shiftl 1 c else 0) v) 0 l) c =
      bool_decide (c ∈ l) && f c).
  { induction l as [|d l IH]; intros Hl; [by rewrite Z.bits_0|]. cbn [foldr].
    rewrite Z.lor_spec, IH by (intros e He; apply Hl; by right).
    assert (Hd : 0 <= d) by (apply Hl; by left).
    assert (E : Z.testbit (if f d then Z.shiftl 1 d else 0) c = (d =? c) && f c).
    { destruct (Z.eqb_spec d c) as [->|Hne].
      - destruct (f c); [|apply Z.bits_0]. rewrite Z.shiftl_spec, Z.sub_diag by lia. done.
      - destruct (f d); [|apply Z.bits_0]. rewrite Z.shiftl_1_l, Z.pow2_bits_false; done || lia. }
    rewrite E. destruct (Z.eqb_spec d c) as [->|Hne].
    - rewrite (bool_decide_true (c ∈ c :: l)) by by left. by destruct (f c), (bool_decide _).
    - cbn [andb orb]. f_equal. apply bool_decide_ext. rewrite elem_of_cons. naive_solver. }
  rewrite E by (intros d Hd%elem_of_seqZ; lia). by rewrite bool_decide_true by (apply elem_of_seqZ; lia).
Qed.

Lemma vector_range n f : 0 <= n -> 0 <= vector n f < 2 ^ n.
Proof.
  intros Hn. unfold vector. assert (Hpos : 0 < 2 ^ n) by (apply Z.pow_pos_nonneg; lia).
  assert (Hl : forall d, d ∈ seqZ 0 n -> 0 <= d < n) by (intros d Hd%elem_of_seqZ; lia).
  induction (seqZ 0 n) as [|d l IH]; cbn [foldr]; [lia|].
  destruct IH as [IH1 IH2]; [intros e He; apply Hl; by right|].
  assert (Hd : 0 <= d < n) by (apply Hl; by left). set (v := foldr _ 0 l) in *.
  assert (Hx : 0 <= (if f d then Z.shiftl 1 d else 0) < 2 ^ n).
  { destruct (f d); [|lia]. rewrite Z.shiftl_1_l. split; [lia|]. apply Z.pow_lt_mono_r; lia. }
  set (w := if f d then _ else _) in *. split; [apply Z.lor_nonneg; lia|].
  assert (E : Z.lor w v mod 2 ^ n = Z.lor w v).
  { rewrite <- Z.land_ones, Z.land_lor_distr_l, !Z.land_ones, !Z.mod_small by lia. done. }
  rewrite <- E. apply Z.mod_pos_bound. lia.
Qed.

(** A vector is determined by its bits. *)
Lemma vector_eq n f m :
  0 <= n -> 0 <= m < 2 ^ n -> (forall c, 0 <= c < n -> f c = Z.testbit m c) -> vector n f = m.
Proof.
  intros Hn Hm Hf. apply Z.bits_inj'. intros c Hc. destruct (decide (c < n)).
  - rewrite testbit_vector by lia. apply Hf. lia.
  - pose proof (vector_range n f Hn). rewrite <- (Z.mod_small m (2 ^ n)) by done.
    rewrite <- (Z.mod_small (vector n f) (2 ^ n)) by done. by rewrite !Z.mod_pow2_bits_high by lia.
Qed.

(** What the outputs of the bank depend on. *)
Lemma outputs_agree B r r' :
  (forall k, host_reg k -> r k = r' k) ->
  staged B r = staged B r' /\ out_hbm_channel r = out_hbm_channel r' /\
  out_write_enable B r = out_write_enable B r' /\ out_read_enable B r = out_read_enable B r' /\
  out_start r = out_start r' /\ Z.odd (r 0) = Z.odd (r' 0).
Proof.
  intros H. unfold staged, out_work_group_size, out_stride, out_num_mem_ops, out_mem_burst_size,
    out_initial_addr, out_latency_test_enable, out_hbm_channel, out_write_enable, out_read_enable,
    out_start.
  rewrite !(H 0), !(H 1), !(H 2), !(H 3), !(H 4), !(H 5), !(H 6), !(H 7), !(H 8), !(H 9),
    !(H 10), !(H 11), !(H 17) by (unfold host_reg; lia).
  done.
Qed.

(** ** A run *)

Section Run.
Context (B : design) (bus : clock) (mem : Z -> clock) (env : nat -> sys_in) (s0 : sys).

(** The state at time [x], before the edges of that time. *)
Definition system (x : nat) : sys := at_cycle (sys_step B bus mem) (fun x => (x, env x)) s0 x.

(** What the register bank and a channel see at their edges. *)
Definition bus_env (j : nat) : ctl_in :=
  let x := edge_at bus j in with_status (status B (system x)) (host (env x)).
Definition ch_env (c : Z) (k : nat) : ch_in :=
  let x := edge_at (mem c) k in ch_input B (env x) (system x) c.

Lemma bus_run x :
  xdma_control (system x) = ctl B bus_env (xdma_control s0) (edges bus x).
Proof.
  apply (own_run bus (ctl_step B) (fun x => with_status (status B (system x)) (host (env x)))
           (fun x => xdma_control (system x))).
  done.
Qed.

Lemma channel_run c x :
  channels (system x) c = ch B c (ch_env c) (channels s0 c) (edges (mem c) x).
Proof.
  apply (own_run (mem c) (ch_step B c) (fun x => ch_input B (env x) (system x) c)
           (fun x => channels (system x) c)).
  done.
Qed.

(** The writes of the host, and the state of [BenchControl] that the bank shows
    in cycle [j] of the bus and channel [c] sees at its edge [k]. *)
Definition host_requests (j : nat) : list (Z * Z) := requests B bus_env (xdma_control s0) j.
Definition bank_at (b0 : bench) (j : nat) : bench := hw_requests B (host_requests (j - 2)) b0.
Definition seen (b0 : bench) (c : Z) (k : nat) : bench :=
  bank_at b0 (edges bus (edge_at (mem c) k)).

(** Power-up is over: every reset is released and stays so, also the one that the
    host can give; nothing is under way; the channels have the parameters of
    [b0], which is what the registers hold. *)
Record operating (b0 : bench) : Prop := {
  op_reset : forall x, s_aresetn (host (env x)) = true;
  op_locked : forall x c, locked (env x) c = true;
  op_no_reset : forall j, Z.odd (dma_control_reg (bank_at b0 j) 0) = false;
  op_clocks : forall c, 0 <= c < n_mem_intf B -> keeps_up bus (mem c);
  op_idle : w_cstate (xdma_control s0) = WIDLE;
  op_bank : control_reg (xdma_control s0) = dma_control_reg b0;
  op_shown : forall k, host_reg k -> shown (xdma_control s0) k = dma_control_reg b0 k;
  op_start : out_start (dma_control_reg b0) = false;
  op_coherent : coherent B b0;
  op_waiting : forall c, 0 <= c < n_mem_intf B ->
    idle (channels s0 c) /\ loading (channels s0 c) /\ vectors B (params b0 c) c (channels s0 c);
}.

Context (b0 : bench) (Hop : operating b0).

Lemma bus_reset j : s_aresetn (bus_env j) = true.
Proof. apply (op_reset b0 Hop). Qed.

Lemma shown_at j k :
  host_reg k -> shown (ctl B bus_env (xdma_control s0) j) k = dma_control_reg (bank_at b0 j) k.
Proof.
  intros Hk. unfold bank_at. rewrite hw_requests_after, <- (op_bank b0 Hop).
  apply shown_follows; [apply bus_reset|apply Hop|done|].
  intros l Hl. rewrite (op_bank b0 Hop). by apply Hop.
Qed.

(** The outputs as a channel sees them. *)
Lemma channel_sampled c : sampled B c (seen b0 c) (ch_env c).
Proof.
  assert (H : forall k, _) by (intros k; exact (outputs_agree B _ _
    (fun l Hl => shown_at (edges bus (edge_at (mem c) k)) l Hl))).
  split; intros k; specialize (H k); destruct H as (H1 & H2 & H3 & H4 & H5 & H6);
    unfold ch_env, ch_input, seen; cbn [arstn bank hbm_channel write_enable read_enable start_in];
    unfold hbm_reset, AxiLite.start; rewrite ?(op_locked b0 Hop), bus_run;
    rewrite ?H1, ?H2, ?H3, ?H4, ?H5, ?H6, ?(op_no_reset b0 Hop); done.
Qed.

(** *** The states that a channel sees *)

(** After a write has come, the next one is three cycles away. *)
Lemma requests_hold u v :
  w_taken B bus_env (xdma_control s0) u = true -> (S u <= v <= 3 + u)%nat ->
  host_requests v = host_requests (S u).
Proof.
  intros Hu Hv. destruct (words_apart B bus_env (xdma_control s0) bus_reset (op_idle b0 Hop) u Hu) as [H1 H2].
  assert (E1 : host_requests (S (S u)) = host_requests (S u)).
  { apply requests_idle; [apply bus_reset|apply Hop|done]. }
  assert (E2 : host_requests (S (S (S u))) = host_requests (S (S u))).
  { apply requests_idle; [apply bus_reset|apply Hop|done]. }
  assert (v = S u \/ v = S (S u) \/ v = S (S (S u))) as [->|[-> | ->]] by lia; congruence.
Qed.

Lemma requests_next u :
  host_requests (S u) = host_requests u \/
  exists a d, host_requests (S u) = host_requests u ++ [(a, d)] /\
    forall v, (S u <= v <= 3 + u)%nat -> host_requests v = host_requests (S u).
Proof.
  destruct (w_taken B bus_env (xdma_control s0) u) eqn:Ew.
  - right. destruct (requests_taken B bus_env (xdma_control s0) bus_reset (op_idle b0 Hop) u Ew) as (a & E).
    exists a, (s_axil_wdata (bus_env u)). split; [exact E|]. intros v. by apply requests_hold.
  - left. apply requests_idle; [apply bus_reset|apply Hop|done].
Qed.

Lemma bank_at_next j :
  bank_at b0 (S j) = bank_at b0 j \/
  exists off v, bank_at b0 (S j) = hw_write B off v (bank_at b0 j) /\
    forall l, (S j <= l <= 3 + j)%nat -> bank_at b0 l = bank_at b0 (S j).
Proof.
  unfold bank_at. destruct j as [|[|u]]; [by left..|].
  replace (S (S (S u)) - 2)%nat with (S u) by lia. replace (S (S u) - 2)%nat with u by lia.
  destruct (requests_next u) as [->|(a & d & E & H)]; [by left|]. right. exists a, d. split.
  - rewrite E. unfold hw_requests. by rewrite fold_left_app.
  - intros l Hl. f_equal. apply H. lia.
Qed.

Lemma first_seen c : 0 <= c < n_mem_intf B -> seen b0 c 0 = b0.
Proof.
  intros Hc. destruct (op_clocks b0 Hop c Hc) as [Hf0 _]. unfold seen, bank_at.
  by replace (edges bus (edge_at (mem c) 0) - 2)%nat with 0%nat by lia.
Qed.

Lemma channel_waiting c :
  0 <= c < n_mem_intf B -> waiting B c (seen b0 c) (channels s0 c).
Proof.
  intros Hc. destruct (op_waiting b0 Hop c Hc) as (H1 & H2 & H3). split; [done|done|].
  by rewrite first_seen.
Qed.

Lemma channel_versions c : 0 <= c < n_mem_intf B -> versions B (seen b0 c).
Proof.
  intros Hc. destruct (op_clocks b0 Hop c Hc) as [_ Hf].
  split; [rewrite first_seen by done; apply Hop|rewrite first_seen by done; apply Hop|].
  set (sig := fun k => edges bus (edge_at (mem c) k)).
  intros k. change (bank_at b0 (sig (S k)) = bank_at b0 (sig k) \/ exists off v,
    bank_at b0 (sig (S k)) = hw_write B off v (bank_at b0 (sig k)) /\
    bank_at b0 (sig (S (S k))) = bank_at b0 (sig (S k)) /\
    bank_at b0 (sig (S (S (S k)))) = bank_at b0 (sig (S k))).
  pose proof (Hf k) as H1. pose proof (Hf (S k)) as H2. pose proof (Hf (S (S k))) as H3.
  pose proof (edges_seen_mono bus (mem c) k (S k) ltac:(lia)) as M1.
  pose proof (edges_seen_mono bus (mem c) (S k) (S (S k)) ltac:(lia)) as M2.
  pose proof (edges_seen_mono bus (mem c) (S (S k)) (S (S (S k))) ltac:(lia)) as M3.
  fold (sig k) (sig (S k)) (sig (S (S k))) (sig (S (S (S k)))) in *.
  destruct (decide (sig (S k) = sig k)) as [->|Hne]; [by left|].
  assert (E : sig (S k) = S (sig k)) by lia. rewrite E in *.
  destruct (bank_at_next (sig k)) as [->|(off & v & E1 & H)]; [by left|]. right.
  exists off, v. split; [done|]. split; apply H; lia.
Qed.
End Run.
