(* ===== verification/SystemTheorems.v ===== *)
(** * Properties of the top level

    The two clocks implement the register bank as [BenchControl] has it, and a run
    of the benchmark comes to its end in the registers of the host. *)

From stdpp Require Import base list numbers option.
From S2P Require Import Prelude Clock ClockDomains.
From S2P Require Import EngineParams.
From S2P Require Import RdEngine.
From S2P Require Import WrEngine.
From S2P Require Import Channel.
From S2P Require Import AxiLite.
From S2P Require Import BenchControl.
From S2P Require Import Crossing.
From S2P Require Import System.
Open Scope Z_scope.

Section Run.
Context (B : design) (bus : clock) (mem : Z -> clock) (env : nat -> sys_in) (s0 : sys) (b0 : bench).

Abbreviation sys_at := (system B bus mem env s0).
Abbreviation chan c := (ch B c (ch_env B bus mem env s0 c) (channels s0 c)).
Abbreviation bank := (bank_at B bus mem env s0 b0).
Abbreviation view := (seen B bus mem env s0 b0).

(** The engines of channel [c] that get a start pulse before time [x], with the
    parameters they have then. *)
Definition started_until (c : Z) (x : nat) : list started :=
  flat_map (fun u => if ticks (mem c) u then starts_of B c (channels (sys_at u) c) else []) (seq 0 x).

Lemma started_until_run c x :
  started_until c x = starts B c (ch_env B bus mem env s0 c) (channels s0 c) (edges (mem c) x).
Proof.
  induction x as [|x IH]; [done|]. unfold started_until in *.
  rewrite seq_S, flat_map_app, IH, Nat.add_0_l, edges_S. cbn [flat_map]. rewrite app_nil_r.
  destruct (ticks (mem c) x); [|by rewrite app_nil_r].
  rewrite starts_S, channel_run. done.
Qed.

(** ** The first start *)

(** In cycle [j0] of the bus the bank shows [start] for the last time as 0; in
    the next one it has the parameters [p], from then on it shows the masks [we]
    and [re], and [start] does not rise again. *)
Record first_start (j0 : nat) (we re : Z) (p : Z -> BenchControl.lt_params) : Prop := {
  fs_before : forall j, (j <= j0)%nat -> out_start (dma_control_reg (bank j)) = false;
  fs_rise : out_start (dma_control_reg (bank (S j0))) = true;
  fs_fall : forall j, (j0 < j)%nat -> out_start (dma_control_reg (bank (S j))) = true ->
            out_start (dma_control_reg (bank j)) = true;
  fs_params : forall c, 0 <= c < n_mem_intf B -> params (bank (S j0)) c = p c;
  fs_write : forall j, (j0 < j)%nat -> out_write_enable B (dma_control_reg (bank j)) = we;
  fs_read : forall j, (j0 < j)%nat -> out_read_enable B (dma_control_reg (bank j)) = re;
}.

(** The inputs and the registers of channel [c] from its first edge on that sees
    the start. *)
Definition run_edge (j0 : nat) (c : Z) : nat := first_after bus (mem c) j0.
Definition run_env (j0 : nat) (c : Z) (t : nat) : ch_in :=
  ch_env B bus mem env s0 c (run_edge j0 c + t).
Definition run_reg (j0 : nat) (c : Z) : ch_reg := chan c (run_edge j0 c).

Lemma run_shift j0 c t :
  ch B c (run_env j0 c) (run_reg j0 c) t = chan c (run_edge j0 c + t)%nat.
Proof. apply at_cycle_shift. Qed.

Context (Hop : operating B bus mem env s0 b0).
Context (j0 : nat) (we re : Z) (p : Z -> BenchControl.lt_params) (Hfs : first_start j0 we re p).

Lemma first_start_late : (1 <= j0)%nat.
Proof.
  destruct (decide (1 <= j0)%nat); [done|]. assert (E : j0 = 0%nat) by lia.
  pose proof (fs_rise _ _ _ _ Hfs) as H1. pose proof (fs_before _ _ _ _ Hfs 0 ltac:(lia)) as H0.
  rewrite E in H1. unfold bank_at in *. cbn [Nat.sub] in *. congruence.
Qed.

Lemma start_falls_once l j :
  (l <= j)%nat -> (j0 < l)%nat ->
  out_start (dma_control_reg (bank j)) = true -> out_start (dma_control_reg (bank l)) = true.
Proof.
  intros Hl Hj. induction Hl as [|j Hl IH]; [done|]. intros Hs. apply IH.
  apply (fs_fall _ _ _ _ Hfs); [lia|done].
Qed.

Section OneChannel.
Context (c : Z) (Hc : 0 <= c < n_mem_intf B).
Abbreviation k0 := (run_edge j0 c).

Lemma run_edge_spec :
  (1 <= k0)%nat /\ view c k0 = bank (S j0) /\ view c (k0 - 1)%nat = bank j0 /\
  (forall k, (k < k0)%nat -> exists j, (j <= j0)%nat /\ view c k = bank j) /\
  (forall k, (k0 <= k)%nat -> exists j, (j0 < j)%nat /\ view c k = bank j).
Proof.
  destruct (first_after_edges bus (mem c) j0 (op_clocks _ _ _ _ _ _ Hop c Hc) first_start_late) as (H1 & H2 & H3).
  change (first_after bus (mem c) j0) with k0 in *. split; [done|]. unfold seen. rewrite H2, H3.
  split; [done|]. split; [done|]. split; intros k Hk; eexists; (split; [|done]).
  - destruct (decide (j0 < edges bus (edge_at (mem c) k))%nat) as [H|H]; [|lia].
    apply first_after_spec in H. unfold run_edge in Hk. lia.
  - by apply first_after_spec.
Qed.

Lemma rise_first k : (k <= k0)%nat -> rise (view c) k = (k =? k0)%nat.
Proof.
  destruct run_edge_spec as (H1 & H2 & H3 & H4 & _). intros Hk. unfold rise, start_at.
  destruct (Nat.eqb_spec k k0) as [->|Hne].
  - rewrite H2, H3, (fs_rise _ _ _ _ Hfs), (fs_before _ _ _ _ Hfs) by done. done.
  - destruct (H4 k ltac:(lia)) as (j & Hj & ->). by rewrite (fs_before _ _ _ _ Hfs).
Qed.

(** The state before the start has been seen at three edges. *)
Lemma before_start_stays :
  view c (k0 - 2)%nat = view c (k0 - 1)%nat /\ view c (k0 - 3)%nat = view c (k0 - 1)%nat.
Proof.
  destruct run_edge_spec as (H1 & H2 & H3 & _). pose proof (channel_versions B bus mem env s0 b0 Hop c Hc) as Hv.
  assert (Hne : view c k0 <> view c (k0 - 1)%nat).
  { rewrite H2, H3. intros E. pose proof (fs_rise _ _ _ _ Hfs) as Hr. rewrite E in Hr.
    by rewrite (fs_before _ _ _ _ Hfs) in Hr by done. }
  assert (E1 : view c (k0 - 2)%nat = view c (k0 - 1)%nat).
  { destruct (decide (2 <= k0)%nat); [|by replace (k0 - 2)%nat with (k0 - 1)%nat by lia].
    pose proof (ver_next _ _ Hv (k0 - 2)%nat) as Hn. replace (S (k0 - 2)) with (k0 - 1)%nat in Hn by lia.
    replace (S (k0 - 1)) with k0 in Hn by lia. by destruct Hn as [->|(off & v & _ & E & _)]. }
  split; [done|]. destruct (decide (3 <= k0)%nat); [|by replace (k0 - 3)%nat with (k0 - 2)%nat by lia].
  pose proof (ver_next _ _ Hv (k0 - 3)%nat) as Hn. replace (S (k0 - 3)) with (k0 - 2)%nat in Hn by lia.
  replace (S (k0 - 2)) with (k0 - 1)%nat in Hn by lia. replace (S (k0 - 1)) with k0 in Hn by lia.
  destruct Hn as [E|(off & v & _ & E & E')]; [congruence|]. destruct Hne. congruence.
Qed.

Lemma rise_only k : rise (view c) k = (k =? k0)%nat.
Proof.
  destruct (decide (k <= k0)%nat) as [|Hk]; [by apply rise_first|].
  rewrite (proj2 (Nat.eqb_neq k k0)) by lia. unfold rise, start_at.
  destruct (out_start (dma_control_reg (view c k))) eqn:E; [|done]. cbn [andb].
  apply negb_false_iff. unfold seen in *.
  eapply start_falls_once; [apply edges_seen_mono|apply first_after_spec|exact E]; unfold run_edge in *; lia.
Qed.

Lemma channel_quiet k :
  (k <= k0)%nat -> WrEngine.quiet (inst_wr_engine (chan c k)) /\ RdEngine.quiet (inst_rd_engine (chan c k)).
Proof.
  pose proof (channel_waiting B bus mem env s0 b0 Hop c Hc) as Hw.
  pose proof (channel_versions B bus mem env s0 b0 Hop c Hc) as Hv.
  pose proof (channel_sampled B bus mem env s0 b0 Hop c) as Hs.
  induction k as [|k IH]; intros Hk; [split; apply Hw|].
  rewrite ch_S. cbn [ch_step inst_wr_engine inst_rd_engine].
  destruct (pulse_regs_at B c Hc (view c) _ _ Hs Hv Hw k) as [H1 H2].
  rewrite rise_only, (proj2 (Nat.eqb_neq _ _)), andb_false_r in H1, H2 by lia.
  split; [apply WrEngine.wr_quiet_S|apply RdEngine.quiet_S]; try apply Hs; try done; apply IH; lia.
Qed.

(** The write of [start] shows at two edges at least. *)
Lemma view_at_start t : (t < 2)%nat -> view c (k0 + t) = bank (S j0).
Proof.
  destruct run_edge_spec as (_ & H2 & _). intros Ht. rewrite <- H2.
  destruct (rise_stays B c Hc (view c) (channel_versions B bus mem env s0 b0 Hop c Hc) k0) as (E & _).
  { by rewrite rise_only, Nat.eqb_refl. }
  destruct t as [|[|t]]; [by rewrite Nat.add_0_r|by rewrite Nat.add_1_r|lia].
Qed.

Lemma run_starts_idle : idle (run_reg j0 c).
Proof.
  pose proof (channel_waiting B bus mem env s0 b0 Hop c Hc) as Hw.
  pose proof (channel_versions B bus mem env s0 b0 Hop c Hc) as Hv.
  pose proof (channel_sampled B bus mem env s0 b0 Hop c) as Hs.
  destruct run_edge_spec as (H1 & _ & H3 & _). unfold run_reg.
  destruct (pulse_regs_at B c Hc (view c) _ _ Hs Hv Hw k0) as [P1 P2].
  rewrite rise_only, (proj2 (Nat.eqb_neq _ _)), andb_false_r in P1, P2 by lia.
  split; try done; try apply channel_quiet; try done.
  - rewrite (start_r_at B c (view c)) by done. unfold start_at.
    rewrite H3. by apply (fs_before _ _ _ _ Hfs).
  - rewrite (start_wr_at B c Hc (view c)) by done.
    by rewrite rise_only, (proj2 (Nat.eqb_neq _ _)), andb_false_r by lia.
  - rewrite (start_rd_at B c Hc (view c)) by done.
    by rewrite rise_only, (proj2 (Nat.eqb_neq _ _)), andb_false_r by lia.
Qed.

Lemma run_starts_loaded : loading (run_reg j0 c) /\ vectors B (p c) c (run_reg j0 c).
Proof.
  pose proof (channel_waiting B bus mem env s0 b0 Hop c Hc) as Hw.
  pose proof (channel_versions B bus mem env s0 b0 Hop c Hc) as Hv.
  pose proof (channel_sampled B bus mem env s0 b0 Hop c) as Hs.
  destruct run_edge_spec as (H1 & H2 & _), before_start_stays as [E1 E2]. unfold run_reg. split.
  - generalize k0. intros k. induction k as [|k IH]; [apply Hw|]. rewrite ch_S. by apply loading_S.
  - assert (E : params_at c (view c) (k0 - 1) = p c).
    { destruct (rise_stays B c Hc (view c) Hv k0) as (_ & _ & ->).
      - by rewrite rise_only, Nat.eqb_refl.
      - unfold params_at. rewrite H2. by apply (fs_params _ _ _ _ Hfs). }
    destruct (vectors_follow B c Hc (view c) _ _ Hs Hv Hw k0) as (V1 & V2 & V3 & V4).
    unfold params_at in *. rewrite E1, E2, E in *. done.
Qed.
End OneChannel.

(** The clocks of the two memories of the DDR have similar periods. *)
Definition similar_memories : Prop :=
  match B with
  | u280_hbm => True
  | u280_ddr => forall c c', 0 <= c < n_mem_intf B -> 0 <= c' < n_mem_intf B ->
                  similar (mem c) (mem c')
  end.

Context (Hsim : similar_memories).

(** All channels have seen the start three edges later. *)
Lemma others_quiet c t :
  0 <= c < n_mem_intf B -> (3 <= t)%nat ->
  any_start B (sys_at (edge_at (mem c) (run_edge j0 c + t))) = false.
Proof.
  intros Hc Ht. unfold any_start. unfold similar_memories in Hsim. revert Hsim.
  assert (H : (forall c', 0 <= c' < n_mem_intf B -> similar (mem c) (mem c')) ->
    forall c', 0 <= c' < n_mem_intf B ->
      start_edge (channels (sys_at (edge_at (mem c) (run_edge j0 c + t))) c') = false).
  { intros Hs c' Hc'. set (x := edge_at (mem c) (run_edge j0 c + t)).
    rewrite channel_run. unfold start_edge.
    rewrite (start_edge_at B c' (view c') _ _ (channel_sampled _ _ _ _ _ _ Hop c')
      (channel_versions _ _ _ _ _ _ Hop c' Hc') (channel_waiting _ _ _ _ _ _ Hop c' Hc')).
    rewrite rise_only by done. apply Nat.eqb_neq. specialize (Hs c' Hc' (run_edge j0 c)).
    pose proof (edges_seen_mono (mem c') (mem c) (3 + run_edge j0 c) (run_edge j0 c + t) ltac:(lia)) as H1.
    fold x in H1. pose proof (proj1 (first_after_spec bus (mem c) j0 (run_edge j0 c)) (le_n _)) as H2.
    destruct (edges_spec bus (edge_at (mem c) (run_edge j0 c))) as [_ H3].
    specialize (H3 j0 H2).
    pose proof (edges_mono (mem c') (S (edge_at bus j0)) (edge_at (mem c) (run_edge j0 c)) H3).
    unfold run_edge at 1, first_after. fold (run_edge j0 c) in *. unfold run_edge, first_after in *. lia. }
  destruct B; intros Hs; [done|]. apply not_true_is_false. rewrite existsb_exists.
  intros (c' & Hin & E). apply list_elem_of_In, elem_of_seqZ in Hin.
  rewrite (H (fun c' => Hs c c' Hc)) in E; [done|lia].
Qed.

Lemma channel_runs c :
  0 <= c < n_mem_intf B ->
  ch_run B c (p c) (run_env j0 c) (run_reg j0 c) (Z.testbit we c) (Z.testbit re c).
Proof.
  intros Hc. destruct (run_edge_spec c Hc) as (H1 & H2 & _ & _ & H5).
  destruct (channel_sampled B bus mem env s0 b0 Hop c) as [S1 S2 S3 S4 S5 S6]. unfold run_env.
  assert (Hlater : forall t, exists j, (j0 < j)%nat /\ view c (run_edge j0 c + t) = bank j)
    by (intros t; apply H5; lia).
  split; [intros t; apply S1| | | |intros t Ht; by apply others_quiet; [|lia]| | | |apply run_starts_loaded..].
  - intros t Ht. rewrite S2, S3. intros E.
    rewrite <- (always_coherent B (view c) (channel_versions _ _ _ _ _ _ Hop c Hc) _ c Hc E).
    rewrite view_at_start by done. by apply (fs_params _ _ _ _ Hfs).
  - rewrite S6, Nat.add_0_r, H2. apply Hfs.
  - intros t. rewrite !S6. unfold seen.
    apply start_falls_once; [apply edges_seen_mono; lia|]. apply first_after_spec. unfold run_edge. lia.
  - intros t. rewrite S4. destruct (Hlater t) as (j & Hj & ->). by rewrite (fs_write _ _ _ _ Hfs).
  - intros t. rewrite S5. destruct (Hlater t) as (j & Hj & ->). by rewrite (fs_read _ _ _ _ Hfs).
  - by apply run_starts_idle.
  - done.
  - done.
Qed.

(** ** The end *)

(** What the memory of a channel does in the run of its engines. *)
Definition rd_answers (c : Z) : Prop :=
  RdEngine.memory (addr_width B) (data_width B) (len_width B)
    (rd_env B c (run_env j0 c) (run_reg j0 c)) (rd_r0 B c (run_env j0 c) (run_reg j0 c)).
Definition wr_answers (c : Z) : Prop :=
  WrEngine.memory (addr_width B) (data_width B) (len_width B)
    (wr_env B c (run_env j0 c) (run_reg j0 c)) (wr_r0 B c (run_env j0 c) (run_reg j0 c)).

(** The engines that are enabled have something to do, and the memory answers. *)
Definition served : Prop := forall c, 0 <= c < n_mem_intf B ->
  (Z.testbit re c = true -> 1 <= trunc 32 (lp_num_mem_ops (p c)) /\ rd_answers c) /\
  (Z.testbit we c = true -> 1 <= trunc 64 (lp_num_mem_ops (p c)) /\ wr_answers c).

Lemma channel_ends c :
  served -> 0 <= c < n_mem_intf B ->
  exists K, forall k, (K <= k)%nat ->
    end_rd_o (chan c k) = Z.testbit re c /\ end_wr_o (chan c k) = Z.testbit we c.
Proof.
  intros Hsv Hc. pose proof (channel_runs c Hc) as Hrun. destruct (Hsv c Hc) as [Hr Hw].
  pose proof (n_mem_intf_range B). assert (Hi : 0 <= c < 32) by lia.
  assert (HR : exists K, (2 <= K)%nat /\ forall t, (K <= t)%nat ->
    end_rd_o (chan c (run_edge j0 c + t)) = Z.testbit re c).
  { destruct (Z.testbit re c) eqn:E.
    - destruct (Hr eq_refl) as [Hops Hm].
      destruct (read_reports B c Hi (p c) _ _ _ _ Hrun eq_refl Hops Hm) as (te & Hte & _).
      exists (2 + S te)%nat. split; [lia|]. intros t Ht. rewrite <- run_shift.
      destruct (Hte t ltac:(lia)) as [-> _]. apply Nat.ltb_lt. lia.
    - exists 2%nat. split; [done|]. intros t Ht. rewrite <- run_shift.
      by apply (read_silent B c (p c) _ _ _ _ Hrun eq_refl). }
  assert (HW : exists K, (2 <= K)%nat /\ forall t, (K <= t)%nat ->
    end_wr_o (chan c (run_edge j0 c + t)) = Z.testbit we c).
  { destruct (Z.testbit we c) eqn:E.
    - destruct (Hw eq_refl) as [Hops Hm].
      destruct (write_reports B c Hi (p c) _ _ _ _ Hrun eq_refl Hops Hm) as (te & Hte & _).
      exists (2 + S te)%nat. split; [lia|]. intros t Ht. rewrite <- run_shift.
      destruct (Hte t ltac:(lia)) as [-> _]. apply Nat.ltb_lt. lia.
    - exists 2%nat. split; [done|]. intros t Ht. rewrite <- run_shift.
      by apply (write_silent B c (p c) _ _ _ _ Hrun eq_refl). }
  destruct HR as (K1 & _ & HR), HW as (K2 & _ & HW).
  exists (run_edge j0 c + (K1 + K2))%nat. intros k Hk.
  replace k with (run_edge j0 c + (k - run_edge j0 c))%nat by lia. split; [apply HR|apply HW]; lia.
Qed.

Lemma status_ends :
  served -> exists X, forall x, (X <= x)%nat ->
    status B (sys_at x) 12 = we /\ status B (sys_at x) 13 = re.
Proof.
  intros Hsv. pose proof (n_mem_intf_range B) as Hn.
  assert (H : forall m, (m <= Z.to_nat (n_mem_intf B))%nat -> exists X, forall x c, (X <= x)%nat ->
    0 <= c < Z.of_nat m -> end_rd_o (channels (sys_at x) c) = Z.testbit re c /\
      end_wr_o (channels (sys_at x) c) = Z.testbit we c).
  { induction m as [|m IH]; intros Hm; [exists 0%nat; lia|]. destruct IH as (X & HX); [lia|].
    destruct (channel_ends (Z.of_nat m) Hsv ltac:(lia)) as (K & HK).
    exists (X + edge_at (mem (Z.of_nat m)) K)%nat. intros x c Hx Hcm.
    destruct (decide (c = Z.of_nat m)) as [->|Hne]; [|apply HX; lia].
    rewrite channel_run. apply HK. rewrite <- (edges_at (mem (Z.of_nat m)) K) at 1.
    apply edges_mono. lia. }
  destruct (H _ (le_n _)) as (X & HX). rewrite Z2Nat.id in HX by lia.
  exists X. intros x Hx. unfold status. cbn [Z.eqb Pos.eqb].
  rewrite <- (fs_write _ _ _ _ Hfs (S j0) ltac:(lia)), <- (fs_read _ _ _ _ Hfs (S j0) ltac:(lia)) in *.
  assert (Hpos : 0 < 2 ^ n_mem_intf B) by (apply Z.pow_pos_nonneg; lia).
  split; apply vector_eq; try lia; try (by apply Z.mod_pos_bound); intros c Hc; by apply HX.
Qed.

(** The host has no more words to write, and takes the responses. *)
Definition only_polls : Prop :=
  exists J, forall j, (J <= j)%nat -> w_taken B (bus_env B bus mem env s0) (xdma_control s0) j = false.

Abbreviation regs := (ctl B (bus_env B bus mem env s0) (xdma_control s0)).

Lemma writes_over :
  master B (bus_env B bus mem env s0) (xdma_control s0) -> only_polls ->
  exists J, forall j, (J <= j)%nat -> w_cstate (regs j) <> WBRSP.
Proof.
  intros [_ Hresp] (J & HJ).
  pose proof (bus_reset B bus mem env s0 b0 Hop) as Hrst. pose proof (op_idle _ _ _ _ _ _ Hop) as Hid.
  assert (Hstay : forall j, (J <= j)%nat -> w_cstate (regs j) <> WBRSP -> w_cstate (regs (S j)) <> WBRSP).
  { intros j Hj Hne. rewrite next_state by done. specialize (HJ j Hj). unfold w_taken, s_axil_wready in HJ.
    destruct (Z.eqb_spec (w_cstate (regs j)) WIDLE); [by destruct (s_axil_awvalid _)|].
    destruct (Z.eqb_spec (w_cstate (regs j)) WDATA) as [E|]; [|by rewrite (proj2 (Z.eqb_neq _ _) Hne)].
    rewrite E in HJ. change (Z.testbit WDATA 1) with true in HJ. rewrite andb_true_r in HJ. by rewrite HJ. }
  assert (Hfrom : forall j0, (J <= j0)%nat -> w_cstate (regs j0) <> WBRSP ->
    forall j, (j0 <= j)%nat -> w_cstate (regs j) <> WBRSP).
  { intros j1 Hj1 Hne j Hj. induction Hj as [|j Hj IH]; [done|]. apply Hstay; [lia|done]. }
  destruct (decide (w_cstate (regs J) = WBRSP)) as [E|Hne]; [|exists J; by apply Hfrom].
  destruct (leads_to_wait (fun j => (J <= j)%nat /\ w_cstate (regs j) = WBRSP)
    (fun j => (J <= j)%nat /\ w_cstate (regs j) = WIDLE) (fun j => s_axil_bready (bus_env B bus mem env s0 j)))
    with (t := J) as (j1 & Hj1 & _ & E1); [| |by split|].
  - intros j [Hj Ej]. rewrite next_state by done. rewrite Ej. cbn.
    destruct (s_axil_bready _); (split; [lia|done]).
  - intros j [_ Ej]. by apply Hresp.
  - exists j1. apply Hfrom; [done|]. by rewrite E1.
Qed.

(** What the status shows for good is in the registers for good. *)
Lemma status_registers k v :
  12 <= k <= 15 -> master B (bus_env B bus mem env s0) (xdma_control s0) -> only_polls ->
  (exists X, forall x, (X <= x)%nat -> status B (sys_at x) k = v) ->
  exists J, forall j, (J <= j)%nat -> control_reg (regs j) k = v.
Proof.
  intros Hk Hm Hp (X & HX). destruct (writes_over Hm Hp) as (J & HJ).
  exists (S (X + J)). intros j Hj. destruct j as [|j]; [lia|].
  rewrite ctl_S. cbn [ctl_step control_reg]. unfold bank_next.
  rewrite (bus_reset B bus mem env s0 b0 Hop), (proj2 (Z.eqb_neq _ _)) by (apply HJ; lia).
  pose proof (edge_at_ge bus j). cbn [negb]. unfold status_regs.
  rewrite (proj2 (Z.leb_le 12 k)), (proj2 (Z.leb_le k 15)) by lia. apply HX. lia.
Qed.

Lemma registers_end :
  served -> master B (bus_env B bus mem env s0) (xdma_control s0) -> only_polls ->
  exists J, forall j, (J <= j)%nat -> control_reg (regs j) 12 = we /\ control_reg (regs j) 13 = re.
Proof.
  intros Hsv Hm Hp. destruct (status_ends Hsv) as (X & HX).
  destruct (status_registers 12 we ltac:(lia) Hm Hp) as (J1 & H1); [exists X; intros x Hx; by apply HX|].
  destruct (status_registers 13 re ltac:(lia) Hm Hp) as (J2 & H2); [exists X; intros x Hx; by apply HX|].
  exists (J1 + J2)%nat. intros j Hj. split; [apply H1|apply H2]; lia.
Qed.

(** *** The timers of the selected channel *)

(** The host has selected a channel for good. *)
Definition keeps_selected (c : Z) : Prop :=
  exists J, forall j, (J <= j)%nat -> out_hbm_channel (dma_control_reg (bank j)) = c.

Lemma selected_channel c :
  keeps_selected c -> exists X, forall x, (X <= x)%nat -> selected (sys_at x) = c.
Proof.
  intros (J & HJ). exists (edge_at bus J). intros x Hx. unfold selected. rewrite bus_run.
  rewrite <- (HJ (edges bus x)).
  - by apply (outputs_agree B _ _ (fun l Hl => shown_at B bus mem env s0 b0 Hop (edges bus x) l Hl)).
  - rewrite <- (edges_at bus J) at 1. by apply edges_mono.
Qed.

(** In its lower half a timer shows the cycles of the run. *)
Lemma timer_shown c k (timer : ch_reg -> Z) flag te :
  0 <= c < n_mem_intf B -> 12 <= k <= 15 ->
  (forall s, selected s = c -> status B s k = slice 0 32 (timer (channels s c))) ->
  reports B c (run_env j0 c) (run_reg j0 c) flag timer te ->
  keeps_selected c -> master B (bus_env B bus mem env s0) (xdma_control s0) -> only_polls ->
  exists J, forall j, (J <= j)%nat -> control_reg (regs j) k = trunc 32 (Z.of_nat te - 6).
Proof.
  intros Hc Hk Hst Hte Hsel Hm Hp. apply status_registers; [done..|].
  destruct (selected_channel c Hsel) as (X & HX).
  exists (X + edge_at (mem c) (run_edge j0 c + (3 + te)))%nat. intros x Hx.
  rewrite Hst by (apply HX; lia). rewrite channel_run.
  pose proof (edges_mono (mem c) (edge_at (mem c) (run_edge j0 c + (3 + te))) x ltac:(lia)) as He.
  rewrite edges_at in He. set (n := edges (mem c) x) in *.
  replace n with (run_edge j0 c + (n - run_edge j0 c))%nat by lia. rewrite <- run_shift.
  destruct (Hte (n - run_edge j0 c)%nat ltac:(lia)) as [_ Ht]. rewrite Ht by lia. unfold slice. rewrite Z.shiftr_0_r.
  by apply (trunc_trunc 32 64).
Qed.

Lemma read_timer_ends c :
  0 <= c < n_mem_intf B -> served -> Z.testbit re c = true -> keeps_selected c ->
  master B (bus_env B bus mem env s0) (xdma_control s0) -> only_polls ->
  exists te, reports B c (run_env j0 c) (run_reg j0 c) end_rd_o
      (fun r => RdEngine.lat_timer_sum (inst_rd_engine r)) te /\
    exists J, forall j, (J <= j)%nat -> control_reg (regs j) 15 = trunc 32 (Z.of_nat te - 6).
Proof.
  intros Hc Hsv Hb Hsel Hm Hp. pose proof (channel_runs c Hc) as Hrun. destruct (Hsv c Hc) as [Hr _].
  pose proof (n_mem_intf_range B). assert (Hi : 0 <= c < 32) by lia.
  rewrite Hb in Hrun. destruct (Hr Hb) as [Hops Hmem].
  destruct (read_reports B c Hi (p c) _ _ _ _ Hrun eq_refl Hops Hmem) as (te & Hte & _).
  exists te. split; [done|]. eapply timer_shown; [done|lia| |exact Hte|done..].
  intros s <-. reflexivity.
Qed.

Lemma write_timer_ends c :
  0 <= c < n_mem_intf B -> served -> Z.testbit we c = true -> keeps_selected c ->
  master B (bus_env B bus mem env s0) (xdma_control s0) -> only_polls ->
  exists te, reports B c (run_env j0 c) (run_reg j0 c) end_wr_o
      (fun r => WrEngine.lat_timer_sum (inst_wr_engine r)) te /\
    exists J, forall j, (J <= j)%nat -> control_reg (regs j) 14 = trunc 32 (Z.of_nat te - 6).
Proof.
  intros Hc Hsv Hb Hsel Hm Hp. pose proof (channel_runs c Hc) as Hrun. destruct (Hsv c Hc) as [_ Hw].
  pose proof (n_mem_intf_range B). assert (Hi : 0 <= c < 32) by lia.
  rewrite Hb in Hrun. destruct (Hw Hb) as [Hops Hmem].
  destruct (write_reports B c Hi (p c) _ _ _ _ Hrun eq_refl Hops Hmem) as (te & Hte & _).
  exists te. split; [done|]. eapply timer_shown; [done|lia| |exact Hte|done..].
  intros s <-. reflexivity.
Qed.
End Run.

(** ** Properties *)

(** C7: the clocked hardware implements the register bank that the host
    programs are proved against.  Whatever the clock of the bus and those of the
    memories do, as long as the memory's is not the slower one: before each
    time the engines of a channel have got exactly the start pulses, in order and
    with the parameters cut to the engine's widths, that [BenchControl] gives for
    the host's writes up to the cycle of the bus that the channel saw four of its
    edges ago; and every write is seen. *)
Theorem system_starts_engines B bus mem env s0 b0 c :
  operating B bus mem env s0 b0 -> engines_started b0 = [] -> 0 <= c < n_mem_intf B ->
  (forall x, started_until B bus mem env s0 c x =
     cut_started B <$> filter (in_channel c)
       (engines_started (hw_requests B (host_requests B bus mem env s0
          (edges bus (edge_at (mem c) (edges (mem c) x - 4)) - 2)) b0))) /\
  (forall j, exists x, forall x', (x <= x')%nat ->
     (j <= edges bus (edge_at (mem c) (edges (mem c) x' - 4)) - 2)%nat).
Proof.
  intros Hop H0 Hc. split.
  - intros x. rewrite started_until_run. set (n := edges (mem c) x).
    pose proof (starts_follow B c Hc (seen B bus mem env s0 b0 c) _ _
      (channel_sampled _ _ _ _ _ _ Hop c) (channel_versions _ _ _ _ _ _ Hop c Hc)
      (channel_waiting _ _ _ _ _ _ Hop c Hc)) as H.
    rewrite first_seen in H by done. specialize (fun k => H k H0). unfold seen, bank_at in H.
    destruct (decide (4 <= n)%nat) as [Hn|Hn].
    + rewrite <- H. by replace (4 + (n - 4))%nat with n by lia.
    + replace (n - 4)%nat with 0%nat by lia. rewrite <- H.
      rewrite (starts_early B c Hc (seen B bus mem env s0 b0 c) _ _ (channel_sampled _ _ _ _ _ _ Hop c)
        (channel_versions _ _ _ _ _ _ Hop c Hc) (channel_waiting _ _ _ _ _ _ Hop c Hc)) by lia.
      symmetry. by apply (starts_early B c Hc (seen B bus mem env s0 b0 c) _ _ (channel_sampled _ _ _ _ _ _ Hop c)
        (channel_versions _ _ _ _ _ _ Hop c Hc) (channel_waiting _ _ _ _ _ _ Hop c Hc)).
  - intros j. destruct (edges_catch_up bus (mem c) (2 + j)) as (k & Hk).
    exists (edge_at (mem c) (4 + k)). intros x' Hx.
    pose proof (edges_mono (mem c) _ _ Hx) as Hm. rewrite edges_at in Hm.
    pose proof (edges_seen_mono bus (mem c) k (edges (mem c) x' - 4) ltac:(lia)). lia.
Qed.

(** A run of the benchmark ends in the registers of the host.  When the host
    has written [start] for the first time and then polls, and the memories
    answer in any time, the registers 12 and 13 come to show exactly the channels
    that were enabled for writing and for reading, and go on doing so. *)
Theorem system_finishes B bus mem env s0 b0 j0 we re p :
  operating B bus mem env s0 b0 -> first_start B bus mem env s0 b0 j0 we re p ->
  similar_memories B mem -> served B bus mem env s0 j0 we re p ->
  master B (bus_env B bus mem env s0) (xdma_control s0) -> only_polls B bus mem env s0 ->
  exists J, forall j, (J <= j)%nat ->
    let r := xdma_control (system B bus mem env s0 (edge_at bus j)) in
    control_reg r 12 = we /\ control_reg r 13 = re.
Proof.
  intros Hop Hfs Hsim Hsv Hm Hp.
  destruct (registers_end B bus mem env s0 b0 Hop j0 we re p Hfs Hsim Hsv Hm Hp) as (J & HJ).
  exists J. intros j Hj. cbv zeta. rewrite bus_run, edges_at. by apply HJ.
Qed.
