(* ===== verification/SamplePath.v ===== *)
(** * The way of the latency samples

    From the read engine of the selected channel through the registers of the top
    level to the queue in front of the buffer: for the HBM two stages of selection
    and one register, for the DDR one register per channel. *)

From stdpp Require Import base list numbers option.
From S2P Require Import Prelude Clock ClockDomains.
From S2P Require Import EngineParams.
From S2P Require Import RdEngine.
From S2P Require Import Channel.
From S2P Require Import BenchControl.
From S2P Require Import AxiLite.
From S2P Require Import Crossing.
From S2P Require Import System.
From S2P Require Import SystemTheorems.
Open Scope Z_scope.

(** The queue of a channel, and the stages in front of it. *)
Definition queue_of (B : design) (c : Z) : Z := match B with u280_hbm => 0 | u280_ddr => c end.
Definition path_length (B : design) : nat := match B with u280_hbm => 3 | u280_ddr => 1 end.

(** Nothing is on its way. *)
Record path_empty (s : sys) : Prop := {
  mid_empty : forall j, lat_timer_valid_mid s j = false;
  out_empty : lat_timer_valid_o s = false;
  in_empty : forall q, lat_timer_valid_i s q = false;
}.

(** The two digits of a channel of the HBM. *)
Lemma channel_digits c : 0 <= c < 32 -> 8 * slice 3 2 c + slice 0 3 c = c.
Proof.
  intros H. unfold slice. rewrite !Z.shiftr_div_pow2 by done. change (2 ^ 3) with 8. change (2 ^ 2) with 4.
  change (2 ^ 0) with 1. rewrite Z.div_1_r. pose proof (Z.div_mod c 8 ltac:(lia)).
  rewrite (Z.mod_small (c / 8) 4); [lia|]. split; [apply Z.div_pos; lia|apply Z.div_lt_upper_bound; lia].
Qed.

Lemma mid_channel_range s j : 0 <= j < 4 -> 0 <= mid_channel s j < n_mem_intf u280_hbm.
Proof. intros Hj. unfold mid_channel. pose proof (slice_range 0 3 (selected s) ltac:(done)). cbn. lia. Qed.

Section Path.
Context (B : design) (bus : clock) (mem : Z -> clock) (env : nat -> sys_in) (s0 : sys) (b0 : bench).
Context (c : Z) (j0 : nat) (we re : Z) (p : Z -> BenchControl.lt_params).

Abbreviation q := (queue_of B c).
Abbreviation sys_at := (system B bus mem env s0).
Abbreviation start_time := (edge_at bus j0).
(** The top level at the edges of the queue's clock. *)
Abbreviation at_edge k := (sys_at (edge_at (mem q) k)).
Abbreviation chan k := (ch B c (ch_env B bus mem env s0 c) (channels s0 c) k).
Abbreviation valid u := (RdEngine.lat_timer_valid (inst_rd_engine (chan u))).

(** The words that go into the queue before its edge [k], and those that the
    engine gives. *)
Definition queued (k : nat) : list Z :=
  observed (fun u => lat_timer_valid_i (at_edge u) q) (fun u => lat_timer_i (at_edge u) q) k.
Definition engine_samples (k : nat) : list Z :=
  observed (fun u => valid u) (fun u => RdEngine.lat_timer (inst_rd_engine (chan u))) k.

Context (Hop : operating B bus mem env s0 b0) (Hc : 0 <= c < n_mem_intf B).
Context (Hfs : first_start B bus mem env s0 b0 j0 we re p) (Hsim : similar_memories B mem).
Context (Hsel : forall x, (start_time <= x)%nat -> selected (sys_at x) = c) (Hempty : path_empty s0).
Context (Hclk : forall k, edge_at (mem c) k = edge_at (mem q) k).

(** ** Before the start *)

Lemma all_quiet x d :
  (x <= S start_time)%nat -> 0 <= d < n_mem_intf B -> lat_timer_valid_of (sys_at x) d = false.
Proof.
  intros Hx Hd. unfold lat_timer_valid_of. rewrite channel_run. apply RdEngine.quiet_sample.
  apply (channel_quiet B bus mem env s0 b0 Hop j0 we re p Hfs d Hd).
  unfold run_edge, first_after. by apply edges_mono.
Qed.

Lemma stages_quiet x :
  B = u280_hbm -> (x <= S start_time)%nat ->
  (forall j, 0 <= j < 4 -> lat_timer_valid_mid (sys_at x) j = false) /\ lat_timer_valid_o (sys_at x) = false.
Proof.
  intros HB. induction x as [|x IH]; intros Hx; [split; intros; apply Hempty|].
  destruct IH as [IH1 IH2]; [lia|]. pose proof (slice_range 3 2 (selected (sys_at x)) ltac:(done)).
  change (sys_at (S x)) with (sys_step B bus mem (x, env x) (sys_at x)).
  cbn [sys_step lat_timer_valid_mid lat_timer_valid_o]. destruct (ticks (mem 0) x); [|done]. split; [|by apply IH1].
  intros j Hj. rewrite all_quiet; [apply andb_false_r|lia|rewrite HB; by apply mid_channel_range].
Qed.

(** ** Registers *)

Lemma queue_stage :
  lat_timer_valid_i (at_edge 0) q = false /\
  forall k, lat_timer_i (at_edge (S k)) q =
      (match B with u280_hbm => lat_timer_o (at_edge k) | u280_ddr => lat_timer_of (at_edge k) q end) /\
    lat_timer_valid_i (at_edge (S k)) q =
      (match B with u280_hbm => lat_timer_valid_o (at_edge k) | u280_ddr => lat_timer_valid_of (at_edge k) q end).
Proof.
  destruct (own_next (mem q) (fun v _ => v)
    (fun x => match B with u280_hbm => lat_timer_o (sys_at x) | u280_ddr => lat_timer_of (sys_at x) q end)
    (fun x => lat_timer_i (sys_at x) q)) as [_ H1]; [done|].
  destruct (own_next (mem q) (fun v _ => v)
    (fun x => match B with u280_hbm => lat_timer_valid_o (sys_at x) | u280_ddr => lat_timer_valid_of (sys_at x) q end)
    (fun x => lat_timer_valid_i (sys_at x) q)) as [H0 H2]; [done|].
  split; [rewrite H0; apply Hempty|]. intros k. split; [apply H1|apply H2].
Qed.

(** The two stages of the HBM, with its clock. *)
Abbreviation at_hbm k := (sys_at (edge_at (mem 0) k)).

Lemma out_stage :
  lat_timer_valid_o (at_hbm 0) = false /\
  forall k, lat_timer_o (at_hbm (S k)) = lat_timer_mid (at_hbm k) (slice 3 2 (selected (at_hbm k))) /\
    lat_timer_valid_o (at_hbm (S k)) = lat_timer_valid_mid (at_hbm k) (slice 3 2 (selected (at_hbm k))).
Proof.
  destruct (own_next (mem 0) (fun v _ => v) (fun x => lat_timer_mid (sys_at x) (slice 3 2 (selected (sys_at x))))
    (fun x => lat_timer_o (sys_at x))) as [_ H1]; [done|].
  destruct (own_next (mem 0) (fun v _ => v) (fun x => lat_timer_valid_mid (sys_at x) (slice 3 2 (selected (sys_at x))))
    (fun x => lat_timer_valid_o (sys_at x))) as [H0 H2]; [done|].
  split; [rewrite H0; apply Hempty|]. intros k. by rewrite H1, H2.
Qed.

Lemma mid_stage j :
  lat_timer_valid_mid (at_hbm 0) j = false /\
  forall k, lat_timer_mid (at_hbm (S k)) j = lat_timer_of (at_hbm k) (mid_channel (at_hbm k) j) /\
    lat_timer_valid_mid (at_hbm (S k)) j = lat_timer_valid_of (at_hbm k) (mid_channel (at_hbm k) j).
Proof.
  destruct (own_next (mem 0) (fun v _ => v)
    (fun x => if locked (env x) 0 then lat_timer_of (sys_at x) (mid_channel (sys_at x) j) else 0)
    (fun x => lat_timer_mid (sys_at x) j)) as [_ H1]; [done|].
  destruct (own_next (mem 0) (fun v _ => v)
    (fun x => locked (env x) 0 && lat_timer_valid_of (sys_at x) (mid_channel (sys_at x) j))
    (fun x => lat_timer_valid_mid (sys_at x) j)) as [H0 H2]; [done|].
  split; [rewrite H0; apply Hempty|]. intros k. rewrite H1, H2.
  by rewrite (op_locked _ _ _ _ _ _ Hop).
Qed.

(** ** From the engine to the queue *)

(** A sample of the HBM is in front of the queue three edges later. *)
Lemma hbm_arrives (HB : B = u280_hbm) k :
  lat_timer_valid_i (at_edge (3 + k)) q = lat_timer_valid_of (at_edge k) c /\
  (lat_timer_valid_of (at_edge k) c = true -> lat_timer_i (at_edge (3 + k)) q = lat_timer_of (at_edge k) c).
Proof.
  destruct queue_stage as [_ HQ], out_stage as [_ HO].
  assert (Eq : q = 0) by (by rewrite HB).
  destruct (HQ (2 + k)%nat) as [Q1 Q2], (HO (S k)) as [O1 O2]. rewrite Eq in Q1, Q2 |- *.
  set (j := slice 3 2 (selected (at_hbm (S k)))) in *.
  destruct (mid_stage j) as [_ HM]. destruct (HM k) as [M1 M2].
  assert (Hj : 0 <= j < 4) by (by apply slice_range).
  change (3 + k)%nat with (S (2 + k)). change (2 + k)%nat with (S (S k)) in *.
  assert (E : lat_timer_valid_i (at_hbm (S (S (S k)))) 0 = lat_timer_valid_of (at_hbm k) (mid_channel (at_hbm k) j) /\
    lat_timer_i (at_hbm (S (S (S k)))) 0 = lat_timer_of (at_hbm k) (mid_channel (at_hbm k) j)).
  { by destruct B; [rewrite Q1, Q2, O1, O2|]. }
  destruct E as [-> ->]. destruct (decide (start_time <= edge_at (mem 0) k)%nat) as [Hx|Hx].
  - assert (mid_channel (at_hbm k) j = c) as ->; [|done]. pose proof (edge_mono (mem 0) k).
    unfold mid_channel, j. rewrite !Hsel by lia. apply channel_digits. rewrite HB in Hc. exact Hc.
  - rewrite !all_quiet by (done || lia || (rewrite HB; by apply mid_channel_range)). done.
Qed.

(** The words in front of the queue are those of the engine. *)
Lemma sample_arrives k :
  lat_timer_valid_i (at_edge (path_length B + k)) q = valid k /\
  (valid k = true -> lat_timer_i (at_edge (path_length B + k)) q = RdEngine.lat_timer (inst_rd_engine (chan k))).
Proof.
  assert (E : channels (at_edge k) c = chan k) by (by rewrite <- Hclk, channel_run, edges_at).
  assert (H : lat_timer_valid_i (at_edge (path_length B + k)) q = lat_timer_valid_of (at_edge k) c /\
    (lat_timer_valid_of (at_edge k) c = true ->
     lat_timer_i (at_edge (path_length B + k)) q = lat_timer_of (at_edge k) c)).
  { pose proof hbm_arrives as HH. destruct queue_stage as [_ HQ]. specialize (HQ k).
    destruct B; [by apply HH|]. by destruct HQ. }
  unfold lat_timer_valid_of, lat_timer_of in H. by rewrite E in H.
Qed.

Lemma path_quiet k : (k < path_length B)%nat -> lat_timer_valid_i (at_edge k) q = false.
Proof.
  destruct queue_stage as [Q0 HQ], out_stage as [O0 HO]. intros Hk.
  destruct k as [|k]; [done|]. destruct (HQ k) as [_ ->].
  assert (Hcase : B = u280_hbm) by (destruct B; [done|cbn in Hk; lia]).
  assert (Eq : q = 0) by (by rewrite Hcase). rewrite Eq.
  assert (E : lat_timer_valid_o (at_hbm k) = false); [|by destruct B].
  destruct k as [|k]; [done|]. destruct (HO k) as [_ ->].
  assert (k = 0%nat) as -> by (rewrite Hcase in Hk; cbn in Hk; lia). apply mid_stage.
Qed.

Lemma queued_samples n : queued (path_length B + n) = engine_samples n.
Proof.
  unfold queued, engine_samples. rewrite observed_add, observed_none by apply path_quiet.
  apply observed_ext. intros u _. destruct (sample_arrives u) as [E1 E2]. by rewrite E1.
Qed.

(** ** The samples of the run *)

Abbreviation run_in := (run_env B bus mem env s0 j0 c).
Abbreviation run_regs := (run_reg B bus mem env s0 j0 c).
Abbreviation k0 := (run_edge bus mem j0 c).
(** The read engine in cycle [t] of its run. *)
Abbreviation accept := (RdEngine.accept (addr_width B) (data_width B) (len_width B) (rd_env B c run_in run_regs) (rd_r0 B c run_in run_regs)).
Abbreviation last := (RdEngine.last (rd_env B c run_in run_regs)).

Lemma run_of_channel : ch_run B c (p c) run_in run_regs (Z.testbit we c) (Z.testbit re c).
Proof. by apply (channel_runs B bus mem env s0 b0). Qed.

Lemma no_sample_before u : (u < k0 + 3)%nat -> valid u = false.
Proof.
  intros Hu. apply RdEngine.quiet_sample. destruct (decide (u <= k0)%nat) as [Hle|Hgt].
  - by apply (channel_quiet B bus mem env s0 b0 Hop j0 we re p Hfs c Hc).
  - replace u with (k0 + (u - k0))%nat by lia. rewrite <- run_shift.
    eapply waits_rd; [apply run_of_channel|left; lia].
Qed.

Context (Hre : Z.testbit re c = true) (Hops : 1 <= trunc 32 (lp_num_mem_ops (p c))).

Lemma run_ops : RdEngine.p_ops (RdEngine.lt_params (rd_env B c run_in run_regs 0)) = trunc 32 (lp_num_mem_ops (p c)).
Proof.
  pose proof (n_mem_intf_range B).
  destruct (rd_params_hold B c ltac:(lia) (p c) _ _ _ _ run_of_channel) as (_ & _ & H3 & _).
  unfold RdEngine.p_ops. rewrite H3. by apply trunc_trunc.
Qed.

(** The engine in its run. *)
Lemma run_engine t :
  inst_rd_engine (chan (k0 + (3 + t))) =
    RdEngine.reg (addr_width B) (data_width B) (len_width B) (rd_env B c run_in run_regs) (rd_r0 B c run_in run_regs) t.
Proof. by rewrite rd_trace, run_shift. Qed.

Abbreviation sample := (RdEngine.sample (addr_width B) (data_width B) (len_width B) (rd_env B c run_in run_regs) (rd_r0 B c run_in run_regs)).

Lemma valid_run t : valid (k0 + 3 + t) = sample t.
Proof. unfold RdEngine.sample. by rewrite <- run_engine, Nat.add_assoc. Qed.

Lemma count_valid n : count (fun u => valid u) (k0 + 3 + n) = count sample n.
Proof.
  rewrite count_add, <- (length_observed _ id), observed_none by apply no_sample_before.
  rewrite <- (length_observed (fun u => valid _) id), <- (length_observed sample id). rewrite Z.add_0_l.
  do 2 f_equal. apply observed_ext. intros u _. split; [apply valid_run|done].
Qed.

Lemma engine_sample n k v :
  engine_samples n !! k = Some v ->
  exists ta tl, (ta < tl)%nat /\ accept ta = true /\ last tl = true /\
    (forall u, (ta < u < tl)%nat -> accept u = false /\ last u = false) /\
    count accept ta = Z.of_nat k /\ v = trunc 16 (Z.of_nat tl - Z.of_nat ta).
Proof.
  intros H. apply observed_lookup in H as (u & _ & Hu & Hk & <-).
  destruct (decide (u < k0 + 3)%nat) as [Hlt|Hge]; [by rewrite no_sample_before in Hu|].
  assert (E : u = (k0 + 3 + (u - (k0 + 3)))%nat) by lia. set (t := (u - (k0 + 3))%nat) in *. rewrite E in *.
  rewrite valid_run in Hu. rewrite count_valid in Hk. rewrite <- Nat.add_assoc, run_engine.
  pose proof (n_mem_intf_range B). rewrite <- run_ops in Hops.
  destruct (RdEngine.sample_latency _ _ _ _ _ t (rd_runs B c (p c) _ _ _ _ run_of_channel Hre) Hops Hu)
    as (ta & tl & _ & H1 & H2 & H3 & H4 & H5 & H6).
  exists ta, tl. rewrite H5, H6. done.
Qed.

Lemma engine_samples_all :
  lp_latency (p c) = true -> rd_answers B bus mem env s0 j0 c ->
  exists N, forall n, (N <= n)%nat -> Z.of_nat (length (engine_samples n)) = trunc 32 (lp_num_mem_ops (p c)).
Proof.
  intros Hlat Hmem. pose proof (n_mem_intf_range B).
  destruct (rd_params_hold B c ltac:(lia) (p c) _ _ _ _ run_of_channel) as (_ & _ & _ & _ & _ & H6 & _).
  pose proof run_ops as Eo. rewrite <- Eo in Hops |- *.
  destruct (RdEngine.run_done _ _ _ _ _ (rd_runs B c (p c) _ _ _ _ run_of_channel Hre) Hops Hmem) as (te & Hte).
  exists (k0 + 3 + te)%nat. intros n Hn. unfold engine_samples. rewrite length_observed.
  replace n with (k0 + 3 + (n - (k0 + 3)))%nat by lia. rewrite count_valid.
  destruct (Hte (n - (k0 + 3))%nat ltac:(lia)) as (_ & _ & _ & _ & Hs & _). apply Hs. by rewrite H6.
Qed.

(** What was queued earlier stays in front. *)
Lemma queued_earlier n k v : queued n !! k = Some v -> engine_samples n !! k = Some v.
Proof.
  intros H. rewrite <- queued_samples. unfold queued. rewrite Nat.add_comm, observed_add.
  by apply lookup_app_l_Some.
Qed.
End Path.

(** The words that go into the queue are the latencies of the run in which [c]
    is the selected channel, from its start on: those of its reads in their
    order, and in a latency test one for every operation. *)
Lemma samples_queued B bus mem env s0 b0 c j0 we re p :
  operating B bus mem env s0 b0 -> 0 <= c < n_mem_intf B ->
  first_start B bus mem env s0 b0 j0 we re p -> similar_memories B mem ->
  (forall x, (edge_at bus j0 <= x)%nat -> selected (system B bus mem env s0 x) = c) ->
  path_empty s0 -> (forall k, edge_at (mem c) k = edge_at (mem (queue_of B c)) k) ->
  Z.testbit re c = true -> 1 <= trunc 32 (lp_num_mem_ops (p c)) ->
  let run_in := run_env B bus mem env s0 j0 c in
  let run_regs := run_reg B bus mem env s0 j0 c in
  let accept := RdEngine.accept (addr_width B) (data_width B) (len_width B) (rd_env B c run_in run_regs) (rd_r0 B c run_in run_regs) in
  let last := RdEngine.last (rd_env B c run_in run_regs) in
  (forall n k v, queued B bus mem env s0 c n !! k = Some v ->
     exists ta tl, (ta < tl)%nat /\ accept ta = true /\ last tl = true /\
       (forall u, (ta < u < tl)%nat -> accept u = false /\ last u = false) /\
       count accept ta = Z.of_nat k /\ v = trunc 16 (Z.of_nat tl - Z.of_nat ta)) /\
  (lp_latency (p c) = true -> rd_answers B bus mem env s0 j0 c ->
   exists N, forall n, (N <= n)%nat ->
     Z.of_nat (length (queued B bus mem env s0 c n)) = trunc 32 (lp_num_mem_ops (p c))).
Proof.
  intros Hop Hc Hfs Hsim Hsel Hempty Hclk Hre Hops run_in run_regs accept last. split.
  - intros n k v H. eapply engine_sample; [done..|]. by eapply queued_earlier.
  - intros Hlat Hmem. edestruct engine_samples_all as (N & HN); [done..|].
    exists (path_length B + N)%nat. intros n Hn.
    replace n with (path_length B + (n - path_length B))%nat by lia.
    erewrite queued_samples by done. apply HN. lia.
Qed.
