(* ===== verification/PowerUp.v ===== *)
(** * From power-up to operation

    Whatever is in the registers when the board is configured, the resets bring
    the top level to the state from which the properties of [SystemTheorems]
    start: the register bank at its default values, the engines waiting, the
    parameter vectors filled.  The locks of the memories do not depend on the reset
    of the bus: each may come before the bank has its defaults, or after. *)

From Stdlib Require Import FunctionalExtensionality.
From stdpp Require Import base list numbers option.
From S2P Require Import Prelude Clock ClockDomains.
From S2P Require Import EngineParams.
From S2P Require Import RdEngine.
From S2P Require Import WrEngine.
From S2P Require Import Channel.
From S2P Require Import AxiLite.
From S2P Require Import BenchControl.
From S2P Require Import Crossing.
From S2P Require Import System.
From S2P Require Import SystemTheorems.
Open Scope Z_scope.

(** ** A channel in reset *)

Section Channel.
Context (B : design) (i : Z) (P : BenchControl.lt_params).
Context (env : nat -> ch_in) (r0 : ch_reg) (n1 : nat).

(** Three edges of reset at least, and no start. *)
Record in_reset : Prop := {
  rs_low : forall k, (k < n1)%nat -> arstn (env k) = false;
  rs_high : forall k, (n1 <= k)%nat -> arstn (env k) = true;
  rs_long : (3 <= n1)%nat;
  rs_start : forall k, start_in (env k) = false;
}.
Context (Hrs : in_reset).
Abbreviation reg := (ch B i env r0).

Lemma reset_S t : reg (S t) = ch_step B i (env t) (reg t).
Proof. done. Qed.

Lemma no_start_r t : start_r (reg (S t)) = false.
Proof. rewrite reset_S. apply (rs_start Hrs). Qed.

Lemma no_pulse t : start_wr (reg (S t)) = false /\ start_rd (reg (S t)) = false.
Proof.
  induction t as [|t [IH1 IH2]]; rewrite reset_S; cbn [ch_step start_wr start_rd]; unfold pulse.
  - pose proof (rs_long Hrs). by rewrite (rs_low Hrs) by lia.
  - rewrite no_start_r, IH1, IH2. destruct (arstn _), (write_enable _), (read_enable _); done.
Qed.

Lemma no_pulse_reg t : start_wr_reg (reg (S (S t))) = false /\ start_rd_reg (reg (S (S t))) = false.
Proof. rewrite reset_S. apply no_pulse. Qed.

Lemma engines_wait t :
  (n1 < t)%nat -> WrEngine.quiet (inst_wr_engine (reg t)) /\ RdEngine.quiet (inst_rd_engine (reg t)).
Proof.
  intros Ht. pose proof (rs_long Hrs). induction Ht as [|t Ht [IH1 IH2]].
  - destruct n1 as [|[|[|n]]] eqn:En; [lia..|]. rewrite !reset_S.
    pose proof (no_pulse_reg (S n)) as [Ew Er].
    split; [apply WrEngine.wr_reset_quiet|apply RdEngine.reset_quiet]; cbn [wr_inputs rd_inputs
      WrEngine.rst_n RdEngine.rst_n WrEngine.start RdEngine.start];
      rewrite <- ?reset_S; done || (apply (rs_low Hrs); lia) || (apply (rs_high Hrs); lia).
  - destruct t as [|[|t]]; [lia..|]. rewrite reset_S.
    destruct (no_pulse_reg t) as [Ew Er].
    split; [apply WrEngine.wr_quiet_S|apply RdEngine.quiet_S]; cbn [ch_step]; try done;
      apply (rs_high Hrs); lia.
Qed.

Lemma reset_idle t : (n1 < t)%nat -> idle (reg t).
Proof.
  intros Ht. pose proof (rs_long Hrs). destruct (engines_wait t Ht). destruct t as [|[|t]]; [lia..|].
  destruct (no_pulse (S t)), (no_pulse_reg t). pose proof (no_start_r (S t)). by split.
Qed.

Lemma reset_loads t : (2 <= t)%nat -> loading (reg t).
Proof.
  intros Ht. pose proof (rs_long Hrs). induction Ht as [|t Ht IH].
  - rewrite !reset_S. apply reset_loading, (rs_low Hrs). lia.
  - rewrite reset_S. by apply loading_S.
Qed.

(** The parameters at the bank stay during reset, and are later what reset had
    for the channel, or not for this channel. *)
Record same_bank : Prop := {
  sb_reset : forall k, (k < n1)%nat -> bank (env k) = P;
  sb_channel : forall k, (n1 <= k)%nat -> hbm_channel (env k) = i -> bank (env k) = reset_params P i;
}.
Section SameBank.
Context (Hsb : same_bank).

Lemma reset_lo t : (t < n1)%nat -> holds B (reset_params P i) i (lt_params_lo (reg (S t))).
Proof.
  intros Ht. rewrite reset_S. cbn [ch_step lt_params_lo]. unfold params_lo.
  rewrite (rs_low Hrs), (sb_reset Hsb) by done. apply compose_holds.
Qed.

Lemma reset_hi t : (S t < n1)%nat -> holds B (reset_params P i) i (lt_params_hi (reg (S (S t)))).
Proof.
  intros Ht. rewrite reset_S. cbn [ch_step lt_params_hi]. unfold params_hi.
  rewrite (rs_low Hrs) by done. cbn [negb orb]. apply reset_lo. lia.
Qed.

Lemma reset_vectors t : (n1 <= t)%nat -> vectors B (reset_params P i) i (reg t).
Proof.
  intros Ht. pose proof (rs_long Hrs). induction Ht as [|t Ht IH].
  - destruct n1 as [|[|[|n]]] eqn:En; [lia..|]. split.
    + apply reset_lo. lia.
    + apply reset_hi. lia.
    + rewrite reset_S. apply reset_lo. lia.
    + rewrite reset_S. apply reset_hi. lia.
  - rewrite reset_S. apply vectors_S; [by apply Hrs| |done].
    by apply Hsb.
Qed.
End SameBank.

(** The selected channel takes what the bank has from cycle [n2] on. *)
Lemma selected_vectors n2 t :
  (n1 <= n2)%nat -> (forall k, (n2 <= k)%nat -> hbm_channel (env k) = i /\ bank (env k) = P) ->
  (n2 + 4 <= t)%nat -> vectors B P i (reg t).
Proof.
  intros Hn Hsel Ht.
  assert (Hlo : forall t, (n2 < t)%nat -> holds B P i (lt_params_lo (reg t))).
  { intros [|u] Hu; [lia|]. rewrite reset_S. cbn [ch_step lt_params_lo]. unfold params_lo.
    destruct (Hsel u ltac:(lia)) as [-> ->]. rewrite (rs_high Hrs), Z.eqb_refl by lia. apply compose_holds. }
  assert (Hhi : forall t, (n2 + 1 < t)%nat -> holds B P i (lt_params_hi (reg t))).
  { intros [|u] Hu; [lia|]. rewrite reset_S. cbn [ch_step lt_params_hi]. unfold params_hi.
    destruct (Hsel u ltac:(lia)) as [-> _]. rewrite Z.eqb_refl, orb_true_r. apply Hlo. lia. }
  destruct t as [|u]; [lia|]. split; [apply Hlo; lia|apply Hhi; lia|..]; rewrite reset_S; cbn [ch_step
    lt_params_reg_lo lt_params_reg_hi]; [apply Hlo|apply Hhi]; lia.
Qed.
End Channel.

(** ** The register bank in reset *)

Section Bank.
Context (B : design) (env : nat -> ctl_in) (r0 : ctl_reg) (m M : nat).

(** Two edges of reset at least, and no address of a write before cycle [M]. *)
Record bank_in_reset : Prop := {
  br_low : forall j, (j < m)%nat -> s_aresetn (env j) = false;
  br_high : forall j, (m <= j)%nat -> s_aresetn (env j) = true;
  br_long : (2 <= m)%nat;
  br_silent : forall j, (j < M)%nat -> s_axil_awvalid (env j) = false;
}.
Context (Hbr : bank_in_reset).

Definition boot_bank : Z -> Z := reset_bank B (control_reg r0).

Lemma bank_resets j :
  (1 <= j <= M)%nat ->
  w_cstate (ctl B env r0 j) = WIDLE /\
  (forall k, host_reg k -> control_reg (ctl B env r0 j) k = boot_bank k) /\
  ((2 <= j)%nat -> forall k, host_reg k -> shown (ctl B env r0 j) k = boot_bank k).
Proof.
  pose proof (br_long Hbr). induction j as [|j IH]; intros Hj; [lia|]. rewrite ctl_S.
  cbn [ctl_step w_cstate control_reg shown]. unfold bank_next.
  destruct (decide (j = 0)%nat) as [->|Hne].
  { rewrite (br_low Hbr) by lia. split; [done|]. split; [done|lia]. }
  destruct IH as (E1 & E2 & E3); [lia|]. unfold w_next. rewrite E1.
  destruct (decide (j < m)%nat) as [Hlt|Hge].
  - rewrite (br_low Hbr) by done. cbn [negb]. split; [done|]. split; [|by intros _].
    intros k Hk. specialize (E2 k Hk). unfold boot_bank, reset_bank in *. rewrite E2.
    destruct (k =? 1), (k =? 2), (k =? 3), ((0 <=? k) && (k <=? 11)); try done.
    by destruct (match B with u280_hbm => false | u280_ddr => k =? 17 end).
  - rewrite (br_high Hbr), (br_silent Hbr) by lia. cbn. split; [done|]. split; [|by intros _].
    intros k Hk. rewrite status_host by done. by apply E2.
Qed.

(** Its outputs before its second edge, when it holds zeros. *)
Lemma bank_before j k :
  (j <= 1)%nat -> shown r0 k = 0 -> control_reg r0 k = 0 -> shown (ctl B env r0 j) k = 0.
Proof. intros Hj Hs Hc. destruct j as [|[|j]]; [done|done|lia]. Qed.

Lemma zero_outputs :
  staged B (fun _ => 0) = LtParams 0 0 0 0 0 false /\ out_hbm_channel (fun _ => 0) = 0 /\
  out_start (fun _ => 0) = false.
Proof. by destruct B. Qed.

Lemma boot_outputs :
  staged B boot_bank = LtParams 0x10000000 0x40 0x1000 0 0 false /\ out_hbm_channel boot_bank = 0 /\
  out_start boot_bank = false /\ Z.odd (boot_bank 0) = false.
Proof. unfold boot_bank. by destruct B. Qed.
End Bank.

(** ** The top level *)

Section PowerUp.
Context (B : design) (bus : clock) (mem : Z -> clock) (env : nat -> sys_in) (s0 : sys).
Context (Xb Xs : nat) (early : Z -> bool) (Xl : Z -> nat).

(** When the bank shows its defaults: after two edges of the bus. *)
Definition defaults_from : nat := S (edge_at bus 1).
Abbreviation T := defaults_from.

(** The registers of the bank as the FPGA clears them at configuration. *)
Definition cleared : Prop :=
  forall k, host_reg k -> shown (xdma_control s0) k = 0 /\ control_reg (xdma_control s0) k = 0.

(** The bus is in reset before time [Xb], for two edges at least; channel [c] is
    locked from time [Xl c] on.  The two come in any order: a lock is late, when it
    leaves the channel three edges of its clock with the defaults of the bank, or
    early, when it comes before the bank has them, three edges of the channel after
    configuration; then the bank has kept the zeros of the configuration.  At [Xs]
    the resets are over, every channel has seen four edges since, and the host has
    not started a write. *)
Record powers_up : Prop := {
  pu_reset : forall x, s_aresetn (host (env x)) = (Xb <=? x)%nat;
  pu_bus : (2 <= edges bus Xb)%nat;
  pu_locked : forall x c, locked (env x) c = (Xl c <=? x)%nat;
  pu_late : forall c, 0 <= c < n_mem_intf B -> early c = false ->
    (edges (mem c) T + 3 <= edges (mem c) (Xl c))%nat;
  pu_early : forall c, 0 <= c < n_mem_intf B -> early c = true ->
    (Xl c <= T)%nat /\ (3 <= edges (mem c) (Xl c))%nat /\ cleared;
  pu_released : (Xb <= Xs)%nat /\ forall c, (Xl c <= Xs)%nat;
  pu_settled : forall c, 0 <= c < n_mem_intf B ->
    (edges (mem c) (Nat.max T (Xl c)) + 4 <= edges (mem c) Xs)%nat;
  pu_silent : forall x, (x < Xs)%nat -> s_axil_awvalid (host (env x)) = false;
  pu_clocks : forall c, 0 <= c < n_mem_intf B -> keeps_up bus (mem c);
}.
Context (Hpu : powers_up).

Abbreviation regs := (ctl B (bus_env B bus mem env s0) (xdma_control s0)).
Abbreviation boot := (boot_bank B (xdma_control s0)).

Lemma defaults_before : (T <= Xb)%nat.
Proof. apply (proj2 (edges_spec bus Xb)). pose proof (pu_bus Hpu). lia. Qed.

Lemma bank_powers_up : bank_in_reset (bus_env B bus mem env s0) (edges bus Xb) (edges bus Xs).
Proof.
  destruct (edges_spec bus Xb) as [Hb1 Hb2], (edges_spec bus Xs) as [_ Hs2].
  split; [| |apply Hpu|]; intros j Hj; unfold bus_env; cbn [with_status s_aresetn s_axil_awvalid].
  - rewrite (pu_reset Hpu). apply Nat.leb_gt. by apply Hb2.
  - rewrite (pu_reset Hpu). apply Nat.leb_le. pose proof (edge_at_mono bus _ _ Hj). lia.
  - apply (pu_silent Hpu). by apply Hs2.
Qed.

(** From the second edge of the bus on, until the first write. *)
Lemma bank_booted x :
  (T <= x <= Xs)%nat ->
  w_cstate (xdma_control (system B bus mem env s0 x)) = WIDLE /\
  (forall k, host_reg k -> control_reg (xdma_control (system B bus mem env s0 x)) k = boot k) /\
  (forall k, host_reg k -> shown (xdma_control (system B bus mem env s0 x)) k = boot k).
Proof.
  intros Hx. rewrite bus_run.
  pose proof (edges_mono bus T x ltac:(lia)) as M1. pose proof (edges_mono bus x Xs ltac:(lia)) as M2.
  assert (E : edges bus T = 2%nat) by (unfold T; by rewrite edges_S, ticks_at, edges_at).
  destruct (bank_resets B _ (xdma_control s0) _ _ bank_powers_up (edges bus x)) as (H1 & H2 & H3); [lia|].
  split; [done|]. split; [done|]. apply H3. lia.
Qed.

Abbreviation defaults := (LtParams 0x10000000 0x40 0x1000 0 0 false).
Abbreviation zeros := (LtParams 0 0 0 0 0 false).

(** What the bank shows, before and after. *)
Lemma outputs_booted x :
  (T <= x <= Xs)%nat ->
  let r := shown (xdma_control (system B bus mem env s0 x)) in
  staged B r = defaults /\ out_hbm_channel r = 0 /\ out_start r = false /\ Z.odd (r 0) = false.
Proof.
  intros Hx r. destruct (bank_booted x Hx) as (_ & _ & H).
  destruct (outputs_agree B r boot H) as (-> & -> & _ & _ & -> & ->). apply boot_outputs.
Qed.

Lemma outputs_cleared x :
  (x < T)%nat -> cleared ->
  let r := shown (xdma_control (system B bus mem env s0 x)) in
  staged B r = zeros /\ out_hbm_channel r = 0 /\ out_start r = false /\ Z.odd (r 0) = false.
Proof.
  intros Hx Hz r. assert (Hj : (edges bus x <= 1)%nat).
  { pose proof (edges_mono bus x (edge_at bus 1) ltac:(unfold T in Hx; lia)) as M. by rewrite edges_at in M. }
  assert (H : forall k, host_reg k -> r k = 0).
  { intros k Hk. unfold r. rewrite bus_run. by apply bank_before; [|apply Hz..]. }
  destruct (outputs_agree B r (fun _ => 0) H) as (-> & -> & _ & _ & -> & ->).
  destruct (zero_outputs B) as (-> & -> & ->). done.
Qed.

(** A channel until then. *)
Section OneChannel.
Context (c : Z) (Hc : 0 <= c < n_mem_intf B).

(** The edge from which on it is described, with the parameters of its reset. *)
Definition from_edge : nat := if early c then 0%nat else edges (mem c) T.
Definition reset_with : BenchControl.lt_params := if early c then zeros else defaults.

(** What it sees, with nothing changing any more after [Xs]. *)
Definition settling_env (k : nat) : ch_in :=
  ch_env B bus mem env s0 c (Nat.min (from_edge + k) (edges (mem c) Xs - 1)).

Lemma from_edge_spec :
  (from_edge + 3 <= edges (mem c) (Xl c))%nat /\ (from_edge <= edges (mem c) T)%nat /\
  (edges (mem c) (Xl c) + 4 <= edges (mem c) Xs)%nat /\ (edges (mem c) T + 4 <= edges (mem c) Xs)%nat.
Proof.
  pose proof (pu_settled Hpu c Hc). pose proof (edges_mono (mem c) T (Nat.max T (Xl c)) ltac:(lia)).
  pose proof (edges_mono (mem c) (Xl c) (Nat.max T (Xl c)) ltac:(lia)). unfold from_edge.
  destruct (early c) eqn:E; [pose proof (pu_early Hpu c Hc E)|pose proof (pu_late Hpu c Hc E)]; lia.
Qed.

Lemma settling_time k : (edge_at (mem c) (Nat.min (from_edge + k) (edges (mem c) Xs - 1)) <= Xs)%nat.
Proof.
  pose proof from_edge_spec.
  pose proof (proj2 (edges_spec (mem c) Xs) (Nat.min (from_edge + k) (edges (mem c) Xs - 1)) ltac:(lia)). lia.
Qed.

Lemma defaults_seen k :
  (edges (mem c) T <= from_edge + k)%nat -> (T <= edge_at (mem c) (Nat.min (from_edge + k) (edges (mem c) Xs - 1)))%nat.
Proof.
  intros Hk. pose proof from_edge_spec. pose proof (proj1 (edges_spec (mem c) T)).
  pose proof (edge_at_mono (mem c) (edges (mem c) T) (Nat.min (from_edge + k) (edges (mem c) Xs - 1)) ltac:(lia)). lia.
Qed.

(** No start, no reset by the host, and channel 0 is selected. *)
Lemma settling_outputs k :
  let x := edge_at (mem c) (Nat.min (from_edge + k) (edges (mem c) Xs - 1)) in
  let r := shown (xdma_control (system B bus mem env s0 x)) in
  staged B r = (if (x <? T)%nat then zeros else defaults) /\
  out_hbm_channel r = 0 /\ out_start r = false /\ Z.odd (r 0) = false.
Proof.
  intros x r. pose proof (settling_time k) as Hx. fold x in Hx. destruct (Nat.ltb_spec x T) as [Hlt|Hge].
  - apply outputs_cleared; [done|]. destruct (early c) eqn:E; [apply (pu_early Hpu c Hc E)|].
    exfalso. pose proof (defaults_seen k) as Hd. unfold from_edge in Hd at 1. rewrite E in Hd.
    specialize (Hd ltac:(lia)). fold x in Hd. lia.
  - apply outputs_booted. lia.
Qed.

Lemma settling : in_reset settling_env (edges (mem c) (Xl c) - from_edge).
Proof.
  pose proof from_edge_spec as Hf. destruct (edges_spec (mem c) (Xl c)) as [Hl1 Hl2].
  split; [| |lia|]; intros k; destruct (settling_outputs k) as (_ & _ & E3 & E4); cbv zeta in *;
    unfold settling_env, ch_env, ch_input; cbn [arstn start_in]; unfold hbm_reset, AxiLite.start.
  - intros Hk. rewrite (pu_locked Hpu), (proj2 (Nat.leb_gt _ _)); [done|]. apply Hl2. lia.
  - intros Hk. rewrite E4, (pu_locked Hpu), (proj2 (Nat.leb_le _ _)); [done|].
    pose proof (edge_at_mono (mem c) (edges (mem c) (Xl c)) (Nat.min (from_edge + k) (edges (mem c) Xs - 1)) ltac:(lia)). lia.
  - exact E3.
Qed.

(** The parameters it has in the end: the defaults, unless it was locked early and
    is not selected. *)
Definition settled_with : BenchControl.lt_params := if early c && negb (c =? 0) then zeros else defaults.

Lemma settling_vectors r1 t :
  (edges (mem c) Xs - from_edge <= t)%nat ->
  vectors B (reset_params settled_with c) c (ch B c settling_env r1 t).
Proof.
  intros Ht. pose proof from_edge_spec as Hf. unfold settled_with.
  assert (Hbank : forall k, bank (settling_env k) = _ /\ hbm_channel (settling_env k) = 0)
    by (intros k; destruct (settling_outputs k) as (E1 & E2 & _); exact (conj E1 E2)). cbv zeta in Hbank.
  destruct (early c) eqn:Ee; cbn [andb].
  - destruct (Z.eqb_spec c 0) as [E0|Hne]; cbn [negb].
    + replace (reset_params defaults c) with defaults by by rewrite E0.
      apply (selected_vectors B c defaults settling_env r1 _ settling (edges (mem c) T - from_edge)); [|intros k Hk|].
      * destruct (pu_early Hpu c Hc Ee) as (Hle & _). pose proof (edges_mono (mem c) _ _ Hle). lia.
      * destruct (Hbank k) as [-> ->]. split; [done|].
        by rewrite (proj2 (Nat.ltb_ge _ _)) by (apply defaults_seen; lia).
      * lia.
    + apply (reset_vectors B c zeros settling_env r1 _ settling); [split; intros k Hk|lia].
      * destruct (Hbank k) as [-> _]. rewrite (proj2 (Nat.ltb_lt _ _)); [done|].
        destruct (pu_early Hpu c Hc Ee) as (Hle & _).
        pose proof (proj2 (edges_spec (mem c) (Xl c)) (Nat.min (from_edge + k) (edges (mem c) Xs - 1)) ltac:(lia)). lia.
      * destruct (Hbank k) as [_ ->]. by intros <-.
  - assert (Hd : forall k, bank (settling_env k) = defaults).
    { intros k. destruct (Hbank k) as [-> _]. rewrite (proj2 (Nat.ltb_ge _ _)); [done|].
      apply defaults_seen. unfold from_edge. rewrite Ee. lia. }
    apply (reset_vectors B c defaults settling_env r1 _ settling); [split; intros k _; [done|]|lia].
    destruct (Hbank k) as [_ ->]. rewrite Hd. by intros <-.
Qed.

Lemma channel_settled :
  let r := channels (system B bus mem env s0 Xs) c in
  idle r /\ loading r /\ vectors B (reset_params settled_with c) c r.
Proof.
  cbv zeta. pose proof from_edge_spec as Hf.
  set (r1 := ch B c (ch_env B bus mem env s0 c) (channels s0 c) from_edge).
  assert (E : channels (system B bus mem env s0 Xs) c = ch B c settling_env r1 (edges (mem c) Xs - from_edge)).
  { rewrite channel_run. unfold r1. assert (Hd : forall d, (from_edge + d <= edges (mem c) Xs)%nat ->
      ch B c (ch_env B bus mem env s0 c) (channels s0 c) (from_edge + d) =
        ch B c settling_env (ch B c (ch_env B bus mem env s0 c) (channels s0 c) from_edge) d).
    { induction d as [|d IH]; intros Hd; [by rewrite Nat.add_0_r|].
      rewrite Nat.add_succ_r, !ch_S, IH by lia. unfold settling_env. by rewrite Nat.min_l by lia. }
    rewrite <- Hd by lia. f_equal. lia. }
  rewrite E. split; [|split].
  - apply (reset_idle B c _ _ _ settling). lia.
  - apply (reset_loads B c _ _ _ settling). lia.
  - by apply settling_vectors.
Qed.
End OneChannel.
End PowerUp.

(** ** The run from there on *)

Lemma system_later B bus mem env s0 X x :
  system B (later bus X) (fun c => later (mem c) X) (fun x => env (X + x)%nat)
    (system B bus mem env s0 X) x = system B bus mem env s0 (X + x).
Proof.
  unfold system. induction x as [|x IH]; [by rewrite Nat.add_0_r|].
  rewrite Nat.add_succ_r. cbn [at_cycle]. rewrite IH. unfold sys_step.
  rewrite !later_ticks. f_equal; apply functional_extensionality; intros c; by rewrite later_ticks.
Qed.

(** The state of [BenchControl] in a board that has come up: the registers as they
    are, no engine started, and in every channel the parameters of its reset: those
    of the registers, but zeros when the channel was locked early, and has not
    been selected since. *)
Definition booted (B : design) (early : Z -> bool) (s : sys) : bench :=
  let r := control_reg (xdma_control s) in
  Bench r (fun c => reset_params
    (if early c && negb (c =? 0) then LtParams 0 0 0 0 0 false else staged B r) c) [].

(** C16: power-up.  From every content of the registers, and with nothing assumed of
    the engines, the resets bring the board to operation, when the reset of the bus
    has lasted two of its edges and each memory's three of its own, and the host
    has not written yet.  The lock of a memory may come after the bank has its
    defaults, with the reset of the bus over or not, or before that, when the bank
    still has the zeros of the configuration (not in the three edges between).  The
    board is then a state from which [BenchControl] describes it, with the default
    parameters in the registers, and in every channel but those of an early lock,
    and with no engine started; the hardware goes on from there as one run.  (The
    host does not write the bit that resets the memories.) *)
Theorem resets_lead_to_operation B bus mem env s0 Xb Xs early Xl :
  powers_up B bus mem env s0 Xb Xs early Xl ->
  let s := system B bus mem env s0 Xs in
  let bus' := later bus Xs in
  let mem' c := later (mem c) Xs in
  let env' x := env (Xs + x)%nat in
  let b := booted B early s in
  (forall j, Z.odd (dma_control_reg (bank_at B bus' mem' env' s b j) 0) = false) ->
  operating B bus' mem' env' s b /\
  staged B (dma_control_reg b) = LtParams 0x10000000 0x40 0x1000 0 0 false /\
  (forall c, early c = false \/ c = 0 ->
     params b c = LtParams 0x10000000 0x40 0x1000 0 (0x10000000 * c) false) /\
  engines_started b = [] /\
  forall x, system B bus' mem' env' s x = system B bus mem env s0 (Xs + x).
Proof.
  intros Hpu. cbv zeta. intros Hno. set (s := system B bus mem env s0 Xs) in *.
  pose proof (defaults_before B bus mem env s0 Xb Xs early Xl Hpu) as Hle.
  destruct (pu_released _ _ _ _ _ _ _ _ _ Hpu) as [Hb Hl].
  destruct (bank_booted B bus mem env s0 Xb Xs early Xl Hpu Xs ltac:(lia)) as (H1 & H2 & H3).
  fold s in H1, H2, H3. set (boot := boot_bank B (xdma_control s0)) in *.
  destruct (outputs_agree B (control_reg (xdma_control s)) boot H2) as (O1 & O2 & _ & _ & O5 & _).
  destruct (boot_outputs B (xdma_control s0)) as (B1 & B2 & B3 & _).
  fold boot in B1, B2, B3. rewrite B1 in O1. rewrite B2 in O2. rewrite B3 in O5.
  split; [|split; [exact O1|split; [|split; [done|intros x; apply system_later]]]].
  - split; cbn [booted dma_control_reg params]; [| |exact Hno| |exact H1|done| |exact O5| |].
    + intros x. rewrite (pu_reset _ _ _ _ _ _ _ _ _ Hpu). apply Nat.leb_le. lia.
    + intros x c. rewrite (pu_locked _ _ _ _ _ _ _ _ _ Hpu). apply Nat.leb_le. specialize (Hl c). lia.
    + intros c Hc. apply later_keeps_up. by apply (pu_clocks _ _ _ _ _ _ _ _ _ Hpu).
    + intros k Hk. by rewrite H3, H2.
    + intros i Hi. cbn [booted dma_control_reg params]. rewrite O1, O2. intros <-. by rewrite andb_false_r.
    + intros c Hc. rewrite O1. apply (channel_settled B bus mem env s0 Xb Xs early Xl Hpu c Hc).
  - intros c Hc. cbn [booted params]. rewrite O1.
    assert (E : early c && negb (c =? 0) = false) by (destruct Hc as [->| ->]; [done|apply andb_false_r]).
    by rewrite E.
Qed.
