(* ===== verification/HostSystem.v ===== *)
(** * The host program on the hardware

    The register writes of the test programs ([HbmTest]), put on the bus of the
    top level ([System]) in their order and at any speed: the hardware starts, ends
    and shows what the programs wait for. *)

From Stdlib Require Import Ascii String.
From stdpp Require Import base gmap list strings numbers option.
From S2P Require Import Prelude Clock ClockDomains.
From S2P Require Import RdEngine.
From S2P Require Import WrEngine.
From S2P Require Import Channel.
From S2P Require Import AxiLite.
From S2P Require Import BenchControl.
From S2P Require Import Crossing.
From S2P Require Import System.
From S2P Require Import SystemTheorems.
From S2P Require Import SamplePath.
From S2P Require Import EngineParams.
From S2P Require Import FpgaController.
From S2P Require Import HbmTest.
Open Scope Z_scope.

(** ** Writes by register number and by address *)

Definition on_bus (ws : list (Z * Z)) : list (Z * Z) := (fun w => (4 * w.1, w.2)) <$> ws.

Lemma on_bus_hw B ws b : hw_requests B (on_bus ws) b = hw_writes B ws b.
Proof. revert b. induction ws as [|w ws IH]; intros b; [done|]. cbn. by apply IH. Qed.

(** ** The states of the bank along the program *)

Definition no_start (w : Z * Z) : Prop := 0 <= w.1 <= 10.

Lemma no_start_hw B ws b :
  Forall no_start ws -> out_start (dma_control_reg b) = false ->
  out_start (dma_control_reg (hw_writes B ws b)) = false.
Proof.
  intros Hws. revert b. induction Hws as [|w ws Hw _ IH]; intros b Hb; [done|].
  cbn [hw_writes fold_left]. apply IH. unfold no_start in Hw. rewrite hw_write_reg by lia.
  cbv zeta. cbn [dma_control_reg]. unfold out_start, write_reg.
  by rewrite (proj2 (Z.eqb_neq 11 w.1)) by lia.
Qed.

Lemma plain_no_start ws : Forall plain ws -> Forall no_start ws.
Proof. apply Forall_impl. unfold plain, no_start. lia. Qed.

Lemma arm_no_start B st :
  wf_settings st -> Forall no_start (arm_writes B st).
Proof.
  intros Hw. unfold arm_writes, setup_writes. apply Forall_app_2.
  - apply Forall_flat_map, Forall_forall. intros i _. constructor; [done|].
    apply plain_no_start, (config_plain st i).
  - constructor; [done|]. apply plain_no_start, run_plain.
Qed.

Lemma program_split B st :
  wf_settings st ->
  program_writes B st = arm_writes B st ++ [(11, 1); (11, 0); (10, latency_channel st)].
Proof.
  intros Hw. unfold program_writes, arm_writes. rewrite (run_of_split st Hw), <- !app_assoc. done.
Qed.

(** The registers of the program: not the first one, which has the reset bit. *)
Lemma config_small st i : Forall (fun w => 0 < w.1 < 64) (config_of st i).
Proof. unfold config_of, config_writes. repeat (constructor; [done|]). constructor. Qed.
Lemma run_small st : Forall (fun w => 0 < w.1 < 64) (run_of st).
Proof. unfold run_of, run_writes. repeat (constructor; [done|]). constructor. Qed.

Lemma program_small B st : Forall (fun w => 0 < w.1 < 64) (program_writes B st).
Proof.
  unfold program_writes, setup_writes. apply Forall_app_2.
  - induction (seqZ 0 (n_mem_intf B)) as [|i l IH]; [constructor|]. cbn [flat_map].
    apply Forall_app_2; [apply config_small|done].
  - apply Forall_app_2; [apply run_small|]. by repeat constructor.
Qed.

(** Selecting channels changes no other register. *)
Lemma selects_keep B ws b k :
  selects ws -> k <> 10 -> dma_control_reg (hw_writes B ws b) k = dma_control_reg b k.
Proof.
  intros Hs Hk. revert b. induction Hs as [|[j v] ws Hj _ IH]; intros b; [done|]. cbn in Hj. subst j.
  etransitivity; [apply IH|]. cbn [fst snd]. rewrite hw_write_reg by lia. cbv zeta. cbn [dma_control_reg]. unfold write_reg. by rewrite (proj2 (Z.eqb_neq k 10)).
Qed.

(** After the start the masks stay; with the start the parameters are there. *)
Lemma after_start B st b sel k :
  wf_settings st -> latency_channel st < n_mem_intf B -> out_start (dma_control_reg b) = false ->
  selects sel ->
  let b' := hw_writes B (take (S k) ((11, 1) :: (11, 0) :: sel)) (hw_writes B (arm_writes B st) b) in
  dma_control_reg b' 7 = write_enable st /\ dma_control_reg b' 8 = read_enable st /\
  out_start (dma_control_reg b') = (k =? 0)%nat /\
  (k = 0%nat -> forall i, 0 <= i < n_mem_intf B -> params b' i = params_of B (dma_control_reg b 17) st i).
Proof.
  intros Hw Hlt Hs Hsel. destruct (arm_hw B st b Hw Hlt Hs) as (_ & Hst & Hc & Hlc & H7 & H8 & Hp).
  cbv zeta. set (bA := hw_writes B (arm_writes B st) b) in *. destruct k as [|k].
  - cbn [take hw_writes fold_left fst snd]. change (4 * 11) with 44.
    split; [exact H7|]. split; [exact H8|]. split; [done|]. intros _ i Hi. rewrite <- Hp by done.
    apply write_rise; [|done|done|done]. intros c Hc' E. rewrite Hc in E. by subst c.
  - change (take (S (S k)) ((11, 1) :: (11, 0) :: sel)) with ([(11, 1); (11, 0)] ++ take k sel).
    rewrite hw_writes_app. unfold out_start. pose proof (Forall_take _ k _ Hsel) as Hk.
    rewrite (selects_keep B _ _ 7 Hk), (selects_keep B _ _ 8 Hk), (selects_keep B _ _ 11 Hk) by done.
    split; [exact H7|]. split; [exact H8|]. by split.
Qed.

(** ** The program on the bus *)

Section Program.
Context (B : design) (bus : clock) (mem : Z -> clock) (env : nat -> sys_in) (s0 : sys) (b0 : bench).
Context (ws : list (Z * Z)).

Abbreviation wrote := (host_requests B bus mem env s0).
Abbreviation bank := (bank_at B bus mem env s0 b0).
Abbreviation program := (on_bus ws).

(** The words on the bus are the writes [ws], in their order and at any distance,
    and in the end all of them. *)
Record drives : Prop := {
  dr_prefix : forall j, exists m, wrote j = take m program;
  dr_all : exists j, wrote j = program;
}.

Context (Hop : operating B bus mem env s0 b0) (Hdr : drives).

Lemma wrote_length j : wrote j = take (length (wrote j)) program.
Proof.
  destruct (dr_prefix Hdr j) as (m & E). rewrite E at 1. rewrite E at 1. rewrite length_take.
  destruct (decide (m <= length program)%nat); [by rewrite Nat.min_l|].
  by rewrite Nat.min_r, !take_ge by lia.
Qed.

Lemma wrote_0 : wrote 0 = [].
Proof. done. Qed.

Lemma wrote_length_S j :
  length (wrote (S j)) = length (wrote j) \/ length (wrote (S j)) = S (length (wrote j)).
Proof.
  destruct (requests_next B bus mem env s0 b0 Hop j) as [->|(a & d & -> & _)]; [by left|right].
  rewrite length_app. cbn. lia.
Qed.

Lemma wrote_length_mono i j : (i <= j)%nat -> (length (wrote i) <= length (wrote j))%nat.
Proof. induction 1 as [|j _ IH]; [lia|]. pose proof (wrote_length_S j). lia. Qed.

Lemma wrote_length_max j : (length (wrote j) <= length program)%nat.
Proof. rewrite wrote_length, length_take. lia. Qed.

Lemma wrote_all : exists J, forall j, (J <= j)%nat -> wrote j = program.
Proof.
  destruct (dr_all Hdr) as (J & HJ). exists J. intros j Hj. rewrite wrote_length. apply take_ge.
  rewrite <- HJ at 1. by apply wrote_length_mono.
Qed.

(** The cycle in which a given write comes. *)
Lemma write_comes n :
  (n < length program)%nat -> exists j, length (wrote j) = n /\ length (wrote (S j)) = S n.
Proof.
  intros Hn. destruct (dr_all Hdr) as (J & HJ). apply (f_equal length) in HJ.
  revert HJ Hn. generalize (length program). intros L.
  induction J as [|J IH] in L |- *; intros HJ Hn; [rewrite wrote_0 in HJ; cbn in HJ; lia|].
  destruct (wrote_length_S J) as [E|E]; [apply (IH L); lia|].
  destruct (decide (n = length (wrote J))) as [->|Hne]; [by exists J|].
  apply (IH (length (wrote J))); lia.
Qed.

(** When everything has been written, nothing more comes. *)
Lemma program_polls : only_polls B bus mem env s0.
Proof.
  destruct (dr_all Hdr) as (J & HJ). exists J. intros j Hj.
  destruct (w_taken B (bus_env B bus mem env s0) (xdma_control s0) j) eqn:Ew; [|done].
  destruct (requests_taken B (bus_env B bus mem env s0) (xdma_control s0)
    (bus_reset B bus mem env s0 b0 Hop) (op_idle _ _ _ _ _ _ Hop) j Ew) as (a & E).
  apply (f_equal length) in E, HJ. rewrite length_app in E. cbn [length] in E.
  change (requests B (bus_env B bus mem env s0) (xdma_control s0)) with wrote in E.
  pose proof (wrote_length_mono J j Hj). pose proof (wrote_length_max (S j)). lia.
Qed.

(** The bank in a cycle in which some writes have come and are shown. *)
Lemma bank_writes j : bank j = hw_writes B (take (length (wrote (j - 2))) ws) b0.
Proof.
  unfold bank_at. rewrite wrote_length at 1. unfold on_bus. rewrite <- fmap_take. apply on_bus_hw.
Qed.
End Program.

(** *** The test program, and channels selected after it *)

Section Test.
Context (B : design) (bus : clock) (mem : Z -> clock) (env : nat -> sys_in) (s0 : sys) (b0 : bench).
Context (st : settings) (later : list (Z * Z)) (Hlater : selects later).

Abbreviation wrote := (host_requests B bus mem env s0).
Abbreviation bank := (bank_at B bus mem env s0 b0).
Abbreviation ws := (program_writes B st ++ later).
Abbreviation sel := ((10, latency_channel st) :: later).
Abbreviation armed_writes := (length (arm_writes B st)).

Context (Hop : operating B bus mem env s0 b0) (Hdr : drives B bus mem env s0 ws).
Context (Hwf : wf_settings st) (Hlt : latency_channel st < n_mem_intf B).

Lemma test_split : ws = arm_writes B st ++ (11, 1) :: (11, 0) :: sel.
Proof. by rewrite program_split, <- app_assoc. Qed.

Lemma test_length : length (on_bus ws) = (armed_writes + (3 + length later))%nat.
Proof. unfold on_bus. by rewrite length_fmap, test_split, length_app. Qed.

Lemma bank_arming j :
  (length (wrote (j - 2)) <= armed_writes)%nat -> out_start (dma_control_reg (bank j)) = false.
Proof.
  intros Hj. rewrite (bank_writes B bus mem env s0 b0 ws Hdr), test_split, take_app_le by done.
  apply no_start_hw; [|apply Hop]. by apply Forall_take, arm_no_start.
Qed.

Lemma bank_running j n :
  length (wrote (j - 2)) = (armed_writes + S n)%nat ->
  dma_control_reg (bank j) 7 = write_enable st /\ dma_control_reg (bank j) 8 = read_enable st /\
  out_start (dma_control_reg (bank j)) = (n =? 0)%nat /\
  (n = 0%nat -> forall i, 0 <= i < n_mem_intf B ->
     params (bank j) i = params_of B (dma_control_reg b0 17) st i).
Proof.
  intros Hj. rewrite (bank_writes B bus mem env s0 b0 ws Hdr), test_split, Hj, take_app_ge by lia.
  replace (armed_writes + S n - armed_writes)%nat with (S n) by lia. rewrite hw_writes_app.
  apply after_start; [done|done|apply Hop|by constructor].
Qed.

(** The first start is the write after the arming. *)
Lemma program_starts :
  write_enable st < 2 ^ n_mem_intf B -> read_enable st < 2 ^ n_mem_intf B ->
  exists j0, first_start B bus mem env s0 b0 j0 (write_enable st) (read_enable st)
               (params_of B (dma_control_reg b0 17) st).
Proof.
  intros Hwe Hre. pose proof (wrote_length_mono B bus mem env s0 b0 Hop) as Hmono.
  destruct (write_comes B bus mem env s0 b0 ws Hop Hdr armed_writes) as (j1 & E1 & E2);
    [rewrite test_length; lia|].
  assert (Hlow : forall j, (j <= 2 + j1)%nat -> (length (wrote (j - 2)) <= armed_writes)%nat).
  { intros j Hj. rewrite <- E1. apply Hmono. lia. }
  assert (Hhigh : forall j, (2 + j1 < j)%nat -> exists n, length (wrote (j - 2)) = (armed_writes + S n)%nat).
  { intros j Hj. specialize (Hmono (S j1) (j - 2)%nat ltac:(lia)).
    exists (length (wrote (j - 2)) - S armed_writes)%nat. lia. }
  assert (Hmask : 0 <= write_enable st /\ 0 <= read_enable st) by (split; apply Hwf).
  assert (Hfirst : length (wrote (S (2 + j1) - 2)) = (armed_writes + 1)%nat).
  { replace (S (2 + j1) - 2)%nat with (S j1) by lia. lia. }
  exists (2 + j1)%nat. split.
  - intros j Hj. by apply bank_arming, Hlow.
  - by destruct (bank_running _ _ Hfirst) as (_ & _ & -> & _).
  - intros j Hj. destruct (Hhigh j Hj) as (n & En), (Hhigh (S j) ltac:(lia)) as (m & Em).
    destruct (bank_running _ _ En) as (_ & _ & -> & _), (bank_running _ _ Em) as (_ & _ & -> & _).
    rewrite !Nat.eqb_eq. specialize (Hmono (j - 2)%nat (S j - 2)%nat ltac:(lia)). lia.
  - destruct (bank_running _ _ Hfirst) as (_ & _ & _ & H). by apply H.
  - intros j Hj. destruct (Hhigh j Hj) as (n & En), (bank_running _ _ En) as (H7 & _).
    unfold out_write_enable. rewrite H7. apply Z.mod_small. lia.
  - intros j Hj. destruct (Hhigh j Hj) as (n & En), (bank_running _ _ En) as (_ & H8 & _).
    unfold out_read_enable. rewrite H8. apply Z.mod_small. lia.
Qed.
End Test.

Lemma program_selects B bus mem env s0 b0 st :
  operating B bus mem env s0 b0 -> drives B bus mem env s0 (program_writes B st) ->
  wf_settings st -> keeps_selected B bus mem env s0 b0 (latency_channel st).
Proof.
  intros Hop Hdr Hwf.
  destruct (wrote_all B bus mem env s0 b0 _ Hop Hdr) as (J & HJ). exists (2 + J)%nat. intros j Hj.
  rewrite (bank_writes B bus mem env s0 b0 _ Hdr), HJ by lia. rewrite take_ge by (unfold on_bus; by rewrite length_fmap).
  unfold program_writes. rewrite app_assoc, hw_writes_app. cbn [hw_writes fold_left fst snd].
  pose proof (wf_channel _ Hwf). rewrite hw_write_reg by lia. unfold out_hbm_channel. cbn.
  apply Z.mod_small. change (2 ^ 8) with 256. lia.
Qed.

Lemma program_finishes B bus mem env s0 b0 st :
  let p := params_of B (dma_control_reg b0 17) st in
  let we := write_enable st in
  let re := read_enable st in
  let c := latency_channel st in
  let shows k v := exists J, forall j, (J <= j)%nat ->
    control_reg (xdma_control (system B bus mem env s0 (edge_at bus j))) k = v in
  operating B bus mem env s0 b0 -> wf_settings st -> c < n_mem_intf B ->
  we < 2 ^ n_mem_intf B -> re < 2 ^ n_mem_intf B ->
  drives B bus mem env s0 (program_writes B st) -> similar_memories B mem ->
  master B (bus_env B bus mem env s0) (xdma_control s0) ->
  (forall j0, first_start B bus mem env s0 b0 j0 we re p -> served B bus mem env s0 j0 we re p) ->
  exists j0, first_start B bus mem env s0 b0 j0 we re p /\
    let reports := reports B c (run_env B bus mem env s0 j0 c) (run_reg B bus mem env s0 j0 c) in
    shows 12 we /\ shows 13 re /\
    (Z.testbit we c = true -> exists te,
       reports end_wr_o (fun r => WrEngine.lat_timer_sum (inst_wr_engine r)) te /\
       shows 14 (trunc 32 (Z.of_nat te - 6))) /\
    (Z.testbit re c = true -> exists te,
       reports end_rd_o (fun r => RdEngine.lat_timer_sum (inst_rd_engine r)) te /\
       shows 15 (trunc 32 (Z.of_nat te - 6))).
Proof.
  cbv zeta. intros Hop Hwf Hlt Hwe Hre Hdr Hsim Hm Hsv.
  assert (Hdr' : drives B bus mem env s0 (program_writes B st ++ [])) by by rewrite app_nil_r.
  destruct (program_starts B bus mem env s0 b0 st [] (Forall_nil_2 _) Hop Hdr' Hwf Hlt Hwe Hre) as (j0 & Hfs).
  exists j0. split; [done|]. specialize (Hsv j0 Hfs).
  pose proof (program_polls B bus mem env s0 b0 _ Hop Hdr) as Hp.
  pose proof (program_selects B bus mem env s0 b0 st Hop Hdr Hwf) as Hsel.
  assert (Hc : 0 <= latency_channel st < n_mem_intf B) by (pose proof (wf_channel _ Hwf); lia).
  assert (Hshow : forall k v, (exists J, forall j, (J <= j)%nat ->
      control_reg (ctl B (bus_env B bus mem env s0) (xdma_control s0) j) k = v) ->
    exists J, forall j, (J <= j)%nat ->
      control_reg (xdma_control (system B bus mem env s0 (edge_at bus j))) k = v).
  { intros k v (J & HJ). exists J. intros j Hj. rewrite bus_run, edges_at. by apply HJ. }
  destruct (registers_end B bus mem env s0 b0 Hop j0 _ _ _ Hfs Hsim Hsv Hm Hp) as (J & HJ).
  split; [apply Hshow; exists J; intros j Hj; by apply HJ|].
  split; [apply Hshow; exists J; intros j Hj; by apply HJ|]. split; intros Hb.
  - destruct (write_timer_ends B bus mem env s0 b0 Hop j0 _ _ _ Hfs Hsim _ Hc Hsv Hb Hsel Hm Hp)
      as (te & Hte & He). exists te. split; [done|]. by apply Hshow.
  - destruct (read_timer_ends B bus mem env s0 b0 Hop j0 _ _ _ Hfs Hsim _ Hc Hsv Hb Hsel Hm Hp)
      as (te & Hte & He). exists te. split; [done|]. by apply Hshow.
Qed.

(** ** Property *)

(** C6: the host program and the hardware together.  A host that puts the
    register writes of the test program on the bus, in their order and at any
    speed, sees in the registers 12 and 13, which [wait_done] polls, exactly the
    masks that it asked for, for ever from some cycle on; and for a channel that
    takes part and is the selected one, the registers 14 and 15 come to show the
    clock cycles from the start pulse to the end of its write engine and of its
    read engine, modulo 2 ^ 32.  This holds on both designs, for all clocks of
    which a memory's is not slower than the bus ([operating]), and on the DDR the
    two memories' are similar: three periods of either span two edges of the other
    ([similar_memories]); and whenever each memory answers the enabled engines, in
    any time ([served]), and the host takes the responses on the bus ([master]). *)
Theorem host_program_finishes B bus mem env s0 b0 st :
  let p := params_of B (dma_control_reg b0 17) st in
  let we := write_enable st in
  let re := read_enable st in
  let c := latency_channel st in
  let shows k v := exists J, forall j, (J <= j)%nat ->
    control_reg (xdma_control (system B bus mem env s0 (edge_at bus j))) k = v in
  operating B bus mem env s0 b0 -> wf_settings st -> c < n_mem_intf B ->
  we < 2 ^ n_mem_intf B -> re < 2 ^ n_mem_intf B ->
  drives B bus mem env s0 (program_writes B st) -> similar_memories B mem ->
  master B (bus_env B bus mem env s0) (xdma_control s0) ->
  (forall j0, first_start B bus mem env s0 b0 j0 we re p -> served B bus mem env s0 j0 we re p) ->
  exists j0, first_start B bus mem env s0 b0 j0 we re p /\
    let reports := reports B c (run_env B bus mem env s0 j0 c) (run_reg B bus mem env s0 j0 c) in
    shows 12 we /\ shows 13 re /\
    (Z.testbit we c = true -> exists te,
       reports end_wr_o (fun r => WrEngine.lat_timer_sum (inst_wr_engine r)) te /\
       shows 14 (trunc 32 (Z.of_nat te - 6))) /\
    (Z.testbit re c = true -> exists te,
       reports end_rd_o (fun r => RdEngine.lat_timer_sum (inst_rd_engine r)) te /\
       shows 15 (trunc 32 (Z.of_nat te - 6))).
Proof. apply program_finishes. Qed.

(** ** The latency samples *)

(** The program selects the channel of the latency test before the start, and no
    other one after it. *)
Lemma program_selected B bus mem env s0 b0 st j0 we re p :
  operating B bus mem env s0 b0 -> drives B bus mem env s0 (program_writes B st) ->
  wf_settings st -> latency_channel st < n_mem_intf B -> first_start B bus mem env s0 b0 j0 we re p ->
  forall x, (edge_at bus j0 <= x)%nat -> selected (system B bus mem env s0 x) = latency_channel st.
Proof.
  intros Hop Hdr Hwf Hlt Hfs x Hx. unfold selected. rewrite bus_run.
  destruct (outputs_agree B _ _ (fun l Hl => shown_at B bus mem env s0 b0 Hop (edges bus x) l Hl)) as (_ & -> & _).
  apply edges_mono with (c := bus) in Hx. rewrite edges_at in Hx. set (j := edges bus x) in *.
  pose proof (wrote_length_mono B bus mem env s0 b0 Hop) as Hmono.
  assert (Hdr' : drives B bus mem env s0 (program_writes B st ++ [])) by by rewrite app_nil_r.
  assert (Hn : (length (arm_writes B st) <= length (host_requests B bus mem env s0 (j - 2)))%nat).
  { destruct (decide (length (host_requests B bus mem env s0 (S j0 - 2)) <= length (arm_writes B st))%nat) as [H|H].
    - pose proof (bank_arming B bus mem env s0 b0 st [] Hop Hdr' Hwf (S j0) H) as E.
      by rewrite (fs_rise _ _ _ _ _ _ _ _ _ _ Hfs) in E.
    - pose proof (Hmono (j0 - 2)%nat (j - 2)%nat ltac:(lia)).
      pose proof (wrote_length_S B bus mem env s0 b0 Hop (j0 - 2)).
      pose proof (Hmono (S j0 - 2)%nat (S (j0 - 2)) ltac:(lia)). lia. }
  rewrite (bank_writes B bus mem env s0 b0 _ Hdr), program_split, take_app_ge, hw_writes_app by done.
  destruct (arm_hw B st b0 Hwf Hlt (op_start _ _ _ _ _ _ Hop)) as (_ & _ & Hc & _).
  set (b := hw_writes B (arm_writes B st) b0) in *. set (n := (_ - _)%nat).
  pose proof (wf_channel _ Hwf). unfold out_hbm_channel in *.
  destruct n as [|[|[|n]]]; [exact Hc|exact Hc|exact Hc|].
  cbn [take]. rewrite take_nil. cbn [hw_writes fold_left fst snd]. rewrite hw_write_reg by lia. cbn.
  apply Z.mod_small. change (2 ^ 8) with 256. lia.
Qed.

(** C18: a latency test from the program to the queue of its samples.  When a host
    puts the writes of the test program on the bus, at any speed, with channel [c]
    for its latency test, then word [k] that goes into the queue of the latency samples is
    the latency of read [k] of channel [c], in cycles from the acceptance of the
    address to the last beat of the answer, modulo 2^16; and in a latency test
    exactly one word for each operation goes there, when the memory answers.  No
    word of another channel, which run at the same time, gets in between.  This
    holds on both designs, for all clocks of which a memory's is not slower than
    the bus, on the DDR with similar clocks for the two memories; the channel has
    the clock of its queue (on the HBM there is one clock for all), and nothing is
    on the way to the queue at the beginning. *)
Theorem host_latency_samples B bus mem env s0 b0 st :
  let up := params_of B (dma_control_reg b0 17) st in
  let c := latency_channel st in
  operating B bus mem env s0 b0 -> wf_settings st -> c < n_mem_intf B ->
  write_enable st < 2 ^ n_mem_intf B -> read_enable st < 2 ^ n_mem_intf B ->
  drives B bus mem env s0 (program_writes B st) -> similar_memories B mem ->
  path_empty s0 -> (forall k, edge_at (mem c) k = edge_at (mem (queue_of B c)) k) ->
  Z.testbit (read_enable st) c = true -> 1 <= trunc 32 (lp_num_mem_ops (up c)) ->
  exists j0, first_start B bus mem env s0 b0 j0 (write_enable st) (read_enable st) up /\
    let ins := rd_env B c (run_env B bus mem env s0 j0 c) (run_reg B bus mem env s0 j0 c) in
    let regs := rd_r0 B c (run_env B bus mem env s0 j0 c) (run_reg B bus mem env s0 j0 c) in
    let accept := RdEngine.accept (addr_width B) (data_width B) (len_width B) ins regs in
    let last := RdEngine.last ins in
    (forall n k v, queued B bus mem env s0 c n !! k = Some v ->
       exists ta tl, (ta < tl)%nat /\ accept ta = true /\ last tl = true /\
         (forall u, (ta < u < tl)%nat -> accept u = false /\ last u = false) /\
         count accept ta = Z.of_nat k /\ v = trunc 16 (Z.of_nat tl - Z.of_nat ta)) /\
    (lp_latency (up c) = true -> rd_answers B bus mem env s0 j0 c ->
     exists N, forall n, (N <= n)%nat ->
       Z.of_nat (length (queued B bus mem env s0 c n)) = trunc 32 (lp_num_mem_ops (up c))).
Proof.
  cbv zeta. intros Hop Hwf Hlt Hwe Hre Hdr Hsim Hempty Hclk Hbit Hops.
  assert (Hdr' : drives B bus mem env s0 (program_writes B st ++ [])) by by rewrite app_nil_r.
  destruct (program_starts B bus mem env s0 b0 st [] (Forall_nil_2 _) Hop Hdr' Hwf Hlt Hwe Hre) as (j0 & Hfs).
  exists j0. split; [exact Hfs|]. pose proof (wf_channel _ Hwf) as Hc.
  exact (samples_queued B bus mem env s0 b0 (latency_channel st) j0 _ _ _ Hop (conj (proj1 Hc) Hlt) Hfs Hsim
    (program_selected B bus mem env s0 b0 st j0 _ _ _ Hop Hdr Hwf Hlt Hfs) Hempty Hclk Hbit Hops).
Qed.
