(* ===== verification/Bridge.v ===== *)
(** * Register accesses on the bus

    The DMA core of the vendor turns every access of the processor to a register
    into one transaction of the AXI-lite bus, one after the other.  This file has
    a behaviour of that core: every event of the program has a slot of the bus, in
    which an access is made and everything else does nothing.  It also has memory
    models, as state machines that see the whole top level, and the run of the
    top level with both. *)

From Stdlib Require Import Ascii String.
From stdpp Require Import base list numbers option.
From S2P Require Import Prelude Clock ClockDomains.
From S2P Require Import RdEngine.
From S2P Require Import WrEngine.
From S2P Require Import Channel.
From S2P Require Import BenchControl.
From S2P Require Import Crossing.
From S2P Require Import FpgaController.
From S2P Require Import HbmTest.
From S2P Require Import HostSystem.
From S2P Require Import AxiLite.
From S2P Require Import System.
Open Scope Z_scope.

(** ** Slots *)

(** Longer than a read, which keeps the slave busy for 18 cycles. *)
Definition slot : nat := 32%nat.
#[global] Arguments slot : simpl never.

(** What is on the bus in a cycle of the slot of an event: the address in the first
    cycle, the word in the second one; responses are always taken.  The registers
    are in one page, and only the offset in it is on the bus. *)
Definition event_in (e : option fevent) (phase : nat) (queues : ctl_in) : ctl_in :=
  let bus (aw : option Z) (w : option Z) (ar : option Z) :=
    CtlIn true (default 0 aw) (bool_decide (is_Some aw)) (default 0 w) (bool_decide (is_Some w)) true
      (default 0 ar) (bool_decide (is_Some ar)) true (fun _ => 0)
      (fifo_empty queues) (fifo_data_out queues) (doutb queues) in
  match e, phase with
  | Some (FWrite p _), 0%nat => bus (Some (p mod 4096)) None None
  | Some (FWrite _ v), 1%nat => bus None (Some v) None
  | Some (FRead p _), 0%nat => bus None None (Some (p mod 4096))
  | _, _ => bus None None None
  end.

Lemma event_reset e p queues : s_aresetn (event_in e p queues) = true.
Proof. by destruct e as [[]|], p as [|[|?]]. Qed.

(** The bus for a stream of events; the queues of the samples are arguments. *)
Definition bridge (queues : nat -> ctl_in) (evs : nat -> option fevent) (j : nat) : ctl_in :=
  event_in (evs (j / slot)%nat) (j mod slot) (queues j).

(** The transactions of the first [n] events. *)
Definition bus_write (e : fevent) : option (Z * Z) :=
  match e with FWrite p v => Some (p mod 4096, v) | _ => None end.
Definition sent (evs : nat -> option fevent) (n : nat) : list (Z * Z) :=
  omap (fun i => evs i ≫= bus_write) (seq 0 n).

Lemma sent_next evs n : sent evs (S n) = sent evs n ++ option_list (evs n ≫= bus_write).
Proof. unfold sent. rewrite seq_S, omap_app. cbn. by destruct (evs n ≫= bus_write). Qed.

Section Bridge.
Context (B : design) (env : nat -> ctl_in) (r0 : ctl_reg).
Context (queues : nat -> ctl_in) (evs : nat -> option fevent).
Context (Henv : forall j, exists f, env j = with_status f (bridge queues evs j)).
Context (Hw : w_cstate r0 = WIDLE) (Hr : r_cstate r0 = RIDLE).

Abbreviation reg := (ctl B env r0).
Abbreviation writes n := (bool_decide (is_Some (evs n ≫= bus_write))).
Definition reads (n : nat) : bool := match evs n with Some (FRead _ _) => true | _ => false end.

Lemma bridge_reset j : s_aresetn (env j) = true.
Proof.
  destruct (Henv j) as (f & ->). apply event_reset.
Qed.

(** The signals in cycle [p] of slot [n]. *)
Lemma bridge_at n p :
  (p < slot)%nat ->
  let i := env (slot * n + p)%nat in
  s_axil_awvalid i = writes n && (p =? 0)%nat /\ s_axil_wvalid i = writes n && (p =? 1)%nat /\
  s_axil_bready i = true /\ s_axil_arvalid i = reads n && (p =? 0)%nat /\ s_axil_rready i = true /\
  (forall a v, evs n = Some (FWrite a v) -> (p = 0%nat -> s_axil_awaddr i = a mod 4096) /\
     (p = 1%nat -> s_axil_wdata i = v)) /\
  (forall a v, evs n = Some (FRead a v) -> p = 0%nat -> s_axil_araddr i = a mod 4096).
Proof.
  intros Hp. destruct (Henv (slot * n + p)%nat) as (f & ->). unfold bridge, reads.
  rewrite (Nat.mul_comm slot n), Nat.div_add_l, Nat.div_small, Nat.add_0_r by (unfold slot in *; lia).
  rewrite Nat.add_comm, Nat.Div0.mod_add, Nat.mod_small by done.
  destruct (evs n) as [[]|], p as [|[|p]]; cbn; repeat split; try done; congruence.
Qed.

(** The state machines in the cycles of a slot, when they are idle at its begin. *)
Definition w_phase (n p : nat) : Z :=
  if writes n then if (p =? 1)%nat then WDATA else if (p =? 2)%nat then WBRSP else WIDLE else WIDLE.
Definition r_phase (n p : nat) : Z :=
  if reads n
  then if (p =? 1)%nat then RDATA else if ((2 <=? p) && (p <=? 17))%nat then RWAIT else RIDLE else RIDLE.

Lemma w_phase_next n p :
  (p < slot)%nat -> w_cstate (reg (slot * n + p)) = w_phase n p ->
  w_cstate (reg (S (slot * n + p))) = w_phase n (S p).
Proof.
  intros Hp E. rewrite (next_state B env r0 bridge_reset), E.
  destruct (bridge_at n p Hp) as (-> & -> & -> & _). unfold w_phase.
  destruct (writes n); [|done]. by destruct p as [|[|[|p]]].
Qed.

Lemma next_read t :
  r_cstate (reg (S t)) =
    (if r_cstate (reg t) =? RIDLE then if s_axil_arvalid (env t) then RDATA else RIDLE
     else if r_cstate (reg t) =? RDATA then if s_axil_rready (env t) then RWAIT else RDATA
     else if r_cstate (reg t) =? RWAIT then if counter (reg t) =? 15 then RIDLE else RWAIT
     else RIDLE) /\
  counter (reg (S t)) = if r_cstate (reg t) =? RWAIT then trunc 4 (counter (reg t) + 1) else 0.
Proof.
  rewrite ctl_S. cbn [ctl_step r_cstate counter]. rewrite bridge_reset. unfold r_next.
  cbn [negb]. unfold s_axil_arready, s_axil_rvalid. split; [|done].
  destruct (Z.eqb_spec (r_cstate (reg t)) RIDLE) as [->|].
  { change (Z.testbit RIDLE 0) with true. rewrite andb_true_r. by destruct (s_axil_arvalid _). }
  destruct (Z.eqb_spec (r_cstate (reg t)) RDATA) as [->|].
  { change (Z.testbit RDATA 1) with true. cbn [andb]. by destruct (s_axil_rready _). }
  destruct (r_cstate (reg t) =? RWAIT); [|done]. by destruct (_ =? 15).
Qed.

Lemma r_phase_next n p :
  (p < slot)%nat -> r_cstate (reg (slot * n + p)) = r_phase n p ->
  ((2 <= p <= 17)%nat -> reads n = true -> counter (reg (slot * n + p)) = Z.of_nat p - 2) ->
  r_cstate (reg (S (slot * n + p))) = r_phase n (S p) /\
  ((2 <= S p <= 17)%nat -> reads n = true -> counter (reg (S (slot * n + p))) = Z.of_nat (S p) - 2).
Proof.
  intros Hp E Hc. destruct (next_read (slot * n + p)) as [-> ->]. rewrite E.
  destruct (bridge_at n p Hp) as (_ & _ & _ & -> & -> & _). unfold r_phase in *.
  destruct (reads n); [|split; done]. cbn [andb].
  destruct p as [|[|p]]; [split; [done|cbn; lia]..|]. specialize (fun H => Hc H eq_refl).
  assert (E2 : (2 <=? S (S p))%nat = true) by done.
  destruct (Nat.leb_spec (S (S p)) 17) as [Hle|Hgt].
  - rewrite Hc by lia. rewrite E2. cbn [andb Nat.eqb].
    change (RWAIT =? RIDLE) with false. change (RWAIT =? RDATA) with false. change (RWAIT =? RWAIT) with true.
    cbn [Nat.leb andb]. destruct (Z.eqb_spec (Z.of_nat (S (S p)) - 2) 15) as [E15|Hne].
    + rewrite (proj2 (Nat.leb_gt p 14)) by lia. split; [done|lia].
    + rewrite (proj2 (Nat.leb_le p 14)) by lia. split; [done|]. intros _ _.
      unfold trunc. rewrite Z.mod_small; lia.
  - rewrite E2. cbn [andb Nat.eqb Nat.leb]. rewrite (proj2 (Nat.leb_gt p 14)) by lia. split; [done|lia].
Qed.

Lemma slot_states n :
  w_cstate (reg (slot * n)) = WIDLE -> r_cstate (reg (slot * n)) = RIDLE ->
  forall p, (p <= slot)%nat -> w_cstate (reg (slot * n + p)) = w_phase n p /\
    r_cstate (reg (slot * n + p)) = r_phase n p /\
    ((2 <= p <= 17)%nat -> reads n = true -> counter (reg (slot * n + p)) = Z.of_nat p - 2).
Proof.
  intros H1 H2. induction p as [|p IH]; intros Hp.
  - rewrite Nat.add_0_r, H1, H2. unfold w_phase, r_phase.
    destruct (writes n), (reads n); split; try split; done || lia.
  - destruct IH as (E1 & E2 & E3); [lia|]. rewrite Nat.add_succ_r.
    split; [apply w_phase_next; [lia|done]|]. apply r_phase_next; [lia|done|done].
Qed.

Lemma idle_slots n :
  w_cstate (reg (slot * n)) = WIDLE /\ r_cstate (reg (slot * n)) = RIDLE.
Proof.
  induction n as [|n [IH1 IH2]]; [done|].
  destruct (slot_states n IH1 IH2 slot (le_n _)) as (E1 & E2 & _).
  replace (slot * S n)%nat with (slot * n + slot)%nat by lia.
  rewrite E1, E2. unfold w_phase, r_phase. by destruct (writes n), (reads n).
Qed.

Lemma slot_state n p :
  (p < slot)%nat -> w_cstate (reg (slot * n + p)) = w_phase n p /\ r_cstate (reg (slot * n + p)) = r_phase n p.
Proof.
  intros Hp. destruct (idle_slots n) as [H1 H2].
  destruct (slot_states n H1 H2 p ltac:(lia)) as (E1 & E2 & _). done.
Qed.

(** *** Transactions *)

Lemma slot_of t : exists n p, t = (slot * n + p)%nat /\ (p < slot)%nat.
Proof.
  exists (t / slot)%nat, (t mod slot)%nat. pose proof (Nat.mod_upper_bound t slot ltac:(done)).
  pose proof (Nat.div_mod_eq t slot). lia.
Qed.

Lemma bridge_master : master B env r0.
Proof.
  split; intros t Ht; exists t; (split; [done|]); destruct (slot_of t) as (n & p & -> & Hp);
    destruct (bridge_at n p Hp) as (_ & Hv & Hb & _); [|done].
  rewrite (proj1 (slot_state n p Hp)) in Ht. rewrite Hv. unfold w_phase in Ht.
  destruct (writes n); [|done]. by destruct (p =? 1)%nat, (p =? 2)%nat.
Qed.

Lemma slot_taken n p :
  (p < slot)%nat ->
  aw_taken B env r0 (slot * n + p) = writes n && (p =? 0)%nat /\
  w_taken B env r0 (slot * n + p) = writes n && (p =? 1)%nat.
Proof.
  intros Hp. unfold aw_taken, w_taken, s_axil_awready, s_axil_wready.
  rewrite (proj1 (slot_state n p Hp)). destruct (bridge_at n p Hp) as (-> & -> & _).
  unfold w_phase. destruct (writes n); [|done]. by destruct p as [|[|[|p]]].
Qed.

Lemma observed_slot {A} (f : nat -> bool) (g : nat -> A) m k (b : bool) q :
  (forall p, (p < k)%nat -> f (m + p)%nat = b && (p =? q)%nat) ->
  observed f g (m + k) = observed f g m ++ (if b && (q <? k)%nat then [g (m + q)%nat] else []).
Proof.
  induction k as [|k IH]; intros Hf.
  - rewrite Nat.add_0_r, andb_false_r. by rewrite app_nil_r.
  - rewrite Nat.add_succ_r, observed_S, IH, Hf by auto with lia. rewrite <- app_assoc. f_equal.
    destruct b; [|done]. cbn [andb]. destruct (Nat.ltb_spec q k), (Nat.eqb_spec k q), (Nat.ltb_spec q (S k));
      try lia; subst; done.
Qed.

Lemma bridge_requests n : requests B env r0 (slot * n) = sent evs n.
Proof.
  unfold requests, addresses, words.
  assert (H : observed (aw_taken B env r0) (fun t => s_axil_awaddr (env t)) (slot * n) = (sent evs n).*1 /\
    observed (w_taken B env r0) (fun t => s_axil_wdata (env t)) (slot * n) = (sent evs n).*2);
    [|destruct H as [-> ->]; apply zip_fst_snd].
  induction n as [|n [IH1 IH2]]; [done|].
  replace (slot * S n)%nat with (slot * n + slot)%nat by lia.
  rewrite (observed_slot (aw_taken B env r0) _ (slot * n) slot (writes n) 0), IH1
    by (intros p Hp; by apply slot_taken).
  rewrite (observed_slot (w_taken B env r0) _ (slot * n) slot (writes n) 1), IH2
    by (intros p Hp; by apply slot_taken).
  rewrite sent_next, !fmap_app. change ((0 <? slot)%nat) with true. change ((1 <? slot)%nat) with true.
  rewrite andb_true_r.
  destruct (bridge_at n 0 ltac:(unfold slot; lia)) as (_ & _ & _ & _ & _ & Ha & _).
  destruct (bridge_at n 1 ltac:(unfold slot; lia)) as (_ & _ & _ & _ & _ & Hd & _).
  destruct (evs n) as [[]|] eqn:Ee; cbn; try by rewrite !app_nil_r.
  destruct (Ha _ _ eq_refl) as [-> _]; [|done]. by destruct (Hd _ _ eq_refl) as [_ ->].
Qed.

Lemma requests_prefix i j : (i <= j)%nat -> requests B env r0 i `prefix_of` requests B env r0 j.
Proof.
  induction 1 as [|j _ IH]; [done|]. destruct (w_taken B env r0 j) eqn:E.
  - destruct (requests_taken B env r0 bridge_reset Hw _ E) as (a & ->). by apply prefix_app_r.
  - by rewrite (requests_idle B env r0 bridge_reset Hw _ E).
Qed.

(** At any time, a prefix of what will be sent. *)
Lemma bridge_prefix j n :
  (j <= slot * n)%nat -> exists m, requests B env r0 j = take m (sent evs n).
Proof.
  intros Hj. exists (length (requests B env r0 j)). rewrite <- bridge_requests.
  destruct (requests_prefix j (slot * n) Hj) as (l & ->). by rewrite take_app_length.
Qed.

(** The word of a read is the register, one cycle after the address. *)
Lemma bridge_read n a v :
  evs n = Some (FRead a v) ->
  s_axil_rvalid (reg (S (slot * n))) = true /\
  s_axil_rdata (reg (S (slot * n))) = control_reg (reg (S (slot * n))) (slice 2 6 (a mod 4096)).
Proof.
  intros He. destruct (slot_state n 1 ltac:(unfold slot; lia)) as [_ E]. rewrite Nat.add_1_r in E.
  unfold s_axil_rvalid. rewrite E. unfold r_phase, reads. rewrite He. split; [done|].
  unfold s_axil_rdata. f_equal. rewrite ctl_S. cbn [ctl_step rd_addr]. unfold r_next.
  destruct (bridge_at n 0 ltac:(unfold slot; lia)) as (_ & _ & _ & Hv & _ & _ & Ha).
  rewrite Nat.add_0_r in Hv, Ha. unfold s_axil_arready. rewrite (proj2 (idle_slots n)), Hv, (Ha _ _ He eq_refl).
  unfold reads. by rewrite He.
Qed.
End Bridge.

(** ** The top level with a host and memories *)

(** A memory model sees the top level at every time, and keeps what it likes. *)
Record mem_model : Type := MemModel {
  mem_state : Type;
  mem_init : mem_state;
  mem_out : mem_state -> Z -> mem_ports;
  mem_next : nat -> sys -> mem_state -> mem_state;
}.

Section Whole.
Context (B : design) (bus : clock) (mem : Z -> clock) (mm : mem_model) (s0 : sys).
Context (hosts : nat -> ctl_in).

Definition whole_in (x : nat) (st : sys * mem_state mm) : sys_in :=
  SysIn (hosts (edges bus x)) (fun _ => true) (mem_out mm st.2).
Definition whole_step (x : nat) (st : sys * mem_state mm) : sys * mem_state mm :=
  (sys_step B bus mem (x, whole_in x st) st.1, mem_next mm x st.1 st.2).
Definition whole (x : nat) : sys * mem_state mm :=
  at_cycle whole_step (fun x => x) (s0, mem_init mm) x.

(** The inputs of the top level in this run. *)
Definition whole_env (x : nat) : sys_in := whole_in x (whole x).

Lemma whole_system x : (whole x).1 = system B bus mem whole_env s0 x.
Proof.
  induction x as [|x IH]; [done|]. unfold system in *. cbn [at_cycle]. rewrite <- IH. reflexivity.
Qed.

Lemma whole_bus j : exists f, bus_env B bus mem whole_env s0 j = with_status f (hosts j).
Proof. unfold bus_env, whole_env, whole_in. cbn [host]. rewrite edges_at. by eexists. Qed.
End Whole.

(** What the host does from cycle [n] of the bus on has no influence on what was
    before. *)
Lemma whole_agree B bus mem mm s0 hosts hosts' n :
  (forall j, (j < n)%nat -> hosts j = hosts' j) ->
  forall x, (edges bus x <= n)%nat -> whole B bus mem mm s0 hosts x = whole B bus mem mm s0 hosts' x.
Proof.
  intros H. induction x as [|x IH]; intros Hx; [done|].
  unfold whole in *. cbn [at_cycle]. rewrite edges_S in Hx.
  rewrite IH by (destruct (ticks bus x); lia). unfold whole_step, sys_step. f_equal.
  destruct (ticks bus x); [|done]. unfold whole_in. cbn [host]. by rewrite H by lia.
Qed.

(** ** A board that waits *)

(** No write to register 0. *)
Definition spares_reset (ws : list (Z * Z)) : Prop := Forall (fun w => Z.shiftr w.1 2 mod 64 <> 0) ws.

Lemma small_spares ws : Forall (fun w => 0 < w.1 < 64) ws -> spares_reset (on_bus ws).
Proof.
  intros Hws. apply Forall_fmap. eapply Forall_impl; [|exact Hws]. intros w Hw. cbn beta in *.
  change (Z.shiftr (4 * w.1) 2 mod 64 <> 0). rewrite Z.mul_comm, Z.shiftr_div_pow2 by done. change (2 ^ 2) with 4. rewrite Z.div_mul, Z.mod_small by done || lia.
  lia.
Qed.

Lemma program_spares B st : spares_reset (on_bus (program_writes B st)).
Proof. apply small_spares, program_small. Qed.

Lemma spared B ws b :
  spares_reset ws -> dma_control_reg (hw_requests B ws b) 0 = dma_control_reg b 0.
Proof.
  intros Hws. revert b. induction Hws as [|w ws Hw _ IH]; intros b; [done|].
  unfold hw_requests in *. cbn [fold_left]. rewrite IH.
  unfold hw_write. cbn [dma_control_reg]. unfold write_reg.
  by rewrite Z.eqb_sym, (proj2 (Z.eqb_neq _ _) Hw).
Qed.

(** What is needed of the state for [operating]. *)
Record waiting_board (B : design) (bus : clock) (mem : Z -> clock) (s0 : sys) (b0 : bench) : Prop := {
  wb_clocks : forall c, 0 <= c < n_mem_intf B -> keeps_up bus (mem c);
  wb_idle : w_cstate (xdma_control s0) = WIDLE;
  wb_read_idle : r_cstate (xdma_control s0) = RIDLE;
  wb_bank : control_reg (xdma_control s0) = dma_control_reg b0;
  wb_shown : forall k, host_reg k -> shown (xdma_control s0) k = dma_control_reg b0 k;
  wb_start : out_start (dma_control_reg b0) = false;
  wb_coherent : coherent B b0;
  wb_waiting : forall c, 0 <= c < n_mem_intf B ->
    idle (channels s0 c) /\ loading (channels s0 c) /\ vectors B (params b0 c) c (channels s0 c);
  wb_no_reset : Z.odd (dma_control_reg b0 0) = false;
}.

Section Operates.
Context (B : design) (bus : clock) (mem : Z -> clock) (mm : mem_model) (s0 : sys) (b0 : bench).
Context (queues : nat -> ctl_in) (evs : nat -> option fevent) (ws : list (Z * Z)).
Context (Hwb : waiting_board B bus mem s0 b0) (Hspare : spares_reset ws).
Context (Hws : forall n, exists m, sent evs n = take m ws).

Abbreviation env := (whole_env B bus mem mm s0 (bridge queues evs)).
Abbreviation benv := (bus_env B bus mem env s0).

Lemma bridge_bus j : exists f, benv j = with_status f (bridge queues evs j).
Proof. apply whole_bus. Qed.

Lemma host_prefix j : exists m, host_requests B bus mem env s0 j = take m ws.
Proof.
  destruct (bridge_prefix B benv (xdma_control s0) queues evs bridge_bus (wb_idle _ _ _ _ _ Hwb)
    (wb_read_idle _ _ _ _ _ Hwb) j j) as (m & E); [unfold slot; lia|].
  destruct (Hws j) as (m' & E'). exists (m `min` m')%nat. unfold host_requests. by rewrite E, E', take_take.
Qed.

Lemma board_operating : operating B bus mem env s0 b0.
Proof.
  destruct Hwb as [H1 H2 H3 H4 H5 H6 H7 H8 H9]. split; try done.
  - intros x. apply event_reset.
  - intros j. unfold bank_at. destruct (host_prefix (j - 2)) as (m & ->).
    rewrite spared by by apply Forall_take. exact H9.
Qed.

Lemma board_master : master B benv (xdma_control s0).
Proof. eapply bridge_master; [exact bridge_bus|apply Hwb..]. Qed.
End Operates.
