(* ===== verification/Drivers.v ===== *)
(** * A host and memories for the top level

    Inputs for which the properties of [SystemTheorems] and [HostSystem] can be
    instantiated, for every program, every design and every pair of clocks: a
    host that puts a list of writes on the bus and then stays silent, and
    memories that accept everything at once and answer every burst.  They are not
    part of the source. *)

From Stdlib Require Import Ascii String.
From stdpp Require Import base gmap list strings numbers option.
From S2P Require Import Prelude Clock ClockDomains.
From S2P Require Import EngineParams.
From S2P Require Import WrEngine.
From S2P Require Import RdEngine.
From S2P Require Import Channel.
From S2P Require Import AxiLite.
From S2P Require Import BenchControl.
From S2P Require Import Crossing.
From S2P Require Import System.
From S2P Require Import SystemTheorems.
From S2P Require Import SamplePath.
From S2P Require Import PowerUp.
From S2P Require Import HbmTest.
From S2P Require Import HostSystem.
From S2P Require Import FpgaController.
From S2P Require Import Bridge.
Open Scope Z_scope.

(** ** Memories that answer *)

(** Every channel has the number of bursts that its memory owes it; as long as
    there are any, one is answered at each edge. *)
Definition owes (m : Z -> nat) (c : Z) : bool := (0 <? m c)%nat.
Definition owed_next (mem : Z -> clock) (x : nat) (s : sys) (m : Z -> nat) (c : Z) : nat :=
  if ticks (mem c) x
  then (m c + Nat.b2n (RdEngine.m_axi_ARVALID (inst_rd_engine (channels s c))) - Nat.b2n (owes m c))%nat
  else m c.
Definition answering (mem : Z -> clock) : mem_model :=
  MemModel (Z -> nat) (fun _ => 0%nat) (fun m c => MemPorts true true true (owes m c) (owes m c))
    (owed_next mem).

Section Answering.
Context (B : design) (bus : clock) (mem : Z -> clock) (s0 : sys) (b0 : bench) (hosts : nat -> ctl_in).

Abbreviation env := (whole_env B bus mem (answering mem) s0 hosts).
Abbreviation chan c := (ch B c (ch_env B bus mem env s0 c) (channels s0 c)).
Definition owed_at (c : Z) (k : nat) : nat := (whole B bus mem (answering mem) s0 hosts (edge_at (mem c) k)).2 c.

Lemma owed_run c x :
  (whole B bus mem (answering mem) s0 hosts x).2 c =
    at_cycle (fun v n => n + Nat.b2n v - Nat.b2n (0 <? n))%nat
      (fun k => RdEngine.m_axi_ARVALID (inst_rd_engine
        (channels (whole B bus mem (answering mem) s0 hosts (edge_at (mem c) k)).1 c))) 0%nat
      (edges (mem c) x).
Proof.
  apply (own_run (mem c) (fun v n => n + Nat.b2n v - Nat.b2n (0 <? n))%nat
    (fun x => RdEngine.m_axi_ARVALID (inst_rd_engine (channels (whole B bus mem (answering mem) s0 hosts x).1 c)))
    (fun x => (whole B bus mem (answering mem) s0 hosts x).2 c)).
  done.
Qed.

Lemma owed_at_S c k :
  owed_at c (S k) = (owed_at c k + Nat.b2n (RdEngine.m_axi_ARVALID (inst_rd_engine (chan c k))) -
                     Nat.b2n (0 <? owed_at c k))%nat.
Proof.
  unfold owed_at. rewrite !owed_run, !edges_at. cbn [at_cycle].
  by rewrite whole_system, channel_run, edges_at.
Qed.

Lemma owed_at_0 c : owed_at c 0 = 0%nat.
Proof. unfold owed_at. by rewrite owed_run, edges_at. Qed.

Context (Hop : operating B bus mem env s0 b0).

(** *** The answers *)

Context (j0 : nat) (we re : Z) (p : Z -> BenchControl.lt_params).
Context (Hfs : first_start B bus mem env s0 b0 j0 we re p) (Hsim : similar_memories B mem).

Section Answers.
Context (c : Z) (Hc : 0 <= c < n_mem_intf B).
Abbreviation k0 := (run_edge bus mem j0 c).
Abbreviation renv := (rd_env B c (run_env B bus mem env s0 j0 c) (run_reg B bus mem env s0 j0 c)).
Abbreviation rr0 := (rd_r0 B c (run_env B bus mem env s0 j0 c) (run_reg B bus mem env s0 j0 c)).
Abbreviation accepts := (RdEngine.accept (addr_width B) (data_width B) (len_width B) renv rr0).
Abbreviation lasts := (RdEngine.last renv).

Lemma valid_at t :
  RdEngine.m_axi_ARVALID (RdEngine.reg (addr_width B) (data_width B) (len_width B) renv rr0 t) =
    RdEngine.m_axi_ARVALID (inst_rd_engine (chan c (k0 + (3 + t)))).
Proof. by rewrite rd_trace, run_shift. Qed.

Lemma quiet_early k :
  (k <= k0 + 3)%nat -> RdEngine.m_axi_ARVALID (inst_rd_engine (chan c k)) = false.
Proof.
  intros Hk. destruct (decide (k <= k0)%nat) as [Hle|Hgt].
  - destruct (channel_quiet B bus mem env s0 b0 Hop j0 we re p Hfs c Hc k Hle) as [_ Hq].
    apply Hq.
  - pose proof (channel_runs B bus mem env s0 b0 Hop j0 we re p Hfs Hsim c Hc) as Hrun.
    replace k with (k0 + (k - k0))%nat by lia. rewrite <- run_shift.
    assert (Hq : RdEngine.quiet (inst_rd_engine (ch B c (run_env B bus mem env s0 j0 c)
      (run_reg B bus mem env s0 j0 c) (k - k0)))); [|apply Hq].
    eapply waits_rd; [exact Hrun|]. left. lia.
Qed.

Lemma owes_nothing k : (k <= k0 + 3)%nat -> owed_at c k = 0%nat.
Proof.
  induction k as [|k IH]; intros Hk; [apply owed_at_0|].
  by rewrite owed_at_S, IH, quiet_early by lia.
Qed.

Lemma owed_counts t :
  count accepts t = count lasts t + Z.of_nat (owed_at c (k0 + (3 + t))).
Proof.
  induction t as [|t IH].
  - by rewrite owes_nothing by lia.
  - rewrite !count_S, IH. replace (k0 + (3 + S t))%nat with (S (k0 + (3 + t))) by lia.
    rewrite owed_at_S.
    unfold RdEngine.accept. rewrite valid_at.
    change (RdEngine.m_axi_ARREADY (renv t)) with true.
    change (lasts t) with ((0 <? owed_at c (k0 + (3 + t)))%nat && (0 <? owed_at c (k0 + (3 + t)))%nat).
    rewrite andb_diag. cbn [andb]. destruct (RdEngine.m_axi_ARVALID _);
      destruct (Nat.ltb_spec 0 (owed_at c (k0 + (3 + t)))); cbn [Z.b2z Nat.b2n]; lia.
Qed.

Lemma last_owed t : lasts t = (0 <? owed_at c (k0 + (3 + t)))%nat.
Proof. exact (andb_diag _). Qed.

Lemma answers_go_on t n :
  count accepts t <= count lasts (t + n) \/ count lasts t + Z.of_nat n <= count lasts (t + n).
Proof.
  induction n as [|n IH]; [rewrite Nat.add_0_r; lia|]. rewrite Nat.add_succ_r, count_S, last_owed.
  pose proof (owed_counts (t + n)). pose proof (count_mono accepts t (t + n) ltac:(lia)).
  destruct (Nat.ltb_spec 0 (owed_at c (k0 + (3 + (t + n))))); cbn [Z.b2z]; lia.
Qed.

Lemma memory_answers : rd_answers B bus mem env s0 j0 c.
Proof.
  split.
  - intros t _. by exists t.
  - intros t. rewrite count_S, last_owed, owed_counts.
    destruct (Nat.ltb_spec 0 (owed_at c (k0 + (3 + t)))); cbn [Z.b2z]; lia.
  - intros t. exists (t + owed_at c (k0 + (3 + t)))%nat. split; [lia|].
    pose proof (owed_counts t). destruct (answers_go_on t (owed_at c (k0 + (3 + t)))); lia.
Qed.
End Answers.

Lemma memory_serves :
  (forall c, 0 <= c < n_mem_intf B -> 1 <= trunc 32 (lp_num_mem_ops (p c)) /\
     1 <= trunc 64 (lp_num_mem_ops (p c))) ->
  served B bus mem env s0 j0 we re p.
Proof.
  intros Hops c Hc. destruct (Hops c Hc) as [H1 H2]. split; intros _; (split; [done|]).
  - by apply memory_answers.
  - split; intros t _; by exists t.
Qed.
End Answering.

(** ** A board after reset *)

Definition boot_reg : Z -> Z := reset_bank u280_ddr (fun _ => 0).
Definition boot_params (B : design) : BenchControl.lt_params := staged B boot_reg.
Definition boot_bench (B : design) : bench := Bench boot_reg (fun _ => boot_params B) [].
Definition boot (B : design) : sys :=
  Sys (CtlReg boot_reg boot_reg WIDLE RIDLE 0 0 0 0 0 0 (fun _ => false) false 0 0)
    (fun c => example_ch (compose B (boot_params B) c 0))
    (fun _ => 0) (fun _ => false) 0 false (fun _ => 0) (fun _ => false).

(** The memories have an edge at every time, the bus at every third. *)
Definition slow : clock := periodic 1 3 ltac:(lia).
Definition fast (c : Z) : clock := periodic 0 1 ltac:(lia).

Lemma fast_edge c k : edge_at (fast c) k = k.
Proof. cbn. lia. Qed.

Lemma fast_keeps_up c : keeps_up slow (fast c).
Proof.
  split; [rewrite fast_edge; cbn; lia|]. intros k. rewrite !fast_edge, edges_S. destruct (ticks _ _); lia.
Qed.

Lemma fast_similar B : similar_memories B fast.
Proof.
  destruct B; [done|]. intros c c' _ _ k. change (fast c') with (fast c). rewrite !edges_at. lia.
Qed.

Lemma boot_board B : waiting_board B slow fast (boot B) (boot_bench B).
Proof.
  split; try done.
  - intros c _. apply fast_keeps_up.
  - intros c _. split; [|split; [done|]].
    + split; try done; split; done.
    + split; apply compose_holds.
Qed.

Lemma boot_path B : path_empty (boot B).
Proof. by split. Qed.

(** ** A host with a list of writes *)

Definition listed (ws : list (Z * Z)) (n : nat) : option fevent := (fun w => FWrite w.1 w.2) <$> ws !! n.
Definition silence : ctl_in :=
  CtlIn true 0 false 0 false true 0 false true (fun _ => 0) (fun _ => true) (fun _ => 0) 0.

Lemma listed_sent ws n :
  Forall (fun w => 0 <= w.1 < 4096) ws -> sent (listed ws) n = take n ws.
Proof.
  intros Hws. induction n as [|n IH]; [done|]. rewrite sent_next, IH. unfold listed.
  destruct (ws !! n) as [[a v]|] eqn:E.
  - rewrite (take_S_r ws n (a, v) E). apply (Forall_lookup_1 _ _ _ _ Hws) in E. cbn in *.
    by rewrite Z.mod_small.
  - apply lookup_ge_None in E. cbn. by rewrite app_nil_r, !take_ge by lia.
Qed.

(** The writes of the program with settings [st]. *)
Abbreviation driver_program B st := (on_bus (program_writes B st)).
Abbreviation driver_host B st := (bridge (fun _ => silence) (listed (driver_program B st))).
Abbreviation driver_run B st := (whole_env B slow fast (answering fast) (boot B) (driver_host B st)).

Lemma driver_sent B st n : sent (listed (driver_program B st)) n = take n (driver_program B st).
Proof.
  apply listed_sent, Forall_fmap. eapply Forall_impl; [|apply (program_small B st)].
  intros w Hw. cbn beta in *. change (0 <= 4 * w.1 < 4096). lia.
Qed.

Lemma driver_sends B st n : exists m, sent (listed (driver_program B st)) n = take m (driver_program B st).
Proof. exists n. apply driver_sent. Qed.

Lemma driver_operating B st : operating B slow fast (driver_run B st) (boot B) (boot_bench B).
Proof. eapply board_operating; [apply boot_board|apply program_spares|apply driver_sends]. Qed.

Lemma driver_master B st : master B (bus_env B slow fast (driver_run B st) (boot B)) (xdma_control (boot B)).
Proof. eapply board_master. apply boot_board. Qed.

Lemma driver_drives B st : drives B slow fast (driver_run B st) (boot B) (program_writes B st).
Proof.
  split.
  - intros j. eapply host_prefix; [apply boot_board|apply driver_sends].
  - exists (slot * length (driver_program B st))%nat. unfold host_requests.
    erewrite bridge_requests; [|apply whole_bus|done|done]. rewrite driver_sent. apply take_ge. lia.
Qed.

Lemma driver_ops B st c :
  wf_settings st -> forallb (fun n => (1 <=? trunc 32 n) && (1 <=? trunc 64 n)) (numOps st) = true ->
  0 <= c < n_mem_intf B -> let p := params_of B (dma_control_reg (boot_bench B) 17) st c in
  1 <= trunc 32 (lp_num_mem_ops p) /\ 1 <= trunc 64 (lp_num_mem_ops p).
Proof.
  intros Hwf H Hc. cbn [params_of lp_num_mem_ops].
  rewrite forallb_forall in H. specialize (H (entry (numOps st) c)).
  rewrite andb_true_iff, !Z.leb_le in H. apply H, list_elem_of_In, list_elem_of_lookup.
  exists (Z.to_nat c). apply list_lookup_lookup_total_lt.
  destruct Hwf as [[_ [-> _] _ _ _ _ _ _ _] _]. pose proof (n_mem_intf_range B). lia.
Qed.

(** Writing on channel 0 and reading on channel 1. *)
Definition driver_settings (B : design) : settings :=
  set_latency 0 0 (set_write_enable 1 (set_read_enable 2 (tk_defaults (test_of B)))).

Lemma driver_settings_wf B : wf_settings (driver_settings B).
Proof. split; [destruct B; split; try (apply words_check); by vm_compute|by destruct B]. Qed.

Lemma driver_served B c :
  0 <= c < n_mem_intf B -> let p := params_of B (dma_control_reg (boot_bench B) 17) (driver_settings B) c in
  1 <= trunc 32 (lp_num_mem_ops p) /\ 1 <= trunc 64 (lp_num_mem_ops p).
Proof. apply driver_ops; [apply driver_settings_wf|]. destruct B; by vm_compute. Qed.

Lemma driver_starts B :
  let p := params_of B (dma_control_reg (boot_bench B) 17) (driver_settings B) in
  exists j0, first_start B slow fast (driver_run B (driver_settings B)) (boot B) (boot_bench B) j0 1 2 p.
Proof.
  apply (program_starts B slow fast (driver_run B (driver_settings B)) (boot B) (boot_bench B) (driver_settings B) []).
  - constructor.
  - apply driver_operating.
  - rewrite app_nil_r. apply driver_drives.
  - apply driver_settings_wf.
  - by destruct B.
  - by destruct B.
  - by destruct B.
Qed.

(** ** Witnesses *)

(** Two channels of the DDR. *)
Lemma host_program_finishes_witness :
  let shows k v := exists J, forall j, (J <= j)%nat ->
    control_reg (xdma_control (system u280_ddr slow fast (driver_run u280_ddr (driver_settings u280_ddr)) (boot u280_ddr)
      (edge_at slow j))) k = v in
  shows 12 1 /\ shows 13 2 /\ exists te : nat, shows 14 (trunc 32 (Z.of_nat te - 6)).
Proof.
  assert (Hlt : latency_channel (driver_settings u280_ddr) < n_mem_intf u280_ddr) by by vm_compute.
  assert (Hwe : write_enable (driver_settings u280_ddr) < 2 ^ n_mem_intf u280_ddr) by by vm_compute.
  assert (Hre : read_enable (driver_settings u280_ddr) < 2 ^ n_mem_intf u280_ddr) by by vm_compute.
  destruct (host_program_finishes u280_ddr slow fast (driver_run u280_ddr (driver_settings u280_ddr)) (boot u280_ddr)
    (boot_bench u280_ddr) (driver_settings u280_ddr)
    (driver_operating u280_ddr (driver_settings u280_ddr)) (driver_settings_wf u280_ddr) Hlt Hwe Hre
    (driver_drives u280_ddr (driver_settings u280_ddr)) (fast_similar u280_ddr)
    (driver_master u280_ddr (driver_settings u280_ddr))
    (fun j0 Hfs => memory_serves _ _ _ _ _ _ (driver_operating u280_ddr (driver_settings u280_ddr)) j0 _ _ _ Hfs
       (fast_similar u280_ddr) (driver_served u280_ddr))) as (j0 & _ & H12 & H13 & H14 & _).
  split; [exact H12|]. split; [exact H13|].
  destruct (H14 eq_refl) as (te & _ & H). exists te. exact H.
Defined.

(** A latency test on channel 9 of the HBM, with another reading channel. *)
Definition latency_settings : settings :=
  set_latency 1 9 (set_write_enable 0 (set_read_enable 514 (tk_defaults (test_of u280_hbm)))).

Lemma host_latency_samples_witness :
  exists N, forall n, (N <= n)%nat ->
    Z.of_nat (length (queued u280_hbm slow fast (driver_run u280_hbm latency_settings) (boot u280_hbm) 9 n)) = 1000000.
Proof.
  assert (Hwf : wf_settings latency_settings) by (split; [split; try (apply words_check); by vm_compute|done]).
  assert (Hc : latency_channel latency_settings < n_mem_intf u280_hbm) by by vm_compute.
  assert (Hm : write_enable latency_settings < 2 ^ n_mem_intf u280_hbm /\
    read_enable latency_settings < 2 ^ n_mem_intf u280_hbm) by (split; by vm_compute).
  assert (Hops : 1 <= trunc 32 (lp_num_mem_ops (params_of u280_hbm (dma_control_reg (boot_bench u280_hbm) 17)
    latency_settings (latency_channel latency_settings)))) by (apply Z.leb_le; by vm_compute).
  destruct (host_latency_samples u280_hbm slow fast (driver_run u280_hbm latency_settings) (boot u280_hbm)
    (boot_bench u280_hbm) latency_settings (driver_operating u280_hbm latency_settings) Hwf Hc (proj1 Hm) (proj2 Hm)
    (driver_drives u280_hbm latency_settings) (fast_similar u280_hbm) (boot_path u280_hbm) (fun _ => eq_refl)
    eq_refl Hops) as (j0 & Hfs & _ & H).
  destruct H as (N & HN).
  - by vm_compute.
  - apply (memory_answers _ _ _ _ _ _ (driver_operating u280_hbm latency_settings) j0 _ _ _ Hfs (fast_similar u280_hbm)).
    split; by vm_compute.
  - exists N. intros n Hn. transitivity (trunc 32 (lp_num_mem_ops (params_of u280_hbm (dma_control_reg (boot_bench u280_hbm) 17)
      latency_settings (latency_channel latency_settings)))); [exact (HN n Hn)|by vm_compute].
Defined.

(** All channels of the HBM. *)
Lemma system_finishes_witness :
  exists J, forall j, (J <= j)%nat ->
    let r := xdma_control (system u280_hbm slow fast (driver_run u280_hbm (driver_settings u280_hbm)) (boot u280_hbm) (edge_at slow j)) in
    control_reg r 12 = 1 /\ control_reg r 13 = 2.
Proof.
  destruct (driver_starts u280_hbm) as (j0 & Hfs).
  exact (system_finishes u280_hbm slow fast (driver_run u280_hbm (driver_settings u280_hbm)) (boot u280_hbm)
    (boot_bench u280_hbm) j0 1 2 _
    (driver_operating u280_hbm (driver_settings u280_hbm)) Hfs (fast_similar u280_hbm)
    (memory_serves _ _ _ _ _ _ (driver_operating u280_hbm (driver_settings u280_hbm)) j0 _ _ _ Hfs
       (fast_similar u280_hbm) (driver_served u280_hbm))
    (driver_master u280_hbm (driver_settings u280_hbm))
    (program_polls _ _ _ _ _ _ _ (driver_operating u280_hbm (driver_settings u280_hbm))
       (driver_drives u280_hbm (driver_settings u280_hbm)))).
Defined.

(** The read engine of channel 1 of the DDR. *)
Lemma system_starts_engines_witness :
  exists X, forall x, (X <= x)%nat ->
    started_until u280_ddr slow fast (driver_run u280_ddr (driver_settings u280_ddr)) (boot u280_ddr) 1 x =
      [Started true 1 (LtParams 0x10000000 128 100000 64 0x4000000 false)].
Proof.
  assert (Hc : 0 <= 1 < n_mem_intf u280_ddr) by (split; by vm_compute).
  destruct (system_starts_engines u280_ddr slow fast (driver_run u280_ddr (driver_settings u280_ddr)) (boot u280_ddr)
    (boot_bench u280_ddr) 1 (driver_operating u280_ddr (driver_settings u280_ddr)) eq_refl Hc)
    as [H1 H2].
  destruct (wrote_all _ _ _ _ _ _ _ (driver_operating u280_ddr (driver_settings u280_ddr))
    (driver_drives u280_ddr (driver_settings u280_ddr))) as (J & HJ).
  destruct (H2 J) as (X & HX). exists X. intros x Hx. rewrite H1, HJ by (by apply HX).
  by vm_compute.
Defined.

(** A DDR board with arbitrary registers, but for zeros in the bank, and a host that
    stays silent.  Channel 1 is locked before the bank has its defaults, channel 0
    while the bus is still in reset. *)
Definition unknown_board : sys :=
  Sys (CtlReg (fun _ => 0) (fun _ => 0) WBRSP RDATA 9 8 7 6 5 4 (fun _ => true) true 3 2)
    (fun c => ChReg 5 6 true false true true false false true true true true false false 1 2 3 4
       WrEngine.example_reg RdEngine.example_reg)
    (fun _ => 1) (fun _ => true) 1 true (fun _ => 1) (fun _ => true).

Definition lock_at (c : Z) : nat := if c =? 1 then 4 else 12.
Definition power_in (x : nat) : sys_in :=
  SysIn (CtlIn (14 <=? x)%nat 0 false 0 false true 0 false false (fun _ => 0) (fun _ => true) (fun _ => 0) 0)
    (fun c => lock_at c <=? x)%nat (fun _ => MemPorts true true true false false).

Lemma silent_requests B env r0 j :
  (forall j, s_aresetn (env j) = true) -> w_cstate r0 = WIDLE -> (forall j, s_axil_wvalid (env j) = false) ->
  requests B env r0 j = [].
Proof.
  intros Hr Hi Hv. induction j as [|j IH]; [done|].
  rewrite (requests_idle B env r0 Hr Hi j); [done|]. unfold w_taken. by rewrite Hv.
Qed.

Lemma resets_lead_to_operation_witness :
  let s := system u280_ddr slow fast power_in unknown_board 20 in
  let b := booted u280_ddr (fun c => c =? 1) s in
  operating u280_ddr (later slow 20) (fun c => later (fast c) 20) (fun x => power_in (20 + x)) s b /\
  params b 0 = LtParams 0x10000000 0x40 0x1000 0 0 false.
Proof.
  assert (Hpu : powers_up u280_ddr slow fast power_in unknown_board 14 20 (fun c => c =? 1) lock_at).
  { split; [done|by apply Nat.leb_le; vm_compute|done|..].
    - intros c _ Hl. unfold lock_at. rewrite Hl. change (fast c) with (fast 0). apply Nat.leb_le. by vm_compute.
    - intros c _ He. unfold lock_at. rewrite He. change (fast c) with (fast 0).
      split; [apply Nat.leb_le; by vm_compute|]. split; [apply Nat.leb_le; by vm_compute|by intros k _].
    - split; [lia|]. intros c. unfold lock_at. destruct (c =? 1); lia.
    - intros c _. change (fast c) with (fast 0). unfold lock_at.
      destruct (c =? 1); apply Nat.leb_le; by vm_compute.
    - done.
    - intros c _. apply fast_keeps_up. }
  set (s := system u280_ddr slow fast power_in unknown_board 20).
  assert (Hno : forall j, Z.odd (dma_control_reg (bank_at u280_ddr (later slow 20) (fun c => later (fast c) 20)
    (fun x => power_in (20 + x)) s (booted u280_ddr (fun c => c =? 1) s) j) 0) = false).
  { intros j. unfold bank_at, host_requests.
    destruct (bank_booted u280_ddr slow fast power_in unknown_board 14 20 (fun c => c =? 1) lock_at Hpu 20)
      as (Hw & Hr & _); [split; apply Nat.leb_le; by vm_compute|].
    rewrite silent_requests by (done || exact Hw). cbn [hw_requests fold_left booted dma_control_reg].
    rewrite Hr by (left; lia). by vm_compute. }
  destruct (resets_lead_to_operation u280_ddr slow fast power_in unknown_board 14 20 (fun c => c =? 1) lock_at
    Hpu Hno) as (Ho & _ & Hp & _). split; [exact Ho|]. apply (Hp 0). by right.
Defined.
