(* ===== verification/Answers.v ===== *)
(** * The values that a program reads

    Every value in the trace of a host program is the one with which the device
    answered: whatever the program computes or prints comes from there.  The
    programs are those of [FpgaController], [HbmTest], [Fpga] and [TestProgram],
    and it holds whether they return or stop. *)

From stdpp Require Import base list numbers option.
From S2P Require Import Prelude CInt.
From S2P Require Import MemoryManager.
From S2P Require Import FpgaController.
From S2P Require Import Fpga.
From S2P Require Import HbmTest.
From S2P Require Import TestProgram.
Open Scope Z_scope.

Section Answers.
Context `{FpgaEnv}.

(** Each read got the device's answer for what had happened before. *)
Definition answered (s : fstate) : Prop :=
  forall i p v, f_trace s !! i = Some (FRead p v) -> v = u32 (dev_read (take i (f_trace s)) p).

Definition no_read (e : fevent) : Prop := match e with FRead _ _ => False | _ => True end.

Lemma answered_flog e s :
  answered s -> (forall p v, e = FRead p v -> v = u32 (dev_read (f_trace s) p)) -> answered (flog e s).
Proof.
  intros Hs He i p v. cbn [flog f_trace]. intros Hi. apply lookup_app_Some in Hi as [Hi|[Hl Hi]].
  - rewrite take_app_le; [by apply Hs|]. apply lookup_lt_Some in Hi. lia.
  - destruct (i - length (f_trace s))%nat eqn:E; [|done]. injection Hi as ->.
    rewrite take_app_le, take_ge by lia. by apply He.
Qed.

Lemma answered_trace s s' : f_trace s' = f_trace s -> answered s -> answered s'.
Proof. unfold answered. by intros ->. Qed.

(** ** The library of the controller *)

Lemma answered_fdo e : no_read e -> keeps answered (fdo e).
Proof. intros He s Hs. apply answered_flog; [done|]. by intros p v ->. Qed.

Lemma answered_fask {A} (ans : fhist -> A) e :
  (forall a, no_read (e a)) -> keeps answered (fask ans e).
Proof.
  intros He s Hs. apply answered_flog; [done|]. intros p v E. specialize (He (ans (f_trace s))).
  by rewrite E in He.
Qed.

Lemma answered_touch p : keeps answered (touch p).
Proof. unfold touch. auto with keeps. Qed.

Lemma answered_writeReg c k v : keeps answered (writeReg c k v).
Proof. apply keeps_bind; [apply answered_touch|]. intros _. by apply answered_fdo. Qed.

Lemma answered_readReg c k : keeps answered (readReg c k).
Proof.
  apply keeps_bind; [apply answered_touch|]. intros _. apply keeps_bind; [|auto with keeps].
  intros s Hs. apply answered_flog; [done|]. by intros p v [= <- <-].
Qed.

Lemma answered_mmap d n : keeps answered (mmap d n).
Proof.
  apply keeps_bind; [by apply answered_fask|]. intros p.
  apply keeps_bind; [|auto with keeps]. destruct (_ =? _); [apply keeps_ret|].
  intros s Hs. by eapply answered_trace.
Qed.

Lemma answered_munmap p n : keeps answered (munmap p n).
Proof.
  apply keeps_bind; [by apply answered_fask|]. intros rc.
  apply keeps_bind; [|auto with keeps]. destruct (_ =? _); [apply keeps_ret|].
  intros s Hs. by eapply answered_trace.
Qed.

#[local] Hint Resolve answered_writeReg answered_readReg answered_mmap answered_munmap : keeps.
#[local] Hint Extern 1 (keeps answered (fdo _)) => (apply answered_fdo; exact I) : keeps.

Ltac kept :=
  intros; first [ solve [auto with keeps]
                | apply keeps_bind; kept
                | apply keeps_for; kept
                | match goal with |- keeps _ (if ?b then _ else _) => destruct b; kept end ].

Lemma answered_configHBM c wg no sl bs ia ch : keeps answered (configHBM c wg no sl bs ia ch).
Proof. unfold configHBM. kept. Qed.

Lemma answered_runHBMtest c we re lt ch wg no sl bs ia :
  keeps answered (runHBMtest c we re lt ch wg no sl bs ia).
Proof. unfold runHBMtest. kept. Qed.

Lemma answered_wait_done c fuel we re : keeps answered (wait_done c fuel we re).
Proof. induction fuel as [|fuel IH]; cbn [wait_done]; kept. Qed.

Lemma answered_print_speed c rd mhz no bursts i : keeps answered (print_speed c rd mhz no bursts i).
Proof. unfold print_speed. kept. Qed.

#[local] Hint Resolve answered_configHBM answered_runHBMtest answered_wait_done answered_print_speed : keeps.

Lemma answered_print_speeds c mhz we re no bursts : keeps answered (print_speeds c mhz we re no bursts).
Proof. unfold print_speeds. kept. Qed.

Lemma answered_print_latencies c no : keeps answered (print_latencies c no).
Proof.
  unfold print_latencies. apply keeps_bind; [kept|]. intros [arr|[]]. kept.
Qed.

#[local] Hint Resolve answered_print_speeds answered_print_latencies : keeps.

Lemma answered_run_test k c fuel st : keeps answered (run_test k c fuel st).
Proof.
  unfold run_test, config_channels, read_data. cbv zeta. kept.
Qed.

(** ** The whole program *)

Lemma answered_lift {A} (m : fprog A) :
  keeps answered m -> keeps (fun s => answered (world s)) (lift m).
Proof.
  intros Hm s Hs. specialize (Hm _ Hs). unfold lift. by destruct (m (world s)) as [o w].
Qed.
Abbreviation true_reads := (fun s : fpga => answered (world s)).

Lemma answered_object f : (forall s, world (f s) = world s) -> keeps true_reads (modify_state f).
Proof. intros E s Hs. cbn. by rewrite E. Qed.

#[local] Hint Extern 1 (keeps _ (modify_state _)) => (apply answered_object; done) : keeps.
#[local] Hint Extern 1 (keeps _ (lift _)) => (apply answered_lift; auto with keeps) : keeps.
#[local] Hint Extern 1 (keeps answered (fask _ _)) => (apply answered_fask; done) : keeps.

Lemma answered_setup_devices d b base : keeps true_reads (setup_devices d b base).
Proof.
  unfold setup_devices, ioctl, create_manager, touch_region, new_controller.
  apply keeps_bind; [auto with keeps|]. intros s. apply keeps_bind; [|intros _; cbv zeta; kept].
  destruct (controller s); [|auto with keeps..]. apply keeps_bind; [|auto with keeps].
  apply answered_lift. kept.
Qed.

#[local] Hint Resolve answered_setup_devices : keeps.

Lemma answered_initializeMemory : keeps true_reads initializeMemory.
Proof. unfold initializeMemory, open_path. kept. Qed.

Lemma answered_clear : keeps true_reads clear.
Proof.
  unfold clear, close. apply keeps_bind; [auto with keeps|]. intros s.
  apply keeps_bind; [|intros c; apply keeps_bind; [auto with keeps|intros _; apply keeps_bind]].
  - destruct (controller s); cbn [delete]; [auto with keeps| |auto with keeps].
    apply keeps_bind; [|auto with keeps]. apply answered_lift. unfold delete_controller. kept.
  - destruct (mm s); cbn [delete]; auto with keeps.
  - intros m. kept.
Qed.

Lemma answered_main k fuel o : keeps true_reads (main k fuel o).
Proof.
  unfold main, getController. apply keeps_bind; [by apply answered_object|]. intros _.
  apply keeps_bind; [apply answered_initializeMemory|]. intros _.
  apply keeps_bind; [auto with keeps|]. intros [|c|]; cbn [deref]; [by apply keeps_halt| |by apply keeps_halt].
  rewrite pbind_ret. apply keeps_bind; [|intros _; apply answered_clear].
  apply answered_lift. intros s Hs. unfold main_test.
  destruct (configure k o (tk_defaults k)) as [[[]|r] st]; [by apply answered_run_test|done].
Qed.

End Answers.
