(* ===== verification/Machine.v ===== *)
(** * The test programs on the modelled hardware

    The class [FpgaEnv] leaves open what the device answers.  Here it is the top
    level of [System] behind the bridge of [Bridge]: a read of a register is
    answered with the word that the bus shows when everything the program did
    before has been on it. *)

From Stdlib Require Import Permutation Ascii String.
From stdpp Require Import base gmap list strings numbers option.
From S2P Require Import Prelude CInt Clock ClockDomains.
From S2P Require Import FpgaController.
From S2P Require Import Fpga.
From S2P Require Import RdEngine.
From S2P Require Import WrEngine.
From S2P Require Import Channel.
From S2P Require Import AxiLite.
From S2P Require Import BenchControl.
From S2P Require Import Crossing.
From S2P Require Import System.
From S2P Require Import SystemTheorems.
From S2P Require Import HbmTest.
From S2P Require Import HostSystem.
From S2P Require Import Bridge.
From S2P Require Import TestProgram.
Open Scope Z_scope.

(** ** What the bus sees of an event *)

Definition on_bus_event (e : fevent) : option fevent :=
  match e with
  | FWrite p v => Some (FWrite (p mod 4096) v)
  | FRead p _ => Some (FRead (p mod 4096) 0)
  | _ => None
  end.

Lemma event_in_bus e p queues : event_in (e ≫= on_bus_event) p queues = event_in e p queues.
Proof. destruct e as [[]|], p as [|[|p]]; cbn; by rewrite ?Z.mod_mod. Qed.

Lemma bus_write_bus e : on_bus_event e ≫= bus_write = bus_write e.
Proof. destruct e; cbn; by rewrite ?Z.mod_mod. Qed.

(** A history as a stream. *)
Definition history (h : list fevent) (n : nat) : option fevent := h !! n ≫= on_bus_event.

Lemma history_bridge queues h j : bridge queues (history h) j = bridge queues (fun n => h !! n) j.
Proof. apply event_in_bus. Qed.

Lemma history_app_l h h' n : (n < length h)%nat -> history (h ++ h') n = history h n.
Proof. intros Hn. unfold history. by rewrite lookup_app_l. Qed.

Lemma history_app_r h h' n : (length h <= n)%nat -> history (h ++ h') n = history h' (n - length h).
Proof. intros Hn. unfold history. by rewrite lookup_app_r. Qed.

(** The same events for another place of the registers. *)
Definition alike (h h' : list fevent) : Prop := on_bus_event <$> h = on_bus_event <$> h'.

Lemma alike_app h1 h2 k1 k2 : alike h1 k1 -> alike h2 k2 -> alike (h1 ++ h2) (k1 ++ k2).
Proof. unfold alike. intros E1 E2. by rewrite !fmap_app, E1, E2. Qed.

Lemma alike_history h h' n : alike h h' -> history h n = history h' n.
Proof.
  intros E. apply (f_equal (.!! n)) in E. rewrite !list_lookup_fmap in E. unfold history.
  destruct (h !! n), (h' !! n); cbn in *; congruence.
Qed.

Lemma alike_length h h' : alike h h' -> length h = length h'.
Proof. intros E. apply (f_equal length) in E. by rewrite !length_fmap in E. Qed.

Lemma alike_off_bus h n : Forall off_bus h -> length h = n -> alike h (replicate n FSleep).
Proof.
  intros Hh <-. unfold alike. induction Hh as [|e h He _ IH]; [done|]. cbn. rewrite IH.
  by destruct e.
Qed.

Lemma reg_addr_page c c' k :
  m_base c mod 4096 = 0 -> m_base c' mod 4096 = 0 -> reg_addr c k mod 4096 = reg_addr c' k mod 4096.
Proof. intros E E'. unfold reg_addr. by rewrite Z.add_mod, E, (Z.add_mod (m_base c')), E' by done. Qed.

Section Alike.
Context (c c' : FpgaController) (Hc : m_base c mod 4096 = 0) (Hc' : m_base c' mod 4096 = 0).

Lemma alike_locked ws : alike (locked_writes c ws) (locked_writes c' ws).
Proof.
  unfold alike, locked_writes. cbn. f_equal. rewrite !fmap_app. f_equal.
  rewrite <- !list_fmap_compose. apply list_fmap_ext. intros _ w _. cbn. by rewrite (reg_addr_page c c').
Qed.

Lemma alike_start k st : alike (start_events k c st) (start_events k c' st).
Proof.
  unfold start_events. apply alike_app; [|apply alike_app; [apply alike_locked|]].
  - unfold setup_events. induction (seqZ 0 (tk_channels k)) as [|i l IH]; [done|]. cbn [flat_map].
    apply alike_app; [apply alike_locked|done].
  - unfold alike. cbn. by rewrite (reg_addr_page c c').
Qed.

Lemma alike_round w1 w2 v1 v2 : alike (round_events c w1 w2) (round_events c' v1 v2).
Proof. unfold alike. cbn. by rewrite !(reg_addr_page c c'). Qed.

Lemma alike_polls vs vs' : length vs = length vs' -> alike (polls c vs) (polls c' vs').
Proof.
  revert vs'. induction vs as [|v vs IH]; intros [|v' vs'] Hl; try done.
  apply (alike_app (round_events c v.1 v.2) (polls c vs) (round_events c' v'.1 v'.2) (polls c' vs'));
    [apply alike_round|]. apply IH. by injection Hl.
Qed.
End Alike.

(** ** The program on the bus *)

Definition home : FpgaController := Controller 0 0.
Definition preamble (B : design) (st : settings) : list fevent :=
  replicate init_length FSleep ++ start_events (test_of B) home st.
Definition round : list fevent := round_events home 0 0.

(** A program that waits for ever. *)
Definition expected (B : design) (st : settings) (n : nat) : option fevent :=
  let k := length (preamble B st) in
  if (n <? k)%nat then history (preamble B st) n else history round ((n - k) mod 5).

Lemma history_rounds k m n :
  (m <= 5)%nat -> (n < 5 * k + m)%nat ->
  history (polls home (replicate k (0, 0)) ++ take m round) n = history round (n mod 5).
Proof.
  intros Hm. revert n. induction k as [|k IH]; intros n Hn.
  - rewrite Nat.mod_small by lia. unfold history. cbn [replicate polls fmap list_fmap concat app].
    by rewrite lookup_take_lt by lia.
  - change (polls home (replicate (S k) (0, 0))) with (round ++ polls home (replicate k (0, 0))).
    rewrite <- app_assoc. destruct (decide (n < 5)%nat) as [Hlt|Hge].
    + by rewrite history_app_l, Nat.mod_small.
    + rewrite history_app_r by (cbn; lia). change (length round) with 5%nat.
      rewrite IH by lia. f_equal. replace n with (n - 5 + 1 * 5)%nat at 2 by lia. by rewrite Nat.Div0.mod_add.
Qed.

Lemma length_polls c vs : length (polls c vs) = (5 * length vs)%nat.
Proof. unfold polls. induction vs as [|v vs IH]; [done|]. cbn in *. lia. Qed.

(** Every history of a waiting program is one of these. *)
Lemma history_expected B st h k m n :
  alike h (preamble B st ++ polls home (replicate k (0, 0)) ++ take m round) -> (m <= 5)%nat ->
  (n < length h)%nat -> history h n = expected B st n.
Proof.
  intros Ha Hm Hn. rewrite (alike_history _ _ _ Ha). rewrite (alike_length _ _ Ha) in Hn.
  rewrite !length_app, length_polls, length_replicate, length_take in Hn.
  unfold expected. destruct (Nat.ltb_spec n (length (preamble B st))).
  - by rewrite history_app_l.
  - rewrite history_app_r by done. apply history_rounds; lia.
Qed.

(** *** What is sent *)

Lemma sent_ext evs evs' n : (forall i, (i < n)%nat -> evs i = evs' i) -> sent evs n = sent evs' n.
Proof.
  induction n as [|n IH]; intros H; [done|]. rewrite !sent_next, IH, H by auto with lia. done.
Qed.

Lemma sent_history h n : sent (history h) n = omap bus_write (take n h).
Proof.
  induction n as [|n IH]; [done|]. rewrite sent_next, IH. unfold history.
  destruct (h !! n) as [e|] eqn:He.
  - rewrite (take_S_r h n e He), omap_app. f_equal. cbn. rewrite bus_write_bus. by destruct (bus_write e).
  - apply lookup_ge_None in He. cbn. by rewrite app_nil_r, !take_ge by lia.
Qed.

Lemma omap_take {A C} (f : A -> option C) l n : exists m, omap f (take n l) = take m (omap f l).
Proof.
  exists (length (omap f (take n l))).
  rewrite <- (take_drop n l) at 3. by rewrite omap_app, take_app_length.
Qed.

Lemma sent_expected B st n :
  exists m, sent (expected B st) n = take m (omap bus_write (preamble B st)).
Proof.
  set (P := preamble B st). set (k := length P).
  assert (Hpre : forall n, (n <= k)%nat -> sent (expected B st) n = omap bus_write (take n P)).
  { intros i Hi. rewrite <- sent_history. apply sent_ext. intros j Hj. unfold expected.
    fold P. rewrite (proj2 (Nat.ltb_lt _ _)); [done|]. unfold k in *. lia. }
  destruct (decide (n <= k)%nat) as [Hle|Hgt]; [rewrite Hpre by done; apply omap_take|].
  exists (length (omap bus_write P)). rewrite take_ge by done.
  assert (H : forall d, sent (expected B st) (k + d) = omap bus_write P).
  { induction d as [|d IH].
    - rewrite Nat.add_0_r, Hpre by done. unfold k. by rewrite take_ge.
    - rewrite Nat.add_succ_r, sent_next, IH. unfold expected. fold P.
      rewrite (proj2 (Nat.ltb_ge _ _)) by (unfold k; lia).
      assert (E : (history round ((k + d - length P) mod 5) ≫= bus_write) = None).
      { pose proof (Nat.mod_upper_bound (k + d - length P) 5 ltac:(done)).
        by destruct ((k + d - length P) mod 5)%nat as [|[|[|[|[|?]]]]]; [..|lia]. }
      rewrite E. apply app_nil_r. }
  replace n with (k + (n - k))%nat by lia. apply H.
Qed.

(** *** Writes of the program on the bus *)

(** A write, if it is one, to the first registers of the controller. *)
Definition low_write (c : FpgaController) (e : fevent) : Prop :=
  match e with FWrite p _ => exists k, p = reg_addr c k /\ 0 <= k < 64 | _ => True end.

Lemma bus_writes c evs :
  m_base c mod 4096 = 0 -> Forall (low_write c) evs -> omap bus_write evs = on_bus (reg_writes c evs).
Proof.
  intros Hc. induction 1 as [|e evs He _ IH]; [done|].
  destruct e as [| | | | | | | |p v| | | | |]; cbn; try exact IH.
  destruct He as (k & -> & Hk). unfold on_bus, reg_writes in *. rewrite IH. cbn. f_equal. f_equal.
  unfold reg_addr. rewrite Z.add_mod, Hc, Z.add_0_l, Z.mod_mod, Z.mod_small by lia.
  replace (m_base c + 4 * k - m_base c) with (k * 4) by lia. by rewrite Z.div_mul by done.
Qed.

Lemma low_locked c ws : Forall (fun w => 0 <= w.1 < 64) ws -> Forall (low_write c) (locked_writes c ws).
Proof.
  intros Hws. unfold locked_writes. constructor; [done|]. apply Forall_app_2; [|by constructor].
  apply Forall_fmap. eapply Forall_impl; [|exact Hws]. intros w Hw. by eexists.
Qed.

Lemma small_low (ws : list (Z * Z)) :
  Forall (fun w => 0 < w.1 < 64) ws -> Forall (fun w => 0 <= w.1 < 64) ws.
Proof. intros H. eapply Forall_impl; [|exact H]. intros w Hw. cbn beta in *. lia. Qed.

Lemma low_setup c st n : Forall (low_write c) (setup_events c st n).
Proof.
  unfold setup_events. induction (seqZ 0 n) as [|i l IH]; [constructor|]. cbn [flat_map].
  apply Forall_app_2; [apply low_locked, small_low, config_small|done].
Qed.

Lemma low_start k c st : Forall (low_write c) (start_events k c st).
Proof.
  unfold start_events. apply Forall_app_2; [apply low_setup|]. apply Forall_app_2.
  - apply low_locked, small_low, run_small.
  - constructor; [done|]. constructor; [by eexists|constructor].
Qed.

Lemma start_writes B c st :
  0 <= latency_channel st < 32 -> reg_writes c (start_events (test_of B) c st) = program_writes B st.
Proof.
  intros Hc. unfold start_events, program_writes.
  rewrite !reg_writes_app, setup_events_writes, reg_writes_locked, test_channels. do 2 f_equal.
  change (reg_writes c [FLock; ?e]) with (reg_writes c [e]). unfold reg_writes. cbn [omap list_omap].
  rewrite reg_writes_addr. by rewrite u32_small by lia.
Qed.

Lemma bus_preamble B st :
  0 <= latency_channel st < 32 -> omap bus_write (preamble B st) = on_bus (program_writes B st).
Proof.
  intros Hc. unfold preamble. rewrite omap_app.
  change (omap bus_write (replicate init_length FSleep)) with (@nil (Z * Z)). cbn [app].
  rewrite (bus_writes home), start_writes; [done|done|done|apply low_start].
Qed.

(** ** The machine *)

Section Machine.
Context (B : design) (bus : clock) (mem : Z -> clock) (mm : mem_model) (s0 : sys).
Context (queues : nat -> ctl_in) (os : FpgaEnv).

(** The top level when the host does [evs]. *)
Abbreviation run evs := (whole B bus mem mm s0 (bridge queues evs)).

(** The answer to a read is what the bus shows in the second cycle of its slot. *)
Definition device_read (h : list fevent) (p : Z) : Z :=
  s_axil_rdata (xdma_control
    (run (fun n => (h ++ [FRead p 0]) !! n) (edge_at bus (S (slot * length h)))).1).

Definition machine : FpgaEnv := {|
  host_big_endian := false;
  dev_read := device_read;
  os_mmap := @os_mmap os; os_munmap := @os_munmap os; os_open := @os_open os;
  os_calloc := @os_calloc os; os_ioctl := @os_ioctl os; os_memory := @os_memory os |}.

Lemma machine_works : WorkingOs (H := os) -> WorkingOs (H := machine).
Proof. by intros []. Qed.

(** The device does not look ahead. *)
Lemma device_read_run h p evs :
  (forall n, (n <= length h)%nat -> history (h ++ [FRead p 0]) n = evs n) ->
  device_read h p = s_axil_rdata (xdma_control (run evs (edge_at bus (S (slot * length h)))).1).
Proof.
  intros H. unfold device_read. do 3 f_equal. apply whole_agree with (n := S (slot * length h));
    [|by rewrite edges_at].
  intros j Hj. rewrite <- history_bridge. unfold bridge. rewrite H; [done|].
  pose proof (Nat.Div0.div_le_mono j (slot * length h) slot ltac:(lia)) as Hd.
  by rewrite Nat.mul_comm, Nat.div_mul in Hd.
Qed.

(** What the bus shows of a register. *)
Lemma run_register evs n a v :
  evs n = Some (FRead a v) -> 0 <= a < 256 -> a mod 4 = 0 ->
  w_cstate (xdma_control s0) = WIDLE -> r_cstate (xdma_control s0) = RIDLE ->
  s_axil_rdata (xdma_control (run evs (edge_at bus (S (slot * n)))).1) =
    control_reg (xdma_control (system B bus mem (whole_env B bus mem mm s0 (bridge queues evs)) s0
      (edge_at bus (S (slot * n))))) (a / 4).
Proof.
  intros He Ha Ha4 Hw Hr. rewrite whole_system, bus_run, edges_at.
  rewrite (proj2 (bridge_read B _ _ queues evs (whole_bus _ _ _ _ _ _) Hw Hr n a v He)).
  f_equal. rewrite Z.mod_small by lia. unfold slice. rewrite Z.shiftr_div_pow2 by done.
  change (2 ^ 2) with 4. apply Z.mod_small. split; [apply Z.div_pos; lia|].
  apply Z.div_lt_upper_bound; [done|]. change (2 ^ 6) with 64. lia.
Qed.
End Machine.

(** ** The device finishes *)

(** A board that is ready for the test with settings [st]: it waits, and when its
    engines have been started its memories serve them, whatever the host does. *)
Record ready_board (B : design) (bus : clock) (mem : Z -> clock) (mm : mem_model) (s0 : sys)
    (b0 : bench) (queues : nat -> ctl_in) (st : settings) : Prop := {
  rb_board : waiting_board B bus mem s0 b0;
  rb_similar : similar_memories B mem;
  rb_channel : latency_channel st < n_mem_intf B;
  rb_write : write_enable st < 2 ^ n_mem_intf B;
  rb_read : read_enable st < 2 ^ n_mem_intf B;
  rb_served : forall evs, let env := whole_env B bus mem mm s0 (bridge queues evs) in
    let p := params_of B (dma_control_reg b0 17) st in operating B bus mem env s0 b0 ->
    forall j0, first_start B bus mem env s0 b0 j0 (write_enable st) (read_enable st) p ->
      served B bus mem env s0 j0 (write_enable st) (read_enable st) p;
}.

Section Finishes.
Context (B : design) (bus : clock) (mem : Z -> clock) (mm : mem_model) (s0 : sys) (b0 : bench).
Context (queues : nat -> ctl_in) (os : FpgaEnv) (st : settings).
Context (Hrb : ready_board B bus mem mm s0 b0 queues st) (Hwf : wf_settings st).

Abbreviation env := (whole_env B bus mem mm s0 (bridge queues (expected B st))).
Abbreviation device := (device_read B bus mem mm s0 queues).

Lemma expected_sends n : exists m, sent (expected B st) n = take m (on_bus (program_writes B st)).
Proof. rewrite <- bus_preamble by apply Hwf. apply sent_expected. Qed.

Lemma expected_operating : operating B bus mem env s0 b0.
Proof. eapply board_operating; [apply Hrb|apply program_spares|apply expected_sends]. Qed.

Lemma expected_drives : drives B bus mem env s0 (program_writes B st).
Proof.
  split.
  - intros j. eapply host_prefix; [apply Hrb|apply expected_sends].
  - set (k := length (preamble B st)). exists (slot * k)%nat. unfold host_requests.
    erewrite bridge_requests; [|apply whole_bus|apply Hrb..].
    transitivity (sent (history (preamble B st)) k).
    + apply sent_ext. intros i Hi. unfold expected. fold k. by rewrite (proj2 (Nat.ltb_lt _ _) Hi).
    + rewrite sent_history. unfold k. rewrite take_ge by done. by apply bus_preamble, Hwf.
Qed.

Lemma expected_finishes :
  exists J, forall j, (J <= j)%nat ->
    control_reg (xdma_control (system B bus mem env s0 (edge_at bus j))) 12 = write_enable st /\
    control_reg (xdma_control (system B bus mem env s0 (edge_at bus j))) 13 = read_enable st.
Proof.
  assert (Hm : master B (bus_env B bus mem env s0) (xdma_control s0)).
  { eapply board_master, Hrb. }
  destruct (program_finishes B bus mem env s0 b0 st expected_operating Hwf (rb_channel _ _ _ _ _ _ _ _ Hrb)
    (rb_write _ _ _ _ _ _ _ _ Hrb) (rb_read _ _ _ _ _ _ _ _ Hrb) expected_drives
    (rb_similar _ _ _ _ _ _ _ _ Hrb) Hm (rb_served _ _ _ _ _ _ _ _ Hrb _ expected_operating))
    as (j0 & _ & (J1 & H1) & (J2 & H2) & _).
  exists (J1 + J2)%nat. intros j Hj. split; [apply H1|apply H2]; lia.
Qed.

(** A read of the waiting loop, in any history of the program. *)
Lemma waiting_read c h k m a v :
  m_base c mod 4096 = 0 -> (m < 5)%nat -> round !! m = Some (FRead a v) -> 0 <= a < 256 -> a mod 4 = 0 ->
  alike h (preamble B st ++ polls home (replicate k (0, 0)) ++ take m round) ->
  device h (m_base c + a) =
    control_reg (xdma_control (system B bus mem env s0 (edge_at bus (S (slot * length h))))) (a / 4).
Proof.
  intros Hc Hm Hr Ha Ha4 Hh. pose proof (alike_length _ _ Hh) as Hl.
  assert (Hread : alike (h ++ [FRead (m_base c + a) 0])
    (preamble B st ++ polls home (replicate k (0, 0)) ++ take (S m) round)).
  { rewrite (take_S_r _ _ _ Hr), !app_assoc. apply alike_app; [by rewrite <- app_assoc|].
    unfold alike. cbn. by rewrite Z.add_mod, Hc, Z.add_0_l, Z.mod_mod. }
  assert (Hexp : forall n, (n <= length h)%nat ->
    history (h ++ [FRead (m_base c + a) 0]) n = expected B st n).
  { intros n Hn. apply (history_expected B st _ k (S m)); [done|lia|]. rewrite length_app. cbn. lia. }
  rewrite (device_read_run B bus mem mm s0 queues h _ _ Hexp).
  apply run_register with (v := 0); [|done|done|apply Hrb..].
  rewrite <- Hexp by done. rewrite history_app_r, Nat.sub_diag by done. unfold history. cbn.
  rewrite Z.add_mod, Hc, Z.add_0_l, Z.mod_mod by done. by rewrite Z.mod_small by lia.
Qed.

Lemma alike_preamble c h :
  m_base c mod 4096 = 0 -> fresh_history h ->
  alike (h ++ start_events (test_of B) c st) (preamble B st).
Proof.
  intros Hc [Hh Hl]. apply alike_app; [by apply alike_off_bus|]. by apply alike_start.
Qed.

Lemma machine_finishes :
  exists n, forall c h, m_base c mod 4096 = 0 -> fresh_history h ->
    finishes (H := machine B bus mem mm s0 queues os) c (h ++ start_events (test_of B) c st) n
      (write_enable st) (read_enable st).
Proof.
  destruct expected_finishes as (J & HJ). exists J. intros c h Hc Hh vs v Hn.
  pose proof (alike_preamble c h Hc Hh) as Hp.
  assert (Hpoll : alike (polls c vs) (polls home (replicate (length vs) (0, 0)))).
  { apply alike_polls; [done|done|by rewrite length_replicate]. }
  assert (Hlong : forall e : list fevent, (1 <= length e)%nat ->
    (J <= S (slot * length ((h ++ start_events (test_of B) c st) ++ polls c vs ++ e)))%nat).
  { intros e He. rewrite !length_app, length_polls. unfold slot. lia. }
  cbn [dev_read machine]. split.
  - rewrite (waiting_read c _ (length vs) 1 48 0); [|done|lia|done|done|done|].
    + change (48 / 4) with 12. rewrite (proj1 (HJ _ (Hlong [FSleep] (le_n _)))). apply u32_small, Hwf.
    + apply alike_app; [done|]. by apply alike_app.
  - rewrite (waiting_read c _ (length vs) 3 52 0); [|done|lia|done|done|done|].
    + change (52 / 4) with 13. rewrite (proj2 (HJ _ (Hlong [FSleep; FRead (reg_addr c endWrAddr) v; FPrintStatus v] ltac:(cbn; lia)))). apply u32_small, Hwf.
    + apply alike_app; [done|]. apply alike_app; [done|]. unfold alike. cbn.
      by rewrite (reg_addr_page c home).
Qed.
End Finishes.
