(* ===== verification/Printed.v ===== *)
(** * What the test programs print

    The run of a test program on the hardware of [Machine], seen from its end:
    the trace of the program is what was on the bus, and the values that it read
    are those of the registers at that time.  When it prints the cycles of a
    channel, the engine of the channel has done all that it had to do, and the
    number is the one that the engine counted. *)

From Stdlib Require Import Permutation Ascii String.
From stdpp Require Import base gmap list strings numbers option.
From S2P Require Import Prelude CInt Clock ClockDomains.
From S2P Require Import FpgaController.
From S2P Require Import Fpga.
From S2P Require Import RdEngine.
From S2P Require Import WrEngine.
From S2P Require Import Channel.
From S2P Require Import AxiLite.
From S2P Require Import BenchControl.
From S2P Require Import Crossing.
From S2P Require Import System.
From S2P Require Import SystemTheorems.
From S2P Require Import HbmTest.
From S2P Require Import HostSystem.
From S2P Require Import Bridge.
From S2P Require Import TestProgram.
From S2P Require Import Answers.
From S2P Require Import Drivers.
From S2P Require Import Machine.
Open Scope Z_scope.

(** After three more edges of the slow clock the fast one has had two. *)
Lemma edges_later slow fast j J :
  keeps_up slow fast -> (1 <= j)%nat -> (j + 3 <= J)%nat ->
  (first_after slow fast j + 2 <= edges fast (edge_at slow J))%nat.
Proof.
  intros Hk Hj HJ. destruct (first_after_edges slow fast j Hk Hj) as (_ & E & _).
  destruct Hk as [_ Hk]. set (k := first_after slow fast j) in *.
  pose proof (Hk k) as H1. pose proof (Hk (S k)) as H2.
  destruct (edges_spec slow (edge_at fast (S (S k)))) as [H3 _].
  pose proof (edge_at_mono slow (edges slow (edge_at fast (S (S k)))) J ltac:(lia)) as H4.
  pose proof (edges_mono fast (edge_at fast (S (S k))) (edge_at slow J) ltac:(lia)) as H5.
  rewrite edges_at in H5. lia.
Qed.

Lemma status_range B s k : 0 <= status B s k < 2 ^ 32.
Proof.
  pose proof (n_mem_intf_range B) as Hn.
  assert (Hv : forall f, 0 <= vector (n_mem_intf B) f < 2 ^ 32).
  { intros f. pose proof (vector_range (n_mem_intf B) f ltac:(lia)).
    pose proof (Z.pow_le_mono_r 2 (n_mem_intf B) 32 ltac:(lia) ltac:(lia)). lia. }
  unfold status. destruct (k =? 12); [apply Hv|]. destruct (k =? 13); [apply Hv|].
  by destruct (k =? 14); apply slice_range.
Qed.

(** The read or write engine of channel [i], which has [ops] operations, in the run
    that starts in cycle [j0] of the bus: at the edge [te] of the channel, and not
    before, its flag has risen; the memory has accepted all its requests three
    edges before; and its timer has the cycles of the run. *)
Definition engine_ends (B : design) (bus : clock) (mem : Z -> clock) (env : nat -> sys_in) (s0 : sys)
    (j0 : nat) (rd : bool) (i ops : Z) (te : nat) : Prop :=
  let e := run_env B bus mem env s0 j0 i in
  let r := run_reg B bus mem env s0 j0 i in
  if rd
  then reports B i e r end_rd_o (fun u => RdEngine.lat_timer_sum (inst_rd_engine u)) te /\
       forall t, (te <= 3 + t)%nat ->
         count (RdEngine.accept (addr_width B) (data_width B) (len_width B) (rd_env B i e r) (rd_r0 B i e r)) t =
           trunc 32 ops
  else reports B i e r end_wr_o (fun u => WrEngine.lat_timer_sum (inst_wr_engine u)) te /\
       forall t, (te <= 3 + t)%nat ->
         count (WrEngine.accept (addr_width B) (data_width B) (len_width B) (wr_env B i e r) (wr_r0 B i e r)) t =
           trunc 64 ops.

Section Ends.
Context (B : design) (bus : clock) (mem : Z -> clock) (env : nat -> sys_in) (s0 : sys) (b0 : bench).
Context (j0 : nat) (we re : Z) (p : Z -> BenchControl.lt_params).
Context (Hop : operating B bus mem env s0 b0) (Hfs : first_start B bus mem env s0 b0 j0 we re p).
Context (Hsim : similar_memories B mem) (Hsv : served B bus mem env s0 j0 we re p).

Lemma engine_done (rd : bool) i :
  0 <= i < n_mem_intf B -> Z.testbit (if rd then re else we) i = true ->
  exists te, engine_ends B bus mem env s0 j0 rd i (lp_num_mem_ops (p i)) te.
Proof.
  intros Hi Hb. pose proof (channel_runs B bus mem env s0 b0 Hop j0 we re p Hfs Hsim i Hi) as Hrun.
  pose proof (n_mem_intf_range B). assert (H32 : 0 <= i < 32) by lia.
  destruct (Hsv i Hi) as [Hr Hw]. destruct rd; rewrite Hb in Hrun.
  - destruct (Hr Hb) as [Hops Hm]. exact (read_reports B i H32 (p i) _ _ _ _ Hrun eq_refl Hops Hm).
  - destruct (Hw Hb) as [Hops Hm]. exact (write_reports B i H32 (p i) _ _ _ _ Hrun eq_refl Hops Hm).
Qed.

(** Once the host sees the flag, it sees the timer when it selects the channel. *)
Lemma shown_cycles (rd : bool) i ops te j1 j2 :
  0 <= i < n_mem_intf B -> engine_ends B bus mem env s0 j0 rd i ops te ->
  (j0 + 3 <= j1)%nat -> (j1 <= j2)%nat ->
  Z.testbit (status B (system B bus mem env s0 (edge_at bus j1)) (if rd then 13 else 12)) i = true ->
  selected (system B bus mem env s0 (edge_at bus j2)) = i ->
  status B (system B bus mem env s0 (edge_at bus j2)) (if rd then 15 else 14) = trunc 32 (Z.of_nat te - 6).
Proof.
  intros Hi He Hj1 Hj2 Hf Hs.
  pose proof (edges_later bus (mem i) j0 j1 (op_clocks _ _ _ _ _ _ Hop i Hi)
    (first_start_late B bus mem env s0 b0 j0 we re p Hfs) Hj1) as H1.
  pose proof (edges_seen_mono (mem i) bus j1 j2 Hj2) as H2.
  change (first_after bus (mem i) j0) with (run_edge bus mem j0 i) in H1.
  set (n1 := edges (mem i) (edge_at bus j1)) in *. set (n2 := edges (mem i) (edge_at bus j2)) in *.
  assert (E : forall n, (run_edge bus mem j0 i <= n)%nat -> ch B i (ch_env B bus mem env s0 i) (channels s0 i) n =
    ch B i (run_env B bus mem env s0 j0 i) (run_reg B bus mem env s0 j0 i) (n - run_edge bus mem j0 i)).
  { intros n Hn. rewrite run_shift. f_equal. lia. }
  destruct rd; destruct He as [Hr _]; unfold status in *; cbn [Z.eqb Pos.eqb] in *;
    rewrite testbit_vector in Hf by done; rewrite ?Hs; rewrite channel_run in Hf |- *;
    fold n1 in Hf; fold n2; rewrite E in Hf |- * by lia;
    destruct (Hr (n1 - run_edge bus mem j0 i)%nat ltac:(lia)) as [Ef _]; rewrite Ef in Hf; apply Nat.ltb_lt in Hf;
    destruct (Hr (n2 - run_edge bus mem j0 i)%nat ltac:(lia)) as [_ Ht]; rewrite Ht by lia;
    unfold slice; rewrite Z.shiftr_0_r; by apply (trunc_trunc 32 64).
Qed.
End Ends.

Section Trace.
Context (B : design) (bus : clock) (mem : Z -> clock) (mm : mem_model) (s0 : sys) (b0 : bench).
Context (queues : nat -> ctl_in) (st : settings).
Context (Hrb : ready_board B bus mem mm s0 b0 queues st) (Hwf : wf_settings st).

(** A trace with the writes of the program and with the answers of the machine. *)
Context (c : FpgaController) (T : list fevent) (later : list (Z * Z)).
Context (Hc : m_base c mod 4096 = 0) (Hlater : selects later).
Context (Hbus : omap bus_write T = on_bus (program_writes B st ++ later)).
Context (Hans : forall i p v, T !! i = Some (FRead p v) ->
  v = u32 (device_read B bus mem mm s0 queues (take i T) p)).

Abbreviation env := (whole_env B bus mem mm s0 (bridge queues (history T))).
Abbreviation sys_at := (system B bus mem env s0).
Abbreviation benv := (bus_env B bus mem env s0).

Lemma trace_spares : spares_reset (on_bus (program_writes B st ++ later)).
Proof.
  apply small_spares, Forall_app_2; [apply program_small|].
  eapply Forall_impl; [|exact Hlater]. intros w Hw. cbn beta in *. lia.
Qed.

Lemma trace_sends n : exists m, sent (history T) n = take m (on_bus (program_writes B st ++ later)).
Proof. rewrite sent_history, <- Hbus. apply omap_take. Qed.

Lemma trace_operating : operating B bus mem env s0 b0.
Proof. eapply board_operating; [apply Hrb|apply trace_spares|apply trace_sends]. Qed.

Lemma trace_bus j : exists f, benv j = with_status f (bridge queues (history T) j).
Proof. apply whole_bus. Qed.

Lemma slot_requests n :
  host_requests B bus mem env s0 (slot * n) = omap bus_write (take n T).
Proof.
  unfold host_requests. erewrite bridge_requests; [apply sent_history|apply trace_bus|apply Hrb..].
Qed.

Lemma trace_drives : drives B bus mem env s0 (program_writes B st ++ later).
Proof.
  split.
  - intros j. eapply host_prefix; [apply Hrb|apply trace_sends].
  - exists (slot * length T)%nat. by rewrite slot_requests, take_ge.
Qed.

Lemma trace_starts :
  exists j0, first_start B bus mem env s0 b0 j0 (write_enable st) (read_enable st)
               (params_of B (dma_control_reg b0 17) st).
Proof. eapply program_starts; [exact Hlater|apply trace_operating|apply trace_drives|done|apply Hrb..]. Qed.

(** ** Reads *)

Lemma trace_read n k v :
  T !! n = Some (FRead (reg_addr c k) v) -> 12 <= k <= 15 ->
  v = status B (sys_at (edge_at bus (slot * n))) k.
Proof.
  intros Hn Hk. pose proof (lookup_lt_Some _ _ _ Hn) as Hlen.
  assert (Hl : length (take n T) = n) by (rewrite length_take; lia).
  assert (Hpage : reg_addr c k mod 4096 = 4 * k).
  { unfold reg_addr. by rewrite Z.add_mod, Hc, Z.add_0_l, Z.mod_mod, Z.mod_small by lia. }
  rewrite (Hans _ _ _ Hn), (device_read_run B bus mem mm s0 queues _ _ (history T)).
  - rewrite Hl, (run_register B bus mem mm s0 queues (history T) n (4 * k) 0); [|
      unfold history; rewrite Hn; cbn; by rewrite Hpage|lia|by rewrite Z.mul_comm, Z.mod_mul|apply Hrb..].
    rewrite Z.mul_comm, Z.div_mul by done. rewrite bus_run, edges_at, ctl_S.
    cbn [ctl_step control_reg]. unfold bank_next.
    rewrite (bus_reset B bus mem env s0 b0 trace_operating).
    rewrite (proj1 (idle_slots B benv _ queues (history T) trace_bus (wb_idle _ _ _ _ _ (rb_board _ _ _ _ _ _ _ _ Hrb))
      (wb_read_idle _ _ _ _ _ (rb_board _ _ _ _ _ _ _ _ Hrb)) n)).
    change (WIDLE =? WBRSP) with false. cbn [negb]. unfold status_regs.
    rewrite (proj2 (Z.leb_le 12 k)), (proj2 (Z.leb_le k 15)) by lia.
    apply u32_small, status_range.
  - rewrite Hl. intros i Hi. unfold history. destruct (decide (i = n)) as [->|Hne].
    + rewrite lookup_app_r, Hl, Nat.sub_diag, Hn by lia. reflexivity.
    + rewrite lookup_app_l, lookup_take_lt by lia. done.
Qed.

(** ** The selected channel *)

(** What was written in a slot is there at the begin of the next one. *)
Lemma slot_bank n : bank_at B bus mem env s0 b0 (slot * S n) = hw_requests B (omap bus_write (take (S n) T)) b0.
Proof.
  unfold bank_at. rewrite <- slot_requests. f_equal.
  assert (H : forall p, (2 <= p < slot)%nat ->
    host_requests B bus mem env s0 (slot * n + p) = host_requests B bus mem env s0 (S (slot * n + p))).
  { intros p Hp. symmetry. apply requests_idle.
    - apply (bus_reset B bus mem env s0 b0 trace_operating).
    - apply Hrb.
    - destruct (slot_taken B benv (xdma_control s0) queues (history T) trace_bus
        (wb_idle _ _ _ _ _ (rb_board _ _ _ _ _ _ _ _ Hrb))
        (wb_read_idle _ _ _ _ _ (rb_board _ _ _ _ _ _ _ _ Hrb)) n p ltac:(lia)) as [_ ->].
      destruct p as [|[|p]]; [lia|lia|]. apply andb_false_r. }
  replace (slot * S n)%nat with (S (slot * n + 31)) by (unfold slot; lia).
  rewrite <- (H 31%nat) by (unfold slot; lia).
  replace (S (slot * n + 31) - 2)%nat with (slot * n + 30)%nat by lia.
  rewrite (H 30%nat) by (unfold slot; lia). by rewrite <- Nat.add_succ_r.
Qed.

Lemma trace_selected n i :
  T !! n = Some (FWrite (reg_addr c 10) (u32 i)) -> 0 <= i < 32 ->
  selected (sys_at (edge_at bus (slot * S n))) = i.
Proof.
  intros Hn Hi. unfold selected. rewrite bus_run, edges_at.
  destruct (outputs_agree B _ _ (fun l Hl => shown_at B bus mem env s0 b0 trace_operating (slot * S n) l Hl))
    as (_ & -> & _).
  rewrite slot_bank, (take_S_r _ _ _ Hn), omap_app. unfold hw_requests. rewrite fold_left_app.
  cbn [omap list_omap bus_write fold_left fst snd]. rewrite u32_small by lia.
  unfold reg_addr. rewrite Z.add_mod, Hc, Z.add_0_l, Z.mod_mod by done.
  change (4 * 10 mod 4096) with (4 * 10). rewrite hw_write_reg by lia. cbv zeta. cbn [dma_control_reg].
  unfold out_hbm_channel. cbn. apply Z.mod_small. change (2 ^ 8) with 256. lia.
Qed.

(** ** The end of an engine *)

Section Ended.
Context (j0 : nat).
Abbreviation p := (params_of B (dma_control_reg b0 17) st).
Context (Hfs : first_start B bus mem env s0 b0 j0 (write_enable st) (read_enable st) p).

(** The start is on the bus before the event [a], when the writes of the program
    are. *)
Lemma start_early a :
  omap bus_write (take a T) = on_bus (program_writes B st) -> (j0 < slot * a + 2)%nat.
Proof.
  intros Ha. pose proof trace_operating as Hop. pose proof trace_drives as Hdr.
  set (n := length (arm_writes B st)).
  assert (Hall : length (host_requests B bus mem env s0 (slot * a)) = (3 + n)%nat).
  { rewrite slot_requests, Ha, program_split by done. unfold on_bus. rewrite length_fmap, length_app.
    cbn [length]. unfold n. lia. }
  destruct (write_comes B bus mem env s0 b0 _ Hop Hdr n) as (j1 & E1 & E2).
  { rewrite (test_length B st later) by done. fold n. lia. }
  destruct (bank_running B bus mem env s0 b0 st later Hlater Hop Hdr Hwf (rb_channel _ _ _ _ _ _ _ _ Hrb) (3 + j1) 0)
    as (_ & _ & Hs & _); [replace (3 + j1 - 2)%nat with (S j1) by lia; fold n; lia|].
  destruct (decide (3 + j1 <= j0)%nat) as [Hle|Hgt].
  - rewrite (fs_before _ _ _ _ _ _ _ _ _ _ Hfs) in Hs by done. done.
  - destruct (decide (j1 < slot * a)%nat); [lia|].
    pose proof (wrote_length_mono B bus mem env s0 b0 Hop (slot * a) j1 ltac:(lia)). lia.
Qed.

(** The status was polled and showed the mask, and then the timer was read. *)
Lemma read_cycles (rd : bool) i a m n v :
  0 <= i < n_mem_intf B -> Z.testbit (if rd then read_enable st else write_enable st) i = true ->
  omap bus_write (take a T) = on_bus (program_writes B st) -> (a < m)%nat -> (m <= n)%nat ->
  T !! m = Some (FRead (reg_addr c (if rd then 13 else 12)) (if rd then read_enable st else write_enable st)) ->
  T !! n = Some (FWrite (reg_addr c 10) (u32 i)) ->
  T !! S n = Some (FRead (reg_addr c (if rd then 15 else 14)) v) ->
  exists te, engine_ends B bus mem env s0 j0 rd i (lp_num_mem_ops (p i)) te /\ v = trunc 32 (Z.of_nat te - 6).
Proof.
  intros Hi Hb Ha Ham Hmn Hm Hn Hv. pose proof trace_operating as Hop. pose proof (n_mem_intf_range B).
  destruct (engine_done B bus mem env s0 b0 j0 _ _ p Hop Hfs (rb_similar _ _ _ _ _ _ _ _ Hrb)
    (rb_served _ _ _ _ _ _ _ _ Hrb _ Hop j0 Hfs) rd i Hi Hb) as (te & Hte).
  exists te. split; [done|]. rewrite (trace_read _ _ _ Hv) by (destruct rd; lia).
  apply (shown_cycles B bus mem env s0 b0 j0 _ _ p Hop Hfs rd i _ te (slot * m) (slot * S n) Hi Hte).
  - pose proof (start_early a Ha). unfold slot in *. lia.
  - unfold slot. lia.
  - rewrite <- (trace_read _ (if rd then 13 else 12) (if rd then read_enable st else write_enable st));
      [done|by destruct rd|destruct rd; lia].
  - apply (trace_selected n i Hn). lia.
Qed.
End Ended.
End Trace.

(** ** The trace of the program *)

Lemma report_reads c mhz no bursts chs cs k (rd : bool) i v :
  chs !! k = Some (rd, i) -> cs !! k = Some v ->
  exists q, report c mhz no bursts chs cs !! q = Some (FWrite (reg_addr c 10) (u32 i)) /\
    report c mhz no bursts chs cs !! S q = Some (FRead (reg_addr c (if rd then 15 else 14)) v).
Proof.
  revert cs k. induction chs as [|[rd' i'] chs IH]; intros [|v' cs] [|k]; try done.
  - intros [= -> ->] [= ->]. exists 0%nat. by destruct rd.
  - intros Hk Hv. destruct (IH cs k Hk Hv) as (q & H1 & H2). by exists (3 + q)%nat.
Qed.

Lemma low_report c mhz no bursts chs cs : Forall (low_write c) (report c mhz no bursts chs cs).
Proof.
  revert cs. induction chs as [|[rd i] chs IH]; intros [|v cs]; try by constructor.
  cbn [report]. apply Forall_app_2; [|apply IH]. constructor; [by exists 10|]. by repeat constructor.
Qed.

Lemma polls_quiet c vs : omap bus_write (polls c vs) = [].
Proof. induction vs as [|v vs IH]; [done|]. unfold polls in *. cbn. exact IH. Qed.

Section Measured.
Context (B : design) (bus : clock) (mem : Z -> clock) (mm : mem_model) (s0 : sys) (b0 : bench).
Context (queues : nat -> ctl_in) (st : settings).
Context (Hrb : ready_board B bus mem mm s0 b0 queues st) (Hwf : wf_settings st).

(** Its parts: up to the loop, the rounds of the loop, the report, the rest. *)
Context (c : FpgaController) (pre rest : list fevent) (vs : list (Z * Z)) (mhz no : Z) (bursts cs : list Z).
Abbreviation we := (write_enable st).
Abbreviation re := (read_enable st).
Abbreviation chs := (flat_map (enabled we re) (seqZ 0 32)).
Abbreviation T := ((pre ++ polls c vs) ++ round_events c we re ++ report c mhz no bursts chs cs ++ rest).
Context (Hc : m_base c mod 4096 = 0) (Hcs : length cs = length chs).
Context (Hpre : omap bus_write pre = on_bus (program_writes B st)) (Hrest : omap bus_write rest = []).
Context (Hans : forall i p v, T !! i = Some (FRead p v) ->
  v = u32 (device_read B bus mem mm s0 queues (take i T) p)).

Abbreviation env := (whole_env B bus mem mm s0 (bridge queues (history T))).
Abbreviation p := (params_of B (dma_control_reg b0 17) st).

Lemma parts_bus :
  omap bus_write T = on_bus (program_writes B st ++ reg_writes c (report c mhz no bursts chs cs)).
Proof.
  rewrite !omap_app, Hpre, polls_quiet, Hrest, !app_nil_r. unfold on_bus at 2. rewrite fmap_app.
  change (omap bus_write (round_events c we re)) with (@nil (Z * Z)).
  by rewrite (bus_writes c _ Hc (low_report _ _ _ _ _ _)).
Qed.

Lemma in_chs (rd : bool) i : (rd, i) ∈ chs -> 0 <= i < n_mem_intf B /\ Z.testbit (if rd then re else we) i = true.
Proof.
  rewrite list_elem_of_In, in_flat_map. intros (j & _ & Hj). unfold enabled in Hj.
  pose proof (rb_write _ _ _ _ _ _ _ _ Hrb) as Hw. pose proof (rb_read _ _ _ _ _ _ _ _ Hrb) as Hr.
  pose proof (wf_write _ Hwf) as Hw0. pose proof (wf_read _ Hwf) as Hr0.
  assert (Hbit : forall m, 0 <= m < 2 ^ n_mem_intf B -> Z.testbit m j = true -> 0 <= j < n_mem_intf B).
  { intros m Hm Hb. destruct (decide (0 <= j)); [|by rewrite Z.testbit_neg_r in Hb by lia].
    destruct (decide (j < n_mem_intf B)); [lia|]. rewrite <- (Z.mod_small m (2 ^ n_mem_intf B)) in Hb by done.
    rewrite Z.mod_pow2_bits_high in Hb; [done|]. pose proof (n_mem_intf_range B). lia. }
  apply in_app_or in Hj as [Hj|Hj]; [destruct (Z.testbit we j) eqn:Hb|destruct (Z.testbit re j) eqn:Hb];
    try done; destruct Hj as [[= <- <-]|[]]; (split; [|done]).
  - apply (Hbit we); [lia|done].
  - apply (Hbit re); [lia|done].
Qed.

Lemma report_measured j0 k (rd : bool) i v :
  first_start B bus mem env s0 b0 j0 we re p -> chs !! k = Some (rd, i) -> cs !! k = Some v ->
  exists te, engine_ends B bus mem env s0 j0 rd i (lp_num_mem_ops (p i)) te /\ v = trunc 32 (Z.of_nat te - 6).
Proof.
  intros Hfs Hk Hv. destruct (in_chs rd i) as [Hi Hb]; [by eapply list_elem_of_lookup_2|].
  destruct (report_reads c mhz no bursts chs cs k rd i v Hk Hv) as (q & Hq1 & Hq2).
  set (a := length (pre ++ polls c vs)).
  assert (Hat : forall d e, (round_events c we re ++ report c mhz no bursts chs cs ++ rest) !! d = Some e ->
    T !! (a + d)%nat = Some e).
  { intros d e He. rewrite lookup_app_r by (unfold a; lia). rewrite <- He. f_equal. unfold a. lia. }
  apply (read_cycles B bus mem mm s0 b0 queues st Hrb Hwf c T _ Hc (selects_report _ _ _ _ _ _) parts_bus Hans j0 Hfs
    rd i a (a + (if rd then 3 else 1)) (a + (5 + q)) v Hi Hb).
  - unfold a. rewrite take_app_length, omap_app, Hpre, polls_quiet. apply app_nil_r.
  - destruct rd; lia.
  - destruct rd; lia.
  - apply Hat. by destruct rd.
  - apply Hat. cbn [Nat.add]. apply (lookup_app_l_Some _ _ _ _ Hq1).
  - rewrite <- Nat.add_succ_r. apply Hat. apply (lookup_app_l_Some _ _ _ _ Hq2).
Qed.

Lemma trace_measured :
  exists j0, first_start B bus mem env s0 b0 j0 we re p /\
    Forall2 (fun x v => exists te,
      engine_ends B bus mem env s0 j0 x.1 x.2 (lp_num_mem_ops (p x.2)) te /\ v = trunc 32 (Z.of_nat te - 6)) chs cs.
Proof.
  destruct (trace_starts B bus mem mm s0 b0 queues st Hrb Hwf T _ (selects_report _ _ _ _ _ _) parts_bus)
    as (j0 & Hfs).
  exists j0. split; [exact Hfs|]. apply Forall2_same_length_lookup. split; [done|].
  intros k [rd i] v Hk Hv. by apply (report_measured j0 k).
Qed.
End Measured.

(** What the trace of [main] is made of. *)
Definition main_trace (B : design) (st : settings) (T : list fevent) (cs : list Z) : Prop :=
  let chs := flat_map (enabled (write_enable st) (read_enable st)) (seqZ 0 32) in
  let no := entry (numOps st) (latency_channel st) in
  exists c pre vs rest, m_base c mod 4096 = 0 /\ length cs = length chs /\
    omap bus_write pre = on_bus (program_writes B st) /\ omap bus_write rest = [] /\
    T = (pre ++ polls c vs) ++ round_events c (write_enable st) (read_enable st) ++
          report c (tk_mhz (test_of B)) no (memBurstSize st) chs cs ++ rest.

Lemma latency_quiet c vs us : omap bus_write (lat_reads c vs ++ (FPrintLatency <$> us)) = [].
Proof.
  rewrite omap_app. unfold lat_reads.
  replace (omap bus_write (FRead (reg_addr c latTimerAddr) <$> vs)) with (@nil (Z * Z)) by by induction vs.
  by induction us.
Qed.

Lemma main_parts `{WorkingOs} B o st n fuel :
  runnable (test_of B) o st n -> (n <= fuel)%nat -> (1 <= fuel)%nat ->
  wp (main (test_of B) fuel o) (fun _ s => f_maps (world s) = [] /\ exists cs,
      main_trace B st (f_trace (world s)) cs /\
      printed (f_trace (world s)) = zip ((fun x => (x.1, x.2,
        u64 (entry (memBurstSize st) x.2 * entry (numOps st) (latency_channel st)),
        tk_mhz (test_of B))) <$> flat_map (enabled (write_enable st) (read_enable st)) (seqZ 0 32)) cs)
    (fresh (FState [] [])).
Proof.
  intros Hr Hn H1. pose proof (runnable_wf _ _ _ _ Hr) as Hwf. eapply main_spec; [done..|].
  intros h d b base m y a rc1 rc2 e cs vs c Hm Hw Hcs. settle. split; [done|]. exists cs. split.
  - destruct Hw as (ws & -> & _). unfold main_trace. cbv zeta.
    exists c, (init_events h d b base m y a rc1 rc2 ++ start_events (test_of B) c st), ws.
    exists ((if latency_test_enable st =? 0 then [] else lat_reads c vs ++ (FPrintLatency <$> take 100 vs)) ++
      FUnlock :: clear_events (Fpga Dangling Dangling 0 d b h base (FState [] [])) c).
    split; [done|]. split; [done|]. split; [|split].
    + rewrite omap_app, (bus_writes c (start_events _ _ _)), start_writes;
        [done|apply Hwf|done|apply low_start].
    + rewrite omap_app. destruct (latency_test_enable st =? 0); [done|]. by rewrite latency_quiet.
    + unfold test_events, start_events, data_events. by rewrite <- !app_assoc.
  - rewrite !printed_app. unfold test_events.
    rewrite !printed_app, printed_setup, printed_locked, printed_data by done.
    by rewrite app_nil_r.
Qed.

(** ** Properties *)

Section Properties.
Context (B : design) (bus : clock) (mem : Z -> clock) (mm : mem_model) (s0 : sys) (b0 : bench).
Context (queues : nat -> ctl_in) (os : FpgaEnv).

Abbreviation device := (machine B bus mem mm s0 queues os).
(** The inputs of the top level when the events of [T] are on the bus. *)
Abbreviation inputs T := (whole_env B bus mem mm s0 (bridge queues (history T))).

(** The command line is accepted, and the board is ready for that test. *)
Lemma board_runnable o st :
  configure (test_of B) o (tk_defaults (test_of B)) = (Done tt, st) ->
  ready_board B bus mem mm s0 b0 queues st ->
  latency_test_enable st = 0 \/ 100 <= entry (numOps st) (latency_channel st) ->
  wf_settings st /\ exists n, runnable (H := device) (test_of B) o st n.
Proof.
  intros Hconf Hrb Hs.
  assert (Hd : typed_settings (tk_defaults (test_of B))) by (destruct B; apply defaults_typed).
  pose proof (preserves_configure (test_of B) o _ Hd) as Ht. rewrite Hconf in Ht. cbn [snd] in Ht.
  pose proof (n_mem_intf_range B) as Hn. pose proof (rb_channel _ _ _ _ _ _ _ _ Hrb).
  pose proof (wf_channel_word _ Ht).
  assert (Hwf : wf_settings st) by (split; [done|lia]). split; [done|].
  destruct (machine_finishes B bus mem mm s0 b0 queues os st Hrb Hwf) as (n & Hf). exists n.
  split; [done|done|rewrite test_channels; lia|done|apply Hwf|exact Hf|done].
Qed.

(** C5: the test program on the benchmark hardware.  [main] of either
    program, on its design, with a bridge that makes its register accesses one
    after the other, returns and has undone all its mappings; and it prints for
    each enabled direction of each channel one line, with the cycles that this
    engine took from the start pulse until it was done, modulo 2 ^ 32: then the
    memory had accepted all requests of the engine.  This holds for every command line
    that is accepted, for all clocks of which a memory's is not slower than the bus,
    and on the DDR the two memories' are similar ([similar_memories]), and for all
    memories that answer, in any time ([ready_board]). *)
Theorem printed_cycles_measured o st :
  let p := params_of B (dma_control_reg b0 17) st in
  let chs := flat_map (enabled (write_enable st) (read_enable st)) (seqZ 0 32) in
  WorkingOs (H := os) ->
  configure (test_of B) o (tk_defaults (test_of B)) = (Done tt, st) ->
  ready_board B bus mem mm s0 b0 queues st ->
  latency_test_enable st = 0 \/ 100 <= entry (numOps st) (latency_channel st) ->
  exists n, forall fuel, (n <= fuel)%nat -> (1 <= fuel)%nat ->
  wp (main (H := device) (test_of B) fuel o) (fun _ s => let T := f_trace (world s) in
    f_maps (world s) = [] /\
    exists j0, first_start B bus mem (inputs T) s0 b0 j0 (write_enable st) (read_enable st) p /\
    exists cs, printed T = zip ((fun x => (x.1, x.2,
        u64 (entry (memBurstSize st) x.2 * entry (numOps st) (latency_channel st)),
        tk_mhz (test_of B))) <$> chs) cs /\
      Forall2 (fun x v => exists te,
        engine_ends B bus mem (inputs T) s0 j0 x.1 x.2 (lp_num_mem_ops (p x.2)) te /\
        v = trunc 32 (Z.of_nat te - 6)) chs cs) (fresh (FState [] [])).
Proof.
  cbv zeta. intros Hos Hconf Hrb Hs. destruct (board_runnable o st Hconf Hrb Hs) as [Hwf (n & Hr)].
  exists n. intros fuel Hn H1. pose proof (machine_works B bus mem mm s0 queues os Hos) as Hwork.
  eapply wp_mono; [apply (wp_keeps (fun s => answered (H := device) (world s)))|].
  - apply answered_main.
  - intros i p v Hi. by destruct i.
  - exact (main_parts (H := device) (H0 := Hwork) B o st n fuel Hr Hn H1).
  - intros _ s [(Hmaps & cs & Ht & Hp) Hans]. split; [done|].
    destruct Ht as (c & pre & vs & rest & Hc & Hcs & Hpre & Hrest & ET).
    destruct (trace_measured B bus mem mm s0 b0 queues st Hrb Hwf c pre rest vs (tk_mhz (test_of B))
      (entry (numOps st) (latency_channel st)) (memBurstSize st) cs Hc Hcs Hpre Hrest) as (j0 & Hfs & Hends).
    + rewrite <- ET. exact Hans.
    + rewrite <- ET in Hfs, Hends. exists j0. split; [exact Hfs|]. by exists cs.
Qed.
End Properties.

(** ** Example *)

Definition ddr_options : options := Options (Some 2) (Some 1) None None None None None.

Lemma ddr_ready :
  ready_board u280_ddr slow fast (answering fast) (boot u280_ddr) (boot_bench u280_ddr) (fun _ => silence)
    (driver_settings u280_ddr).
Proof.
  split; [apply boot_board|apply fast_similar|done|done|done|].
  intros evs env p Hop j0 Hfs. eapply memory_serves; [exact Hop|exact Hfs|apply fast_similar|].
  exact (driver_served u280_ddr).
Qed.

Lemma ddr_channels :
  flat_map (enabled (write_enable (driver_settings u280_ddr)) (read_enable (driver_settings u280_ddr)))
    (seqZ 0 32) = [(false, 0); (true, 1)].
Proof. by vm_compute. Qed.

Lemma ddr_bytes i :
  0 <= i < 32 -> u64 (entry (memBurstSize (driver_settings u280_ddr)) i *
    entry (numOps (driver_settings u280_ddr)) (latency_channel (driver_settings u280_ddr))) = 6400000.
Proof.
  intros Hi. unfold entry. cbn [memBurstSize driver_settings set_latency set_write_enable set_read_enable
    test_of tk_defaults ddr_test].
  rewrite lookup_total_replicate_2 by lia. by vm_compute.
Qed.

(** The write engine of channel 0 and the read engine of channel 1 of the DDR. *)
Lemma printed_cycles_measured_witness :
  exists n, forall fuel, (n <= fuel)%nat -> (1 <= fuel)%nat ->
  wp (main (H := machine u280_ddr slow fast (answering fast) (boot u280_ddr) (fun _ => silence) good_env)
        ddr_test fuel ddr_options)
    (fun _ s => exists te te', printed (f_trace (world s)) =
       [(false, 0, 6400000, 300, trunc 32 (Z.of_nat te - 6));
        (true, 1, 6400000, 300, trunc 32 (Z.of_nat te' - 6))]) (fresh (FState [] [])).
Proof.
  destruct (printed_cycles_measured u280_ddr slow fast (answering fast) (boot u280_ddr) (boot_bench u280_ddr)
    (fun _ => silence) good_env ddr_options (driver_settings u280_ddr) good_works eq_refl ddr_ready
    (or_introl eq_refl)) as (n & Hn).
  exists n. intros fuel H1 H2. eapply wp_mono; [exact (Hn fuel H1 H2)|].
  cbv beta zeta. rewrite ddr_channels. intros _ s (_ & j0 & _ & cs & -> & Hcs).
  cbn [fmap list_fmap fst snd]. rewrite !ddr_bytes by lia.
  apply Forall2_cons_inv_l in Hcs as (v & cs1 & (te & _ & ->) & Hcs & ->).
  apply Forall2_cons_inv_l in Hcs as (v & cs2 & (te' & _ & ->) & Hcs & ->).
  apply Forall2_nil_inv_l in Hcs as ->. exists te, te'. reflexivity.
Defined.
